(* ===== verification/_CoqProject ===== *)
-Q . S2P
Prelude.v
PyStr.v
PyRe.v
PyNum.v
PyDict.v
PyCrypto.v
PyTime.v
PyJson.v
Database.v
Auth.v
Access.v
UserRoutes.v
Sessions.v
IniParser.v
SettingsMeta.v
Pipeline.v
AtomicIO.v
Posix.v
Staging.v
Deployer.v
Supervisor.v
Daemon.v
SupervisorClient.v
Lifecycle.v
Metrics.v
Updater.v
Changelog.v
Tracker.v
TextFile.v
PlayerLedger.v
NetDiag.v
Tls.v
Acme.v
LogScraper.v
GameApi.v
Feedback.v
MetricsHistory.v
Settings.v
SystemRoutes.v
Telemetry.v
Community.v
LogMirror.v
Runtime.v
Ping.v
Pages.v
Routes.v
Audits.v
Objects.v
Certs.v
LogFiles.v
SelfSigned.v
