(* ===== verification/Prelude.v ===== *)
(** * The Palworld server management suite

    A model of the web application, the privileged supervisor and the background
    services under src/app, with the theorems that say what they do.  Every
    definition follows a function, method or table of the source and keeps its
    name where there is no clash; this header says which file holds what, what
    the theorems show, and what is left out.

    ** The program

    A web application (FastAPI) lets operators control a game server.  Requests
    are authenticated against a SQLite store of accounts; handlers read and write
    the game's INI file, call the game server's REST interface, send messages to
    Discord, and ask a root daemon, the supervisor, over a Unix socket to restart
    services and to deploy updates.  Background tasks sample telemetry into a
    second database, stream it over WebSockets, watch for updates and renew the
    certificate.

    ** The files

    The base.  Prelude (this file): exceptions, the state-and-exception monad
    [PyM], transition systems ([star]), tables, shared tactics and lemmas.  PyStr,
    PyRe, PyNum, PyDict, PyCrypto, PyTime, PyJson: the part of Python and its
    standard library that the sources use: strings, regular expressions, [int]
    and [float] on texts, dicts, SHA-256 with HMAC and PBKDF2, UTC times, JSON.

    Accounts.  Database (database/db.py, models.py: the tables and every statement
    on them), Auth (database/auth.py: passwords, session tokens, permissions,
    first-run credentials), Access (the dependencies of routers/deps.py),
    UserRoutes (routers/auth.py; [app_step] runs any sequence of requests and
    restarts), Sessions (what the token of a login is worth later).

    Configuration.  IniParser and SettingsMeta (config_manager/parser.py), Pipeline
    (config_manager/pipeline.py), Settings and Certs (core/config.py: loading, and
    the inspection of a certificate).

    Files and releases.  AtomicIO (core/atomic_io.py, files of one directory),
    Posix (a tree of paths), Staging (its AtomicStagingContext), Deployer
    (engine/deployer.py), TextFile (plain saving through a temporary file).

    The supervisor.  Supervisor (supervisor/protocol.py, handlers.py, auth.py,
    server.py), SupervisorClient (client.py), Daemon (start and end of the process:
    server.py and main.py).

    The game server.  Lifecycle (the reboot sequence of engine/service.py with its
    endpoints), GameApi (the REST calls of engine/service.py,
    engine/notifications.py, routers/players.py), PlayerLedger and Tracker
    (monitoring/tracker.py), Community (the tracker as a whole, over these two and the
    scraper), LogScraper and LogFiles (monitoring/log_scraper.py), Objects (the
    construction and the attributes of the tracker and the engine).

    Telemetry.  Metrics and MetricsHistory (database/metrics_db.py and the buffer of
    routers/deps.py), Telemetry (the loops of main.py and the readings of
    tracker.py), NetDiag and Ping (monitoring/net_diagnostics.py).

    Updates and certificates.  Updater (engine/updater.py), Changelog
    (engine/changelog.py), Tls and SelfSigned (engine/tls_manager.py,
    tls_scheduler.py, duckdns.py), Acme (engine/acme_client.py).

    The whole.  Feedback (routers/feedback.py), SystemRoutes (the settings objects
    shared by routers/system.py and the scheduler), LogMirror (core/logger.py),
    Runtime (server.py, start and end of main.py), Pages (routers/ui.py,
    telemetry.py, settings.py), Routes (every endpoint of the seven routers with the
    dependency that it declares, over the states of all components side by side,
    and apart from it the table of what each is meant to ask for).  Audits: the repository's own
    checks (scripts/).

    ** How code becomes definitions

    A handler is a function of type [PyM S A]: from a state to a result, which is a
    value or an exception, and a state.  Effects before an exception stay.
    [py_try] and [py_finally] are the source's [try] blocks, and a handler for a
    class is a test on the exception.  What the program cannot decide is an
    argument or a class of parameters: answers of the network, outcomes of system
    calls (an oracle that the calls consume), the clock, randomness.  Coroutines
    and threads are step relations or sequences of events, or a run with a schedule
    of what happens at each suspension (Lifecycle).  Crashes are covered by recording every state of
    the disk that a call exposes.

    ** What the theorems show

    - Accounts: at least one active administrator remains over every sequence of
      requests and restarts; a user is only recognised by a token, the
      administrator's credentials or a loopback address; logins are audited;
      acknowledged first-run credentials never come back; a session has the rights
      that its account has when it is used; every endpoint asks for what the table
      says; what a stranger can reach.
    - Files: atomic writes, release staging and the exchange of directories leave,
      whatever call fails and wherever the process dies, the old or the new
      content; a staged release is the whole archive as a fault-free disk extracts
      it.
    - The supervisor spawns only commands of its policy; a call through client,
      socket and server does what the handler does, in the time that the client
      waits; answers carry their request's id; who gets through to the socket during
      its start, and what a signal does to the daemon.
    - The reboot sequence runs its phases in order, and a cancellation that is
      accepted in time leaves the game server alone.
    - Settings: protected keys survive a save; parsing inverts serialising on
      well-formed dicts; the text that smuggles a protected key through.
    - Telemetry: samples are conserved over every interleaving of samples and
      flushes; the buckets of a history partition the samples and hold their exact
      aggregates; the end of the application stores what waits; log records that
      the mirror accepts are posted in their order.
    - Updates: accepted deployments exclude each other; progress stays within its
      schema; the changelog's line loop returns the releases of the text.
    - Certificates: the ACME protocol runs in its order, at the addresses that the
      server told, ends, and clears its DNS record; each file of the bundle is
      installed whole; renewal is attempted in time; the
      self-signed certificate of a first start keeps ACME from running.
    - Round trips, refinements: INI files, A2S packets, times of certificates,
      issue links; the feedback endpoints as a board of tickets that the events
      determine; the tracker's
      attributes as variables.
    - The repository's checks: when each of the three audits passes, and what the
      secret scanner never reports.

    Places where the code does something else than it says are lemmas beside the
    component, on concrete values.

    ** Bounds and fuel

    [loads] of PyJson takes the length of the text as fuel and consumes a character
    per step; SHA-256 takes the number of its input words.  The
    regular expressions need none: repetition is of a single class.  The limit of
    Deployer's path walks is the kernel's limit on symbolic links.  The ACME flow
    and the hashing of a file have theorems that bound their steps.  Integers are
    unbounded as in Python; where a width matters it is written out: 32-bit words
    of SHA-256, the 64-bit parameters of SQLite, the fields of A2S packets, port
    numbers and file modes.

    ** What is not modelled

    - Texts are their UTF-8 bytes; case, digits and white space are ASCII, so the
      Unicode cases of [lower], [strip] and of patterns are left out, as are lone
      surrogates.
    - Floats are exact decimals or integers in the last place that the code rounds
      to; rounding errors of binary floats are not followed.  SQLite's aggregates
      are computed exactly.
    - The conversions of the validation library are a parameter ([Pydantic]) or, for
      request models, the conditions of their fields; how it merges the sources of
      settings is not modelled.
    - A call of a database manager is atomic: its lock serialises the threads.
    - Archives, certificates, keys and signatures are decoded by libraries, which
      are parameters; so are psutil, the routing of the web framework, templates
      and the accepting of WebSockets.
    - Hard links, quotas and permissions of files appear only as failing calls.
    - Host names that [gethostbyname] refuses with UnicodeError; the recursion
      limit of [json]; cancellation inside the ACME flow; the names of time zones
      other than UTC and GMT in [strptime].
    - Files of settings hold UTF-8 ([parse_ini_file] would raise UnicodeDecodeError),
      [Path.exists] does not fail, names of files that are backed up hold no
      wildcard of [glob], ids of accounts fit into 64 bits (SQLite would raise
      OverflowError), and the notices of the reboot sequence do not raise (in
      GameApi they can).
    - The pages that the web framework adds by itself (its documentation, the
      static files).
    - The parsing of command lines, and the notice that is sent to Discord when
      the application has started. *)

From Stdlib Require Import ZArith Lia Ascii Bool.
From stdpp Require Import base tactics list strings gmap sets sorting.

(** * Notation scope of the development *)

Declare Scope py_scope.
Delimit Scope py_scope with py.

(** * Python exceptions and the state-and-exception monad

    A Python call either returns or raises; an exception does not undo the
    effects that happened before it, so the state is threaded through both
    outcomes. *)

Inductive exc : Type :=
  | HTTPException (status : Z) (detail : string)
  | IntegrityError (msg : string)
  | OperationalError
  | DatabaseError
  | RuntimeError (msg : string)
  | ValueError (msg : string)
  | TypeError (msg : string)
  | AttributeError (msg : string)
  | KeyError (key : string)
  | PermissionError
  | FileNotFoundError
  | OSError
  | StructError
  | OverflowError
  | IndexError
  | UnicodeDecodeError
  | SecurityError (msg : string)
  | TarError (cls : string)
  | HTTPError (cls : string)
  | SubprocessError.

#[export] Instance exc_eq_dec : EqDecision exc.
Proof. solve_decision. Defined.

Inductive result (A : Type) : Type :=
  | Ret (a : A)
  | Raise (e : exc).
Arguments Ret {A} a.
Arguments Raise {A} e.

#[export] Instance result_eq_dec A `{EqDecision A} : EqDecision (result A).
Proof. solve_decision. Defined.

Definition PyM (S A : Type) : Type := S → result A * S.

Definition py_ret {S A} (a : A) : PyM S A := λ s, (Ret a, s).
Definition py_raise {S A} (e : exc) : PyM S A := λ s, (Raise e, s).
Definition py_bind {S A B} (m : PyM S A) (k : A → PyM S B) : PyM S B :=
  λ s, match m s with
       | (Ret a, s') => k a s'
       | (Raise e, s') => (Raise e, s')
       end.
Definition py_get {S} : PyM S S := λ s, (Ret s, s).
Definition py_put {S} (s' : S) : PyM S unit := λ _, (Ret tt, s').
Definition py_modify {S} (f : S → S) : PyM S unit := λ s, (Ret tt, f s).

Notation "x <- m ;; k" := (py_bind m (λ x, k))
  (at level 100, m at next level, right associativity) : py_scope.
Notation "m ;;; k" := (py_bind m (λ _, k))
  (at level 100, right associativity) : py_scope.

(** [with try ... except]: the handler runs on the state the exception left. *)
Definition py_try {S A} (m : PyM S A) (h : exc → PyM S A) : PyM S A :=
  λ s, match m s with
       | (Ret a, s') => (Ret a, s')
       | (Raise e, s') => h e s'
       end.

(** [try: ... finally: ...]: an exception of the clean-up replaces the outcome. *)
Definition py_finally {S A} (m : PyM S A) (f : PyM S unit) : PyM S A :=
  λ s, let '(r, s1) := m s in
       match f s1 with
       | (Ret _, s2) => (r, s2)
       | (Raise e, s2) => (Raise e, s2)
       end.

(** A call without effects. *)
Definition lift {S A} (r : result A) : PyM S A :=
  match r with Ret a => py_ret a | Raise e => py_raise e end.

(** [if b: raise e] *)
Definition raise_if {S} (b : bool) (e : exc) : PyM S unit :=
  if b then py_raise e else py_ret tt.

(** [except OSError]: the class and its subclasses. *)
Definition is_oserror (e : exc) : bool :=
  match e with OSError | FileNotFoundError | PermissionError => true | _ => false end.

(** A call keeps an invariant of the state, whether it returns or raises. *)
Definition preserves {S A} (I : S → Prop) (m : PyM S A) : Prop :=
  ∀ s, I s → I (m s).2.

(** * Transition systems: finite sequences of steps *)

Inductive star {S : Type} (step : S → S → Prop) : S → S → Prop :=
  | star_refl s : star step s s
  | star_step s1 s2 s3 : star step s1 s2 → step s2 s3 → star step s1 s3.

(** * Tables with an INTEGER PRIMARY KEY AUTOINCREMENT

    Rows are kept in insertion order, which is the order of their ids. *)

Section table.
Context {R : Type} (key : R → Z).

Definition t_lookup (k : Z) (t : list R) : option R :=
  List.find (λ r, key r =? k)%Z t.
Definition t_update (k : Z) (f : R → R) (t : list R) : list R :=
  List.map (λ r, if (key r =? k)%Z then f r else r) t.
Definition t_delete (k : Z) (t : list R) : list R :=
  List.filter (λ r, negb (key r =? k)%Z) t.
Definition t_wf (seq : Z) (t : list R) : Prop :=
  Forall (λ r, 0 < key r ≤ seq)%Z t ∧ StronglySorted Z.lt (List.map key t).
End table.

(** SQLite's [LIMIT ? OFFSET ?]: a negative limit means no limit, a negative
    offset means none. *)
Definition sql_limit_offset {R} (limit offset : Z) (t : list R) : list R :=
  let rest := drop (Z.to_nat offset) t in
  if (limit <? 0)%Z then rest else take (Z.to_nat limit) rest.

(** [l[i]] of a Python list: a negative index counts from the end. *)
Definition py_index {A} (l : list A) (i : Z) : result A :=
  match (if (i <? 0)%Z then
           if (i + Z.of_nat (length l) <? 0)%Z then None
           else l !! Z.to_nat (i + Z.of_nat (length l))
         else l !! Z.to_nat i) with
  | Some a => Ret a
  | None => Raise IndexError
  end.

(** * Tactics *)

(** Unfold the monad and its combinators in the goal. *)
Ltac py_unfold :=
  unfold raise_if, py_try, py_bind, py_ret, py_raise, py_get, py_put, py_modify in *.

(** Case split on the innermost [match] of the goal, then clean up. *)
Ltac py_case :=
  first [case_match | case_decide]; simplify_eq/=.

(** Linear arithmetic with division and remainder by constants. *)
Ltac zdiv := Z.div_mod_to_equations; lia.

(** * Generic lemmas *)

Create HintDb py discriminated.

Lemma py_bind_ret {S A B} (a : A) (k : A → PyM S B) : py_bind (py_ret a) k = k a.
Proof. done. Qed.

Lemma py_bind_inv {S A B} (m : PyM S A) (k : A → PyM S B) s b s' :
  py_bind m k s = (Ret b, s') → ∃ a s1, m s = (Ret a, s1) ∧ k a s1 = (Ret b, s').
Proof. unfold py_bind. destruct (m s) as [[a|e] s1]; naive_solver. Qed.

Section preserves.
Context {S : Type} (I : S → Prop).

Lemma preserves_ret {A} (a : A) : preserves I (py_ret a).
Proof. by intros s. Qed.
Lemma preserves_raise {A} e : preserves I (py_raise (A:=A) e).
Proof. by intros s. Qed.
Lemma preserves_get : preserves I py_get.
Proof. by intros s. Qed.
Lemma preserves_bind {A B} (m : PyM S A) (k : A → PyM S B) :
  preserves I m → (∀ a, preserves I (k a)) → preserves I (py_bind m k).
Proof.
  intros Hm Hk s Hs. specialize (Hm s Hs). unfold py_bind.
  destruct (m s) as [[a|e] s']; simpl in *; [by apply Hk|done].
Qed.
Lemma preserves_get_bind {B} (k : S → PyM S B) :
  (∀ s, I s → I (k s s).2) → preserves I (py_bind py_get k).
Proof. intros Hk s Hs. by apply Hk. Qed.
Lemma preserves_modify (f : S → S) : (∀ s, I s → I (f s)) → preserves I (py_modify f).
Proof. intros Hf s Hs. by apply Hf. Qed.
Lemma preserves_lift {A} (r : result A) : preserves I (lift r).
Proof. intros s Hs. by destruct r. Qed.
Lemma preserves_try {A} (m : PyM S A) h :
  preserves I m → (∀ e, preserves I (h e)) → preserves I (py_try m h).
Proof.
  intros Hm Hh s Hs. specialize (Hm s Hs). unfold py_try.
  destruct (m s) as [[a|e] s']; [exact Hm|by apply Hh].
Qed.
End preserves.

(** ** Postconditions

    [spec P m Q]: from a state that satisfies [P], [m] ends in a state that
    satisfies [Q] of its outcome. *)

Definition spec {S A} (P : S → Prop) (m : PyM S A) (Q : result A → S → Prop) : Prop :=
  ∀ w, P w → Q (m w).1 (m w).2.

Section spec.
Context {S : Type}.

Lemma spec_bind {A B} P (m : PyM S A) (k : A → PyM S B) Q R :
  spec P m (λ r w, match r with Ret a => Q a w | Raise e => R (Raise e) w end) →
  (∀ a, spec (Q a) (k a) R) → spec P (py_bind m k) R.
Proof.
  intros Hm Hk w Hw. specialize (Hm w Hw). unfold py_bind.
  destruct (m w) as [[a|e] w']; [by apply Hk|exact Hm].
Qed.

Lemma spec_try {A} P (m : PyM S A) h Q R :
  spec P m (λ r w, match r with Ret a => R (Ret a) w | Raise e => Q e w end) →
  (∀ e, spec (Q e) (h e) R) → spec P (py_try m h) R.
Proof.
  intros Hm Hh w Hw. specialize (Hm w Hw). unfold py_try.
  destruct (m w) as [[a|e] w']; [exact Hm|by apply Hh].
Qed.

Lemma spec_preserves {A} I (m : PyM S A) : preserves I m → spec I m (λ _ w, I w).
Proof. intros H w Hw. by apply H. Qed.

Lemma spec_conseq {A} P P' (m : PyM S A) (Q Q' : result A → S → Prop) :
  (∀ w, P' w → P w) → (∀ r w, Q r w → Q' r w) → spec P m Q → spec P' m Q'.
Proof. intros HP HQ H w Hw. by apply HQ, H, HP. Qed.

Lemma spec_post {A} P (m : PyM S A) (Q Q' : result A → S → Prop) :
  spec P m Q → (∀ r w, Q r w → Q' r w) → spec P m Q'.
Proof. intros H HQ w Hw. by apply HQ, H. Qed.

Lemma spec_and {A} P1 P2 (m : PyM S A) (Q1 Q2 : result A → S → Prop) :
  spec P1 m Q1 → spec P2 m Q2 → spec (λ w, P1 w ∧ P2 w) m (λ r w, Q1 r w ∧ Q2 r w).
Proof. intros H1 H2 w [Hw1 Hw2]. split; auto. Qed.

(** A fact that the precondition carries. *)
Lemma spec_pure {A} (φ : Prop) (P : S → Prop) (m : PyM S A) R :
  (φ → spec P m R) → spec (λ w, φ ∧ P w) m R.
Proof. intros H w [Hφ Hw]. by apply H. Qed.

Lemma spec_ret {A} (P : S → Prop) (a : A) (Q : result A → S → Prop) :
  (∀ w, P w → Q (Ret a) w) → spec P (py_ret a) Q.
Proof. intros H w Hw. by apply H. Qed.

Lemma spec_raise {A} (P : S → Prop) e (Q : result A → S → Prop) :
  (∀ w, P w → Q (Raise e) w) → spec P (py_raise e) Q.
Proof. intros H w Hw. by apply H. Qed.

(** A state that is read: the continuation starts from it. *)
Lemma spec_get {A} P (k : S → PyM S A) R :
  (∀ s, P s → spec (λ w, w = s) (k s) R) → spec P (py_bind py_get k) R.
Proof. intros H w Hw. by apply (H w Hw w). Qed.

Lemma spec_modify (P : S → Prop) f (Q : result unit → S → Prop) :
  (∀ w, P w → Q (Ret tt) (f w)) → spec P (py_modify f) Q.
Proof. intros H w Hw. by apply H. Qed.
End spec.

#[export] Hint Resolve preserves_ret preserves_raise preserves_get preserves_bind : py.

(** Walk through the binds and branches of a handler. *)
Ltac preserve :=
  repeat first
    [ progress (intros; simpl)
    | solve [auto with py]
    | apply preserves_bind
    | case_match | case_decide ].

Lemma star_trans {S} (step : S → S → Prop) s1 s2 s3 :
  star step s1 s2 → star step s2 s3 → star step s1 s3.
Proof. intros H1 H2. revert H1. induction H2; eauto using @star. Qed.

Lemma star_one {S} (step : S → S → Prop) s1 s2 : step s1 s2 → star step s1 s2.
Proof. eauto using @star. Qed.

(** An invariant of every step is an invariant of every sequence of steps. *)
Lemma star_invariant {S} (step : S → S → Prop) (I : S → Prop) s1 s2 :
  (∀ a b, I a → step a b → I b) → star step s1 s2 → I s1 → I s2.
Proof. intros Hstep. induction 1; eauto. Qed.

Section table_lemmas.
Context {R : Type} (key : R → Z).
Implicit Types (t : list R) (r : R) (k : Z).

Lemma t_lookup_Some k t r : t_lookup key k t = Some r → r ∈ t ∧ key r = k.
Proof.
  intros [H1 H2]%List.find_some. split; [by apply list_elem_of_In|lia].
Qed.

Lemma t_lookup_None k t : t_lookup key k t = None → ∀ r, r ∈ t → key r ≠ k.
Proof.
  intros H r Hr%list_elem_of_In.
  pose proof (List.find_none _ _ H _ Hr). simpl in *. lia.
Qed.

Lemma t_lookup_cons k r t :
  t_lookup key k (r :: t) = if (key r =? k)%Z then Some r else t_lookup key k t.
Proof. done. Qed.

Lemma t_lookup_app k t1 t2 :
  t_lookup key k (t1 ++ t2) =
  match t_lookup key k t1 with Some r => Some r | None => t_lookup key k t2 end.
Proof.
  induction t1 as [|r t1 IH]; [done|].
  rewrite <-app_comm_cons, !t_lookup_cons, IH. by destruct (key r =? k)%Z.
Qed.

Lemma t_lookup_update k k' f t :
  (∀ r, key (f r) = key r) →
  t_lookup key k (t_update key k' f t) =
  if decide (k = k') then f <$> t_lookup key k t else t_lookup key k t.
Proof.
  intros Hf. induction t as [|r t IH]; [by case_decide|].
  unfold t_update in *. cbn [List.map]. rewrite !t_lookup_cons, IH.
  destruct (Z.eqb_spec (key r) k') as [Hk'|Hk'].
  - rewrite Hf. destruct (Z.eqb_spec (key r) k); case_decide; simplify_eq/=; try done; try lia.
  - destruct (Z.eqb_spec (key r) k); case_decide; simplify_eq/=; try done; try lia.
Qed.

Lemma t_lookup_delete k k' t :
  t_lookup key k (t_delete key k' t) =
  if decide (k = k') then None else t_lookup key k t.
Proof.
  induction t as [|r t IH]; [by case_decide|].
  unfold t_delete in *. cbn [List.filter].
  destruct (Z.eqb_spec (key r) k') as [Hk'|Hk']; cbn [negb];
    rewrite ?t_lookup_cons, IH; destruct (Z.eqb_spec (key r) k); case_decide;
    naive_solver lia.
Qed.

Lemma elem_of_t_delete k t r : r ∈ t_delete key k t ↔ r ∈ t ∧ key r ≠ k.
Proof.
  unfold t_delete. rewrite !list_elem_of_In, List.filter_In.
  destruct (Z.eqb_spec (key r) k); intuition done.
Qed.

Lemma elem_of_t_update k f t r :
  r ∈ t_update key k f t →
  (r ∈ t ∧ key r ≠ k) ∨ ∃ r0, r0 ∈ t ∧ key r0 = k ∧ r = f r0.
Proof.
  unfold t_update. rewrite list_elem_of_In, List.in_map_iff.
  intros (r0 & <- & Hr0). apply list_elem_of_In in Hr0.
  destruct (Z.eqb_spec (key r0) k); naive_solver.
Qed.

Lemma t_wf_nil seq : t_wf key seq [].
Proof. split; constructor. Qed.

Lemma t_wf_lookup seq t r :
  t_wf key seq t → r ∈ t → t_lookup key (key r) t = Some r.
Proof.
  intros [_ Hs]. revert Hs. induction t as [|r0 t IH]; intros Hs Hr; [by apply elem_of_nil in Hr|].
  cbn in Hs. apply StronglySorted_inv in Hs as [Hs Hall].
  rewrite t_lookup_cons. apply elem_of_cons in Hr as [->|Hr]; [by rewrite Z.eqb_refl|].
  destruct (Z.eqb_spec (key r0) (key r)) as [Heq|Hne]; [|by apply IH].
  rewrite List.Forall_map in Hall. rewrite Forall_forall in Hall.
  specialize (Hall _ Hr). simpl in Hall. lia.
Qed.

Lemma t_wf_fresh seq t : t_wf key seq t → t_lookup key (seq + 1) t = None.
Proof.
  intros [Hall _]. destruct (t_lookup key (seq + 1) t) as [r|] eqn:E; [|done].
  apply t_lookup_Some in E as [Hr Hk]. rewrite Forall_forall in Hall.
  specialize (Hall _ Hr). simpl in Hall. lia.
Qed.

Lemma t_wf_insert seq t r :
  (0 ≤ seq)%Z → key r = (seq + 1)%Z → t_wf key seq t → t_wf key (seq + 1) (t ++ [r]).
Proof.
  intros Hseq Hk [Hall Hs]. split.
  - apply Forall_app; split; [|repeat constructor; simpl; lia].
    eapply Forall_impl; [exact Hall|]. simpl; lia.
  - rewrite List.map_app. cbn. revert Hs. induction t as [|r0 t IH]; intros Hs; cbn in *.
    { repeat constructor. }
    apply Forall_cons in Hall as [Hr0 Hall].
    apply StronglySorted_inv in Hs as [Hs Hf]. constructor; [by apply IH|].
    apply Forall_app; split; [done|]. repeat constructor. lia.
Qed.

Lemma t_wf_update seq t k f :
  (∀ r, key (f r) = key r) → t_wf key seq t → t_wf key seq (t_update key k f t).
Proof.
  intros Hf [Hall Hs]. unfold t_update. split.
  - apply Forall_forall. intros r Hr. apply elem_of_t_update in Hr.
    rewrite Forall_forall in Hall.
    destruct Hr as [[Hr _]|(r0 & Hr & _ & ->)]; [by apply Hall|].
    rewrite Hf. by apply Hall.
  - rewrite List.map_map. erewrite List.map_ext; [exact Hs|].
    intros r. simpl. by destruct (key r =? k)%Z; rewrite ?Hf.
Qed.

Lemma t_wf_delete seq t k : t_wf key seq t → t_wf key seq (t_delete key k t).
Proof.
  intros [Hall Hs]. split.
  - apply Forall_forall. intros r [Hr _]%elem_of_t_delete.
    rewrite Forall_forall in Hall. by apply Hall.
  - clear Hall. induction t as [|r t IH]; [done|].
    cbn [List.map] in Hs. apply StronglySorted_inv in Hs as [Hs Hf].
    unfold t_delete in *. cbn [List.filter].
    destruct (Z.eqb_spec (key r) k); cbn [negb List.map]; [by apply IH|].
    constructor; [by apply IH|]. rewrite List.Forall_map; apply Forall_forall.
    intros r' Hr'. apply elem_of_t_delete in Hr' as [Hr' _].
    rewrite List.Forall_map in Hf. rewrite Forall_forall in Hf. by apply (Hf _ Hr').
Qed.
End table_lemmas.

#[export] Hint Resolve t_wf_nil t_wf_insert t_wf_update t_wf_delete : py.

Lemma length_sql_limit_offset {R} (limit offset : Z) (t : list R) :
  (0 ≤ limit)%Z → length (sql_limit_offset limit offset t) ≤ Z.to_nat limit.
Proof.
  intros. unfold sql_limit_offset. destruct (Z.ltb_spec limit 0); [lia|].
  rewrite length_take. lia.
Qed.
