(* ===== verification/PyStr.v ===== *)
(** Python strings, as the sources use them.

    A Python [str] is represented by its UTF-8 bytes, so [.encode("utf-8")] is
    the identity and [.decode("utf-8")] is the validity test [utf8_valid]; the
    number of code points is [utf8_len].  The file also holds the decimal and
    hexadecimal renderings and the base64 codec of the standard library. *)

From S2P Require Import Prelude.
From Stdlib Require Import ZArith Lia Ascii Bool DecimalString DecimalZ DecimalFacts.
From stdpp Require Import base tactics list strings.

Local Open Scope Z_scope.

(** * Characters *)

Definition ord (c : ascii) : Z := Z.of_N (N_of_ascii c).
Definition chr (n : Z) : ascii := ascii_of_N (Z.to_N n).

Definition in_range (lo hi : Z) (c : ascii) : bool := (lo <=? ord c) && (ord c <=? hi).
Definition is_digit (c : ascii) : bool := in_range 48 57 c.
Definition is_upper (c : ascii) : bool := in_range 65 90 c.
Definition is_lower (c : ascii) : bool := in_range 97 122 c.
Definition is_alnum (c : ascii) : bool := is_digit c || is_upper c || is_lower c.
(** ASCII white space of [str.strip]: \t \n \v \f \r, the separators 28-31, space. *)
Definition is_space (c : ascii) : bool :=
  in_range 9 13 c || in_range 28 32 c.
Definition lower_char (c : ascii) : ascii := if is_upper c then chr (ord c + 32) else c.

(** * Strings *)

Fixpoint str_all (p : ascii → bool) (s : string) : bool :=
  match s with
  | EmptyString => true
  | String c s' => p c && str_all p s'
  end.

Definition str_any (p : ascii → bool) (s : string) : bool := negb (str_all (λ c, negb (p c)) s).

Fixpoint str_filter (p : ascii → bool) (s : string) : string :=
  match s with
  | EmptyString => EmptyString
  | String c s' => if p c then String c (str_filter p s') else str_filter p s'
  end.

Fixpoint str_map (f : ascii → ascii) (s : string) : string :=
  match s with
  | EmptyString => EmptyString
  | String c s' => String (f c) (str_map f s')
  end.

Definition str_lower : string → string := str_map lower_char.
Definition upper_char (c : ascii) : ascii := if is_lower c then chr (ord c - 32) else c.
Definition str_upper : string → string := str_map upper_char.

Fixpoint str_rev_app (s acc : string) : string :=
  match s with
  | EmptyString => acc
  | String c s' => str_rev_app s' (String c acc)
  end.
Definition str_rev (s : string) : string := str_rev_app s "".

(** [s.startswith(p)], and what follows the prefix. *)
Fixpoint str_strip_prefix (p s : string) : option string :=
  match p, s with
  | EmptyString, _ => Some s
  | String a p', String b s' => if Ascii.eqb a b then str_strip_prefix p' s' else None
  | String _ _, EmptyString => None
  end.
Definition startswith (s p : string) : bool :=
  match str_strip_prefix p s with Some _ => true | None => false end.
Definition endswith (s p : string) : bool := startswith (str_rev s) (str_rev p).

(** [p in s] *)
Fixpoint str_contains (p s : string) : bool :=
  startswith s p ||
  match s with
  | EmptyString => false
  | String _ s' => str_contains p s'
  end.

(** [s.replace(old, new)] for a non-empty [old]; [skip] characters of an
    occurrence are still to be passed over. *)
Fixpoint replace_from (old new : string) (skip : nat) (s : string) : string :=
  match s with
  | EmptyString => EmptyString
  | String c s' =>
      match skip with
      | S k => replace_from old new k s'
      | O => if startswith s old then new +:+ replace_from old new (String.length old - 1) s'
             else String c (replace_from old new 0 s')
      end
  end.
Definition str_replace (old new : string) : string → string := replace_from old new 0.

Fixpoint lstrip_by (p : ascii → bool) (s : string) : string :=
  match s with
  | EmptyString => EmptyString
  | String c s' => if p c then lstrip_by p s' else s
  end.
Fixpoint rstrip_by (p : ascii → bool) (s : string) : string :=
  match s with
  | EmptyString => EmptyString
  | String c s' =>
      match rstrip_by p s' with
      | EmptyString => if p c then EmptyString else String c EmptyString
      | r => String c r
      end
  end.
Definition strip_by (p : ascii → bool) (s : string) : string := rstrip_by p (lstrip_by p s).
(** [s.strip()] *)
Definition str_strip : string → string := strip_by is_space.

(** [s.split(c)] for a one-character separator: never empty. *)
Fixpoint str_split (c : ascii) (s : string) : list string :=
  match s with
  | EmptyString => [EmptyString]
  | String a s' =>
      if Ascii.eqb a c then EmptyString :: str_split c s'
      else match str_split c s' with
           | [] => [String a EmptyString]
           | w :: ws => String a w :: ws
           end
  end.

(** [s.split(c, 1)], when [c] occurs in [s]. *)
Fixpoint str_split1 (c : ascii) (s : string) : option (string * string) :=
  match s with
  | EmptyString => None
  | String a s' =>
      if Ascii.eqb a c then Some (EmptyString, s')
      else match str_split1 c s' with
           | Some (l, r) => Some (String a l, r)
           | None => None
           end
  end.

(** [s[n:]] and [s[:n]] for [n >= 0] on ASCII data. *)
Fixpoint str_drop (n : nat) (s : string) : string :=
  match n, s with
  | O, _ => s
  | S n', String _ s' => str_drop n' s'
  | S _, EmptyString => EmptyString
  end.
Fixpoint str_take (n : nat) (s : string) : string :=
  match n, s with
  | S n', String c s' => String c (str_take n' s')
  | _, _ => EmptyString
  end.

Fixpoint str_repeat (c : ascii) (n : nat) : string :=
  match n with O => EmptyString | S n' => String c (str_repeat c n') end.

Fixpoint str_join (sep : string) (ws : list string) : string :=
  match ws with
  | [] => ""
  | [w] => w
  | w :: ws' => (w +:+ sep +:+ str_join sep ws')%string
  end.

(** A text without the line feed that [$] lets pass at its end. *)
Definition before_final_nl (s : string) : string :=
  match str_rev s with
  | String c r => if Ascii.eqb c "010" then str_rev r else s
  | EmptyString => s
  end.

Definition line_feed : ascii := "010"%char.
Definition carriage_return : ascii := "013"%char.

(** The newline translation of text files: \r\n and \r become \n. *)
Fixpoint universal_newlines (s : string) : string :=
  match s with
  | EmptyString => EmptyString
  | String c r =>
      if Ascii.eqb c carriage_return then
        match r with
        | String d r' => if Ascii.eqb d line_feed then String line_feed (universal_newlines r')
                         else String line_feed (universal_newlines r)
        | EmptyString => String line_feed EmptyString
        end
      else String c (universal_newlines r)
  end.

(** The lines of a text without their ends; a final line end adds no line. *)
Definition drop_last_empty (l : list string) : list string :=
  match rev l with EmptyString :: r => rev r | _ => l end.
(** [f.readlines()] of a text file, without the line ends. *)
Definition read_lines (s : string) : list string :=
  drop_last_empty (str_split line_feed (universal_newlines s)).

(** [s.splitlines()], for the line boundaries among the ASCII characters. *)
Definition is_line_break (c : ascii) : bool :=
  in_range 10 12 c || in_range 28 30 c.
Definition splitlines (s : string) : list string :=
  drop_last_empty (str_split line_feed
    (str_map (λ c, if is_line_break c then line_feed else c) (universal_newlines s))).

(** [s.rstrip()] *)
Definition str_rstrip : string → string := rstrip_by is_space.

Definition str_isascii (s : string) : bool := str_all (λ c, ord c <? 128) s.

(** * Numbers *)

(** [str(n)] and the inverse on its outputs. *)
Definition str_of_Z (n : Z) : string := NilZero.string_of_int (Z.to_int n).
Definition Z_of_str (s : string) : option Z := Z.of_int <$> NilZero.int_of_string s.

Definition hex_digit (n : Z) : ascii := chr (if n <? 10 then 48 + n else 87 + n).
Fixpoint hex_of_bytes (bs : list Z) : string :=
  match bs with
  | [] => ""
  | b :: bs' => String (hex_digit (b / 16)) (String (hex_digit (b mod 16)) (hex_of_bytes bs'))
  end.
Definition hex_value (c : ascii) : option Z :=
  if is_digit c then Some (ord c - 48)
  else if in_range 97 102 c then Some (ord c - 87)
  else if in_range 65 70 c then Some (ord c - 55)
  else None.

Fixpoint bytes_of (s : string) : list Z :=
  match s with EmptyString => [] | String c s' => ord c :: bytes_of s' end.
Fixpoint string_of_bytes (bs : list Z) : string :=
  match bs with [] => EmptyString | b :: bs' => String (chr b) (string_of_bytes bs') end.

(** * UTF-8 *)

Definition is_cont (b : Z) : bool := (128 <=? b) && (b <? 192).

(** The code points of well-formed UTF-8, [None] when ill-formed (overlong forms,
    surrogates and values above U+10FFFF are ill-formed). *)
Fixpoint utf8_decode (bs : list Z) : option (list Z) :=
  match bs with
  | [] => Some []
  | b0 :: r0 =>
      if b0 <? 128 then cons b0 <$> utf8_decode r0
      else match r0 with
      | [] => None
      | b1 :: r1 =>
          if negb (is_cont b1) then None
          else if (194 <=? b0) && (b0 <? 224) then
            cons ((b0 - 192) * 64 + (b1 - 128)) <$> utf8_decode r1
          else match r1 with
          | [] => None
          | b2 :: r2 =>
              if negb (is_cont b2) then None
              else if (224 <=? b0) && (b0 <? 240) then
                let p := (b0 - 224) * 4096 + (b1 - 128) * 64 + (b2 - 128) in
                if (p <? 2048) || ((55296 <=? p) && (p <? 57344)) then None
                else cons p <$> utf8_decode r2
              else match r2 with
              | [] => None
              | b3 :: r3 =>
                  if negb (is_cont b3) then None
                  else if (240 <=? b0) && (b0 <? 245) then
                    let p := (b0 - 240) * 262144 + (b1 - 128) * 4096
                             + (b2 - 128) * 64 + (b3 - 128) in
                    if (p <? 65536) || (1114111 <? p) then None
                    else cons p <$> utf8_decode r3
                  else None
              end
          end
      end
  end.
(** [s[:n]], in code points. *)
Fixpoint utf8_take (n : nat) (s : string) : string :=
  match s with
  | EmptyString => EmptyString
  | String c s' =>
      if is_cont (ord c) then String c (utf8_take n s')
      else match n with O => EmptyString | S m => String c (utf8_take m s') end
  end.

Definition utf8_valid (s : string) : bool :=
  match utf8_decode (bytes_of s) with Some _ => true | None => false end.

(** [bytes.decode('utf-8', errors='replace')], as UTF-8 bytes: U+FFFD for every
    maximal prefix of an ill-formed sequence. *)
Definition replacement : list Z := [239; 191; 189].
Definition second_ok (b0 b1 : Z) : bool :=
  if b0 =? 224 then (160 <=? b1) && (b1 <? 192)
  else if b0 =? 237 then (128 <=? b1) && (b1 <? 160)
  else if b0 =? 240 then (144 <=? b1) && (b1 <? 192)
  else if b0 =? 244 then (128 <=? b1) && (b1 <? 144)
  else is_cont b1.
Fixpoint utf8_replace (bs : list Z) : list Z :=
  match bs with
  | [] => []
  | b0 :: r0 =>
      if b0 <? 128 then b0 :: utf8_replace r0
      else match r0 with
      | [] => replacement
      | b1 :: r1 =>
          if negb ((194 <=? b0) && (b0 <? 245) && second_ok b0 b1) then replacement ++ utf8_replace r0
          else if b0 <? 224 then b0 :: b1 :: utf8_replace r1
          else match r1 with
          | [] => replacement
          | b2 :: r2 =>
              if negb (is_cont b2) then replacement ++ utf8_replace r1
              else if b0 <? 240 then b0 :: b1 :: b2 :: utf8_replace r2
              else match r2 with
              | [] => replacement
              | b3 :: r3 =>
                  if negb (is_cont b3) then replacement ++ utf8_replace r2
                  else b0 :: b1 :: b2 :: b3 :: utf8_replace r3
              end
          end
      end
  end.

Definition utf8_encode_point (p : Z) : list Z :=
  if p <? 128 then [p]
  else if p <? 2048 then [192 + p / 64; 128 + p mod 64]
  else if p <? 65536 then [224 + p / 4096; 128 + (p / 64) mod 64; 128 + p mod 64]
  else [240 + p / 262144; 128 + (p / 4096) mod 64; 128 + (p / 64) mod 64; 128 + p mod 64].

(** [len(s)]: the bytes that start a code point. *)
Definition utf8_len (s : string) : Z :=
  Z.of_nat (length (List.filter (λ b, negb (is_cont b)) (bytes_of s))).

(** * Base64 *)

Definition b64_char (url : bool) (v : Z) : ascii :=
  if v <? 26 then chr (65 + v)
  else if v <? 52 then chr (71 + v)
  else if v <? 62 then chr (v - 4)
  else if v =? 62 then (if url then "-" else "+")%char
  else (if url then "_" else "/")%char.

Definition b64_value (c : ascii) : option Z :=
  if is_upper c then Some (ord c - 65)
  else if is_lower c then Some (ord c - 71)
  else if is_digit c then Some (ord c + 4)
  else if Ascii.eqb c "+" then Some 62
  else if Ascii.eqb c "/" then Some 63
  else None.

Fixpoint b64encode (url : bool) (bs : list Z) : string :=
  match bs with
  | [] => ""
  | [a] => String (b64_char url (a / 4)) (String (b64_char url ((a mod 4) * 16)) "==")
  | [a; b] =>
      String (b64_char url (a / 4)) (String (b64_char url ((a mod 4) * 16 + b / 16))
        (String (b64_char url ((b mod 16) * 4)) "="))
  | a :: b :: c :: r =>
      String (b64_char url (a / 4)) (String (b64_char url ((a mod 4) * 16 + b / 16))
        (String (b64_char url ((b mod 16) * 4 + c / 64)) (String (b64_char url (c mod 64))
          (b64encode url r))))
  end.

(** [binascii.a2b_base64] in its default, lenient mode: characters outside the
    alphabet are skipped and the input may continue after a full padding. *)
Fixpoint a2b_base64 (s : string) (quad_pos pads leftchar : Z) : option (list Z) :=
  match s with
  | EmptyString => if quad_pos =? 0 then Some [] else None
  | String c s' =>
      if Ascii.eqb c "=" then
        if (2 <=? quad_pos) && (4 <=? quad_pos + (pads + 1)) then Some []
        else a2b_base64 s' quad_pos (if 2 <=? quad_pos then pads + 1 else pads) leftchar
      else match b64_value c with
      | None => a2b_base64 s' quad_pos pads leftchar
      | Some v =>
          if quad_pos =? 0 then a2b_base64 s' 1 0 v
          else if quad_pos =? 1 then
            cons (leftchar * 4 + v / 16) <$> a2b_base64 s' 2 0 (v mod 16)
          else if quad_pos =? 2 then
            cons (leftchar * 16 + v / 4) <$> a2b_base64 s' 3 0 (v mod 4)
          else cons (leftchar * 64 + v) <$> a2b_base64 s' 0 0 0
      end
  end.

Definition b64decode (s : string) : option (list Z) := a2b_base64 s 0 0 0.
(** [urlsafe_b64decode]: "-" and "_" are translated to "+" and "/" first. *)
Definition urlsafe_char (c : ascii) : ascii :=
  if Ascii.eqb c "-" then "+"%char else if Ascii.eqb c "_" then "/"%char else c.
Definition urlsafe_b64decode (s : string) : option (list Z) :=
  b64decode (str_map urlsafe_char s).

Example b64_example : b64encode true (bytes_of "light w") = "bGlnaHQgdw=="%string.
Proof. reflexivity. Qed.
Example b64_decode_example :
  string_of_bytes <$> urlsafe_b64decode "bGlna HQgdw=="%string = Some "light w"%string.
Proof. reflexivity. Qed.
Example split_example : str_split "." "a..b"%string = ["a"; ""; "b"]%string.
Proof. reflexivity. Qed.
Example utf8_example : utf8_decode [226; 130; 172] = Some [8364].
Proof. reflexivity. Qed.

(** * Lemmas *)

(** A boolean fact about a bounded range is decided by computation. *)
Lemma forall_range (P : Z → bool) (n : nat) :
  List.forallb (λ i, P (Z.of_nat i)) (List.seq 0 n) = true →
  ∀ v, 0 ≤ v < Z.of_nat n → P v = true.
Proof.
  intros H v Hv. rewrite List.forallb_forall in H.
  specialize (H (Z.to_nat v)). rewrite Z2Nat.id in H by lia. apply H, List.in_seq. lia.
Qed.

Lemma str_app_cons c s1 s2 : String c s1 +:+ s2 = String c (s1 +:+ s2).
Proof. done. Qed.
Lemma str_app_empty s : "" +:+ s = s.
Proof. done. Qed.

Lemma str_app_assoc (s1 s2 s3 : string) : (s1 +:+ s2) +:+ s3 = s1 +:+ (s2 +:+ s3).
Proof. induction s1 as [|c s1 IH]; [done|]. by rewrite !str_app_cons, IH. Qed.

Lemma str_length_app (s t : string) :
  String.length (s +:+ t) = (String.length s + String.length t)%nat.
Proof. induction s as [|c s IH]; [done|]. rewrite str_app_cons. cbn. by rewrite IH. Qed.

Lemma str_rev_app_spec s acc : str_rev_app s acc = str_rev s +:+ acc.
Proof.
  unfold str_rev. revert acc. induction s as [|c s IH]; intros acc; [done|]. cbn.
  rewrite (IH (String c acc)), (IH (String c "")), str_app_assoc. done.
Qed.

Lemma str_rev_app_last s c : str_rev (s +:+ String c "") = String c (str_rev s).
Proof.
  unfold str_rev.
  enough (∀ acc, str_rev_app (s +:+ String c "") acc = String c (str_rev_app s acc)) by done.
  induction s as [|a s IH]; intros acc; [done|]. rewrite str_app_cons. cbn. apply IH.
Qed.

Lemma str_all_app p s1 s2 : str_all p (s1 +:+ s2) = str_all p s1 && str_all p s2.
Proof. induction s1 as [|c s1 IH]; [done|]; rewrite str_app_cons; cbn. by rewrite IH, andb_assoc. Qed.

Lemma str_all_impl (p q : ascii → bool) s :
  (∀ c, p c = true → q c = true) → str_all p s = true → str_all q s = true.
Proof.
  intros Hpq. induction s as [|c s IH]; cbn; [done|].
  intros [H1 H2]%andb_prop. by rewrite (Hpq _ H1), IH.
Qed.

Lemma str_app_nil_r (s : string) : s +:+ "" = s.
Proof. induction s as [|c s IH]; [done|]. by rewrite str_app_cons, IH. Qed.

Lemma str_map_app f s1 s2 : str_map f (s1 +:+ s2) = str_map f s1 +:+ str_map f s2.
Proof. induction s1 as [|c s1 IH]; [done|]; rewrite str_app_cons; cbn. by rewrite IH. Qed.

Lemma str_split_none c s :
  str_all (λ a, negb (Ascii.eqb a c)) s = true → str_split c s = [s].
Proof.
  induction s as [|a s IH]; cbn; [done|]. intros [H1 H2]%andb_prop.
  destruct (Ascii.eqb a c); [done|]. by rewrite IH.
Qed.

Lemma str_split_app c s1 s2 :
  str_all (λ a, negb (Ascii.eqb a c)) s1 = true →
  str_split c (s1 +:+ String c s2) = s1 :: str_split c s2.
Proof.
  induction s1 as [|a s1 IH]; rewrite ?str_app_empty, ?str_app_cons; cbn;
    [by rewrite Ascii.eqb_refl|].
  intros [H1 H2]%andb_prop. destruct (Ascii.eqb a c); [done|]. by rewrite IH.
Qed.

Lemma rstrip_by_id p s : str_all (λ c, negb (p c)) s = true → rstrip_by p s = s.
Proof.
  induction s as [|c s IH]; cbn; [done|]. intros [H1 H2]%andb_prop.
  rewrite IH by done. destruct s; [|done]. by destruct (p c).
Qed.

Lemma lstrip_by_id p s : str_all (λ c, negb (p c)) s = true → lstrip_by p s = s.
Proof. destruct s as [|c s]; [done|]. cbn. by destruct (p c). Qed.

Lemma str_strip_id s : str_all (λ c, negb (is_space c)) s = true → str_strip s = s.
Proof. intros H. unfold str_strip, strip_by. by rewrite lstrip_by_id, rstrip_by_id. Qed.

Lemma str_lower_id s : str_all (λ c, negb (is_upper c)) s = true → str_lower s = s.
Proof.
  unfold str_lower. induction s as [|c s IH]; [done|]. cbn. intros [H1 H2]%andb_prop.
  rewrite IH by done. unfold lower_char. by destruct (is_upper c).
Qed.

Lemma rstrip_by_app_all p s1 s2 :
  str_all p s2 = true → rstrip_by p (s1 +:+ s2) = rstrip_by p s1.
Proof.
  intros H2. assert (rstrip_by p s2 = "") as H0.
  { induction s2 as [|c s2 IH]; cbn in *; [done|]. apply andb_prop in H2 as [Hc H2].
    by rewrite IH, Hc. }
  induction s1 as [|c s1 IH]; [done|]; rewrite str_app_cons; cbn. by rewrite IH.
Qed.

Lemma ord_bound c : 0 ≤ ord c < 256.
Proof. unfold ord. pose proof (N_ascii_bounded c). lia. Qed.

Lemma chr_ord c : chr (ord c) = c.
Proof. unfold chr, ord. by rewrite N2Z.id, ascii_N_embedding. Qed.

Lemma string_of_bytes_of s : string_of_bytes (bytes_of s) = s.
Proof. induction s as [|c s IH]; cbn; [done|]. by rewrite chr_ord, IH. Qed.

Lemma bytes_of_bound s : Forall (λ b, 0 ≤ b < 256) (bytes_of s).
Proof. induction s; cbn; constructor; [apply ord_bound|done]. Qed.

Lemma bytes_of_app s1 s2 : bytes_of (s1 +:+ s2) = bytes_of s1 ++ bytes_of s2.
Proof. induction s1 as [|c s1 IH]; [done|]; rewrite str_app_cons; cbn. by rewrite IH. Qed.

Lemma utf8_valid_ascii s : str_isascii s = true → utf8_valid s = true.
Proof.
  unfold utf8_valid, str_isascii. intros H.
  assert (∃ l, utf8_decode (bytes_of s) = Some l) as [l ->]; [|done].
  induction s as [|c s IH]; cbn in *; [by eexists|].
  apply andb_prop in H as [-> H]. destruct (IH H) as [l ->]. by eexists.
Qed.

Lemma str_strip_prefix_app p s : str_strip_prefix p (p +:+ s) = Some s.
Proof. induction p as [|c p IH]; [done|]. rewrite str_app_cons. cbn. by rewrite Ascii.eqb_refl. Qed.

(** ** Base64 round trip *)

(** The encoding without its padding. *)
Definition b64_unpadded (bs : list Z) : string := rstrip_by (Ascii.eqb "=") (b64encode true bs).

Definition b64_ok (c : ascii) : bool :=
  negb (Ascii.eqb "=" c) && negb (Ascii.eqb c "=") && negb (Ascii.eqb c ".") && (ord c <? 128) && negb (is_space c).

Definition b64_char_ok (v : Z) : bool :=
  b64_ok (b64_char true v) &&
  negb (Ascii.eqb (urlsafe_char (b64_char true v)) "=") &&
  match b64_value (urlsafe_char (b64_char true v)) with Some w => w =? v | None => false end.

Lemma b64_char_facts v :
  0 ≤ v < 64 →
  b64_ok (b64_char true v) = true ∧
  Ascii.eqb (urlsafe_char (b64_char true v)) "=" = false ∧
  b64_value (urlsafe_char (b64_char true v)) = Some v.
Proof.
  intros Hv.
  assert (b64_char_ok v = true) as H.
  { apply (forall_range b64_char_ok 64); [vm_compute; reflexivity|exact Hv]. }
  apply andb_prop in H as [[H1 H2%negb_true_iff]%andb_prop H3].
  destruct (b64_value _) as [w|]; [|done]. split_and!; [done..|]. f_equal. lia.
Qed.

Lemma bs_ind3 (P : list Z → Prop) :
  P [] → (∀ a, P [a]) → (∀ a b, P [a; b]) → (∀ a b c r, P r → P (a :: b :: c :: r)) → ∀ l, P l.
Proof.
  intros H0 H1 H2 H3. fix IH 1. intros [|a [|b [|c r]]]; [done|apply H1|apply H2|apply H3, IH].
Qed.

Ltac b64_all :=
  cbn [str_all];
  repeat match goal with H : b64_ok _ = true |- _ => rewrite H; clear H end; done.

(** The unpadded text has no "=" and no ".", and decodes back once the missing
    "=" are appended, as [verify_session_token] does. *)
Lemma b64_unpadded_shape bs :
  Forall (λ b, 0 ≤ b < 256) bs →
  ∃ raw k, b64encode true bs = raw +:+ str_repeat "=" k ∧
    str_all b64_ok raw = true ∧
    Z.of_nat k = (- Z.of_nat (String.length raw)) mod 4 ∧
    ∀ tail, a2b_base64 (str_map urlsafe_char raw +:+ str_repeat "=" k +:+ tail) 0 0 0 =
            (if decide (k = O) then app bs <$> a2b_base64 tail 0 0 0 else Some bs).
Proof.
  induction bs as [|a|a b|a b c r IH] using bs_ind3; intros Hb.
  - exists "", O. split_and!; try done. intros tail.
    cbn [str_map str_repeat]. rewrite !str_app_empty.
    case_decide; [|done]. by destruct (a2b_base64 tail 0 0 0).
  - repeat (apply Forall_cons in Hb as [? Hb]).
    destruct (b64_char_facts (a / 4)) as (?&E1&E2); [zdiv|].
    destruct (b64_char_facts ((a mod 4) * 16)) as (?&E3&E4); [zdiv|].
    eexists (String _ (String _ "")), 2%nat. split_and!; [reflexivity|b64_all|done|].
    intros tail. cbn [str_map str_repeat]. rewrite ?str_app_cons, ?str_app_empty. cbn [a2b_base64].
    rewrite E1, E2, E3, E4. cbn.
    change (4 <=? 2 + (0 + 1)) with false. change (4 <=? 2 + (0 + 1 + 1)) with true.
    case_decide; [done|]. cbn. do 2 f_equal. zdiv.
  - repeat (apply Forall_cons in Hb as [? Hb]).
    destruct (b64_char_facts (a / 4)) as (?&E1&E2); [zdiv|].
    destruct (b64_char_facts ((a mod 4) * 16 + b / 16)) as (?&E3&E4); [zdiv|].
    destruct (b64_char_facts ((b mod 16) * 4)) as (?&E5&E6); [zdiv|].
    eexists (String _ (String _ (String _ ""))), 1%nat.
    split_and!; [reflexivity|b64_all|done|].
    intros tail. cbn [str_map str_repeat]. rewrite ?str_app_cons, ?str_app_empty. cbn [a2b_base64].
    rewrite E1, E2, E3, E4, E5, E6. cbn. change (4 <=? 3 + (0 + 1)) with true.
    case_decide; [done|]. cbn. repeat f_equal; zdiv.
  - repeat (apply Forall_cons in Hb as [? Hb]).
    destruct (IH Hb) as (raw & k & Henc & Hall & Hk & Hdec).
    destruct (b64_char_facts (a / 4)) as (?&E1&E2); [zdiv|].
    destruct (b64_char_facts ((a mod 4) * 16 + b / 16)) as (?&E3&E4); [zdiv|].
    destruct (b64_char_facts ((b mod 16) * 4 + c / 64)) as (?&E5&E6); [zdiv|].
    destruct (b64_char_facts (c mod 64)) as (?&E7&E8); [zdiv|].
    eexists (String _ (String _ (String _ (String _ raw)))), k.
    split_and!; [cbn [b64encode]; rewrite Henc; reflexivity|b64_all| |].
    { cbn [String.length]. rewrite Hk. rewrite !Nat2Z.inj_succ. zdiv. }
    intros tail. cbn [str_map]. rewrite ?str_app_cons. cbn [a2b_base64].
    rewrite E1, E2, E3, E4, E5, E6, E7, E8. cbn [Z.eqb Pos.eqb]. rewrite Hdec.
    replace ((a / 4) * 4 + ((a mod 4) * 16 + b / 16) / 16) with a by zdiv.
    replace (((a mod 4) * 16 + b / 16) mod 16 * 16 + ((b mod 16) * 4 + c / 64) / 4) with b by zdiv.
    replace (((b mod 16) * 4 + c / 64) mod 4 * 64 + c mod 64) with c by zdiv.
    case_decide; [|done]. by destruct (a2b_base64 tail 0 0 0).
Qed.

Lemma str_all_repeat_eq k : str_all (Ascii.eqb "=") (str_repeat "=" k) = true.
Proof. by induction k. Qed.

(** ** Decimal rendering *)

Lemma Z_of_str_of_Z n : Z_of_str (str_of_Z n) = Some n.
Proof.
  unfold Z_of_str, str_of_Z. rewrite NilZero.isi.
  - cbn. by rewrite DecimalZ.of_to.
  - destruct n; cbn; try done. intros [= H]. by apply DecimalPos.Unsigned.to_uint_nonnil in H.
  - destruct n; cbn; try done. intros [= H]. by apply DecimalPos.Unsigned.to_uint_nonnil in H.
Qed.

Lemma string_of_uint_all d : str_all is_digit (NilEmpty.string_of_uint d) = true.
Proof. by induction d. Qed.

(** A natural number renders as "0" or as digits that do not start with 0. *)
Lemma str_of_nonneg n :
  0 ≤ n →
  ∃ c s, str_of_Z n = String c s ∧ is_digit c = true ∧ str_all is_digit s = true ∧
         (c = "0"%char → s = ""%string).
Proof.
  intros Hn. destruct n as [|p|p]; [by exists "0"%char, ""%string| |lia].
  unfold str_of_Z. cbn [Z.to_int NilZero.string_of_int].
  assert (Decimal.unorm (Pos.to_uint p) = Pos.to_uint p) as Hu.
  { rewrite <-(DecimalPos.Unsigned.to_of (Pos.to_uint p)), DecimalPos.Unsigned.of_to. done. }
  pose proof (DecimalPos.Unsigned.to_uint_nonnil p) as Hnil.
  destruct (Pos.to_uint p) as [|d|d|d|d|d|d|d|d|d|d]; [done|..];
    cbn [NilZero.string_of_uint NilEmpty.string_of_uint];
    (do 2 eexists; split_and!; [reflexivity|reflexivity|apply string_of_uint_all|]); try done.
  intros _. unfold Decimal.unorm in Hu. pose proof (nzhead_nonzero (Decimal.D0 d) d) as Hz.
  destruct (Decimal.nzhead (Decimal.D0 d)); try done. by injection Hu as <-.
Qed.

Lemma str_of_neg n : n < 0 → str_of_Z n = String "-" (str_of_Z (- n)).
Proof.
  intros Hn. by destruct n.
Qed.

Lemma is_digit_ascii c : is_digit c = true → (ord c <? 128) = true.
Proof. unfold is_digit, in_range. lia. Qed.

Lemma str_of_Z_isascii n : str_isascii (str_of_Z n) = true.
Proof.
  assert (∀ m, 0 ≤ m → str_isascii (str_of_Z m) = true) as H.
  { intros m (c & s & -> & Hc & Hs & _)%str_of_nonneg. unfold str_isascii. cbn.
    rewrite is_digit_ascii by done. apply (str_all_impl is_digit); [apply is_digit_ascii|done]. }
  destruct (decide (n < 0)); [|by apply H; lia].
  rewrite str_of_neg by done. unfold str_isascii in *. cbn. by apply H; lia.
Qed.

(** ** Reading digits *)

(** The number that the digits of a string denote, after [acc]. *)
Fixpoint digits_value (s : string) (acc : Z) : Z :=
  match s with
  | EmptyString => acc
  | String c s' => digits_value s' (acc * 10 + (ord c - 48))
  end.

(** The [k] last decimal digits of a number, with leading zeros. *)
Fixpoint fixed_digits (k : nat) (n : Z) : string :=
  match k with
  | O => EmptyString
  | S k' => String (chr (48 + (n / 10 ^ Z.of_nat k') mod 10)) (fixed_digits k' n)
  end.

Lemma digits_value_app s1 s2 acc :
  digits_value (s1 +:+ s2) acc = digits_value s2 (digits_value s1 acc).
Proof. revert acc. induction s1 as [|c s1 IH]; intros acc; [done|]. apply IH. Qed.

Lemma digits_value_uint_acc d p :
  digits_value (NilEmpty.string_of_uint d) (Z.pos p) = Z.pos (Pos.of_uint_acc d p).
Proof.
  revert p. induction d; intros p; cbn [NilEmpty.string_of_uint digits_value Pos.of_uint_acc];
    rewrite <-?IHd; [done|..]; f_equal; unfold ord; cbn [N_of_ascii N_of_digits]; lia.
Qed.

Lemma digits_value_uint d :
  digits_value (NilEmpty.string_of_uint d) 0 = Z.of_N (Pos.of_uint d).
Proof.
  induction d; [done|exact IHd|..]; cbn [NilEmpty.string_of_uint digits_value Pos.of_uint Z.of_N];
    rewrite <-digits_value_uint_acc; done.
Qed.

Lemma digits_value_str_of_Z n : 0 ≤ n → digits_value (str_of_Z n) 0 = n.
Proof.
  intros Hn. destruct n as [|p|p]; [done| |lia]. unfold str_of_Z. cbn [Z.to_int NilZero.string_of_int].
  pose proof (DecimalPos.Unsigned.to_uint_nonnil p) as Hnil.
  assert (NilZero.string_of_uint (Pos.to_uint p) = NilEmpty.string_of_uint (Pos.to_uint p)) as ->
    by (unfold NilZero.string_of_uint; by destruct (Pos.to_uint p)).
  by rewrite digits_value_uint, DecimalPos.Unsigned.of_to.
Qed.

Lemma ord_chr n : 0 ≤ n < 256 → ord (chr n) = n.
Proof. intros. unfold ord, chr. rewrite N_ascii_embedding by lia. lia. Qed.

Lemma digits_value_fixed k n acc :
  0 ≤ n → digits_value (fixed_digits k n) acc = acc * 10 ^ Z.of_nat k + n mod 10 ^ Z.of_nat k.
Proof.
  intros Hn. revert acc. induction k as [|k IH]; intros acc; cbn [fixed_digits digits_value].
  { change (10 ^ Z.of_nat 0) with 1. rewrite Z.mod_1_r. lia. }
  rewrite IH, ord_chr by (pose proof (Z.mod_pos_bound (n / 10 ^ Z.of_nat k) 10); lia).
  rewrite Nat2Z.inj_succ, Z.pow_succ_r by lia.
  assert (0 < 10 ^ Z.of_nat k) by lia.
  rewrite (Z.mul_comm 10), Z.rem_mul_r by lia. lia.
Qed.

Lemma fixed_digits_all k n : 0 ≤ n → str_all is_digit (fixed_digits k n) = true.
Proof.
  intros Hn. induction k as [|k IH]; [done|]. cbn [fixed_digits str_all]. rewrite IH, andb_true_r.
  unfold is_digit, in_range. pose proof (Z.mod_pos_bound (n / 10 ^ Z.of_nat k) 10).
  rewrite ord_chr by lia. lia.
Qed.

Lemma fixed_digits_length k n : String.length (fixed_digits k n) = k.
Proof. induction k as [|k IH]; [done|]. cbn. by rewrite IH. Qed.

(** ** Lines *)

(** A text without line boundaries. *)
Definition one_line (s : string) : bool :=
  str_all (λ c, negb (is_line_break c || Ascii.eqb c carriage_return)) s.

Lemma universal_newlines_app s t :
  one_line s = true → universal_newlines (s +:+ t) = s +:+ universal_newlines t.
Proof.
  unfold one_line. induction s as [|c s IH]; [done|]. cbn [str_all]. intros [Hc Hs]%andb_prop.
  rewrite !str_app_cons. cbn [universal_newlines]. rewrite negb_true_iff, orb_false_iff in Hc.
  destruct Hc as [_ ->]. by rewrite IH.
Qed.

Lemma one_line_map s :
  one_line s = true → str_map (λ c, if is_line_break c then line_feed else c) s = s.
Proof.
  unfold one_line. induction s as [|c s IH]; [done|]. cbn [str_all str_map]. intros [Hc Hs]%andb_prop.
  rewrite negb_true_iff, orb_false_iff in Hc. destruct Hc as [-> _]. by rewrite IH.
Qed.

Lemma one_line_no_feed s :
  one_line s = true → str_all (λ a, negb (Ascii.eqb a line_feed)) s = true.
Proof.
  apply str_all_impl. intros c. rewrite !negb_true_iff, orb_false_iff. intros [Hc _].
  destruct (Ascii.eqb_spec c line_feed) as [->|]; [done|done].
Qed.

Lemma drop_last_empty_cons s l : l ≠ [] → drop_last_empty (s :: l) = s :: drop_last_empty l.
Proof.
  intros Hl. unfold drop_last_empty. cbn [rev].
  destruct (rev l) as [|x r] eqn:E.
  - exfalso. apply Hl. by rewrite <-(rev_involutive l), E.
  - cbn [app]. destruct x; [|done]. by rewrite rev_app_distr.
Qed.

Lemma str_split_nonempty c s : str_split c s ≠ [].
Proof. destruct s as [|a s]; [done|]. cbn. destruct (Ascii.eqb a c); [done|]. by destruct (str_split c s). Qed.

(** The first line of a text. *)
Lemma splitlines_cons s t :
  one_line s = true → splitlines (s +:+ String line_feed t) = s :: splitlines t.
Proof.
  intros Hs. unfold splitlines. rewrite universal_newlines_app by done.
  change (universal_newlines (String line_feed t)) with (String line_feed (universal_newlines t)).
  rewrite str_map_app, one_line_map by done. cbn [str_map].
  change (if is_line_break line_feed then line_feed else line_feed) with line_feed.
  rewrite str_split_app by by apply one_line_no_feed. apply drop_last_empty_cons, str_split_nonempty.
Qed.

Lemma rstrip_last p s c : p c = false → rstrip_by p (s +:+ String c "") = s +:+ String c "".
Proof.
  intros Hc. induction s as [|a s IH]; [rewrite str_app_empty; cbn; by rewrite Hc|].
  rewrite !str_app_cons. cbn [rstrip_by]. rewrite IH. by destruct s.
Qed.

(** Well-formed text is decoded as it is. *)
Lemma second_ok_spec b0 b1 :
  second_ok b0 b1 = is_cont b1 &&
    negb ((b0 =? 224) && (b1 <? 160)) && negb ((b0 =? 237) && (160 <=? b1)) &&
    negb ((b0 =? 240) && (b1 <? 144)) && negb ((b0 =? 244) && (144 <=? b1)).
Proof.
  unfold second_ok, is_cont.
  destruct (Z.eqb_spec b0 224), (Z.eqb_spec b0 237), (Z.eqb_spec b0 240), (Z.eqb_spec b0 244); lia.
Qed.

Lemma utf8_replace_valid bs ps : utf8_decode bs = Some ps → utf8_replace bs = bs.
Proof.
  remember (length bs) as n eqn:Hn. revert bs ps Hn.
  induction n as [n IH] using lt_wf_ind; intros bs ps ->.
  assert (Hrec : ∀ r (f : list Z → list Z) q, (length r < length bs)%nat →
    f <$> utf8_decode r = Some q → utf8_replace r = r).
  { intros r f q Hr. destruct (utf8_decode r) as [q'|] eqn:E; [|done]. intros _. by apply (IH _ Hr r q'). }
  clear IH. destruct bs as [|b0 r0]; [done|]. cbn [utf8_decode utf8_replace].
  destruct (b0 <? 128) eqn:H0; [intros H; f_equal; eapply Hrec; [|exact H]; cbn; lia|].
  destruct r0 as [|b1 r1]; [done|]. rewrite second_ok_spec.
  destruct (is_cont b1) eqn:H1; [cbn [negb]|done].
  destruct ((194 <=? b0) && (b0 <? 224)) eqn:Htwo.
  { intros H. replace (negb _) with false by lia. replace (b0 <? 224) with true by lia.
    do 2 f_equal. eapply Hrec; [|exact H]. cbn. lia. }
  destruct r1 as [|b2 r2]; [done|]. destruct (is_cont b2) eqn:H2; [cbn [negb]|done].
  unfold is_cont in H1, H2.
  destruct ((224 <=? b0) && (b0 <? 240)) eqn:Hthree.
  { cbv zeta. destruct (_ || _) eqn:Hbad; [done|]. intros H.
    replace (negb _) with false by (unfold is_cont; lia). replace (b0 <? 224) with false by lia.
    replace (b0 <? 240) with true by lia. do 3 f_equal. eapply Hrec; [|exact H]. cbn. lia. }
  destruct r2 as [|b3 r3]; [done|]. destruct (is_cont b3) eqn:H3; [cbn [negb]|done].
  unfold is_cont in H3. destruct ((240 <=? b0) && (b0 <? 245)) eqn:Hfour; [|done].
  cbv zeta. destruct (_ || _) eqn:Hbad; [done|]. intros H.
  replace (negb _) with false by (unfold is_cont; lia). replace (b0 <? 224) with false by lia.
  replace (b0 <? 240) with false by lia. do 4 f_equal. eapply Hrec; [|exact H]. cbn. lia.
Qed.

Lemma hex_digit_value n : 0 ≤ n < 16 → hex_value (hex_digit n) = Some n.
Proof.
  intros Hn. assert (n = 0 ∨ n = 1 ∨ n = 2 ∨ n = 3 ∨ n = 4 ∨ n = 5 ∨ n = 6 ∨ n = 7 ∨ n = 8 ∨ n = 9 ∨
    n = 10 ∨ n = 11 ∨ n = 12 ∨ n = 13 ∨ n = 14 ∨ n = 15) as Hc by lia.
  by destruct_or? Hc; subst.
Qed.

(** The code points that text may hold. *)
Definition scalar (p : Z) : bool := (0 <=? p) && (p <? 1114112) && negb ((55296 <=? p) && (p <? 57344)).

Definition encode_points (ps : list Z) : list Z := concat (List.map utf8_encode_point ps).

(** Encoding inverts decoding. *)
Lemma utf8_decode_inv bs ps :
  Forall (λ b, 0 ≤ b < 256) bs → utf8_decode bs = Some ps →
  Forall (λ p, scalar p = true) ps ∧ encode_points ps = bs.
Proof.
  remember (length bs) as n eqn:Hn. revert bs ps Hn.
  induction n as [n IH] using lt_wf_ind; intros bs ps -> Hb.
  assert (Hrec : ∀ r p e q, (length r < length bs)%nat → Forall (λ b, 0 ≤ b < 256) r →
    scalar p = true → utf8_encode_point p = e → cons p <$> utf8_decode r = Some q →
    Forall (λ p, scalar p = true) q ∧ encode_points q = e ++ r).
  { intros r p e q Hr Hbr Hp <-. destruct (utf8_decode r) as [q'|] eqn:E; [|done]. intros [= <-].
    destruct (IH _ Hr r q' eq_refl Hbr E) as [H1 H2]. split; [by constructor|].
    unfold encode_points in *. cbn. by rewrite H2. }
  clear IH. destruct bs as [|b0 r0]; [by intros [= <-]|]. cbn [utf8_decode].
  apply Forall_cons in Hb as [Hb0 Hb].
  destruct (b0 <? 128) eqn:H0.
  { apply (Hrec r0 b0 [b0]); [cbn; lia|done|unfold scalar; lia|]. unfold utf8_encode_point. by rewrite H0. }
  destruct r0 as [|b1 r1]; [done|]. apply Forall_cons in Hb as [Hb1 Hb].
  destruct (is_cont b1) eqn:H1; [cbn [negb]|done]. unfold is_cont in H1.
  destruct ((194 <=? b0) && (b0 <? 224)) eqn:Htwo.
  { apply (Hrec r1 _ [b0; b1]); [cbn; lia|done|unfold scalar; lia|]. unfold utf8_encode_point.
    replace (_ <? 128) with false by lia. replace (_ <? 2048) with true by lia. f_equal; [zdiv|f_equal; zdiv]. }
  destruct r1 as [|b2 r2]; [done|]. apply Forall_cons in Hb as [Hb2 Hb].
  destruct (is_cont b2) eqn:H2; [cbn [negb]|done]. unfold is_cont in H2.
  destruct ((224 <=? b0) && (b0 <? 240)) eqn:Hthree.
  { cbv zeta. destruct (_ || _) eqn:Hbad; [done|].
    apply (Hrec r2 _ [b0; b1; b2]); [cbn; lia|done|unfold scalar; lia|]. unfold utf8_encode_point.
    replace (_ <? 128) with false by lia. replace (_ <? 2048) with false by lia.
    replace (_ <? 65536) with true by lia. f_equal; [zdiv|f_equal; [zdiv|f_equal; zdiv]]. }
  destruct r2 as [|b3 r3]; [done|]. apply Forall_cons in Hb as [Hb3 Hb].
  destruct (is_cont b3) eqn:H3; [cbn [negb]|done]. unfold is_cont in H3.
  destruct ((240 <=? b0) && (b0 <? 245)) eqn:Hfour; [|done].
  cbv zeta. destruct (_ || _) eqn:Hbad; [done|].
  apply (Hrec r3 _ [b0; b1; b2; b3]); [cbn; lia|done|unfold scalar; lia|]. unfold utf8_encode_point.
  replace (_ <? 128) with false by lia. replace (_ <? 2048) with false by lia.
  replace (_ <? 65536) with false by lia. f_equal; [zdiv|f_equal; [zdiv|f_equal; [zdiv|f_equal; zdiv]]].
Qed.

Lemma str_split1_Some c s l r :
  str_split1 c s = Some (l, r) →
  s = l +:+ String c r ∧ str_all (λ a, negb (Ascii.eqb a c)) l = true.
Proof.
  revert l r. induction s as [|a s IH]; intros l r; cbn; [done|].
  destruct (Ascii.eqb a c) eqn:E.
  - intros [= <- <-]. apply Ascii.eqb_eq in E as ->. done.
  - destruct (str_split1 c s) as [[l' r']|]; [|done]. intros [= <- <-].
    destruct (IH _ _ eq_refl) as [-> Hl]. rewrite str_app_cons. cbn. by rewrite E, Hl.
Qed.

Lemma str_split1_None c s :
  str_split1 c s = None → str_all (λ a, negb (Ascii.eqb a c)) s = true.
Proof.
  induction s as [|a s IH]; cbn; [done|]. destruct (Ascii.eqb a c); [done|].
  destruct (str_split1 c s) as [[]|]; [done|]. intros _. by rewrite IH.
Qed.

Lemma str_split1_app c l r :
  str_all (λ a, negb (Ascii.eqb a c)) l = true → str_split1 c (l +:+ String c r) = Some (l, r).
Proof.
  induction l as [|a l IH]; rewrite ?str_app_empty, ?str_app_cons; cbn.
  - by rewrite Ascii.eqb_refl.
  - intros [H1 H2]%andb_prop. destruct (Ascii.eqb a c); [done|]. by rewrite IH.
Qed.

(** ** Parts of a text *)

Lemma str_all_lstrip p q s : str_all q s = true → str_all q (lstrip_by p s) = true.
Proof.
  induction s as [|c s IH]; cbn [lstrip_by]; [done|]. intros H. destruct (p c); [|done].
  cbn [str_all] in H. apply andb_prop in H as [_ H]. by apply IH.
Qed.
Lemma str_all_rstrip p q s : str_all q s = true → str_all q (rstrip_by p s) = true.
Proof.
  induction s as [|c s IH]; cbn [rstrip_by str_all]; [done|]. intros [Hc Hs]%andb_prop. specialize (IH Hs).
  destruct (rstrip_by p s); [destruct (p c)|]; cbn [str_all] in *; rewrite ?Hc; done.
Qed.

Lemma str_split_head c s : str_all (λ d, negb (Ascii.eqb c d)) (hd "" (str_split c s)) = true.
Proof.
  induction s as [|d s IH]; [done|]. cbn [str_split]. destruct (str_split c s) as [|w ws]; cbn [hd] in IH;
    destruct (Ascii.eqb_spec d c) as [->|Hne]; cbn; try done.
  all: rewrite ?IH; destruct (Ascii.eqb_spec c d); [congruence|done].
Qed.

Lemma str_contains_prefix p s : str_contains p (p +:+ s) = true.
Proof.
  assert (H : startswith (p +:+ s) p = true) by (unfold startswith; by rewrite str_strip_prefix_app).
  destruct (p +:+ s); cbn [str_contains]; by rewrite H.
Qed.
Lemma str_contains_app p s t : str_contains p (s +:+ (p +:+ t)) = true.
Proof.
  induction s as [|c s IH]; [rewrite str_app_empty; apply str_contains_prefix|].
  rewrite str_app_cons. cbn [str_contains]. by destruct (startswith (String c (s +:+ p +:+ t)) p).
Qed.
