(* ===== verification/PyRe.v ===== *)
(** The part of the standard library's [re] that the sources use: a backtracking
    matcher with named groups, on bytes.

    Repetition is of one character class, so matching is structural in the
    pattern and the text, and needs no fuel.  Alternatives are tried in order and
    repetitions longest first, as [re] does. *)

From S2P Require Import Prelude PyStr.
From Stdlib Require Import Ascii Bool Lia.
From stdpp Require Import base tactics list strings.

Inductive re : Type :=
  | Lit (w : string)  (** a literal *)
  | Cls (p : ascii → bool)  (** one character of a class *)
  | Many (p : ascii → bool) (least : nat)  (** [[p]*] and [[p]+], greedy *)
  | Seq (a b : re)
  | Alt (a b : re)
  | Opt (a : re)
  | Group (name : string) (a : re)
  | Eol.  (** [$]: at the end, or before a final line feed *)

Notation "a ·· b" := (Seq a b) (at level 37, right associativity).

Definition caps : Type := list (string * string).

(** The part of [s] before its suffix [t]. *)
Definition before (s t : string) : string := str_take (String.length s - String.length t) s.

Definition at_end (s : string) : bool :=
  String.eqb s "" || String.eqb s (String line_feed "").

(** The repetition: [k] after as many characters as it accepts. *)
Fixpoint many {X} (p : ascii → bool) (least : nat) (s : string) (k : string → option X) : option X :=
  match s with
  | String c r =>
      if p c then
        match many p (pred least) r k with
        | Some x => Some x
        | None => match least with O => k s | S _ => None end
        end
      else match least with O => k s | S _ => None end
  | EmptyString => match least with O => k s | S _ => None end
  end.

Fixpoint rmatch {X} (r : re) (s : string) (g : caps) (k : string → caps → option X) : option X :=
  match r with
  | Lit w => match str_strip_prefix w s with Some s' => k s' g | None => None end
  | Cls p => match s with String c s' => if p c then k s' g else None | EmptyString => None end
  | Many p least => many p least s (λ s', k s' g)
  | Seq a b => rmatch a s g (λ s' g', rmatch b s' g' k)
  | Alt a b => match rmatch a s g k with Some x => Some x | None => rmatch b s g k end
  | Opt a => match rmatch a s g k with Some x => Some x | None => k s g end
  | Group name a => rmatch a s g (λ s' g', k s' ((name, before s s') :: g'))
  | Eol => if at_end s then k s g else None
  end.

(** [re.match]: the groups of the match at the start of the text. *)
Definition re_match (r : re) (s : string) : option caps := rmatch r s [] (λ _ g, Some g).

(** [re.search]: the first position with a match. *)
Fixpoint re_search (r : re) (s : string) : option caps :=
  match re_match r s with
  | Some g => Some g
  | None => match s with String _ s' => re_search r s' | EmptyString => None end
  end.

(** [m.group(name)] *)
Fixpoint group (name : string) (g : caps) : option string :=
  match g with
  | [] => None
  | (n, v) :: g' => if String.eqb n name then Some v else group name g'
  end.

(** A literal under [re.IGNORECASE]. *)
Fixpoint lit_ci (w : string) : re :=
  match w with
  | EmptyString => Lit ""
  | String c w' => Cls (λ d, Ascii.eqb (lower_char d) (lower_char c)) ·· lit_ci w'
  end.

Definition not_line_feed (c : ascii) : bool := negb (Ascii.eqb c line_feed).
Definition is_chr (c d : ascii) : bool := Ascii.eqb c d.

Example re_backtracks :
  re_match (Group "a" (Many is_alnum 1) ·· Lit "1" ·· Eol) "ab11" = Some [("a", "ab1")].
Proof. reflexivity. Qed.

(** * The language of a pattern

    [derives r s g s' g']: [r] matches a prefix of [s], leaves [s'], and the
    groups [g] become [g'].  The matcher finds a match exactly when there is one
    ([re_match_complete], [rmatch_sound]); which one, is the order above. *)

Inductive derives : re → string → caps → string → caps → Prop :=
  | d_lit w s g : derives (Lit w) (w +:+ s) g s g
  | d_cls (p : ascii → bool) c s g : p c = true → derives (Cls p) (String c s) g s g
  | d_many (p : ascii → bool) n w s g :
      str_all p w = true → n ≤ String.length w → derives (Many p n) (w +:+ s) g s g
  | d_seq a b s g s1 g1 s2 g2 :
      derives a s g s1 g1 → derives b s1 g1 s2 g2 → derives (Seq a b) s g s2 g2
  | d_alt_l a b s g s' g' : derives a s g s' g' → derives (Alt a b) s g s' g'
  | d_alt_r a b s g s' g' : derives b s g s' g' → derives (Alt a b) s g s' g'
  | d_opt_some a s g s' g' : derives a s g s' g' → derives (Opt a) s g s' g'
  | d_opt_none a s g : derives (Opt a) s g s g
  | d_group name a s g s' g' :
      derives a s g s' g' → derives (Group name a) s g s' ((name, before s s') :: g')
  | d_eol s g : at_end s = true → derives Eol s g s g.

(** * Lemmas *)

Lemma str_strip_prefix_inv p s r : str_strip_prefix p s = Some r → s = p +:+ r.
Proof.
  revert s. induction p as [|c p IH]; intros s; cbn [str_strip_prefix]; [by intros [= ->]|].
  destruct s as [|d s]; [done|]. destruct (Ascii.eqb_spec c d) as [->|]; [|done].
  intros ->%IH. by rewrite str_app_cons.
Qed.

Lemma many_sound {X} p least s (k : string → option X) x :
  many p least s k = Some x →
  ∃ w s', s = w +:+ s' ∧ str_all p w = true ∧ least ≤ String.length w ∧ k s' = Some x.
Proof.
  assert (Hstop : ∀ s, match least with O => k s | S _ => None end = Some x →
    ∃ w s', s = w +:+ s' ∧ str_all p w = true ∧ least ≤ String.length w ∧ k s' = Some x).
  { intros t H. destruct least; [|done]. exists "", t. by rewrite str_app_empty. }
  revert least Hstop. induction s as [|c s IH]; intros least Hstop; cbn [many]; [by apply Hstop|].
  destruct (p c) eqn:Hc; [|by apply Hstop].
  destruct (many p (pred least) s k) eqn:E; [|by apply Hstop].
  intros [= ->]. apply IH in E as (w & s' & -> & Hw & Hn & Hk).
  - exists (String c w), s'. rewrite str_app_cons. cbn [str_all String.length]. rewrite Hc. auto with lia.
  - intros t H. destruct (pred least); [|done]. exists "", t. by rewrite str_app_empty.
Qed.

Lemma many_complete {X} p least w s (k : string → option X) :
  str_all p w = true → least ≤ String.length w →
  many p least (w +:+ s) k = None → k s = None.
Proof.
  revert least. induction w as [|c w IH]; intros least Hw Hn H.
  - rewrite str_app_empty in H. assert (least = 0) as -> by (cbn in Hn; lia).
    destruct s as [|c s]; cbn [many] in H; [done|]. by repeat case_match.
  - rewrite str_app_cons in H. cbn [str_all] in Hw. apply andb_prop in Hw as [Hc Hw].
    cbn [many] in H. rewrite Hc in H. destruct (many p (pred least) (w +:+ s) k) eqn:E; [done|].
    apply (IH (pred least)); [done|cbn [String.length] in Hn; lia|done].
Qed.

Lemma rmatch_sound {X} r s g (k : string → caps → option X) x :
  rmatch r s g k = Some x → ∃ s' g', derives r s g s' g' ∧ k s' g' = Some x.
Proof.
  revert s g k x. induction r as [w|p|p n|a IHa b IHb|a IHa b IHb|a IHa|name a IHa|];
    intros s g k x; cbn [rmatch].
  - destruct (str_strip_prefix w s) as [t|] eqn:E; [|done]. apply str_strip_prefix_inv in E as ->.
    eauto using derives.
  - destruct s as [|c s]; [done|]. destruct (p c) eqn:E; [|done]. eauto using derives.
  - intros (w & s' & -> & Hw & Hn & Hk)%many_sound. eauto using derives.
  - intros (s1 & g1 & H1 & (s2 & g2 & H2 & Hk)%IHb)%IHa. eauto using derives.
  - destruct (rmatch a s g k) as [y|] eqn:E.
    + intros [= ->]. apply IHa in E as (s' & g' & H & Hk). eauto using derives.
    + intros (s' & g' & H & Hk)%IHb. eauto using derives.
  - destruct (rmatch a s g k) as [y|] eqn:E; [|eauto using derives].
    intros [= ->]. apply IHa in E as (s' & g' & H & Hk). eauto using derives.
  - intros (s' & g' & H & Hk)%IHa. eauto using derives.
  - destruct (at_end s) eqn:E; [eauto using derives|done].
Qed.

Lemma rmatch_complete {X} r s g s' g' (k : string → caps → option X) :
  derives r s g s' g' → rmatch r s g k = None → k s' g' = None.
Proof.
  intros H. revert k. induction H; intros k; cbn [rmatch].
  - by rewrite str_strip_prefix_app.
  - by rewrite H.
  - by apply (many_complete p n w s (λ s', k s' g)).
  - intros Hn%IHderives1. by apply IHderives2.
  - destruct (rmatch a s g k) eqn:E; [done|]. intros _. by apply IHderives.
  - destruct (rmatch a s g k) eqn:E; [done|]. by apply IHderives.
  - destruct (rmatch a s g k) eqn:E; [done|]. intros _. by apply IHderives.
  - by destruct (rmatch a s g k).
  - by apply IHderives.
  - by rewrite H.
Qed.

Lemma re_match_sound r s g : re_match r s = Some g → ∃ s', derives r s [] s' g.
Proof. intros (s' & g' & H & [= ->])%rmatch_sound. by exists s'. Qed.

Lemma re_match_complete r s s' g : derives r s [] s' g → ∃ g', re_match r s = Some g'.
Proof.
  intros H. destruct (re_match r s) eqn:E; [by eexists|].
  by eapply rmatch_complete in E; [|exact H].
Qed.

Lemma re_search_sound r s g :
  re_search r s = Some g → ∃ p s1 s', s = p +:+ s1 ∧ derives r s1 [] s' g.
Proof.
  induction s as [|c s IH]; cbn [re_search].
  - destruct (re_match r "") as [g'|] eqn:E; [|done]. intros [= <-]. apply re_match_sound in E as [s' Hd].
    by exists "", "", s'.
  - destruct (re_match r (String c s)) as [g'|] eqn:E.
    + intros [= <-]. apply re_match_sound in E as [s' Hd]. by exists "", (String c s), s'.
    + intros (p & s1 & s' & -> & Hd)%IH. exists (String c p), s1, s'. by rewrite str_app_cons.
Qed.

Lemma re_search_complete r s p s1 s' g :
  re_search r s = None → s = p +:+ s1 → ¬ derives r s1 [] s' g.
Proof.
  revert s. induction p as [|c p IH]; intros s H -> Hd.
  - rewrite str_app_empty in H. apply re_match_complete in Hd as [g' E].
    destruct s1; cbn [re_search] in H; by rewrite E in H.
  - rewrite str_app_cons in H. cbn [re_search] in H. destruct (re_match r _); [done|]. by eapply IH.
Qed.

(** * Lengths and names of matches *)

(** A match takes a prefix of the text. *)
Lemma derives_prefix r s g s' g' : derives r s g s' g' → ∃ w, s = w +:+ s'.
Proof.
  induction 1; eauto; try (by exists ""); try (by exists (String c "")).
  destruct IHderives1 as [v ->], IHderives2 as [w ->]. exists (v +:+ w). by rewrite str_app_assoc.
Qed.

Lemma str_take_app w s : str_take (String.length w) (w +:+ s) = w.
Proof. induction w as [|c w IH]; [by destruct s|]. rewrite str_app_cons. cbn. by rewrite IH. Qed.
Lemma before_app w s : before (w +:+ s) s = w.
Proof.
  unfold before. rewrite str_length_app. replace (_ + _ - _)%nat with (String.length w) by lia. apply str_take_app.
Qed.

(** The least number of characters that a match takes. *)
Fixpoint min_len (r : re) : nat :=
  match r with
  | Lit w => String.length w
  | Cls _ => 1
  | Many _ n => n
  | Seq a b => min_len a + min_len b
  | Alt a b => Nat.min (min_len a) (min_len b)
  | Opt _ | Eol => 0
  | Group _ a => min_len a
  end.

Fixpoint names (r : re) : list string :=
  match r with
  | Lit _ | Cls _ | Many _ _ | Eol => []
  | Seq a b | Alt a b => names a ++ names b
  | Opt a => names a
  | Group n a => n :: names a
  end.

Lemma derives_length r s g s' g' :
  derives r s g s' g' → min_len r + String.length s' ≤ String.length s.
Proof. induction 1; cbn [min_len String.length]; rewrite ?str_length_app; lia. Qed.

Lemma derives_groups r s g s' g' :
  derives r s g s' g' → ∃ l, g' = l ++ g ∧ ∀ n, n ∈ List.map fst l → n ∈ names r.
Proof.
  induction 1; cbn [names];
    repeat match goal with IH : ∃ _, _ |- _ => destruct IH as (? & -> & ?) end;
    try by (exists []; split; [done|intros n' Hn; by apply elem_of_nil in Hn]).
  - eexists (_ ++ _). rewrite <-app_assoc. split; [done|]. intros n'.
    rewrite List.map_app, !elem_of_app. naive_solver.
  - eexists. split; [done|]. intros. rewrite elem_of_app. naive_solver.
  - eexists. split; [done|]. intros. rewrite elem_of_app. naive_solver.
  - by eexists.
  - eexists (_ :: _). split; [done|]. cbn [List.map fst]. intros n'.
    rewrite !elem_of_cons. naive_solver.
Qed.

Lemma group_app n l g : n ∉ List.map fst l → group n (l ++ g) = group n g.
Proof.
  induction l as [|[m v] l IH]; [done|]. cbn [List.map fst group app]. rewrite not_elem_of_cons.
  intros [Hne Hl]. destruct (String.eqb_spec m n); [congruence|by apply IH].
Qed.

Lemma before_nonempty s s' : (String.length s' < String.length s)%nat → before s s' ≠ "".
Proof.
  unfold before. intros H. destruct s as [|c s]; cbn [String.length] in *; [lia|].
  by replace (S (String.length s) - String.length s')%nat with (S (String.length s - String.length s'))%nat by lia.
Qed.

(** A group that every match sets, and that takes some character. *)
Lemma group_nonempty name a b s g s' g' :
  name ∉ names b → (0 < min_len a)%nat → derives (Seq (Group name a) b) s g s' g' →
  ∃ v, group name g' = Some v ∧ v ≠ "".
Proof.
  intros Hb Ha H. inversion H as [| | |? ? ? ? s1 g1 ? ? H1 H2| | | | | |]; subst.
  inversion H1 as [| | | | | | | |? ? ? ? ? g0 H3|]; subst.
  apply derives_groups in H2 as (l & -> & Hl). exists (before s s1).
  rewrite group_app by auto. cbn [group]. rewrite String.eqb_refl. split; [done|].
  apply before_nonempty. apply derives_length in H3. lia.
Qed.

(** A match of a pattern takes a character of its class, here not a space. *)
Lemma many_all_space {X} (p : ascii → bool) n s (k : string → option X) :
  str_all is_space s = true → (∀ s', str_all is_space s' = true → k s' = None) →
  many p n s k = None.
Proof.
  intros Hs Hk. destruct (many p n s k) eqn:E; [|done].
  apply many_sound in E as (w & s' & -> & _ & _ & E). rewrite Hk in E; [done|].
  rewrite str_all_app in Hs. by apply andb_prop in Hs as [_ Hs].
Qed.

(** * Substitution *)

(** [pattern.sub(f, s)] for a pattern that matches no empty text: the matches
    from the left, each search going on after the last match.  Every round drops
    a character, so the length of the text is enough fuel. *)
Definition re_match_rest (r : re) (s : string) : option (caps * string) :=
  rmatch r s [] (λ s' g, Some (g, s')).

Fixpoint sub_from (fuel : nat) (r : re) (f : caps → string) (s : string) : string :=
  match fuel with
  | O => s
  | S n =>
      match re_match_rest r s with
      | Some (g, rest) => f g +:+ sub_from n r f rest
      | None => match s with
                | EmptyString => EmptyString
                | String c s' => String c (sub_from n r f s')
                end
      end
  end.
Definition re_sub (r : re) (f : caps → string) (s : string) : string := sub_from (S (String.length s)) r f s.

(** One more unit of fuel than characters is enough: more changes nothing. *)
Lemma sub_from_fuel r f n m s :
  (0 < min_len r)%nat → (String.length s < n)%nat → (String.length s < m)%nat → sub_from n r f s = sub_from m r f s.
Proof.
  intros Hr. revert m s. induction n as [|n IH]; intros [|m] s Hn Hm; try lia. cbn [sub_from].
  destruct (re_match_rest r s) as [[g rest]|] eqn:E.
  - apply rmatch_sound in E as (s' & g' & Hd & [= <- <-]). apply derives_length in Hd.
    f_equal. apply IH; lia.
  - destruct s as [|c s]; [done|]. cbn [String.length] in *. f_equal. apply IH; lia.
Qed.
