(* ===== verification/PyNum.v ===== *)
(** The builtins [int] and [float] on texts.  Floats are exact decimals [m * 10^e]. *)

From S2P Require Import Prelude PyStr.
From Stdlib Require Import ZArith Lia Ascii Bool.
From stdpp Require Import base tactics list strings.

Local Open Scope Z_scope.

(** [\d+(_\d+)*], without the underscores: the form of the digits that [int] and
    [float] accept. *)
Fixpoint digits_us (after_digit : bool) (s : string) : option string :=
  match s with
  | EmptyString => if after_digit then Some EmptyString else None
  | String c s' =>
      if is_digit c then String c <$> digits_us true s'
      else if Ascii.eqb c "_" && after_digit then digits_us false s'
      else None
  end.

Definition split_sign (s : string) : Z * string :=
  match s with
  | String c s' =>
      if Ascii.eqb c "-" then (-1, s') else if Ascii.eqb c "+" then (1, s') else (1, s)
  | EmptyString => (1, s)
  end.

(** [int(s)] on a stripped ASCII string; [None] is [ValueError]. *)
Definition py_int (s : string) : option Z :=
  let '(sg, ds) := split_sign s in
  (λ d, sg * digits_value d 0) <$> digits_us false ds.

Definition digits_us_opt (s : string) : option string :=
  match s with EmptyString => Some EmptyString | _ => digits_us false s end.

(** [\d*.\d*] with a digit on one side at least. *)
Definition py_mantissa (s : string) : option (Z * Z) :=
  match str_split "." s with
  | [l; r] =>
      match digits_us_opt l, digits_us_opt r with
      | Some EmptyString, Some EmptyString => None
      | Some dl, Some dr => Some (digits_value (dl +:+ dr) 0, - Z.of_nat (String.length dr))
      | _, _ => None
      end
  | _ => None
  end.

(** [float(s)] on a stripped ASCII string that contains a point. *)
Definition py_float (s : string) : option (Z * Z) :=
  let '(sg, body) := split_sign s in
  match str_split "e" (str_lower body) with
  | [m] => (λ p, (sg * p.1, p.2)) <$> py_mantissa m
  | [m; x] =>
      match py_mantissa m, py_int x with
      | Some p, Some ex => Some (sg * p.1, p.2 + ex)
      | _, _ => None
      end
  | _ => None
  end.

(** The values of [float]. *)
Inductive pyfloat : Type := FDec (m e : Z) | FInf (negative : bool) | FNaN.

#[export] Instance pyfloat_eq_dec : EqDecision pyfloat.
Proof. solve_decision. Defined.

(** The digits of a float, with a point or without. *)
Definition any_mantissa (s : string) : option (Z * Z) :=
  match str_split "." s with
  | [d] => (λ d, (digits_value d 0, 0)) <$> digits_us false d
  | _ => py_mantissa s
  end.

(** [float(s)] on an ASCII string; [None] is [ValueError]. *)
Definition float_of (s : string) : option pyfloat :=
  let '(sg, body) := split_sign (str_strip s) in
  let low := str_lower body in
  if String.eqb low "inf" || String.eqb low "infinity" then Some (FInf (sg <? 0))
  else if String.eqb low "nan" then Some FNaN
  else match str_split "e" low with
  | [m] => (λ p, FDec (sg * p.1) p.2) <$> any_mantissa m
  | [m; x] =>
      match any_mantissa m, py_int x with
      | Some p, Some ex => Some (FDec (sg * p.1) (p.2 + ex))
      | _, _ => None
      end
  | _ => None
  end.

(** [round(n / d)] for [d > 0], ties to even. *)
Definition round_div (n d : Z) : Z :=
  let q := n / d in let r := n mod d in
  if 2 * r <? d then q else if d <? 2 * r then q + 1 else if Z.even q then q else q + 1.

(** [round(x, k)] *)
Definition round_float (k : Z) (x : pyfloat) : pyfloat :=
  match x with
  | FDec m e => if - k <=? e then x else FDec (round_div m (10 ^ (- e - k))) (- k)
  | _ => x
  end.

Example float_of_examples :
  float_of " 1700000000.25 " = Some (FDec 170000000025 (-2)) ∧ float_of "-3" = Some (FDec (-3) 0) ∧
  float_of "1.5e3" = Some (FDec 15 2) ∧ float_of "Infinity" = Some (FInf false) ∧
  float_of "-inf" = Some (FInf true) ∧ float_of "nan" = Some FNaN ∧ float_of "1.2.3" = None ∧
  float_of "" = None.
Proof. vm_compute. done. Qed.

(** * Lemmas *)

Lemma digits_us_digits b s :
  (s ≠ ""%string ∨ b = true) → str_all is_digit s = true → digits_us b s = Some s.
Proof.
  revert b. induction s as [|c s IH]; intros b Hb; cbn; [by destruct Hb as [| ->]|].
  intros [Hc Hs]%andb_prop. rewrite Hc, IH by (try done; by right). done.
Qed.

Lemma nonneg_digits n :
  0 ≤ n → str_of_Z n ≠ ""%string ∧ str_all is_digit (str_of_Z n) = true.
Proof. intros (c & s & -> & Hc & Hs & _)%str_of_nonneg. cbn. by rewrite Hc, Hs. Qed.

Lemma split_sign_digits s :
  str_all is_digit s = true → split_sign s = (1, s).
Proof.
  destruct s as [|c s]; [done|]. cbn. intros [Hc _]%andb_prop.
  destruct (Ascii.eqb_spec c "-") as [->|]; [done|]. by destruct (Ascii.eqb_spec c "+") as [->|].
Qed.

Lemma py_int_str_of_Z n : py_int (str_of_Z n) = Some n.
Proof.
  unfold py_int. destruct (decide (n < 0)) as [Hn|Hn].
  - rewrite str_of_neg by done. cbn [split_sign Ascii.eqb Bool.eqb].
    destruct (nonneg_digits (- n) ltac:(lia)) as [H1 H2].
    rewrite digits_us_digits by (try done; by left). cbn. rewrite digits_value_str_of_Z by lia.
    f_equal. lia.
  - destruct (nonneg_digits n ltac:(lia)) as [H1 H2].
    rewrite split_sign_digits by done. rewrite digits_us_digits by (try done; by left). cbn.
    rewrite digits_value_str_of_Z by lia. f_equal. lia.
Qed.

Lemma digit_neq c d : is_digit c = true → is_digit d = false → Ascii.eqb c d = false.
Proof. intros H1 H2. apply Ascii.eqb_neq. intros ->. congruence. Qed.

(** A number of millionths with its point. *)
Lemma py_mantissa_body a :
  0 ≤ a →
  py_mantissa (str_of_Z (a / 1000000) +:+ "." +:+ fixed_digits 6 a) = Some (a, -6).
Proof.
  intros Ha. destruct (nonneg_digits (a / 1000000) ltac:(zdiv)) as [H1 H2].
  pose proof (fixed_digits_all 6 a Ha) as H3. unfold py_mantissa.
  assert (∀ s, str_all is_digit s = true → str_all (λ c, negb (Ascii.eqb c ".")) s = true) as Hnd.
  { intros s. apply str_all_impl. intros c Hc. by rewrite digit_neq. }
  change ("." +:+ fixed_digits 6 a) with (String "." (fixed_digits 6 a)).
  rewrite str_split_app, str_split_none by by apply Hnd.
  unfold digits_us_opt. destruct (str_of_Z (a / 1000000)) as [|c s] eqn:E; [done|]. rewrite <-E in *.
  destruct (fixed_digits 6 a) as [|c' s'] eqn:E'; [done|]. rewrite <-E' in *.
  rewrite !digits_us_digits by (try done; left; congruence).
  rewrite E. rewrite <-E. rewrite digits_value_app, digits_value_str_of_Z by zdiv.
  rewrite digits_value_fixed by done. rewrite fixed_digits_length.
  change (10 ^ Z.of_nat 6) with 1000000. do 2 f_equal. zdiv.
Qed.

Lemma round_div_nonneg n d : 0 ≤ n → 0 < d → 0 ≤ round_div n d.
Proof.
  intros Hn Hd. unfold round_div. pose proof (Z.div_pos n d Hn Hd). cbv zeta. repeat case_match; lia.
Qed.

