(* ===== verification/PyDict.v ===== *)
(** Python dicts with text keys, as the lists of their items in insertion order. *)

From S2P Require Import Prelude.
From stdpp Require Import base tactics list strings.

Section dict.
Context {V : Type}.

Fixpoint dict_get (k : string) (d : list (string * V)) : option V :=
  match d with
  | [] => None
  | (k', v) :: d' => if String.eqb k' k then Some v else dict_get k d'
  end.

(** [d[k] = v]: an existing key keeps its position. *)
Fixpoint dict_set (k : string) (v : V) (d : list (string * V)) : list (string * V) :=
  match d with
  | [] => [(k, v)]
  | (k', v') :: d' => if String.eqb k' k then (k', v) :: d' else (k', v') :: dict_set k v d'
  end.

Definition dict_update (d : list (string * V)) (items : list (string * V)) : list (string * V) :=
  fold_left (λ d kv, dict_set kv.1 kv.2 d) items d.

(** The value a list of items gives to a key: the last one. *)
Fixpoint last_value (k : string) (items : list (string * V)) : option V :=
  match items with
  | [] => None
  | (k', v) :: items' =>
      match last_value k items' with
      | Some w => Some w
      | None => if String.eqb k' k then Some v else None
      end
  end.

(** [d.setdefault(k, v)]: the dict afterwards. *)
Definition dict_setdefault (k : string) (v : V) (d : list (string * V)) : list (string * V) :=
  match dict_get k d with Some _ => d | None => dict_set k v d end.

(** * Lemmas *)


Lemma dict_get_set k k' v d :
  dict_get k (dict_set k' v d) = if decide (k = k') then Some v else dict_get k d.
Proof.
  induction d as [|[k0 v0] d IH]; cbn [dict_set dict_get].
  - destruct (String.eqb_spec k' k); case_decide; naive_solver.
  - destruct (String.eqb_spec k0 k') as [->|]; cbn [dict_get].
    + destruct (String.eqb_spec k' k); case_decide; naive_solver.
    + destruct (String.eqb_spec k0 k); [case_decide; naive_solver|exact IH].
Qed.

Lemma dict_get_None k d : dict_get k d = None ↔ k ∉ List.map fst d.
Proof.
  induction d as [|[k0 v0] d IH]; cbn [dict_get List.map fst].
  - split; [intros _ H; by apply elem_of_nil in H|done].
  - rewrite not_elem_of_cons. destruct (String.eqb_spec k0 k); naive_solver.
Qed.

Lemma dict_get_update k d items :
  dict_get k (dict_update d items) =
  match last_value k items with Some v => Some v | None => dict_get k d end.
Proof.
  unfold dict_update. revert d. induction items as [|[k0 v0] items IH]; intros d; [done|].
  cbn [fold_left last_value fst snd]. rewrite IH, dict_get_set.
  destruct (last_value k items); [done|]. destruct (String.eqb_spec k0 k); case_decide; naive_solver.
Qed.

Lemma dict_set_fresh k v d : k ∉ List.map fst d → dict_set k v d = d ++ [(k, v)].
Proof.
  induction d as [|[k0 v0] d IH]; [done|]. cbn. intros [Hk Hd]%not_elem_of_cons.
  destruct (String.eqb_spec k0 k); [congruence|]. by rewrite IH.
Qed.

Lemma dict_update_fresh d items :
  NoDup (List.map fst (d ++ items)) → dict_update d items = d ++ items.
Proof.
  unfold dict_update. revert d. induction items as [|[k v] items IH]; intros d Hd; cbn [fold_left].
  { by rewrite app_nil_r. }
  cbn [fst snd]. rewrite dict_set_fresh.
  - rewrite IH; rewrite <-app_assoc; [done|exact Hd].
  - rewrite List.map_app in Hd. apply NoDup_app in Hd as (_ & Hd & _). cbn in Hd.
    intros H. apply (Hd _ H). by left.
Qed.

Lemma last_value_nodup k items :
  NoDup (List.map fst items) → last_value k items = dict_get k items.
Proof.
  induction items as [|[k0 v0] items IH]; [done|]. cbn [List.map fst last_value dict_get].
  intros [Hk Hd]%NoDup_cons. rewrite IH by done. destruct (String.eqb_spec k0 k) as [->|].
  - apply dict_get_None in Hk. by rewrite Hk.
  - by destruct (dict_get k items).
Qed.

Lemma dict_get_filter (p : string → bool) k d :
  dict_get k (List.filter (λ kv, p kv.1) d) = if p k then dict_get k d else None.
Proof.
  induction d as [|[k0 v0] d IH]; cbn [List.filter dict_get fst]; [by destruct (p k)|].
  destruct (p k0) eqn:E; cbn [dict_get]; rewrite IH; destruct (String.eqb_spec k0 k) as [->|];
    try done; by rewrite E.
Qed.

Lemma last_value_filter (p : string → bool) k d :
  last_value k (List.filter (λ kv, p kv.1) d) = if p k then last_value k d else None.
Proof.
  induction d as [|[k0 v0] d IH]; cbn [List.filter last_value fst]; [by destruct (p k)|].
  destruct (p k0) eqn:E; cbn [last_value]; rewrite IH; destruct (p k) eqn:E'; try done;
    destruct (String.eqb_spec k0 k) as [->|]; try congruence; by destruct (last_value k d).
Qed.

Lemma dict_set_keys k v d :
  List.map fst (dict_set k v d) =
  if decide (k ∈ List.map fst d) then List.map fst d else List.map fst d ++ [k].
Proof.
  induction d as [|[k0 v0] d IH]; cbn [dict_set List.map fst].
  - case_decide as H; [by apply elem_of_nil in H|done].
  - destruct (String.eqb_spec k0 k) as [->|Hne]; cbn [List.map fst].
    + by rewrite decide_True by by left.
    + rewrite IH. destruct (decide (k ∈ List.map fst d)) as [H|H].
      * by rewrite decide_True by by right.
      * rewrite decide_False; [done|]. intros [|]%elem_of_cons; congruence.
Qed.

Lemma dict_set_nodup k v d : NoDup (List.map fst d) → NoDup (List.map fst (dict_set k v d)).
Proof.
  intros Hd. rewrite dict_set_keys. case_decide as H; [done|].
  apply NoDup_app. split_and!; [done| |apply NoDup_singleton].
  intros x Hx ->%list_elem_of_singleton. done.
Qed.

Lemma dict_update_nodup d items :
  NoDup (List.map fst d) → NoDup (List.map fst (dict_update d items)).
Proof.
  unfold dict_update. revert d. induction items as [|[k v] items IH]; intros d Hd; [done|].
  apply IH. by apply dict_set_nodup.
Qed.

Lemma dict_set_Forall (P : string * V → Prop) k v d :
  P (k, v) → Forall P d → Forall P (dict_set k v d).
Proof.
  intros Hv. induction 1 as [|[k0 v0] d H0 Hd IH]; cbn [dict_set]; [by constructor|].
  destruct (String.eqb_spec k0 k) as [->|]; by constructor.
Qed.

Lemma dict_update_Forall (P : string * V → Prop) d items :
  Forall P items → Forall P d → Forall P (dict_update d items).
Proof.
  unfold dict_update. intros Hi. revert d. induction Hi as [|[k v] items H0 Hi IH]; intros d Hd; [done|].
  apply IH. by apply dict_set_Forall.
Qed.

Lemma dict_set_replace k v v0 l1 l2 :
  k ∉ List.map fst l1 → dict_set k v (l1 ++ (k, v0) :: l2) = l1 ++ (k, v) :: l2.
Proof.
  induction l1 as [|[k1 v1] l1 IH]; cbn [app dict_set List.map fst]; [by rewrite String.eqb_refl|].
  intros [Hk Hl]%not_elem_of_cons. destruct (String.eqb_spec k1 k); [congruence|]. by rewrite IH.
Qed.

Lemma dict_set_same k v d : dict_get k d = Some v → dict_set k v d = d.
Proof.
  induction d as [|[k0 v0] d IH]; [done|]. cbn [dict_get dict_set].
  destruct (String.eqb_spec k0 k) as [->|]; [by intros [= ->]|]. intros H. by rewrite IH.
Qed.

Lemma dict_update_same d items :
  Forall (λ kv, dict_get kv.1 d = Some kv.2) items → dict_update d items = d.
Proof.
  unfold dict_update. induction 1 as [|[k v] items H0 Hi IH]; [done|]. cbn [fold_left fst snd] in *.
  by rewrite dict_set_same.
Qed.

Lemma dict_get_elem k v d : NoDup (List.map fst d) → (k, v) ∈ d → dict_get k d = Some v.
Proof.
  induction d as [|[k0 v0] d IH]; [by intros _ H%elem_of_nil|]. cbn [List.map fst dict_get].
  intros [Hk Hd]%NoDup_cons [[= -> ->]|H]%elem_of_cons; [by rewrite String.eqb_refl|].
  destruct (String.eqb_spec k0 k) as [->|]; [|by apply IH].
  exfalso. apply Hk. apply list_elem_of_In, List.in_map_iff. exists (k, v).
  by rewrite <-list_elem_of_In.
Qed.

Lemma last_value_app k l1 l2 :
  last_value k (l1 ++ l2) =
  match last_value k l2 with Some v => Some v | None => last_value k l1 end.
Proof.
  induction l1 as [|[k0 v0] l1 IH]; cbn [app last_value]; [by destruct (last_value k l2)|].
  rewrite IH. by destruct (last_value k l2), (last_value k l1).
Qed.

Lemma last_value_None k l : k ∉ List.map fst l → last_value k l = None.
Proof.
  induction l as [|[k0 v0] l IH]; [done|]. cbn [List.map fst last_value].
  intros [Hk Hl]%not_elem_of_cons. rewrite IH by done. by destruct (String.eqb_spec k0 k).
Qed.
End dict.
