(* ===== verification/PyCrypto.v ===== *)
(** The standard library's [hashlib] and [hmac], as far as the sources use
    them: SHA-256, HMAC-SHA256 and PBKDF2-HMAC-SHA256, on bytes as [list Z] with
    32-bit words as [Z] and their wrap-around written out.

    No theorem of the development assumes a security property of these
    functions; they are here so that every definition is executable. *)

From S2P Require Import Prelude PyStr.
From Stdlib Require Import ZArith Lia Ascii Bool.
From stdpp Require Import base tactics list strings.

Local Open Scope Z_scope.

Definition mask32 : Z := 4294967295.
Definition add32 (a b : Z) : Z := Z.land (a + b) mask32.
Definition rotr32 (n a : Z) : Z :=
  Z.lor (Z.shiftr a n) (Z.land (Z.shiftl a (32 - n)) mask32).
Definition not32 (a : Z) : Z := Z.lxor a mask32.

Definition sha256_k : list Z :=
  [1116352408; 1899447441; 3049323471; 3921009573; 961987163; 1508970993; 2453635748;
   2870763221; 3624381080; 310598401; 607225278; 1426881987; 1925078388; 2162078206;
   2614888103; 3248222580; 3835390401; 4022224774; 264347078; 604807628; 770255983;
   1249150122; 1555081692; 1996064986; 2554220882; 2821834349; 2952996808; 3210313671;
   3336571891; 3584528711; 113926993; 338241895; 666307205; 773529912; 1294757372;
   1396182291; 1695183700; 1986661051; 2177026350; 2456956037; 2730485921; 2820302411;
   3259730800; 3345764771; 3516065817; 3600352804; 4094571909; 275423344; 430227734;
   506948616; 659060556; 883997877; 958139571; 1322822218; 1537002063; 1747873779;
   1955562222; 2024104815; 2227730452; 2361852424; 2428436474; 2756734187; 3204031479;
   3329325298].

Definition sha256_init : list Z :=
  [1779033703; 3144134277; 1013904242; 2773480762; 1359893119; 2600822924; 528734635;
   1541459225].

Fixpoint be_bytes (n : nat) (v : Z) : list Z :=
  match n with
  | O => []
  | S n' => Z.land (Z.shiftr v (8 * Z.of_nat n')) 255 :: be_bytes n' v
  end.

Fixpoint words_of_bytes (bs : list Z) : list Z :=
  match bs with
  | a :: b :: c :: d :: r => (a * 16777216 + b * 65536 + c * 256 + d) :: words_of_bytes r
  | _ => []
  end.

Definition sha256_pad (bs : list Z) : list Z :=
  let n := Z.of_nat (length bs) in
  bs ++ [128] ++ repeat 0 (Z.to_nat ((55 - n) mod 64)) ++ be_bytes 8 (8 * n).

(** The message schedule, kept as the last sixteen words, newest last. *)
Definition next_word (w : list Z) : Z :=
  let s0 := let x := nth 1 w 0 in
    Z.lxor (Z.lxor (rotr32 7 x) (rotr32 18 x)) (Z.shiftr x 3) in
  let s1 := let x := nth 14 w 0 in
    Z.lxor (Z.lxor (rotr32 17 x) (rotr32 19 x)) (Z.shiftr x 10) in
  add32 (add32 (nth 0 w 0) s0) (add32 (nth 9 w 0) s1).

Definition sha256_round (k w : Z) (st : list Z) : list Z :=
  match st with
  | [a; b; c; d; e; f; g; h] =>
      let s1 := Z.lxor (Z.lxor (rotr32 6 e) (rotr32 11 e)) (rotr32 25 e) in
      let ch := Z.lxor (Z.land e f) (Z.land (not32 e) g) in
      let t1 := add32 (add32 (add32 h s1) (add32 ch k)) w in
      let s0 := Z.lxor (Z.lxor (rotr32 2 a) (rotr32 13 a)) (rotr32 22 a) in
      let maj := Z.lxor (Z.lxor (Z.land a b) (Z.land a c)) (Z.land b c) in
      [add32 t1 (add32 s0 maj); a; b; c; add32 d t1; e; f; g]
  | _ => st
  end.

Fixpoint sha256_rounds (ks : list Z) (w : list Z) (st : list Z) : list Z :=
  match ks with
  | [] => st
  | k :: ks' =>
      sha256_rounds ks' (tail w ++ [next_word w]) (sha256_round k (nth 0 w 0) st)
  end.

Definition sha256_block (st w : list Z) : list Z :=
  zip_with add32 st (sha256_rounds sha256_k w st).

Fixpoint sha256_blocks (fuel : nat) (st ws : list Z) : list Z :=
  match fuel, ws with
  | S n, _ :: _ => sha256_blocks n (sha256_block st (take 16 ws)) (drop 16 ws)
  | _, _ => st
  end.

Definition sha256 (bs : list Z) : list Z :=
  let ws := words_of_bytes (sha256_pad bs) in
  concat (List.map (be_bytes 4) (sha256_blocks (length ws) sha256_init ws)).

Definition xor_bytes : list Z → list Z → list Z := zip_with Z.lxor.

(** [hmac.new(key, msg, hashlib.sha256).digest()] *)
Definition hmac_sha256 (key msg : list Z) : list Z :=
  let k := if 64 <? Z.of_nat (length key) then sha256 key else key in
  let k := k ++ repeat 0 (64 - length k) in
  sha256 (xor_bytes k (repeat 92 64) ++ sha256 (xor_bytes k (repeat 54 64) ++ msg)).

Definition pbkdf2_round (password : list Z) (p : list Z * list Z) : list Z * list Z :=
  let u := hmac_sha256 password p.1 in (u, xor_bytes p.2 u).

(** [hashlib.pbkdf2_hmac("sha256", password, salt, iterations)]: one block. *)
Definition pbkdf2_hmac (password salt : list Z) (iterations : N) : list Z :=
  let u1 := hmac_sha256 password (salt ++ [0; 0; 0; 1]) in
  (N.iter (N.pred iterations) (pbkdf2_round password) (u1, u1)).2.

Example sha256_abc :
  hex_of_bytes (sha256 (bytes_of "abc")) =
  "ba7816bf8f01cfea414140de5dae2223b00361a396177a9cb410ff61f20015ad"%string.
Proof. vm_compute. reflexivity. Qed.

Example hmac_sha256_rfc4231_2 :
  hex_of_bytes (hmac_sha256 (bytes_of "Jefe") (bytes_of "what do ya want for nothing?")) =
  "5bdcc146bf60754e6a042426089575c75a003f089d2739839dec58b964ec3843"%string.
Proof. vm_compute. reflexivity. Qed.

Example pbkdf2_two_iterations :
  hex_of_bytes (pbkdf2_hmac (bytes_of "password") (bytes_of "salt") 2) =
  "ae4d0c95af6b46d32d0adff928f06dd02a303f8ef3c251dfd6e2d85a95474c43"%string.
Proof. vm_compute. reflexivity. Qed.

#[global] Arguments sha256 : simpl never.
#[global] Arguments hmac_sha256 : simpl never.
#[global] Arguments pbkdf2_hmac : simpl never.

(** ** Lemmas *)

Lemma be_bytes_bound n v : Forall (λ b, 0 ≤ b < 256) (be_bytes n v).
Proof.
  induction n as [|n IH]; cbn [be_bytes]; constructor; [|done].
  change 255 with (Z.ones 8). rewrite Z.land_ones by lia. apply Z.mod_pos_bound. lia.
Qed.

Lemma sha256_bound bs : Forall (λ b, 0 ≤ b < 256) (sha256 bs).
Proof.
  unfold sha256. set (l := sha256_blocks _ _ _). clearbody l.
  induction l as [|v l IH]; cbn [List.map concat]; [constructor|].
  apply Forall_app. split; [apply be_bytes_bound|exact IH].
Qed.

Lemma hmac_sha256_bound key msg : Forall (λ b, 0 ≤ b < 256) (hmac_sha256 key msg).
Proof. apply sha256_bound. Qed.

(** * Comparison *)

(** [hmac.compare_digest] on two [str]: only ASCII strings are accepted. *)
Definition compare_digest (a b : string) : result bool :=
  if str_isascii a && str_isascii b then Ret (String.eqb a b)
  else Raise (TypeError "comparing strings with non-ASCII characters is not supported").

Lemma hex_digit_ascii n : (0 ≤ n < 16)%Z → (ord (hex_digit n) <? 128)%Z = true.
Proof.
  intros Hn. apply (forall_range (λ n, ord (hex_digit n) <? 128)%Z 16); [|exact Hn].
  vm_compute. reflexivity.
Qed.

Lemma hex_of_bytes_isascii bs :
  Forall (λ b, 0 ≤ b < 256)%Z bs → str_isascii (hex_of_bytes bs) = true.
Proof.
  unfold str_isascii. induction 1 as [|b bs Hb _ IH]; [done|]. cbn.
  rewrite !hex_digit_ascii by zdiv. by rewrite IH.
Qed.

Lemma compare_digest_refl s : str_isascii s = true → compare_digest s s = Ret true.
Proof. intros H. unfold compare_digest. by rewrite H, String.eqb_refl. Qed.

Lemma compare_digest_true a b : compare_digest a b = Ret true → a = b.
Proof.
  unfold compare_digest. destruct (_ && _); [|done]. intros [= H]. by apply String.eqb_eq.
Qed.
