(* ===== verification/PyTime.v ===== *)
(** UTC datetimes of the standard library as far as the program uses them:
    [isoformat], subtraction of whole days, and the order of the formatted texts,
    which is how the databases compare times. *)

From S2P Require Import Prelude PyStr.
From Stdlib Require Import ZArith Lia Ascii Bool.
From stdpp Require Import base tactics list strings.

Local Open Scope Z_scope.

Record datetime := {
  year : Z; month : Z; day : Z; hour : Z; minute : Z; second : Z; microsecond : Z }.

#[export] Instance datetime_eq_dec : EqDecision datetime.
Proof. solve_decision. Defined.

Definition is_leap (y : Z) : bool :=
  (y mod 4 =? 0) && (negb (y mod 100 =? 0) || (y mod 400 =? 0)).

Definition days_in_month (y m : Z) : Z :=
  if m =? 2 then (if is_leap y then 29 else 28)
  else if (m =? 4) || (m =? 6) || (m =? 9) || (m =? 11) then 30 else 31.

Definition valid_datetime (t : datetime) : bool :=
  (1 <=? year t) && (year t <=? 9999) && (1 <=? month t) && (month t <=? 12) &&
  (1 <=? day t) && (day t <=? days_in_month (year t) (month t)) &&
  (0 <=? hour t) && (hour t <=? 23) && (0 <=? minute t) && (minute t <=? 59) &&
  (0 <=? second t) && (second t <=? 59) && (0 <=? microsecond t) && (microsecond t <=? 999999).

(** The components in the order in which datetimes are compared. *)
Definition fields (t : datetime) : list Z :=
  [year t; month t; day t; hour t; minute t; second t; microsecond t].

Fixpoint lex_ltb (a b : list Z) : bool :=
  match a, b with
  | x :: a', y :: b' => (x <? y) || ((x =? y) && lex_ltb a' b')
  | _, _ => false
  end.

Definition dt_ltb (a b : datetime) : bool := lex_ltb (fields a) (fields b).

Definition with_date (y m d : Z) (t : datetime) : datetime :=
  {| year := y; month := m; day := d; hour := hour t; minute := minute t; second := second t;
     microsecond := microsecond t |}.

(** The same time on the day before. *)
Definition previous_day (t : datetime) : datetime :=
  if 1 <? day t then with_date (year t) (month t) (day t - 1) t
  else if 1 <? month t then
    with_date (year t) (month t - 1) (days_in_month (year t) (month t - 1)) t
  else with_date (year t - 1) 12 31 t.

(** [t - timedelta(days=n)]; before the year 1 it raises [OverflowError]. *)
Definition minus_days (t : datetime) (n : nat) : option datetime :=
  let r := Nat.iter n previous_day t in if year r <? 1 then None else Some r.

(** [isoformat()] of a datetime in UTC. *)
Definition isoformat (t : datetime) : string :=
  fixed_digits 4 (year t) +:+ "-" +:+ fixed_digits 2 (month t) +:+ "-" +:+ fixed_digits 2 (day t)
  +:+ "T" +:+ fixed_digits 2 (hour t) +:+ ":" +:+ fixed_digits 2 (minute t) +:+ ":"
  +:+ fixed_digits 2 (second t)
  +:+ (if microsecond t =? 0 then "+00:00"
       else "." +:+ fixed_digits 6 (microsecond t) +:+ "+00:00").

Example isoformat_example :
  isoformat {| year := 2026; month := 3; day := 1; hour := 7; minute := 5; second := 9;
               microsecond := 1200 |} = "2026-03-01T07:05:09.001200+00:00"%string.
Proof. vm_compute. reflexivity. Qed.
Example minus_days_example :
  minus_days {| year := 2024; month := 3; day := 1; hour := 0; minute := 0; second := 0; microsecond := 0 |} 366
  = Some {| year := 2023; month := 3; day := 1; hour := 0; minute := 0; second := 0; microsecond := 0 |}.
Proof. vm_compute. reflexivity. Qed.

(** * The order of the texts *)

Lemma ltb_cons c s t : String.ltb (String c s) (String c t) = String.ltb s t.
Proof.
  unfold String.ltb. cbn. unfold Ascii.compare. by rewrite N.compare_refl.
Qed.

Lemma ltb_cons_lt c d s t : ord c < ord d → String.ltb (String c s) (String d t) = true.
Proof.
  intros H. unfold String.ltb. cbn. unfold Ascii.compare, ord in *.
  assert (N_of_ascii c < N_of_ascii d)%N as Hlt by lia. by rewrite (proj2 (N.compare_lt_iff _ _) Hlt).
Qed.

Lemma ltb_cons_gt c d s t : ord d < ord c → String.ltb (String c s) (String d t) = false.
Proof.
  intros H. unfold String.ltb. cbn. unfold Ascii.compare, ord in *.
  assert (N_of_ascii d < N_of_ascii c)%N as Hlt by lia. by rewrite (proj2 (N.compare_gt_iff _ _) Hlt).
Qed.

Lemma ltb_app p s t : String.ltb (p +:+ s) (p +:+ t) = String.ltb s t.
Proof. induction p as [|c p IH]; [done|]. by rewrite !str_app_cons, ltb_cons. Qed.

Lemma fixed_digits_split k n :
  n mod 10 ^ Z.of_nat (S k) =
  (n / 10 ^ Z.of_nat k) mod 10 * 10 ^ Z.of_nat k + n mod 10 ^ Z.of_nat k.
Proof.
  rewrite Nat2Z.inj_succ, Z.pow_succ_r, (Z.mul_comm 10), Z.rem_mul_r by lia. lia.
Qed.

(** Digits of one width compare as the numbers, and equal ones leave the rest. *)
Lemma fixed_digits_ltb k n m s t :
  String.ltb (fixed_digits k n +:+ s) (fixed_digits k m +:+ t) =
  (n mod 10 ^ Z.of_nat k <? m mod 10 ^ Z.of_nat k) ||
  ((n mod 10 ^ Z.of_nat k =? m mod 10 ^ Z.of_nat k) && String.ltb s t).
Proof.
  induction k as [|k IH]; [by rewrite !Z.mod_1_r|].
  rewrite !fixed_digits_split. cbn [fixed_digits]. rewrite !str_app_cons.
  set (p := 10 ^ Z.of_nat k) in *.
  assert (0 < p) as Hp by (unfold p; lia).
  pose proof (Z.mod_pos_bound n p Hp). pose proof (Z.mod_pos_bound m p Hp).
  pose proof (Z.mod_pos_bound (n / p) 10 ltac:(lia)). pose proof (Z.mod_pos_bound (m / p) 10 ltac:(lia)).
  set (a := (n / p) mod 10) in *. set (b := (m / p) mod 10) in *.
  destruct (Z.lt_trichotomy a b) as [Hab|[Hab|Hab]].
  - rewrite ltb_cons_lt by (rewrite !ord_chr by lia; lia).
    assert (a * p + n mod p < b * p + m mod p) as Hlt by nia.
    by rewrite (proj2 (Z.ltb_lt _ _) Hlt).
  - rewrite Hab, ltb_cons, IH.
    destruct (Z.ltb_spec (n mod p) (m mod p)), (Z.ltb_spec (b * p + n mod p) (b * p + m mod p)),
      (Z.eqb_spec (n mod p) (m mod p)), (Z.eqb_spec (b * p + n mod p) (b * p + m mod p));
      cbn [orb andb]; try done; lia.
  - rewrite ltb_cons_gt by (rewrite !ord_chr by lia; lia).
    assert (b * p + m mod p < a * p + n mod p) as Hlt by nia.
    destruct (Z.ltb_spec (a * p + n mod p) (b * p + m mod p)); [lia|].
    destruct (Z.eqb_spec (a * p + n mod p) (b * p + m mod p)); [lia|done].
Qed.

(** A field of a text: its digits, then the same separator. *)
Lemma field_ltb k n m c s t :
  0 ≤ n < 10 ^ Z.of_nat k → 0 ≤ m < 10 ^ Z.of_nat k →
  String.ltb (fixed_digits k n +:+ String c s) (fixed_digits k m +:+ String c t) =
  (n <? m) || ((n =? m) && String.ltb s t).
Proof. intros Hn Hm. by rewrite fixed_digits_ltb, !Z.mod_small, ltb_cons by done. Qed.

Definition fraction (us : Z) : string :=
  if us =? 0 then "+00:00"%string else ("." +:+ fixed_digits 6 us +:+ "+00:00")%string.

Lemma fraction_ltb a b :
  0 ≤ a < 1000000 → 0 ≤ b < 1000000 → String.ltb (fraction a) (fraction b) = (a <? b).
Proof.
  intros Ha Hb. unfold fraction. destruct (Z.eqb_spec a 0) as [->|], (Z.eqb_spec b 0) as [->|].
  - done.
  - destruct (Z.ltb_spec 0 b); [done|lia].
  - destruct (Z.ltb_spec a 0); [lia|done].
  - rewrite ltb_app, fixed_digits_ltb, !Z.mod_small by done.
    by rewrite andb_false_r, orb_false_r.
Qed.

(** Formatted times compare as the times. *)
Lemma isoformat_ltb a b :
  valid_datetime a = true → valid_datetime b = true →
  String.ltb (isoformat a) (isoformat b) = dt_ltb a b.
Proof.
  intros Ha Hb. unfold valid_datetime in *.
  repeat match goal with H : _ && _ = true |- _ => apply andb_prop in H as [? ?] end.
  assert (∀ y m, days_in_month y m ≤ 31) as Hm by (intros; unfold days_in_month; repeat case_match; lia).
  pose proof (Hm (year a) (month a)). pose proof (Hm (year b) (month b)).
  unfold isoformat, dt_ltb, fields. cbn [lex_ltb].
  fold (fraction (microsecond a)) (fraction (microsecond b)).
  rewrite !str_app_cons, !str_app_empty, !field_ltb by (cbn; lia).
  rewrite fixed_digits_ltb, !Z.mod_small by (cbn; lia).
  rewrite fraction_ltb by lia. by rewrite andb_false_r, orb_false_r.
Qed.

Lemma days_in_month_bounds y m : 28 ≤ days_in_month y m ≤ 31.
Proof. unfold days_in_month. repeat case_match; lia. Qed.

(** Valid but for a year before 1. *)
Definition proleptic (t : datetime) : bool :=
  valid_datetime (with_date (Z.max 1 (year t)) (month t) 1 t) &&
  (1 <=? day t) && (day t <=? days_in_month (year t) (month t)).

Lemma proleptic_valid t : valid_datetime t = proleptic t && (1 <=? year t).
Proof.
  unfold proleptic, valid_datetime. cbn. pose proof (days_in_month_bounds (Z.max 1 (year t)) (month t)).
  apply Bool.eq_true_iff_eq. rewrite !andb_true_iff, !Z.leb_le. lia.
Qed.

Lemma proleptic_previous_day t : proleptic t = true → proleptic (previous_day t) = true.
Proof.
  unfold proleptic, valid_datetime, previous_day.
  pose proof (days_in_month_bounds (year t) (month t - 1)).
  pose proof (days_in_month_bounds (Z.max 1 (year t)) (month t - 1)).
  pose proof (days_in_month_bounds (Z.max 1 (year t)) (month t)).
  destruct (Z.ltb_spec 1 (day t)), (Z.ltb_spec 1 (month t)); cbn;
    rewrite !andb_true_iff, !Z.leb_le; try lia;
    try (pose proof (days_in_month_bounds (Z.max 1 (year t - 1)) 12); cbn; lia).
Qed.

Lemma minus_days_valid t n r :
  valid_datetime t = true → minus_days t n = Some r → valid_datetime r = true.
Proof.
  unfold minus_days. rewrite !proleptic_valid. intros [Hp _]%andb_prop.
  destruct (Z.ltb_spec (year (Nat.iter n previous_day t)) 1); [done|]. intros [= <-].
  apply andb_true_intro. split; [|lia].
  induction n as [|n IH]; [done|]. apply proleptic_previous_day. clear -Hp.
  induction n; [done|]. by apply proleptic_previous_day.
Qed.
