(* ===== verification/PyJson.v ===== *)
(** The standard library's [json]: values, [json.dumps] with [ensure_ascii] and
    the two separators as arguments, and [json.loads].

    Floating-point numbers are kept as decimals [m * 10^e], together with the
    three constants that [json.loads] accepts.  [loads] consumes at least one
    character per step of fuel, so the length of the text is enough. *)

From S2P Require Import Prelude PyStr PyNum PyDict.
From Stdlib Require Import ZArith Lia Ascii Bool DecimalString DecimalZ DecimalFacts.
From stdpp Require Import base tactics list strings.

Local Open Scope Z_scope.

(** * Values *)

Inductive json : Type :=
  | JNull
  | JBool (b : bool)
  | JInt (n : Z)
  | JFloat (m e : Z)
  | JConstant (name : string)
  | JStr (s : string)
  | JArr (l : list json)
  | JObj (l : list (string * json)).

(** A dict built from the pairs in order: the last binding of a key wins. *)
Fixpoint json_get (k : string) (l : list (string * json)) : option json :=
  match l with
  | [] => None
  | (k', v) :: l' =>
      match json_get k l' with
      | Some w => Some w
      | None => if String.eqb k' k then Some v else None
      end
  end.

(** * json.dumps *)

Definition dquote : ascii := "034"%char.
Definition backslash : ascii := "\"%char.

Definition hex4 (p : Z) : string := hex_of_bytes [p / 256; p mod 256].
Definition escaped (c : ascii) : string := String backslash (String c "").
Definition u_escape (p : Z) : string := String backslash (String "u" (hex4 p)).

Definition escape_point (p : Z) : string :=
  if p =? 34 then escaped dquote
  else if p =? 92 then escaped backslash
  else if p =? 10 then escaped "n"
  else if p =? 13 then escaped "r"
  else if p =? 9 then escaped "t"
  else if p =? 12 then escaped "f"
  else if p =? 8 then escaped "b"
  else if (32 <=? p) && (p <=? 126) then String (chr p) ""
  else if p <? 65536 then u_escape p
  else let v := p - 65536 in
       (u_escape (55296 + v / 1024) +:+ u_escape (56320 + v mod 1024)).

Fixpoint escape_points (ps : list Z) : string :=
  match ps with [] => "" | p :: ps' => escape_point p +:+ escape_points ps' end.

Definition dumps_str (s : string) : string :=
  String dquote (escape_points (default [] (utf8_decode (bytes_of s)))
                 +:+ String dquote "").

(** [repr] of a float is not modelled beyond its decimal value. *)
Definition dumps_float (m e : Z) : string := str_of_Z m +:+ "e" +:+ str_of_Z e.

Section dumps.
Context (item_sep key_sep : string).

Fixpoint dumps (v : json) : string :=
  match v with
  | JNull => "null"
  | JBool b => if b then "true" else "false"
  | JInt n => str_of_Z n
  | JFloat m e => dumps_float m e
  | JConstant name => name
  | JStr s => dumps_str s
  | JArr l => "[" +:+ str_join item_sep (List.map dumps l) +:+ "]"
  | JObj l =>
      "{" +:+ str_join item_sep
        (List.map (λ kv, dumps_str kv.1 +:+ key_sep +:+ dumps kv.2) l) +:+ "}"
  end.
End dumps.

(** The same with white space that depends on the depth: after an opening
    bracket, after a comma, before a closing bracket, after a colon. *)
Section layout.
Context (wopen wsep wclose : nat → string) (wkey : string).

Fixpoint dumps_layout (n : nat) (v : json) : string :=
  match v with
  | JNull => "null"
  | JBool b => if b then "true" else "false"
  | JInt k => str_of_Z k
  | JFloat m e => dumps_float m e
  | JConstant name => name
  | JStr s => dumps_str s
  | JArr [] => "[]"
  | JArr l =>
      "[" +:+ wopen n +:+ str_join (String "," (wsep n)) (List.map (dumps_layout (S n)) l)
      +:+ wclose n +:+ "]"
  | JObj [] => "{}"
  | JObj l =>
      "{" +:+ wopen n +:+ str_join (String "," (wsep n))
        (List.map (λ kv, dumps_str kv.1 +:+ String ":" wkey +:+ dumps_layout (S n) kv.2) l)
      +:+ wclose n +:+ "}"
  end.
End layout.

(** [json.dumps(v, indent=k)] *)
Definition newline_indent (k n : nat) : string := String "010" (str_repeat " " (k * n)).
Definition dumps_indent (k : nat) (v : json) : string :=
  dumps_layout (λ n, newline_indent k (S n)) (λ n, newline_indent k (S n))
    (newline_indent k) " " 0 v.

(** * json.loads *)

Definition hex_quad (a b c d : ascii) : option Z :=
  match hex_value a, hex_value b, hex_value c, hex_value d with
  | Some x, Some y, Some z, Some w => Some (((x * 16 + y) * 16 + z) * 16 + w)
  | _, _, _, _ => None
  end.

Definition simple_escape (c : ascii) : option ascii :=
  if Ascii.eqb c dquote then Some dquote
  else if Ascii.eqb c backslash then Some backslash
  else if Ascii.eqb c "/" then Some "/"%char
  else if Ascii.eqb c "n" then Some "010"%char
  else if Ascii.eqb c "r" then Some "013"%char
  else if Ascii.eqb c "t" then Some "009"%char
  else if Ascii.eqb c "f" then Some "012"%char
  else if Ascii.eqb c "b" then Some "008"%char
  else None.

Definition is_high (p : Z) : bool := (55296 <=? p) && (p <=? 56319).
Definition is_low (p : Z) : bool := (56320 <=? p) && (p <=? 57343).

(** The low surrogate escape at the head of the text, if there is one. *)
Definition low_surrogate (s : string) : option (Z * string) :=
  match s with
  | String q (String u (String a (String b (String c (String d r))))) =>
      if Ascii.eqb q backslash && Ascii.eqb u "u" then
        match hex_quad a b c d with
        | Some p => if is_low p then Some (p, r) else None
        | None => None
        end
      else None
  | _ => None
  end.

Definition consume (bs : list Z) (r : option (string * string)) : option (string * string) :=
  match r with
  | Some (s, rest) => Some (string_of_bytes bs +:+ s, rest)
  | None => None
  end.

(** [scanstring] after the opening quote: the value and the rest of the text. *)
Fixpoint scan_string (fuel : nat) (s : string) : option (string * string) :=
  match fuel with
  | O => None
  | S fuel =>
      match s with
      | EmptyString => None
      | String c s1 =>
          if Ascii.eqb c dquote then Some (EmptyString, s1)
          else if Ascii.eqb c backslash then
            match s1 with
            | EmptyString => None
            | String e s2 =>
                if Ascii.eqb e "u" then
                  match s2 with
                  | String a (String b (String c' (String d r))) =>
                      match hex_quad a b c' d with
                      | None => None
                      | Some p =>
                          match (if is_high p then low_surrogate r else None) with
                          | Some (q, r') =>
                              consume (utf8_encode_point
                                (65536 + (p - 55296) * 1024 + (q - 56320))) (scan_string fuel r')
                          | None => consume (utf8_encode_point p) (scan_string fuel r)
                          end
                      end
                  | _ => None
                  end
                else match simple_escape e with
                | None => None
                | Some x => consume [ord x] (scan_string fuel s2)
                end
            end
          else if ord c <? 32 then None
          else consume [ord c] (scan_string fuel s1)
      end
  end.

Definition is_ws (c : ascii) : bool :=
  Ascii.eqb c " " || Ascii.eqb c "009" || Ascii.eqb c "010" || Ascii.eqb c "013".
Definition skip_ws : string → string := lstrip_by is_ws.

(** The longest prefix of digits, and the rest. *)
Fixpoint span_digits (s : string) : string * string :=
  match s with
  | EmptyString => ("", "")%string
  | String c s' =>
      if is_digit c then let '(d, r) := span_digits s' in (String c d, r) else (EmptyString, s)
  end.

(** [(?:0|[1-9]\d* )] *)
Definition scan_int_part (s : string) : option (string * string) :=
  match span_digits s with
  | (EmptyString, _) => None
  | (String c d, r) =>
      if Ascii.eqb c "0" then Some (String c "", d +:+ r) else Some (String c d, r)
  end.

(** [(\.\d+)?] *)
Definition scan_frac (s : string) : string * string :=
  match s with
  | String c s' =>
      if Ascii.eqb c "." then
        match span_digits s' with
        | (EmptyString, _) => (EmptyString, s)
        | (d, r) => (d, r)
        end
      else (EmptyString, s)
  | EmptyString => (EmptyString, s)
  end.

(** [([eE][-+]?\d+)?] *)
Definition scan_exp (s : string) : option Z * string :=
  match s with
  | String c s' =>
      if Ascii.eqb c "e" || Ascii.eqb c "E" then
        let '(sign, s2) := match s' with
          | String g s2 => if Ascii.eqb g "-" then (-1, s2)
                           else if Ascii.eqb g "+" then (1, s2) else (1, s')
          | EmptyString => (1, s')
          end in
        match span_digits s2 with
        | (EmptyString, _) => (None, s)
        | (d, r) => ((λ n, sign * n) <$> Z_of_str d, r)
        end
      else (None, s)
  | EmptyString => (None, s)
  end.

Definition scan_number (s : string) : option (json * string) :=
  let '(neg, s0) := match s with
    | String c s' => if Ascii.eqb c "-" then (true, s') else (false, s)
    | EmptyString => (false, s)
    end in
  match scan_int_part s0 with
  | None => None
  | Some (ip, r1) =>
      let '(fp, r2) := scan_frac r1 in
      let '(ex, r3) := scan_exp r2 in
      let sg n := if neg : bool then - n else n in
      match fp, ex with
      | EmptyString, None => (λ n, (JInt (sg n), r3)) <$> Z_of_str ip
      | _, _ => (λ n, (JFloat (sg n) (default 0 ex - Z.of_nat (String.length fp)), r3))
                <$> Z_of_str (ip +:+ fp)
      end
  end.

(** The first of the literals that starts the text. *)
Fixpoint scan_literal (lits : list (string * json)) (s : string) : option (json * string) :=
  match lits with
  | [] => None
  | (lit, v) :: lits' =>
      match str_strip_prefix lit s with Some r => Some (v, r) | None => scan_literal lits' s end
  end.

Definition json_literals : list (string * json) :=
  [("null", JNull); ("true", JBool true); ("false", JBool false);
   ("NaN", JConstant "NaN"); ("Infinity", JConstant "Infinity");
   ("-Infinity", JConstant "-Infinity")]%string.

(** [scan_once]; [scan_elems] and [scan_pairs] are the loops of [JSONArray] and
    [JSONObject] after the first opening bracket. *)
Fixpoint scan_once (fuel : nat) (s : string) : option (json * string) :=
  match fuel with
  | O => None
  | S fuel =>
      match s with
      | EmptyString => None
      | String c s' =>
          if Ascii.eqb c dquote then
            match scan_string fuel s' with Some (v, r) => Some (JStr v, r) | None => None end
          else if Ascii.eqb c "{" then
            match skip_ws s' with
            | String d r =>
                if Ascii.eqb d "}" then Some (JObj [], r)
                else match scan_pairs fuel (String d r) with
                     | Some (l, r') => Some (JObj l, r') | None => None end
            | EmptyString => None
            end
          else if Ascii.eqb c "[" then
            match skip_ws s' with
            | String d r =>
                if Ascii.eqb d "]" then Some (JArr [], r)
                else match scan_elems fuel (String d r) with
                     | Some (l, r') => Some (JArr l, r') | None => None end
            | EmptyString => None
            end
          else match scan_literal json_literals s with
          | Some p => Some p
          | None => scan_number s
          end
      end
  end
with scan_elems (fuel : nat) (s : string) : option (list json * string) :=
  match fuel with
  | O => None
  | S fuel =>
      match scan_once fuel s with
      | None => None
      | Some (v, r) =>
          match skip_ws r with
          | EmptyString => None
          | String c r' =>
              if Ascii.eqb c "]" then Some ([v], r')
              else if Ascii.eqb c "," then
                match scan_elems fuel (skip_ws r') with
                | Some (l, r'') => Some (v :: l, r'') | None => None end
              else None
          end
      end
  end
with scan_pairs (fuel : nat) (s : string) : option (list (string * json) * string) :=
  match fuel with
  | O => None
  | S fuel =>
      match s with
      | EmptyString => None
      | String q s' =>
          if negb (Ascii.eqb q dquote) then None
          else match scan_string fuel s' with
          | None => None
          | Some (k, r) =>
              match skip_ws r with
              | EmptyString => None
              | String colon r1 =>
                  if negb (Ascii.eqb colon ":") then None
                  else match scan_once fuel (skip_ws r1) with
                  | None => None
                  | Some (v, r2) =>
                      match skip_ws r2 with
                      | EmptyString => None
                      | String c r3 =>
                          if Ascii.eqb c "}" then Some ([(k, v)], r3)
                          else if Ascii.eqb c "," then
                            match scan_pairs fuel (skip_ws r3) with
                            | Some (l, r4) => Some ((k, v) :: l, r4) | None => None end
                          else None
                      end
                  end
              end
          end
      end
  end.

(** [json.loads]: one value and nothing after it. *)
Definition loads (s : string) : option json :=
  match scan_once (2 * String.length s + 2) (skip_ws s) with
  | Some (v, r) => match skip_ws r with EmptyString => Some v | _ => None end
  | None => None
  end.

(** * JSON values as Python objects *)

(** [str(v)]; the representation of floats and containers is a parameter. *)
Definition py_str (json_repr : json → string) (v : json) : string :=
  match v with
  | JStr s => s
  | JInt n => str_of_Z n
  | JBool b => if b then "True" else "False"
  | JNull => "None"
  | _ => json_repr v
  end.

(** [int(v)] *)
Definition int_json (v : json) : result Z :=
  match v with
  | JInt n => Ret n
  | JBool b => Ret (if b then 1 else 0)
  | JFloat m e => Ret (if 0 <=? e then m * 10 ^ e else Z.quot m (10 ^ (- e)))
  | JConstant name =>
      if String.eqb name "NaN" then Raise (ValueError "cannot convert float NaN to integer")
      else Raise OverflowError
  | JStr s => match py_int (str_strip s) with
              | Some n => Ret n
              | None => Raise (ValueError "invalid literal for int()")
              end
  | _ => Raise (TypeError "int() argument must be a string or a real number")
  end.

(** [float(v)] *)
Definition float_json (v : json) : result pyfloat :=
  match v with
  | JInt n => Ret (FDec n 0)
  | JBool b => Ret (FDec (if b then 1 else 0) 0)
  | JFloat m e => Ret (FDec m e)
  | JConstant name =>
      Ret (if String.eqb name "NaN" then FNaN else FInf (String.eqb name "-Infinity"))
  | JStr s => match float_of s with
              | Some x => Ret x
              | None => Raise (ValueError "could not convert string to float")
              end
  | _ => Raise (TypeError "float() argument must be a string or a real number")
  end.

(** [bool(v)] *)
Definition truthy (v : json) : bool :=
  match v with
  | JNull => false
  | JBool b => b
  | JInt n => negb (n =? 0)
  | JFloat m _ => negb (m =? 0)
  | JConstant _ => true
  | JStr s => negb (String.eqb s "")
  | JArr l => match l with [] => false | _ => true end
  | JObj l => match l with [] => false | _ => true end
  end.

(** [v.get(k, default)]: only a dict has it. *)
Definition json_field (v : json) (k : string) (default : json) : result json :=
  match v with
  | JObj l => Ret (match json_get k l with Some w => w | None => default end)
  | _ => Raise (AttributeError "object has no attribute 'get'")
  end.

(** The dict that [json.loads] makes of an object: the last binding of a key. *)
Definition dict_of (v : json) : option (list (string * json)) :=
  match v with JObj l => Some (dict_update [] l) | _ => None end.

(** [for x in v] *)
Definition json_iter (v : json) : result (list json) :=
  match v with
  | JArr l => Ret l
  | JObj l => Ret (List.map (λ kv, JStr kv.1) (dict_update [] l))
  | JStr s => Ret (List.map (λ c, JStr (String c "")) (String.list_ascii_of_string s))
  | _ => Raise (TypeError "object is not iterable")
  end.

Example dumps_example :
  dumps "," ":" (JObj [("sub", JStr "a"); ("exp", JInt (-12)); ("l", JArr [JNull; JBool true])])
  = str_map (λ c, if Ascii.eqb c "'" then dquote else c)
      "{'sub':'a','exp':-12,'l':[null,true]}"%string.
Proof. vm_compute. reflexivity. Qed.
Example dumps_indent_example :
  dumps_indent 2 (JObj [("a", JArr []); ("b", JArr [JInt 1; JObj [("c", JNull)]])])
  = str_map (λ c, if Ascii.eqb c "'" then dquote else if Ascii.eqb c "/" then "010"%char else c)
      "{/  'a': [],/  'b': [/    1,/    {/      'c': null/    }/  ]/}"%string.
Proof. vm_compute. reflexivity. Qed.
(** [res.json()] *)
Definition json_body (body : string) : result json :=
  match loads body with Some v => Ret v | None => Raise (ValueError "JSONDecodeError") end.

Example loads_example :
  loads (str_map (λ c, if Ascii.eqb c "'" then dquote else c)
           " {'a' : [1.5e3, 'x\u20ac\ud83d\ude00'], 'b':-0}"%string)
  = Some (JObj [("a", JArr [JFloat 15 2;
             JStr (string_of_bytes [120; 226; 130; 172; 240; 159; 152; 128])]);
           ("b", JInt 0)]%string).
Proof. vm_compute. reflexivity. Qed.
Example loads_bad : loads "[1,]" = None ∧ loads "01" = None ∧ loads "{}x" = None.
Proof. vm_compute. done. Qed.

(** * Round trip *)

(** Values without floats whose strings are well-formed text. *)
Fixpoint plain (v : json) : bool :=
  match v with
  | JNull | JBool _ | JInt _ => true
  | JFloat _ _ | JConstant _ => false
  | JStr s => utf8_valid s
  | JArr l => List.forallb plain l
  | JObj l => List.forallb (λ kv, utf8_valid kv.1 && plain kv.2) l
  end.

Section json_ind.
Context (P : json → Prop).
Context (Hnull : P JNull) (Hbool : ∀ b, P (JBool b)) (Hint : ∀ n, P (JInt n))
  (Hfloat : ∀ m e, P (JFloat m e)) (Hconst : ∀ c, P (JConstant c)) (Hstr : ∀ s, P (JStr s))
  (Harr : ∀ l, Forall P l → P (JArr l))
  (Hobj : ∀ l, Forall (λ kv, P kv.2) l → P (JObj l)).

Fixpoint json_ind' (v : json) : P v :=
  match v with
  | JNull => Hnull
  | JBool b => Hbool b
  | JInt n => Hint n
  | JFloat m e => Hfloat m e
  | JConstant c => Hconst c
  | JStr s => Hstr s
  | JArr l => Harr l ((fix go (l : list json) : Forall P l := match l with
      | [] => Forall_nil_2 P
      | w :: l' => Forall_cons_2 P w l' (json_ind' w) (go l') end) l)
  | JObj l => Hobj l ((fix go (l : list (string * json)) : Forall (λ kv, P kv.2) l := match l with
      | [] => Forall_nil_2 (λ kv, P kv.2)
      | kv :: l' => Forall_cons_2 (λ kv, P kv.2) kv l' (json_ind' kv.2) (go l') end) l)
  end.
End json_ind.

Lemma utf8_decode_ascii s :
  str_isascii s = true → utf8_decode (bytes_of s) = Some (bytes_of s).
Proof.
  unfold str_isascii. induction s as [|c s IH]; cbn; [done|].
  intros [H1 H2]%andb_prop. by rewrite H1, IH.
Qed.

Lemma scan_escape_step n p t :
  0 ≤ p < 128 →
  scan_string (S n) (escape_point p +:+ t) = consume [p] (scan_string n t).
Proof.
  intros Hp. assert (p ∈ seqZ 0 128) as Hin by (apply elem_of_seqZ; lia).
  clear Hp. vm_compute in Hin.
  repeat (apply elem_of_cons in Hin as [->|Hin]; [reflexivity|]). by apply elem_of_nil in Hin.
Qed.

(** A number below [16 ^ 4] in hexadecimal. *)
Lemma hex4_digits p :
  0 ≤ p < 65536 → ∃ a b c d, hex4 p = String a (String b (String c (String d ""))) ∧
  hex_quad a b c d = Some p.
Proof.
  intros Hp. unfold hex4. cbn [hex_of_bytes]. do 4 eexists. split; [done|]. unfold hex_quad.
  rewrite !hex_digit_value by zdiv. f_equal. zdiv.
Qed.

Lemma low_surrogate_escape q t : is_low q = true → low_surrogate (u_escape q +:+ t) = Some (q, t).
Proof.
  intros Hq. unfold is_low in Hq. unfold u_escape. destruct (hex4_digits q) as (a & b & c & d & -> & Hv); [lia|].
  rewrite !str_app_cons. unfold low_surrogate. cbn [Ascii.eqb Bool.eqb andb backslash]. rewrite Hv.
  unfold is_low. by rewrite Hq, str_app_empty.
Qed.

Lemma scan_u_escape n p t :
  0 ≤ p < 65536 →
  scan_string (S n) (u_escape p +:+ t) =
    match (if is_high p then low_surrogate t else None) with
    | Some (q, r) => consume (utf8_encode_point (65536 + (p - 55296) * 1024 + (q - 56320))) (scan_string n r)
    | None => consume (utf8_encode_point p) (scan_string n t)
    end.
Proof.
  intros Hp. unfold u_escape. destruct (hex4_digits p Hp) as (a & b & c & d & -> & Hv).
  rewrite !str_app_cons, str_app_empty. cbn [scan_string].
  change (Ascii.eqb backslash dquote) with false. change (Ascii.eqb backslash backslash) with true.
  change (Ascii.eqb "u" "u") with true. cbn beta iota. by rewrite Hv.
Qed.

Lemma scan_escape_point n p t :
  scalar p = true →
  scan_string (S n) (escape_point p +:+ t) = consume (utf8_encode_point p) (scan_string n t).
Proof.
  intros Hp. unfold scalar in Hp. destruct (Z.ltb_spec p 128) as [Hlt|Hge].
  { rewrite scan_escape_step by lia. unfold utf8_encode_point. by rewrite (proj2 (Z.ltb_lt _ _) Hlt). }
  assert (He : escape_point p = if p <? 65536 then u_escape p
    else u_escape (55296 + (p - 65536) / 1024) +:+ u_escape (56320 + (p - 65536) mod 1024)).
  { unfold escape_point. repeat (rewrite (proj2 (Z.eqb_neq p _)) by lia).
    by replace ((32 <=? p) && (p <=? 126)) with false by lia. }
  rewrite He. destruct (Z.ltb_spec p 65536).
  - rewrite scan_u_escape by lia. by replace (is_high p) with false by (unfold is_high; lia).
  - rewrite str_app_assoc, scan_u_escape by zdiv.
    replace (is_high _) with true by (unfold is_high; zdiv).
    rewrite low_surrogate_escape by (unfold is_low; zdiv). do 2 f_equal. zdiv.
Qed.

Lemma string_of_bytes_app a b : string_of_bytes (a ++ b) = string_of_bytes a +:+ string_of_bytes b.
Proof. induction a as [|x a IH]; [done|]. cbn. by rewrite str_app_cons, IH. Qed.

(** The code points of a text. *)
Definition points (s : string) : list Z := default [] (utf8_decode (bytes_of s)).

Lemma points_spec s :
  utf8_valid s = true →
  Forall (λ p, scalar p = true) (points s) ∧ string_of_bytes (encode_points (points s)) = s.
Proof.
  unfold utf8_valid, points. destruct (utf8_decode (bytes_of s)) as [ps|] eqn:E; [|done]. intros _.
  destruct (utf8_decode_inv _ _ (bytes_of_bound s) E) as [H1 H2]. split; [done|].
  change (string_of_bytes (encode_points ps) = s). by rewrite H2, string_of_bytes_of.
Qed.

Lemma scan_points ps n t :
  Forall (λ p, scalar p = true) ps → (length ps < n)%nat →
  scan_string n (escape_points ps +:+ String dquote t) = Some (string_of_bytes (encode_points ps), t).
Proof.
  intros H. revert n. induction H as [|p ps Hp Hps IH]; intros n Hn; (destruct n as [|n]; [cbn in Hn; lia|]); [done|].
  cbn [escape_points]. rewrite str_app_assoc, scan_escape_point by done.
  rewrite IH by (cbn in Hn; lia). cbn [consume].
  change (encode_points (p :: ps)) with (utf8_encode_point p ++ encode_points ps). by rewrite string_of_bytes_app.
Qed.

Lemma points_length s : utf8_valid s = true → (length (points s) ≤ String.length s)%nat.
Proof.
  intros [H E]%points_spec. rewrite <-E at 2. clear E. generalize dependent (points s). intros ps H.
  induction H as [|p ps Hp Hps IH]; [done|]. cbn [length].
  change (encode_points (p :: ps)) with (utf8_encode_point p ++ encode_points ps).
  rewrite string_of_bytes_app, str_length_app.
  enough (1 ≤ String.length (string_of_bytes (utf8_encode_point p)))%nat by lia.
  unfold utf8_encode_point. repeat case_match; cbn; lia.
Qed.

Lemma scan_string_escaped s n t :
  utf8_valid s = true → (length (points s) < n)%nat →
  scan_string n (escape_points (points s) +:+ String dquote t) = Some (s, t).
Proof. intros [H E]%points_spec Hn. by rewrite scan_points, E. Qed.

(** What may follow a number for it to end there. *)
Definition num_stop (t : string) : bool :=
  match t with
  | EmptyString => true
  | String c _ => negb (is_digit c || Ascii.eqb c "." || Ascii.eqb c "e" || Ascii.eqb c "E")
  end.

Lemma span_digits_app s t :
  str_all is_digit s = true →
  match t with String c _ => is_digit c = false | EmptyString => True end →
  span_digits (s +:+ t) = (s, t).
Proof.
  intros Hs Ht. induction s as [|c s IH].
  - rewrite str_app_empty. destruct t as [|c t]; [done|]. cbn. by rewrite Ht.
  - rewrite str_app_cons. cbn in *. apply andb_prop in Hs as [-> Hs]. by rewrite IH.
Qed.

Lemma num_stop_frac t : num_stop t = true → scan_frac t = (""%string, t).
Proof. destruct t as [|c t]; [done|]. cbn. by destruct (Ascii.eqb c "."), (is_digit c). Qed.
Lemma num_stop_exp t : num_stop t = true → scan_exp t = (None, t).
Proof.
  destruct t as [|c t]; [done|]. cbn.
  by destruct (Ascii.eqb c "e"), (Ascii.eqb c "E"), (Ascii.eqb c "."), (is_digit c).
Qed.
Lemma num_stop_digit t :
  num_stop t = true → match t with String c _ => is_digit c = false | EmptyString => True end.
Proof. destruct t as [|c t]; [done|]. cbn. by destruct (is_digit c). Qed.

Lemma scan_int_part_nonneg n t :
  0 ≤ n → num_stop t = true → scan_int_part (str_of_Z n +:+ t) = Some (str_of_Z n, t).
Proof.
  intros Hn Ht. destruct (str_of_nonneg n Hn) as (c & s & -> & Hc & Hs & H0).
  unfold scan_int_part. rewrite span_digits_app; [|cbn; by rewrite Hc, Hs|by apply num_stop_digit].
  destruct (Ascii.eqb_spec c "0") as [->|]; [|done]. by rewrite H0.
Qed.

Lemma digit_not_minus c : is_digit c = true → Ascii.eqb c "-" = false.
Proof. intros H. by destruct (Ascii.eqb_spec c "-") as [->|]. Qed.

Lemma scan_number_int n t :
  num_stop t = true → scan_number (str_of_Z n +:+ t) = Some (JInt n, t).
Proof.
  intros Ht. unfold scan_number. destruct (decide (n < 0)) as [Hn|Hn].
  - rewrite str_of_neg, str_app_cons by done. cbn [Ascii.eqb Bool.eqb].
    rewrite scan_int_part_nonneg by (try done; lia).
    rewrite num_stop_frac, num_stop_exp by done. rewrite Z_of_str_of_Z. cbn.
    by rewrite Z.opp_involutive.
  - destruct (str_of_nonneg n ltac:(lia)) as (c & s & E & Hc & _).
    rewrite E at 1. rewrite str_app_cons, (digit_not_minus c Hc).
    cbv beta iota. rewrite scan_int_part_nonneg by (try done; lia).
    rewrite num_stop_frac, num_stop_exp by done. by rewrite Z_of_str_of_Z.
Qed.

(** A character that starts a number: no other form of value starts with it. *)
Lemma number_head n t :
  ∃ c s, str_of_Z n +:+ t = String c s ∧ (is_digit c = true ∨ c = "-"%char) ∧
         scan_literal json_literals (String c s) = None.
Proof.
  assert (∀ c s, is_digit c = true → scan_literal json_literals (String c s) = None) as Hlit.
  { intros c s Hc. unfold is_digit, in_range in Hc. destruct c as [[] [] [] [] [] [] [] []];
      try discriminate Hc; reflexivity. }
  destruct (decide (n < 0)) as [Hn|Hn].
  - rewrite str_of_neg, str_app_cons by done. do 2 eexists. split_and!; [done|by right|].
    destruct (str_of_nonneg (- n) ltac:(lia)) as (c & s & -> & Hc & _).
    rewrite str_app_cons. unfold is_digit, in_range in Hc.
    destruct c as [[] [] [] [] [] [] [] []]; try discriminate Hc; reflexivity.
  - destruct (str_of_nonneg n ltac:(lia)) as (c & s & -> & Hc & _).
    rewrite str_app_cons. do 2 eexists. split_and!; [done|by left|by apply Hlit].
Qed.

Lemma skip_ws_app w s : str_all is_ws w = true → skip_ws (w +:+ s) = skip_ws s.
Proof.
  induction w as [|c w IH]; [done|]. rewrite str_app_cons. cbn.
  intros [-> H]%andb_prop. by apply IH.
Qed.

Lemma length_escape_point p : (1 ≤ String.length (escape_point p))%nat.
Proof. unfold escape_point. repeat case_match; rewrite ?str_length_app; cbn; lia. Qed.

Lemma length_dumps_str s : (length (points s) + 2 ≤ String.length (dumps_str s))%nat.
Proof.
  unfold dumps_str. fold (points s). cbn. rewrite str_length_app. cbn.
  enough (length (points s) ≤ String.length (escape_points (points s)))%nat by lia.
  induction (points s) as [|p ps IH]; [done|]. cbn. rewrite str_length_app.
  pose proof (length_escape_point p). lia.
Qed.

Lemma dumps_str_app s t :
  dumps_str s +:+ t = String dquote (escape_points (points s) +:+ String dquote t).
Proof. unfold dumps_str. fold (points s). by rewrite str_app_cons, str_app_assoc. Qed.

Section roundtrip.
Context (wopen wsep wclose : nat → string) (wkey : string).
Context (Hopen : ∀ n, str_all is_ws (wopen n) = true) (Hsep : ∀ n, str_all is_ws (wsep n) = true).
Context (Hclose : ∀ n, str_all is_ws (wclose n) = true) (Hkey : str_all is_ws wkey = true).
Let isep n := String "," (wsep n).
Let ksep := String ":" wkey.
Let dump := dumps_layout wopen wsep wclose wkey.

Definition dump_pair (n : nat) (kv : string * json) : string :=
  dumps_str kv.1 +:+ ksep +:+ dump n kv.2.

Lemma dump_arr n v l :
  dump n (JArr (v :: l)) =
  String "[" (wopen n +:+ str_join (isep n) (List.map (dump (S n)) (v :: l)) +:+ wclose n +:+ "]").
Proof using. done. Qed.
Lemma dump_obj n kv l :
  dump n (JObj (kv :: l)) =
  String "{" (wopen n +:+ str_join (isep n) (List.map (dump_pair (S n)) (kv :: l)) +:+ wclose n +:+ "}").
Proof using. done. Qed.

(** The text of a plain value starts with a character that is neither white
    space nor a closing bracket. *)
Lemma dumps_head n v :
  plain v = true →
  ∃ c s, dump n v = String c s ∧ is_ws c = false ∧
         Ascii.eqb c "}" = false ∧ Ascii.eqb c "]" = false.
Proof using.
  destruct v as [|b|k| | |s|[|v l]|[|kv l]]; intros Hp; try done; try (by do 2 eexists).
  - destruct b; by do 2 eexists.
  - destruct (number_head k "") as (c & s & E & Hc & _). rewrite str_app_nil_r in E.
    exists c, s. split; [exact E|]. destruct Hc as [Hc| ->]; [|done].
    unfold is_digit, in_range in Hc.
    destruct c as [[] [] [] [] [] [] [] []]; try discriminate Hc; done.
Qed.

Lemma skip_ws_dump n v t : plain v = true → skip_ws (dump n v +:+ t) = dump n v +:+ t.
Proof using.
  intros (c & s & -> & Hc & _)%(dumps_head n). rewrite str_app_cons. unfold skip_ws. cbn.
  by rewrite Hc.
Qed.

Definition scans (v : json) : Prop :=
  ∀ n fuel t, (2 * String.length (dump n v) ≤ fuel)%nat → num_stop t = true →
    scan_once fuel (dump n v +:+ t) = Some (v, t).

Lemma str_join_cons n w ws :
  str_join (isep n) (w :: ws) =
  match ws with [] => w | _ => w +:+ isep n +:+ str_join (isep n) ws end.
Proof using. by destruct ws. Qed.

Lemma skip_isep n s : skip_ws (isep n +:+ s) = String "," (wsep n +:+ s).
Proof using. done. Qed.

(** White space ends a number. *)
Lemma num_stop_ws w c t :
  str_all is_ws w = true → num_stop (String c t) = true → num_stop (w +:+ String c t) = true.
Proof using.
  destruct w as [|d w]; [by rewrite str_app_empty|]. intros [Hd _]%andb_prop _. rewrite str_app_cons.
  unfold is_ws in Hd. cbn. by destruct d as [[] [] [] [] [] [] [] []].
Qed.

Lemma skip_ws_join n l t (f : json → string) :
  (∀ v t, v ∈ l → skip_ws (f v +:+ t) = f v +:+ t) → l ≠ [] →
  skip_ws (str_join (isep n) (List.map f l) +:+ t) = str_join (isep n) (List.map f l) +:+ t.
Proof using.
  destruct l as [|v l]; [done|]. intros H _. cbn [List.map]. rewrite str_join_cons.
  destruct (List.map f l); rewrite ?str_app_assoc; apply H; constructor.
Qed.

(** What follows the last element: white space and the closing bracket. *)
Definition closing (n : nat) (c : ascii) (t : string) : string := wclose n +:+ String c t.

Lemma skip_closing n c t : is_ws c = false → skip_ws (closing n c t) = String c t.
Proof using Hclose.
  intros Hc. unfold closing. rewrite skip_ws_app by done. unfold skip_ws. cbn. by rewrite Hc.
Qed.

Lemma scan_elems_join n l :
  l ≠ [] → Forall (λ v, plain v = true ∧ scans v) l → ∀ fuel t,
  (2 * String.length (str_join (isep n) (List.map (dump (S n)) l)) + 1 ≤ fuel)%nat →
  scan_elems fuel (str_join (isep n) (List.map (dump (S n)) l) +:+ closing n "]" t) = Some (l, t).
Proof using Hsep Hclose.
  assert (∀ t, num_stop (closing n "]" t) = true) as Hstop by (intros; by apply num_stop_ws).
  induction l as [|v l IH]; [done|]. intros _ [[Hp Hv] Hl]%Forall_cons fuel t.
  cbn [List.map]. rewrite str_join_cons. intros Hf. destruct fuel as [|fuel]; [lia|].
  cbn [scan_elems]. destruct l as [|v' l].
  - cbn [List.map] in *. rewrite Hv by (try done; lia). by rewrite skip_closing.
  - destruct (List.map (dump (S n)) (v' :: l)) as [|x xs] eqn:E; [done|]. rewrite <-E in *.
    rewrite !str_length_app in Hf. cbn [isep String.length] in Hf.
    rewrite !str_app_assoc. rewrite Hv by (try done; lia). rewrite skip_isep.
    cbn [Ascii.eqb Bool.eqb]. rewrite skip_ws_app by done.
    assert (plain v' = true) as Hp' by (by apply Forall_cons in Hl as [[] ?]).
    assert (skip_ws (str_join (isep n) (List.map (dump (S n)) (v' :: l)) +:+ closing n "]" t) =
      str_join (isep n) (List.map (dump (S n)) (v' :: l)) +:+ closing n "]" t) as ->.
    { cbn [List.map]. rewrite str_join_cons. clear E.
      destruct (List.map (dump (S n)) l); rewrite ?str_app_assoc; by apply skip_ws_dump. }
    by rewrite IH by (try done; lia).
Qed.

Lemma skip_ws_dump_pair n kv t :
  utf8_valid kv.1 = true →
  skip_ws (dump_pair n kv +:+ t) = dump_pair n kv +:+ t.
Proof using.
  intros H. unfold dump_pair. by rewrite str_app_assoc, dumps_str_app.
Qed.

(** One pair is scanned; what follows decides how the loop goes on. *)
Lemma scan_pairs_step n fuel kv t :
  utf8_valid kv.1 = true → plain kv.2 = true → scans kv.2 → num_stop t = true →
  (2 * String.length (dump_pair n kv) + 1 ≤ S fuel)%nat →
  scan_pairs (S fuel) (dump_pair n kv +:+ t) =
    match skip_ws t with
    | EmptyString => None
    | String c r3 =>
        if Ascii.eqb c "}" then Some ([kv], r3)
        else if Ascii.eqb c "," then
          match scan_pairs fuel (skip_ws r3) with
          | Some (l, r4) => Some (kv :: l, r4) | None => None end
        else None
    end.
Proof using Hkey.
  destruct kv as [k v]. intros Hk Hp Hv Ht Hf. cbn in Hk, Hp, Hv. unfold dump_pair in *.
  cbn [fst snd] in *. pose proof (length_dumps_str k).
  rewrite !str_length_app in Hf. cbn [ksep String.length] in Hf.
  rewrite str_app_assoc, dumps_str_app by done. cbn [scan_pairs].
  rewrite Ascii.eqb_refl. cbn [negb]. rewrite scan_string_escaped by (try done; lia).
  rewrite str_app_assoc. change (skip_ws (ksep +:+ dump n v +:+ t)) with (ksep +:+ dump n v +:+ t).
  unfold ksep. rewrite str_app_cons. cbn [Ascii.eqb Bool.eqb negb].
  rewrite skip_ws_app, skip_ws_dump by done. by rewrite Hv by (try done; lia).
Qed.

Lemma scan_pairs_join n l :
  l ≠ [] →
  Forall (λ kv, utf8_valid kv.1 = true ∧ plain kv.2 = true ∧ scans kv.2) l → ∀ fuel t,
  (2 * String.length (str_join (isep n) (List.map (dump_pair (S n)) l)) + 1 ≤ fuel)%nat →
  scan_pairs fuel (str_join (isep n) (List.map (dump_pair (S n)) l) +:+ closing n "}" t) = Some (l, t).
Proof using Hsep Hclose Hkey.
  assert (∀ t, num_stop (closing n "}" t) = true) as Hstop by (intros; by apply num_stop_ws).
  induction l as [|kv l IH]; [done|]. intros _ [(Hk & Hp & Hv) Hl]%Forall_cons fuel t.
  cbn [List.map]. rewrite str_join_cons. intros Hf. destruct fuel as [|fuel]; [lia|].
  destruct l as [|kv' l].
  - cbn [List.map] in *. rewrite scan_pairs_step by (try done; lia). by rewrite skip_closing.
  - destruct (List.map (dump_pair (S n)) (kv' :: l)) as [|x xs] eqn:E; [done|]. rewrite <-E in *.
    rewrite !str_length_app in Hf. cbn [isep String.length] in Hf.
    rewrite !str_app_assoc. rewrite scan_pairs_step by (try done; lia). rewrite skip_isep.
    cbn [Ascii.eqb Bool.eqb]. rewrite skip_ws_app by done.
    assert (utf8_valid kv'.1 = true) as Hk' by (by apply Forall_cons in Hl as [[] ?]).
    assert (skip_ws (str_join (isep n) (List.map (dump_pair (S n)) (kv' :: l)) +:+ closing n "}" t) =
      str_join (isep n) (List.map (dump_pair (S n)) (kv' :: l)) +:+ closing n "}" t) as ->.
    { cbn [List.map]. rewrite str_join_cons. clear E.
      destruct (List.map (dump_pair (S n)) l); rewrite ?str_app_assoc; by apply skip_ws_dump_pair. }
    by rewrite IH by (try done; lia).
Qed.

(** The first character after an opening bracket and its white space. *)
Lemma skip_opening n c s : is_ws c = false → skip_ws (wopen n +:+ String c s) = String c s.
Proof using Hopen. intros Hc. rewrite skip_ws_app by done. unfold skip_ws. cbn. by rewrite Hc. Qed.

Lemma scans_plain v : plain v = true → scans v.
Proof using Hopen Hsep Hclose Hkey.
  induction v as [|b|k| | |s|l IH|l IH] using json_ind'; intros Hp n fuel t Hf Ht; try done.
  - destruct fuel; [cbn in Hf; lia|]. done.
  - destruct b, fuel; try (cbn in Hf; lia); done.
  - assert (dump n (JInt k) = str_of_Z k) as E by done. rewrite E in *.
    pose proof (number_head k "") as (c0 & s0 & E0 & _ & _). rewrite str_app_nil_r in E0.
    destruct fuel as [|fuel]; [rewrite E0 in Hf; cbn in Hf; lia|].
    pose proof (scan_number_int k t Ht) as Hn.
    destruct (number_head k t) as (c & s & Ec & Hc & Hl). rewrite Ec in *.
    cbn [scan_once]. rewrite Hl.
    assert (Ascii.eqb c dquote = false ∧ Ascii.eqb c "{" = false ∧ Ascii.eqb c "[" = false)
      as (-> & -> & ->); [|exact Hn].
    destruct Hc as [Hc| ->]; [|done]. unfold is_digit, in_range in Hc.
    destruct c as [[] [] [] [] [] [] [] []]; try discriminate Hc; done.
  - cbn in Hp. assert (dump n (JStr s) = dumps_str s) as E by done. rewrite E in *.
    pose proof (length_dumps_str s). destruct fuel as [|fuel]; [lia|].
    rewrite dumps_str_app by done. cbn [scan_once]. rewrite Ascii.eqb_refl.
    by rewrite scan_string_escaped by (try done; lia).
  - cbn [plain] in Hp. rewrite List.forallb_forall in Hp.
    assert (Forall (λ v, plain v = true ∧ scans v) l) as Hl.
    { rewrite Forall_forall in IH |- *. intros v Hv.
      assert (plain v = true) by (apply Hp; by apply list_elem_of_In). eauto. }
    destruct l as [|v l]; [destruct fuel; [cbn in Hf; lia|done]|].
    rewrite dump_arr in *. cbn [String.length] in Hf. destruct fuel as [|fuel]; [lia|].
    rewrite !str_length_app in Hf. cbn [String.length] in Hf.
    rewrite str_app_cons, !str_app_assoc. cbn [scan_once Ascii.eqb Bool.eqb dquote].
    pose proof (scan_elems_join n (v :: l) ltac:(done) Hl fuel t ltac:(lia)) as Hs.
    apply Forall_cons in Hl as [[Hpv _] _].
    destruct (dumps_head (S n) v Hpv) as (c & s & Ev & Hws & _ & Hc).
    assert (∃ s', str_join (isep n) (List.map (dump (S n)) (v :: l)) = String c s') as [s' Ej].
    { cbn [List.map]. rewrite str_join_cons, Ev.
      destruct (List.map (dump (S n)) l); rewrite ?str_app_cons; by eexists. }
    rewrite Ej in *. change (String "]" "" +:+ t) with (String "]" t). fold (closing n "]" t).
    rewrite str_app_cons in *. rewrite skip_opening, Hc by done. by rewrite Hs.
  - cbn [plain] in Hp. rewrite List.forallb_forall in Hp.
    assert (Forall (λ kv, utf8_valid kv.1 = true ∧ plain kv.2 = true ∧ scans kv.2) l) as Hl.
    { rewrite Forall_forall in IH |- *. intros kv Hkv.
      destruct (andb_prop _ _ (Hp kv ltac:(by apply list_elem_of_In))). eauto. }
    destruct l as [|kv l]; [destruct fuel; [cbn in Hf; lia|done]|].
    rewrite dump_obj in *. cbn [String.length] in Hf. destruct fuel as [|fuel]; [lia|].
    rewrite !str_length_app in Hf. cbn [String.length] in Hf.
    rewrite str_app_cons, !str_app_assoc. cbn [scan_once Ascii.eqb Bool.eqb dquote].
    pose proof (scan_pairs_join n (kv :: l) ltac:(done) Hl fuel t ltac:(lia)) as Hs.
    apply Forall_cons in Hl as [[Hk _] _].
    assert (∃ s', str_join (isep n) (List.map (dump_pair (S n)) (kv :: l)) = String dquote s') as [s' Ej].
    { cbn [List.map]. rewrite str_join_cons.
      destruct (List.map (dump_pair (S n)) l); unfold dump_pair; rewrite ?str_app_assoc, dumps_str_app by done;
        by eexists. }
    rewrite Ej in *. change (String "}" "" +:+ t) with (String "}" t). fold (closing n "}" t).
    rewrite str_app_cons in *. rewrite skip_opening by done.
    cbn [dquote Ascii.eqb Bool.eqb]. by rewrite Hs.
Qed.

(** White space after the value is ignored. *)
Lemma loads_layout n v t :
  plain v = true → str_all is_ws t = true → loads (dump n v +:+ t) = Some v.
Proof using Hopen Hsep Hclose Hkey.
  intros Hp Ht. unfold loads. rewrite skip_ws_dump by done.
  assert (num_stop t = true) as Hs.
  { destruct t as [|c t]; [done|]. cbn in Ht |- *. apply andb_prop in Ht as [Hc _].
    unfold is_ws in Hc. by destruct c as [[] [] [] [] [] [] [] []]. }
  pose proof (scans_plain v Hp n (2 * String.length (dump n v +:+ t) + 2)%nat t) as H.
  rewrite H; [|rewrite str_length_app; lia|done]. pose proof (skip_ws_app t "" Ht) as E.
  rewrite str_app_nil_r in E. by rewrite E.
Qed.
End roundtrip.

(** The compact layout is the same at every depth. *)
Lemma dumps_is_layout w1 w2 n v :
  dumps (String "," w1) (String ":" w2) v =
  dumps_layout (λ _, "") (λ _, w1) (λ _, "") w2 n v.
Proof.
  revert n. induction v as [|b|i|m e|c|s|l IH|l IH] using json_ind'; intros k; try done.
  - assert (List.map (dumps (String "," w1) (String ":" w2)) l =
      List.map (dumps_layout (λ _, "") (λ _, w1) (λ _, "") w2 (S k)) l) as E.
    { apply List.map_ext_in. intros v Hv. rewrite List.Forall_forall in IH. by apply IH. }
    destruct l as [|v l]; [done|]. cbn [dumps dumps_layout]. rewrite E. done.
  - assert (List.map (λ kv, dumps_str kv.1 +:+ String ":" w2 +:+ dumps (String "," w1) (String ":" w2) kv.2) l =
      List.map (λ kv, dumps_str kv.1 +:+ String ":" w2 +:+
        dumps_layout (λ _, "") (λ _, w1) (λ _, "") w2 (S k) kv.2) l) as E.
    { apply List.map_ext_in. intros v Hv. rewrite List.Forall_forall in IH. by rewrite (IH v Hv (S k)). }
    destruct l as [|v l]; [done|]. cbn [dumps dumps_layout]. rewrite E. done.
Qed.

Lemma loads_dumps_ws w1 w2 v t :
  str_all is_ws w1 = true → str_all is_ws w2 = true →
  plain v = true → str_all is_ws t = true →
  loads (dumps (String "," w1) (String ":" w2) v +:+ t) = Some v.
Proof. intros H1 H2 Hp Ht. rewrite (dumps_is_layout w1 w2 0). by apply loads_layout. Qed.

Lemma loads_dumps w1 w2 v :
  str_all is_ws w1 = true → str_all is_ws w2 = true →
  plain v = true → loads (dumps (String "," w1) (String ":" w2) v) = Some v.
Proof.
  intros H1 H2 Hp. rewrite <-(str_app_nil_r (dumps _ _ v)). by apply loads_dumps_ws.
Qed.

Lemma newline_indent_ws k n : str_all is_ws (newline_indent k n) = true.
Proof. cbn. induction (k * n)%nat; done. Qed.

Lemma loads_indent k v : plain v = true → loads (dumps_indent k v) = Some v.
Proof.
  intros Hp. rewrite <-(str_app_nil_r (dumps_indent k v)).
  apply loads_layout; try done; intros n; apply newline_indent_ws.
Qed.

(** ** The characters of a document *)

Section layout_all.
Context (p : ascii → bool) (Hprint : ∀ c, (32 <=? ord c) = true → (ord c <? 128) = true → p c = true).
Context (wopen wsep wclose : nat → string) (wkey : string)
  (Hopen : ∀ n, str_all p (wopen n) = true) (Hsep : ∀ n, str_all p (wsep n) = true)
  (Hclose : ∀ n, str_all p (wclose n) = true) (Hkey : str_all p wkey = true).

Definition printable (c : ascii) : bool := (32 <=? ord c) && (ord c <? 128).

Lemma printable_all s : str_all printable s = true → str_all p s = true.
Proof using Hprint. apply str_all_impl. intros c [H1 H2]%andb_prop. by apply Hprint. Qed.

Lemma escape_point_printable n : scalar n = true → str_all printable (escape_point n) = true.
Proof using.
  intros Hp. unfold scalar in Hp. destruct (Z.ltb_spec n 128) as [Hlt|Hge].
  { assert (n ∈ seqZ 0 128) as Hin by (apply elem_of_seqZ; lia).
    clear Hp Hlt. vm_compute in Hin.
    repeat (apply elem_of_cons in Hin as [->|Hin]; [reflexivity|]). by apply elem_of_nil in Hin. }
  assert (Hd : ∀ x, 0 ≤ x < 16 → printable (hex_digit x) = true).
  { intros x Hx. assert (x ∈ seqZ 0 16) as Hin by (apply elem_of_seqZ; lia). clear Hx. vm_compute in Hin.
    repeat (apply elem_of_cons in Hin as [->|Hin]; [reflexivity|]). by apply elem_of_nil in Hin. }
  assert (Hu : ∀ q, 0 ≤ q < 65536 → str_all printable (u_escape q) = true).
  { intros q Hq. unfold u_escape, hex4. cbn [hex_of_bytes str_all]. by rewrite !Hd by zdiv. }
  unfold escape_point. repeat (rewrite (proj2 (Z.eqb_neq n _)) by lia).
  replace ((32 <=? n) && (n <=? 126)) with false by lia. destruct (Z.ltb_spec n 65536); [apply Hu; lia|].
  cbv zeta. rewrite str_all_app, !Hu by zdiv. done.
Qed.

Lemma dumps_str_printable s : utf8_valid s = true → str_all printable (dumps_str s) = true.
Proof using.
  intros [Hs _]%points_spec. unfold dumps_str. fold (points s).
  change (str_all printable (escape_points (points s) +:+ String dquote "") = true).
  rewrite str_all_app. apply andb_true_intro. split; [|done].
  induction Hs as [|q ps Hq _ IH]; cbn; [done|]. by rewrite str_all_app, IH, escape_point_printable.
Qed.

Lemma str_of_Z_printable n : str_all printable (str_of_Z n) = true.
Proof using.
  assert (∀ m, 0 ≤ m → str_all printable (str_of_Z m) = true) as Hpos.
  { intros m (c & s & -> & Hc & Hs & _)%str_of_nonneg. apply (str_all_impl is_digit).
    - intros a. unfold is_digit, in_range, printable. intros [Ha Hb]%andb_prop.
      revert Ha Hb. change (ord "0") with 48. change (ord "9") with 57. lia.
    - cbn. by rewrite Hc, Hs. }
  destruct (Z.ltb_spec n 0); [|by apply Hpos].
  rewrite str_of_neg by done. apply Hpos. lia.
Qed.

Lemma str_join_all n ws :
  Forall (λ w, str_all p w = true) ws → str_all p (str_join (String "," (wsep n)) ws) = true.
Proof using Hprint Hsep.
  induction 1 as [|w ws Hw Hws IH]; [done|]. destruct ws as [|s ws]; [done|].
  change (str_join ?x (w :: s :: ws)) with (w +:+ x +:+ str_join x (s :: ws)).
  rewrite !str_all_app, Hw, IH. cbn. by rewrite Hprint, Hsep.
Qed.

Lemma dumps_layout_all v : plain v = true → ∀ n, str_all p (dumps_layout wopen wsep wclose wkey n v) = true.
Proof using Hprint Hopen Hsep Hclose Hkey.
  induction v as [|b|k| | |s|l IH|l IH] using json_ind'; intros Hp n; try done.
  - by apply printable_all.
  - destruct b; by apply printable_all.
  - apply printable_all, str_of_Z_printable.
  - by apply printable_all, dumps_str_printable.
  - cbn [plain] in Hp. rewrite List.forallb_forall in Hp. destruct l as [|w l]; [by apply printable_all|].
    cbn [dumps_layout]. rewrite !str_all_app, Hopen, Hclose, str_join_all; [by rewrite !printable_all|].
    apply Forall_forall. intros x (y & <- & Hy)%list_elem_of_In%List.in_map_iff.
    rewrite Forall_forall in IH. apply IH; [by apply list_elem_of_In|by apply Hp].
  - cbn [plain] in Hp. rewrite List.forallb_forall in Hp. destruct l as [|w l]; [by apply printable_all|].
    cbn [dumps_layout]. rewrite !str_all_app, Hopen, Hclose, str_join_all; [by rewrite !printable_all|].
    apply Forall_forall. intros x (y & <- & Hy)%list_elem_of_In%List.in_map_iff.
    destruct (andb_prop _ _ (Hp y Hy)) as [H1 H2].
    rewrite !str_all_app, (printable_all (dumps_str y.1)) by by apply dumps_str_printable.
    cbn [str_all]. rewrite Hprint, Hkey by done. rewrite Forall_forall in IH.
    rewrite IH by (try done; by apply list_elem_of_In). done.
Qed.
End layout_all.

Lemma dumps_str_isascii s : utf8_valid s = true → str_isascii (dumps_str s) = true.
Proof.
  intros H%dumps_str_printable. revert H. apply str_all_impl. by intros c [_ H]%andb_prop.
Qed.

Lemma dumps_indent_isascii k v : plain v = true → str_isascii (dumps_indent k v) = true.
Proof.
  intros Hp. unfold dumps_indent, str_isascii.
  assert (Hn : ∀ n, str_all (λ c, ord c <? 128) (newline_indent k n) = true).
  { intros n. cbn. induction (k * n)%nat; done. }
  apply dumps_layout_all; done.
Qed.
