(* ===== verification/Database.v ===== *)
(** The SQLite store of users, permissions, the login audit trail, feedback and
    metadata ([app/database/db.py], [app/database/models.py]).

    The state [DB] has one field per table of [SCHEMA_DDL]; each method of
    [DatabaseManager] is one definition in the state-and-exception monad.  The
    calls are serialised by the manager's lock, so a method is atomic.  The
    current time is an argument. *)

From S2P Require Import Prelude.
From Stdlib Require Import ZArith Lia Ascii Bool.
From stdpp Require Import base tactics list strings gmap sets sorting.
Open Scope py_scope.

(** * Data *)

Definition ALL_PERMISSIONS : list string :=
  ["server:reboot"; "server:settings"; "player:kick"; "player:ban";
   "player:broadcast"; "logs:view"; "feedback:submit"; "users:manage";
   "system:update"].

(** [DEFAULT_ROLE_PERMISSIONS.get(role, [])] *)
Definition DEFAULT_ROLE_PERMISSIONS (role : string) : list string :=
  if bool_decide (role = "admin") then ALL_PERMISSIONS
  else if bool_decide (role = "operator") then
    ["server:reboot"; "server:settings"; "player:kick"; "player:ban";
     "player:broadcast"; "logs:view"; "feedback:submit"; "system:update"]
  else if bool_decide (role = "viewer") then ["logs:view"; "feedback:submit"]
  else [].

(** The dataclass [UserRecord]. *)
Record UserRecord := mkUser {
  u_id : Z;
  u_username : string;
  u_password_hash : string;
  u_salt : string;
  u_email : string;
  u_role : string;
  u_is_active : bool;
  u_created_at : string;
  u_last_login : option string;
}.

(** The dataclass [LoginAuditRecord], which is also the row of [login_audit]. *)
Record LoginAuditRecord := mkAudit {
  a_id : Z;
  a_username : string;
  a_timestamp : string;
  a_ip_address : string;
  a_user_agent : string;
  a_status : string;
  a_failure_reason : string;
}.

(** The dataclass [FeedbackRecord], which is also the row of
    [feedback_submissions]. *)
Record FeedbackRecord := mkFeedback {
  f_id : Z;
  f_category : string;
  f_title : string;
  f_description : string;
  f_metadata_json : string;
  f_submitted_by : string;
  f_status : string;
  f_github_issue_number : option Z;
  f_created_at : string;
}.

(** A row of the table [users]: [email] and [last_login] are nullable and
    [is_active] is an INTEGER. *)
Record UserRow := mkUserRow {
  row_id : Z;
  row_username : string;
  row_password_hash : string;
  row_salt : string;
  row_email : option string;
  row_role : string;
  row_is_active : Z;
  row_created_at : string;
  row_last_login : option string;
}.

#[export] Instance UserRecord_eq_dec : EqDecision UserRecord.
Proof. solve_decision. Defined.
#[export] Instance LoginAuditRecord_eq_dec : EqDecision LoginAuditRecord.
Proof. solve_decision. Defined.
#[export] Instance FeedbackRecord_eq_dec : EqDecision FeedbackRecord.
Proof. solve_decision. Defined.

(** The tables of [SCHEMA_DDL], each AUTOINCREMENT table with its sequence.
    [UNIQUE(user_id, permission)] makes [user_permissions] a set of pairs; its
    surrogate id is never read. *)
Record DB := mkDB {
  users : list UserRow;
  users_seq : Z;
  user_permissions : gset (Z * string);
  login_audit : list LoginAuditRecord;
  login_audit_seq : Z;
  feedback_submissions : list FeedbackRecord;
  feedback_seq : Z;
  system_metadata : gmap string string;
}.

(** [initialize] on a fresh file. *)
Definition db_initial : DB := mkDB [] 0 ∅ [] 0 [] 0 ∅.

Definition set_users (us : list UserRow) (seq : Z) (d : DB) : DB :=
  mkDB us seq (user_permissions d) (login_audit d) (login_audit_seq d)
       (feedback_submissions d) (feedback_seq d) (system_metadata d).
Definition set_perms (ps : gset (Z * string)) (d : DB) : DB :=
  mkDB (users d) (users_seq d) ps (login_audit d) (login_audit_seq d)
       (feedback_submissions d) (feedback_seq d) (system_metadata d).
Definition set_audit (l : list LoginAuditRecord) (seq : Z) (d : DB) : DB :=
  mkDB (users d) (users_seq d) (user_permissions d) l seq
       (feedback_submissions d) (feedback_seq d) (system_metadata d).
Definition set_feedback (l : list FeedbackRecord) (seq : Z) (d : DB) : DB :=
  mkDB (users d) (users_seq d) (user_permissions d) (login_audit d) (login_audit_seq d)
       l seq (system_metadata d).
Definition set_metadata (m : gmap string string) (d : DB) : DB :=
  mkDB (users d) (users_seq d) (user_permissions d) (login_audit d) (login_audit_seq d)
       (feedback_submissions d) (feedback_seq d) m.

(** * Users *)

(** [_row_to_user]: a null or empty e-mail reads as the empty string, an empty
    [last_login] as [None]. *)
Definition row_to_user (r : UserRow) : UserRecord :=
  mkUser (row_id r) (row_username r) (row_password_hash r) (row_salt r)
    (default "" (row_email r)) (row_role r) (negb (row_is_active r =? 0)%Z)
    (row_created_at r)
    (match row_last_login r with
     | Some s => if bool_decide (s = "") then None else Some s
     | None => None
     end).

Definition find_username (username : string) (d : DB) : option UserRow :=
  List.find (λ r, bool_decide (row_username r = username)) (users d).

Definition get_user_by_id (user_id : Z) : PyM DB (option UserRecord) :=
  d <- py_get ;; py_ret (row_to_user <$> t_lookup row_id user_id (users d)).

Definition get_user_by_username (username : string) : PyM DB (option UserRecord) :=
  d <- py_get ;; py_ret (row_to_user <$> find_username username d).

(** [ORDER BY id ASC] is the order of the rows. *)
Definition list_users : PyM DB (list UserRecord) :=
  d <- py_get ;; py_ret (List.map row_to_user (users d)).

Definition count_users : PyM DB Z :=
  d <- py_get ;; py_ret (Z.of_nat (length (users d))).

Definition is_active_admin (r : UserRow) : bool :=
  bool_decide (row_role r = "admin") && (row_is_active r =? 1)%Z.

Definition active_admins (d : DB) : list UserRow := List.filter is_active_admin (users d).

Definition count_active_admins : PyM DB Z :=
  d <- py_get ;; py_ret (Z.of_nat (length (active_admins d))).

(** [INSERT INTO users ...]: the UNIQUE constraint on [username]. *)
Definition insert_user (now username password_hash salt email role : string)
    (is_active : bool) : PyM DB Z :=
  d <- py_get ;;
  match find_username username d with
  | Some _ => py_raise (IntegrityError "UNIQUE constraint failed: users.username")
  | None =>
      let new_id := (users_seq d + 1)%Z in
      let r := mkUserRow new_id username password_hash salt (Some email) role
                 (if is_active then 1 else 0) now None in
      py_put (set_users (users d ++ [r]) new_id d) ;;; py_ret new_id
  end.

(** [INSERT (OR IGNORE) INTO user_permissions]: the foreign key is enforced even
    by OR IGNORE. *)
Definition insert_permission (user_id : Z) (perm : string) : PyM DB unit :=
  d <- py_get ;;
  match t_lookup row_id user_id (users d) with
  | None => py_raise (IntegrityError "FOREIGN KEY constraint failed")
  | Some _ => py_put (set_perms ({[(user_id, perm)]} ∪ user_permissions d) d)
  end.

Fixpoint insert_permissions (user_id : Z) (perms : list string) : PyM DB unit :=
  match perms with
  | [] => py_ret tt
  | perm :: rest => insert_permission user_id perm ;;; insert_permissions user_id rest
  end.

(** [DELETE FROM user_permissions WHERE user_id = ?] *)
Definition delete_permissions (user_id : Z) : PyM DB unit :=
  py_modify (λ d, set_perms (filter (λ p, p.1 ≠ user_id) (user_permissions d)) d).

Definition create_user (now username password_hash salt email role : string)
    (is_active : bool) : PyM DB UserRecord :=
  new_id <- insert_user now username password_hash salt email role is_active ;;
  insert_permissions new_id (DEFAULT_ROLE_PERMISSIONS role) ;;;
  user <- get_user_by_id new_id ;;
  match user with
  | None => py_raise (RuntimeError "Failed to retrieve user immediately after creation")
  | Some u => py_ret u
  end.

(** [COALESCE(?, column)] over the five mutable columns. *)
Definition update_row (email role : option string) (is_active : option bool)
    (password_hash salt : option string) (r : UserRow) : UserRow :=
  mkUserRow (row_id r) (row_username r)
    (default (row_password_hash r) password_hash)
    (default (row_salt r) salt)
    (match email with Some e => Some e | None => row_email r end)
    (default (row_role r) role)
    (match is_active with Some b => if b then 1 else 0 | None => row_is_active r end)
    (row_created_at r) (row_last_login r).

Definition update_user (user_id : Z) (email role : option string)
    (is_active : option bool) (password_hash salt : option string)
    : PyM DB (option UserRecord) :=
  existing <- get_user_by_id user_id ;;
  match existing with
  | None => py_ret None
  | Some ex =>
      py_modify (λ d, set_users
        (t_update row_id user_id (update_row email role is_active password_hash salt) (users d))
        (users_seq d) d) ;;;
      (match role with
       | Some r =>
           if bool_decide (r ≠ u_role ex) then
             delete_permissions user_id ;;;
             insert_permissions user_id (DEFAULT_ROLE_PERMISSIONS r)
           else py_ret tt
       | None => py_ret tt
       end) ;;;
      get_user_by_id user_id
  end.

(** [DELETE FROM users]: [ON DELETE CASCADE] removes the user's permissions. *)
Definition delete_user (user_id : Z) : PyM DB bool :=
  d <- py_get ;;
  match t_lookup row_id user_id (users d) with
  | None => py_ret false
  | Some _ =>
      py_put (set_users (t_delete row_id user_id (users d)) (users_seq d) d) ;;;
      delete_permissions user_id ;;;
      py_ret true
  end.

Definition set_last_login (timestamp : string) (r : UserRow) : UserRow :=
  mkUserRow (row_id r) (row_username r) (row_password_hash r) (row_salt r) (row_email r)
    (row_role r) (row_is_active r) (row_created_at r) (Some timestamp).

Definition update_user_last_login (user_id : Z) (timestamp : string) : PyM DB unit :=
  py_modify (λ d, set_users (t_update row_id user_id (set_last_login timestamp) (users d))
                            (users_seq d) d).

(** * Permissions *)

Definition permissions_of (user_id : Z) (d : DB) : gset string :=
  set_map snd (filter (λ p, p.1 = user_id) (user_permissions d)).

(** [ORDER BY permission ASC] *)
Definition get_user_permissions (user_id : Z) : PyM DB (list string) :=
  d <- py_get ;; py_ret (merge_sort String.le (elements (permissions_of user_id d))).

(** [for perm in set(permissions)] *)
Definition set_user_permissions (user_id : Z) (permissions : list string) : PyM DB unit :=
  delete_permissions user_id ;;;
  insert_permissions user_id (elements (list_to_set permissions : gset string)).

(** * Login audit *)

Definition record_login_audit (now username ip_address user_agent status failure_reason : string)
    : PyM DB LoginAuditRecord :=
  d <- py_get ;;
  let new_id := (login_audit_seq d + 1)%Z in
  let rec := mkAudit new_id username now ip_address user_agent status failure_reason in
  py_put (set_audit (login_audit d ++ [rec]) new_id d) ;;; py_ret rec.

Definition list_login_audits (limit offset : Z) : PyM DB (list LoginAuditRecord) :=
  d <- py_get ;; py_ret (sql_limit_offset limit offset (reverse (login_audit d))).

(** * Feedback *)

Definition create_feedback (now category title description metadata_json submitted_by : string)
    (github_issue_number : option Z) : PyM DB FeedbackRecord :=
  d <- py_get ;;
  let new_id := (feedback_seq d + 1)%Z in
  let rec := mkFeedback new_id category title description metadata_json submitted_by
               "OPEN" github_issue_number now in
  py_put (set_feedback (feedback_submissions d ++ [rec]) new_id d) ;;; py_ret rec.

(** [int(n) if n else None]: the number 0 reads as [None]. *)
Definition read_feedback (r : FeedbackRecord) : FeedbackRecord :=
  mkFeedback (f_id r) (f_category r) (f_title r) (f_description r) (f_metadata_json r)
    (f_submitted_by r) (f_status r)
    (match f_github_issue_number r with
     | Some n => if (n =? 0)%Z then None else Some n
     | None => None
     end) (f_created_at r).

(** [(? IS NULL OR column = ?)] *)
Definition null_or_eq (filter : option string) (column : string) : bool :=
  match filter with None => true | Some v => bool_decide (column = v) end.

Definition list_feedbacks (limit offset : Z) (submitted_by category status : option string)
    : PyM DB (list FeedbackRecord) :=
  d <- py_get ;;
  py_ret (List.map read_feedback (sql_limit_offset limit offset (reverse
    (List.filter (λ r, null_or_eq submitted_by (f_submitted_by r) &&
                       null_or_eq category (f_category r) &&
                       null_or_eq status (f_status r))
                 (feedback_submissions d))))).

Definition get_feedback (feedback_id : Z) : PyM DB (option FeedbackRecord) :=
  d <- py_get ;; py_ret (read_feedback <$> t_lookup f_id feedback_id (feedback_submissions d)).

(** The two UPDATE statements: without an issue number the linked one stays. *)
Definition set_feedback_status (status : string) (github_issue_number : option Z)
    (r : FeedbackRecord) : FeedbackRecord :=
  mkFeedback (f_id r) (f_category r) (f_title r) (f_description r) (f_metadata_json r)
    (f_submitted_by r) status
    (match github_issue_number with Some n => Some n | None => f_github_issue_number r end)
    (f_created_at r).

Definition update_feedback_status (feedback_id : Z) (status : string)
    (github_issue_number : option Z) : PyM DB (option FeedbackRecord) :=
  py_modify (λ d, set_feedback
    (t_update f_id feedback_id (set_feedback_status status github_issue_number)
              (feedback_submissions d)) (feedback_seq d) d) ;;;
  get_feedback feedback_id.

(** * Metadata *)

Definition get_meta (key : string) : PyM DB (option string) :=
  d <- py_get ;; py_ret (system_metadata d !! key).

(** [INSERT ... ON CONFLICT(key) DO UPDATE] *)
Definition set_meta (key value : string) : PyM DB unit :=
  py_modify (λ d, set_metadata (<[key := value]> (system_metadata d)) d).

(** * Histories of calls *)

(** The calls that change the database. *)
Inductive db_call : Type :=
  | CallCreateUser (now username password_hash salt email role : string) (is_active : bool)
  | CallUpdateUser (user_id : Z) (email role : option string) (is_active : option bool)
      (password_hash salt : option string)
  | CallDeleteUser (user_id : Z)
  | CallUpdateLastLogin (user_id : Z) (timestamp : string)
  | CallSetPermissions (user_id : Z) (permissions : list string)
  | CallRecordAudit (now username ip_address user_agent status failure_reason : string)
  | CallCreateFeedback (now category title description metadata_json submitted_by : string)
      (github_issue_number : option Z)
  | CallUpdateFeedback (feedback_id : Z) (status : string) (github_issue_number : option Z)
  | CallSetMeta (key value : string).

Definition run_call (c : db_call) (d : DB) : DB :=
  match c with
  | CallCreateUser now un ph sa em ro ac => (create_user now un ph sa em ro ac d).2
  | CallUpdateUser i em ro ac ph sa => (update_user i em ro ac ph sa d).2
  | CallDeleteUser i => (delete_user i d).2
  | CallUpdateLastLogin i ts => (update_user_last_login i ts d).2
  | CallSetPermissions i ps => (set_user_permissions i ps d).2
  | CallRecordAudit now un ip ua st fr => (record_login_audit now un ip ua st fr d).2
  | CallCreateFeedback now ca ti de me sb gh => (create_feedback now ca ti de me sb gh d).2
  | CallUpdateFeedback i st gh => (update_feedback_status i st gh d).2
  | CallSetMeta k v => (set_meta k v d).2
  end.

Inductive db_step : DB → DB → Prop :=
  | db_step_call c d : db_step d (run_call c d).

Definition db_reachable : DB → Prop := star db_step db_initial.

(** * Invariant *)

Record db_wf (d : DB) : Prop := {
  wf_users : t_wf row_id (users_seq d) (users d);
  wf_users_seq : (0 ≤ users_seq d)%Z;
  wf_names : NoDup (List.map row_username (users d));
  wf_foreign_key : ∀ i p, (i, p) ∈ user_permissions d → is_Some (t_lookup row_id i (users d));
  wf_audit : t_wf a_id (login_audit_seq d) (login_audit d);
  wf_audit_seq : (0 ≤ login_audit_seq d)%Z;
  wf_feedback : t_wf f_id (feedback_seq d) (feedback_submissions d);
  wf_feedback_seq : (0 ≤ feedback_seq d)%Z;
}.

(** The id was allocated once and its row is gone. *)
Definition id_retired (i : Z) (d : DB) : Prop :=
  (i ≤ users_seq d)%Z ∧ t_lookup row_id i (users d) = None.

(** * Lemmas on the primitives *)

Lemma update_row_id em ro ac ph sa r : row_id (update_row em ro ac ph sa r) = row_id r.
Proof. done. Qed.

Lemma elem_of_permissions_of i p d : p ∈ permissions_of i d ↔ (i, p) ∈ user_permissions d.
Proof.
  unfold permissions_of. rewrite elem_of_map. setoid_rewrite elem_of_filter.
  split; [intros ([i' p'] & -> & [H1 H2]); simpl in *; congruence|].
  intros H. by exists (i, p).
Qed.

Lemma find_username_None un d :
  find_username un d = None ↔ un ∉ List.map row_username (users d).
Proof.
  unfold find_username. rewrite list_elem_of_In, List.in_map_iff. split.
  - intros H (r & Hr & Hin). pose proof (List.find_none _ _ H _ Hin) as Hf.
    by apply bool_decide_eq_false in Hf.
  - intros H. destruct (List.find _ _) as [r|] eqn:E; [|done].
    apply List.find_some in E as [E1 E2]. apply bool_decide_eq_true in E2. naive_solver.
Qed.

Lemma find_username_Some un d r :
  find_username un d = Some r → r ∈ users d ∧ row_username r = un.
Proof.
  intros [H1 H2]%List.find_some. apply bool_decide_eq_true in H2.
  by rewrite list_elem_of_In.
Qed.

Lemma map_username_update k f t :
  (∀ r, row_username (f r) = row_username r) →
  List.map row_username (t_update row_id k f t) = List.map row_username t.
Proof.
  intros Hf. unfold t_update. rewrite List.map_map. apply List.map_ext.
  intros r. destruct (row_id r =? k)%Z; [by rewrite Hf|done].
Qed.

Lemma NoDup_username_delete k t :
  NoDup (List.map row_username t) → NoDup (List.map row_username (t_delete row_id k t)).
Proof.
  induction t as [|r t IH]; [done|]. cbn. intros [Hr Ht]%NoDup_cons.
  unfold t_delete in *. cbn [List.filter].
  destruct (row_id r =? k)%Z; cbn [negb List.map]; [by apply IH|].
  constructor; [|by apply IH]. rewrite list_elem_of_In, List.in_map_iff in *.
  intros (r' & H1 & H2%List.filter_In). naive_solver.
Qed.

Lemma insert_permissions_state i ps d r :
  t_lookup row_id i (users d) = Some r →
  insert_permissions i ps d =
    (Ret tt, set_perms (set_map (pair i) (list_to_set ps : gset string) ∪ user_permissions d) d).
Proof.
  revert d. induction ps as [|p ps IH]; intros d Hr; cbn [insert_permissions].
  { unfold py_ret. f_equal. destruct d; unfold set_perms; simpl. f_equal. set_solver. }
  unfold py_bind at 1, insert_permission, py_bind, py_get. rewrite Hr. cbn.
  rewrite IH by done. f_equal. unfold set_perms; simpl. f_equal. set_solver.
Qed.

Lemma permissions_of_set_perms_other i j (ps : gset string) d :
  i ≠ j →
  permissions_of j (set_perms (set_map (pair i) ps ∪ user_permissions d) d) = permissions_of j d.
Proof.
  intros Hij. apply set_eq. intros p. rewrite !elem_of_permissions_of. cbn.
  rewrite elem_of_union, elem_of_map. naive_solver.
Qed.

Lemma permissions_of_none i d :
  db_wf d → t_lookup row_id i (users d) = None → permissions_of i d = ∅.
Proof.
  intros Hwf Hi. apply set_eq. intros p. rewrite elem_of_permissions_of.
  split; [|set_solver]. intros [r Hr]%(wf_foreign_key d Hwf). congruence.
Qed.

Lemma wf_set_users_same d us :
  db_wf d → t_wf row_id (users_seq d) us →
  List.map row_username us = List.map row_username (users d) →
  (∀ i, is_Some (t_lookup row_id i (users d)) → is_Some (t_lookup row_id i us)) →
  db_wf (set_users us (users_seq d) d).
Proof. intros [] ?? Hl. split; simpl; try done; [congruence|naive_solver]. Qed.

Lemma wf_update_users d k f :
  (∀ r, row_id (f r) = row_id r) → (∀ r, row_username (f r) = row_username r) →
  db_wf d → db_wf (set_users (t_update row_id k f (users d)) (users_seq d) d).
Proof.
  intros Hid Hun Hwf. apply wf_set_users_same; [done|..].
  - apply t_wf_update; [done|apply Hwf].
  - by apply map_username_update.
  - intros i Hi. rewrite t_lookup_update by done. case_decide; [by apply fmap_is_Some|done].
Qed.

Lemma insert_user_fresh now un ph sa em ro ac d :
  find_username un d = None →
  insert_user now un ph sa em ro ac d =
    (Ret (users_seq d + 1)%Z,
     set_users (users d ++ [mkUserRow (users_seq d + 1) un ph sa (Some em) ro
                              (if ac then 1 else 0) now None]) (users_seq d + 1) d).
Proof. intros H. unfold insert_user, py_bind, py_get. by rewrite H. Qed.

Lemma insert_user_preserves_wf now un ph sa em ro ac :
  preserves db_wf (insert_user now un ph sa em ro ac).
Proof.
  intros d Hwf. destruct (find_username un d) eqn:E.
  { unfold insert_user, py_bind, py_get. by rewrite E. }
  rewrite insert_user_fresh by done. simpl. destruct Hwf. split; simpl; try done.
  - by apply t_wf_insert.
  - lia.
  - rewrite List.map_app. apply NoDup_app. repeat split; [done| |apply NoDup_singleton].
    intros x Hx ->%list_elem_of_singleton. by apply find_username_None in E.
  - intros i p Hp. rewrite t_lookup_app. destruct (wf_foreign_key0 i p Hp) as [r ->]. done.
Qed.

Lemma insert_permission_preserves_wf i p : preserves db_wf (insert_permission i p).
Proof.
  apply preserves_get_bind. intros d Hwf. destruct (t_lookup row_id i (users d)) eqn:E; [|done].
  destruct Hwf. split; simpl; try done. intros j q. rewrite elem_of_union, elem_of_singleton.
  intros [[= -> ->]|?]; [by rewrite E|eauto].
Qed.
#[export] Hint Resolve insert_user_preserves_wf insert_permission_preserves_wf : py.

Lemma insert_permissions_preserves_wf i ps : preserves db_wf (insert_permissions i ps).
Proof. induction ps; simpl; eauto with py. Qed.

Lemma delete_permissions_preserves_wf i : preserves db_wf (delete_permissions i).
Proof.
  apply preserves_modify. intros d []. split; simpl; try done.
  intros j p [_ ?]%elem_of_filter. eauto.
Qed.
#[export] Hint Resolve insert_permissions_preserves_wf delete_permissions_preserves_wf : py.

Lemma get_user_by_id_preserves I i : preserves I (get_user_by_id i).
Proof. by intros d. Qed.
Lemma get_user_by_username_preserves I un : preserves I (get_user_by_username un).
Proof. by intros d. Qed.
Lemma get_user_permissions_preserves I i : preserves I (get_user_permissions i).
Proof. by intros d. Qed.
Lemma count_active_admins_preserves I : preserves I count_active_admins.
Proof. by intros d. Qed.
#[export] Hint Resolve get_user_by_id_preserves get_user_by_username_preserves
  get_user_permissions_preserves count_active_admins_preserves : py.

Lemma create_user_preserves_wf now un ph sa em ro ac :
  preserves db_wf (create_user now un ph sa em ro ac).
Proof. unfold create_user. preserve. Qed.

Lemma update_user_preserves_wf i em ro ac ph sa :
  preserves db_wf (update_user i em ro ac ph sa).
Proof.
  unfold update_user. preserve. apply preserves_modify. intros. by apply wf_update_users.
Qed.

Lemma delete_user_preserves_wf i : preserves db_wf (delete_user i).
Proof.
  apply preserves_get_bind. intros d Hwf.
  destruct (t_lookup row_id i (users d)) eqn:E; [|done]. destruct Hwf. split; simpl; try done.
  - by apply t_wf_delete.
  - by apply NoDup_username_delete.
  - intros j p [Hj Hp]%elem_of_filter. simpl in Hj. rewrite t_lookup_delete.
    case_decide; [done|eauto].
Qed.

Lemma update_user_last_login_preserves_wf i ts : preserves db_wf (update_user_last_login i ts).
Proof. apply preserves_modify. intros. by apply wf_update_users. Qed.

Lemma set_user_permissions_preserves_wf i ps : preserves db_wf (set_user_permissions i ps).
Proof. unfold set_user_permissions. preserve. Qed.

Lemma record_login_audit_preserves_wf now un ip ua st fr :
  preserves db_wf (record_login_audit now un ip ua st fr).
Proof.
  apply preserves_get_bind. intros d []. split; simpl; try done; [by apply t_wf_insert|lia].
Qed.

Lemma create_feedback_preserves_wf now ca ti de me sb gh :
  preserves db_wf (create_feedback now ca ti de me sb gh).
Proof.
  apply preserves_get_bind. intros d []. split; simpl; try done; [by apply t_wf_insert|lia].
Qed.

Lemma update_feedback_status_preserves_wf i st gh :
  preserves db_wf (update_feedback_status i st gh).
Proof.
  unfold update_feedback_status, get_feedback. preserve.
  apply preserves_modify. intros d []. split; simpl; try done. by apply t_wf_update.
Qed.

Lemma set_meta_preserves_wf k v : preserves db_wf (set_meta k v).
Proof. apply preserves_modify. intros d []. by split. Qed.

#[export] Hint Resolve create_user_preserves_wf update_user_preserves_wf
  delete_user_preserves_wf update_user_last_login_preserves_wf
  set_user_permissions_preserves_wf record_login_audit_preserves_wf
  create_feedback_preserves_wf update_feedback_status_preserves_wf set_meta_preserves_wf : py.

Lemma db_initial_wf : db_wf db_initial.
Proof.
  split; simpl; auto using NoDup_nil_2 with py; try lia.
  intros i p []%not_elem_of_empty.
Qed.

Lemma run_call_wf c d : db_wf d → db_wf (run_call c d).
Proof.
  destruct c; simpl; intros Hd;
    (apply create_user_preserves_wf || apply update_user_preserves_wf
     || apply delete_user_preserves_wf || apply update_user_last_login_preserves_wf
     || apply set_user_permissions_preserves_wf || apply record_login_audit_preserves_wf
     || apply create_feedback_preserves_wf || apply update_feedback_status_preserves_wf
     || apply set_meta_preserves_wf); done.
Qed.

(** every database reachable from the empty schema by calls of the manager,
    in any order and with any arguments, keeps its invariant: the ids of each
    table increase and stay within the table's sequence, user names are unique,
    and every permission row references an existing user. *)
Theorem db_reachable_wf d : db_reachable d → db_wf d.
Proof.
  intros H. eapply star_invariant; [|exact H|apply db_initial_wf].
  intros a b Ha Hab. destruct Hab. by apply run_call_wf.
Qed.

Lemma id_retired_set_users i us seq d :
  (users_seq d ≤ seq)%Z → t_lookup row_id i us = None →
  id_retired i d → id_retired i (set_users us seq d).
Proof. intros ?? []. split; simpl; [lia|done]. Qed.

Lemma insert_user_retired i now un ph sa em ro ac :
  preserves (id_retired i) (insert_user now un ph sa em ro ac).
Proof.
  apply preserves_get_bind. intros d Hi. destruct (find_username un d); [exact Hi|].
  apply id_retired_set_users; [lia| |done]. destruct Hi as [Hs Hn].
  rewrite t_lookup_app, Hn. cbn. destruct (Z.eqb_spec (users_seq d + 1) i); [lia|].
  done.
Qed.

Lemma insert_permission_retired i j p : preserves (id_retired i) (insert_permission j p).
Proof. apply preserves_get_bind. intros d Hi. destruct (t_lookup _ _ _); exact Hi. Qed.

Lemma delete_permissions_retired i j : preserves (id_retired i) (delete_permissions j).
Proof. apply preserves_modify. intros d Hi. exact Hi. Qed.

#[export] Hint Resolve insert_user_retired insert_permission_retired
  delete_permissions_retired : py.

Lemma insert_permissions_retired i j ps : preserves (id_retired i) (insert_permissions j ps).
Proof. induction ps; simpl; eauto with py. Qed.
#[export] Hint Resolve insert_permissions_retired : py.

Lemma update_users_retired i k f :
  (∀ r, row_id (f r) = row_id r) →
  preserves (id_retired i)
    (py_modify (λ d, set_users (t_update row_id k f (users d)) (users_seq d) d)).
Proof.
  intros Hf. apply preserves_modify. intros d Hi. apply id_retired_set_users; [lia| |done].
  rewrite t_lookup_update by done. destruct Hi as [_ ->]. by case_decide.
Qed.

Lemma run_call_retired i c d : id_retired i d → id_retired i (run_call c d).
Proof.
  assert (preserves (id_retired i) (get_user_by_id i)) by auto with py.
  destruct c; cbn [run_call]; revert d; change (∀ d, id_retired i d → id_retired i (?m d).2)
    with (preserves (id_retired i) m).
  - unfold create_user. preserve.
  - unfold update_user. preserve. by apply update_users_retired.
  - apply preserves_get_bind. intros d Hi. destruct (t_lookup _ _ _); [|exact Hi].
    split; simpl; [apply Hi|]. rewrite t_lookup_delete. case_decide; [done|apply Hi].
  - by apply update_users_retired.
  - unfold set_user_permissions. preserve.
  - apply preserves_get_bind. intros d Hi. exact Hi.
  - apply preserves_get_bind. intros d Hi. exact Hi.
  - unfold update_feedback_status, get_feedback. preserve.
  - apply preserves_modify. intros d Hi. exact Hi.
Qed.

Lemma delete_user_retires i d :
  db_wf d → (delete_user i d).1 = Ret true → id_retired i (delete_user i d).2.
Proof.
  intros Hwf. unfold delete_user, py_bind, py_get.
  destruct (t_lookup row_id i (users d)) as [r|] eqn:E; [|done]. intros _. simpl.
  apply t_lookup_Some in E as [Hr Hk].
  destruct (wf_users d Hwf) as [Hall _]. rewrite Forall_forall in Hall.
  specialize (Hall r Hr). simpl in Hall. split; simpl; [lia|].
  rewrite t_lookup_delete. by case_decide.
Qed.

(** a deleted account never comes back under its id: after a successful
    [delete_user], no later sequence of calls makes [get_user_by_id] find that id
    again, and no permission is left under it. *)
Theorem deleted_id_never_reused i d d' :
  db_reachable d → (delete_user i d).1 = Ret true →
  star db_step (delete_user i d).2 d' →
  (get_user_by_id i d').1 = Ret None ∧ permissions_of i d' = ∅.
Proof.
  intros Hd Hdel Hs.
  assert (db_wf d) as Hwf by (eapply star_invariant; [|exact Hd|apply db_initial_wf];
    intros a b Ha Hab; destruct Hab; by apply run_call_wf).
  assert (db_wf d') as Hwf' by (eapply star_invariant; [|exact Hs|by apply delete_user_preserves_wf];
    intros a b Ha Hab; destruct Hab; by apply run_call_wf).
  assert (id_retired i d') as [_ Hn].
  { eapply star_invariant; [|exact Hs|by apply delete_user_retires].
    intros a b Ha Hab. destruct Hab. by apply run_call_retired. }
  split; [|by apply permissions_of_none]. unfold get_user_by_id, py_bind, py_get, py_ret. by rewrite Hn.
Qed.

(** A witness history: an administrator is created, then deleted. *)
Definition example_db : DB :=
  run_call (CallCreateUser "2024-01-01" "root" "h" "s" "" "admin" true) db_initial.

Lemma example_db_reachable : db_reachable example_db.
Proof. apply star_one. constructor. Qed.

Lemma db_reachable_wf_witness : db_wf example_db.
Proof. apply (db_reachable_wf example_db). exact example_db_reachable. Defined.

Lemma deleted_id_never_reused_witness :
  (get_user_by_id 1 (run_call (CallCreateUser "2024-01-02" "root" "h" "s" "" "viewer" true)
    (delete_user 1 example_db).2)).1 = Ret None.
Proof.
  apply (deleted_id_never_reused 1 example_db).
  - exact example_db_reachable.
  - vm_compute. reflexivity.
  - apply star_one. constructor.
Defined.

(** * Functional behaviour of the user operations *)

Lemma permissions_of_insert i (ps : gset string) d :
  permissions_of i d = ∅ →
  permissions_of i (set_perms (set_map (pair i) ps ∪ user_permissions d) d) = ps.
Proof.
  intros H. apply set_eq. intros p. rewrite elem_of_permissions_of. cbn.
  rewrite elem_of_union, elem_of_map, <-elem_of_permissions_of, H. set_solver.
Qed.

Lemma delete_permissions_own i d :
  permissions_of i (delete_permissions i d).2 = ∅.
Proof.
  apply set_eq. intros p. rewrite elem_of_permissions_of. cbn.
  rewrite elem_of_filter. set_solver.
Qed.

Lemma delete_permissions_other i j d :
  i ≠ j → permissions_of j (delete_permissions i d).2 = permissions_of j d.
Proof.
  intros Hij. apply set_eq. intros p. rewrite !elem_of_permissions_of. cbn.
  rewrite elem_of_filter. naive_solver.
Qed.

(** Replace the permission rows of an existing user. *)
Lemma replace_permissions i ps d r :
  t_lookup row_id i (users d) = Some r →
  ∃ q, (delete_permissions i ;;; insert_permissions i ps) d = (Ret tt, set_perms q d) ∧
       permissions_of i (set_perms q d) = list_to_set ps ∧
       ∀ j, j ≠ i → permissions_of j (set_perms q d) = permissions_of j d.
Proof.
  intros Hr. set (d1 := (delete_permissions i d).2).
  exists (set_map (pair i) (list_to_set ps : gset string) ∪ user_permissions d1).
  change ((delete_permissions i ;;; insert_permissions i ps) d) with (insert_permissions i ps d1).
  rewrite (insert_permissions_state i ps d1 r Hr). split; [done|].
  set (q := _ ∪ _). change (set_perms q d) with (set_perms q d1). subst q. split.
  - apply permissions_of_insert, delete_permissions_own.
  - intros j Hj. rewrite permissions_of_set_perms_other by done.
    by apply delete_permissions_other.
Qed.

(** ** The state each operation leaves, up to the permission rows *)

Lemma set_perms_id d : set_perms (user_permissions d) d = d.
Proof. by destruct d. Qed.

Lemma insert_permissions_perms i ps d : ∃ q, (insert_permissions i ps d).2 = set_perms q d.
Proof.
  revert d. induction ps as [|p ps IH]; intros d.
  { exists (user_permissions d). by rewrite set_perms_id. }
  cbn [insert_permissions]. unfold py_bind at 1, insert_permission, py_bind, py_get.
  destruct (t_lookup row_id i (users d)); [|exists (user_permissions d); by rewrite set_perms_id].
  cbn. destruct (IH (set_perms ({[(i, p)]} ∪ user_permissions d) d)) as [q ->]. by exists q.
Qed.

Lemma replace_permissions_perms i ps d :
  ∃ q, ((delete_permissions i ;;; insert_permissions i ps) d).2 = set_perms q d.
Proof.
  change ((delete_permissions i ;;; insert_permissions i ps) d)
    with (insert_permissions i ps (delete_permissions i d).2).
  destruct (insert_permissions_perms i ps (delete_permissions i d).2) as [q ->]. by exists q.
Qed.

Lemma set_user_permissions_perms i ps d : ∃ q, (set_user_permissions i ps d).2 = set_perms q d.
Proof. apply replace_permissions_perms. Qed.

Lemma bind_get_state {A B} (m : PyM DB A) (g : A → DB → result B) d :
  ((x <- m ;; λ d, (g x d, d)) d).2 = (m d).2.
Proof. unfold py_bind. by destruct (m d) as [[]]. Qed.

Definition new_row (now un ph sa em ro : string) (ac : bool) (d : DB) : UserRow :=
  mkUserRow (users_seq d + 1) un ph sa (Some em) ro (if ac then 1 else 0) now None.

Lemma create_user_state now un ph sa em ro ac d :
  match find_username un d with
  | Some _ => (create_user now un ph sa em ro ac d).2 = d
  | None => ∃ q, (create_user now un ph sa em ro ac d).2 =
      set_perms q (set_users (users d ++ [new_row now un ph sa em ro ac d]) (users_seq d + 1) d)
  end.
Proof.
  destruct (find_username un d) as [r|] eqn:E; unfold create_user, py_bind at 1.
  - unfold insert_user, py_bind at 1, py_get. by rewrite E.
  - rewrite insert_user_fresh by done. fold (new_row now un ph sa em ro ac d).
    set (d1 := set_users _ _ d).
    destruct (insert_permissions_perms (users_seq d + 1) (DEFAULT_ROLE_PERMISSIONS ro) d1)
      as [q Hq].
    exists q. rewrite <-Hq. unfold py_bind, get_user_by_id, py_get, py_ret, py_raise.
    destruct (insert_permissions _ _ d1) as [[|] d2]; [|done].
    cbn. by destruct (_ <$> _).
Qed.

Lemma update_user_state i em ro ac ph sa d :
  match t_lookup row_id i (users d) with
  | None => (update_user i em ro ac ph sa d).2 = d
  | Some _ => ∃ q, (update_user i em ro ac ph sa d).2 =
      set_perms q (set_users (t_update row_id i (update_row em ro ac ph sa) (users d))
                             (users_seq d) d)
  end.
Proof.
  destruct (t_lookup row_id i (users d)) as [r|] eqn:Hr;
    unfold update_user, get_user_by_id at 1, py_bind at 1 2, py_get, py_ret; rewrite Hr; [|done].
  cbn [fmap option_fmap option_map]. unfold py_bind at 1, py_modify. set (d1 := set_users _ _ d).
  assert (∀ m : PyM DB unit, (∃ q, (m d1).2 = set_perms q d1) →
    ∃ q, ((m ;;; get_user_by_id i) d1).2 = set_perms q d1) as H.
  { intros m [q Hq]. exists q. rewrite <-Hq. apply bind_get_state. }
  apply H. destruct ro as [ro|]; [|by exists (user_permissions d1)].
  destruct (bool_decide _); [|by exists (user_permissions d1)]. apply replace_permissions_perms.
Qed.

Lemma delete_user_state i d :
  match t_lookup row_id i (users d) with
  | None => (delete_user i d).2 = d
  | Some _ => ∃ q, (delete_user i d).2 =
      set_perms q (set_users (t_delete row_id i (users d)) (users_seq d) d)
  end.
Proof.
  unfold delete_user, py_bind, py_get, py_put, py_ret.
  destruct (t_lookup row_id i (users d)); by eexists.
Qed.

(** [create_user] either reports a taken name and leaves the database as it
    was, or appends exactly one row under the next id, returns that row as the
    record, grants it exactly the default permissions of its role, and changes
    nobody else's permissions and no other table. *)
Theorem create_user_spec now un ph sa em ro ac d :
  db_reachable d →
  match create_user now un ph sa em ro ac d with
  | (Raise e, d') =>
      e = IntegrityError "UNIQUE constraint failed: users.username" ∧ d' = d ∧
      un ∈ List.map row_username (users d)
  | (Ret u, d') =>
      un ∉ List.map row_username (users d) ∧
      u = mkUser (users_seq d + 1) un ph sa em ro ac now None ∧
      users d' = users d ++ [mkUserRow (users_seq d + 1) un ph sa (Some em) ro
                               (if ac then 1 else 0) now None] ∧
      users_seq d' = (users_seq d + 1)%Z ∧
      permissions_of (u_id u) d' = list_to_set (DEFAULT_ROLE_PERMISSIONS ro) ∧
      (∀ j, j ≠ u_id u → permissions_of j d' = permissions_of j d) ∧
      login_audit d' = login_audit d ∧ feedback_submissions d' = feedback_submissions d ∧
      system_metadata d' = system_metadata d
  end.
Proof.
  intros Hd.
  assert (db_wf d) as Hwf by (eapply star_invariant; [|exact Hd|apply db_initial_wf];
    intros a b Ha Hab; destruct Hab; by apply run_call_wf).
  unfold create_user, py_bind. destruct (find_username un d) as [r|] eqn:E.
  { unfold insert_user, py_bind, py_get. rewrite E. simpl. split_and!; try done.
    apply find_username_Some in E as [E <-]. apply list_elem_of_In, List.in_map.
    by apply list_elem_of_In. }
  rewrite insert_user_fresh by done. set (d1 := set_users _ _ d).
  set (r := mkUserRow (users_seq d + 1) un ph sa (Some em) ro (if ac then 1 else 0) now None).
  assert (t_lookup row_id (users_seq d + 1) (users d1) = Some r) as Hr.
  { unfold d1. simpl. rewrite t_lookup_app, (t_wf_fresh _ _ _ (wf_users d Hwf)). cbn.
    by rewrite Z.eqb_refl. }
  cbv beta iota. rewrite (insert_permissions_state _ _ _ r) by exact Hr.
  unfold get_user_by_id, py_bind, py_get, py_ret. cbn [users set_perms].
  rewrite Hr. cbn [fmap option_fmap option_map].
  assert (∀ j, permissions_of j d1 = permissions_of j d) as Hp by done.
  split_and!; try done; [by apply find_username_None|by destruct ac| |].
  - cbn [u_id row_to_user row_id r]. apply permissions_of_insert. rewrite Hp.
    apply permissions_of_none; [done|]. apply (t_wf_fresh _ _ _ (wf_users d Hwf)).
  - intros j Hj. rewrite permissions_of_set_perms_other by done. apply Hp.
Qed.

Lemma create_user_spec_witness :
  (create_user "t" "root" "h" "s" "" "viewer" true example_db).2 = example_db.
Proof.
  pose proof (create_user_spec "t" "root" "h" "s" "" "viewer" true example_db
                example_db_reachable) as H.
  destruct (create_user "t" "root" "h" "s" "" "viewer" true example_db) as [[u|e] d'] eqn:E.
  - vm_compute in E. discriminate.
  - apply H.
Defined.

(** [update_user] on an existing account changes only that account: given
    fields are replaced, omitted fields, the name, the id and the creation date
    stay; the permissions are reset to the new role's defaults exactly when a
    role different from the current one is given.  On a missing id it changes
    nothing and returns [None]. *)
Theorem update_user_spec i em ro ac ph sa d :
  match t_lookup row_id i (users d) with
  | None => update_user i em ro ac ph sa d = (Ret None, d)
  | Some r =>
      let d' := (update_user i em ro ac ph sa d).2 in
      (update_user i em ro ac ph sa d).1 =
        Ret (Some (row_to_user (update_row em ro ac ph sa r))) ∧
      t_lookup row_id i (users d') = Some (update_row em ro ac ph sa r) ∧
      (∀ j, j ≠ i → t_lookup row_id j (users d') = t_lookup row_id j (users d)) ∧
      permissions_of i d' =
        (match ro with
         | Some ro' => if bool_decide (ro' = row_role r) then permissions_of i d
                       else list_to_set (DEFAULT_ROLE_PERMISSIONS ro')
         | None => permissions_of i d
         end) ∧
      (∀ j, j ≠ i → permissions_of j d' = permissions_of j d)
  end.
Proof.
  destruct (t_lookup row_id i (users d)) as [r|] eqn:Hr;
    [|unfold update_user, get_user_by_id, py_bind at 1 2, py_get, py_ret; by rewrite Hr].
  set (us := t_update row_id i (update_row em ro ac ph sa) (users d)).
  set (d1 := set_users us (users_seq d) d).
  set (m := match ro with
            | Some ro' => if bool_decide (ro' ≠ row_role r) then
                delete_permissions i ;;; insert_permissions i (DEFAULT_ROLE_PERMISSIONS ro')
                else py_ret tt
            | None => py_ret tt end).
  assert (update_user i em ro ac ph sa d = (m ;;; get_user_by_id i) d1) as Heq.
  { unfold update_user, get_user_by_id at 1, py_bind at 1 2, py_get, py_ret. by rewrite Hr. }
  rewrite !Heq. clear Heq.
  assert (∀ j, t_lookup row_id j us =
    if decide (j = i) then update_row em ro ac ph sa <$> t_lookup row_id j (users d)
    else t_lookup row_id j (users d)) as Hl by (intros j; by apply t_lookup_update).
  assert (t_lookup row_id i us = Some (update_row em ro ac ph sa r)) as Hi
    by (rewrite Hl; case_decide; [by rewrite Hr|done]).
  assert (∀ j, j ≠ i → t_lookup row_id j us = t_lookup row_id j (users d)) as Hj
    by (intros j ?; rewrite Hl; by case_decide).
  assert (∃ q, m d1 = (Ret tt, set_perms q d1) ∧
    permissions_of i (set_perms q d1) = match ro with
      | Some ro' => if bool_decide (ro' = row_role r) then permissions_of i d
                    else list_to_set (DEFAULT_ROLE_PERMISSIONS ro')
      | None => permissions_of i d end ∧
    ∀ j, j ≠ i → permissions_of j (set_perms q d1) = permissions_of j d1)
    as (q & Hm & Hown & Hother).
  { subst m. destruct ro as [ro|]; [|by exists (user_permissions d1)].
    destruct (decide (ro = row_role r)) as [->|Hne].
    - rewrite bool_decide_false by naive_solver. rewrite bool_decide_true by done.
      by exists (user_permissions d1).
    - rewrite bool_decide_true, bool_decide_false by done. by eapply replace_permissions. }
  assert ((m ;;; get_user_by_id i) d1 =
    (Ret (Some (row_to_user (update_row em ro ac ph sa r))), set_perms q d1)) as ->.
  { unfold py_bind. rewrite Hm. unfold get_user_by_id, py_bind, py_get, py_ret.
    change (users (set_perms q d1)) with us. by rewrite Hi. }
  by split_and!.
Qed.

(** * Permissions round trip *)

(** what [set_user_permissions] stores for an existing user is what
    [get_user_permissions] returns: exactly the given permissions, each once
    and in ascending order; no other user's permissions change.  For an unknown
    user a non-empty list is refused by the foreign key and nothing is stored. *)
Theorem set_get_permissions i ps d :
  db_reachable d →
  let d' := (set_user_permissions i ps d).2 in
  (∀ j, j ≠ i → permissions_of j d' = permissions_of j d) ∧
  match t_lookup row_id i (users d) with
  | Some _ =>
      (set_user_permissions i ps d).1 = Ret tt ∧
      ∃ l, (get_user_permissions i d').1 = Ret l ∧ Sorted String.le l ∧ NoDup l ∧
           ∀ p, p ∈ l ↔ p ∈ ps
  | None =>
      (ps = [] ∨ (set_user_permissions i ps d).1 = Raise (IntegrityError "FOREIGN KEY constraint failed")) ∧
      (get_user_permissions i d').1 = Ret []
  end.
Proof.
  intros Hd.
  assert (db_wf d) as Hwf by (eapply star_invariant; [|exact Hd|apply db_initial_wf];
    intros a b Ha Hab; destruct Hab; by apply run_call_wf).
  destruct (t_lookup row_id i (users d)) as [r|] eqn:Hr.
  - destruct (replace_permissions i (elements (list_to_set ps : gset string)) d r Hr)
      as (q & Hrun & Hown & Hother).
    unfold set_user_permissions. rewrite !Hrun. cbv zeta. cbn [fst snd].
    split; [exact Hother|]. split; [done|].
    eexists. split; [done|]. rewrite Hown. split_and!.
    + apply Sorted_merge_sort. apply _.
    + rewrite merge_sort_Permutation. apply NoDup_elements.
    + intros p. rewrite merge_sort_Permutation. set_solver.
  - assert ((delete_permissions i d).2 = d) as Hdel.
    { unfold delete_permissions, py_modify, set_perms. simpl.
      replace (filter _ (user_permissions d)) with (user_permissions d); [by destruct d|].
      apply set_eq. intros [j p]. rewrite elem_of_filter. simpl. split; [|naive_solver].
      intros Hp. split; [|done]. intros ->.
      destruct (wf_foreign_key d Hwf _ _ Hp) as [? ?]. congruence. }
    unfold set_user_permissions, py_bind.
    change (delete_permissions i d) with (@Ret unit tt, (delete_permissions i d).2).
    rewrite Hdel.
    assert (∀ l, insert_permissions i l d = (match l with [] => Ret tt
      | _ => Raise (IntegrityError "FOREIGN KEY constraint failed") end, d)) as Hins.
    { intros [|p l]; [done|]. cbn. unfold insert_permission, py_bind, py_get. by rewrite Hr. }
    rewrite Hins. simpl. split; [done|]. split.
    + destruct ps as [|p ps]; [by left|right].
      destruct (elements _) as [|q l] eqn:E; [|done].
      apply elements_empty_inv in E. set_solver.
    + unfold get_user_permissions, py_bind, py_get, py_ret. simpl.
      by rewrite permissions_of_none, elements_empty.
Qed.

Lemma set_get_permissions_witness :
  ∃ l, (get_user_permissions 1
          (set_user_permissions 1 ["logs:view"; "b"; "logs:view"] example_db).2).1 = Ret l ∧
       Sorted String.le l ∧ NoDup l ∧ ∀ p, p ∈ l ↔ p ∈ ["logs:view"; "b"; "logs:view"].
Proof.
  exact (proj2 (proj2 (set_get_permissions 1 ["logs:view"; "b"; "logs:view"] example_db
                         example_db_reachable))).
Defined.

(** * Login audit *)

Lemma sql_limit_offset_append {R} (l : list R) limit1 limit2 offset :
  (0 ≤ limit1)%Z → (0 ≤ limit2)%Z → (0 ≤ offset)%Z →
  sql_limit_offset limit1 offset l ++ sql_limit_offset limit2 (offset + limit1) l =
  sql_limit_offset (limit1 + limit2) offset l.
Proof.
  intros. unfold sql_limit_offset.
  rewrite !(proj2 (Z.ltb_ge _ _)) by lia.
  rewrite !Z2Nat.inj_add by done. rewrite <-drop_drop.
  apply take_take_drop.
Qed.

(** the audit trail only grows: recording an attempt puts it first in the
    listing and shifts every earlier record by one, records are listed newest
    first, and consecutive pages concatenate to the larger page, so paging
    neither skips nor repeats an attempt. *)
Theorem audit_trail_pages now un ip ua st fr limit1 limit2 offset d :
  (0 ≤ limit1)%Z → (0 ≤ limit2)%Z → (0 ≤ offset)%Z →
  let d' := (record_login_audit now un ip ua st fr d).2 in
  let rec := mkAudit (login_audit_seq d + 1) un now ip ua st fr in
  (record_login_audit now un ip ua st fr d).1 = Ret rec ∧
  (∀ limit, (0 < limit)%Z → ∃ older,
     (list_login_audits limit 0 d').1 = Ret (rec :: older) ∧
     (list_login_audits (limit - 1) 0 d).1 = Ret older) ∧
  ∃ page1 page2,
    (list_login_audits limit1 offset d').1 = Ret page1 ∧
    (list_login_audits limit2 (offset + limit1) d').1 = Ret page2 ∧
    (list_login_audits (limit1 + limit2) offset d').1 = Ret (page1 ++ page2) ∧
    length page1 ≤ Z.to_nat limit1.
Proof.
  intros H1 H2 H3 d' rec. split; [done|]. split.
  - intros limit Hl. eexists. split; [|done].
    unfold list_login_audits, py_bind, py_get, py_ret, d'. simpl. f_equal.
    rewrite reverse_app. unfold sql_limit_offset. simpl.
    rewrite !(proj2 (Z.ltb_ge _ _)) by lia.
    destruct (Z.to_nat limit) as [|n] eqn:E; [lia|].
    change (reverse [rec] ++ reverse (login_audit d)) with (rec :: reverse (login_audit d)).
    cbn. f_equal. f_equal. lia.
  - do 2 eexists. split_and!; [done|done| |].
    + unfold list_login_audits, py_bind, py_get, py_ret. simpl. f_equal. symmetry.
      by apply sql_limit_offset_append.
    + by apply length_sql_limit_offset.
Qed.

Lemma audit_trail_pages_witness :
  ∃ page1 page2,
    (list_login_audits 1 0 (record_login_audit "t" "u" "ip" "ua" "FAILED" "r" example_db).2).1
      = Ret page1 ∧
    (list_login_audits 2 (0 + 1) (record_login_audit "t" "u" "ip" "ua" "FAILED" "r" example_db).2).1
      = Ret page2 ∧
    (list_login_audits (1 + 2) 0 (record_login_audit "t" "u" "ip" "ua" "FAILED" "r" example_db).2).1
      = Ret (page1 ++ page2) ∧ length page1 ≤ Z.to_nat 1.
Proof. apply (audit_trail_pages "t" "u" "ip" "ua" "FAILED" "r" 1 2 0 example_db); lia. Defined.
