(* ===== verification/Auth.v ===== *)
(** Password hashing, session tokens, permission evaluation and the first-run
    bootstrap of the administrator ([app/database/auth.py]).

    Randomness ([secrets]) and the clock are arguments; times are in nanoseconds
    since the epoch. *)

From S2P Require Import Prelude PyStr PyCrypto PyJson Database.
From Stdlib Require Import ZArith Lia Ascii Bool.
From stdpp Require Import base tactics list strings gmap.
Open Scope py_scope.

(** * Passwords *)

Definition PBKDF2_ITERATIONS : N := 100000.

(** [secrets.token_hex]: the random bytes in hexadecimal. *)
Definition token_hex (random : list Z) : string := hex_of_bytes random.

Definition hash_password (random : list Z) (password : string) (salt : option string)
    : string * string :=
  let salt := match salt with Some s => s | None => token_hex random end in
  let digest := hex_of_bytes
    (pbkdf2_hmac (bytes_of password) (bytes_of salt) PBKDF2_ITERATIONS) in
  (digest, salt).

Definition verify_password (plain_password salt password_hash : string) : result bool :=
  let '(calculated_hash, _) := hash_password [] plain_password (Some salt) in
  compare_digest calculated_hash password_hash.

(** * Session tokens *)

Definition nanoseconds : Z := 1000000000.

Definition b64_rstrip (bs : list Z) : string := rstrip_by (Ascii.eqb "=") (b64encode true bs).

Definition token_signature (secret_key payload_b64 : string) : string :=
  b64_rstrip (hmac_sha256 (bytes_of secret_key) (bytes_of payload_b64)).

Definition session_payload (username : string) (expires_at : Z) (nonce : string) : json :=
  JObj [("sub", JStr username); ("exp", JInt expires_at); ("nonce", JStr nonce)].

(** [random] is the eight bytes of the nonce. *)
Definition generate_session_token (now : Z) (random : list Z) (username secret_key : string)
    (expires_in_seconds : Z) : string :=
  let expires_at := (now / nanoseconds + expires_in_seconds)%Z in
  let nonce := token_hex random in
  let payload_json := dumps "," ":" (session_payload username expires_at nonce) in
  let payload_b64 := b64_rstrip (bytes_of payload_json) in
  payload_b64 +:+ "." +:+ token_signature secret_key payload_b64.

(** [not isinstance(exp, (int, float)) or exp < time.time()]: a [bool] is an
    [int], no comparison with NaN holds. *)
Definition exp_rejected (now : Z) (exp : option json) : bool :=
  match exp with
  | Some (JInt n) => n * nanoseconds <? now
  | Some (JBool b) => (if b then 1 else 0) * nanoseconds <? now
  | Some (JFloat m e) =>
      if 0 <=? e then m * 10 ^ e * nanoseconds <? now
      else m * nanoseconds <? now * 10 ^ (- e)
  | Some (JConstant c) => String.eqb c "-Infinity"
  | _ => true
  end%Z.

(** The decoded claims: [None] when base64, UTF-8 or JSON decoding raises an
    error that [verify_session_token] catches. *)
Definition decode_payload (payload_b64 : string) : option json :=
  let padding := str_repeat "=" (Z.to_nat ((- Z.of_nat (String.length payload_b64)) mod 4)) in
  match urlsafe_b64decode (payload_b64 +:+ padding) with
  | None => None
  | Some bs =>
      let payload_json := string_of_bytes bs in
      if utf8_valid payload_json then loads payload_json else None
  end.

Definition verify_session_token (now : Z) (token secret_key : string)
    : result (option string) :=
  match str_split "." token with
  | [payload_b64; sig_b64] =>
      match compare_digest sig_b64 (token_signature secret_key payload_b64) with
      | Raise e => Raise e
      | Ret false => Ret None
      | Ret true =>
          match decode_payload payload_b64 with
          | None => Ret None
          | Some (JObj payload) =>
              if exp_rejected now (json_get "exp" payload) then Ret None
              else match json_get "sub" payload with
              | Some (JStr username) =>
                  if String.eqb username "" then Ret None else Ret (Some username)
              | _ => Ret None
              end
          | Some _ => Raise (AttributeError "get")
          end
      end
  | _ => Ret None
  end.

(** * Permissions *)

Definition has_permission (user_role : string) (user_permissions : list string)
    (required_permission : string) : bool :=
  if String.eqb user_role "admin" then true
  else if bool_decide ("*"%string ∈ user_permissions) then true
  else if bool_decide (required_permission ∈ user_permissions) then true
  else bool_decide (required_permission ∈ DEFAULT_ROLE_PERMISSIONS user_role).

(** * First-run bootstrap *)

Record BootstrapState := mkBootstrap {
  is_pending : bool;
  b_username : option string;
  b_password : option string;
}.

Definition bootstrap_initial : BootstrapState := mkBootstrap false None None.

(** What the process holds: the database on disk, the in-memory bootstrap
    singleton, and the passwords written to the credential export file. *)
Record App := mkApp {
  db : DB;
  bootstrap_state : BootstrapState;
  exported : list string;
}.

(** A call on the shared [DatabaseManager]. *)
Definition on_db {A} (m : PyM DB A) : PyM App A :=
  λ a, let '(r, d) := m (db a) in (r, mkApp d (bootstrap_state a) (exported a)).

(** A pure computation that may raise. *)
Definition of_result {S A} (r : result A) : PyM S A := λ s, (r, s).

Definition get_bootstrap_state : PyM App BootstrapState :=
  a <- py_get ;; py_ret (bootstrap_state a).

Definition set_bootstrap_pending (username password : string) : PyM App unit :=
  py_modify (λ a, mkApp (db a) (mkBootstrap true (Some username) (Some password)) (exported a)).

Definition acknowledge_bootstrap : PyM App unit :=
  py_modify (λ a, mkApp (db a) bootstrap_initial (exported a)) ;;;
  on_db (set_meta "bootstrap_completed" "true").

(** [_export_credentials_to_file]: an [OSError] ([writable = false]) is logged
    and swallowed. *)
Definition export_credentials_to_file (writable : bool) (password : string) : PyM App unit :=
  if writable then
    py_modify (λ a, mkApp (db a) (bootstrap_state a) (exported a ++ [password]))
  else py_ret tt.

(** [default_password] is [None] or the empty string when it is not configured;
    [has_export_path] is [export_path is not None]; [random_password] is
    [secrets.token_urlsafe(20)] and [random_salt] the sixteen salt bytes. *)
Definition bootstrap_admin_user (now : string) (random_password : string)
    (random_salt : list Z) (writable : bool)
    (default_password : option string) (has_export_path : bool) : PyM App UserRecord :=
  existing_admin <- on_db (get_user_by_username "admin") ;;
  match existing_admin with
  | Some u => py_ret u
  | None =>
      n <- on_db count_users ;;
      if (n =? 0)%Z then
        let given := default "" default_password in
        let is_generated := String.eqb given "" in
        let password_to_use := if is_generated then random_password else given in
        let '(pw_hash, salt) := hash_password random_salt password_to_use None in
        admin_user <- on_db (create_user now "admin" pw_hash salt "admin@localhost" "admin" true) ;;
        (if is_generated || has_export_path
         then export_credentials_to_file writable password_to_use else py_ret tt) ;;;
        (if is_generated then
           m <- on_db (get_meta "bootstrap_completed") ;;
           match m with
           | None => set_bootstrap_pending "admin" password_to_use
           | Some _ => py_ret tt
           end
         else py_ret tt) ;;;
        py_ret admin_user
      else
        first_users <- on_db list_users ;;
        match first_users with
        | u :: _ => py_ret u
        | [] => py_raise (ValueError "list index out of range")
        end
  end.

#[global] Arguments hash_password : simpl never.
#[global] Arguments verify_password : simpl never.
#[global] Arguments generate_session_token : simpl never.
#[global] Arguments verify_session_token : simpl never.

(** * Lemmas *)

Lemma on_db_eq {A} (m : PyM DB A) a r d :
  m (db a) = (r, d) → on_db m a = (r, mkApp d (bootstrap_state a) (exported a)).
Proof. intros H. unfold on_db. by rewrite H. Qed.

Lemma lxor_byte_bound a b : (0 ≤ a < 256 → 0 ≤ b < 256 → 0 ≤ Z.lxor a b < 256)%Z.
Proof.
  intros Ha Hb. split; [apply Z.lxor_nonneg; lia|].
  destruct (Z.eq_dec (Z.lxor a b) 0%Z) as [->|Hnz]; [lia|].
  assert (0 ≤ Z.lxor a b)%Z by (apply Z.lxor_nonneg; lia).
  apply (Z.log2_lt_cancel _ 256%Z). change (Z.log2 256) with 8%Z.
  pose proof (Z.log2_lxor a b ltac:(lia) ltac:(lia)) as Hl.
  assert (∀ x, 0 ≤ x < 256 → Z.log2 x < 8)%Z as Hlog.
  { intros x Hx. destruct (Z.eq_dec x 0%Z) as [->|]; [done|].
    apply Z.log2_lt_pow2; lia. }
  pose proof (Hlog a Ha). pose proof (Hlog b Hb). lia.
Qed.

Lemma xor_bytes_bound l1 l2 :
  Forall (λ b, 0 ≤ b < 256)%Z l1 → Forall (λ b, 0 ≤ b < 256)%Z l2 →
  Forall (λ b, 0 ≤ b < 256)%Z (xor_bytes l1 l2).
Proof.
  intros H1. revert l2. induction H1 as [|a l1 Ha _ IH]; intros [|b l2] H2; try constructor.
  - apply lxor_byte_bound; [done|]. by apply Forall_cons in H2 as [? _].
  - apply IH. by apply Forall_cons in H2 as [_ ?].
Qed.

Lemma pbkdf2_bound p s n : Forall (λ b, 0 ≤ b < 256)%Z (pbkdf2_hmac p s n).
Proof.
  unfold pbkdf2_hmac.
  apply (N.iter_invariant _ _ _ (λ q, Forall (λ b, 0 ≤ b < 256)%Z q.2)).
  - intros [u t] Ht. cbn in *. apply xor_bytes_bound; [done|apply hmac_sha256_bound].
  - apply hmac_sha256_bound.
Qed.

Lemma hash_password_salt random password salt :
  (hash_password random password (Some salt)).2 = salt.
Proof. done. Qed.

(** The digest depends on the salt, not on the randomness, once a salt is given;
    a generated salt is the one returned. *)
Lemma hash_password_digest random password salt :
  (hash_password random password salt).1 =
  (hash_password [] password (Some (hash_password random password salt).2)).1.
Proof. by destruct salt. Qed.

Lemma hash_password_isascii random password salt :
  str_isascii (hash_password random password salt).1 = true.
Proof. apply hex_of_bytes_isascii, pbkdf2_bound. Qed.

Lemma verify_password_eq password salt h :
  str_isascii h = true →
  verify_password password salt h =
    Ret (String.eqb (hash_password [] password (Some salt)).1 h).
Proof.
  intros Hh. unfold verify_password, compare_digest.
  destruct (hash_password [] password (Some salt)) as [d s] eqn:E.
  pose proof (hash_password_isascii [] password (Some salt)) as Ha. rewrite E in Ha.
  cbn [fst] in *. by rewrite Ha, Hh.
Qed.

(** a password verifies against the digest and salt that [hash_password]
    returned for it, whatever salt was generated, and verification of any
    candidate never raises: it succeeds exactly when the candidate has the same
    digest under that salt. *)
Theorem verify_hash_password random password candidate salt :
  let '(h, s) := hash_password random password salt in
  verify_password password s h = Ret true ∧
  verify_password candidate s h =
    Ret (String.eqb (hash_password [] candidate (Some s)).1 h).
Proof.
  pose proof (hash_password_isascii random password salt) as Ha.
  pose proof (hash_password_digest random password salt) as Hd.
  destruct (hash_password random password salt) as [h s]. cbn [fst snd] in *.
  rewrite !verify_password_eq by done. split; [|done]. by rewrite <-Hd, String.eqb_refl.
Qed.

Lemma b64_rstrip_shape bs :
  Forall (λ b, 0 ≤ b < 256)%Z bs →
  str_all b64_ok (b64_rstrip bs) = true ∧
  urlsafe_b64decode (b64_rstrip bs +:+
    str_repeat "=" (Z.to_nat ((- Z.of_nat (String.length (b64_rstrip bs))) mod 4))) = Some bs.
Proof.
  intros Hb. destruct (b64_unpadded_shape bs Hb) as (raw & k & Henc & Hall & Hk & Hdec).
  assert (b64_rstrip bs = raw) as ->.
  { unfold b64_rstrip. rewrite Henc, rstrip_by_app_all by apply str_all_repeat_eq.
    apply rstrip_by_id. eapply str_all_impl; [|exact Hall].
    intros c. unfold b64_ok. rewrite !andb_true_iff. tauto. }
  split; [done|]. rewrite <-Hk, Nat2Z.id. unfold urlsafe_b64decode, b64decode.
  rewrite str_map_app. specialize (Hdec ""%string).
  rewrite str_app_nil_r in Hdec.
  assert (str_map urlsafe_char (str_repeat "=" k) = str_repeat "=" k) as ->.
  { clear. induction k as [|k IH]; [done|]. cbn. by rewrite IH. }
  rewrite Hdec. case_decide; [|done]. cbn. by rewrite app_nil_r.
Qed.

Lemma b64_ok_no_dot s :
  str_all b64_ok s = true → str_all (λ a, negb (Ascii.eqb a ".")) s = true.
Proof.
  apply str_all_impl. intros c. unfold b64_ok. rewrite !andb_true_iff. tauto.
Qed.
Lemma b64_ok_ascii s : str_all b64_ok s = true → str_isascii s = true.
Proof. apply str_all_impl. intros c. unfold b64_ok. rewrite !andb_true_iff. tauto. Qed.

Lemma token_signature_ok key p : str_all b64_ok (token_signature key p) = true.
Proof. apply b64_rstrip_shape, hmac_sha256_bound. Qed.

Lemma session_payload_isascii u exp nonce :
  utf8_valid u = true → str_isascii nonce = true →
  str_isascii (dumps "," ":" (session_payload u exp nonce)) = true.
Proof.
  intros Hu Hn. unfold session_payload. cbn [dumps List.map str_join fst snd].
  pose proof (dumps_str_isascii _ Hu) as H1. pose proof (dumps_str_isascii _ (utf8_valid_ascii _ Hn)) as H2.
  pose proof (str_of_Z_isascii exp) as H3. unfold str_isascii in *.
  by rewrite !str_all_app, H1, H2, H3.
Qed.

(** The claims of a generated token are read back. *)
Lemma decode_generated_payload u exp nonce :
  utf8_valid u = true → str_isascii nonce = true →
  decode_payload (b64_rstrip (bytes_of (dumps "," ":" (session_payload u exp nonce)))) =
    Some (session_payload u exp nonce).
Proof.
  intros Hu Hn. unfold decode_payload.
  rewrite (proj2 (b64_rstrip_shape _ (bytes_of_bound _))), string_of_bytes_of.
  rewrite utf8_valid_ascii by (by apply session_payload_isascii).
  apply (loads_dumps "" ""); [done|done|]. cbn. by rewrite Hu, (utf8_valid_ascii nonce Hn).
Qed.

(** The verification of any text of the form payload "." signature. *)
Lemma verify_signed now key p :
  str_all b64_ok p = true →
  verify_session_token now (p +:+ "." +:+ token_signature key p) key =
    match decode_payload p with
    | None => Ret None
    | Some (JObj payload) =>
        if exp_rejected now (json_get "exp" payload) then Ret None
        else match json_get "sub" payload with
        | Some (JStr username) =>
            if String.eqb username "" then Ret None else Ret (Some username)
        | _ => Ret None
        end
    | Some _ => Raise (AttributeError "get")
    end.
Proof.
  intros Hp. unfold verify_session_token.
  change ("." +:+ token_signature key p) with (String "." (token_signature key p)).
  rewrite str_split_app by (by apply b64_ok_no_dot).
  rewrite str_split_none by (apply b64_ok_no_dot, token_signature_ok).
  by rewrite compare_digest_refl by (apply b64_ok_ascii, token_signature_ok).
Qed.

Lemma session_payload_exp u exp nonce :
  json_get "exp" [("sub", JStr u); ("exp", JInt exp); ("nonce", JStr nonce)]%string
  = Some (JInt exp).
Proof. done. Qed.

Lemma verify_generated_token now now' random username key expires_in :
  username ≠ ""%string → utf8_valid username = true →
  Forall (λ b, 0 ≤ b < 256)%Z random →
  verify_session_token now' (generate_session_token now random username key expires_in) key =
    Ret (if ((now / nanoseconds + expires_in) * nanoseconds <? now')%Z
         then None else Some username).
Proof.
  intros Hne Hu Hr. unfold generate_session_token.
  pose proof (hex_of_bytes_isascii random Hr) as Hn.
  rewrite verify_signed by apply b64_rstrip_shape, bytes_of_bound.
  rewrite decode_generated_payload by done. unfold session_payload.
  rewrite session_payload_exp. cbn [exp_rejected].
  destruct (_ <? now')%Z; [done|]. cbn.
  by destruct (String.eqb_spec username "").
Qed.

(** a token issued for a (non-empty) user name is accepted under the
    same key and yields that name until its expiry instant, and is refused from
    then on; the nonce does not matter. *)
Theorem session_token_roundtrip now now' random username key expires_in :
  username ≠ ""%string → utf8_valid username = true →
  Forall (λ b, 0 ≤ b < 256)%Z random →
  verify_session_token now' (generate_session_token now random username key expires_in) key =
    Ret (if ((now / nanoseconds + expires_in) * nanoseconds <? now')%Z
         then None else Some username).
Proof. apply verify_generated_token. Qed.

Lemma session_token_roundtrip_witness :
  verify_session_token 86400000000000
    (generate_session_token 0 [1; 2; 3; 4; 5; 6; 7; 8]%Z "alice" "k" 86400) "k"
  = Ret (Some "alice"%string).
Proof.
  rewrite session_token_roundtrip; [reflexivity|discriminate|reflexivity|].
  repeat constructor; lia.
Defined.

Lemma str_split_two c s a b :
  str_split c s = [a; b] → s = a +:+ String c b.
Proof.
  revert a b. induction s as [|x s IH]; intros a b; [done|]. cbn.
  destruct (Ascii.eqb_spec x c) as [->|Hne].
  - intros [= <- Hb]. rewrite str_app_empty. f_equal. revert b Hb. clear.
    induction s as [|y s IH]; intros b; cbn; [by intros [= <-]|].
    destruct (Ascii.eqb y c); [by destruct s; cbn; repeat case_match|].
    destruct (str_split c s) as [|w ws] eqn:E.
    { destruct s; cbn in E; repeat case_match; done. }
    intros [= <- ->]. f_equal. by apply IH.
  - destruct (str_split c s) as [|w ws] eqn:E; [done|]. intros [= <- ->].
    by rewrite str_app_cons, (IH w b eq_refl).
Qed.

(** soundness of verification: whatever text is presented, a name is
    returned only for a text whose second part is the HMAC of its first part
    under the server key, whose payload decodes to an object with that
    non-empty name as "sub" and an unexpired "exp". *)
Theorem verify_session_token_sound now token key username :
  verify_session_token now token key = Ret (Some username) →
  ∃ payload_b64 payload,
    token = payload_b64 +:+ "." +:+ token_signature key payload_b64 ∧
    decode_payload payload_b64 = Some (JObj payload) ∧
    json_get "sub" payload = Some (JStr username) ∧ username ≠ ""%string ∧
    exp_rejected now (json_get "exp" payload) = false.
Proof.
  unfold verify_session_token. destruct (str_split "." token) as [|p [|g [|]]] eqn:E; try done.
  apply str_split_two in E as ->.
  destruct (compare_digest _ _) as [[]|] eqn:Hc; try done. apply compare_digest_true in Hc as ->.
  destruct (decode_payload p) as [[]|] eqn:Hd; try done.
  destruct (exp_rejected _ _) eqn:He; [done|].
  destruct (json_get "sub" l) as [[]|] eqn:Hs; try done.
  destruct (String.eqb_spec s ""); [done|]. intros [= <-]. by exists p, l.
Qed.

Lemma verify_session_token_sound_witness :
  ∃ payload_b64 payload,
    generate_session_token 0 [1]%Z "alice" "k" 60
      = payload_b64 +:+ "." +:+ token_signature "k" payload_b64 ∧
    decode_payload payload_b64 = Some (JObj payload) ∧
    json_get "sub" payload = Some (JStr "alice") ∧ "alice"%string ≠ ""%string ∧
    exp_rejected 5 (json_get "exp" payload) = false.
Proof.
  apply (verify_session_token_sound 5 (generate_session_token 0 [1]%Z "alice" "k" 60) "k" "alice").
  vm_compute. reflexivity.
Defined.

(** a token whose signature part holds a character outside ASCII makes
    verification raise [TypeError] instead of reporting an invalid token:
    [hmac.compare_digest] refuses such strings and nothing catches it. *)
Theorem non_ascii_signature_raises now p g key :
  str_all (λ a, negb (Ascii.eqb a ".")) p = true →
  str_all (λ a, negb (Ascii.eqb a ".")) g = true → str_isascii g = false →
  verify_session_token now (p +:+ "." +:+ g) key =
    Raise (TypeError "comparing strings with non-ASCII characters is not supported").
Proof.
  intros Hp Hg Ha. unfold verify_session_token. change ("." +:+ g) with (String "." g).
  rewrite str_split_app, str_split_none by done. unfold compare_digest. by rewrite Ha.
Qed.

Lemma non_ascii_signature_raises_witness :
  verify_session_token 0 ("a" +:+ "." +:+ string_of_bytes [195; 169]%Z) "k" =
    Raise (TypeError "comparing strings with non-ASCII characters is not supported").
Proof. apply non_ascii_signature_raises; reflexivity. Defined.

Lemma has_permission_iff role perms required :
  has_permission role perms required = true ↔
  role = "admin"%string ∨ "*"%string ∈ perms ∨ required ∈ perms ∨
  required ∈ DEFAULT_ROLE_PERMISSIONS role.
Proof.
  unfold has_permission. destruct (String.eqb_spec role "admin"); [tauto|].
  destruct (decide ("*"%string ∈ perms)); [rewrite bool_decide_true by done; tauto|].
  rewrite bool_decide_false by done.
  destruct (decide (required ∈ perms)); [rewrite bool_decide_true by done; tauto|].
  rewrite bool_decide_false by done. rewrite bool_decide_eq_true. tauto.
Qed.

(** the role defaults are a floor that stored permissions cannot lower:
    revoking every stored permission of an operator or viewer with
    [set_user_permissions] leaves every default permission of the role granted,
    and no permission outside the defaults. *)
Theorem role_defaults_not_revocable i role required d :
  role ≠ "admin"%string →
  let d' := (set_user_permissions i [] d).2 in
  ∃ perms, (get_user_permissions i d').1 = Ret perms ∧
    (has_permission role perms required = true ↔
     required ∈ DEFAULT_ROLE_PERMISSIONS role).
Proof.
  intros Hr d'. eexists. split; [done|].
  assert (permissions_of i d' = ∅) as Hp.
  { unfold d', set_user_permissions, py_bind.
    change (delete_permissions i d) with (@Ret unit tt, (delete_permissions i d).2).
    cbn [insert_permissions list_to_set foldr]. rewrite elements_empty. cbn.
    apply delete_permissions_own. }
  rewrite Hp, elements_empty, has_permission_iff. cbn. set_solver.
Qed.

Lemma role_defaults_not_revocable_witness :
  ∃ perms, (get_user_permissions 1 (set_user_permissions 1 [] example_db).2).1 = Ret perms ∧
    (has_permission "operator" perms "server:reboot" = true ↔
     "server:reboot"%string ∈ DEFAULT_ROLE_PERMISSIONS "operator").
Proof. apply (role_defaults_not_revocable 1 "operator" "server:reboot" example_db). done. Defined.
