(* ===== verification/Access.v ===== *)
(** The FastAPI dependencies that authenticate and authorise a request
    ([app/routers/deps.py]).

    A dependency runs in the state-and-exception monad over [App]; the secret
    key [settings.AdminPassword] and the clock are arguments. *)

From S2P Require Import Prelude PyStr PyCrypto PyJson Database Auth.
From Stdlib Require Import ZArith Lia Ascii Bool.
From stdpp Require Import base tactics list strings gmap sorting.
Open Scope py_scope.

(** The parts of a Starlette request the dependencies read: header names are
    lower case, a lookup finds the first header of a name; [client] is the peer
    address of the connection. *)
Record Request := mkRequest {
  headers : list (string * string);
  cookies : list (string * string);
  client : option string;
}.

Fixpoint assoc_get (k : string) (l : list (string * string)) : option string :=
  match l with
  | [] => None
  | (k', v) :: l' => if String.eqb k' k then Some v else assoc_get k l'
  end.

Definition get_client_ip (request : Request) : string :=
  match assoc_get "cf-connecting-ip" (headers request) with
  | Some ip => ip
  | None =>
      match assoc_get "x-forwarded-for" (headers request) with
      | Some v => str_strip (List.hd EmptyString (str_split "," v))
      | None =>
          match assoc_get "x-real-ip" (headers request) with
          | Some ip => ip
          | None =>
              match client request with
              | Some host => if String.eqb host "" then "127.0.0.1" else host
              | None => "127.0.0.1"
              end
          end
      end
  end%string.

(** The user name and password of a Basic header; [None] when decoding raises
    one of the errors that are caught, or when there is no colon. *)
Definition basic_credentials (auth_header : string) : option (string * string) :=
  let encoded_creds := str_strip (str_drop 6 auth_header) in
  if negb (str_isascii encoded_creds) then None
  else match b64decode encoded_creds with
  | None => None
  | Some bs =>
      let decoded := string_of_bytes bs in
      if utf8_valid decoded then str_split1 ":" decoded else None
  end.

Definition LOOPBACK_CLIENTS : list string :=
  ["127.0.0.1"; "::1"; "testclient"; "localhost"]%string.

(** The user record of an active account, if there is one. *)
Definition active_user (name : string) : PyM App (option UserRecord) :=
  user <- on_db (get_user_by_username name) ;;
  match user with
  | Some u => py_ret (if u_is_active u then Some u else None)
  | None => py_ret None
  end.

Definition synthetic_admin (now_ts : string) : UserRecord :=
  mkUser 1 "admin" "" "" "admin@localhost" "admin" true now_ts None.

Definition INVALID_TOKEN : exc := HTTPException 401 "Invalid or expired session token.".
Definition CREDENTIALS_REQUIRED : exc :=
  HTTPException 401 "Authentication credentials required.".

Definition loopback_fallback (now_ts : string) (request : Request) : PyM App UserRecord :=
  if bool_decide (get_client_ip request ∈ LOOPBACK_CLIENTS) then
    admin_rec <- active_user "admin" ;;
    match admin_rec with
    | Some u => py_ret u
    | None => py_ret (synthetic_admin now_ts)
    end
  else py_raise CREDENTIALS_REQUIRED.

(** The [if token:] part and what follows it. *)
Definition resolve_token (now : Z) (now_ts : string) (secret : string) (request : Request)
    (token : string) : PyM App UserRecord :=
  if String.eqb token "" then loopback_fallback now_ts request
  else
    username <- of_result (verify_session_token now token secret) ;;
    match username with
    | Some name =>
        user <- active_user name ;;
        match user with Some u => py_ret u | None => py_raise INVALID_TOKEN end
    | None => py_raise INVALID_TOKEN
    end.

Definition get_current_user (now : Z) (now_ts : string) (secret : string) (request : Request)
    : PyM App UserRecord :=
  let auth_header := default EmptyString (assoc_get "authorization" (headers request)) in
  if startswith auth_header "Bearer " then
    resolve_token now now_ts secret request (str_strip (str_drop 7 auth_header))
  else match assoc_get "pal_session_token" (cookies request) with
  | Some token => resolve_token now now_ts secret request token
  | None =>
      if startswith auth_header "Basic " then
        match basic_credentials auth_header with
        | Some (user_part, pass_part) =>
            if String.eqb user_part "admin" && String.eqb pass_part secret then
              admin_rec <- active_user "admin" ;;
              match admin_rec with
              | Some u => py_ret u
              | None => loopback_fallback now_ts request
              end
            else loopback_fallback now_ts request
        | None => loopback_fallback now_ts request
        end
      else loopback_fallback now_ts request
  end.

Definition get_current_user_optional (now : Z) (now_ts : string) (secret : string)
    (request : Request) : PyM App (option UserRecord) :=
  py_try (u <- get_current_user now now_ts secret request ;; py_ret (Some u))
    (λ e, match e with HTTPException _ _ => py_ret None | _ => py_raise e end).

Definition forbidden (permission : string) : exc :=
  HTTPException 403 ("Forbidden: Insufficient privileges. Required permission: '"
                     +:+ permission +:+ "'.").

(** The dependency that [require_permission(permission)] builds. *)
Definition require_permission (permission : string) (now : Z) (now_ts : string)
    (secret : string) (request : Request) : PyM App UserRecord :=
  user <- get_current_user now now_ts secret request ;;
  user_perms <- on_db (get_user_permissions (u_id user)) ;;
  if has_permission (u_role user) user_perms permission then py_ret user
  else py_raise (forbidden permission).

Definition require_admin (now : Z) (now_ts : string) (secret : string) (request : Request)
    : PyM App UserRecord :=
  user <- get_current_user now now_ts secret request ;;
  if String.eqb (u_role user) "admin" then py_ret user
  else py_raise (HTTPException 403 "Forbidden: Administrator role required.").

(** * Lemmas *)

Definition active_in (name : string) (a : App) : option UserRecord :=
  match find_username name (db a) with
  | Some r => if negb (row_is_active r =? 0)%Z then Some (row_to_user r) else None
  | None => None
  end.

Lemma active_user_eq name a : active_user name a = (Ret (active_in name a), a).
Proof.
  unfold active_user, active_in, on_db, get_user_by_username, py_bind, py_get, py_ret.
  destruct a as [d b e]. cbn. destruct (find_username name d) as [r|]; cbn; [|done].
  by destruct (negb (row_is_active r =? 0)%Z).
Qed.

Lemma active_in_Some name a u :
  active_in name a = Some u →
  ∃ r, r ∈ users (db a) ∧ row_username r = name ∧ u = row_to_user r ∧ row_is_active r ≠ 0%Z.
Proof.
  unfold active_in. destruct (find_username name (db a)) as [r|] eqn:E; [|done].
  apply find_username_Some in E as [E1 E2].
  destruct (Z.eqb_spec (row_is_active r) 0); [done|]. intros [= <-]. by exists r.
Qed.

Definition fallback_result (now_ts : string) (request : Request) (a : App) : result UserRecord :=
  if bool_decide (get_client_ip request ∈ LOOPBACK_CLIENTS)
  then Ret (default (synthetic_admin now_ts) (active_in "admin" a))
  else Raise CREDENTIALS_REQUIRED.

Lemma loopback_fallback_eq now_ts request a :
  loopback_fallback now_ts request a = (fallback_result now_ts request a, a).
Proof.
  unfold loopback_fallback, fallback_result. case_bool_decide; [|done].
  unfold py_bind. rewrite active_user_eq. by destruct (active_in "admin" a).
Qed.

Definition token_result (now : Z) (now_ts secret : string) (request : Request)
    (token : string) (a : App) : result UserRecord :=
  if String.eqb token "" then fallback_result now_ts request a
  else match verify_session_token now token secret with
  | Raise e => Raise e
  | Ret (Some name) =>
      match active_in name a with Some u => Ret u | None => Raise INVALID_TOKEN end
  | Ret None => Raise INVALID_TOKEN
  end.

Lemma resolve_token_eq now now_ts secret request token a :
  resolve_token now now_ts secret request token a =
    (token_result now now_ts secret request token a, a).
Proof.
  unfold resolve_token, token_result.
  destruct (String.eqb token ""); [apply loopback_fallback_eq|].
  unfold py_bind, of_result. destruct (verify_session_token now token secret) as [[name|]|]; [|done..].
  rewrite active_user_eq. by destruct (active_in name a).
Qed.

(** The token a request presents: a Bearer header hides the cookie; an empty
    token counts as none. *)
Definition presented_token (request : Request) : option string :=
  let auth_header := default EmptyString (assoc_get "authorization" (headers request)) in
  let token :=
    if startswith auth_header "Bearer " then Some (str_strip (str_drop 7 auth_header))
    else assoc_get "pal_session_token" (cookies request) in
  match token with
  | Some t => if String.eqb t "" then None else Some t
  | None => None
  end.

(** The Basic credentials a request presents, read only without a Bearer header
    and without a cookie. *)
Definition presented_basic (request : Request) : option (string * string) :=
  let auth_header := default EmptyString (assoc_get "authorization" (headers request)) in
  if startswith auth_header "Bearer " then None
  else match assoc_get "pal_session_token" (cookies request) with
  | Some _ => None
  | None => if startswith auth_header "Basic " then basic_credentials auth_header else None
  end.

Definition presents_loopback (request : Request) : Prop :=
  get_client_ip request ∈ LOOPBACK_CLIENTS.

Lemma presented_token_nonempty request t :
  presented_token request = Some t → String.eqb t "" = false.
Proof.
  unfold presented_token. cbv zeta. destruct (if startswith _ _ then _ else _) as [s|]; [|done].
  destruct (String.eqb s "") eqn:E; [done|]. by intros [= <-].
Qed.

Lemma get_current_user_eq now now_ts secret request a :
  get_current_user now now_ts secret request a =
  (match presented_token request with
   | Some t => token_result now now_ts secret request t a
   | None =>
       match presented_basic request with
       | Some (u, p) =>
           if String.eqb u "admin" && String.eqb p secret then
             match active_in "admin" a with
             | Some r => Ret r
             | None => fallback_result now_ts request a
             end
           else fallback_result now_ts request a
       | None => fallback_result now_ts request a
       end
   end, a).
Proof.
  unfold get_current_user, presented_token, presented_basic.
  set (h := default _ _). destruct (startswith h "Bearer ").
  { rewrite resolve_token_eq. unfold token_result at 1.
    destruct (String.eqb _ "") eqn:E; [done|]. unfold token_result. by rewrite E. }
  destruct (assoc_get "pal_session_token" (cookies request)) as [t|].
  { rewrite resolve_token_eq. unfold token_result at 1.
    destruct (String.eqb t "") eqn:E; [done|]. unfold token_result. by rewrite E. }
  destruct (startswith h "Basic "); [|apply loopback_fallback_eq].
  destruct (basic_credentials h) as [[u p]|]; [|apply loopback_fallback_eq].
  destruct (_ && _); [|apply loopback_fallback_eq].
  unfold py_bind. rewrite active_user_eq. destruct (active_in "admin" a); [done|].
  apply loopback_fallback_eq.
Qed.

Lemma get_current_user_preserves I now now_ts secret request :
  preserves I (get_current_user now now_ts secret request).
Proof. intros a Ha. by rewrite get_current_user_eq. Qed.

(** C2: authentication is sound: resolving the user of a request changes
    nothing, and a user is returned only when (1) the request carries a token
    that verifies for a name whose account exists and is active, (2) it carries
    no token but the Basic credentials "admin" with the administrator password,
    and that account is active, or (3) it carries no token and its client
    address, as the proxy headers report it, is a loopback one. *)
Theorem authentication_sound now now_ts secret request a u a' :
  get_current_user now now_ts secret request a = (Ret u, a') →
  a' = a ∧
  ((∃ t name, presented_token request = Some t ∧
      verify_session_token now t secret = Ret (Some name) ∧
      active_in name a = Some u) ∨
   (presented_token request = None ∧ presented_basic request = Some ("admin", secret)%string ∧
      active_in "admin" a = Some u) ∨
   (presented_token request = None ∧ presents_loopback request ∧
      u = default (synthetic_admin now_ts) (active_in "admin" a))).
Proof.
  rewrite get_current_user_eq. intros [= H <-]. split; [done|].
  assert (fallback_result now_ts request a = Ret u →
    presents_loopback request ∧ u = default (synthetic_admin now_ts) (active_in "admin" a)) as Hf.
  { unfold fallback_result. case_bool_decide; [|done]. by intros [= <-]. }
  destruct (presented_token request) as [t|] eqn:Ht.
  - left. unfold token_result in H. rewrite (presented_token_nonempty _ _ Ht) in H.
    destruct (verify_session_token now t secret) as [[name|]|] eqn:Hv; try done.
    destruct (active_in name a) eqn:Ha; [|done]. exists t, name. naive_solver.
  - right. destruct (presented_basic request) as [[un p]|]; [|right; by destruct (Hf H)].
    destruct (String.eqb un "admin") eqn:Eu; cbn [andb] in H; [|right; by destruct (Hf H)].
    destruct (String.eqb p secret) eqn:Ep; [|right; by destruct (Hf H)].
    apply String.eqb_eq in Eu as ->. apply String.eqb_eq in Ep as ->.
    destruct (active_in "admin" a) as [r|] eqn:Ha; [|right; by destruct (Hf H)].
    left. naive_solver.
Qed.

Definition example_app : App := mkApp example_db bootstrap_initial [].

Definition example_request : Request :=
  mkRequest [] [("pal_session_token", generate_session_token 0 [1]%Z "root" "k" 60)]%string
    (Some "203.0.113.9"%string).

Lemma authentication_sound_witness :
  ∃ t name, presented_token example_request = Some t ∧
    verify_session_token 5 t "k" = Ret (Some name) ∧
    active_in name example_app =
      Some (mkUser 1 "root" "h" "s" "" "admin" true "2024-01-01" None).
Proof.
  destruct (authentication_sound 5 "t" "k" example_request example_app
              (mkUser 1 "root" "h" "s" "" "admin" true "2024-01-01" None) example_app) as
    [_ [H|[(_ & H & _)|(_ & H & _)]]].
  - vm_compute. reflexivity.
  - exact H.
  - vm_compute in H. discriminate.
  - apply (bool_decide_pack (get_client_ip example_request ∈ LOOPBACK_CLIENTS)) in H.
    vm_compute in H. destruct H.
Defined.

(** a client that presents no credentials and whose reported address is not
    a loopback one is refused with status 401, whatever the accounts are. *)
Theorem remote_anonymous_rejected now now_ts secret request a :
  presented_token request = None → presented_basic request = None →
  ¬ presents_loopback request →
  get_current_user now now_ts secret request a =
    (Raise (HTTPException 401 "Authentication credentials required."), a) ∧
  get_current_user_optional now now_ts secret request a = (Ret None, a).
Proof.
  intros Ht Hb Hl.
  assert (get_current_user now now_ts secret request a = (Raise CREDENTIALS_REQUIRED, a)) as E.
  { rewrite get_current_user_eq, Ht, Hb. unfold fallback_result.
    by rewrite bool_decide_false. }
  split; [exact E|]. unfold get_current_user_optional, py_try, py_bind. by rewrite E.
Qed.

Lemma remote_anonymous_rejected_witness :
  get_current_user 5 "t" "k" (mkRequest [] [] (Some "203.0.113.9"%string)) example_app =
    (Raise (HTTPException 401 "Authentication credentials required."), example_app) ∧
  get_current_user_optional 5 "t" "k" (mkRequest [] [] (Some "203.0.113.9"%string)) example_app =
    (Ret None, example_app).
Proof.
  apply remote_anonymous_rejected; [reflexivity..|].
  intros H.
  apply (bool_decide_pack (get_client_ip (mkRequest [] [] (Some "203.0.113.9"%string))
                           ∈ LOOPBACK_CLIENTS)) in H.
  vm_compute in H. destruct H.
Defined.

(** the loopback fallback trusts the proxy headers: any peer, whatever its
    real address, that sends the header "x-forwarded-for: 127.0.0.1" and no
    credentials is resolved to the active account named "admin", or to a
    synthetic user with the administrator role when that account is missing or
    disabled, and passes the [require_admin] dependency in the latter case. *)
Theorem forwarded_loopback_is_admin now now_ts secret peer rest a :
  active_in "admin" a = None →
  let request := mkRequest (("x-forwarded-for", "127.0.0.1" +:+ rest)%string :: nil) [] peer in
  str_strip (List.hd EmptyString (str_split "," ("127.0.0.1" +:+ rest))) = "127.0.0.1"%string →
  get_current_user now now_ts secret request a = (Ret (synthetic_admin now_ts), a) ∧
  require_admin now now_ts secret request a = (Ret (synthetic_admin now_ts), a) ∧
  ∀ permission,
    require_permission permission now now_ts secret request a = (Ret (synthetic_admin now_ts), a).
Proof.
  intros Ha request Hip.
  assert (get_current_user now now_ts secret request a = (Ret (synthetic_admin now_ts), a)) as E.
  { rewrite get_current_user_eq. cbn [presented_token presented_basic request headers cookies].
    unfold fallback_result. rewrite bool_decide_true.
    - by rewrite Ha.
    - unfold get_client_ip. cbn [request headers assoc_get String.eqb Ascii.eqb Bool.eqb].
      rewrite Hip. by left. }
  split_and!; [exact E|unfold require_admin, py_bind; by rewrite E|].
  intros permission. unfold require_permission, py_bind. rewrite E.
  unfold on_db, get_user_permissions, py_bind, py_get, py_ret. by destruct a.
Qed.

Lemma forwarded_loopback_is_admin_witness :
  (require_admin 0 "t" "k"
     (mkRequest [("x-forwarded-for", "127.0.0.1")]%string [] (Some "203.0.113.9"%string))
     example_app).1 = Ret (synthetic_admin "t").
Proof.
  destruct (forwarded_loopback_is_admin 0 "t" "k" (Some "203.0.113.9"%string) "" example_app)
    as (_ & H & _); [reflexivity|reflexivity|].
  exact (f_equal fst H).
Defined.

(** the permission guard is exact: behind [require_permission p] a request
    is let through as the user that authentication found if and only if that
    user's role or stored permissions grant [p]; otherwise status 403 (or the
    authentication error) is raised, and in every case nothing is changed. *)
Theorem require_permission_exact permission now now_ts secret request a :
  let '(auth, _) := get_current_user now now_ts secret request a in
  require_permission permission now now_ts secret request a =
    (match auth with
     | Raise e => Raise e
     | Ret u =>
         if bool_decide (u_role u = "admin"%string ∨
                         "*"%string ∈ permissions_of (u_id u) (db a) ∨
                         permission ∈ permissions_of (u_id u) (db a) ∨
                         permission ∈ DEFAULT_ROLE_PERMISSIONS (u_role u))
         then Ret u else Raise (forbidden permission)
     end, a).
Proof.
  pose proof (get_current_user_eq now now_ts secret request a) as E.
  destruct (get_current_user now now_ts secret request a) as [auth a'] eqn:Eg.
  injection E as _ ->. unfold require_permission, py_bind. rewrite Eg.
  destruct auth as [u|e]; [|done].
  unfold on_db, get_user_permissions, py_bind, py_get, py_ret. destruct a as [d b ex]. cbn [db].
  set (l := merge_sort _ _).
  assert (∀ p, p ∈ l ↔ p ∈ permissions_of (u_id u) d) as Hl.
  { intros p. unfold l. rewrite merge_sort_Permutation. set_solver. }
  destruct (has_permission (u_role u) l permission) eqn:Hp.
  - apply has_permission_iff in Hp. rewrite !Hl in Hp. by rewrite bool_decide_true.
  - rewrite bool_decide_false; [done|]. rewrite <-!Hl, <-has_permission_iff. congruence.
Qed.
