(* ===== verification/UserRoutes.v ===== *)
(** Login, registration, first-run bootstrap and user administration: the
    endpoints of [app/routers/auth.py] with the request schemas of
    [app/api/schemas.py] they validate.

    [serve] runs one request: the dependencies of the endpoint first, then the
    validation of the body, then the handler.  [app_step] adds the restart of
    the process, which loses the in-memory bootstrap state and bootstraps the
    administrator again. *)

From S2P Require Import Prelude PyStr PyCrypto PyJson Database Auth Access.
From Stdlib Require Import ZArith Lia Ascii Bool.
From stdpp Require Import base tactics list strings gmap sorting.
Open Scope py_scope.

(** * Request and response schemas *)

Definition length_between (lo hi : Z) (s : string) : bool :=
  ((lo <=? utf8_len s) && (utf8_len s <=? hi))%Z.

(** [^[a-zA-Z0-9_-]+$] *)
Definition username_char (c : ascii) : bool :=
  is_alnum c || Ascii.eqb c "_" || Ascii.eqb c "-".
Definition username_pattern (s : string) : bool :=
  negb (String.eqb s "") && str_all username_char s.

(** [^[^@\s]+@[^@\s]+\.[^@\s]+$] *)
Definition email_pattern (s : string) : bool :=
  match str_split "@" s with
  | [local; domain] =>
      str_all (λ c, negb (is_space c)) s && negb (String.eqb local "") &&
      match domain with
      | String _ rest => str_contains "." (str_rev (str_drop 1 (str_rev rest)))
      | EmptyString => false
      end
  | _ => false
  end.

Definition valid_role (r : string) : bool :=
  String.eqb r "admin" || String.eqb r "operator" || String.eqb r "viewer".

Definition opt_all {A} (p : A → bool) (o : option A) : bool :=
  match o with Some a => p a | None => true end.

Record UserLoginRequest := mkLogin { l_username : string; l_password : string }.
Definition valid_login (q : UserLoginRequest) : bool :=
  length_between 1 64 (l_username q) && length_between 1 128 (l_password q).

Record UserCreateRequest := mkCreate {
  c_username : string; c_password : string; c_email : string; c_role : string;
  c_permissions : option (list string) }.
Definition valid_create (q : UserCreateRequest) : bool :=
  length_between 3 64 (c_username q) && username_pattern (c_username q) &&
  length_between 4 128 (c_password q) && length_between 0 128 (c_email q) &&
  valid_role (c_role q).

Record UserRegisterRequest := mkRegister {
  r_username : string; r_password : string; r_email : string }.
Definition valid_register (q : UserRegisterRequest) : bool :=
  length_between 3 32 (r_username q) && username_pattern (r_username q) &&
  length_between 8 128 (r_password q) && length_between 3 120 (r_email q) &&
  email_pattern (r_email q).

Definition valid_role_update (role : string) : bool := valid_role role.

Record UserUpdateRequest := mkUpdate {
  p_email : option string; p_role : option string; p_is_active : option bool;
  p_password : option string; p_permissions : option (list string) }.
Definition valid_update (q : UserUpdateRequest) : bool :=
  opt_all (length_between 0 128) (p_email q) && opt_all valid_role (p_role q) &&
  opt_all (length_between 4 128) (p_password q).

Record UserResponse := mkUserResponse {
  o_user : UserRecord;
  o_permissions : list string;
}.

Record UserLoginResponse := mkLoginResponse {
  lr_token : string; lr_username : string; lr_role : string; lr_permissions : list string }.

(** * Endpoints *)

(** What a request is served with: the clock, the dates the two calls of
    [datetime.now] render, the random bytes, the secret key, the request. *)
Record Env := mkEnv {
  e_now : Z; e_iso : string; e_iso2 : string;
  e_salt : list Z; e_nonce : list Z; e_secret : string; e_request : Request }.

Inductive response : Type :=
  | RCredentials (username password : option string)
  | RAck
  | RLogin (r : UserLoginResponse)
  | RUser (r : UserResponse)
  | RUsers (l : list UserResponse)
  | RAudits (l : list LoginAuditRecord)
  | RMessage (m : string).

Definition get_bootstrap_credentials : PyM App response :=
  state <- get_bootstrap_state ;;
  if negb (is_pending state) then
    py_raise (HTTPException 404
      "System setup is complete. Bootstrap credentials are no longer available.")
  else py_ret (RCredentials (b_username state) (b_password state)).

Definition acknowledge_bootstrap_credentials : PyM App response :=
  state <- get_bootstrap_state ;;
  if negb (is_pending state) then
    py_raise (HTTPException 409 "Bootstrap has already been acknowledged. Nothing to confirm.")
  else acknowledge_bootstrap ;;; py_ret RAck.

Definition INVALID_LOGIN : exc := HTTPException 401 "Invalid username or password.".

Definition login (env : Env) (req : UserLoginRequest) : PyM App response :=
  let client_ip := get_client_ip (e_request env) in
  let user_agent := default "Unknown" (assoc_get "user-agent" (headers (e_request env))) in
  user <- on_db (get_user_by_username (l_username req)) ;;
  ok <- match user with
        | Some u =>
            if u_is_active u
            then of_result (verify_password (l_password req) (u_salt u) (u_password_hash u))
            else py_ret false
        | None => py_ret false
        end ;;
  match user, ok with
  | Some u, true =>
      let token := generate_session_token (e_now env) (e_nonce env) (u_username u)
                     (e_secret env) 86400 in
      on_db (record_login_audit (e_iso env) (u_username u) client_ip user_agent "SUCCESS" "") ;;;
      on_db (update_user_last_login (u_id u) (e_iso2 env)) ;;;
      state <- get_bootstrap_state ;;
      (if is_pending state && String.eqb (u_role u) "admin"
       then acknowledge_bootstrap else py_ret tt) ;;;
      permissions <- on_db (get_user_permissions (u_id u)) ;;
      py_ret (RLogin (mkLoginResponse token (u_username u) (u_role u) permissions))
  | _, _ =>
      let reason := match user with
        | Some u => if u_is_active u then "Invalid credentials" else "Account disabled"
        | None => "Invalid credentials" end in
      on_db (record_login_audit (e_iso env) (l_username req) client_ip user_agent
               "FAILED" reason) ;;;
      py_raise INVALID_LOGIN
  end%string.

Definition already_registered (username : string) : exc :=
  HTTPException 409 ("Username '" +:+ username +:+ "' already registered.").
Definition user_not_found (user_id : Z) : exc :=
  HTTPException 404 ("User ID " +:+ str_of_Z user_id +:+ " not found.").

Definition user_response (u : UserRecord) : PyM App response :=
  perms <- on_db (get_user_permissions (u_id u)) ;;
  py_ret (RUser (mkUserResponse u perms)).

Definition register (env : Env) (req : UserRegisterRequest) : PyM App response :=
  existing <- on_db (get_user_by_username (r_username req)) ;;
  match existing with
  | Some _ => py_raise (already_registered (r_username req))
  | None =>
      let '(pw_hash, salt) := hash_password (e_salt env) (r_password req) None in
      user <- on_db (create_user (e_iso env) (r_username req) pw_hash salt (r_email req)
                       "viewer" true) ;;
      user_response user
  end.

Definition get_me (user : UserRecord) : PyM App response := user_response user.

Definition get_login_audit_trail (limit offset : Z) : PyM App response :=
  records <- on_db (list_login_audits limit offset) ;; py_ret (RAudits records).

Fixpoint responses_of (l : list UserRecord) : PyM App (list UserResponse) :=
  match l with
  | [] => py_ret []
  | u :: rest =>
      perms <- on_db (get_user_permissions (u_id u)) ;;
      others <- responses_of rest ;;
      py_ret (mkUserResponse u perms :: others)
  end.

Definition list_registered_users : PyM App response :=
  us <- on_db list_users ;; l <- responses_of us ;; py_ret (RUsers l).

Definition create_new_user (env : Env) (req : UserCreateRequest) : PyM App response :=
  existing <- on_db (get_user_by_username (c_username req)) ;;
  match existing with
  | Some _ => py_raise (already_registered (c_username req))
  | None =>
      let '(pw_hash, salt) := hash_password (e_salt env) (c_password req) None in
      user <- on_db (create_user (e_iso env) (c_username req) pw_hash salt (c_email req)
                       (c_role req) true) ;;
      match c_permissions req with
      | Some ps => on_db (set_user_permissions (u_id user) ps)
      | None => py_ret tt
      end ;;;
      user_response user
  end.

Definition CANNOT_DEMOTE : exc :=
  HTTPException 400 "Cannot demote the last remaining active administrator.".
Definition CANNOT_DEACTIVATE : exc :=
  HTTPException 400 "Cannot deactivate the last remaining active administrator.".
Definition CANNOT_DELETE : exc :=
  HTTPException 400 "Cannot delete the last remaining active administrator.".

(** [db.count_active_admins() <= 1], evaluated only when [guard] holds. *)
Definition reject_last_admin (guard : bool) (e : exc) : PyM App unit :=
  if guard then
    n <- on_db count_active_admins ;; raise_if (n <=? 1)%Z e
  else py_ret tt.

Definition update_existing_user (env : Env) (user_id : Z) (req : UserUpdateRequest)
    : PyM App response :=
  existing <- on_db (get_user_by_id user_id) ;;
  match existing with
  | None => py_raise (user_not_found user_id)
  | Some ex =>
      let active_admin := String.eqb (u_role ex) "admin" && u_is_active ex in
      reject_last_admin
        (active_admin && match p_role req with
                         | Some r => negb (String.eqb r "admin") | None => false end)
        CANNOT_DEMOTE ;;;
      reject_last_admin
        (active_admin && match p_is_active req with Some b => negb b | None => false end)
        CANNOT_DEACTIVATE ;;;
      let '(pw_hash, salt) := match p_password req with
        | Some p => if String.eqb p "" then (None, None) else
            let '(h, s) := hash_password (e_salt env) p None in (Some h, Some s)
        | None => (None, None)
        end in
      updated <- on_db (update_user user_id (p_email req) (p_role req) (p_is_active req)
                          pw_hash salt) ;;
      match updated with
      | None => py_raise (user_not_found user_id)
      | Some u =>
          match p_permissions req with
          | Some ps => on_db (set_user_permissions user_id ps)
          | None => py_ret tt
          end ;;;
          perms <- on_db (get_user_permissions user_id) ;;
          py_ret (RUser (mkUserResponse u perms))
      end
  end.

Definition update_user_role (user_id : Z) (role : string) : PyM App response :=
  existing <- on_db (get_user_by_id user_id) ;;
  match existing with
  | None => py_raise (user_not_found user_id)
  | Some ex =>
      reject_last_admin
        (String.eqb (u_role ex) "admin" && u_is_active ex && negb (String.eqb role "admin"))
        CANNOT_DEMOTE ;;;
      updated <- on_db (update_user user_id None (Some role) None None None) ;;
      match updated with
      | None => py_raise (user_not_found user_id)
      | Some u =>
          perms <- on_db (get_user_permissions user_id) ;;
          py_ret (RUser (mkUserResponse u perms))
      end
  end.

Definition delete_existing_user (admin_user : UserRecord) (user_id : Z) : PyM App response :=
  if (u_id admin_user =? user_id)%Z then
    py_raise (HTTPException 400 "Cannot delete your own active administrator account.")
  else
    existing <- on_db (get_user_by_id user_id) ;;
    match existing with
    | None => py_raise (user_not_found user_id)
    | Some ex =>
        reject_last_admin (String.eqb (u_role ex) "admin" && u_is_active ex) CANNOT_DELETE ;;;
        ok <- on_db (delete_user user_id) ;;
        if negb ok then py_raise (user_not_found user_id)
        else py_ret (RMessage ("User ID " +:+ str_of_Z user_id +:+ " deleted."))
    end.

(** * Serving a request *)

Inductive api_call : Type :=
  | GetBootstrap | AckBootstrap
  | Login (q : UserLoginRequest)
  | Register (q : UserRegisterRequest)
  | Logout
  | Me
  | AuditTrail (limit offset : Z)
  | ListUsers
  | CreateUser (q : UserCreateRequest)
  | UpdateUser (user_id : Z) (q : UserUpdateRequest)
  | UpdateRole (user_id : Z) (role : string)
  | DeleteUser (user_id : Z).

(** The validation of the body, which runs after the dependencies. *)
Definition validated (b : bool) (m : PyM App response) : PyM App response :=
  if b then m else py_raise (HTTPException 422 "Unprocessable Entity").

Definition current_user (env : Env) : PyM App UserRecord :=
  get_current_user (e_now env) (e_iso env) (e_secret env) (e_request env).
Definition perm_users_manage (env : Env) : PyM App UserRecord :=
  require_permission "users:manage" (e_now env) (e_iso env) (e_secret env) (e_request env).

Definition serve (env : Env) (c : api_call) : PyM App response :=
  match c with
  | GetBootstrap => get_bootstrap_credentials
  | AckBootstrap => acknowledge_bootstrap_credentials
  | Login q => validated (valid_login q) (login env q)
  | Register q => validated (valid_register q) (register env q)
  | Logout => py_ret (RMessage "Successfully logged out.")
  | Me => user <- current_user env ;; get_me user
  | AuditTrail limit offset => perm_users_manage env ;;; get_login_audit_trail limit offset
  | ListUsers => perm_users_manage env ;;; list_registered_users
  | CreateUser q =>
      perm_users_manage env ;;; validated (valid_create q) (create_new_user env q)
  | UpdateUser i q =>
      perm_users_manage env ;;; validated (valid_update q) (update_existing_user env i q)
  | UpdateRole i role =>
      perm_users_manage env ;;; validated (valid_role_update role) (update_user_role i role)
  | DeleteUser i => user <- perm_users_manage env ;; delete_existing_user user i
  end.

(** The lifespan start-up: a new process over the same database. *)
Definition restart (now random_password : string) (random_salt : list Z) (writable : bool)
    (admin_password : string) (has_export_path : bool) : PyM App UserRecord :=
  py_modify (λ a, mkApp (db a) bootstrap_initial (exported a)) ;;;
  bootstrap_admin_user now random_password random_salt writable
    (if String.eqb admin_password "admin_password" then None else Some admin_password)
    has_export_path.

Inductive app_step : App → App → Prop :=
  | step_serve env c a : app_step a (serve env c a).2
  | step_restart now pw salt writable key export a :
      app_step a (restart now pw salt writable key export a).2.

Definition app_initial : App := mkApp db_initial bootstrap_initial [].

(** * Invariants *)

Definition name_ok (s : string) : Prop := s ≠ ""%string ∧ str_isascii s = true.

(** What the endpoints rely on beyond [db_wf]: the activity flag is 0 or 1, user
    names are non-empty ASCII, digests are ASCII, and some administrator is
    active. *)
Definition row_ok (r : UserRow) : Prop :=
  (row_is_active r = 0%Z ∨ row_is_active r = 1%Z) ∧
  name_ok (row_username r) ∧ str_isascii (row_password_hash r) = true.

Definition has_active_admin (us : list UserRow) : Prop :=
  ∃ r, r ∈ us ∧ is_active_admin r = true.

Record users_inv (d : DB) : Prop := {
  inv_wf : db_wf d;
  inv_rows : Forall row_ok (users d);
  inv_admin : has_active_admin (users d);
}.

Definition app_inv (a : App) : Prop := users_inv (db a).

(** The credentials can no longer be read: the acknowledgement is on disk and
    nothing is pending in memory. *)
Definition sealed (a : App) : Prop :=
  bootstrap_state a = bootstrap_initial ∧
  system_metadata (db a) !! "bootstrap_completed"%string = Some "true"%string.

(** ** Reads leave the state alone *)

Lemma on_db_get_user_by_id i a :
  on_db (get_user_by_id i) a = (Ret (row_to_user <$> t_lookup row_id i (users (db a))), a).
Proof. by destruct a. Qed.
Lemma on_db_get_user_by_username un a :
  on_db (get_user_by_username un) a = (Ret (row_to_user <$> find_username un (db a)), a).
Proof. by destruct a. Qed.
Lemma on_db_get_permissions i a :
  on_db (get_user_permissions i) a =
    (Ret (merge_sort String.le (elements (permissions_of i (db a)))), a).
Proof. by destruct a. Qed.
Lemma on_db_count a :
  on_db count_active_admins a = (Ret (Z.of_nat (length (active_admins (db a)))), a).
Proof. by destruct a. Qed.

Lemma on_db_preserves {A} (J : DB → Prop) (m : PyM DB A) :
  preserves J m → preserves (λ a, J (db a)) (on_db m).
Proof. intros H a Ha. unfold on_db. specialize (H _ Ha). by destruct (m (db a)). Qed.

Lemma preserves_of_result {S A} (I : S → Prop) (r : result A) : preserves I (of_result r).
Proof. by intros s. Qed.
#[export] Hint Resolve preserves_of_result : py.

Section read_preserves.
Context (I : App → Prop).

Lemma get_permissions_preserves i : preserves I (on_db (get_user_permissions i)).
Proof. intros a Ha. by rewrite on_db_get_permissions. Qed.
Lemma get_by_username_preserves un : preserves I (on_db (get_user_by_username un)).
Proof. intros a Ha. by rewrite on_db_get_user_by_username. Qed.
Lemma get_by_id_preserves i : preserves I (on_db (get_user_by_id i)).
Proof. intros a Ha. by rewrite on_db_get_user_by_id. Qed.
Lemma count_admins_preserves : preserves I (on_db count_active_admins).
Proof. intros a Ha. by rewrite on_db_count. Qed.
Lemma list_users_preserves : preserves I (on_db list_users).
Proof. intros a Ha. by destruct a. Qed.
Lemma count_users_preserves : preserves I (on_db count_users).
Proof. intros a Ha. by destruct a. Qed.
Lemma get_meta_preserves k : preserves I (on_db (get_meta k)).
Proof. intros a Ha. by destruct a. Qed.
Lemma list_audits_preserves l o : preserves I (on_db (list_login_audits l o)).
Proof. intros a Ha. by destruct a. Qed.
Lemma bootstrap_read_preserves : preserves I get_bootstrap_state.
Proof. by intros a Ha. Qed.
Lemma current_user_preserves env : preserves I (current_user env).
Proof. apply get_current_user_preserves. Qed.
End read_preserves.
#[export] Hint Resolve get_permissions_preserves get_by_username_preserves
  get_by_id_preserves count_admins_preserves list_users_preserves count_users_preserves
  get_meta_preserves list_audits_preserves bootstrap_read_preserves
  current_user_preserves : py.

Section composite_reads.
Context (I : App → Prop).

Lemma user_response_preserves u : preserves I (user_response u).
Proof. unfold user_response. preserve. Qed.
Lemma responses_of_preserves l : preserves I (responses_of l).
Proof. induction l; cbn [responses_of]; preserve. Qed.
Lemma perm_users_manage_preserves env : preserves I (perm_users_manage env).
Proof.
  unfold perm_users_manage, require_permission.
  apply preserves_bind; [apply get_current_user_preserves|intros u; preserve].
Qed.
Lemma reject_last_admin_preserves g e : preserves I (reject_last_admin g e).
Proof. unfold reject_last_admin, raise_if. preserve. Qed.
End composite_reads.
#[export] Hint Resolve user_response_preserves responses_of_preserves
  perm_users_manage_preserves reject_last_admin_preserves : py.

(** ** Writes *)

Lemma users_inv_same d d' :
  db_wf d' → users d' = users d → users_inv d → users_inv d'.
Proof. intros Hw Hu [_ Hr Ha]. split; [done|by rewrite Hu..]. Qed.

Lemma create_user_inv now un ph sa em ro ac :
  name_ok un → str_isascii ph = true → preserves users_inv (create_user now un ph sa em ro ac).
Proof.
  intros Hn Hh d Hi. pose proof (create_user_preserves_wf now un ph sa em ro ac d (inv_wf d Hi)) as Hw.
  pose proof (create_user_state now un ph sa em ro ac d) as Hs.
  destruct (find_username un d); [by rewrite Hs|]. destruct Hs as [q Hq]. rewrite Hq in *.
  destruct Hi as [_ Hr (r & Hr1 & Hr2)]. split; [done| |].
  - cbn. apply Forall_app. split; [done|]. apply Forall_singleton.
    split; [|by split]. destruct ac; [by right|by left].
  - exists r. cbn. rewrite elem_of_app. naive_solver.
Qed.

Lemma set_user_permissions_inv i ps : preserves users_inv (set_user_permissions i ps).
Proof.
  intros d Hi. pose proof (set_user_permissions_preserves_wf i ps d (inv_wf d Hi)) as Hw.
  destruct (set_user_permissions_perms i ps d) as [q Hq]. rewrite Hq in *.
  by apply (users_inv_same d).
Qed.

Lemma record_login_audit_inv now un ip ua st fr :
  preserves users_inv (record_login_audit now un ip ua st fr).
Proof.
  intros d Hi. apply (users_inv_same d); [|done|exact Hi].
  by apply record_login_audit_preserves_wf, Hi.
Qed.

Lemma set_meta_inv k v : preserves users_inv (set_meta k v).
Proof.
  intros d Hi. apply (users_inv_same d); [|done|exact Hi]. by apply set_meta_preserves_wf, Hi.
Qed.

(** Updating one row in place keeps the invariant when the row stays well-formed
    and either another active administrator exists or the row stays one. *)
Lemma t_update_inv d d' k f :
  db_wf d' → users d' = t_update row_id k f (users d) → users_inv d →
  (∀ r, row_ok r → row_ok (f r)) →
  (∃ r, r ∈ users d ∧ is_active_admin r = true ∧ (row_id r ≠ k ∨ is_active_admin (f r) = true)) →
  users_inv d'.
Proof.
  intros Hw Hu Hi Hf (r & Hr & Ha & Hk). split; [done|rewrite Hu..].
  - apply Forall_forall. intros r' Hr'. apply elem_of_t_update in Hr'.
    pose proof (inv_rows d Hi) as Hall. rewrite Forall_forall in Hall. naive_solver.
  - unfold has_active_admin, t_update. setoid_rewrite list_elem_of_In. setoid_rewrite List.in_map_iff.
    apply list_elem_of_In in Hr. destruct (Z.eqb_spec (row_id r) k) as [E|E].
    + exists (f r). split; [exists r; by rewrite E, Z.eqb_refl|]. naive_solver.
    + exists r. split; [|done]. exists r. split; [|done]. by apply Z.eqb_neq in E as ->.
Qed.

Lemma update_user_last_login_inv i ts : preserves users_inv (update_user_last_login i ts).
Proof.
  intros d Hi. destruct (inv_admin d Hi) as (r & Hr & Ha).
  eapply t_update_inv; [|done|exact Hi|by intros ? []|exists r; naive_solver].
  by apply update_user_last_login_preserves_wf, Hi.
Qed.

Lemma acknowledge_bootstrap_inv : preserves app_inv acknowledge_bootstrap.
Proof.
  apply preserves_bind; [by intros a|intros _].
  apply (on_db_preserves users_inv), set_meta_inv.
Qed.

(** Two active administrators: one of them has another id. *)
Lemma another_active_admin d i :
  db_wf d → 1 < length (active_admins d) →
  ∃ r, r ∈ users d ∧ is_active_admin r = true ∧ row_id r ≠ i.
Proof.
  intros Hwf Hlen. unfold active_admins in Hlen.
  destruct (List.filter is_active_admin (users d)) as [|r1 [|r2 l]] eqn:E; [cbn in Hlen; lia..|].
  assert (∀ r, r ∈ r1 :: r2 :: l → r ∈ users d ∧ is_active_admin r = true) as Hin.
  { intros r. rewrite <-E, !list_elem_of_In, List.filter_In. done. }
  assert (NoDup (r1 :: r2 :: l)) as Hnd.
  { rewrite <-E, NoDup_ListNoDup. apply List.NoDup_filter. rewrite <-NoDup_ListNoDup.
    apply (NoDup_fmap_1 row_username). exact (wf_names d Hwf). }
  destruct (decide (row_id r1 = i)) as [H1|H1]; [|exists r1; naive_solver set_solver].
  exists r2. destruct (Hin r2) as [? ?]; [set_solver|]. split_and!; [done..|]. intros H2.
  destruct (Hin r1) as [Hu1 _]; [set_solver|].
  pose proof (t_wf_lookup _ _ _ _ (wf_users d Hwf) Hu1) as L1.
  pose proof (t_wf_lookup _ _ _ r2 (wf_users d Hwf) ltac:(done)) as L2.
  rewrite H1 in L1. rewrite H2 in L2. apply NoDup_cons in Hnd as [Hnd _].
  apply Hnd. replace r1 with r2 by congruence. by left.
Qed.

Lemma update_row_ok em ro ac ph sa r :
  opt_all str_isascii ph = true → row_ok r → row_ok (update_row em ro ac ph sa r).
Proof.
  intros Hp (Hf & Hn & Hh). split; [|split; [exact Hn|by destruct ph]]. cbn. destruct ac as [[]|]; [by right|by left|exact Hf].
Qed.

(** The change takes the administrator role or the activity away. *)
Definition demotes (ro : option string) (ac : option bool) : Prop :=
  (∃ r, ro = Some r ∧ r ≠ "admin"%string) ∨ ac = Some false.

Lemma update_user_inv i em ro ac ph sa d r :
  users_inv d → t_lookup row_id i (users d) = Some r →
  opt_all str_isascii ph = true →
  (is_active_admin r = true → demotes ro ac → 1 < length (active_admins d)) →
  users_inv (update_user i em ro ac ph sa d).2.
Proof.
  intros Hi Hr Hph Hsafe. pose proof (update_user_preserves_wf i em ro ac ph sa d (inv_wf d Hi)) as Hw.
  pose proof (update_user_state i em ro ac ph sa d) as Hs. rewrite Hr in Hs.
  destruct Hs as [q Hq]. rewrite Hq in *.
  eapply t_update_inv; [exact Hw|done|exact Hi|intros; by apply update_row_ok|].
  destruct (inv_admin d Hi) as (r0 & Hr0 & Ha0).
  destruct (decide (row_id r0 = i)) as [E|E]; [|exists r0; naive_solver].
  assert (r0 = r) as ->.
  { pose proof (t_wf_lookup _ _ _ _ (wf_users d (inv_wf d Hi)) Hr0). congruence. }
  assert (demotes ro ac ∨ is_active_admin (update_row em ro ac ph sa r) = true) as [Hd|Hk].
  - unfold is_active_admin in *. apply andb_prop in Ha0 as [H1%bool_decide_eq_true H2].
    destruct ro as [ro|]; [destruct (decide (ro = "admin"%string)) as [->|]|];
      [|left; left; naive_solver|]; (destruct ac as [[]|]; [right|left; by right|right]);
      cbn; rewrite ?H1; by rewrite ?H2.
  - destruct (another_active_admin d i (inv_wf d Hi) (Hsafe Ha0 Hd)) as (r' & ? & ? & ?).
    exists r'. naive_solver.
  - exists r. naive_solver.
Qed.

Lemma delete_user_inv i d r :
  users_inv d → t_lookup row_id i (users d) = Some r →
  (is_active_admin r = true → 1 < length (active_admins d)) →
  users_inv (delete_user i d).2.
Proof.
  intros Hi Hr Hsafe. pose proof (delete_user_preserves_wf i d (inv_wf d Hi)) as Hw.
  pose proof (delete_user_state i d) as Hs. rewrite Hr in Hs.
  destruct Hs as [q Hq]. rewrite Hq in *. split; [exact Hw| |].
  - cbn. apply Forall_forall. intros r' [Hr' _]%elem_of_t_delete.
    pose proof (inv_rows d Hi) as Hall. rewrite Forall_forall in Hall. by apply Hall.
  - assert (∃ r', r' ∈ users d ∧ is_active_admin r' = true ∧ row_id r' ≠ i) as (r' & ? & ? & ?).
    { destruct (inv_admin d Hi) as (r0 & Hr0 & Ha0).
      destruct (decide (row_id r0 = i)) as [E|E]; [|by exists r0].
      assert (r0 = r) as ->.
      { pose proof (t_wf_lookup _ _ _ _ (wf_users d (inv_wf d Hi)) Hr0). congruence. }
      apply another_active_admin; [apply Hi|by apply Hsafe]. }
    exists r'. split; [|done]. cbn. by apply elem_of_t_delete.
Qed.

Lemma row_active_admin r :
  row_ok r →
  (String.eqb (u_role (row_to_user r)) "admin" && u_is_active (row_to_user r))
  = is_active_admin r.
Proof.
  intros [Hf _]. unfold is_active_admin. cbn [u_role u_is_active row_to_user].
  destruct (String.eqb_spec (row_role r) "admin");
    [rewrite bool_decide_true by done|rewrite bool_decide_false by done; done].
  by destruct Hf as [-> | ->].
Qed.

Lemma bind_reject {B} g e (k : unit → PyM App B) a :
  py_bind (reject_last_admin g e) k a =
  if g && (Z.of_nat (length (active_admins (db a))) <=? 1)%Z then (Raise e, a) else k tt a.
Proof.
  unfold reject_last_admin, py_bind, raise_if. destruct g; [|done]. rewrite on_db_count.
  cbn [andb]. by destruct (_ <=? 1)%Z.
Qed.

Lemma bind_get_by_id {B} i (k : option UserRecord → PyM App B) a :
  py_bind (on_db (get_user_by_id i)) k a =
  k (row_to_user <$> t_lookup row_id i (users (db a))) a.
Proof. unfold py_bind. by rewrite on_db_get_user_by_id. Qed.

Lemma bind_get_by_username {B} un (k : option UserRecord → PyM App B) a :
  py_bind (on_db (get_user_by_username un)) k a = k (row_to_user <$> find_username un (db a)) a.
Proof. unfold py_bind. by rewrite on_db_get_user_by_username. Qed.

Lemma lookup_row_ok i d r :
  users_inv d → t_lookup row_id i (users d) = Some r → row_ok r.
Proof.
  intros Hi [Hr _]%t_lookup_Some. pose proof (inv_rows d Hi) as H.
  rewrite Forall_forall in H. by apply H.
Qed.

(** Continue after a write whose resulting state keeps the invariant. *)
Lemma bind_inv_state {A B} (I : App → Prop) (m : PyM App A) (k : A → PyM App B) a :
  I (m a).2 → (∀ x, preserves I (k x)) → I (py_bind m k a).2.
Proof. intros Hm Hk. unfold py_bind. destruct (m a) as [[x|e] a']; [by apply Hk|exact Hm]. Qed.

(** Split on the guard of [reject_last_admin]; the refusal changes nothing. *)
Ltac guard_case G :=
  match goal with |- context [if ?b then (Raise _, _) else _] =>
    destruct b eqn:G; [assumption|] end.

Lemma update_existing_user_inv env i q : preserves app_inv (update_existing_user env i q).
Proof.
  intros a Ha. unfold update_existing_user. rewrite bind_get_by_id.
  destruct (t_lookup row_id i (users (db a))) as [r|] eqn:Hr; [|done].
  cbn [fmap option_fmap option_map]. rewrite (row_active_admin r) by (by eapply lookup_row_ok).
  rewrite bind_reject. guard_case G1. rewrite bind_reject. guard_case G2.
  set (pw := match p_password q with Some p => _ | None => _ end).
  assert (opt_all str_isascii pw.1 = true) as Hpw.
  { unfold pw. destruct (p_password q) as [p|]; [|done]. destruct (String.eqb p ""); [done|].
    pose proof (hash_password_isascii (e_salt env) p None). by destruct (hash_password _ _ _). }
  clearbody pw. destruct pw as [o o0]. apply bind_inv_state.
  - assert (users_inv (update_user i (p_email q) (p_role q) (p_is_active q) o o0 (db a)).2) as Hu.
    { eapply update_user_inv; [exact Ha|exact Hr|exact Hpw|]. intros Had Hd. rewrite Had in G1, G2.
      destruct Hd as [(ro & Hro & Hne)|Hac].
      - rewrite Hro in G1. destruct (String.eqb_spec ro "admin"); [done|]. cbn in G1. lia.
      - rewrite Hac in G2. cbn in G2. lia. }
    unfold on_db, app_inv. by destruct (update_user _ _ _ _ _ _ _).
  - intros [u|]; [|auto with py]. apply preserves_bind; [|intros; preserve].
    destruct (p_permissions q); [|auto with py].
    apply (on_db_preserves users_inv), set_user_permissions_inv.
Qed.

Lemma update_user_role_inv i role : preserves app_inv (update_user_role i role).
Proof.
  intros a Ha. unfold update_user_role. rewrite bind_get_by_id.
  destruct (t_lookup row_id i (users (db a))) as [r|] eqn:Hr; [|done].
  cbn [fmap option_fmap option_map]. rewrite (row_active_admin r) by (by eapply lookup_row_ok).
  rewrite bind_reject. guard_case G1. apply bind_inv_state.
  - assert (users_inv (update_user i None (Some role) None None None (db a)).2) as Hu.
    { eapply update_user_inv; [exact Ha|exact Hr|done|]. intros Had Hd. rewrite Had in G1.
      destruct Hd as [(ro & [= ->] & Hne)|]; [|done].
      destruct (String.eqb_spec ro "admin"); [done|]. cbn in G1. lia. }
    unfold on_db, app_inv. by destruct (update_user _ _ _ _ _ _ _).
  - intros [u|]; preserve.
Qed.

Lemma delete_existing_user_inv u i : preserves app_inv (delete_existing_user u i).
Proof.
  intros a Ha. unfold delete_existing_user. destruct (_ =? i)%Z; [done|].
  rewrite bind_get_by_id.
  destruct (t_lookup row_id i (users (db a))) as [r|] eqn:Hr; [|done].
  cbn [fmap option_fmap option_map]. rewrite (row_active_admin r) by (by eapply lookup_row_ok).
  rewrite bind_reject. guard_case G1. apply bind_inv_state.
  - assert (users_inv (delete_user i (db a)).2) as Hu.
    { eapply delete_user_inv; [exact Ha|exact Hr|]. intros Had. rewrite Had in G1. cbn in G1. lia. }
    unfold on_db, app_inv. by destruct (delete_user _ _).
  - intros ok. preserve.
Qed.

Lemma on_db_inv {A} (m : PyM DB A) : preserves users_inv m → preserves app_inv (on_db m).
Proof. apply (on_db_preserves users_inv). Qed.

Lemma create_user_app_inv now un ph sa em ro ac :
  name_ok un → str_isascii ph = true →
  preserves app_inv (on_db (create_user now un ph sa em ro ac)).
Proof. intros Hn Hh. by apply on_db_inv, create_user_inv. Qed.
Lemma set_user_permissions_app_inv i ps : preserves app_inv (on_db (set_user_permissions i ps)).
Proof. apply on_db_inv, set_user_permissions_inv. Qed.
Lemma record_login_audit_app_inv now un ip ua st fr :
  preserves app_inv (on_db (record_login_audit now un ip ua st fr)).
Proof. apply on_db_inv, record_login_audit_inv. Qed.
Lemma update_user_last_login_app_inv i ts :
  preserves app_inv (on_db (update_user_last_login i ts)).
Proof. apply on_db_inv, update_user_last_login_inv. Qed.
Lemma export_inv w p : preserves app_inv (export_credentials_to_file w p).
Proof. unfold export_credentials_to_file. destruct w; [by intros a|auto with py]. Qed.
Lemma set_bootstrap_pending_inv u p : preserves app_inv (set_bootstrap_pending u p).
Proof. by intros a. Qed.
#[export] Hint Resolve set_user_permissions_app_inv record_login_audit_app_inv
  update_user_last_login_app_inv export_inv set_bootstrap_pending_inv acknowledge_bootstrap_inv
  update_existing_user_inv update_user_role_inv delete_existing_user_inv : py.

Lemma username_pattern_ok s : username_pattern s = true → name_ok s.
Proof.
  unfold username_pattern, name_ok. intros [H1 H2]%andb_prop.
  split; [by destruct (String.eqb_spec s "")|]. eapply str_all_impl; [|exact H2].
  intros c. unfold username_char, is_alnum, is_digit, is_upper, is_lower, in_range.
  destruct (Ascii.eqb_spec c "_") as [->|]; [done|].
  destruct (Ascii.eqb_spec c "-") as [->|]; [done|]. lia.
Qed.

Lemma login_inv env q : preserves app_inv (login env q).
Proof. unfold login. preserve. Qed.

Lemma register_inv env q : valid_register q = true → preserves app_inv (register env q).
Proof.
  unfold valid_register. rewrite !andb_true_iff. intros [[[[_ Hn] _] _] _].
  apply username_pattern_ok in Hn.
  pose proof (hash_password_isascii (e_salt env) (r_password q) None) as Hh.
  unfold register. destruct (hash_password _ _ _) as [h s]. cbn [fst] in Hh.
  pose proof (λ t e r b, create_user_app_inv t _ h s e r b Hn Hh). preserve.
Qed.

Lemma create_new_user_inv env q : valid_create q = true → preserves app_inv (create_new_user env q).
Proof.
  unfold valid_create. rewrite !andb_true_iff. intros [[[[_ Hn] _] _] _].
  apply username_pattern_ok in Hn.
  pose proof (hash_password_isascii (e_salt env) (c_password q) None) as Hh.
  unfold create_new_user. destruct (hash_password _ _ _) as [h s]. cbn [fst] in Hh.
  pose proof (λ t e r b, create_user_app_inv t _ h s e r b Hn Hh). preserve.
Qed.

Lemma validated_inv b m : (b = true → preserves app_inv m) → preserves app_inv (validated b m).
Proof. unfold validated. destruct b; auto with py. Qed.

Lemma serve_inv env c : preserves app_inv (serve env c).
Proof.
  destruct c; cbn [serve];
    unfold get_bootstrap_credentials, acknowledge_bootstrap_credentials, get_me,
      get_login_audit_trail, list_registered_users;
    repeat (apply preserves_bind; [auto with py|intros]);
    try (apply validated_inv; intros);
    auto using login_inv, register_inv, create_new_user_inv with py; preserve.
Qed.

Lemma admin_name_ok : name_ok "admin".
Proof. done. Qed.

Lemma bootstrap_admin_user_inv now pw salt w given ex :
  preserves app_inv (bootstrap_admin_user now pw salt w given ex).
Proof.
  unfold bootstrap_admin_user.
  apply preserves_bind; [auto with py|]. intros [u|]; [auto with py|].
  apply preserves_bind; [auto with py|]. intros n. destruct (n =? 0)%Z; [|preserve].
  cbv zeta. set (p := if String.eqb _ "" then pw else _).
  pose proof (hash_password_isascii salt p None) as Hh.
  destruct (hash_password _ _ _) as [h s]. cbn [fst] in Hh.
  pose proof (λ t e r b, create_user_app_inv t _ h s e r b admin_name_ok Hh). preserve.
Qed.

Lemma restart_inv now pw salt w key ex : preserves app_inv (restart now pw salt w key ex).
Proof.
  unfold restart. apply preserves_bind; [by intros a|]. intros _. apply bootstrap_admin_user_inv.
Qed.

Lemma app_step_inv a a' : app_step a a' → app_inv a → app_inv a'.
Proof. intros H Ha. destruct H; [by apply serve_inv|by apply restart_inv]. Qed.

Lemma first_start_inv now pw salt w key ex :
  app_inv (restart now pw salt w key ex app_initial).2.
Proof.
  unfold restart, bootstrap_admin_user. unfold py_bind at 1, py_modify.
  rewrite bind_get_by_username. cbn [find_username users db_initial db app_initial List.find fmap
    option_fmap option_map].
  unfold py_bind at 1. change (on_db count_users _) with (@Ret Z 0%Z, app_initial).
  cbn [Z.eqb]. cbv zeta. set (p := if String.eqb _ "" then pw else _).
  pose proof (hash_password_isascii salt p None) as Hh.
  destruct (hash_password _ _ _) as [h s]. cbn [fst] in Hh. apply bind_inv_state.
  - set (d := (create_user now "admin" h s "admin@localhost" "admin" true db_initial).2).
    assert (users_inv d) as Hd.
    { pose proof (create_user_state now "admin" h s "admin@localhost" "admin" true db_initial)
        as [q Hq]. split.
      - apply create_user_preserves_wf, db_initial_wf.
      - unfold d. rewrite Hq. cbn. apply Forall_singleton.
        split; [by right|split; [exact admin_name_ok|exact Hh]].
      - unfold d. rewrite Hq. cbn. eexists. split; [by left|done]. }
    unfold on_db, app_inv. cbn [db app_initial]. unfold d in Hd.
    by destruct (create_user _ _ _ _ _ _ _ db_initial).
  - intros u. preserve.
Qed.

(** Every state the service goes through after its first start-up. *)
Definition app_reachable (a : App) : Prop :=
  ∃ now pw salt w key ex, star app_step (restart now pw salt w key ex app_initial).2 a.

Lemma app_reachable_inv a : app_reachable a → app_inv a.
Proof.
  intros (now & pw & salt & w & key & ex & H).
  eapply star_invariant; [|exact H|apply first_start_inv]. intros b c Hb Hs. by eapply app_step_inv.
Qed.

(** C1: whatever requests are served, in whatever order, by whomever, and
    however often the process restarts, the system never loses its last active
    administrator: [count_active_admins] stays at least one, and the database
    keeps its invariant. *)
Theorem an_active_admin_always_remains a :
  app_reachable a →
  ∃ n, (count_active_admins (db a)).1 = Ret n ∧ (1 ≤ n)%Z ∧ db_wf (db a).
Proof.
  intros Ha%app_reachable_inv. eexists. split; [done|]. split; [|apply Ha].
  destruct (inv_admin _ Ha) as (r & Hr & Hadm). unfold active_admins.
  assert (r ∈ List.filter is_active_admin (users (db a))) as Hin.
  { rewrite list_elem_of_In, List.filter_In, <-list_elem_of_In. done. }
  destruct (List.filter _ _); [by apply elem_of_nil in Hin|cbn; lia].
Qed.

Lemma an_active_admin_always_remains_witness :
  ∃ n, (count_active_admins
          (db (restart "t" "pw" [] true "admin_password" false app_initial).2)).1 = Ret n ∧
       (1 ≤ n)%Z ∧ db_wf (db (restart "t" "pw" [] true "admin_password" false app_initial).2).
Proof.
  apply an_active_admin_always_remains.
  exists "t"%string, "pw"%string, [], true, "admin_password"%string, false. constructor.
Defined.

(** ** Bootstrap credentials *)

Lemma on_db_sealed {A} (m : PyM DB A) :
  (∀ d, system_metadata (m d).2 = system_metadata d) → preserves sealed (on_db m).
Proof.
  intros H a [Hb Hm]. specialize (H (db a)). unfold on_db. destruct (m (db a)) as [r d].
  cbn in *. split; [done|]. cbn. by rewrite H.
Qed.

Lemma create_user_meta now un ph sa em ro ac d :
  system_metadata (create_user now un ph sa em ro ac d).2 = system_metadata d.
Proof.
  pose proof (create_user_state now un ph sa em ro ac d) as H.
  destruct (find_username un d); [by rewrite H|]. by destruct H as [q ->].
Qed.
Lemma update_user_meta i em ro ac ph sa d :
  system_metadata (update_user i em ro ac ph sa d).2 = system_metadata d.
Proof.
  pose proof (update_user_state i em ro ac ph sa d) as H.
  destruct (t_lookup row_id i (users d)); [by destruct H as [q ->]|by rewrite H].
Qed.
Lemma delete_user_meta i d : system_metadata (delete_user i d).2 = system_metadata d.
Proof.
  pose proof (delete_user_state i d) as H.
  destruct (t_lookup row_id i (users d)); [by destruct H as [q ->]|by rewrite H].
Qed.
Lemma set_user_permissions_meta i ps d :
  system_metadata (set_user_permissions i ps d).2 = system_metadata d.
Proof. by destruct (set_user_permissions_perms i ps d) as [q ->]. Qed.

Lemma create_user_sealed now un ph sa em ro ac :
  preserves sealed (on_db (create_user now un ph sa em ro ac)).
Proof. apply on_db_sealed, create_user_meta. Qed.
Lemma update_user_sealed i em ro ac ph sa :
  preserves sealed (on_db (update_user i em ro ac ph sa)).
Proof. apply on_db_sealed, update_user_meta. Qed.
Lemma delete_user_sealed i : preserves sealed (on_db (delete_user i)).
Proof. apply on_db_sealed, delete_user_meta. Qed.
Lemma set_user_permissions_sealed i ps : preserves sealed (on_db (set_user_permissions i ps)).
Proof. apply on_db_sealed, set_user_permissions_meta. Qed.
Lemma record_login_audit_sealed now un ip ua st fr :
  preserves sealed (on_db (record_login_audit now un ip ua st fr)).
Proof. by apply on_db_sealed. Qed.
Lemma update_user_last_login_sealed i ts : preserves sealed (on_db (update_user_last_login i ts)).
Proof. by apply on_db_sealed. Qed.
Lemma export_sealed w p : preserves sealed (export_credentials_to_file w p).
Proof. unfold export_credentials_to_file. destruct w; [by intros a|auto with py]. Qed.

Lemma acknowledge_seals a : sealed (acknowledge_bootstrap a).2.
Proof. split; [done|]. cbn. by rewrite lookup_insert_eq. Qed.
Lemma acknowledge_sealed : preserves sealed acknowledge_bootstrap.
Proof. intros a _. apply acknowledge_seals. Qed.
#[export] Hint Resolve create_user_sealed update_user_sealed delete_user_sealed
  set_user_permissions_sealed record_login_audit_sealed update_user_last_login_sealed
  export_sealed acknowledge_sealed : py.

Lemma login_sealed env q : preserves sealed (login env q).
Proof. unfold login. preserve. Qed.
Lemma register_sealed env q : preserves sealed (register env q).
Proof. unfold register. destruct (hash_password _ _ _). preserve. Qed.
Lemma create_new_user_sealed env q : preserves sealed (create_new_user env q).
Proof. unfold create_new_user. destruct (hash_password _ _ _). preserve. Qed.
Lemma update_existing_user_sealed env i q : preserves sealed (update_existing_user env i q).
Proof.
  unfold update_existing_user.
  apply preserves_bind; [auto with py|]. intros [u|]; [|auto with py].
  do 2 (apply preserves_bind; [auto with py|]; intros _).
  destruct (match p_password q with Some p => _ | None => _ end). preserve.
Qed.
Lemma update_user_role_sealed i role : preserves sealed (update_user_role i role).
Proof. unfold update_user_role. preserve. Qed.
Lemma delete_existing_user_sealed u i : preserves sealed (delete_existing_user u i).
Proof. unfold delete_existing_user. preserve. Qed.
#[export] Hint Resolve login_sealed register_sealed create_new_user_sealed
  update_existing_user_sealed update_user_role_sealed delete_existing_user_sealed : py.

Lemma serve_sealed env c : preserves sealed (serve env c).
Proof.
  destruct c; cbn [serve];
    unfold get_bootstrap_credentials, acknowledge_bootstrap_credentials, get_me,
      get_login_audit_trail, list_registered_users, validated;
    repeat (apply preserves_bind; [auto with py|intros]);
    try case_match; auto with py; preserve.
Qed.

Lemma bootstrap_sealed now pw salt w given ex :
  preserves sealed (bootstrap_admin_user now pw salt w given ex).
Proof.
  unfold bootstrap_admin_user.
  apply preserves_bind; [auto with py|]. intros [u|]; [auto with py|].
  apply preserves_bind; [auto with py|]. intros n. destruct (n =? 0)%Z; [|preserve].
  cbv zeta. destruct (hash_password _ _ _).
  apply preserves_bind; [auto with py|]. intros u.
  apply preserves_bind; [destruct (_ || _); auto with py|]. intros _.
  apply preserves_bind; [|auto with py]. destruct (String.eqb _ ""); [|auto with py].
  intros a Ha. destruct Ha as [Hb Hm] eqn:E. unfold py_bind, on_db, get_meta, py_bind, py_get, py_ret.
  rewrite Hm. exact Ha.
Qed.

Lemma app_step_sealed a a' : app_step a a' → sealed a → sealed a'.
Proof.
  intros H Ha. destruct H; [by apply serve_sealed|]. unfold restart.
  revert Ha. apply preserves_bind; [|intros _; apply bootstrap_sealed].
  intros b Hb. by destruct Hb.
Qed.

(** C8: once the operator acknowledged the first-run credentials they are gone
    for good: in every later state, after any requests and any number of process
    restarts, the credential endpoint answers 404 and a second acknowledgement
    409, and neither changes anything. *)
Theorem bootstrap_sealed_forever env a a' :
  (serve env AckBootstrap a).1 = Ret RAck → star app_step (serve env AckBootstrap a).2 a' →
  bootstrap_state a' = bootstrap_initial ∧
  ∀ env', serve env' GetBootstrap a' =
    (Raise (HTTPException 404
      "System setup is complete. Bootstrap credentials are no longer available."), a') ∧
  serve env' AckBootstrap a' =
    (Raise (HTTPException 409
      "Bootstrap has already been acknowledged. Nothing to confirm."), a').
Proof.
  intros Hack Hs. assert (sealed a') as [Hb _].
  { eapply star_invariant; [|exact Hs|].
    - intros b c Hb Hc. by eapply app_step_sealed.
    - revert Hack. cbn [serve].
      unfold acknowledge_bootstrap_credentials, get_bootstrap_state, py_bind, py_get, py_ret.
      destruct (negb (is_pending (bootstrap_state a))); [done|].
      intros _. exact (acknowledge_seals a). }
  split; [done|]. intros env'. destruct a' as [d b ex]. cbn in Hb. by subst b.
Qed.

Definition pending_app : App :=
  mkApp example_db (mkBootstrap true (Some "admin") (Some "pw"))%string [].

Definition example_env : Env := mkEnv 0 "t" "t" [] [] "k" (mkRequest [] [] None).

Lemma bootstrap_sealed_forever_witness :
  bootstrap_state (serve example_env AckBootstrap pending_app).2 = bootstrap_initial.
Proof.
  apply (bootstrap_sealed_forever example_env pending_app); [reflexivity|constructor].
Defined.

(** ** Login *)

(** The account the credentials open: an active account of that name whose
    stored digest is the password's digest under the stored salt. *)
Definition opened_account (username password : string) (a : App) : option UserRow :=
  match find_username username (db a) with
  | Some r =>
      if negb (row_is_active r =? 0)%Z &&
         String.eqb (hash_password [] password (Some (row_salt r))).1 (row_password_hash r)
      then Some r else None
  | None => None
  end.

Definition audit_row (a : App) (env : Env) (username status reason : string) : LoginAuditRecord :=
  mkAudit (login_audit_seq (db a) + 1) username (e_iso env) (get_client_ip (e_request env))
    (default "Unknown"%string (assoc_get "user-agent" (headers (e_request env)))) status reason.

Lemma login_check env q a :
  app_inv a →
  login env q a =
  match find_username (l_username q) (db a), opened_account (l_username q) (l_password q) a with
  | Some r, Some _ =>
      (on_db (record_login_audit (e_iso env) (row_username r) (get_client_ip (e_request env))
         (default "Unknown"%string (assoc_get "user-agent" (headers (e_request env))))
         "SUCCESS" "") ;;;
       on_db (update_user_last_login (row_id r) (e_iso2 env)) ;;;
       state <- get_bootstrap_state ;;
       (if is_pending state && String.eqb (row_role r) "admin"
        then acknowledge_bootstrap else py_ret tt) ;;;
       permissions <- on_db (get_user_permissions (row_id r)) ;;
       py_ret (RLogin (mkLoginResponse
         (generate_session_token (e_now env) (e_nonce env) (row_username r) (e_secret env) 86400)
         (row_username r) (row_role r) permissions))) a
  | o, _ =>
      (on_db (record_login_audit (e_iso env) (l_username q) (get_client_ip (e_request env))
         (default "Unknown"%string (assoc_get "user-agent" (headers (e_request env)))) "FAILED"
         (match o with
          | Some r => if negb (row_is_active r =? 0)%Z then "Invalid credentials"
                      else "Account disabled"
          | None => "Invalid credentials" end)) ;;;
       py_raise INVALID_LOGIN) a
  end%string.
Proof.
  intros Ha. unfold login. cbv zeta. rewrite bind_get_by_username. unfold opened_account.
  destruct (find_username (l_username q) (db a)) as [r|] eqn:Hf;
    cbn [fmap option_fmap option_map]; [|by rewrite py_bind_ret].
  cbn [u_is_active row_to_user]. destruct (negb (row_is_active r =? 0)%Z); cbn [andb];
    [|by rewrite py_bind_ret].
  assert (str_isascii (row_password_hash r) = true) as Hh.
  { apply find_username_Some in Hf as [Hin _]. pose proof (inv_rows _ Ha) as Hr.
    rewrite Forall_forall in Hr. by apply Hr. }
  cbn [u_salt u_password_hash]. rewrite verify_password_eq by done.
  unfold py_bind at 1, of_result. cbn [u_username u_role u_id row_to_user].
  set (b := String.eqb (hash_password _ _ _).1 _). clearbody b. destruct b; reflexivity.
Qed.

(** C9: a login attempt leaves exactly one new audit record and is accepted
    exactly when an active account of that name has the password's digest.  On
    acceptance the issued token authenticates that account under the server key
    for the next 24 hours, and an administrator's login seals pending first-run
    credentials; on refusal the answer is the same 401 whatever the reason, and
    no account changes. *)
Theorem login_spec env q a :
  app_reachable a → Forall (λ b, 0 ≤ b < 256)%Z (e_nonce env) →
  match opened_account (l_username q) (l_password q) a with
  | Some r =>
      ∃ resp a', login env q a = (Ret (RLogin resp), a') ∧
        lr_username resp = l_username q ∧ lr_role resp = row_role r ∧
        (∀ now', verify_session_token now' (lr_token resp) (e_secret env) =
           Ret (if ((e_now env / nanoseconds + 86400) * nanoseconds <? now')%Z
                then None else Some (l_username q))) ∧
        login_audit (db a') =
          login_audit (db a) ++ [audit_row a env (l_username q) "SUCCESS" ""] ∧
        (is_pending (bootstrap_state a) = true → row_role r = "admin"%string → sealed a')
  | None =>
      ∃ reason a', login env q a = (Raise (HTTPException 401 "Invalid username or password."), a') ∧
        login_audit (db a') =
          login_audit (db a) ++ [audit_row a env (l_username q) "FAILED" reason] ∧
        users (db a') = users (db a) ∧ bootstrap_state a' = bootstrap_state a
  end.
Proof.
  intros Ha%app_reachable_inv Hn. rewrite login_check by done.
  destruct (opened_account _ _ a) as [r|] eqn:Ho; unfold opened_account in Ho;
    destruct (find_username (l_username q) (db a)) as [r'|] eqn:Hf; try done.
  - assert (r' = r) as ->.
    { destruct (negb _ && _); [by injection Ho|discriminate Ho]. }
    clear Ho.
    apply find_username_Some in Hf as [Hin Hname].
    assert (name_ok (row_username r)) as [Hne Hasc].
    { pose proof (inv_rows _ Ha) as Hr. rewrite Forall_forall in Hr. by apply Hr. }
    set (tok := generate_session_token _ _ _ _ _).
    assert (∀ now', verify_session_token now' tok (e_secret env) =
      Ret (if ((e_now env / nanoseconds + 86400) * nanoseconds <? now')%Z
           then None else Some (row_username r))) as Htok.
    { intros now'. apply verify_generated_token; [done|by apply utf8_valid_ascii|done]. }
    clearbody tok. rewrite Hname in *. destruct a as [d b ex].
    destruct (is_pending b && String.eqb (row_role r) "admin") eqn:Hp.
    + do 2 eexists. split.
      { unfold get_bootstrap_state, py_bind, py_get, py_ret, on_db. cbn [db bootstrap_state].
        cbn. rewrite Hp. reflexivity. }
      split_and!; try done. intros _ _. split; [done|]. cbn. by rewrite lookup_insert_eq.
    + do 2 eexists. split.
      { unfold get_bootstrap_state, py_bind, py_get, py_ret, on_db. cbn. rewrite Hp. reflexivity. }
      split_and!; try done. intros Hpend Hrole. cbn in Hpend. rewrite Hpend in Hp.
      by rewrite Hrole in Hp.
  - destruct a as [d b ex]. do 2 eexists. split; [reflexivity|]. by split_and!.
  - destruct a as [d b ex]. do 2 eexists. split; [reflexivity|]. by split_and!.
Qed.

Definition started_app : App :=
  (restart "t" "pw" [] true "admin_password" false app_initial).2.

Lemma started_app_reachable : app_reachable started_app.
Proof.
  exists "t"%string, "pw"%string, [], true, "admin_password"%string, false. unfold started_app. apply star_refl.
Qed.

Lemma started_app_users :
  ∃ h s, users (db started_app) =
    [mkUserRow 1 "admin" h s (Some "admin@localhost") "admin" 1 "t" None]%string.
Proof.
  unfold started_app, restart, bootstrap_admin_user. generalize hash_password. intros hp.
  vm_compute. destruct (hp _ _ _) as [h s]. by exists h, s.
Qed.

Lemma login_spec_witness :
  ∃ reason a', login example_env (mkLogin "bob" "x") started_app =
      (Raise (HTTPException 401 "Invalid username or password."), a') ∧
    login_audit (db a') =
      login_audit (db started_app) ++ [audit_row started_app example_env "bob" "FAILED" reason] ∧
    users (db a') = users (db started_app) ∧ bootstrap_state a' = bootstrap_state started_app.
Proof.
  pose proof (login_spec example_env (mkLogin "bob" "x") started_app
                started_app_reachable (Forall_nil_2 _)) as H.
  assert (opened_account "bob" "x" started_app = None) as E.
  { unfold opened_account, find_username. by destruct started_app_users as (h & s & ->). }
  cbn [l_username l_password] in H. rewrite E in H. exact H.
Defined.

(** ** Registration and authorisation *)

Lemma create_user_ok now un ph sa em ro ac d :
  db_wf d → find_username un d = None →
  ∃ q, create_user now un ph sa em ro ac d =
    (Ret (row_to_user (new_row now un ph sa em ro ac d)),
     set_perms q (set_users (users d ++ [new_row now un ph sa em ro ac d]) (users_seq d + 1) d)) ∧
    permissions_of (users_seq d + 1) (set_perms q d) = list_to_set (DEFAULT_ROLE_PERMISSIONS ro) ∧
    ∀ j, j ≠ (users_seq d + 1)%Z → permissions_of j (set_perms q d) = permissions_of j d.
Proof.
  intros Hwf E. set (r := new_row now un ph sa em ro ac d).
  set (d1 := set_users (users d ++ [r]) (users_seq d + 1) d).
  assert (t_lookup row_id (users_seq d + 1) (users d1) = Some r) as Hr.
  { unfold d1. cbn [users set_users]. rewrite t_lookup_app, (t_wf_fresh _ _ _ (wf_users d Hwf)).
    rewrite t_lookup_cons. cbn [row_id r new_row]. by rewrite Z.eqb_refl. }
  eexists. split; [|split].
  - unfold create_user, py_bind. rewrite insert_user_fresh by done.
    fold (new_row now un ph sa em ro ac d). fold r. fold d1. cbv beta iota.
    rewrite (insert_permissions_state _ _ _ r) by exact Hr.
    unfold get_user_by_id, py_bind, py_get, py_ret. cbn [users set_perms]. by rewrite Hr.
  - change (user_permissions d1) with (user_permissions d). apply permissions_of_insert.
    apply permissions_of_none; [done|]. apply (t_wf_fresh _ _ _ (wf_users d Hwf)).
  - intros j Hj. change (user_permissions d1) with (user_permissions d).
    by apply permissions_of_set_perms_other.
Qed.

(** self-service registration never escalates: it either answers 409 for a
    taken name and changes nothing, or appends one active account with the role
    viewer that holds exactly the viewer permissions, leaving every other
    account and its permissions, the audit trail and the bootstrap state
    unchanged. *)
Theorem register_is_viewer env q a :
  app_reachable a →
  match find_username (r_username q) (db a) with
  | Some _ => register env q a =
      (Raise (HTTPException 409 ("Username '" +:+ r_username q +:+ "' already registered.")), a)
  | None => ∃ u perms a',
      register env q a = (Ret (RUser (mkUserResponse u perms)), a') ∧
      u_username u = r_username q ∧ u_role u = "viewer"%string ∧ u_is_active u = true ∧
      (∀ p, p ∈ perms ↔ p ∈ DEFAULT_ROLE_PERMISSIONS "viewer") ∧
      (∃ r, users (db a') = users (db a) ++ [r] ∧ row_to_user r = u) ∧
      (∀ j, j ≠ u_id u → permissions_of j (db a') = permissions_of j (db a)) ∧
      login_audit (db a') = login_audit (db a) ∧ bootstrap_state a' = bootstrap_state a
  end.
Proof.
  intros Ha%app_reachable_inv. unfold register. rewrite bind_get_by_username.
  destruct (find_username (r_username q) (db a)) as [r|] eqn:E; [reflexivity|].
  cbn [fmap option_fmap option_map]. destruct (hash_password _ _ _) as [h s]. destruct a as [d b ex].
  cbn [db] in *.
  destruct (create_user_ok (e_iso env) (r_username q) h s (r_email q) "viewer" true d (inv_wf _ Ha) E)
    as (ps & Hc & Hown & Hother).
  do 3 eexists. split.
  { unfold py_bind at 1. rewrite (on_db_eq _ (mkApp d b ex) _ _ Hc). unfold user_response, py_bind.
    rewrite on_db_get_permissions. reflexivity. }
  split_and!; try done; [|by exists (new_row (e_iso env) (r_username q) h s (r_email q) "viewer" true d)].
  intros p. rewrite merge_sort_Permutation.
  change (permissions_of ?i (db ?x)) with (permissions_of (users_seq d + 1) (set_perms ps d)).
  rewrite Hown, elem_of_elements. apply elem_of_list_to_set.
Qed.

Lemma register_is_viewer_witness :
  (register example_env (mkRegister "admin" "password1" "a@b.c") started_app).1 =
    Raise (HTTPException 409 ("Username '" +:+ "admin" +:+ "' already registered.")).
Proof.
  pose proof (register_is_viewer example_env (mkRegister "admin" "password1" "a@b.c") started_app
                started_app_reachable) as H.
  assert (is_Some (find_username "admin" (db started_app))) as [r E].
  { unfold find_username. destruct started_app_users as (h & s & ->). by eexists. }
  cbn [r_username] in H. rewrite E in H. by rewrite H.
Defined.

Definition guarded_call (c : api_call) : bool :=
  match c with
  | AuditTrail _ _ | ListUsers | CreateUser _ | UpdateUser _ _ | UpdateRole _ _ | DeleteUser _ => true
  | _ => false
  end.

(** user administration is closed to unauthorised callers: every endpoint
    that lists, creates, updates or deletes accounts or reads the audit trail
    answers 403 and changes nothing when the authenticated caller is not an
    administrator and holds neither "users:manage" nor "*", and repeats the 401
    of the authentication when there is no caller. *)
Theorem administration_guarded env c a :
  guarded_call c = true →
  (∀ e, (current_user env a).1 = Raise e → serve env c a = (Raise e, a)) ∧
  (∀ u, (current_user env a).1 = Ret u → u_role u ≠ "admin"%string →
     "users:manage"%string ∉ permissions_of (u_id u) (db a) →
     "*"%string ∉ permissions_of (u_id u) (db a) →
     serve env c a = (Raise (forbidden "users:manage"), a)).
Proof.
  intros Hc.
  assert (∀ e, perm_users_manage env a = (Raise e, a) → serve env c a = (Raise e, a)) as Hserve.
  { intros e He. by destruct c; try done; cbn [serve]; unfold py_bind at 1; rewrite He. }
  assert (current_user env a = ((current_user env a).1, a)) as Hcur.
  { unfold current_user. by rewrite get_current_user_eq. }
  split.
  - intros e He. apply Hserve. rewrite He in Hcur. unfold perm_users_manage, require_permission.
    unfold current_user in Hcur. unfold py_bind. by rewrite Hcur.
  - intros u Hu Hr Hp Hstar. apply Hserve. rewrite Hu in Hcur.
    unfold perm_users_manage, require_permission. unfold current_user in Hcur.
    unfold py_bind at 1. rewrite Hcur. unfold py_bind. rewrite on_db_get_permissions.
    destruct (has_permission _ _ _) eqn:Hh; [|done]. exfalso. apply has_permission_iff in Hh.
    rewrite !merge_sort_Permutation, !elem_of_elements in Hh.
    destruct Hh as [?|[?|[?|Hd]]]; [done..|]. unfold DEFAULT_ROLE_PERMISSIONS in Hd.
    rewrite bool_decide_false in Hd by done. repeat case_bool_decide; set_solver.
Qed.

Lemma administration_guarded_witness :
  serve (mkEnv 0 "t" "t" [] [] "k" (mkRequest [] [] (Some "203.0.113.9"%string)))
    (DeleteUser 1) pending_app = (Raise CREDENTIALS_REQUIRED, pending_app).
Proof. apply administration_guarded; vm_compute; reflexivity. Defined.
