(* ===== verification/Sessions.v ===== *)
(** Sessions: what the token of a login is worth later.

    The token of [login] (routers/auth.py) names the account by its user name; each
    request that presents it looks the account up again (routers/deps.py).  The
    theorem composes the two with the permissions: a session has the rights that the
    account of that name has when it is used, and nothing of the account that was
    logged in to. *)

From S2P Require Import Prelude PyStr PyCrypto PyJson Database Auth Access UserRoutes.
From Stdlib Require Import ZArith Lia Ascii Bool.
From stdpp Require Import base tactics list strings gmap sorting.
Open Scope py_scope.

(** ** The token of a login *)

(** The text of a token: no space, and never empty. *)
Lemma session_token_shape now random username key expires_in :
  let tok := generate_session_token now random username key expires_in in
  str_all (λ c, negb (is_space c)) tok = true ∧ String.eqb tok "" = false.
Proof.
  cbv zeta. unfold generate_session_token. set (p := b64_rstrip _).
  assert (Hp : str_all b64_ok p = true) by apply b64_rstrip_shape, bytes_of_bound.
  assert (Hi : ∀ s, str_all b64_ok s = true → str_all (λ c, negb (is_space c)) s = true).
  { intros s. apply str_all_impl. intros c. unfold b64_ok. rewrite !andb_true_iff. tauto. }
  split.
  - rewrite !str_all_app, (Hi p Hp), (Hi _ (token_signature_ok _ _)). done.
  - by destruct p.
Qed.

(** A successful login: the account it opened, and the token it issued. *)
Lemma login_token env q a resp a' :
  app_inv a → login env q a = (Ret (RLogin resp), a') →
  ∃ r, opened_account (l_username q) (l_password q) a = Some r ∧ row_username r = l_username q ∧ name_ok (l_username q) ∧
    lr_token resp = generate_session_token (e_now env) (e_nonce env) (l_username q) (e_secret env) 86400.
Proof.
  intros Ha. rewrite login_check by done.
  destruct (opened_account _ _ a) as [r|] eqn:Ho; unfold opened_account in Ho;
    destruct (find_username (l_username q) (db a)) as [r'|] eqn:Hf; try done.
  assert (r' = r) as -> by (destruct (_ && _); [by injection Ho|discriminate Ho]). clear Ho.
  apply find_username_Some in Hf as [Hin Hname].
  assert (name_ok (row_username r)) as Hok.
  { pose proof (inv_rows _ Ha) as Hr. rewrite Forall_forall in Hr. by apply Hr. }
  rewrite Hname in *. set (tok := generate_session_token _ _ _ _ _). clearbody tok. destruct a as [d b ex].
  unfold get_bootstrap_state, py_bind, py_get, py_ret, on_db. cbn [db bootstrap_state]. cbn.
  destruct (is_pending b && String.eqb (row_role r) "admin"); intros [= <- _]; by exists r.
Qed.

(** ** Presenting it *)

Lemma bearer_presents now random username key expires_in cookies client :
  let tok := generate_session_token now random username key expires_in in
  presented_token (mkRequest [("authorization", "Bearer " +:+ tok)]%string cookies client) = Some tok.
Proof.
  destruct (session_token_shape now random username key expires_in) as [Hs Hne]. cbv zeta.
  set (tok := generate_session_token _ _ _ _ _) in *. clearbody tok.
  assert (E : str_strip (str_drop 7 ("Bearer " +:+ tok)) = tok).
  { rewrite !str_app_cons, str_app_empty. cbn [str_drop]. by apply str_strip_id. }
  assert (Hb : startswith ("Bearer " +:+ tok) "Bearer " = true) by (unfold startswith; by rewrite str_strip_prefix_app).
  revert E Hb. generalize ("Bearer " +:+ tok). intros h E Hb.
  unfold presented_token. cbn [headers assoc_get String.eqb Ascii.eqb Bool.eqb default from_option id].
  by rewrite Hb, E, Hne.
Qed.

Lemma cookie_presents now random username key expires_in client :
  let tok := generate_session_token now random username key expires_in in
  presented_token (mkRequest [] [("pal_session_token", tok)]%string client) = Some tok.
Proof.
  destruct (session_token_shape now random username key expires_in) as [_ Hne]. cbv zeta.
  unfold presented_token. cbn. by rewrite Hne.
Qed.

(** ** What it is worth *)

(** The rights of the account of a name, as it stands. *)
Definition rights_of (name permission : string) (a : App) : result UserRecord :=
  match active_in name a with
  | None => Raise INVALID_TOKEN
  | Some u =>
      if has_permission (u_role u) (merge_sort String.le (elements (permissions_of (u_id u) (db a)))) permission
      then Ret u else Raise (forbidden permission)
  end.

Lemma require_permission_eq permission now now_ts secret request token name a :
  presented_token request = Some token → verify_session_token now token secret = Ret (Some name) →
  require_permission permission now now_ts secret request a = (rights_of name permission a, a).
Proof.
  intros Ht Hv. unfold require_permission, py_bind at 1. rewrite get_current_user_eq, Ht. unfold token_result.
  rewrite (presented_token_nonempty _ _ Ht), Hv. unfold rights_of. destruct (active_in name a) as [u|]; [|done].
  unfold py_bind. rewrite on_db_get_permissions. by destruct (has_permission _ _ _).
Qed.

Lemma require_permission_expired permission now now_ts secret request token a :
  presented_token request = Some token → verify_session_token now token secret = Ret None →
  require_permission permission now now_ts secret request a = (Raise INVALID_TOKEN, a).
Proof.
  intros Ht Hv. unfold require_permission, py_bind at 1. rewrite get_current_user_eq, Ht. unfold token_result.
  by rewrite (presented_token_nonempty _ _ Ht), Hv.
Qed.

(** C10: The token of a successful login is worth, at any later time and whatever has
    happened to the accounts meanwhile, exactly what the account of that name is
    entitled to then: for 24 hours each endpoint that asks for a permission lets the
    bearer pass as that account when it is active and has the permission, answers 403
    when it has not, and 401 when there is no active account of the name; after that
    the answer is 401. *)
Theorem session_has_current_rights env q a resp a' permission now' now_ts request later :
  app_reachable a → Forall (λ b, 0 ≤ b < 256)%Z (e_nonce env) →
  login env q a = (Ret (RLogin resp), a') →
  presented_token request = Some (lr_token resp) →
  require_permission permission now' now_ts (e_secret env) request later =
    (if ((e_now env / nanoseconds + 86400) * nanoseconds <? now')%Z then Raise INVALID_TOKEN
     else rights_of (l_username q) permission later, later).
Proof.
  intros Ha%app_reachable_inv Hn Hl Ht. destruct (login_token env q a resp a' Ha Hl) as (r & _ & _ & [Hne Hasc] & Htok).
  pose proof (verify_generated_token (e_now env) now' (e_nonce env) (l_username q) (e_secret env) 86400 Hne
    (utf8_valid_ascii _ Hasc) Hn) as Hv. rewrite <-Htok in Hv.
  destruct ((_ <? now')%Z); [by eapply require_permission_expired|by eapply require_permission_eq].
Qed.

(** ** Observations *)

Lemma started_admin :
  ∃ h s, hash_password [] "pw" None = (h, s) ∧
    users (db started_app) = [mkUserRow 1 "admin" h s (Some "admin@localhost") "admin" 1 "t" None]%string.
Proof.
  unfold started_app, restart, bootstrap_admin_user. generalize hash_password. intros hp. vm_compute.
  destruct (hp _ _ _) as [h s]. by exists h, s.
Qed.

Lemma login_succeeds env q a r :
  app_inv a → opened_account (l_username q) (l_password q) a = Some r →
  ∃ resp a', login env q a = (Ret (RLogin resp), a').
Proof.
  intros Ha Ho. rewrite login_check, Ho by done. unfold opened_account in Ho.
  destruct (find_username (l_username q) (db a)) as [r'|]; [|done]. clear. destruct a as [d b ex].
  unfold get_bootstrap_state, py_bind, py_get, py_ret, on_db.
  set (tok := generate_session_token _ _ _ _ _). clearbody tok. cbn.
  destruct (_ && _); do 2 eexists; reflexivity.
Qed.

Lemma started_login :
  ∃ resp a', login example_env (mkLogin "admin" "pw") started_app = (Ret (RLogin resp), a').
Proof.
  destruct started_admin as (h & s & Hh & Hu). eapply login_succeeds; [exact (app_reachable_inv _ started_app_reachable)|].
  unfold opened_account, find_username. rewrite Hu. cbn [List.find row_username l_username].
  rewrite bool_decide_true by done. cbn [row_is_active row_salt row_password_hash l_password].
  pose proof (hash_password_digest [] "pw" None) as Hd. rewrite Hh in Hd. cbn [fst snd] in Hd.
  by rewrite <-Hd, String.eqb_refl.
Qed.

(** An application whose only account is one of the given name, with whatever id and
    password. *)
Definition app_of (id : Z) (name password_hash role : string) (active : bool) : App :=
  mkApp (set_users [mkUserRow id name password_hash "s" None role (if active then 1 else 0)%Z "t" None] id db_initial)
    bootstrap_initial [].

Lemma session_has_current_rights_witness :
  ∃ resp a', login example_env (mkLogin "admin" "pw") started_app = (Ret (RLogin resp), a') ∧
    let bearer := mkRequest [] [("pal_session_token", lr_token resp)]%string (Some "203.0.113.9"%string) in
    let use := require_permission "server:settings" 5 "t" "k" bearer in
    use (app_of 7 "admin" "another digest" "admin" true) =
      (Ret (mkUser 7 "admin" "another digest" "s" "" "admin" true "t" None), app_of 7 "admin" "another digest" "admin" true) ∧
    use (app_of 7 "admin" "another digest" "admin" false) = (Raise INVALID_TOKEN, app_of 7 "admin" "another digest" "admin" false) ∧
    use (app_of 7 "admin" "another digest" "viewer" true) =
      (Raise (forbidden "server:settings"), app_of 7 "admin" "another digest" "viewer" true).
Proof.
  destruct started_login as (resp & a' & Hl). exists resp, a'. split; [exact Hl|]. cbv zeta.
  assert (Hp : presented_token (mkRequest [] [("pal_session_token", lr_token resp)]%string (Some "203.0.113.9"%string))
    = Some (lr_token resp)).
  { destruct (login_token _ _ _ _ _ (app_reachable_inv _ started_app_reachable) Hl) as (_ & _ & _ & _ & ->).
    apply cookie_presents. }
  split_and!;
    (erewrite (session_has_current_rights example_env _ started_app resp a' "server:settings" 5 "t" _ _
       started_app_reachable (Forall_nil_2 _) Hl Hp); vm_compute; reflexivity).
Defined.

(** A change of the password ends no session. *)
Lemma password_change_keeps_session h s :
  rights_of "admin" "server:settings"
    (on_db (update_user 7 None None None (Some h) (Some s)) (app_of 7 "admin" "d" "admin" true)).2 =
  Ret (mkUser 7 "admin" h s "" "admin" true "t" None).
Proof. by vm_compute. Qed.
