(* ===== verification/IniParser.v ===== *)
(** Parser and serialiser of [PalWorldSettings.ini]
    ([app/config_manager/parser.py]).

    The two regular expressions are written out as scanners.  The token pattern
    is a run of word characters, an equals sign, and a quoted text, a
    parenthesised text or a run without commas, tried in this order.  A run of
    word characters that is not followed by an equals sign and a value cannot
    start a match anywhere, so [finditer] resumes after it.  A Python dict is the
    list of its items in insertion order.  Floats are exact decimals
    [m * 10^e]; bytes above 127 count as word characters. *)

From S2P Require Import Prelude PyStr PyNum PyDict.
From Stdlib Require Import ZArith Lia Ascii Bool.
From stdpp Require Import base tactics list strings.

Local Open Scope Z_scope.

(** * Values *)

Inductive PyVal : Type :=
  | VBool (b : bool)
  | VInt (n : Z)
  | VFloat (m e : Z)
  | VStr (s : string)
  | VOther (text : string).  (** anything else, by its [str()] *)

#[export] Instance PyVal_eq_dec : EqDecision PyVal.
Proof. solve_decision. Defined.

(** A dict in insertion order. *)
Definition dict := list (string * PyVal).

(** * Numbers *)

(** [m * 10^e] in millionths, rounded half to even. *)
Definition millionths (m e : Z) : Z :=
  if -6 <=? e then m * 10 ^ (e + 6)
  else
    let d := 10 ^ (-6 - e) in
    let q := Z.abs m / d in
    let r := Z.abs m mod d in
    let q' := if 2 * r <? d then q else if d <? 2 * r then q + 1
              else if Z.even q then q else q + 1 in
    Z.sgn m * q'.

(** [f"{v:.6f}"] *)
Definition format_6f (m e : Z) : string :=
  let n := Z.abs (millionths m e) in
  (if m <? 0 then "-"%string else ""%string) +:+
  str_of_Z (n / 1000000) +:+ "." +:+ fixed_digits 6 n.

(** * Parsing *)

Definition is_word (c : ascii) : bool := is_alnum c || Ascii.eqb c "_" || (128 <=? ord c).

Fixpoint span_by (p : ascii → bool) (s : string) : string * string :=
  match s with
  | EmptyString => (EmptyString, EmptyString)
  | String c s' => if p c then let '(w, r) := span_by p s' in (String c w, r) else (EmptyString, s)
  end.

(** The group that matched the value, and the rest of the text. *)
Inductive token : Type :=
  | TQuoted (s : string)
  | TParen (s : string)
  | TRaw (s : string).

Definition dq : ascii := "034"%char.

Definition match_quoted (s : string) : option (token * string) :=
  match s with
  | String c s' =>
      if Ascii.eqb c dq then
        match span_by (λ a, negb (Ascii.eqb a dq)) s' with
        | (w, String _ r) => Some (TQuoted w, r)
        | (_, EmptyString) => None
        end
      else None
  | EmptyString => None
  end.

Definition match_paren (s : string) : option (token * string) :=
  match s with
  | String c s' =>
      if Ascii.eqb c "(" then
        match span_by (λ a, negb (Ascii.eqb a ")")) s' with
        | (w, String _ r) => Some (TParen ("(" +:+ w +:+ ")"), r)
        | (_, EmptyString) => None
        end
      else None
  | EmptyString => None
  end.

Definition match_raw (s : string) : option (token * string) :=
  match span_by (λ a, negb (Ascii.eqb a ",")) s with
  | (EmptyString, _) => None
  | (w, r) => Some (TRaw w, r)
  end.

Definition match_value (s : string) : option (token * string) :=
  match match_quoted s with
  | Some p => Some p
  | None => match match_paren s with Some p => Some p | None => match_raw s end
  end.

(** [pattern.finditer(raw_str)]; every step consumes a character, so the length
    of the text is enough fuel. *)
Fixpoint finditer (fuel : nat) (s : string) : list (string * token) :=
  match fuel with
  | O => []
  | S fuel =>
      match span_by is_word s with
      | (EmptyString, EmptyString) => []
      | (EmptyString, String _ r) => finditer fuel r
      | (w, String c r) =>
          if Ascii.eqb c "=" then
            match match_value r with
            | Some (t, rest) => (w, t) :: finditer fuel rest
            | None => finditer fuel r
            end
          else finditer fuel (String c r)
      | (_, EmptyString) => []
      end
  end.

Definition token_value (t : token) : PyVal :=
  match t with
  | TQuoted s => VStr s
  | TParen s => VStr s
  | TRaw s =>
      let raw_v := str_strip s in
      if String.eqb raw_v "True" then VBool true
      else if String.eqb raw_v "False" then VBool false
      else if str_contains "." raw_v then
        match py_float raw_v with Some (m, e) => VFloat m e | None => VStr raw_v end
      else match py_int raw_v with Some n => VInt n | None => VStr raw_v end
  end.

(** What follows the first occurrence of a marker. *)
Fixpoint after_first (marker s : string) : option string :=
  match str_strip_prefix marker s with
  | Some r => Some r
  | None => match s with EmptyString => None | String _ s' => after_first marker s' end
  end.

(** What precedes the last occurrence of a character. *)
Fixpoint before_last (c : ascii) (s : string) : option string :=
  match s with
  | EmptyString => None
  | String a s' =>
      match before_last c s' with
      | Some r => Some (String a r)
      | None => if Ascii.eqb a c then Some EmptyString else None
      end
  end.

(** [re.search(r"OptionSettings=\((.*)\)", content, re.DOTALL)] *)
Definition option_settings (content : string) : option string :=
  match after_first "OptionSettings=(" content with
  | Some r => before_last ")" r
  | None => None
  end.

Definition parse_content (content : string) : dict :=
  match option_settings content with
  | None => []
  | Some inner =>
      let raw_str := str_strip inner in
      dict_update [] (List.map (λ kt, (kt.1, token_value kt.2))
                               (finditer (S (String.length raw_str)) raw_str))
  end.

(** [parse_ini_file]: a missing or unreadable file ([None]) reads as empty. *)
Definition parse_ini_file (content : option string) : dict :=
  match content with None => [] | Some c => parse_content c end.

(** * Serialising *)

Definition quoted (s : string) : string := String dq (s +:+ String dq "").

Definition serialize_value (v : PyVal) : string :=
  match v with
  | VBool b => if b then "True" else "False"
  | VFloat m e => format_6f m e
  | VInt n => str_of_Z n
  | VStr s => if startswith s "(" && endswith s ")" then s else quoted s
  | VOther s => quoted s
  end.

Definition serialize_pair (kv : string * PyVal) : string :=
  kv.1 +:+ "=" +:+ serialize_value kv.2.

Definition newline : string := String "010" "".

Definition serialize_ini_settings (settings : dict) : string :=
  let inner := str_join "," (List.map serialize_pair settings) in
  "[/Script/Pal.PalGameWorldSettings]" +:+ newline +:+ "OptionSettings=(" +:+ inner +:+ ")"
  +:+ newline.

Example parse_example :
  parse_content (str_map (λ c, if Ascii.eqb c "'" then dq else c)
    "[x]OptionSettings=( A=1.50,B='q,()',C=(Steam,Xbox), D=True ,E=-7,F=,G=abc,A=2)tail"%string)
  = [("A", VInt 2); ("B", VStr "q,()"); ("C", VStr "(Steam,Xbox)"); ("D", VBool true);
     ("E", VInt (-7)); ("G", VStr "abc")]%string.
Proof. vm_compute. reflexivity. Qed.
Example format_example :
  format_6f 15 (-1) = "1.500000"%string ∧ format_6f (-12345675) (-7) = "-1.234568"%string ∧
  format_6f 5 (-7) = "0.000000"%string.
Proof. vm_compute. done. Qed.

(** * Lemmas *)

(** ** Well-formed items *)

Definition wf_key (k : string) : Prop := k ≠ ""%string ∧ str_all is_word k = true.

(** A text without quotes, or a parenthesised text without an inner closing
    parenthesis. *)
Definition wf_text (s : string) : Prop :=
  if startswith s "(" && endswith s ")" then
    ∃ w, s = "(" +:+ w +:+ ")" ∧ str_all (λ a, negb (Ascii.eqb a ")")) w = true
  else str_all (λ a, negb (Ascii.eqb a dq)) s = true.

Definition wf_val (v : PyVal) : Prop :=
  match v with
  | VBool _ | VInt _ => True
  | VFloat _ e => e = -6
  | VStr s => wf_text s
  | VOther _ => False
  end.

Definition wf_item (kv : string * PyVal) : Prop := wf_key kv.1 ∧ wf_val kv.2.

Definition token_of (v : PyVal) : token :=
  match v with
  | VStr s => if startswith s "(" && endswith s ")" then TParen s else TQuoted s
  | v => TRaw (serialize_value v)
  end.

(** ** Scanning *)

Lemma span_by_app p s t :
  str_all p s = true → match t with String c _ => p c = false | EmptyString => True end →
  span_by p (s +:+ t) = (s, t).
Proof.
  intros Hs Ht. induction s as [|c s IH].
  - rewrite str_app_empty. destruct t as [|c t]; [done|]. cbn. by rewrite Ht.
  - rewrite str_app_cons. cbn in *. apply andb_prop in Hs as [-> Hs]. by rewrite IH.
Qed.

(** What may follow a value in the serialised list. *)
Definition item_stop (t : string) : Prop :=
  match t with String c _ => c = ","%char | EmptyString => True end.

Definition num_char (c : ascii) : bool :=
  is_digit c || Ascii.eqb c "-" || Ascii.eqb c ".".

Definition raw_char (c : ascii) : bool := num_char c || is_upper c || is_lower c.

Lemma raw_char_facts c :
  raw_char c = true →
  Ascii.eqb c "," = false ∧ Ascii.eqb c dq = false ∧ Ascii.eqb c "(" = false ∧ is_space c = false.
Proof.
  intros H. assert (∀ d, raw_char d = false → Ascii.eqb c d = false) as Hne.
  { intros d Hd. apply Ascii.eqb_neq. intros ->. congruence. }
  split_and!; [by apply Hne..|].
  destruct c as [[] [] [] [] [] [] [] []]; try discriminate H; reflexivity.
Qed.

Lemma match_value_raw s t :
  s ≠ ""%string → str_all raw_char s = true → item_stop t →
  match_value (s +:+ t) = Some (TRaw s, t).
Proof.
  intros Hne Hs Ht. destruct s as [|c s]; [done|].
  assert (raw_char c = true) as Hc by (cbn in Hs; by apply andb_prop in Hs as [? _]).
  destruct (raw_char_facts c Hc) as (_ & Hdq & Hp & _).
  unfold match_value, match_quoted, match_paren. rewrite str_app_cons, Hdq, Hp.
  rewrite <-str_app_cons. unfold match_raw. rewrite span_by_app; [done| |].
  - eapply str_all_impl; [|exact Hs]. intros a Ha. by destruct (raw_char_facts a Ha) as (-> & _).
  - destruct t; [done|]. by cbn in Ht; subst.
Qed.

Lemma match_value_quoted s t :
  str_all (λ a, negb (Ascii.eqb a dq)) s = true →
  match_value (quoted s +:+ t) = Some (TQuoted s, t).
Proof.
  intros Hs. unfold match_value, match_quoted, quoted.
  rewrite str_app_cons, str_app_assoc, (Ascii.eqb_refl dq).
  rewrite span_by_app; [done|exact Hs|]. change ("" +:+ t) with t. done.
Qed.

Lemma match_value_paren w t :
  str_all (λ a, negb (Ascii.eqb a ")")) w = true →
  match_value (("(" +:+ w +:+ ")") +:+ t) = Some (TParen ("(" +:+ w +:+ ")"), t).
Proof.
  intros Hw. unfold match_value.
  assert (match_quoted (("(" +:+ w +:+ ")") +:+ t) = None) as -> by done.
  unfold match_paren. rewrite str_app_assoc. change ("(" +:+ ?x) with (String "(" x) at 1.
  cbn [Ascii.eqb Bool.eqb]. rewrite str_app_assoc. change (")" +:+ t) with (String ")" t).
  rewrite span_by_app; [done|exact Hw|done].
Qed.

(** ** Rendered numbers *)

Lemma str_of_Z_num n : str_of_Z n ≠ ""%string ∧ str_all num_char (str_of_Z n) = true.
Proof.
  assert (∀ m, 0 ≤ m → str_of_Z m ≠ ""%string ∧ str_all num_char (str_of_Z m) = true) as H.
  { intros m (c & s & -> & Hc & Hs & _)%str_of_nonneg. split; [done|].
    apply (str_all_impl is_digit); [|cbn; by rewrite Hc, Hs].
    intros a Ha. unfold num_char. by rewrite Ha. }
  destruct (decide (n < 0)) as [Hn|Hn]; [|apply H; lia].
  rewrite str_of_neg by done. split; [done|]. cbn. apply H. lia.
Qed.

Lemma format_6f_canonical m :
  format_6f m (-6) = (if m <? 0 then "-"%string else ""%string) +:+
    str_of_Z (Z.abs m / 1000000) +:+ "." +:+ fixed_digits 6 (Z.abs m).
Proof. unfold format_6f, millionths. change (10 ^ (-6 + 6)) with 1. by rewrite Z.mul_1_r. Qed.

Lemma format_6f_num m e :
  format_6f m e ≠ ""%string ∧ str_all num_char (format_6f m e) = true.
Proof.
  unfold format_6f. set (n := Z.abs (millionths m e)).
  destruct (str_of_Z_num (n / 1000000)) as [H1 H2].
  assert (str_all num_char (fixed_digits 6 n) = true) as H3.
  { apply (str_all_impl is_digit); [|apply fixed_digits_all; lia].
    intros a Ha. unfold num_char. by rewrite Ha. }
  split.
  - intros H%(f_equal String.length). rewrite !str_length_app in H. cbn in H. lia.
  - rewrite !str_all_app, H2, H3. by destruct (m <? 0).
Qed.

Lemma num_raw s : str_all num_char s = true → str_all raw_char s = true.
Proof. apply str_all_impl. intros c Hc. unfold raw_char. by rewrite Hc. Qed.

Lemma str_strip_raw s : str_all raw_char s = true → str_strip s = s.
Proof.
  intros H. assert (str_all (λ c, negb (is_space c)) s = true) as Hs.
  { eapply str_all_impl; [|exact H]. intros c Hc. by destruct (raw_char_facts c Hc) as (_&_&_&->). }
  by apply str_strip_id.
Qed.

Lemma str_contains_char c s :
  str_contains (String c "") s = negb (str_all (λ a, negb (Ascii.eqb c a)) s).
Proof.
  induction s as [|a s IH]; [done|]. cbn [str_contains str_all].
  unfold startswith. cbn [str_strip_prefix]. destruct (Ascii.eqb c a); [done|]. exact IH.
Qed.

Lemma num_not_word s w :
  str_all num_char s = true → str_all num_char w = false → String.eqb s w = false.
Proof. intros H1 H2. apply String.eqb_neq. intros ->. congruence. Qed.

Lemma token_value_int n : token_value (TRaw (str_of_Z n)) = VInt n.
Proof.
  destruct (str_of_Z_num n) as [_ H]. unfold token_value. rewrite str_strip_raw by by apply num_raw.
  rewrite !(num_not_word _ _ H) by done. rewrite str_contains_char.
  assert (str_all (λ a, negb (Ascii.eqb "." a)) (str_of_Z n) = true) as ->.
  { assert (∀ m, 0 ≤ m → str_all (λ a, negb (Ascii.eqb "." a)) (str_of_Z m) = true) as Hd.
    { intros m [_ Hm]%nonneg_digits. eapply str_all_impl; [|exact Hm].
      intros c Hc. by destruct (Ascii.eqb_spec "." c) as [<-|]. }
    destruct (decide (n < 0)); [rewrite str_of_neg by done; cbn|]; apply Hd; lia. }
  by rewrite py_int_str_of_Z.
Qed.

Lemma token_value_float m : token_value (TRaw (format_6f m (-6))) = VFloat m (-6).
Proof.
  destruct (format_6f_num m (-6)) as [_ H]. unfold token_value.
  rewrite str_strip_raw by by apply num_raw. rewrite !(num_not_word _ _ H) by done.
  rewrite str_contains_char. rewrite format_6f_canonical in *.
  set (body := str_of_Z (Z.abs m / 1000000) +:+ "." +:+ fixed_digits 6 (Z.abs m)) in *.
  assert (str_all (λ a, negb (Ascii.eqb "." a))
    ((if m <? 0 then "-"%string else ""%string) +:+ body) = false) as ->.
  { unfold body. rewrite !str_all_app. cbn [str_all Ascii.eqb Bool.eqb negb andb].
    by rewrite !andb_false_r. }
  cbn [negb].
  assert (split_sign ((if m <? 0 then "-"%string else ""%string) +:+ body) =
          (if m <? 0 then -1 else 1, body)) as Hs.
  { destruct (m <? 0); [done|]. rewrite str_app_empty.
    destruct (str_of_nonneg (Z.abs m / 1000000) ltac:(zdiv)) as (c & s & E & Hc & _).
    unfold body. rewrite E, str_app_cons. cbn [split_sign].
    by rewrite !digit_neq by done. }
  unfold py_float. rewrite Hs.
  assert (str_all num_char body = true) as Hb by (rewrite str_all_app in H; by apply andb_prop in H as [_ H]).
  rewrite str_lower_id.
  2:{ eapply str_all_impl; [|exact Hb]. intros c Hc.
      destruct c as [[] [] [] [] [] [] [] []]; try discriminate Hc; reflexivity. }
  rewrite str_split_none.
  2:{ eapply str_all_impl; [|exact Hb]. intros c Hc.
      destruct c as [[] [] [] [] [] [] [] []]; try discriminate Hc; reflexivity. }
  unfold body. rewrite py_mantissa_body by lia. cbn. f_equal.
  destruct (Z.ltb_spec m 0); lia.
Qed.

(** ** Round trip *)

Lemma token_value_token_of v : wf_val v → token_value (token_of v) = v.
Proof.
  destruct v as [b|n|m e|s|s]; cbn [wf_val token_of]; intros Hv; try done.
  - by destruct b.
  - apply token_value_int.
  - subst e. apply token_value_float.
  - by destruct (_ && _).
Qed.

Lemma match_value_serialized v t :
  wf_val v → item_stop t → match_value (serialize_value v +:+ t) = Some (token_of v, t).
Proof.
  destruct v as [b|n|m e|s|s]; cbn [wf_val token_of serialize_value]; intros Hv Ht; try done.
  - destruct b; by apply match_value_raw.
  - destruct (str_of_Z_num n). apply match_value_raw; [done|by apply num_raw|done].
  - destruct (format_6f_num m e). apply match_value_raw; [done|by apply num_raw|done].
  - unfold wf_text in Hv. destruct (_ && _).
    + destruct Hv as (w & -> & Hw). by apply match_value_paren.
    + by apply match_value_quoted.
Qed.

Lemma finditer_items l :
  Forall wf_item l → ∀ fuel,
  (String.length (str_join "," (List.map serialize_pair l)) < fuel)%nat →
  finditer fuel (str_join "," (List.map serialize_pair l)) =
  List.map (λ kv, (kv.1, token_of kv.2)) l.
Proof.
  induction 1 as [|[k v] l [[Hk Hw] Hv] Hl IH]; intros [|fuel] Hf; [lia|done|lia|].
  cbn [fst snd] in *.
  assert (∃ t, str_join "," (List.map serialize_pair ((k, v) :: l)) =
    k +:+ "=" +:+ serialize_value v +:+ t ∧ item_stop t ∧
    finditer fuel t = List.map (λ kv, (kv.1, token_of kv.2)) l) as (t & -> & Ht & Hrest).
  { destruct l as [|kv' l].
    - exists ""%string. cbn. split; [by rewrite str_app_nil_r|]. split; [done|].
      destruct fuel; [|done]. exfalso. cbn in Hf. unfold serialize_pair in Hf.
      rewrite !str_length_app in Hf. cbn in Hf. lia.
    - set (j := str_join "," (List.map serialize_pair (kv' :: l))) in *.
      assert (str_join "," (List.map serialize_pair ((k, v) :: kv' :: l)) =
        serialize_pair (k, v) +:+ String "," j) as Ej by done.
      rewrite Ej in *. exists (String "," j). unfold serialize_pair at 1. cbn [fst snd].
      split; [by rewrite !str_app_assoc|]. split; [done|].
      unfold serialize_pair in Hf. cbn [fst snd] in Hf. rewrite !str_length_app in Hf.
      cbn [String.length] in Hf. destruct fuel as [|fuel]; [lia|].
      assert (finditer (S fuel) (String "," j) = finditer fuel j) as -> by done.
      apply IH. lia. }
  cbn [finditer]. rewrite span_by_app by done. change ("=" +:+ ?x) with (String "=" x).
  destruct k as [|c k]; [done|]. cbn [Ascii.eqb Bool.eqb].
  rewrite match_value_serialized by done. by rewrite Hrest.
Qed.

Lemma after_first_header r :
  after_first "OptionSettings=("
    ("[/Script/Pal.PalGameWorldSettings]" +:+ newline +:+ "OptionSettings=(" +:+ r) = Some r.
Proof. reflexivity. Qed.

Lemma before_last_app c s t :
  str_all (λ a, negb (Ascii.eqb a c)) t = true → before_last c (s +:+ String c t) = Some s.
Proof.
  intros Ht. induction s as [|a s IH]; [|rewrite str_app_cons; cbn; by rewrite IH].
  rewrite str_app_empty. cbn. assert (before_last c t = None) as ->.
  { induction t as [|b t IHt]; [done|]. cbn in *. apply andb_prop in Ht as [Hb Ht].
    rewrite IHt by done. by destruct (Ascii.eqb b c). }
  by rewrite Ascii.eqb_refl.
Qed.

(** A text that [strip] leaves alone at its end. *)
Definition ends_ok (s : string) : Prop := s ≠ ""%string ∧ rstrip_by is_space s = s.

Lemma ends_ok_app s t : ends_ok t → ends_ok (s +:+ t).
Proof.
  intros [Hne Ht]. induction s as [|c s [IH1 IH2]]; [done|]. rewrite str_app_cons.
  split; [done|]. cbn [rstrip_by]. rewrite IH2. by destruct (s +:+ t).
Qed.

Lemma ends_ok_raw s : s ≠ ""%string → str_all raw_char s = true → ends_ok s.
Proof.
  intros Hne Hs. split; [done|]. apply rstrip_by_id. eapply str_all_impl; [|exact Hs].
  intros c Hc. by destruct (raw_char_facts c Hc) as (_&_&_&->).
Qed.

Lemma ends_ok_serialized v : wf_val v → ends_ok (serialize_value v).
Proof.
  destruct v as [b|n|m e|s|s]; cbn [wf_val serialize_value]; intros Hv; [| | | |done].
  - destruct b; by apply ends_ok_raw.
  - destruct (str_of_Z_num n). apply ends_ok_raw; [done|by apply num_raw].
  - destruct (format_6f_num m e). apply ends_ok_raw; [done|by apply num_raw].
  - unfold wf_text in Hv. destruct (_ && _).
    + destruct Hv as (w & -> & _). by do 2 apply ends_ok_app.
    + unfold quoted. change (String dq (s +:+ String dq "")) with (String dq s +:+ String dq "").
      by apply ends_ok_app.
Qed.

Lemma ends_ok_items kv l :
  Forall wf_item (kv :: l) → ends_ok (str_join "," (List.map serialize_pair (kv :: l))).
Proof.
  revert kv. induction l as [|kv' l IH]; intros [k v] [[_ Hv] Hl]%Forall_cons.
  - cbn. unfold serialize_pair. cbn [fst snd]. do 2 apply ends_ok_app. by apply ends_ok_serialized.
  - change (str_join "," (List.map serialize_pair ((k, v) :: kv' :: l))) with
      (serialize_pair (k, v) +:+ "," +:+ str_join "," (List.map serialize_pair (kv' :: l))).
    do 2 apply ends_ok_app. by apply IH.
Qed.

Lemma word_not_space c : is_word c = true → is_space c = false.
Proof. destruct c as [[] [] [] [] [] [] [] []]; try discriminate 1; reflexivity. Qed.

Lemma str_strip_items l :
  Forall wf_item l →
  str_strip (str_join "," (List.map serialize_pair l)) = str_join "," (List.map serialize_pair l).
Proof.
  intros Hl. destruct l as [|[k v] l]; [done|]. pose proof (ends_ok_items _ _ Hl) as [_ He].
  apply Forall_cons in Hl as [[[Hk Hw] _] _]. cbn [fst] in *. unfold str_strip, strip_by.
  set (j := str_join _ _) in *.
  assert (∃ c s, j = String c s ∧ is_space c = false) as (c & s & Ej & Hc).
  { destruct k as [|c k]; [done|]. cbn in Hw. apply andb_prop in Hw as [Hc _].
    unfold j, serialize_pair. cbn [List.map str_join fst snd].
    destruct (List.map _ l); rewrite ?str_app_assoc, str_app_cons; do 2 eexists;
      (split; [reflexivity|by apply word_not_space]). }
  assert (lstrip_by is_space j = j) as -> by (rewrite Ej; cbn; by rewrite Hc). exact He.
Qed.

(** The text of any list of well-formed items reads as these items. *)
Lemma parse_serialize_items l :
  Forall wf_item l → parse_content (serialize_ini_settings l) = dict_update [] l.
Proof.
  intros Hl. unfold parse_content, option_settings, serialize_ini_settings.
  rewrite after_first_header. change (")" +:+ newline) with (String ")" newline).
  rewrite before_last_app by done. rewrite str_strip_items by done.
  rewrite finditer_items by (try done; lia). rewrite List.map_map. f_equal.
  rewrite <-(List.map_id l) at 2. apply List.map_ext_in. intros [k v] Hin. cbn [fst snd].
  rewrite token_value_token_of; [done|]. rewrite Forall_forall in Hl.
  apply list_elem_of_In in Hin. by destruct (Hl _ Hin).
Qed.


Definition example_dict : dict :=
  [("ServerName", VStr "Cool, (Kids)"); ("ExpRate", VFloat 1500000 (-6)); ("Max", VInt 32);
   ("bPvP", VBool false); ("CrossplayPlatforms", VStr "(Steam,Xbox)")]%string.

Lemma example_dict_wf : Forall wf_item example_dict.
Proof.
  repeat constructor; try discriminate. cbn. unfold wf_text. cbn.
  by exists "Steam,Xbox"%string.
Qed.

