(* ===== verification/SettingsMeta.v ===== *)
(** The settings tables: the field metadata sent to the web interface
    ([SETTING_METADATA] of [app/config_manager/parser.py]) and the fields of the
    request schema ([GameplaySettingsSchema] of [app/api/schemas.py]) with their
    validation. *)

From S2P Require Import Prelude PyStr PyNum PyDict IniParser.
From Stdlib Require Import ZArith Lia Ascii Bool.
From stdpp Require Import base tactics list strings.

Local Open Scope Z_scope.

(** * Metadata *)

Inductive SettingType : Type := TyBool | TyInt | TyFloat | TyString | TySelect.

#[export] Instance SettingType_eq_dec : EqDecision SettingType.
Proof. solve_decision. Defined.

(** An entry; the limits are (min, max, step). *)
Record SettingMeta := mkMeta {
  m_category : string;
  m_type : SettingType;
  m_label : string;
  m_limits : option (PyVal * PyVal * PyVal);
  m_options : list string;
}.

Definition METADATA_CROSSPLAY : list (string * SettingMeta) :=
  let category := "🌐 Crossplay & Community Matchmaking" in
  [("CrossplayPlatforms", mkMeta category TyString "Allowed Crossplay Platforms"
      None []);
   ("AllowConnectPlatform", mkMeta category TyString "Connect Platforms String"
      None []);
   ("bIsMultiplay", mkMeta category TyBool "Community Multiplayer Mode"
      None []);
   ("bShowPlayerList", mkMeta category TyBool "Show In-Game Player List"
      None []);
   ("bIsShowJoinLeftMessage", mkMeta category TyBool "Show Join/Leave Notices"
      None []);
   ("ServerPlayerMaxNum", mkMeta category TyInt "Max Server Player Capacity"
      (Some ((VInt 1), (VInt 32), (VInt 1))) []);
   ("CoopPlayerMaxNum", mkMeta category TyInt "Max Co-Op Party Size"
      (Some ((VInt 1), (VInt 4), (VInt 1))) []);
   ("bUseBackupSaveData", mkMeta category TyBool "Automatic World Backup Save Data"
      None []);
   ("ServerName", mkMeta category TyString "Server Display Name"
      None []);
   ("ServerDescription", mkMeta category TyString "Server Description"
      None []);
   ("Region", mkMeta category TyString "Server Region"
      None [])]%string.

Definition METADATA_PROGRESSION : list (string * SettingMeta) :=
  let category := "⚡ Progression & Leveling" in
  [("Difficulty", mkMeta category TySelect "World Difficulty Preset"
      None ["None"; "Casual"; "Normal"; "Hard"]);
   ("ExpRate", mkMeta category TyFloat "Player & Pal EXP Multiplier"
      (Some ((VFloat 1 (-1)), (VFloat 200 (-1)), (VFloat 1 (-1)))) []);
   ("PalCaptureRate", mkMeta category TyFloat "Pal Capture Rate Multiplier"
      (Some ((VFloat 5 (-1)), (VFloat 50 (-1)), (VFloat 1 (-1)))) []);
   ("PalEggDefaultHatchingTime", mkMeta category TyFloat "Egg Incubation Time (Hours; 0.0 = Instant)"
      (Some ((VFloat 0 (-1)), (VFloat 2400 (-1)), (VFloat 5 (-1)))) []);
   ("WorkSpeedRate", mkMeta category TyFloat "Player Work Speed Rate"
      (Some ((VFloat 1 (-1)), (VFloat 100 (-1)), (VFloat 1 (-1)))) []);
   ("DayTimeSpeedRate", mkMeta category TyFloat "Day Time Speed Rate"
      (Some ((VFloat 1 (-1)), (VFloat 100 (-1)), (VFloat 1 (-1)))) []);
   ("NightTimeSpeedRate", mkMeta category TyFloat "Night Time Speed Rate"
      (Some ((VFloat 1 (-1)), (VFloat 100 (-1)), (VFloat 1 (-1)))) [])]%string.

Definition METADATA_SURVIVAL : list (string * SettingMeta) :=
  let category := "🛡️ Stamina & Survival" in
  [("PlayerStaminaDecreaceRate", mkMeta category TyFloat "Player Stamina Drain Rate"
      (Some ((VFloat 1 (-1)), (VFloat 50 (-1)), (VFloat 1 (-1)))) []);
   ("PalStaminaDecreaceRate", mkMeta category TyFloat "Mount / Pal Stamina Drain Rate"
      (Some ((VFloat 1 (-1)), (VFloat 50 (-1)), (VFloat 1 (-1)))) []);
   ("PlayerStomachDecreaceRate", mkMeta category TyFloat "Player Hunger Drain Rate"
      (Some ((VFloat 1 (-1)), (VFloat 50 (-1)), (VFloat 1 (-1)))) []);
   ("PalStomachDecreaceRate", mkMeta category TyFloat "Pal Hunger Drain Rate"
      (Some ((VFloat 1 (-1)), (VFloat 50 (-1)), (VFloat 1 (-1)))) []);
   ("PlayerAutoHPRegeneRate", mkMeta category TyFloat "Player Passive HP Regen"
      (Some ((VFloat 1 (-1)), (VFloat 100 (-1)), (VFloat 1 (-1)))) []);
   ("PlayerAutoHPRegeneRateInSleep", mkMeta category TyFloat "Player Sleeping HP Regen"
      (Some ((VFloat 1 (-1)), (VFloat 100 (-1)), (VFloat 1 (-1)))) []);
   ("PalAutoHPRegeneRate", mkMeta category TyFloat "Pal Passive HP Regen"
      (Some ((VFloat 1 (-1)), (VFloat 100 (-1)), (VFloat 1 (-1)))) []);
   ("PalAutoHPRegeneRateInSleep", mkMeta category TyFloat "Pal Box / Sleep HP Regen"
      (Some ((VFloat 1 (-1)), (VFloat 100 (-1)), (VFloat 1 (-1)))) []);
   ("bEnableNonLoginPenalty", mkMeta category TyBool "Non-Login Player Penalty"
      None []);
   ("bEnableFastTravel", mkMeta category TyBool "Fast Travel Statues & Points"
      None []);
   ("bIsStartLocationSelectByMap", mkMeta category TyBool "Respawn / Start Location Selection on Map"
      None []);
   ("bExistPlayerAfterLogout", mkMeta category TyBool "Player Body Persists in World After Logout"
      None [])]%string.

Definition METADATA_COMBAT : list (string * SettingMeta) :=
  let category := "⚔️ Combat & Death Rules" in
  [("DeathPenalty", mkMeta category TySelect "Death Penalty (None = No Drop)"
      None ["None"; "Item"; "ItemAndEquipment"; "All"]);
   ("bEnableInvaderEnemy", mkMeta category TyBool "Base Raids / Invader Attacks"
      None []);
   ("bEnablePlayerToPlayerDamage", mkMeta category TyBool "PvP Player-to-Player Damage"
      None []);
   ("bEnableFriendlyFire", mkMeta category TyBool "Guild Friendly Fire"
      None []);
   ("bEnableDefenseOtherGuildPlayer", mkMeta category TyBool "Defend Against Other Guild Players"
      None []);
   ("bInvisibleOtherGuildBaseCampAreaFX", mkMeta category TyBool "Hide Other Guild Base Perimeter FX"
      None []);
   ("PlayerDamageRateAttack", mkMeta category TyFloat "Player Outgoing Attack Multiplier"
      (Some ((VFloat 1 (-1)), (VFloat 100 (-1)), (VFloat 1 (-1)))) []);
   ("PlayerDamageRateDefense", mkMeta category TyFloat "Player Incoming Damage Multiplier"
      (Some ((VFloat 1 (-1)), (VFloat 100 (-1)), (VFloat 1 (-1)))) []);
   ("PalDamageRateAttack", mkMeta category TyFloat "Pal Outgoing Attack Multiplier"
      (Some ((VFloat 1 (-1)), (VFloat 100 (-1)), (VFloat 1 (-1)))) []);
   ("PalDamageRateDefense", mkMeta category TyFloat "Pal Incoming Damage Multiplier"
      (Some ((VFloat 1 (-1)), (VFloat 100 (-1)), (VFloat 1 (-1)))) []);
   ("PalDamageRateToPlayer", mkMeta category TyFloat "Wild Pal Damage Dealt to Players"
      (Some ((VFloat 1 (-1)), (VFloat 100 (-1)), (VFloat 1 (-1)))) []);
   ("PalDamageRateFromPlayer", mkMeta category TyFloat "Player Damage Dealt to Wild Pals"
      (Some ((VFloat 1 (-1)), (VFloat 100 (-1)), (VFloat 1 (-1)))) []);
   ("bEnableAimAssistPad", mkMeta category TyBool "Controller Aim Assist"
      None []);
   ("bEnableAimAssistKeyboard", mkMeta category TyBool "Keyboard/Mouse Aim Assist"
      None [])]%string.

Definition METADATA_BASE_CAMPS : list (string * SettingMeta) :=
  let category := "🏰 Base Camps & Guild Scaling" in
  [("BaseCampMaxNum", mkMeta category TyInt "Max World Base Camps"
      (Some ((VInt 1), (VInt 256), (VInt 1))) []);
   ("BaseCampMaxNumInGuild", mkMeta category TyInt "Max Base Camps Per Guild"
      (Some ((VInt 1), (VInt 20), (VInt 1))) []);
   ("BaseCampWorkerMaxNum", mkMeta category TyInt "Max Assigned Pals Per Base"
      (Some ((VInt 1), (VInt 50), (VInt 1))) []);
   ("GuildPlayerMaxNum", mkMeta category TyInt "Max Players Per Guild"
      (Some ((VInt 1), (VInt 100), (VInt 1))) []);
   ("MaxBuildingLimitNum", mkMeta category TyInt "Max Total World Building Elements (0 = Unlimited)"
      (Some ((VInt 0), (VInt 10000), (VInt 100))) []);
   ("BuildObjectDamageRate", mkMeta category TyFloat "Damage to Structures Multiplier"
      (Some ((VFloat 1 (-1)), (VFloat 100 (-1)), (VFloat 1 (-1)))) []);
   ("BuildObjectDeteriorationDamageRate", mkMeta category TyFloat "Structure Decay Outside Base (0 = Disabled)"
      (Some ((VFloat 0 (-1)), (VFloat 100 (-1)), (VFloat 1 (-1)))) []);
   ("AutoResetGuildNoOnlinePlayers", mkMeta category TyBool "Auto-Disband Inactive Guilds"
      None []);
   ("AutoResetGuildTimeNoOnlinePlayers", mkMeta category TyFloat "Inactive Guild Reset Timer (Hours)"
      (Some ((VFloat 0 (-1)), (VFloat 7200 (-1)), (VFloat 10 (-1)))) [])]%string.

Definition METADATA_GATHERING : list (string * SettingMeta) :=
  let category := "📦 Gathering, Drops & Spawns" in
  [("CollectionDropRate", mkMeta category TyFloat "Harvesting / Node Drop Rate"
      (Some ((VFloat 5 (-1)), (VFloat 100 (-1)), (VFloat 1 (-1)))) []);
   ("CollectionObjectHpRate", mkMeta category TyFloat "Resource Node Durability (HP)"
      (Some ((VFloat 5 (-1)), (VFloat 100 (-1)), (VFloat 1 (-1)))) []);
   ("CollectionObjectRespawnSpeedRate", mkMeta category TyFloat "Resource Node Respawn Speed Rate"
      (Some ((VFloat 5 (-1)), (VFloat 100 (-1)), (VFloat 1 (-1)))) []);
   ("EnemyDropItemRate", mkMeta category TyFloat "Enemy Pal Item Drop Rate"
      (Some ((VFloat 5 (-1)), (VFloat 100 (-1)), (VFloat 1 (-1)))) []);
   ("PalSpawnNumRate", mkMeta category TyFloat "Pal Spawn Density Multiplier"
      (Some ((VFloat 5 (-1)), (VFloat 30 (-1)), (VFloat 1 (-1)))) []);
   ("DropItemMaxNum", mkMeta category TyInt "Max Dropped Items in World"
      (Some ((VInt 0), (VInt 5000), (VInt 100))) []);
   ("DropItemMaxNum_UNKO", mkMeta category TyInt "Max Dropped Waste / Dung in World"
      (Some ((VInt 0), (VInt 500), (VInt 10))) []);
   ("DropItemAliveMaxHours", mkMeta category TyFloat "Dropped Item Despawn Timer (Hours)"
      (Some ((VFloat 0 (-1)), (VFloat 240 (-1)), (VFloat 5 (-1)))) []);
   ("bActiveUNKO", mkMeta category TyBool "Creature Waste / Dung Generation (UNKO)"
      None []);
   ("SupplyDropSpan", mkMeta category TyInt "Supply Drop Interval (Minutes; 0 = Disabled)"
      (Some ((VInt 0), (VInt 1000), (VInt 10))) [])]%string.

Definition SETTING_METADATA : list (string * SettingMeta) :=
  METADATA_CROSSPLAY ++ METADATA_PROGRESSION ++ METADATA_SURVIVAL ++
  METADATA_COMBAT ++ METADATA_BASE_CAMPS ++ METADATA_GATHERING.

(** * Request schema *)

Inductive Validator : Type := NoValidator | SanitizeStrings | ValidateDeathPenalty.

(** The type of a field: every field also accepts [None]. *)
Inductive FieldType : Type :=
  | FBool
  | FInt (ge le : Z)
  | FFloat (ge le : PyVal)
  | FText (max_length : option Z) (validator : Validator).

Definition GameplaySettingsSchema : list (string * FieldType) :=
  [("ServerName", (FText (Some 128) SanitizeStrings));
   ("ServerDescription", (FText (Some 256) SanitizeStrings));
   ("Region", (FText (Some 32) SanitizeStrings));
   ("CrossplayPlatforms", (FText None NoValidator));
   ("AllowConnectPlatform", (FText None NoValidator));
   ("bIsMultiplay", FBool);
   ("bShowPlayerList", FBool);
   ("bIsShowJoinLeftMessage", FBool);
   ("ServerPlayerMaxNum", (FInt 1 32));
   ("CoopPlayerMaxNum", (FInt 1 4));
   ("bUseBackupSaveData", FBool);
   ("RCONEnabled", FBool);
   ("Difficulty", (FText None NoValidator));
   ("ExpRate", (FFloat (VFloat 1 (-1)) (VFloat 200 (-1))));
   ("PalCaptureRate", (FFloat (VFloat 5 (-1)) (VFloat 50 (-1))));
   ("PalEggDefaultHatchingTime", (FFloat (VFloat 0 (-1)) (VFloat 2400 (-1))));
   ("WorkSpeedRate", (FFloat (VFloat 1 (-1)) (VFloat 100 (-1))));
   ("DayTimeSpeedRate", (FFloat (VFloat 1 (-1)) (VFloat 100 (-1))));
   ("NightTimeSpeedRate", (FFloat (VFloat 1 (-1)) (VFloat 100 (-1))));
   ("PlayerStaminaDecreaceRate", (FFloat (VFloat 1 (-1)) (VFloat 50 (-1))));
   ("PalStaminaDecreaceRate", (FFloat (VFloat 1 (-1)) (VFloat 50 (-1))));
   ("PlayerStomachDecreaceRate", (FFloat (VFloat 1 (-1)) (VFloat 50 (-1))));
   ("PalStomachDecreaceRate", (FFloat (VFloat 1 (-1)) (VFloat 50 (-1))));
   ("PlayerAutoHPRegeneRate", (FFloat (VFloat 1 (-1)) (VFloat 100 (-1))));
   ("PlayerAutoHPRegeneRateInSleep", (FFloat (VFloat 1 (-1)) (VFloat 100 (-1))));
   ("PalAutoHPRegeneRate", (FFloat (VFloat 1 (-1)) (VFloat 100 (-1))));
   ("PalAutoHPRegeneRateInSleep", (FFloat (VFloat 1 (-1)) (VFloat 100 (-1))));
   ("bEnableNonLoginPenalty", FBool);
   ("bEnableFastTravel", FBool);
   ("bIsStartLocationSelectByMap", FBool);
   ("bExistPlayerAfterLogout", FBool);
   ("DeathPenalty", (FText None ValidateDeathPenalty));
   ("bEnableInvaderEnemy", FBool);
   ("bEnablePlayerToPlayerDamage", FBool);
   ("bEnableFriendlyFire", FBool);
   ("bEnableDefenseOtherGuildPlayer", FBool);
   ("bInvisibleOtherGuildBaseCampAreaFX", FBool);
   ("PlayerDamageRateAttack", (FFloat (VFloat 1 (-1)) (VFloat 100 (-1))));
   ("PlayerDamageRateDefense", (FFloat (VFloat 1 (-1)) (VFloat 100 (-1))));
   ("PalDamageRateAttack", (FFloat (VFloat 1 (-1)) (VFloat 100 (-1))));
   ("PalDamageRateDefense", (FFloat (VFloat 1 (-1)) (VFloat 100 (-1))));
   ("PalDamageRateToPlayer", (FFloat (VFloat 1 (-1)) (VFloat 100 (-1))));
   ("PalDamageRateFromPlayer", (FFloat (VFloat 1 (-1)) (VFloat 100 (-1))));
   ("bEnableAimAssistPad", FBool);
   ("bEnableAimAssistKeyboard", FBool);
   ("BaseCampMaxNum", (FInt 1 256));
   ("BaseCampMaxNumInGuild", (FInt 1 20));
   ("BaseCampWorkerMaxNum", (FInt 1 50));
   ("GuildPlayerMaxNum", (FInt 1 100));
   ("MaxBuildingLimitNum", (FInt 0 10000));
   ("BuildObjectDamageRate", (FFloat (VFloat 1 (-1)) (VFloat 100 (-1))));
   ("BuildObjectDeteriorationDamageRate", (FFloat (VFloat 0 (-1)) (VFloat 100 (-1))));
   ("AutoResetGuildNoOnlinePlayers", FBool);
   ("AutoResetGuildTimeNoOnlinePlayers", (FFloat (VFloat 0 (-1)) (VFloat 7200 (-1))));
   ("CollectionDropRate", (FFloat (VFloat 5 (-1)) (VFloat 100 (-1))));
   ("CollectionObjectHpRate", (FFloat (VFloat 5 (-1)) (VFloat 100 (-1))));
   ("CollectionObjectRespawnSpeedRate", (FFloat (VFloat 5 (-1)) (VFloat 100 (-1))));
   ("EnemyDropItemRate", (FFloat (VFloat 5 (-1)) (VFloat 100 (-1))));
   ("PalSpawnNumRate", (FFloat (VFloat 5 (-1)) (VFloat 30 (-1))));
   ("DropItemMaxNum", (FInt 0 5000));
   ("DropItemMaxNum_UNKO", (FInt 0 500));
   ("DropItemAliveMaxHours", (FFloat (VFloat 0 (-1)) (VFloat 240 (-1))));
   ("bActiveUNKO", FBool);
   ("SupplyDropSpan", (FInt 0 1000))]%string.

(** * Validation *)

(** Comparison of numbers, as exact decimals. *)
Definition decimal (v : PyVal) : option (Z * Z) :=
  match v with VInt n => Some (n, 0) | VFloat m e => Some (m, e) | _ => None end.
Definition num_le (v w : PyVal) : bool :=
  match decimal v, decimal w with
  | Some (m1, e1), Some (m2, e2) =>
      let e := Z.min e1 e2 in m1 * 10 ^ (e1 - e) <=? m2 * 10 ^ (e2 - e)
  | _, _ => false
  end.

Definition none_value : PyVal := VOther "None".

(** Quotes, tabs and line ends are removed, then the text is stripped. *)
Definition sanitized_char (c : ascii) : bool :=
  negb (Ascii.eqb c "013" || Ascii.eqb c "010" || Ascii.eqb c "009" || Ascii.eqb c "034").
Definition sanitize_strings (v : PyVal) : PyVal :=
  match v with
  | VStr s => VStr (str_strip (str_filter sanitized_char s))
  | _ => VStr ""
  end.

Definition validate_death_penalty (v : PyVal) : PyVal :=
  match v with
  | VStr s =>
      if bool_decide (s ∈ ["None"; "Item"; "ItemAndEquipment"; "All"]%string) then v
      else VStr "None"
  | _ => VStr "None"
  end.

Definition run_validator (k : Validator) (v : PyVal) : PyVal :=
  match k with
  | NoValidator => v
  | SanitizeStrings => sanitize_strings v
  | ValidateDeathPenalty => validate_death_penalty v
  end.

Fixpoint lookup_field {A} (k : string) (l : list (string * A)) : option A :=
  match l with
  | [] => None
  | (k', a) :: l' => if String.eqb k' k then Some a else lookup_field k l'
  end.

(** The conversions of the validation library (pydantic, lax mode) are a
    parameter: [coerce_int v] is [None] when the value is not accepted as an
    integer, and so on. *)
Section validation.
Context (coerce_bool : PyVal → option bool) (coerce_int : PyVal → option Z)
  (coerce_float : PyVal → option (Z * Z)) (coerce_str : PyVal → option string).

Definition validate_field (ft : FieldType) (v : PyVal) : option PyVal :=
  if bool_decide (v = none_value) then
    match ft with FText _ k => Some (run_validator k v) | _ => Some v end
  else match ft with
  | FBool => VBool <$> coerce_bool v
  | FInt ge le =>
      match coerce_int v with
      | Some n => if (ge <=? n) && (n <=? le) then Some (VInt n) else None
      | None => None
      end
  | FFloat ge le =>
      match coerce_float v with
      | Some (m, e) =>
          if num_le ge (VFloat m e) && num_le (VFloat m e) le then Some (VFloat m e) else None
      | None => None
      end
  | FText max k =>
      match coerce_str v with
      | Some s =>
          if match max with Some n => utf8_len s <=? n | None => true end
          then Some (run_validator k (VStr s)) else None
      | None => None
      end
  end.

(** The fields the payload sets, validated, in the order of the schema
    ([model_dump(exclude_unset=True)]); unknown keys are ignored.  [None] is
    the 422 answer. *)
Fixpoint validate_fields (schema : list (string * FieldType)) (payload : dict) : option dict :=
  match schema with
  | [] => Some []
  | (k, ft) :: rest =>
      match dict_get k payload with
      | None => validate_fields rest payload
      | Some v =>
          match validate_field ft v, validate_fields rest payload with
          | Some w, Some d => Some ((k, w) :: d)
          | _, _ => None
          end
      end
  end.

Definition validate_settings (payload : dict) : option dict :=
  validate_fields GameplaySettingsSchema payload.

(** ** Lemmas *)

Lemma validate_fields_get schema payload d k w :
  validate_fields schema payload = Some d → (k, w) ∈ d →
  ∃ ft v, (k, ft) ∈ schema ∧ dict_get k payload = Some v ∧ validate_field ft v = Some w.
Proof using.
  revert d. induction schema as [|[k0 ft] schema IH]; intros d; cbn [validate_fields].
  { intros [= <-] H. by apply elem_of_nil in H. }
  destruct (dict_get k0 payload) as [v|] eqn:Ev.
  - destruct (validate_field ft v) as [w'|] eqn:Ew; [|done].
    destruct (validate_fields schema payload) as [d'|]; [|done]. intros [= <-] H.
    apply elem_of_cons in H as [[= -> ->]|H].
    + exists ft, v. split_and!; [by left|done..].
    + destruct (IH d' eq_refl H) as (ft' & v' & ? & ?). exists ft', v'. by split; [right|].
  - intros Hd H. destruct (IH d Hd H) as (ft' & v' & ? & ?). exists ft', v'. by split; [right|].
Qed.

(** A payload that sets one field. *)
Lemma validate_fields_single schema k v w ft :
  NoDup (List.map fst schema) → lookup_field k schema = Some ft →
  validate_field ft v = Some w → validate_fields schema [(k, v)] = Some [(k, w)].
Proof using.
  intros Hn Hl Hv. induction schema as [|[k0 ft0] schema IH]; [done|].
  cbn [List.map fst lookup_field validate_fields dict_get] in *.
  apply NoDup_cons in Hn as [Hk Hn]. rewrite String.eqb_sym.
  destruct (String.eqb_spec k0 k) as [->|]; [|by apply IH]. injection Hl as ->. rewrite Hv.
  assert (validate_fields schema [(k, v)] = Some []) as ->; [|done].
  clear IH Hn Hv. induction schema as [|[k1 ft1] schema IH]; [done|].
  cbn [List.map fst validate_fields dict_get] in *. apply not_elem_of_cons in Hk as [Hk1 Hk].
  destruct (String.eqb_spec k k1); [done|]. by apply IH.
Qed.
End validation.

(** What the web interface may show for a field: its type, and for a number the
    limits of its input. *)
Definition meta_agrees (m : SettingMeta) (ft : FieldType) : bool :=
  match m_type m, ft, m_limits m with
  | TyBool, FBool, None => true
  | TyInt, FInt ge le, Some (lo, hi, _) => bool_decide (lo = VInt ge ∧ hi = VInt le)
  | TyFloat, FFloat ge le, Some (lo, hi, _) => bool_decide (lo = ge ∧ hi = le)
  | TyString, FText _ _, None => true
  | TySelect, FText _ _, None => negb (bool_decide (m_options m = []))
  | _, _, _ => false
  end.

Definition metadata_entry_ok (km : string * SettingMeta) : bool :=
  match lookup_field km.1 GameplaySettingsSchema with
  | Some ft => meta_agrees km.2 ft
  | None => false
  end.

(** the metadata served to the web interface and the schema that validates
    its requests agree: each metadata key is a field of the schema with the same
    type and, for numbers, the same minimum and maximum; both tables are free of
    duplicates; and the only field without metadata is the protected
    "RCONEnabled". *)
Theorem metadata_matches_schema :
  (∀ k m, lookup_field k SETTING_METADATA = Some m →
     ∃ ft, lookup_field k GameplaySettingsSchema = Some ft ∧ meta_agrees m ft = true) ∧
  NoDup (List.map fst SETTING_METADATA) ∧ NoDup (List.map fst GameplaySettingsSchema) ∧
  (∀ k ft, lookup_field k GameplaySettingsSchema = Some ft →
     lookup_field k SETTING_METADATA = None → k = "RCONEnabled"%string).
Proof.
  assert (∀ {A} (l : list (string * A)) k a, lookup_field k l = Some a → (k, a) ∈ l) as Hin.
  { intros A l k a. induction l as [|[k' a'] l IH]; [done|]. cbn.
    destruct (String.eqb_spec k' k) as [->|]; [intros [= ->]; by left|right; auto]. }
  split_and!.
  - intros k m Hm%Hin.
    assert (List.forallb metadata_entry_ok SETTING_METADATA = true) as H by (vm_compute; reflexivity).
    rewrite List.forallb_forall in H. specialize (H (k, m)). rewrite <-list_elem_of_In in H.
    specialize (H Hm). unfold metadata_entry_ok in H. cbn [fst snd] in H.
    destruct (lookup_field k GameplaySettingsSchema) as [ft|]; [by exists ft|done].
  - apply (bool_decide_unpack _). vm_compute. exact I.
  - apply (bool_decide_unpack _). vm_compute. exact I.
  - intros k ft Hft%Hin Hk.
    assert (Forall (λ kf, lookup_field kf.1 SETTING_METADATA = None → kf.1 = "RCONEnabled"%string)
              GameplaySettingsSchema) as H.
    { repeat (apply Forall_cons; split; [intros H; vm_compute in H; first [discriminate H|reflexivity]|]).
      constructor. }
    rewrite Forall_forall in H. by apply (H _ Hft).
Qed.
