(* ===== verification/Pipeline.v ===== *)
(** The configuration pipeline that separates public from protected settings
    ([app/config_manager/pipeline.py]) and the content that the settings endpoint
    saves ([app/routers/settings.py]). *)

From S2P Require Import Prelude PyStr PyNum PyDict IniParser SettingsMeta.
From Stdlib Require Import ZArith Lia Ascii Bool.
From stdpp Require Import base tactics list strings.

Definition PROTECTED_ADMIN_KEYS : list string :=
  ["AdminPassword"; "ServerPassword"; "BanListURL"; "PublicPort"; "PublicIP"; "RCONEnabled";
   "RCONPort"; "RESTAPIEnabled"; "RESTAPIPort"; "bUseAuth"]%string.

Definition protected (k : string) : bool := bool_decide (k ∈ PROTECTED_ADMIN_KEYS).

(** The file at [ini_path]: absent, present but unreadable, or its text. *)
Inductive IniFile : Type :=
  | Missing
  | Unreadable
  | Readable (content : string).

Definition parse_path (f : IniFile) : dict :=
  match f with Readable c => parse_ini_file (Some c) | _ => parse_ini_file None end.

Definition exists_ (f : IniFile) : bool := match f with Missing => false | _ => true end.

(** [read_to_json]: the public and the protected view. *)
Definition read_to_json (f : IniFile) : result (dict * dict) :=
  if negb (exists_ f) then Raise FileNotFoundError
  else
    let full_state := parse_path f in
    Ret (List.filter (λ kv, negb (protected kv.1)) full_state,
         List.filter (λ kv, protected kv.1) full_state).

Definition get_public_view (f : IniFile) : result dict :=
  if negb (exists_ f) then Ret []
  else match read_to_json f with
       | Ret (public_view, _) => Ret public_view
       | Raise e => Raise e
       end.

(** The two loops of [merge_and_serialize]. *)
Definition merge (live_full live_protected incoming : dict) : dict :=
  dict_update
    (dict_update live_full (List.filter (λ kv, negb (protected kv.1)) incoming))
    live_protected.

Definition merge_and_serialize (f : IniFile) (incoming : dict) : result string :=
  if exists_ f then
    match read_to_json f with
    | Ret (_, live_protected) =>
        Ret (serialize_ini_settings (merge (parse_path f) live_protected incoming))
    | Raise e => Raise e
    end
  else Ret (serialize_ini_settings (merge [] [] incoming)).

Section endpoint.
Context (coerce_bool : PyVal → option bool) (coerce_int : PyVal → option Z)
  (coerce_float : PyVal → option (Z * Z)) (coerce_str : PyVal → option string).

(** [save_sanitized_settings]: the text that is written when the payload is
    accepted. *)
Definition saved_settings (f : IniFile) (payload : dict) : result string :=
  match validate_settings coerce_bool coerce_int coerce_float coerce_str payload with
  | None => Raise (HTTPException 422 "Unprocessable Entity")
  | Some sanitized_dict => merge_and_serialize f sanitized_dict
  end.
End endpoint.

(** * Lemmas *)

Lemma Forall_filter' {A} (P : A → Prop) (p : A → bool) l : Forall P l → Forall P (List.filter p l).
Proof. induction 1; cbn; [constructor|]. by case_match; [constructor|]. Qed.

Lemma parse_content_nodup c : NoDup (List.map fst (parse_content c)).
Proof.
  unfold parse_content. destruct (option_settings c); [|constructor].
  apply dict_update_nodup. constructor.
Qed.

Lemma parse_path_nodup f : NoDup (List.map fst (parse_path f)).
Proof. destruct f; [constructor..|apply parse_content_nodup]. Qed.

(** A dict and its protected part, on which [merge] is run. *)
Definition live_dict (f : IniFile) : dict := if exists_ f then parse_path f else [].

Lemma merge_and_serialize_eq f incoming :
  merge_and_serialize f incoming =
  Ret (serialize_ini_settings (merge (live_dict f)
         (List.filter (λ kv, protected kv.1) (live_dict f)) incoming)).
Proof. by destruct f. Qed.

Lemma live_dict_nodup f : NoDup (List.map fst (live_dict f)).
Proof. unfold live_dict. destruct (exists_ f); [apply parse_path_nodup|constructor]. Qed.

(** What the merged dict holds: protected keys as they are in the file, other
    keys as the request sets them. *)
Lemma merge_get k live incoming :
  NoDup (List.map fst live) →
  dict_get k (merge live (List.filter (λ kv, protected kv.1) live) incoming) =
  if protected k then dict_get k live
  else match last_value k incoming with Some v => Some v | None => dict_get k live end.
Proof.
  intros Hl. unfold merge. rewrite !dict_get_update.
  rewrite (last_value_filter protected), (last_value_filter (λ k, negb (protected k))).
  rewrite last_value_nodup by done. destruct (protected k); cbn [negb]; [|done].
  by destruct (dict_get k live).
Qed.

Lemma merge_wf live incoming :
  Forall wf_item live → Forall wf_item incoming →
  Forall wf_item (merge live (List.filter (λ kv, protected kv.1) live) incoming).
Proof.
  intros Hl Hi. unfold merge. apply dict_update_Forall; [by apply Forall_filter'|].
  apply dict_update_Forall; [by apply Forall_filter'|done].
Qed.

(** * Properties *)

(** C12: saving settings whose keys are words and whose texts hold no quotes
    never touches an administrative key and changes exactly the requested public
    keys: the saved file reads back with every protected key at its previous
    value (absent if it was absent), every requested public key at the requested
    value and every other key unchanged. *)
Theorem save_preserves_protected f incoming k :
  Forall wf_item (live_dict f) → Forall wf_item incoming → NoDup (List.map fst incoming) →
  ∃ content, merge_and_serialize f incoming = Ret content ∧
    dict_get k (parse_content content) =
      if protected k then dict_get k (live_dict f)
      else match dict_get k incoming with Some v => Some v | None => dict_get k (live_dict f) end.
Proof.
  intros Hl Hi Hn. rewrite merge_and_serialize_eq. eexists. split; [done|].
  rewrite parse_serialize_items by by apply merge_wf.
  rewrite (dict_update_fresh []); cbn [app].
  - rewrite merge_get by apply live_dict_nodup. by rewrite last_value_nodup.
  - unfold merge. do 2 apply dict_update_nodup. apply live_dict_nodup.
Qed.

Definition example_ini : IniFile :=
  Readable (serialize_ini_settings
    [("AdminPassword", VStr "secret"); ("ExpRate", VFloat 1000000 (-6))]%string).

Lemma example_ini_live :
  live_dict example_ini =
    [("AdminPassword", VStr "secret"); ("ExpRate", VFloat 1000000 (-6))]%string.
Proof. vm_compute. reflexivity. Qed.

Lemma save_preserves_protected_witness :
  ∃ content,
    merge_and_serialize example_ini
      [("AdminPassword", VStr "x"); ("ExpRate", VFloat 2000000 (-6))]%string = Ret content ∧
    dict_get "AdminPassword" (parse_content content) = Some (VStr "secret").
Proof.
  apply (save_preserves_protected example_ini
           [("AdminPassword", VStr "x"); ("ExpRate", VFloat 2000000 (-6))]%string "AdminPassword").
  - rewrite example_ini_live. repeat constructor; discriminate.
  - repeat constructor; discriminate.
  - apply (bool_decide_unpack _). vm_compute. exact I.
Defined.

(** the public view never shows an administrative key and shows every other
    key of the file with its value; together with the protected view it is the
    whole file. *)
Theorem public_view_hides_protected f k :
  ∃ public_view, get_public_view f = Ret public_view ∧
    dict_get k public_view = (if protected k then None else dict_get k (live_dict f)) ∧
    (exists_ f = true → ∃ protected_view, read_to_json f = Ret (public_view, protected_view) ∧
       dict_get k protected_view = (if protected k then dict_get k (live_dict f) else None)).
Proof.
  unfold get_public_view, read_to_json, live_dict. destruct (exists_ f) eqn:E; cbn [negb].
  - eexists. split; [done|]. rewrite (dict_get_filter (λ k, negb (protected k))).
    split; [by destruct (protected k)|]. intros _. eexists. split; [done|].
    apply (dict_get_filter protected).
  - exists []. split; [done|]. split; [by destruct (protected k)|done].
Qed.

(** The text that makes a sanitised field carry a second assignment. *)
Definition smuggled (w : string) : string := "(a),AdminPassword=(" +:+ w +:+ ")".

Lemma sanitize_smuggled w :
  str_all sanitized_char w = true →
  sanitize_strings (VStr (smuggled w)) = VStr (smuggled w).
Proof.
  intros Hw. unfold sanitize_strings. f_equal.
  assert (str_filter sanitized_char (smuggled w) = smuggled w) as ->.
  { assert (∀ s, str_all sanitized_char s = true → str_filter sanitized_char s = s) as H.
    { induction s as [|c s IH]; [done|]. cbn. intros [-> Hs]%andb_prop. by rewrite IH. }
    apply H. unfold smuggled. by rewrite !str_all_app, Hw. }
  unfold str_strip, strip_by. change (lstrip_by is_space (smuggled w)) with (smuggled w).
  unfold smuggled. by do 2 apply ends_ok_app.
Qed.

Lemma str_join_cons' sep w ws :
  ws ≠ [] → str_join sep (w :: ws) = w +:+ sep +:+ str_join sep ws.
Proof. by destruct ws. Qed.

Lemma str_join_split sep l1 a b l2 :
  str_join sep (l1 ++ (a +:+ sep +:+ b) :: l2) = str_join sep (l1 ++ a :: b :: l2).
Proof.
  induction l1 as [|x l1 IH]; cbn [app].
  - rewrite (str_join_cons' _ a) by done. destruct l2 as [|c l2]; [done|].
    by rewrite !str_join_cons', !str_app_assoc by done.
  - rewrite !(str_join_cons' _ x) by by destruct l1. by rewrite IH.
Qed.

(** Replacing one public key in place. *)
Lemma merge_replace k v v0 l1 l2 :
  NoDup (List.map fst (l1 ++ (k, v0) :: l2)) → protected k = false →
  merge (l1 ++ (k, v0) :: l2) (List.filter (λ kv, protected kv.1) (l1 ++ (k, v0) :: l2)) [(k, v)]
  = l1 ++ (k, v) :: l2.
Proof.
  intros Hn Hk. unfold merge. cbn [List.filter fst]. rewrite Hk. cbn [negb].
  assert (k ∉ List.map fst l1) as Hk1.
  { rewrite List.map_app in Hn. apply NoDup_app in Hn as (_ & Hn & _). intros H.
    apply (Hn _ H). by left. }
  unfold dict_update at 2. cbn [fold_left fst snd]. rewrite dict_set_replace by done.
  apply dict_update_same. apply Forall_forall. intros [k' v'] Hin.
  apply list_elem_of_In, List.filter_In in Hin as [Hin Hp]. cbn [fst snd] in *.
  assert (k' ≠ k) by congruence. apply list_elem_of_In in Hin.
  assert (dict_get k' (l1 ++ (k, v0) :: l2) = Some v') as <- by by apply dict_get_elem.
  rewrite <-(dict_set_replace k v v0 l1 l2) by done. rewrite dict_get_set. by case_decide.
Qed.

Lemma startswith_paren s : startswith ("(" +:+ s) "(" = true.
Proof. done. Qed.
Lemma endswith_paren s : endswith ("(" +:+ s +:+ ")") ")" = true.
Proof.
  unfold endswith, startswith. rewrite <-str_app_assoc.
  change (("(" +:+ s) +:+ ")") with (("(" +:+ s) +:+ String ")" ""). by rewrite str_rev_app_last.
Qed.

(** C11: the isolation of administrative keys can be bypassed through the
    settings endpoint.  For a file in which "Region" comes after the last
    "AdminPassword", a request that only sets the public field "Region" to the
    text "(a),AdminPassword=(w)" passes the sanitiser unchanged, is written
    without quotes because it starts and ends with parentheses, and the saved
    file then reads back with "AdminPassword" set to "(w)". *)
Theorem sanitized_field_overrides_admin_password
    coerce_bool coerce_int coerce_float coerce_str f l1 v0 l2 w :
  (∀ s, coerce_str (VStr s) = Some s) →
  live_dict f = l1 ++ ("Region"%string, v0) :: l2 → Forall wf_item (live_dict f) →
  "AdminPassword"%string ∉ List.map fst l2 →
  str_all sanitized_char w = true → str_all (λ a, negb (Ascii.eqb a ")")) w = true →
  (utf8_len (smuggled w) ≤ 32)%Z →
  ∃ content,
    saved_settings coerce_bool coerce_int coerce_float coerce_str f
      [("Region"%string, VStr (smuggled w))] = Ret content ∧
    dict_get "AdminPassword" (parse_content content) = Some (VStr ("(" +:+ w +:+ ")")).
Proof.
  intros Hcs Hlive Hwf Hap Hw Hp Hlen. unfold saved_settings.
  assert (validate_settings coerce_bool coerce_int coerce_float coerce_str
    [("Region"%string, VStr (smuggled w))] = Some [("Region"%string, VStr (smuggled w))]) as ->.
  { unfold validate_settings.
    apply (validate_fields_single _ _ _ _ _ _ _ _ (FText (Some 32%Z) SanitizeStrings)).
    - apply (bool_decide_unpack _). vm_compute. exact I.
    - reflexivity.
    - unfold validate_field. rewrite bool_decide_false by done. rewrite Hcs.
      apply Z.leb_le in Hlen as ->. cbn [run_validator]. by rewrite sanitize_smuggled. }
  rewrite merge_and_serialize_eq. eexists. split; [done|].
  pose proof (live_dict_nodup f) as Hn. rewrite Hlive in *. rewrite merge_replace by done.
  set (items := l1 ++ ("Region"%string, VStr "(a)") ::
                ("AdminPassword"%string, VStr ("(" +:+ w +:+ ")")) :: l2).
  assert (serialize_value (VStr (smuggled w)) = smuggled w ∧
          serialize_value (VStr ("(" +:+ w +:+ ")")) = "(" +:+ w +:+ ")") as [E1 E2].
  { split; cbn [serialize_value].
    - unfold smuggled. change ("(a),AdminPassword=(" +:+ ?x) with ("(" +:+ ("a),AdminPassword=(" +:+ x)).
      rewrite <-(str_app_assoc "a),AdminPassword=("). by rewrite startswith_paren, endswith_paren.
    - by rewrite startswith_paren, endswith_paren. }
  assert (serialize_ini_settings (l1 ++ ("Region"%string, VStr (smuggled w)) :: l2) =
          serialize_ini_settings items) as ->.
  { unfold serialize_ini_settings, items. do 3 f_equal. rewrite !List.map_app. cbn [List.map].
    assert (serialize_pair ("Region"%string, VStr (smuggled w)) =
      serialize_pair ("Region"%string, VStr "(a)") +:+ "," +:+
      serialize_pair ("AdminPassword"%string, VStr ("(" +:+ w +:+ ")"))) as ->.
    { unfold serialize_pair. cbn [fst snd]. rewrite E1, E2. done. }
    by rewrite str_join_split. }
  apply Forall_app in Hwf as [Hw1 [_ Hw2]%Forall_cons]. rewrite parse_serialize_items.
  - rewrite dict_get_update. unfold items. rewrite last_value_app. cbn [last_value].
    by rewrite (last_value_None _ l2).
  - apply Forall_app. split; [done|]. constructor.
    { split; [by split|]. cbn. unfold wf_text. cbn. by exists "a"%string. }
    constructor; [|done]. split; [by split|]. cbn [snd wf_val]. unfold wf_text.
    rewrite startswith_paren, endswith_paren. by exists w.
Qed.

(** Conversions that accept exactly the values of the type. *)
Definition strict_bool (v : PyVal) : option bool := match v with VBool b => Some b | _ => None end.
Definition strict_int (v : PyVal) : option Z := match v with VInt n => Some n | _ => None end.
Definition strict_float (v : PyVal) : option (Z * Z) :=
  match v with VFloat m e => Some (m, e) | VInt n => Some (n, 0%Z) | _ => None end.
Definition strict_str (v : PyVal) : option string := match v with VStr s => Some s | _ => None end.

Definition region_ini : IniFile :=
  Readable (serialize_ini_settings
    [("AdminPassword", VStr "secret"); ("Region", VStr "eu"); ("ExpRate", VInt 1)]%string).

Lemma sanitized_field_overrides_admin_password_witness :
  ∃ content,
    saved_settings strict_bool strict_int strict_float strict_str region_ini
      [("Region"%string, VStr (smuggled "evil"))] = Ret content ∧
    dict_get "AdminPassword" (parse_content content) = Some (VStr ("(" +:+ "evil" +:+ ")")).
Proof.
  assert (live_dict region_ini =
    [("AdminPassword", VStr "secret"); ("Region", VStr "eu"); ("ExpRate", VInt 1)]%string) as E
    by (vm_compute; reflexivity).
  apply (sanitized_field_overrides_admin_password strict_bool strict_int strict_float strict_str
    region_ini [("AdminPassword", VStr "secret")]%string (VStr "eu") [("ExpRate", VInt 1)]%string).
  - done.
  - exact E.
  - rewrite E. repeat constructor; discriminate.
  - apply (bool_decide_unpack _). vm_compute. exact I.
  - reflexivity.
  - reflexivity.
  - vm_compute. discriminate.
Defined.
