(* ===== verification/AtomicIO.v ===== *)
(** Crash-safe file writes and the staging directory ([app/core/atomic_io.py]).

    A directory is a map from names to files.  Every system call may fail: the
    outcomes are drawn from an oracle, so the theorems hold for every pattern of
    failures, and every state of the disk that a crash could expose is recorded
    in [visited].  A file is [f_synced] when its content has reached the disk: a
    crash may lose or corrupt the content of a file that is not. *)

From S2P Require Import Prelude PyStr.
From Stdlib Require Import ZArith Lia Ascii Bool.
From stdpp Require Import base tactics list strings gmap sorting.
Open Scope py_scope.

(** * The disk *)

Record File := mkFile {
  f_data : string;
  f_synced : bool;
  f_mode : Z;
  f_mtime : Z;
}.

#[export] Instance File_eq_dec : EqDecision File.
Proof. solve_decision. Defined.

Notation Dir := (gmap string File).

(** The outcome of a system call: whether it fails, and how much of a transfer
    was done when it failed or was observed. *)
Definition outcome : Type := bool * nat.

Record World := mkWorld {
  files : Dir;
  oracle : list outcome;
  visited : list Dir;
  now : Z;
}.

Definition draw : PyM World outcome :=
  λ w, match oracle w with
       | [] => (Ret (false, O), w)
       | o :: rest => (Ret o, mkWorld (files w) rest (visited w) (now w))
       end.

(** A change of the directory, seen by a crash. *)
Definition change (f : Dir → Dir) : PyM World unit :=
  py_modify (λ w, mkWorld (f (files w)) (oracle w) (f (files w) :: visited w) (now w)).

Definition sys_fail : PyM World unit :=
  o <- draw ;; if o.1 : bool then py_raise OSError else py_ret tt.

Definition alter_file (f : File → File) (name : string) : PyM World unit :=
  change (λ fs, match fs !! name with Some g => <[name := f g]> fs | None => fs end).

Definition set_data (s : string) (synced : bool) (f : File) : File :=
  mkFile s synced (f_mode f) (f_mtime f).
Definition set_synced (f : File) : File := mkFile (f_data f) true (f_mode f) (f_mtime f).
Definition set_mode (mode : Z) (f : File) : File :=
  mkFile (f_data f) (f_synced f) mode (f_mtime f).

(** * System calls *)

Definition sys_create (name : string) : PyM World unit :=
  sys_fail ;;; w <- py_get ;; change (insert name (mkFile "" false 384 (now w))).

(** [write] and [flush] of the whole data: a prefix is on its way at any time. *)
Definition sys_write (name data : string) : PyM World unit :=
  o <- draw ;;
  alter_file (set_data (str_take o.2 data) false) name ;;;
  if o.1 : bool then py_raise OSError
  else alter_file (set_data data false) name.

Definition sys_fsync (name : string) : PyM World unit :=
  sys_fail ;;; alter_file set_synced name.

Definition sys_chmod (name : string) (mode : Z) : PyM World unit :=
  sys_fail ;;; alter_file (set_mode mode) name.

Definition sys_replace (src dst : string) : PyM World unit :=
  sys_fail ;;;
  w <- py_get ;;
  match files w !! src with
  | None => py_raise OSError
  | Some f => change (λ fs, <[dst := f]> (delete src fs))
  end.

Definition sys_unlink (name : string) : PyM World unit :=
  sys_fail ;;; change (delete name).

Definition sys_stat (name : string) : PyM World File :=
  sys_fail ;;;
  w <- py_get ;;
  match files w !! name with None => py_raise OSError | Some f => py_ret f end.

(** [shutil.copy2]: the data, then the mode and the modification time. *)
Definition sys_copy2 (src dst : string) : PyM World unit :=
  w <- py_get ;;
  match files w !! src with
  | None => py_raise OSError
  | Some f =>
      o <- draw ;;
      change (insert dst (mkFile (str_take o.2 (f_data f)) false (f_mode f) (now w))) ;;;
      if o.1 : bool then py_raise OSError
      else change (insert dst (mkFile (f_data f) false (f_mode f) (f_mtime f)))
  end.

(** [target.parent.glob(pattern)] for the pattern of the backups. *)
Definition sys_glob (prefix : string) : PyM World (list string) :=
  sys_fail ;;;
  w <- py_get ;;
  py_ret (List.filter (λ n, startswith n prefix) (List.map fst (map_to_list (files w)))).

Definition sys_exists (name : string) : PyM World bool :=
  w <- py_get ;; py_ret (bool_decide (is_Some (files w !! name))).

(** [except OSError]: log and go on with a default. *)
Definition on_oserror {A} (m : PyM World A) (default : A) : PyM World A :=
  py_try m (λ _, py_ret default).

(** * Backups *)

Definition resolve_target_mode (target : string) (explicit_mode : option Z) : PyM World Z :=
  match explicit_mode with
  | Some m => py_ret m
  | None =>
      present <- sys_exists target ;;
      if present : bool then
        on_oserror (f <- sys_stat target ;; py_ret (Z.land (f_mode f) 511)) 420%Z
      else py_ret 420%Z
  end.

Definition backup_prefix (target : string) : string := target +:+ ".bak.".

(** [_sort_key]: the modification time (0 when it cannot be read) and the name. *)
Definition sort_key (name : string) : PyM World (Z * string) :=
  on_oserror (f <- sys_stat name ;; py_ret (f_mtime f, name)) (0%Z, name).

Fixpoint sort_keys (names : list string) : PyM World (list (Z * string)) :=
  match names with
  | [] => py_ret []
  | n :: rest => k <- sort_key n ;; ks <- sort_keys rest ;; py_ret (k :: ks)
  end.

(** The order of the pairs (time, name). *)
Definition key_le (a b : Z * string) : Prop :=
  (a.1 < b.1)%Z ∨ (a.1 = b.1 ∧ String.le a.2 b.2).
#[export] Instance key_le_dec : RelDecision key_le.
Proof. intros a b. unfold key_le. apply _. Defined.

Fixpoint unlink_all (names : list string) : PyM World unit :=
  match names with
  | [] => py_ret tt
  | n :: rest => on_oserror (sys_unlink n) tt ;;; unlink_all rest
  end.

Definition prune_backups (target : string) (max_backups : Z) : PyM World unit :=
  if (max_backups <? 0)%Z then py_ret tt
  else
    candidates <- on_oserror (l <- sys_glob (backup_prefix target) ;; py_ret (Some l)) None ;;
    match candidates with
    | None => py_ret tt
    | Some names =>
        keys <- sort_keys names ;;
        let candidate_backups := List.map snd (merge_sort key_le keys) in
        let excess_count := (Z.of_nat (length candidate_backups) - max_backups)%Z in
        if (excess_count <=? 0)%Z then py_ret tt
        else unlink_all (take (Z.to_nat excess_count) candidate_backups)
    end.

(** [timestamp] is the rendered current time. *)
Definition create_backup_snapshot (target timestamp : string) (max_backups : Z)
    : PyM World (option string) :=
  present <- sys_exists target ;;
  if negb present then py_ret None
  else
    size <- on_oserror (f <- sys_stat target ;; py_ret (Some (String.length (f_data f)))) None ;;
    match size with
    | None | Some O => py_ret None
    | Some _ =>
        let backup_path := backup_prefix target +:+ timestamp in
        copied <- on_oserror (sys_copy2 target backup_path ;;; py_ret true) false ;;
        if copied : bool then prune_backups target max_backups ;;; py_ret (Some backup_path)
        else py_ret None
    end.

(** [_fsync_posix_directory]: open, fsync and close, each failure swallowed. *)
Definition fsync_directory : PyM World unit :=
  opened <- on_oserror (sys_fail ;;; py_ret true) false ;;
  if opened : bool then on_oserror sys_fail tt ;;; on_oserror sys_fail tt else py_ret tt.

(** * Atomic write *)

Record AtomicWriteResult := mkResult {
  res_target : string;
  res_bytes_written : Z;
  res_backup_path : option string;
}.

(** [tmp] is the name that [NamedTemporaryFile] picks.  The [finally] clause
    removes the staging file when [replace_completed] is not set: nothing after
    the replacement raises, so that is when an exception leaves the part up to
    the replacement. *)
Definition atomic_write_file (tmp timestamp target data : string) (max_backups : Z)
    (make_backup : bool) (mode : option Z) (sync_directory : bool)
    : PyM World AtomicWriteResult :=
  sys_fail ;;;
  target_mode <- resolve_target_mode target mode ;;
  sys_create tmp ;;;
  backup_path <- py_try
    (sys_write tmp data ;;;
     sys_fsync tmp ;;;
     on_oserror (sys_chmod tmp target_mode) tt ;;;
     backup <- (if make_backup then create_backup_snapshot target timestamp max_backups
                else py_ret None) ;;
     sys_replace tmp target ;;;
     py_ret backup)
    (λ e, on_oserror (sys_unlink tmp) tt ;;; py_raise e) ;;
  (if sync_directory then fsync_directory else py_ret tt) ;;;
  py_ret (mkResult target (Z.of_nat (String.length data)) backup_path).

Definition atomic_write_ini (tmp timestamp target serialized_content : string)
    (max_backups : Z) (make_backup sync_directory : bool) : PyM World string :=
  result <- atomic_write_file tmp timestamp target serialized_content max_backups make_backup
    None sync_directory ;;
  py_ret (res_target result).

(** * Lemmas *)

(** ** What the calls keep *)

(** A property of the current state of the disk, and one of every state so far. *)
Definition always (Q V : Dir → Prop) (w : World) : Prop := Q (files w) ∧ Forall V (visited w).

Section keeps.
Context (Q V : Dir → Prop) (own : string → Prop) (HQV : ∀ fs, Q fs → V fs).
(** [Q] does not depend on the names that satisfy [own]. *)
Context (Hins : ∀ fs n f, own n → Q fs → Q (<[n := f]> fs)).
Context (Hdel : ∀ fs n, own n → Q fs → Q (delete n fs)).

Lemma draw_keeps : preserves (always Q V) draw.
Proof using. intros [fs [|o os] vs c] Hw; exact Hw. Qed.

Lemma change_keeps f : (∀ fs, Q fs → Q (f fs)) → preserves (always Q V) (change f).
Proof using HQV. intros Hf w [H1 H2]. split; [by apply Hf|]. constructor; [by apply HQV, Hf|done]. Qed.

Lemma sys_fail_keeps : preserves (always Q V) sys_fail.
Proof using.
  unfold sys_fail. apply preserves_bind; [apply draw_keeps|]. intros [[] k]; cbn [fst]; auto with py.
Qed.

Lemma alter_keeps g n : own n → preserves (always Q V) (alter_file g n).
Proof using HQV Hins Hdel.
  intros Hn. apply change_keeps. intros fs H. destruct (fs !! n); [by apply Hins|done].
Qed.

Lemma on_oserror_keeps {A} (m : PyM World A) d :
  preserves (always Q V) m → preserves (always Q V) (on_oserror m d).
Proof using.
  intros Hm w Hw. specialize (Hm w Hw). unfold on_oserror, py_try.
  destruct (m w) as [[a|e] w']; exact Hm.
Qed.

Ltac keeps :=
  preserve; try match goal with
  | |- preserves _ (change _) => apply change_keeps; auto
  | |- preserves _ (on_oserror _ _) => apply on_oserror_keeps; preserve
  end.
#[local] Hint Resolve draw_keeps change_keeps sys_fail_keeps alter_keeps on_oserror_keeps : py.

Lemma sys_create_keeps n : own n → preserves (always Q V) (sys_create n).
Proof using HQV Hins. intros Hn. unfold sys_create. keeps. Qed.
Lemma sys_write_keeps n d : own n → preserves (always Q V) (sys_write n d).
Proof using HQV Hins Hdel. intros Hn. unfold sys_write. preserve. Qed.
Lemma sys_fsync_keeps n : own n → preserves (always Q V) (sys_fsync n).
Proof using HQV Hins Hdel. intros Hn. unfold sys_fsync. preserve. Qed.
Lemma sys_chmod_keeps n m : own n → preserves (always Q V) (sys_chmod n m).
Proof using HQV Hins Hdel. intros Hn. unfold sys_chmod. preserve. Qed.
Lemma sys_unlink_keeps n : own n → preserves (always Q V) (sys_unlink n).
Proof using HQV Hdel. intros Hn. unfold sys_unlink. keeps. Qed.
Lemma sys_stat_keeps n : preserves (always Q V) (sys_stat n).
Proof using. unfold sys_stat. preserve. Qed.
Lemma sys_glob_keeps p : preserves (always Q V) (sys_glob p).
Proof using. unfold sys_glob. preserve. Qed.
Lemma sys_exists_keeps n : preserves (always Q V) (sys_exists n).
Proof using. unfold sys_exists. preserve. Qed.
Lemma sys_copy2_keeps a b : own b → preserves (always Q V) (sys_copy2 a b).
Proof using HQV Hins. intros Hb. unfold sys_copy2. keeps. Qed.
#[local] Hint Resolve sys_create_keeps sys_write_keeps sys_fsync_keeps sys_chmod_keeps
  sys_unlink_keeps sys_stat_keeps sys_glob_keeps sys_exists_keeps sys_copy2_keeps : py.

Lemma resolve_target_mode_keeps t m : preserves (always Q V) (resolve_target_mode t m).
Proof using. unfold resolve_target_mode. keeps. Qed.

Lemma sort_keys_keeps l : preserves (always Q V) (sort_keys l).
Proof using.
  induction l as [|n l IH]; cbn [sort_keys]; [auto with py|]. unfold sort_key.
  apply preserves_bind; [apply on_oserror_keeps; preserve|]. preserve.
Qed.

Lemma unlink_all_keeps l : Forall own l → preserves (always Q V) (unlink_all l).
Proof using HQV Hdel. induction 1; cbn [unlink_all]; auto with py. Qed.

Lemma fsync_directory_keeps : preserves (always Q V) fsync_directory.
Proof using.
  unfold fsync_directory. apply preserves_bind; [apply on_oserror_keeps; preserve|]. preserve.
Qed.

Lemma preserves_spec {A} (m : PyM World A) :
  spec (always Q V) m (λ _ w, always Q V w) → preserves (always Q V) m.
Proof using. intros H w Hw. by apply H. Qed.

Lemma sys_glob_spec p :
  (∀ n, startswith n p = true → own n) →
  spec (always Q V) (sys_glob p) (λ r w, always Q V w ∧ match r with Ret l => Forall own l | _ => True end).
Proof using.
  intros Hp. unfold sys_glob. eapply spec_bind.
  - eapply spec_conseq; [intros w Hw; exact Hw| |apply spec_preserves, sys_fail_keeps].
    intros [a|e] w Hw; [exact Hw|by split].
  - intros _ w Hw. cbn. split; [exact Hw|]. apply Forall_forall. intros n Hn.
    apply list_elem_of_In, List.filter_In in Hn as [_ Hn]. by apply Hp.
Qed.

Lemma sort_keys_spec names :
  spec (always Q V) (sort_keys names)
    (λ r w, always Q V w ∧ match r with Ret ks => List.map snd ks = names | _ => True end).
Proof using.
  induction names as [|n names IH]; cbn [sort_keys]; [by intros w Hw|].
  eapply (spec_bind _ _ _ (λ k w, always Q V w ∧ k.2 = n)).
  - intros w Hw. unfold sort_key, on_oserror, py_try.
    pose proof (sys_stat_keeps n w Hw) as Hk. unfold py_bind.
    destruct (sys_stat n w) as [[f|e] w']; by split.
  - intros k w [Hw Hk]. cbn beta. specialize (IH w Hw). unfold py_bind.
    destruct (sort_keys names w) as [[ks|e] w']; cbn in *; [|done].
    destruct IH as [IH1 IH2]. split; [done|]. cbn. by rewrite Hk, IH2.
Qed.

Lemma prune_backups_keeps target mb :
  (∀ n, startswith n (backup_prefix target) = true → own n) →
  preserves (always Q V) (prune_backups target mb).
Proof using HQV Hdel.
  intros Hp. unfold prune_backups. destruct (mb <? 0)%Z; [auto with py|]. apply preserves_spec.
  eapply (spec_bind _ _ _ (λ o w, always Q V w ∧ match o with Some l => Forall own l | None => True end)).
  - eapply spec_try.
    + eapply spec_bind.
      * eapply spec_conseq; [intros w Hw; exact Hw| |by apply sys_glob_spec].
        intros [l|e] w [Hw Hl]; [exact (conj Hw Hl)|exact Hw].
      * intros l w Hw. exact Hw.
    + intros e w Hw. by split.
  - intros [names|] w [Hw Hn]; [|exact Hw].
    pose proof (sort_keys_spec names w Hw) as Hs. unfold py_bind.
    destruct (sort_keys names w) as [[ks|e] w']; cbn in Hs; [|apply Hs]. destruct Hs as [Hw' Hks].
    destruct (_ <=? 0)%Z; [exact Hw'|]. apply unlink_all_keeps; [|exact Hw'].
    apply Forall_take. rewrite Forall_forall in Hn |- *. intros n Hin. apply Hn.
    rewrite <-Hks. rewrite list_elem_of_In in *. apply List.in_map_iff in Hin as (k & <- & Hk).
    apply List.in_map_iff. exists k. split; [done|]. rewrite <-list_elem_of_In in *.
    by rewrite merge_sort_Permutation in Hk.
Qed.

Lemma create_backup_keeps target ts mb :
  (∀ n, startswith n (backup_prefix target) = true → own n) →
  preserves (always Q V) (create_backup_snapshot target ts mb).
Proof using HQV Hins Hdel.
  intros Hp. pose proof (prune_backups_keeps target mb Hp).
  assert (own (backup_prefix target +:+ ts)).
  { apply Hp. unfold startswith. by rewrite str_strip_prefix_app. }
  unfold create_backup_snapshot. keeps.
Qed.
End keeps.

(** ** The write *)

Section atomic_write.
Context (tmp timestamp target data : string) (old : option File).
Context (Htmp : tmp ≠ target).
Context (Hfresh : startswith tmp (backup_prefix target) = false).

(** The complete new content, on the disk. *)
Definition is_new (f : option File) : Prop :=
  ∃ g, f = Some g ∧ f_data g = data ∧ f_synced g = true.

Definition old_or_new (fs : Dir) : Prop := fs !! target = old ∨ is_new (fs !! target).
(** What holds of every state a crash can expose; at least [old_or_new]. *)
Context (V : Dir → Prop) (HV : ∀ fs, old_or_new fs → V fs).
Definition untouched (fs : Dir) : Prop := fs !! target = old.
Definition staged (fs : Dir) : Prop := fs !! target = old ∧ is_new (fs !! tmp).
Definition replaced (fs : Dir) : Prop := is_new (fs !! target).

Lemma startswith_length s p : startswith s p = true → (String.length p ≤ String.length s)%nat.
Proof using.
  unfold startswith. revert s. induction p as [|c p IH]; intros s; cbn; [lia|].
  destruct s as [|c' s]; [done|]. destruct (Ascii.eqb c c'); [|done]. intros H%IH. cbn. lia.
Qed.

Lemma backup_not_target n : startswith n (backup_prefix target) = true → n ≠ target.
Proof using.
  intros H%startswith_length ->. unfold backup_prefix in H. rewrite str_length_app in H.
  cbn in H. lia.
Qed.

Lemma backup_not_tmp n : startswith n (backup_prefix target) = true → n ≠ tmp.
Proof using Hfresh. congruence. Qed.

Lemma untouched_ins fs n f : n ≠ target → untouched fs → untouched (<[n := f]> fs).
Proof using. intros Hn H. unfold untouched. by rewrite lookup_insert_ne. Qed.
Lemma untouched_del fs n : n ≠ target → untouched fs → untouched (delete n fs).
Proof using. intros Hn H. unfold untouched. by rewrite lookup_delete_ne. Qed.
Lemma staged_ins fs n f : n ≠ target ∧ n ≠ tmp → staged fs → staged (<[n := f]> fs).
Proof using. intros [H1 H2] H. unfold staged, is_new. by rewrite !lookup_insert_ne. Qed.
Lemma staged_del fs n : n ≠ target ∧ n ≠ tmp → staged fs → staged (delete n fs).
Proof using. intros [H1 H2] H. unfold staged, is_new. by rewrite !lookup_delete_ne. Qed.
Lemma untouched_V fs : untouched fs → V fs.
Proof using HV. intros H. apply HV. by left. Qed.
Lemma staged_V fs : staged fs → V fs.
Proof using HV. intros []. apply HV. by left. Qed.
Lemma replaced_V fs : replaced fs → V fs.
Proof using HV. intros H. apply HV. by right. Qed.

Definition before : World → Prop := always untouched V.
Definition ready : World → Prop := always staged V.
Definition done_ : World → Prop := always replaced V.

Lemma ready_before w : ready w → before w.
Proof using. intros [[H _] Hv]. by split. Qed.

(** The staging file after a successful [write] and [fsync]. *)
Lemma write_fsync_spec :
  spec (λ w, before w ∧ is_Some (files w !! tmp)) (sys_write tmp data ;;; sys_fsync tmp)
    (λ r w, match r with Ret _ => ready w | Raise e => before w ∧ e = OSError end).
Proof using Htmp HV.
  intros [fs os vs c] [[Hu Hv] [f Hf]]. cbn [files visited] in Hu, Hv, Hf.
  unfold sys_write, sys_fsync, sys_fail, alter_file, change, draw, py_bind, py_modify, py_raise, py_ret.
  destruct os as [|[[] k] [|[[] k'] os]]; cbn; rewrite Hf; cbn; rewrite ?lookup_insert_eq; cbn;
    rewrite ?lookup_insert_eq; cbn; unfold ready, before, always, staged; cbn;
    rewrite ?lookup_insert_eq;
    repeat match goal with
    | |- _ ∧ _ => split
    | |- untouched (<[tmp := _]> _) => apply untouched_ins; [done|]
    | |- <[tmp := _]> _ !! target = old => rewrite lookup_insert_ne by done
    | |- Forall _ (_ :: _) => constructor; [apply untouched_V|]
    | |- is_new (Some _) => by eexists
    end; done.
Qed.

Lemma chmod_ready mode : preserves ready (on_oserror (sys_chmod tmp mode) tt).
Proof using Htmp HV.
  apply on_oserror_keeps. unfold sys_chmod. apply preserves_bind; [apply sys_fail_keeps|].
  intros _. apply (change_keeps _ _ staged_V). intros fs [Ho (g & Hg & Hd & Hs)]. rewrite Hg.
  split; [by rewrite lookup_insert_ne|]. exists (set_mode mode g). by rewrite lookup_insert_eq.
Qed.

Lemma backup_ready mb : preserves ready (create_backup_snapshot target timestamp mb).
Proof using Hfresh HV.
  apply (create_backup_keeps _ _ (λ n, n ≠ target ∧ n ≠ tmp) staged_V); [apply staged_ins|apply staged_del|].
  intros n Hn. split; [by apply backup_not_target|by apply backup_not_tmp].
Qed.

Lemma replace_spec :
  spec ready (sys_replace tmp target)
    (λ r w, match r with Ret _ => done_ w | Raise e => before w ∧ e = OSError end).
Proof using HV.
  intros w Hw. unfold sys_replace. pose proof (sys_fail_keeps _ _ w Hw) as Hf.
  unfold py_bind, py_get. destruct (sys_fail w) as [[[]|e] w'] eqn:E; cbn [fst snd] in Hf.
  - destruct Hf as [[Ho (g & Hg & Hd & Hs)] Hv]. rewrite Hg. cbn.
    assert (replaced (<[target:=g]> (delete tmp (files w')))) as Hr.
    { unfold replaced. rewrite lookup_insert_eq. by exists g. }
    split; [exact Hr|]. constructor; [by apply replaced_V|exact Hv].
  - split; [by apply ready_before|]. unfold sys_fail, draw, py_bind, py_raise, py_ret in E.
    destruct w as [fs [|[[] k] os] vs c]; cbn in E; congruence.
Qed.

(** Raising keeps [before] and raises nothing but [OSError]. *)
Definition or_fails {A} (Q : A → World → Prop) (r : result A) (w : World) : Prop :=
  match r with Ret a => Q a w | Raise e => before w ∧ e = OSError end.

Lemma spec_seq {A B} P (m : PyM World A) (k : A → PyM World B) Q R :
  spec P m (or_fails Q) → (∀ a, spec (Q a) (k a) (or_fails R)) →
  spec P (py_bind m k) (or_fails R).
Proof using.
  intros Hm Hk. eapply spec_bind; [|exact Hk].
  eapply spec_conseq; [intros w Hw; exact Hw| |exact Hm]. by intros [a|e] w.
Qed.

Lemma sys_fail_spec P :
  (∀ fs os vs c os', P (mkWorld fs os vs c) → P (mkWorld fs os' vs c)) →
  (∀ w, P w → before w) → spec P sys_fail (or_fails (λ _, P)).
Proof using.
  intros HP Hb [fs os vs c] Hw. unfold sys_fail, draw, py_bind, py_raise, py_ret.
  destruct os as [|[[] k] os]; cbn; [exact Hw| |]; try split; try apply Hb; try done;
    by eapply HP.
Qed.

Lemma never_raises_seq {A} P (m : PyM World A) :
  (∀ w, ∃ a, (m w).1 = Ret a) → preserves P m → spec P m (or_fails (λ _, P)).
Proof using.
  intros Hr Hp w Hw. destruct (Hr w) as [a Ha]. rewrite Ha. by apply Hp.
Qed.

Lemma create_spec :
  spec before (sys_create tmp) (or_fails (λ _ w, before w ∧ is_Some (files w !! tmp))).
Proof using Htmp HV.
  unfold sys_create. eapply spec_seq; [by apply sys_fail_spec|].
  intros _ [fs os vs c] [Hu Hv]. cbn in *. split; [|by rewrite lookup_insert_eq].
  split; [by apply untouched_ins|]. constructor; [by apply untouched_V, untouched_ins|done].
Qed.

Lemma body_spec mode mb bk :
  (∀ w, ∃ a, (create_backup_snapshot target timestamp mb w).1 = Ret a) →
  spec (λ w, before w ∧ is_Some (files w !! tmp))
    (sys_write tmp data ;;;
     sys_fsync tmp ;;;
     on_oserror (sys_chmod tmp mode) tt ;;;
     backup <- (if bk : bool then create_backup_snapshot target timestamp mb
                else py_ret None) ;;
     sys_replace tmp target ;;;
     py_ret backup)
    (or_fails (λ _ w, done_ w)).
Proof using Htmp Hfresh HV.
  intros Hbk. pose proof write_fsync_spec as Hwf.
  assert (spec ready
    (on_oserror (sys_chmod tmp mode) tt ;;;
     backup <- (if bk : bool then create_backup_snapshot target timestamp mb else py_ret None) ;;
     sys_replace tmp target ;;; py_ret backup) (or_fails (λ _ w, done_ w))) as Hrest.
  { eapply (spec_seq _ _ _ (λ _ w, ready w)); [apply (never_raises_seq ready); [|apply chmod_ready]|].
    { intros w. unfold on_oserror, py_try. destruct (sys_chmod tmp mode w) as [[]]; by eexists. }
    intros _. eapply (spec_seq _ _ _ (λ _ w, ready w)).
    { apply (never_raises_seq ready).
      - destruct bk; [exact Hbk|]. intros w. by eexists.
      - destruct bk; [apply backup_ready|auto with py]. }
    intros backup. eapply (spec_seq _ _ _ (λ _ w, done_ w)); [|intros _ w Hw; exact Hw].
    eapply spec_conseq; [intros w Hw; exact Hw| |apply replace_spec]. by intros [] w. }
  intros w Hw. specialize (Hwf w Hw). unfold py_bind in Hwf |- *.
  destruct (sys_write tmp data w) as [[[]|e] w1]; cbn in Hwf |- *; [|exact Hwf].
  destruct (sys_fsync tmp w1) as [[[]|e] w2]; cbn in Hwf |- *; [|exact Hwf].
  exact (Hrest w2 Hwf).
Qed.
End atomic_write.

Section never_raises.
Definition never_fails {A} (m : PyM World A) : Prop := ∀ w, ∃ a, (m w).1 = Ret a.

Lemma total_ret {A} (a : A) : never_fails (py_ret a).
Proof. intros w. by exists a. Qed.
Lemma total_on_oserror {A} (m : PyM World A) d : never_fails (on_oserror m d).
Proof. intros w. unfold on_oserror, py_try. destruct (m w) as [[]]; by eexists. Qed.
Lemma total_bind {A B} (m : PyM World A) (k : A → PyM World B) :
  never_fails m → (∀ a, never_fails (k a)) → never_fails (py_bind m k).
Proof.
  intros Hm Hk w. destruct (Hm w) as [a Ha]. unfold py_bind.
  destruct (m w) as [r w']. cbn in Ha. subst r. apply Hk.
Qed.
Lemma total_exists n : never_fails (sys_exists n).
Proof. intros w. by eexists. Qed.

Ltac solve_never_fails := repeat first [ apply total_ret | apply total_on_oserror | apply total_exists
  | assumption | apply total_bind; [|intros] | case_match ].

Lemma resolve_target_mode_total t m : never_fails (resolve_target_mode t m).
Proof. unfold resolve_target_mode. solve_never_fails. Qed.
Lemma sort_keys_total l : never_fails (sort_keys l).
Proof. induction l; cbn [sort_keys]; unfold sort_key; solve_never_fails. Qed.
Lemma unlink_all_total l : never_fails (unlink_all l).
Proof. induction l; cbn [unlink_all]; solve_never_fails. Qed.
Lemma prune_backups_total t mb : never_fails (prune_backups t mb).
Proof.
  unfold prune_backups. pose proof sort_keys_total. pose proof unlink_all_total. solve_never_fails; auto.
  all: apply total_bind; [auto|]; intros; cbv zeta; case_match; auto using total_ret.
Qed.
Lemma create_backup_total t ts mb : never_fails (create_backup_snapshot t ts mb).
Proof. unfold create_backup_snapshot. pose proof (prune_backups_total t mb). solve_never_fails. Qed.
Lemma fsync_directory_total : never_fails fsync_directory.
Proof. unfold fsync_directory. solve_never_fails. Qed.
End never_raises.

Lemma atomic_write_file_spec tmp timestamp target data mb bk mode sync old V :
  (∀ fs, old_or_new target data old fs → V fs) →
  tmp ≠ target → startswith tmp (backup_prefix target) = false →
  spec (before target old V)
    (atomic_write_file tmp timestamp target data mb bk mode sync)
    (or_fails target old V (λ res w, done_ target data V w ∧ res_target res = target ∧
       res_bytes_written res = Z.of_nat (String.length data))).
Proof.
  intros HV Htmp Hfresh. unfold atomic_write_file.
  set (B := before target old V).
  eapply (spec_seq _ _ _ _ _ _ (λ _, B)); [by apply sys_fail_spec|]. intros _.
  eapply (spec_seq _ _ _ _ _ _ (λ _, B)).
  { apply (never_raises_seq _ _ _ B); [apply resolve_target_mode_total|].
    apply resolve_target_mode_keeps. }
  intros m. eapply (spec_seq _ _ _ _ _ _ (λ _ w, B w ∧ is_Some (files w !! tmp)));
    [by apply (create_spec _ _ data)|]. intros _.
  eapply (spec_seq _ _ _ _ _ _ (λ _, done_ target data V)).
  { eapply (spec_try _ _ _ (λ e w, B w ∧ e = OSError)).
    - eapply spec_conseq; [intros w Hw; exact Hw| |].
      2:{ apply (body_spec tmp timestamp target data old Htmp Hfresh V HV m mb bk), create_backup_total. }
      intros [a|e] w Hw; exact Hw.
    - intros e w [Hw ->]. unfold py_bind.
      assert (B (on_oserror (sys_unlink tmp) tt w).2) as Hb.
      { apply on_oserror_keeps; [|exact Hw].
        by apply (sys_unlink_keeps _ _ (λ n, n ≠ target) (untouched_V target data old V HV) (untouched_del target old)). }
      destruct (on_oserror (sys_unlink tmp) tt w) as [[u|e'] w'] eqn:E; cbn in *; [by split|].
      destruct (total_on_oserror (sys_unlink tmp) tt w) as [a Ha]. by rewrite E in Ha. }
  intros backup. eapply (spec_seq _ _ _ _ _ _ (λ _, done_ target data V)).
  { destruct sync; [|intros w Hw; exact Hw]. apply never_raises_seq; [apply fsync_directory_total|].
    apply fsync_directory_keeps. }
  intros _ w Hw. by split_and!.
Qed.

(** Without a backup, a write touches nothing but its target and its temporary file. *)
Lemma atomic_write_frame Q V (own : string → Prop) tmp timestamp target data mb mode sync :
  (∀ fs, Q fs → V fs) → (∀ fs n f, own n → Q fs → Q (<[n := f]> fs)) →
  (∀ fs n, own n → Q fs → Q (delete n fs)) → own tmp → own target →
  preserves (always Q V) (atomic_write_file tmp timestamp target data mb false mode sync).
Proof.
  intros HQV Hins Hdel Ht Hta. unfold atomic_write_file, sys_replace.
  assert (Hc : ∀ m, preserves (always Q V) (on_oserror (sys_chmod tmp m) tt))
    by (intros m; by apply on_oserror_keeps, (sys_chmod_keeps Q V own)).
  assert (Hu : preserves (always Q V) (on_oserror (sys_unlink tmp) tt))
    by (by apply on_oserror_keeps, (sys_unlink_keeps Q V own)).
  assert (Hr : ∀ f, preserves (always Q V) (change (λ fs, <[target := f]> (delete tmp fs))))
    by (intros f; apply change_keeps; auto).
  apply preserves_bind; [apply sys_fail_keeps|intros _].
  apply preserves_bind; [apply resolve_target_mode_keeps|intros tm].
  apply preserves_bind; [by apply (sys_create_keeps Q V own)|intros _].
  apply preserves_bind; [apply preserves_try|intros bk].
  - apply preserves_bind; [by apply (sys_write_keeps Q V own)|intros _].
    apply preserves_bind; [by apply (sys_fsync_keeps Q V own)|intros _].
    apply preserves_bind; [apply Hc|intros _]. apply preserves_bind; [auto with py|intros backup].
    apply preserves_bind; [|auto with py]. apply preserves_bind; [apply sys_fail_keeps|intros _].
    apply preserves_get_bind. intros w Hw. case_match; [by apply Hr|exact Hw].
  - intros e. apply preserves_bind; [exact Hu|auto with py].
  - apply preserves_bind; [destruct sync; [apply fsync_directory_keeps|auto with py]|auto with py].
Qed.

(** C4: [atomic_write_file] is crash safe under every pattern of failing system
    calls: in every state of the disk on the way, the target is either the file
    it was (or absent, if it was) or the complete new content already synced;
    when the call returns the target is the new content and the byte count is
    right, and when it raises, it raises [OSError] and the target is untouched. *)
Theorem atomic_write_crash_safe tmp timestamp target data mb bk mode sync w :
  tmp ≠ target → startswith tmp (backup_prefix target) = false → visited w = [] →
  let '(r, w') := atomic_write_file tmp timestamp target data mb bk mode sync w in
  Forall (λ fs, fs !! target = files w !! target ∨
                ∃ f, fs !! target = Some f ∧ f_data f = data ∧ f_synced f = true) (visited w') ∧
  match r with
  | Ret res => res_target res = target ∧
      res_bytes_written res = Z.of_nat (String.length data) ∧
      ∃ f, files w' !! target = Some f ∧ f_data f = data ∧ f_synced f = true
  | Raise e => e = OSError ∧ files w' !! target = files w !! target
  end.
Proof.
  intros Htmp Hfresh Hv.
  pose proof (atomic_write_file_spec tmp timestamp target data mb bk mode sync
    (files w !! target) (old_or_new target data (files w !! target)) (λ fs H, H) Htmp Hfresh w) as H.
  destruct (atomic_write_file tmp timestamp target data mb bk mode sync w) as [r w'].
  assert (before target (files w !! target) (old_or_new target data (files w !! target)) w) as Hw by (split; [done|by rewrite Hv]).
  specialize (H Hw). cbn in H. destruct r as [res|e]; cbn in H.
  - destruct H as [[Hr Hall] [H1 H2]]. split; [exact Hall|]. by split_and!.
  - destruct H as [[Hu Hall] ->]. split; [exact Hall|]. by split.
Qed.

Definition example_dir : Dir := {["ini"%string := mkFile "old" true 420 1]}.

Lemma atomic_write_crash_safe_witness :
  let '(r, w') := atomic_write_file ".tmp_pal_io_x.tmp" "20240101" "ini" "new" 5 true None true
    (mkWorld example_dir [(false, O); (false, O); (false, O); (false, 2%nat); (false, O);
       (false, O); (false, O); (false, 1%nat); (false, O); (false, O); (true, O)] [] 7) in
  r = Raise OSError ∧ files w' !! "ini"%string = Some (mkFile "old" true 420 1).
Proof.
  pose proof (atomic_write_crash_safe ".tmp_pal_io_x.tmp" "20240101" "ini" "new" 5 true None true
    (mkWorld example_dir [(false, O); (false, O); (false, O); (false, 2%nat); (false, O);
       (false, O); (false, O); (false, 1%nat); (false, O); (false, O); (true, O)] [] 7)
    ltac:(discriminate) eq_refl eq_refl) as H.
  destruct (atomic_write_file _ _ _ _ _ _ _ _ _) as [r w'] eqn:E.
  vm_compute in E. injection E as <- <-. destruct H as [_ [_ H]]. split; [reflexivity|exact H].
Defined.

(** ** Retention, when no system call fails *)

Definition backups_of (target : string) (fs : Dir) : list string :=
  List.filter (λ n, startswith n (backup_prefix target)) (List.map fst (map_to_list fs)).

Definition key_of (fs : Dir) (n : string) : Z * string :=
  (match fs !! n with Some f => f_mtime f | None => 0%Z end, n).

Definition calm (w : World) : Prop := oracle w = [].

Lemma sort_keys_calm names w :
  calm w → Forall (λ n, is_Some (files w !! n)) names →
  sort_keys names w = (Ret (List.map (key_of (files w)) names), w).
Proof.
  intros Hc Hn. induction Hn as [|n names [f Hf] Hn IH]; [done|]. cbn [sort_keys].
  assert (sort_key n w = (Ret (key_of (files w) n), w)) as Hk.
  { destruct w as [fs os vs c]. unfold calm in Hc. cbn in Hc, Hf. subst os.
    unfold sort_key, on_oserror, py_try, sys_stat, sys_fail, draw, py_bind, py_get, py_ret. cbn.
    rewrite Hf. unfold key_of. cbn. by rewrite Hf. }
  unfold py_bind. rewrite Hk, IH. done.
Qed.

Lemma unlink_all_calm names w :
  calm w →
  calm (unlink_all names w).2 ∧
  ∀ n, files (unlink_all names w).2 !! n = if decide (n ∈ names) then None else files w !! n.
Proof.
  revert w. induction names as [|m names IH]; intros [fs os vs c] Hc; unfold calm in Hc; cbn in Hc; subst os.
  { split; [done|]. intros n. rewrite decide_False; [done|]. apply not_elem_of_nil. }
  cbn [unlink_all]. unfold py_bind, on_oserror, py_try, sys_unlink, sys_fail, draw, py_bind, change,
    py_modify, py_ret. cbn.
  specialize (IH (mkWorld (delete m fs) [] (delete m fs :: vs) c) eq_refl) as [H1 H2].
  split; [exact H1|]. intros n. rewrite H2. cbn.
  destruct (decide (n ∈ names)); [rewrite decide_True by (by right); done|].
  destruct (decide (n = m)) as [->|Hne].
  - rewrite decide_True by (by left). apply lookup_delete_eq.
  - rewrite decide_False; [by apply lookup_delete_ne|]. by intros [|]%elem_of_cons.
Qed.

#[export] Instance key_le_total : Total key_le.
Proof.
  intros [t1 n1] [t2 n2]. unfold key_le. cbn.
  destruct (total String.le n1 n2); destruct (Z.lt_trichotomy t1 t2) as [|[|]]; naive_solver.
Qed.
#[export] Instance key_le_trans : Transitive key_le.
Proof.
  intros [t1 n1] [t2 n2] [t3 n3]. unfold key_le. cbn.
  intros [|[-> ?]] [|[-> ?]]; try (left; lia). right. split; [done|]. by etrans.
Qed.

Lemma Sorted_split {A} (R : A → A → Prop) `{!Transitive R} l1 l2 x y :
  Sorted R (l1 ++ l2) → x ∈ l1 → y ∈ l2 → R x y.
Proof.
  intros Hs%Sorted_StronglySorted; [|done]. intros Hx Hy.
  apply StronglySorted_app_1_elem_of with (l1 := l1) (l2 := l2); done.
Qed.

Lemma backups_of_names target fs n :
  n ∈ backups_of target fs ↔ startswith n (backup_prefix target) = true ∧ is_Some (fs !! n).
Proof.
  unfold backups_of. rewrite list_elem_of_In, List.filter_In, List.in_map_iff. split.
  - intros [([n' f] & <- & Hin) Hs]. split; [done|]. apply list_elem_of_In in Hin.
    apply elem_of_map_to_list in Hin. by exists f.
  - intros [Hs [f Hf]]. split; [|done]. exists (n, f). split; [done|].
    apply list_elem_of_In. by apply elem_of_map_to_list.
Qed.

(** retention: when no call fails, pruning removes nothing but backups of
    the target, removes them only when there are more than [max_backups], keeps
    exactly [max_backups] of them then, and every backup it removes is older
    than (or as old as, with a smaller name) every backup it keeps. *)
Theorem prune_backups_retention target max_backups w :
  calm w → (0 ≤ max_backups)%Z →
  let w' := (prune_backups target max_backups w).2 in
  ∃ pruned kept,
    backups_of target (files w) ≡ₚ pruned ++ kept ∧
    (∀ n, files w' !! n = if decide (n ∈ pruned) then None else files w !! n) ∧
    Z.of_nat (length kept) = Z.min max_backups (Z.of_nat (length (backups_of target (files w)))) ∧
    (∀ p k, p ∈ pruned → k ∈ kept → key_le (key_of (files w) p) (key_of (files w) k)).
Proof.
  intros Hc Hmax. destruct w as [fs os vs c]. unfold calm in Hc. cbn in Hc. subst os.
  set (w := mkWorld fs [] vs c). cbn [files].
  set (names := backups_of target fs). set (keys := List.map (key_of fs) names).
  set (sorted := List.map snd (merge_sort key_le keys)).
  change (backups_of target (files w)) with names.
  set (excess := (Z.of_nat (length sorted) - max_backups)%Z).
  assert (prune_backups target max_backups w =
    (if (excess <=? 0)%Z then py_ret tt else unlink_all (take (Z.to_nat excess) sorted)) w) as ->.
  { unfold prune_backups. rewrite (proj2 (Z.ltb_ge _ _)) by done.
    assert (on_oserror (l <- sys_glob (backup_prefix target);; py_ret (Some l)) None w =
            (Ret (Some names), w)) as Hg by done.
    unfold py_bind at 1. rewrite Hg. unfold py_bind. rewrite sort_keys_calm; [done|done|].
    apply Forall_forall. intros n Hn%backups_of_names. by destruct Hn. }
  assert (names ≡ₚ sorted) as Hperm.
  { unfold sorted, keys. rewrite merge_sort_Permutation, List.map_map. cbn [snd key_of].
    by rewrite List.map_id. }
  assert (length sorted = length names) as Hlen by by rewrite Hperm.
  destruct (Z.leb_spec excess 0) as [He|He]; unfold excess in He; rewrite Hlen in He.
  - exists [], names. split_and!; [done| | |].
    + intros n. rewrite decide_False; [done|]. apply not_elem_of_nil.
    + lia.
    + by intros p k ?%elem_of_nil.
  - exists (take (Z.to_nat excess) sorted), (drop (Z.to_nat excess) sorted).
    destruct (unlink_all_calm (take (Z.to_nat excess) sorted) w eq_refl) as [_ Hu].
    split_and!; [by rewrite take_drop|exact Hu|unfold excess; rewrite length_drop, Hlen; lia|].
    intros p k Hp Hk.
    assert (merge_sort key_le keys = List.map (key_of fs) sorted) as Hms.
    { unfold sorted. rewrite List.map_map. symmetry. rewrite <-(List.map_id (merge_sort _ _)) at 2.
      apply List.map_ext_in. intros x Hx. apply list_elem_of_In in Hx.
      rewrite merge_sort_Permutation in Hx. apply list_elem_of_In, List.in_map_iff in Hx as (n & <- & _).
      done. }
    pose proof (Sorted_merge_sort key_le keys) as Hs. rewrite Hms in Hs.
    rewrite <-(take_drop (Z.to_nat excess) sorted), List.map_app in Hs.
    eapply (Sorted_split _ _ _ _ _ Hs); apply list_elem_of_In, List.in_map;
      by apply list_elem_of_In.
Qed.

Definition example_backups : World :=
  mkWorld {["ini.bak.2"%string := mkFile "b" true 420 2; "ini.bak.1"%string := mkFile "a" true 420 1;
            "ini"%string := mkFile "c" true 420 3]} [] [] 9.

Lemma prune_backups_retention_witness :
  ∃ pruned kept,
    backups_of "ini" (files example_backups) ≡ₚ pruned ++ kept ∧
    (∀ n, files (prune_backups "ini" 1 example_backups).2 !! n =
       if decide (n ∈ pruned) then None else files example_backups !! n) ∧
    Z.of_nat (length kept) = Z.min 1 (Z.of_nat (length (backups_of "ini" (files example_backups)))) ∧
    (∀ p k, p ∈ pruned → k ∈ kept →
       key_le (key_of (files example_backups) p) (key_of (files example_backups) k)).
Proof. apply (prune_backups_retention "ini" 1 example_backups); [reflexivity|lia]. Defined.
