(* ===== verification/Posix.v ===== *)
(** A tree of directories, files and symbolic links, and the system calls of
    [os], [shutil] and [pathlib] that move directories around.

    A path is the list of its components below the root.  Every system call may
    fail: the failures are drawn from an oracle, and every state of the tree is
    recorded in [seen], so a theorem about [seen] holds for a crash at any time. *)

From S2P Require Import Prelude PyStr.
From Stdlib Require Import Lia Ascii.
From stdpp Require Import base tactics list strings gmap sorting.
Open Scope py_scope.

(** * Paths and trees *)

Notation path := (list string).

Inductive Node : Type :=
  | NFile (data : string)
  | NDir
  | NLink (target : string)
  | NSpecial.

#[export] Instance Node_eq_dec : EqDecision Node.
Proof. solve_decision. Defined.

Notation Tree := (@gmap path (@list_eq_dec string String.eq_dec)
  (@list_countable string String.eq_dec String.countable) Node).

Definition is_dir_node (n : option Node) : bool := bool_decide (n = Some NDir).
Definition is_file_node (n : option Node) : bool :=
  match n with Some (NFile _) => true | _ => false end.

(** [q] below [p], as a path relative to [p]. *)
Fixpoint strip (p q : path) : option path :=
  match p, q with
  | [], _ => Some q
  | a :: p', b :: q' => if decide (a = b) then strip p' q' else None
  | _ :: _, [] => None
  end.

Definition parent (p : path) : path := removelast p.
Definition basename (p : path) : string := List.last p "".
(** [Path.with_name] *)
Definition with_name (p : path) (n : string) : path := parent p ++ [n].

(** ** Whole subtrees *)

(** The tree below [p], with paths relative to [p]; [p] itself is at []. *)
Definition subtree (p : path) (fs : Tree) : Tree :=
  list_to_map (omap (λ e : path * Node, match strip p e.1 with Some r => Some (r, e.2) | None => None end)
    (map_to_list fs)).

(** Without the tree below [p]. *)
Definition prune (p : path) (fs : Tree) : Tree :=
  filter (λ e : path * Node, strip p e.1 = None) fs.

(** With the tree [t] put at [p]. *)
Definition graft (p : path) (t fs : Tree) : Tree := kmap (app p) t ∪ fs.

(** [rename(2)] when it succeeds. *)
Definition move (src dst : path) (fs : Tree) : Tree :=
  graft dst (subtree src fs) (prune dst (prune src fs)).

(** ** Resolution of a path *)

(** The steps of a walk from the directory [cur] along [todo]; a symbolic link
    is replaced by its target.  [limit] bounds the steps: a walk that takes more
    is a loop of links. *)
Fixpoint walk (limit : nat) (fs : Tree) (cur todo : path) : option path :=
  match todo with
  | [] => Some cur
  | c :: rest =>
      match limit with
      | O => None
      | S n =>
          if bool_decide (c = "" ∨ c = ".") then walk n fs cur rest
          else if bool_decide (c = "..") then walk n fs (parent cur) rest
          else match fs !! (cur ++ [c]) with
               | Some (NLink t) =>
                   walk n fs (if startswith t "/" then [] else cur) (str_split "/" t ++ rest)
               | _ => walk n fs (cur ++ [c]) rest
               end
      end
  end.

(** [Path.parts] of a relative path. *)
Definition parts (s : string) : path :=
  List.filter (λ c, negb (bool_decide (c = "" ∨ c = "."))) (str_split "/" s).

(** * The disk *)

Record Disk := mkDisk { fs : Tree; fails : list bool; seen : list Tree }.

Definition sys_fails : PyM Disk unit :=
  λ d, match fails d with
       | [] => (Ret tt, d)
       | b :: rest => (if b : bool then Raise OSError else Ret tt, mkDisk (fs d) rest (seen d))
       end.

Definition update (f : Tree → Tree) : PyM Disk unit :=
  py_modify (λ d, mkDisk (f (fs d)) (fails d) (f (fs d) :: seen d)).

(** [except OSError]: log and go on with a default; other exceptions pass. *)
Definition catch_os {A} (m : PyM Disk A) (h : exc → PyM Disk A) : PyM Disk A :=
  py_try m (λ e, if is_oserror e then h e else py_raise e).
Definition or_else {A} (m : PyM Disk A) (default : A) : PyM Disk A :=
  catch_os m (λ _, py_ret default).

(** [Path.exists], [is_dir] and [is_file] of a path that [resolve] returned. *)
Definition exists_path (p : path) : PyM Disk bool :=
  d <- py_get ;; py_ret (bool_decide (is_Some (fs d !! p))).
Definition is_dir (p : path) : PyM Disk bool :=
  d <- py_get ;; py_ret (is_dir_node (fs d !! p)).
Definition is_file (p : path) : PyM Disk bool :=
  d <- py_get ;; py_ret (is_file_node (fs d !! p)).

(** ** Renaming *)

Definition empty_dir (f : Tree) (p : path) : bool :=
  bool_decide (f !! p = Some NDir) && bool_decide (delete [] (subtree p f) = ∅).

(** The conditions under which [rename(2)] refuses. *)
Definition rename_error (f : Tree) (src dst : path) : option exc :=
  match f !! src with
  | None => Some FileNotFoundError
  | Some n =>
      if negb (is_dir_node (f !! parent dst)) then Some FileNotFoundError
      else if bool_decide (n = NDir) && bool_decide (is_Some (strip src dst)) then Some OSError
      else match f !! dst with
           | None => None
           | Some m =>
               if bool_decide (n = NDir)
               then if empty_dir f dst then None else Some OSError
               else if bool_decide (m = NDir) then Some OSError else None
           end
  end.

Definition os_replace (src dst : path) : PyM Disk unit :=
  sys_fails ;;;
  d <- py_get ;;
  if bool_decide (src = dst) then
    if bool_decide (is_Some (fs d !! src)) then py_ret tt else py_raise FileNotFoundError
  else match rename_error (fs d) src dst with
       | Some e => py_raise e
       | None => update (move src dst)
       end.

(** ** Directories *)

Definition os_mkdir (p : path) : PyM Disk unit :=
  sys_fails ;;;
  d <- py_get ;;
  if bool_decide (is_Some (fs d !! p)) then py_raise OSError
  else if is_dir_node (fs d !! parent p) then update (insert p NDir)
  else py_raise FileNotFoundError.

(** [Path.mkdir(parents=True, exist_ok=True)]: the ancestors from the top. *)
Fixpoint mkdir_below (done todo : path) : PyM Disk unit :=
  match todo with
  | [] => py_ret tt
  | c :: rest =>
      let p := done ++ [c] in
      there <- is_dir p ;;
      (if there : bool then py_ret tt else os_mkdir p) ;;; mkdir_below p rest
  end.
Definition mkdir_parents (p : path) : PyM Disk unit := mkdir_below [] p.

(** The paths of a tree, parents before children. *)
Definition shorter (p q : path) : Prop := length p ≤ length q.
#[export] Instance shorter_dec : RelDecision shorter.
Proof. intros p q. unfold shorter. apply _. Defined.
Definition tree_order (t : Tree) : list path := merge_sort shorter (List.map fst (map_to_list t)).

Fixpoint remove_all (ps : list path) : PyM Disk unit :=
  match ps with
  | [] => py_ret tt
  | p :: rest => sys_fails ;;; update (delete p) ;;; remove_all rest
  end.

(** [shutil.rmtree]: the children first; the first failure stops it. *)
Definition rmtree (p : path) : PyM Disk unit :=
  d <- py_get ;;
  if is_dir_node (fs d !! p)
  then remove_all (rev (List.map (app p) (tree_order (subtree p (fs d)))))
  else py_raise (if bool_decide (is_Some (fs d !! p)) then OSError else FileNotFoundError).

(** [shutil.copytree]: an entry that cannot be copied is noted and skipped. *)
Fixpoint copy_entries (src dst : path) (rs : list path) : PyM Disk bool :=
  match rs with
  | [] => py_ret true
  | r :: rest =>
      d <- py_get ;;
      copied <- or_else (sys_fails ;;;
        match fs d !! (src ++ r) with
        | Some n =>
            if is_dir_node (fs d !! parent (dst ++ r))
            then update (insert (dst ++ r) n) ;;; py_ret true
            else py_ret false
        | None => py_ret false
        end) false ;;
      others <- copy_entries src dst rest ;; py_ret (copied && others)
  end.
Definition copytree (src dst : path) : PyM Disk unit :=
  d <- py_get ;;
  os_mkdir dst ;;;
  ok <- copy_entries src dst
    (List.filter (λ r, negb (bool_decide (r = []))) (tree_order (subtree src (fs d)))) ;;
  if ok : bool then py_ret tt else py_raise OSError.

(** [shutil.move] of a directory. *)
Definition shutil_move (src dst : path) : PyM Disk unit :=
  into <- is_dir dst ;;
  let real_dst := if into : bool then dst ++ [basename src] else dst in
  there <- exists_path real_dst ;;
  if into && there then py_raise OSError
  else catch_os (os_replace src real_dst)
    (λ _, if bool_decide (is_Some (strip src real_dst)) then py_raise OSError
          else copytree src real_dst ;;; rmtree src).

(** [tempfile.mkdtemp(dir=parent)] with the name it picks. *)
Definition mkdtemp (dir : path) (name : string) : PyM Disk path :=
  os_mkdir (dir ++ [name]) ;;; py_ret (dir ++ [name]).

(** * Lemmas *)

(** ** Paths *)

Lemma strip_Some p q r : strip p q = Some r ↔ q = p ++ r.
Proof.
  revert q. induction p as [|a p IH]; intros q; cbn; [naive_solver|].
  destruct q as [|b q]; [naive_solver|]. destruct (decide (a = b)) as [->|Hab].
  - rewrite IH. naive_solver.
  - naive_solver.
Qed.

Lemma strip_app p r : strip p (p ++ r) = Some r.
Proof. by apply strip_Some. Qed.

Lemma strip_None p q : strip p q = None ↔ ∀ r, q ≠ p ++ r.
Proof.
  split.
  - intros H r ->. by rewrite strip_app in H.
  - intros H. destruct (strip p q) eqn:E; [|done]. apply strip_Some in E. by apply H in E.
Qed.

(** Neither path is below the other. *)
Definition apart (p q : path) : Prop := strip p q = None ∧ strip q p = None.

Lemma apart_sym p q : apart p q → apart q p.
Proof. by intros []. Qed.

Lemma app_overlap (p q r s : path) : p ++ r = q ++ s → (∃ t, p = q ++ t) ∨ (∃ t, q = p ++ t).
Proof.
  revert q. induction p as [|a p IH]; intros q H; [right; by exists q|].
  destruct q as [|b q]; [left; by exists (a :: p)|].
  cbn in H. injection H as -> H. destruct (IH q H) as [[t ->]|[t ->]]; [left|right]; by exists t.
Qed.

Lemma apart_strip p q r : apart p q → strip p (q ++ r) = None.
Proof.
  intros [H1 H2]. apply strip_None. intros s E.
  rewrite strip_None in H1, H2. destruct (app_overlap _ _ _ _ E) as [[t ->]|[t ->]]; naive_solver.
Qed.

Lemma apart_ne p q : apart p q → p ≠ q.
Proof. intros [H _] ->. rewrite strip_None in H. apply (H []). by rewrite app_nil_r. Qed.

(** ** Lookups in rearranged trees *)

Lemma lookup_subtree p f r : subtree p f !! r = f !! (p ++ r).
Proof.
  unfold subtree.
  set (l := omap _ _).
  assert (NoDup l.*1) as Hnd.
  { unfold l. pose proof (NoDup_fst_map_to_list f) as Hnd. revert Hnd.
    generalize (map_to_list f). clear l. intros l.
    induction l as [|[q n] l IH]; intros Hnd; [constructor|].
    cbn in Hnd. apply NoDup_cons in Hnd as [Hq Hnd]. cbn.
    destruct (strip p q) as [s|] eqn:E; cbn; [|by apply IH].
    apply NoDup_cons. split; [|by apply IH].
    intros Hin. apply list_elem_of_fmap in Hin as ([s' n'] & -> & Hin). cbn in *.
    apply list_elem_of_omap in Hin as ([q' m] & Hin & Hs). cbn in Hs.
    destruct (strip p q') as [s2|] eqn:E'; [|done]. injection Hs as -> ->.
    apply strip_Some in E as ->. apply strip_Some in E' as ->. apply Hq.
    apply list_elem_of_fmap. by exists (p ++ s', n'). }
  apply option_eq. intros n. rewrite <-elem_of_list_to_map by done.
  unfold l. rewrite list_elem_of_omap. rewrite <-elem_of_map_to_list. split.
  - intros ([q m] & Hin & Hs). cbn in Hs. destruct (strip p q) eqn:E; [|done].
    injection Hs as -> ->. by apply strip_Some in E as ->.
  - intros Hin. exists (p ++ r, n). split; [done|]. cbn. by rewrite strip_app.
Qed.

Lemma lookup_prune p f q :
  prune p f !! q = if strip p q is Some _ then None else f !! q.
Proof.
  unfold prune. destruct (strip p q) eqn:E.
  - apply map_lookup_filter_None_2. right. intros n _. cbn. congruence.
  - destruct (f !! q) as [n|] eqn:Eq.
    + by apply map_lookup_filter_Some_2.
    + apply map_lookup_filter_None_2. by left.
Qed.

Lemma lookup_graft p t f q :
  graft p t f !! q = match strip p q with
                     | Some r => match t !! r with Some n => Some n | None => f !! q end
                     | None => f !! q
                     end.
Proof.
  unfold graft. rewrite lookup_union. destruct (strip p q) as [r|] eqn:E.
  - apply strip_Some in E as ->. rewrite (lookup_kmap (app p)).
    destruct (t !! r), (f !! (p ++ r)); done.
  - rewrite (proj2 (lookup_kmap_None (app p) t q)).
    + by destruct (f !! q).
    + intros r ->. by rewrite strip_app in E.
Qed.

Lemma lookup_move src dst f q :
  move src dst f !! q = match strip dst q with
                        | Some r => f !! (src ++ r)
                        | None => if strip src q is Some _ then None else f !! q
                        end.
Proof.
  unfold move. rewrite lookup_graft, !lookup_prune.
  destruct (strip dst q) as [r|]; [|done].
  rewrite lookup_subtree. by destruct (f !! (src ++ r)).
Qed.

(** What a rename does to the subtrees around it. *)
Lemma subtree_move_dst src dst f : subtree dst (move src dst f) = subtree src f.
Proof. apply map_eq. intros r. by rewrite !lookup_subtree, lookup_move, strip_app. Qed.

Lemma subtree_move_src src dst f : apart src dst → subtree src (move src dst f) = ∅.
Proof.
  intros H. apply map_eq. intros r. rewrite lookup_subtree, lookup_move, lookup_empty.
  by rewrite (apart_strip dst src r (apart_sym _ _ H)), strip_app.
Qed.

Lemma subtree_move_other src dst f q :
  apart src q → apart dst q → subtree q (move src dst f) = subtree q f.
Proof.
  intros H1 H2. apply map_eq. intros r. rewrite !lookup_subtree, lookup_move.
  by rewrite (apart_strip dst q r), (apart_strip src q r).
Qed.

Lemma subtree_insert_apart q p n f : strip q p = None → subtree q (<[p:=n]> f) = subtree q f.
Proof.
  intros H. apply map_eq. intros r. rewrite !lookup_subtree. apply lookup_insert_ne.
  rewrite strip_None in H. naive_solver.
Qed.

Lemma subtree_delete_apart q p f : strip q p = None → subtree q (delete p f) = subtree q f.
Proof.
  intros H. apply map_eq. intros r. rewrite !lookup_subtree. apply lookup_delete_ne.
  rewrite strip_None in H. naive_solver.
Qed.

Lemma subtree_root p f : subtree p f !! [] = f !! p.
Proof. by rewrite lookup_subtree, app_nil_r. Qed.

(** ** Specifications of the calls *)

Section disk.
(** [V] holds of every state a crash can expose. *)
Context (V : Tree → Prop).

Definition st (P : Tree → Prop) (d : Disk) : Prop := P (fs d) ∧ Forall V (seen d).

(** The call keeps [Q], and raises nothing but [OSError]s, if it may raise. *)
Definition keeps {A : Type} (raising : bool) (Q : Tree → Prop) (m : PyM Disk A) : Prop :=
  spec (st Q) m (λ r d, (match r with Raise e => raising = true ∧ is_oserror e = true | Ret _ => True end) ∧ st Q d).

Lemma st_impl (P Q : Tree → Prop) d : (∀ f, P f → Q f) → st P d → st Q d.
Proof using. intros H []. split; auto. Qed.

Lemma keeps_weaken {A : Type} (b : bool) Q (m : PyM Disk A) : keeps false Q m → keeps b Q m.
Proof using.
  intros H. eapply spec_post; [exact H|]. intros [a|e] w [Hr Hw]; split; naive_solver.
Qed.

Lemma keeps_ret {A : Type} (b : bool) Q (a : A) : keeps b Q (py_ret a).
Proof using. apply spec_ret. by split. Qed.

Lemma keeps_raise {A : Type} Q e : is_oserror e = true → keeps (A:=A) true Q (py_raise e).
Proof using. intros He. apply spec_raise. by split. Qed.

Lemma keeps_bind {A B : Type} (b : bool) Q (m : PyM Disk A) (k : A → PyM Disk B) :
  keeps b Q m → (∀ a, keeps b Q (k a)) → keeps b Q (py_bind m k).
Proof using.
  intros Hm Hk. eapply (spec_bind _ _ _ (λ _, st Q)); [|exact Hk].
  eapply spec_post; [exact Hm|]. intros [a|e] w [Hr Hw]; [exact Hw|by split].
Qed.

Lemma keeps_get {B : Type} (b : bool) Q (k : Disk → PyM Disk B) :
  (∀ d, Q (fs d) → keeps b Q (k d)) → keeps b Q (py_bind py_get k).
Proof using. intros H d Hd. apply (H d); [apply Hd|exact Hd]. Qed.

Lemma keeps_catch {A : Type} (b b' : bool) Q (m : PyM Disk A) h :
  keeps b' Q m → (∀ e, keeps b Q (h e)) → keeps b Q (catch_os m h).
Proof using.
  intros Hm Hh. eapply (spec_try _ _ _ (λ e d, is_oserror e = true ∧ st Q d)).
  - eapply spec_post; [exact Hm|]. intros [a|e] w [Hr Hw]; [by split|].
    split; [apply Hr|exact Hw].
  - intros e d [He Hd]. rewrite He. by apply Hh.
Qed.

Lemma keeps_or_else {A : Type} (b b' : bool) Q (m : PyM Disk A) d : keeps b' Q m → keeps b Q (or_else m d).
Proof using. intros H. eapply keeps_catch; [exact H|]. intros _. apply keeps_ret. Qed.

Lemma keeps_update (b : bool) (Q : Tree → Prop) f :
  (∀ g, Q g → Q (f g) ∧ V (f g)) → keeps b Q (update f).
Proof using.
  intros H. apply spec_modify. intros d [Hd Hs]. destruct (H _ Hd).
  split; [done|]. split; [done|]. by constructor.
Qed.

Lemma keeps_fails Q : keeps true Q sys_fails.
Proof using. intros [f [|[] l] s] Hd; by split. Qed.

(** A rename that succeeds turns [P] into [R]; one that fails changes nothing. *)
Lemma os_replace_spec (P R : Tree → Prop) src dst :
  src ≠ dst → (∀ f, P f → V (move src dst f) ∧ R (move src dst f)) →
  spec (st P) (os_replace src dst)
    (λ r d, match r with Ret _ => st R d | Raise e => is_oserror e = true ∧ st P d end).
Proof using.
  intros Hne HR. unfold os_replace. eapply (spec_bind _ _ _ (λ _, st P)).
  { eapply spec_post; [apply keeps_fails|]. intros [[]|e] d [Hr Hd]; [done|naive_solver]. }
  intros _. apply spec_get. intros d Hd. rewrite bool_decide_false by done.
  destruct (rename_error (fs d) src dst) as [e|] eqn:E.
  - apply spec_raise. intros _ ->. split; [|done]. revert E. unfold rename_error.
    repeat case_match; naive_solver.
  - apply spec_modify. intros _ ->. destruct Hd as [Hd Hs]. destruct (HR _ Hd).
    split; [done|]. by constructor.
Qed.

Lemma keeps_exists (b : bool) Q p : keeps b Q (exists_path p).
Proof using. apply keeps_get. intros. apply keeps_ret. Qed.
Lemma keeps_is_dir (b : bool) Q p : keeps b Q (is_dir p).
Proof using. apply keeps_get. intros. apply keeps_ret. Qed.
Lemma keeps_is_file (b : bool) Q p : keeps b Q (is_file p).
Proof using. apply keeps_get. intros. apply keeps_ret. Qed.

(** A query of the tree, with what it answers. *)
Lemma spec_exists {B : Type} P p (k : bool → PyM Disk B) R :
  (∀ b, spec (λ d, P d ∧ bool_decide (is_Some (fs d !! p)) = b) (k b) R) →
  spec P (py_bind (exists_path p) k) R.
Proof using. intros H d Hd. by apply (H _ d). Qed.
Lemma spec_is_dir {B : Type} P p (k : bool → PyM Disk B) R :
  (∀ b, spec (λ d, P d ∧ is_dir_node (fs d !! p) = b) (k b) R) →
  spec P (py_bind (is_dir p) k) R.
Proof using. intros H d Hd. by apply (H _ d). Qed.
Lemma spec_is_file {B : Type} P p (k : bool → PyM Disk B) R :
  (∀ b, spec (λ d, P d ∧ is_file_node (fs d !! p) = b) (k b) R) →
  spec P (py_bind (is_file p) k) R.
Proof using. intros H d Hd. by apply (H _ d). Qed.

(** [except OSError] around a call that raises nothing else. *)
Lemma spec_catch {A : Type} P (m : PyM Disk A) h (Q : Disk → Prop) (R : result A → Disk → Prop) :
  spec P m (λ r d, match r with Ret _ => R r d | Raise e => is_oserror e = true ∧ Q d end) →
  (∀ e, is_oserror e = true → spec Q (h e) R) → spec P (catch_os m h) R.
Proof using.
  intros Hm Hh. eapply (spec_try _ _ _ (λ e d, is_oserror e = true ∧ Q d)).
  - eapply spec_post; [exact Hm|]. by intros [a|e].
  - intros e d [He Hd]. rewrite He. by apply Hh.
Qed.

(** [Q] says something about the tree below [kept] only. *)
Section about.
Context (Q : Tree → Prop) (kept : path) (HV : ∀ f, Q f → V f).
Context (HQ : ∀ f g, subtree kept f = subtree kept g → Q f → Q g).

Lemma keeps_insert (b : bool) p n : strip kept p = None → keeps b Q (update (insert p n)).
Proof using HV HQ.
  intros Hp. apply keeps_update. intros g Hg.
  assert (Q (<[p:=n]> g)) by (eapply HQ, Hg; by rewrite subtree_insert_apart). auto.
Qed.

Lemma keeps_delete (b : bool) p : strip kept p = None → keeps b Q (update (delete p)).
Proof using HV HQ.
  intros Hp. apply keeps_update. intros g Hg.
  assert (Q (delete p g)) by (eapply HQ, Hg; by rewrite subtree_delete_apart). auto.
Qed.

Lemma keeps_replace src dst :
  apart src kept → apart dst kept → keeps true Q (os_replace src dst).
Proof using HV HQ.
  intros Hs Hd. destruct (decide (src = dst)) as [<-|Hne].
  - unfold os_replace. apply keeps_bind; [apply keeps_fails|]. intros _. apply keeps_get.
    intros d _. rewrite bool_decide_true by done.
    case_bool_decide; [apply keeps_ret|by apply keeps_raise].
  - eapply spec_post; [apply (os_replace_spec Q Q); [exact Hne|]|].
    + intros f Hf. assert (Q (move src dst f)); [|auto].
      eapply HQ, Hf. by rewrite subtree_move_other.
    + intros [[]|e] w Hw; split; naive_solver.
Qed.

Lemma keeps_mkdir p : strip kept p = None → keeps true Q (os_mkdir p).
Proof using HV HQ.
  intros Hp. unfold os_mkdir. apply keeps_bind; [apply keeps_fails|]. intros _. apply keeps_get.
  intros d _. case_match; [by apply keeps_raise|]. case_match; [by apply keeps_insert|by apply keeps_raise].
Qed.

Lemma keeps_mkdir_parents p : strip kept p = None → keeps true Q (mkdir_parents p).
Proof using HV HQ.
  assert (∀ todo dn, strip kept (dn ++ todo) = None → keeps true Q (mkdir_below dn todo)) as H.
  { induction todo as [|c todo IH]; intros dn Hp; cbn [mkdir_below]; [apply keeps_ret|].
    assert (strip kept (dn ++ [c]) = None).
    { apply strip_None. intros r E. rewrite strip_None in Hp. apply (Hp (r ++ todo)).
      by rewrite app_assoc, <-E, <-app_assoc. }
    apply keeps_bind; [apply keeps_is_dir|]. intros there.
    apply keeps_bind; [destruct there; [apply keeps_ret|by apply keeps_mkdir]|].
    intros _. apply IH. by rewrite <-app_assoc. }
  intros Hp. by apply H.
Qed.

Lemma keeps_remove_all ps :
  Forall (λ p, strip kept p = None) ps → keeps true Q (remove_all ps).
Proof using HV HQ.
  induction 1; cbn [remove_all]; [apply keeps_ret|].
  apply keeps_bind; [apply keeps_fails|]. intros _.
  apply keeps_bind; [by apply keeps_delete|]. by intros _.
Qed.

Lemma keeps_rmtree p : apart p kept → keeps true Q (rmtree p).
Proof using HV HQ.
  intros Hp. unfold rmtree. apply keeps_get. intros d _. case_match.
  - apply keeps_remove_all, List.Forall_rev, List.Forall_map, Forall_true.
    intros r. by apply apart_strip, apart_sym.
  - apply keeps_raise. by case_match.
Qed.

Lemma keeps_copy_entries (b : bool) src dst rs :
  apart dst kept → keeps b Q (copy_entries src dst rs).
Proof using HV HQ.
  intros Hd. induction rs as [|r rs IH]; cbn [copy_entries]; [apply keeps_ret|].
  apply keeps_get. intros d _. apply keeps_bind.
  - apply (keeps_or_else b true). apply keeps_bind; [apply keeps_fails|]. intros _.
    case_match; [|apply keeps_ret]. case_match; [|apply keeps_ret].
    apply keeps_bind; [|intros _; apply keeps_ret]. apply keeps_insert. by apply apart_strip, apart_sym.
  - intros b1. apply keeps_bind; [exact IH|]. intros b2. apply keeps_ret.
Qed.

Lemma keeps_copytree src dst : apart dst kept → keeps true Q (copytree src dst).
Proof using HV HQ.
  intros Hd. unfold copytree. apply keeps_get. intros d _.
  apply keeps_bind; [apply keeps_mkdir; apply Hd|]. intros _.
  apply keeps_bind; [by apply keeps_copy_entries|]. intros [].
  - apply keeps_ret.
  - by apply keeps_raise.
Qed.
End about.
End disk.

Lemma os_mkdir_effect p d :
  match (os_mkdir p d).1 with
  | Ret _ => fs (os_mkdir p d).2 = <[p:=NDir]> (fs d)
  | Raise e => is_oserror e = true
  end.
Proof.
  unfold os_mkdir, py_bind, sys_fails, py_get.
  destruct (fails d) as [|[] l]; cbn [fst snd fs]; try done.
  all: case_bool_decide; [done|]; by destruct (is_dir_node _).
Qed.

(** ** Reading *)

(** From the tree [f] and failures among [F]: the tree stays, and the call
    returns [v] unless a failure is drawn. *)
Definition reading (f : Tree) (F : list bool) (d : Disk) : Prop := fs d = f ∧ fails d ⊆ F.
Definition yields {A : Type} (f : Tree) (F : list bool) (v : A) (m : PyM Disk A) : Prop :=
  spec (reading f F) m (λ r d, (r = Ret v ∨ r = Raise OSError ∧ true ∈ F) ∧ reading f F d).

Section yields.
Context (f : Tree) (F : list bool).

Lemma yields_ret {A : Type} (v : A) : yields f F v (py_ret v).
Proof using. intros d Hd. split; [by left|done]. Qed.

Lemma yields_bind {A B : Type} (v : A) (w : B) m k :
  yields f F v m → yields f F w (k v) → yields f F w (py_bind m k).
Proof using.
  intros Hm Hk. eapply spec_bind with (Q := λ a d, a = v ∧ reading f F d).
  - eapply spec_post; [exact Hm|]. intros [a|e] d; naive_solver.
  - intros a. apply spec_pure. by intros ->.
Qed.

Lemma yields_fails {A : Type} (v : A) m : yields f F v m → yields f F v (sys_fails ;;; m).
Proof using.
  intros Hm d [Hf HF]. unfold py_bind, sys_fails.
  destruct (fails d) as [|[] l] eqn:El.
  - apply Hm. split; [done|by rewrite El].
  - split; [|split; [done|]].
    + right. split; [done|]. apply HF. by constructor.
    + intros x Hx. apply HF. by right.
  - apply Hm. split; [done|]. intros x Hx. apply HF. by right.
Qed.

Lemma yields_get {A : Type} (v : A) k :
  (∀ d, fs d = f → yields f F v (k d)) → yields f F v (py_bind py_get k).
Proof using. intros H d Hd. apply (H d); [apply Hd|exact Hd]. Qed.

Lemma yields_get_bind {A B : Type} (v : A) (g : Disk → B) (k : B → PyM Disk A) :
  (∀ d, fs d = f → yields f F v (k (g d))) →
  yields f F v (py_bind (py_bind py_get (λ d, py_ret (g d))) k).
Proof using. intros H d Hd. apply (H d); [apply Hd|exact Hd]. Qed.
End yields.

(** ** Well-formed trees *)

(** Everything lies in a directory. *)
Definition wf_tree (f : Tree) : Prop :=
  ∀ p c, is_Some (f !! (p ++ [c])) → f !! p = Some NDir.

Lemma wf_absent f p : wf_tree f → f !! p = None → ∀ r, f !! (p ++ r) = None.
Proof.
  intros Hf Hp r. induction r as [|c r IH] using rev_ind; [by rewrite app_nil_r|].
  destruct (f !! (p ++ r ++ [c])) as [n|] eqn:E; [|done].
  rewrite app_assoc in E. assert (f !! (p ++ r) = Some NDir) by (apply (Hf _ c); by rewrite E).
  congruence.
Qed.

(** The same, decided. *)
Definition wf_treeb (f : Tree) : bool :=
  List.forallb (λ q : path, match q with [] => true | _ => is_dir_node (f !! parent q) end)
    (List.map fst (map_to_list f)).

Lemma parent_snoc p c : parent (p ++ [c]) = p.
Proof. apply removelast_last. Qed.

Lemma wf_treeb_sound f : wf_treeb f = true → wf_tree f.
Proof.
  unfold wf_treeb. rewrite List.forallb_forall. intros H p c [n Hn].
  specialize (H (p ++ [c])). rewrite parent_snoc in H.
  assert (In (p ++ [c]) (List.map fst (map_to_list f))) as Hin.
  { apply list_elem_of_In, list_elem_of_fmap. exists (p ++ [c], n). split; [done|].
    by apply elem_of_map_to_list. }
  specialize (H Hin). unfold is_dir_node in H. destruct (p ++ [c]) eqn:E; [by destruct p|].
  by apply bool_decide_eq_true in H.
Qed.

Lemma wf_insert_dir f p :
  wf_tree f → f !! p = None → f !! parent p = Some NDir → wf_tree (<[p:=NDir]> f).
Proof.
  intros Hf Hp Hd q c Hq. destruct (decide (q = p)) as [->|Hne]; [by rewrite lookup_insert_eq|].
  rewrite lookup_insert_ne by done. destruct (decide (p = q ++ [c])) as [->|Hne'].
  - by rewrite parent_snoc in Hd.
  - rewrite lookup_insert_ne in Hq by done. by apply (Hf q c).
Qed.

(** What a new directory contains. *)
Lemma subtree_new_dir f p :
  wf_tree f → f !! p = None → subtree p (<[p:=NDir]> f) = {[ [] := NDir ]}.
Proof.
  intros Hf Hp. apply map_eq. intros r. rewrite lookup_subtree.
  destruct r as [|c r].
  - by rewrite app_nil_r, lookup_insert_eq, lookup_singleton_eq.
  - rewrite lookup_insert_ne, lookup_singleton_ne; [by apply wf_absent|done|].
    intros E. apply (f_equal length) in E. rewrite length_app in E. cbn in E. lia.
Qed.

Lemma os_mkdir_wf P p :
  spec (λ d, wf_tree (fs d) ∧ P (fs d)) (os_mkdir p)
    (λ r d, match r with
            | Ret _ => ∃ f, wf_tree f ∧ P f ∧ f !! p = None ∧ f !! parent p = Some NDir ∧
                            fs d = <[p:=NDir]> f
            | Raise _ => wf_tree (fs d)
            end).
Proof.
  unfold os_mkdir. eapply (spec_bind _ _ _ (λ _ d, wf_tree (fs d) ∧ P (fs d))).
  { intros [f [|[] l] s] Hd; [exact Hd|exact (proj1 Hd)|exact Hd]. }
  intros _. apply spec_get. intros d [Hd HP]. case_bool_decide as E; [by apply spec_raise; intros _ ->|].
  unfold is_dir_node. case_bool_decide as E'; [|by apply spec_raise; intros _ ->].
  apply spec_modify. intros _ ->. exists (fs d). rewrite <-eq_None_not_Some in E. done.
Qed.

Lemma mkdir_parents_wf p :
  preserves (λ d, wf_tree (fs d)) (mkdir_parents p).
Proof.
  unfold mkdir_parents. generalize (@nil string). induction p as [|c p IH]; intros dn; cbn [mkdir_below].
  { apply preserves_ret. }
  apply preserves_bind; [intros d Hd; exact Hd|]. intros there.
  apply preserves_bind; [|intros _; apply IH]. destruct there; [apply preserves_ret|].
  intros d Hd. pose proof (os_mkdir_wf (λ _, True) (dn ++ [c]) d (conj Hd I)) as H.
  destruct (os_mkdir (dn ++ [c]) d) as [[a|e] d']; cbn in *; [|done].
  destruct H as (f & Hf & _ & H1 & H2 & ->). by apply wf_insert_dir.
Qed.

(** ** Exchanging a directory through a tombstone *)

Section swap.
Context (target stage tomb : path) (old new : Tree).
Context (Hts : apart target stage) (Htt : apart target tomb) (Hst : apart stage tomb).

(** Before the exchange, between its two renames, and after it. *)
Definition unswapped (f : Tree) : Prop := subtree target f = old ∧ subtree stage f = new.
Definition displaced (f : Tree) : Prop :=
  subtree target f = ∅ ∧ subtree tomb f = old ∧ subtree stage f = new.
Definition swapped (f : Tree) : Prop := subtree target f = new ∧ subtree tomb f = old.

(** What a crash may find: the old tree, the new one, or no tree with the old
    one complete in the tombstone. *)
Definition recoverable (f : Tree) : Prop :=
  subtree target f = old ∨ subtree target f = new ∨
  (subtree target f = ∅ ∧ subtree tomb f = old).

(** [V] covers these states. *)
Context (V : Tree → Prop) (HV : ∀ f, recoverable f → V f).

Lemma unswapped_recoverable f : unswapped f → V f.
Proof using HV. intros []. apply HV. by left. Qed.
Lemma displaced_recoverable f : displaced f → V f.
Proof using HV. intros (?&?&?). apply HV. by right; right. Qed.
Lemma swapped_recoverable f : swapped f → V f.
Proof using HV. intros []. apply HV. by right; left. Qed.

Lemma displace_spec :
  spec (st V unswapped) (os_replace target tomb)
    (λ r d, match r with
            | Ret _ => st V displaced d
            | Raise e => is_oserror e = true ∧ st V unswapped d
            end).
Proof using Hts Htt Hst HV.
  apply os_replace_spec; [by apply apart_ne|]. intros f [H1 H2].
  assert (displaced (move target tomb f)) as H; [|by split; [apply displaced_recoverable|]].
  repeat split.
  - by apply subtree_move_src.
  - by rewrite subtree_move_dst.
  - by rewrite subtree_move_other; [|done|apply apart_sym].
Qed.

Lemma install_spec :
  spec (st V displaced) (os_replace stage target)
    (λ r d, match r with
            | Ret _ => st V swapped d
            | Raise e => is_oserror e = true ∧ st V displaced d
            end).
Proof using Hts Htt Hst HV.
  apply os_replace_spec; [by apply not_eq_sym, apart_ne|]. intros f (H1&H2&H3).
  assert (swapped (move stage target f)) as H; [|by split; [apply swapped_recoverable|]].
  split.
  - by rewrite subtree_move_dst.
  - by rewrite subtree_move_other.
Qed.

Lemma restore_spec :
  spec (st V displaced) (os_replace tomb target)
    (λ r d, match r with
            | Ret _ => st V unswapped d
            | Raise e => is_oserror e = true ∧ st V displaced d
            end).
Proof using Hts Htt Hst HV.
  apply os_replace_spec; [by apply not_eq_sym, apart_ne|]. intros f (H1&H2&H3).
  assert (unswapped (move tomb target f)) as H; [|by split; [apply unswapped_recoverable|]].
  split.
  - by rewrite subtree_move_dst.
  - by rewrite subtree_move_other; [|apply apart_sym|].
Qed.

(** An exchange that failed: rolled back, or with the old tree in the tombstone. *)
Definition interrupted (f : Tree) : Prop := unswapped f ∨ displaced f.

Lemma rollback_spec :
  spec (st V displaced) (or_else (os_replace tomb target) tt)
    (λ r d, r = Ret tt ∧ st V interrupted d).
Proof using Hts Htt Hst HV.
  eapply spec_catch with (Q := st V displaced).
  - eapply spec_post; [apply restore_spec|].
    intros [[]|e] d Hd; [|exact Hd]. split; [done|].
    eapply st_impl; [|exact Hd]. by left.
  - intros e _. apply spec_ret. intros d Hd. split; [done|].
    eapply st_impl; [|exact Hd]. by right.
Qed.

(** The first directory, put in place by one rename. *)
Lemma first_install_spec :
  spec (st V unswapped) (os_replace stage target)
    (λ r d, match r with
            | Ret _ => st V (λ f, subtree target f = new) d
            | Raise e => is_oserror e = true ∧ st V unswapped d
            end).
Proof using Hts HV.
  apply os_replace_spec; [by apply not_eq_sym, apart_ne|]. intros f [H1 H2].
  assert (subtree target (move stage target f) = new) as H; [by rewrite subtree_move_dst|].
  split; [|exact H]. apply HV. by right; left.
Qed.

(** Nothing that stays away from the target undoes the exchange. *)
Lemma recoverable_new f : subtree target f = new → V f.
Proof using HV. intros H. apply HV. by right; left. Qed.
End swap.

(** * Without failures *)

Create HintDb steady discriminated.

(** A call that returns does what it does on a disk where no system call fails. *)
Definition steady {A} (m : PyM Disk A) : Prop :=
  ∀ d a d', m d = (Ret a, d') → ∀ s, ∃ s', m (mkDisk (fs d) [] s) = (Ret a, mkDisk (fs d') [] s').

Lemma steady_ret {A} (a : A) : steady (py_ret a).
Proof. intros d b d' [= <- <-] s. by exists s. Qed.
Lemma steady_raise {A} e : steady (A:=A) (py_raise e).
Proof. by intros d b d'. Qed.
Lemma steady_bind {A B} (m : PyM Disk A) (k : A → PyM Disk B) :
  steady m → (∀ a, steady (k a)) → steady (py_bind m k).
Proof.
  intros Hm Hk d b d' H s. unfold py_bind in *. destruct (m d) as [[a|e] d1] eqn:E; [|done].
  destruct (Hm _ _ _ E s) as [s1 ->]. by apply (Hk a d1).
Qed.
(** A call that looks at the tree only. *)
Lemma steady_get {B} (k : Disk → PyM Disk B) :
  (∀ d, steady (k d)) → (∀ f l1 l2 s1 s2, k (mkDisk f l1 s1) = k (mkDisk f l2 s2)) → steady (py_bind py_get k).
Proof.
  intros Hk E [f l s0] b d' H s. unfold py_bind, py_get in *. cbn [fs]. rewrite (E f [] l s s0). by apply (Hk _ (mkDisk f l s0)).
Qed.
Lemma steady_update f : steady (update f).
Proof. intros d a d' [= <- <-] s. by eexists. Qed.
Lemma steady_fails : steady sys_fails.
Proof. intros [f [|[] l] s0] a d' H s; try done; injection H as <- <-; by exists s.
Qed.
#[export] Hint Resolve steady_ret steady_raise steady_update steady_fails : steady.

(** The cases of a definition, one after the other. *)
Ltac steady_step :=
  match goal with
  | |- steady (py_bind py_get _) => apply steady_get; [intros ?|reflexivity]
  | |- steady (py_bind _ _) => apply steady_bind; [|intros ?]
  | |- steady (if _ then _ else _) => case_match
  | |- steady (match _ with _ => _ end) => case_match
  end.
Ltac steady := repeat first [solve [auto with steady] | steady_step].

Lemma steady_mkdir p : steady (os_mkdir p).
Proof. unfold os_mkdir. steady. Qed.
#[export] Hint Resolve steady_mkdir : steady.

Lemma steady_mkdir_parents p : steady (mkdir_parents p).
Proof.
  unfold mkdir_parents. generalize (@nil string) as done. induction p as [|c p IH]; intros done; cbn [mkdir_below]; [steady|].
  unfold is_dir. steady.
Qed.
#[export] Hint Resolve steady_mkdir_parents : steady.
