(* ===== verification/Staging.v ===== *)
(** The staging directory of multi-file operations
    ([AtomicStagingContext] in [app/core/atomic_io.py]): allocated next to the
    target, filled by the body of the [with] statement, and exchanged with the
    target when the body ends normally. *)

From S2P Require Import Prelude PyStr Posix.
From Stdlib Require Import Lia Ascii.
From stdpp Require Import base tactics list strings gmap.
Open Scope py_scope.

(** * The context manager *)

Record AtomicStagingContext := mkStaging {
  target_dir : path;   (** resolved *)
  atomic_rename : bool;
  stage_dir : option path;
  committed : bool;
}.

Definition staging_init (target : path) (rename : bool) : AtomicStagingContext :=
  mkStaging target rename None false.
Definition set_stage (p : path) (c : AtomicStagingContext) : AtomicStagingContext :=
  mkStaging (target_dir c) (atomic_rename c) (Some p) false.
Definition set_committed (c : AtomicStagingContext) : AtomicStagingContext :=
  mkStaging (target_dir c) (atomic_rename c) (stage_dir c) true.

(** [name] is the name that [mkdtemp] picks: the prefix and random characters. *)
Definition staging_enter (name : string) (c : AtomicStagingContext)
    : PyM Disk (path * AtomicStagingContext) :=
  parent_dir <- (if atomic_rename c then
                   mkdir_parents (parent (target_dir c)) ;;; py_ret (parent (target_dir c))
                 else
                   there <- is_dir (target_dir c) ;;
                   (if there : bool then py_ret tt else mkdir_parents (target_dir c)) ;;;
                   py_ret (target_dir c)) ;;
  staged <- mkdtemp parent_dir name ;;
  py_ret (staged, set_stage staged c).

(** [f"{name}.old.{timestamp}"] next to the target. *)
Definition tombstone_of (target : path) (timestamp : string) : path :=
  with_name target (basename target +:+ ".old." +:+ timestamp).

Definition no_stage_error : exc :=
  RuntimeError "Cannot commit: staging directory does not exist.".

Definition commit (timestamp : string) (c : AtomicStagingContext)
    : PyM Disk (path * AtomicStagingContext) :=
  if committed c then py_ret (target_dir c, c)
  else match stage_dir c with
  | None => py_raise no_stage_error
  | Some stage =>
      staged <- exists_path stage ;;
      if negb staged then py_raise no_stage_error
      else if negb (atomic_rename c) then py_ret (stage, set_committed c)
      else
        present <- exists_path (target_dir c) ;;
        if negb present then
          os_replace stage (target_dir c) ;;; py_ret (target_dir c, set_committed c)
        else
          let tombstone := tombstone_of (target_dir c) timestamp in
          os_replace (target_dir c) tombstone ;;;
          catch_os (os_replace stage (target_dir c))
            (λ err, or_else (os_replace tombstone (target_dir c)) tt ;;; py_raise err) ;;;
          or_else (rmtree tombstone) tt ;;;
          py_ret (target_dir c, set_committed c)
  end.

Definition cleanup (c : AtomicStagingContext) : PyM Disk unit :=
  match stage_dir c with
  | None => py_ret tt
  | Some stage =>
      present <- exists_path stage ;;
      if present && negb (committed c) then or_else (rmtree stage) tt else py_ret tt
  end.

(** [__exit__] after a body that ended normally. *)
Definition staging_exit (timestamp : string) (c : AtomicStagingContext) : PyM Disk unit :=
  if atomic_rename c && negb (committed c) then _r <- commit timestamp c ;; py_ret tt
  else if negb (committed c) then cleanup c else py_ret tt.

(** [with AtomicStagingContext(...) as stage: body]: an exception of the body
    is raised again after the clean-up; one of [commit] leaves the statement. *)
Definition with_staging {A} (name timestamp : string) (c : AtomicStagingContext)
    (body : path → PyM Disk A) : PyM Disk A :=
  entered <- staging_enter name c ;;
  let '(stage, c') := entered in
  a <- py_try (body stage) (λ e, cleanup c' ;;; py_raise e) ;;
  staging_exit timestamp c' ;;;
  py_ret a.

(** * Lemmas *)

(** Two different names in one directory. *)
Lemma siblings_apart p a b : a ≠ b → apart (p ++ [a]) (p ++ [b]).
Proof.
  intros H. split; apply strip_None; intros r E; rewrite <-app_assoc in E;
    apply app_inv_head in E; naive_solver.
Qed.

Lemma str_app_nonempty_ne (s t : string) : t ≠ "" → s ≠ s +:+ t.
Proof.
  intros Ht E. apply Ht. assert (String.length s = String.length (s +:+ t)) as Hl by congruence.
  rewrite str_length_app in Hl. destruct t; [done|]. cbn in Hl. lia.
Qed.

(** The tombstone is a sibling of the target. *)
Lemma tombstone_apart p n ts : apart (p ++ [n]) (tombstone_of (p ++ [n]) ts).
Proof.
  unfold tombstone_of, with_name, basename. rewrite parent_snoc, last_last.
  apply siblings_apart. by apply str_app_nonempty_ne.
Qed.

Section commit.
Context (target stage : path) (timestamp : string) (old new : Tree).
Let tomb := tombstone_of target timestamp.
Context (Hts : apart target stage) (Htt : apart target tomb) (Hst : apart stage tomb).
Context (V : Tree → Prop) (HV : ∀ f, recoverable target tomb old new f → V f).

Lemma target_is_new_kept f g : subtree target f = subtree target g →
  subtree target f = new → subtree target g = new.
Proof using. congruence. Qed.

Lemma commit_spec :
  spec (st V (unswapped target stage old new))
    (commit timestamp (mkStaging target true (Some stage) false))
    (λ r d, match r with
            | Ret a => a.1 = target ∧ st V (λ f, subtree target f = new) d
            | Raise e => (is_oserror e = true ∨ e = no_stage_error) ∧ st V (interrupted target stage tomb old new) d
            end).
Proof using Hts Htt Hst HV.
  unfold commit. cbn [committed stage_dir atomic_rename target_dir negb].
  assert (∀ f, unswapped target stage old new f → interrupted target stage tomb old new f) by (by left).
  assert (∀ f, displaced target stage tomb old new f → interrupted target stage tomb old new f) by (by right).
  apply spec_exists. intros []; cbn [negb].
  2:{ apply spec_raise. intros d [Hd _]. split; [by right|]. eapply st_impl; [|exact Hd]. auto. }
  apply spec_exists. intros []; cbn [negb].
  - (* exchange *)
    eapply (spec_bind _ _ _ (λ _, st V (displaced target stage tomb old new))).
    { eapply spec_conseq with (P := st V (unswapped target stage old new)); [naive_solver| |].
      2:{ apply (displace_spec target stage tomb old new Hts Htt Hst V HV). }
      intros [[]|e] d; [done|]. intros [He Hd]. split; [by left|].
      eapply st_impl; [|exact Hd]. auto. }
    intros _. eapply (spec_bind _ _ _ (λ _, st V (λ f, subtree target f = new))).
    { eapply spec_catch with (Q := st V (displaced target stage tomb old new)).
      - eapply spec_post; [apply (install_spec target stage tomb old new Hts Htt Hst V HV)|].
        intros [[]|e] d; [|done]. apply st_impl. by intros f [].
      - intros e He. eapply spec_bind with (Q := λ _, st V (interrupted target stage tomb old new)).
        + eapply spec_post; [apply (rollback_spec target stage tomb old new Hts Htt Hst V HV)|].
          by intros r d [-> Hd].
        + intros _. apply spec_raise. intros d Hd. split; [by left|exact Hd]. }
    intros _. eapply (spec_bind _ _ _ (λ _, st V (λ f, subtree target f = new))).
    { eapply spec_post.
      - apply (keeps_or_else V false true), (keeps_rmtree V _ target).
        + apply (recoverable_new target tomb old new V HV).
        + apply target_is_new_kept.
        + by apply apart_sym.
      - intros [a|e] d [Hr Hd]; [exact Hd|]. by destruct Hr. }
    intros _. apply spec_ret. intros d Hd. by split.
  - eapply (spec_bind _ _ _ (λ _, st V (λ f, subtree target f = new))).
    { eapply spec_conseq with (P := st V (unswapped target stage old new)); [naive_solver| |].
      2:{ apply (first_install_spec target stage tomb old new Hts V HV). }
      intros [[]|e] d; [done|]. intros [He Hd]. split; [by left|].
      eapply st_impl; [|exact Hd]. auto. }
    intros _. apply spec_ret. intros d Hd. by split.
Qed.
End commit.

Lemma cleanup_keeps V Q (kept : path) c stage :
  (∀ f, Q f → V f) → (∀ f g, subtree kept f = subtree kept g → Q f → Q g) →
  apart stage kept →
  keeps V false Q (cleanup (mkStaging kept c (Some stage) false)).
Proof.
  intros HV HQ Ha. unfold cleanup. cbn [stage_dir committed].
  apply keeps_bind; [apply keeps_exists|]. intros [].
  - apply (keeps_or_else V false true), (keeps_rmtree V Q kept HV HQ stage Ha).
  - apply keeps_ret.
Qed.

(** ** The whole statement *)

Section block.
Context (dir : path) (n name timestamp : string).
Let target := dir ++ [n].
Let stage := dir ++ [name].
Let tomb := tombstone_of target timestamp.
Context (Hname : name ≠ n) (Hts : name ≠ n +:+ ".old." +:+ timestamp).
Context (f0 old : Tree) {A : Type} (accepted : A → Tree → Prop).

(** The target has not been touched. *)
Definition intact (f : Tree) : Prop := subtree target f = old.

Lemma stage_apart : apart target stage ∧ apart target tomb ∧ apart stage tomb.
Proof using Hname Hts.
  unfold tomb, target, stage. split; [|split].
  - by apply siblings_apart.
  - apply tombstone_apart.
  - unfold tombstone_of, with_name, basename. rewrite parent_snoc, last_last.
    by apply siblings_apart.
Qed.

Lemma old_intact f : subtree target f = old → intact f.
Proof using. done. Qed.
Lemma old_kept f g : subtree target f = subtree target g →
  subtree target f = old → subtree target g = old.
Proof using. congruence. Qed.

(** The tree with a new staging directory, made from [f0] with no failures. *)
Definition fresh_stage (f : Tree) : Prop :=
  subtree target f = old ∧ subtree stage f = {[ [] := NDir ]} ∧
  ∃ s, staging_enter name (staging_init target true) (mkDisk f0 [] []) =
    (Ret (stage, mkStaging target true (Some stage) false), mkDisk f [] s).

Lemma steady_staging_enter : steady (staging_enter name (staging_init target true)).
Proof using. unfold staging_enter, mkdtemp. cbn [atomic_rename staging_init]. steady. Qed.

Lemma staging_enter_spec :
  spec (λ d, st intact (λ f, subtree target f = old) d ∧ wf_tree (fs d) ∧ fs d = f0)
    (staging_enter name (staging_init target true))
    (λ r d, match r with
            | Ret a => a = (stage, mkStaging target true (Some stage) false) ∧
                       st intact fresh_stage d
            | Raise e => st intact (λ f, subtree target f = old) d
            end).
Proof using Hname Hts.
  destruct stage_apart as (H1 & H2 & H3).
  set (P d := st intact (λ f, subtree target f = old) d ∧ wf_tree (fs d)).
  assert (spec P (staging_enter name (staging_init target true))
    (λ r d, match r with
            | Ret a => a = (stage, mkStaging target true (Some stage) false) ∧
                       st intact (λ f, subtree target f = old ∧ subtree stage f = {[ [] := NDir ]}) d
            | Raise e => st intact (λ f, subtree target f = old) d
            end)) as Hspec.
  { unfold staging_enter, staging_init. cbn [atomic_rename target_dir].
    replace (parent target) with dir by (symmetry; apply parent_snoc).
    eapply (spec_bind _ _ _ (λ a d, a = dir ∧ P d)).
    { eapply spec_bind with (Q := λ _, P).
      - eapply spec_post.
        + apply spec_and; [|apply spec_preserves, mkdir_parents_wf].
          apply (keeps_mkdir_parents intact _ target old_intact old_kept).
          apply strip_None. intros r E. apply (f_equal length) in E.
          unfold target in E. rewrite !length_app in E. cbn in E. lia.
        + unfold P. intros [[]|e] d; naive_solver.
      - intros _. apply spec_ret. auto. }
    intros a d (-> & Hd & Hwf).
    unfold mkdtemp. fold stage. unfold py_bind.
    pose proof (keeps_mkdir intact _ target old_intact old_kept stage (proj1 H1) d Hd) as Hk.
    pose proof (os_mkdir_wf (λ _, True) stage d (conj Hwf I)) as Hw.
    destruct (os_mkdir stage d) as [[[]|e] d']; cbn in *; [|apply Hk].
    split; [done|]. destruct Hk as [_ [Hk1 Hk2]]. split; [|done]. split; [done|].
    destruct Hw as (f & Hf & _ & Ha & _ & ->). by apply subtree_new_dir. }
  intros d (Hd & Hwf & Hf). pose proof (Hspec d (conj Hd Hwf)) as H.
  pose proof (steady_staging_enter d) as Hs. rewrite Hf in Hs.
  destruct (staging_enter _ _ d) as [[a|e] d']; [|exact H]. destruct H as [-> [[Ho He] Hseen]].
  split; [done|]. split; [|done]. split; [done|]. split; [done|]. exact (Hs _ _ eq_refl []).
Qed.

Context (body : path → PyM Disk A).
Context (Hbody : spec (st intact fresh_stage) (body stage)
  (λ r d, match r with
          | Ret a => st intact (λ f, subtree target f = old ∧ accepted a (subtree stage f)) d
          | Raise _ => st intact (λ f, subtree target f = old) d
          end)).

(** What the statement leaves: at any time the old tree, a complete new one, or
    the old one in the tombstone; after a normal end what the body staged, and
    after an exception of the body or a failed exchange the old tree. *)
Definition block_result (r : result A) (d : Disk) : Prop :=
  ∃ new, (new = old ∨ ∃ a, accepted a new) ∧ Forall (recoverable target tomb old new) (seen d) ∧
    match r with
    | Ret a => accepted a new ∧ subtree target (fs d) = new
    | Raise _ => subtree target (fs d) = old ∨
        (subtree target (fs d) = ∅ ∧ subtree tomb (fs d) = old)
    end.

Lemma intact_result e d : st intact (λ f, subtree target f = old) d → block_result (Raise e) d.
Proof using.
  intros [Hd Hs]. exists old. split; [by left|]. split; [|by left].
  eapply Forall_impl; [exact Hs|]. intros f Hf. by left.
Qed.

Lemma with_staging_spec :
  spec (λ d, st intact (λ f, subtree target f = old) d ∧ wf_tree (fs d) ∧ fs d = f0)
    (with_staging name timestamp (staging_init target true) body) block_result.
Proof using Hname Hts Hbody.
  destruct stage_apart as (H1 & H2 & H3). unfold with_staging.
  eapply spec_bind with (Q := λ a d, a = (stage, mkStaging target true (Some stage) false) ∧
    st intact fresh_stage d).
  { eapply spec_post; [apply staging_enter_spec|]. intros [a|e] d Hd; [done|]. by apply intact_result. }
  intros [s c]. apply spec_pure. intros [= -> ->].
  eapply spec_bind with (Q := λ a, st intact (λ f, subtree target f = old ∧ accepted a (subtree stage f))).
  { eapply spec_try with (Q := λ _, st intact (λ f, subtree target f = old)).
    - eapply spec_post; [exact Hbody|]. by intros [a|e].
    - intros e. eapply spec_bind with (Q := λ _, st intact (λ f, subtree target f = old)).
      + eapply spec_post; [apply (cleanup_keeps intact _ target true stage old_intact old_kept)|].
        * by apply apart_sym.
        * intros [[]|e'] d [Hr Hd]; [exact Hd|by destruct Hr].
      + intros _. apply spec_raise. intros d. by apply intact_result. }
  intros a d [[Hold Ha] Hseen]. unfold staging_exit. cbn [atomic_rename committed negb andb].
  set (new := subtree stage (fs d)) in *.
  pose proof (commit_spec target stage timestamp old new H1 H2 H3
    (recoverable target tomb old new) (λ f H, H)) as Hc.
  unfold py_bind.
  assert (Forall (recoverable target tomb old new) (seen d)) as Hs.
  { eapply Forall_impl; [exact Hseen|]. intros f Hf. by left. }
  specialize (Hc d (conj (conj Hold eq_refl) Hs)).
  assert (Hnew : new = old ∨ ∃ a, accepted a new) by (right; by exists a).
  destruct (commit timestamp _ d) as [[x|e] d']; cbn in *; exists new; (split; [done|]).
  - by destruct Hc as [_ [Hc1 Hc2]].
  - destruct Hc as [_ [[[]|(?&?&?)] Hc2]]; auto.
Qed.
End block.
