(* ===== verification/Deployer.v ===== *)
(** Release deployment ([app/engine/deployer.py]): the checksum of a package, the
    guards on the members of its archive, the staged extraction and the exchange
    of the live directory.

    Paths are the ones [Path.resolve] returned.  [limit] bounds the steps of a
    walk along a path (the kernel's limit on symbolic links).  Reading the
    archive format is [read_archive], a parameter; the extraction of its members
    is that of the standard library's [tarfile]. *)

From S2P Require Import Prelude PyStr PyCrypto Posix Staging.
From Stdlib Require Import ZArith Lia Ascii Bool.
From stdpp Require Import base tactics list strings gmap sorting.
Open Scope py_scope.

(** * Checksums *)

Definition SHA256_BLOCK_SIZE : Z := 65536.
Definition block_size : nat := Z.to_nat SHA256_BLOCK_SIZE.

(** The streaming loop.  The hasher is the bytes it was fed; every read may
    fail.  [None] is a loop that has not ended within [fuel] reads. *)
Fixpoint hash_loop (fuel : nat) (stream : string) (hasher : list Z) : PyM Disk (option (list Z)) :=
  match fuel with
  | O => py_ret None
  | S n =>
      sys_fails ;;;
      let chunk := str_take block_size stream in
      if String.eqb chunk "" then py_ret (Some hasher)
      else hash_loop n (str_drop block_size stream) (hasher ++ bytes_of chunk)
  end.

(** Enough reads for a file of [size] bytes. *)
Definition reads_of (size : nat) : nat := S (S (size `div` block_size)).

Definition compute_sha256 (resolved_path : path) : PyM Disk string :=
  present <- exists_path resolved_path ;;
  if negb present then py_raise FileNotFoundError
  else
    regular <- is_file resolved_path ;;
    if negb regular then py_raise (ValueError "Target path is not a regular file")
    else
      sys_fails ;;;
      d <- py_get ;;
      match fs d !! resolved_path with
      | Some (NFile data) =>
          hasher <- hash_loop (reads_of (String.length data)) data [] ;;
          match hasher with
          | Some fed => py_ret (hex_of_bytes (sha256 fed))
          | None => py_raise (RuntimeError "the loop did not end")
          end
      | _ => py_raise OSError
      end.

Definition verify_checksum (resolved_path : path) (expected_sha256 : string) : PyM Disk bool :=
  regular <- is_file resolved_path ;;
  if negb regular then py_ret false
  else
    calculated <- py_try (h <- compute_sha256 resolved_path ;; py_ret (Some h))
      (λ e, match e with
            | ValueError _ => py_ret None
            | _ => if is_oserror e then py_ret None else py_raise e
            end) ;;
    match calculated with
    | None => py_ret false
    | Some calculated_sha256 =>
        match compare_digest (str_strip (str_lower calculated_sha256))
                             (str_strip (str_lower expected_sha256)) with
        | Ret is_valid => py_ret is_valid
        | Raise e => py_raise e
        end
    end.

(** * Archive members *)

Inductive TarKind : Type := REGTYPE | DIRTYPE | SYMTYPE | LNKTYPE | SPECIAL.

Record TarInfo := mkTarInfo {
  tar_name : string;
  tar_kind : TarKind;
  linkname : string;
  tar_data : string;
}.

Definition is_link (m : TarInfo) : bool :=
  match tar_kind m with SYMTYPE | LNKTYPE => true | _ => false end.

Definition rooted (s : string) : bool :=
  startswith s "/" || startswith s "\" || str_contains ":" s.
Definition has_dotdot (s : string) : bool := bool_decide (".." ∈ parts s).

Section archive.
Context (limit : nat).

(** [Path.resolve()]: the walk from the root; a loop of links is a [RuntimeError]. *)
Definition resolve (p : path) : PyM Disk path :=
  sys_fails ;;;
  d <- py_get ;;
  match walk limit (fs d) [] p with
  | Some q => py_ret q
  | None => py_raise (RuntimeError "Symlink loop")
  end.

(** [except RuntimeError], [except OSError]: a failed resolution is a violation. *)
Definition guarded_resolve (what : string) (p : path) : PyM Disk path :=
  py_try (resolve p)
    (λ e, match e with
          | RuntimeError _ => py_raise (SecurityError what)
          | _ => if is_oserror e then py_raise (SecurityError what) else py_raise e
          end).

Definition within (root p : path) : bool := bool_decide (is_Some (strip root p)).

Definition _validate_tar_member (member : TarInfo) (destination_root : path) : PyM Disk unit :=
  if rooted (tar_name member) then py_raise (SecurityError "Absolute or drive-rooted tar member path rejected")
  else if has_dotdot (tar_name member) then py_raise (SecurityError "Directory traversal component rejected")
  else
    resolved_root <- guarded_resolve "Path resolution error" destination_root ;;
    resolved_target <- guarded_resolve "Path resolution error"
      (destination_root ++ parts (tar_name member)) ;;
    if negb (within resolved_root resolved_target)
    then py_raise (SecurityError "Resolved member path escapes extraction root")
    else if negb (is_link member) then py_ret tt
    else if rooted (linkname member) then py_raise (SecurityError "Absolute link target rejected")
    else if has_dotdot (linkname member) then py_raise (SecurityError "Link traversal rejected")
    else
      resolved_link <- guarded_resolve "Link resolution error"
        (parent resolved_target ++ parts (linkname member)) ;;
      if negb (within resolved_root resolved_link)
      then py_raise (SecurityError "Symlink escapes extraction root")
      else py_ret tt.

Fixpoint validate_members (members : list TarInfo) (root : path) : PyM Disk unit :=
  match members with
  | [] => py_ret tt
  | m :: rest => _validate_tar_member m root ;;; validate_members rest root
  end.

(** ** The standard library's extraction *)

(** Where a system call finds the entry [comps] of the directory [root], with
    its last component followed when it is a link, or not. *)
Definition follow (f : Tree) (root comps : path) : option path := walk limit f root comps.
Definition place (f : Tree) (root comps : path) : option path :=
  match comps with
  | [] => Some root
  | _ => q ← walk limit f root (removelast comps); Some (q ++ [List.last comps ""])
  end.

Definition at_path {A} (o : option path) (k : path → PyM Disk A) : PyM Disk A :=
  match o with Some q => k q | None => py_raise OSError end.

(** [os.makedirs] of the directories above the member. *)
Fixpoint makedirs (root done todo : path) : PyM Disk unit :=
  match todo with
  | [] => py_ret tt
  | c :: rest =>
      let comps := done ++ [c] in
      d <- py_get ;;
      at_path (follow (fs d) root comps) (λ q,
        if bool_decide (is_Some (fs d !! q)) then py_ret tt
        else at_path (place (fs d) root comps) os_mkdir) ;;;
      makedirs root comps rest
  end.

(** [open(path, "wb")] and the copy of the data. *)
Definition write_member (root comps : path) (data : string) : PyM Disk unit :=
  sys_fails ;;;
  d <- py_get ;;
  at_path (follow (fs d) root comps) (λ q,
    match fs d !! q with
    | Some NDir | Some NSpecial => py_raise OSError
    | _ =>
        if is_dir_node (fs d !! parent q) then
          update (insert q (NFile "")) ;;; sys_fails ;;; update (insert q (NFile data))
        else py_raise OSError
    end).

(** A new entry that does not follow a link at its place; [replace] removes
    what is there first. *)
Definition make_entry (root comps : path) (replace : bool) (n : Node) : PyM Disk unit :=
  sys_fails ;;;
  d <- py_get ;;
  at_path (place (fs d) root comps) (λ q,
    if negb (is_dir_node (fs d !! parent q)) then py_raise OSError
    else match fs d !! q with
         | None => update (insert q n)
         | Some NDir => py_raise OSError
         | Some _ => if replace then update (delete q) ;;; sys_fails ;;; update (insert q n)
                     else py_raise OSError
         end).

(** [os.mkdir], and [except FileExistsError]: a directory may be there already. *)
Definition make_directory (root comps : path) : PyM Disk unit :=
  sys_fails ;;;
  d <- py_get ;;
  at_path (place (fs d) root comps) (λ q,
    if bool_decide (is_Some (fs d !! q)) then
      if is_dir_node (follow (fs d) root comps ≫= λ q', fs d !! q') then py_ret tt else py_raise OSError
    else if is_dir_node (fs d !! parent q) then update (insert q NDir)
    else py_raise FileNotFoundError).

(** A member that is no hard link, at its place. *)
Definition make_member (root comps : path) (m : TarInfo) : PyM Disk unit :=
  match tar_kind m with
  | REGTYPE => write_member root comps (tar_data m)
  | DIRTYPE => make_directory root comps
  | SYMTYPE => make_entry root comps true (NLink (linkname m))
  | SPECIAL => make_entry root comps false NSpecial
  | LNKTYPE => py_ret tt
  end.

(** A hard link to what is at [target], or else the member of that name; a
    member without one is skipped. *)
Definition make_hardlink (members : list TarInfo) (root comps : path) (target : string)
    : PyM Disk unit :=
  d <- py_get ;;
  match follow (fs d) root (parts target) ≫= λ q, fs d !! q with
  | Some NDir => py_raise OSError
  | Some n => make_entry root comps true n
  | None =>
      match List.find (λ m, String.eqb (tar_name m) target) members with
      | Some m => make_member root comps m
      | None => py_ret tt
      end
  end.

Definition extract_member (members : list TarInfo) (root : path) (m : TarInfo) : PyM Disk unit :=
  let comps := parts (tar_name m) in
  makedirs root [] (removelast comps) ;;;
  match tar_kind m with
  | LNKTYPE => make_hardlink members root comps (linkname m)
  | _ => make_member root comps m
  end.

(** [filter] is the extraction filter: it may refuse a member or change it. *)
Fixpoint extract_loop (filter : TarInfo → result TarInfo) (members todo : list TarInfo) (root : path)
    : PyM Disk unit :=
  match todo with
  | [] => py_ret tt
  | m :: rest =>
      match filter m with
      | Ret m' => extract_member members root m' ;;; extract_loop filter members rest root
      | Raise e => py_raise e
      end
  end.
Definition extractall (filter : TarInfo → result TarInfo) (members : list TarInfo) (root : path)
    : PyM Disk unit := extract_loop filter members members root.

(** * Staging a release *)

Context (read_archive : string → result (list TarInfo)).
(** [tarfile.data_filter], where the interpreter has it. *)
Context (data_filter : option (TarInfo → result TarInfo)).

Definition read_members (tarball : path) : PyM Disk (list TarInfo) :=
  sys_fails ;;;
  d <- py_get ;;
  match fs d !! tarball with
  | Some (NFile data) =>
      match read_archive data with Ret l => py_ret l | Raise e => py_raise e end
  | _ => py_raise OSError
  end.

Definition stage_body (tarball stage_path : path) : PyM Disk unit :=
  py_try
    (members <- read_members tarball ;;
     validate_members members stage_path ;;;
     match data_filter with
     | Some f => extractall f members stage_path
     | None => extractall Ret members stage_path
     end)
    (λ err, match err with
            | TarError cls =>
                if String.eqb cls "ReadError" then py_raise (ValueError "Invalid tarball archive")
                else if String.eqb cls "CompressionError"
                then py_raise (ValueError "Compression error in tarball")
                else py_raise err
            | _ => py_raise err
            end).

(** [name] is the name of the staging directory, [timestamp] that of the tombstone. *)
Definition stage_release_package (name timestamp : string) (resolved_tarball resolved_target : path)
    : PyM Disk path :=
  present <- exists_path resolved_tarball ;;
  if negb present then py_raise FileNotFoundError
  else
    regular <- is_file resolved_tarball ;;
    if negb regular then py_raise (ValueError "Release tarball is not a regular file")
    else
      with_staging name timestamp (staging_init resolved_target true) (stage_body resolved_tarball) ;;;
      py_ret resolved_target.
(** What staging means to make: the members of the archive, extracted into a new
    directory. *)
Definition extraction (name : string) (tarball target : path) : PyM Disk unit :=
  entered <- staging_enter name (staging_init target true) ;;
  members <- read_members tarball ;;
  extractall (default Ret data_filter) members entered.1.
(** The complete release, from a disk that holds [f0] and where nothing fails. *)
Definition complete (name : string) (tarball dir : path) (n : string) (f0 t : Tree) : Prop :=
  ∃ f s, extraction name tarball (dir ++ [n]) (mkDisk f0 [] []) = (Ret tt, mkDisk f [] s) ∧
    t = subtree (dir ++ [name]) f.
End archive.

(** * Exchanging the live directory *)

Definition _perform_initial_target_move (staged_dir target_dir : path) : PyM Disk bool :=
  catch_os (os_replace staged_dir target_dir ;;; py_ret true)
    (λ _, or_else (shutil_move staged_dir target_dir ;;; py_ret true) false).

Definition _swap_directories_with_rollback (staged_dir target_dir tombstone : path) : PyM Disk bool :=
  moved <- or_else (os_replace target_dir tombstone ;;; py_ret true) false ;;
  if negb moved then py_ret false
  else
    catch_os (os_replace staged_dir target_dir ;;; py_ret true)
      (λ _, or_else (os_replace tombstone target_dir) tt ;;; py_ret false).

Definition _archive_or_cleanup_tombstone (tombstone : path) (target_name : string)
    (backup_dir : option path) (timestamp_str : string) : PyM Disk unit :=
  match backup_dir with
  | None => or_else (rmtree tombstone) tt
  | Some resolved_backup =>
      catch_os
        (mkdir_parents (parent resolved_backup) ;;;
         there <- is_dir resolved_backup ;;
         let archive_dest :=
           if there : bool
           then resolved_backup ++ [target_name +:+ ".backup." +:+ timestamp_str]
           else resolved_backup in
         catch_os (os_replace tombstone archive_dest) (λ _, shutil_move tombstone archive_dest))
        (λ _, or_else (rmtree tombstone) tt)
  end.

Definition execute_atomic_swap (timestamp_str : string) (resolved_staged resolved_target : path)
    (backup_dir : option path) : PyM Disk bool :=
  staged <- is_dir resolved_staged ;;
  if negb staged then py_ret false
  else if bool_decide (resolved_staged = resolved_target) then py_ret false
  else
    made <- or_else (mkdir_parents (parent resolved_target) ;;; py_ret true) false ;;
    if negb made then py_ret false
    else
      present <- exists_path resolved_target ;;
      if negb present then _perform_initial_target_move resolved_staged resolved_target
      else
        let tombstone := tombstone_of resolved_target timestamp_str in
        swap_succeeded <- _swap_directories_with_rollback resolved_staged resolved_target tombstone ;;
        if negb swap_succeeded then py_ret false
        else
          _archive_or_cleanup_tombstone tombstone (basename resolved_target) backup_dir timestamp_str ;;;
          py_ret true.

(** * Lemmas *)

(** ** The streaming hash *)

Lemma str_take_drop n s : str_take n s +:+ str_drop n s = s.
Proof.
  revert s. induction n as [|n IH]; intros [|c s]; cbn [str_take str_drop]; try done.
  by rewrite str_app_cons, IH.
Qed.

Lemma length_str_drop n s : String.length (str_drop n s) = (String.length s - n)%nat.
Proof. revert s. induction n as [|n IH]; intros [|c s]; cbn; auto. Qed.

Lemma str_take_empty n s : n ≠ O → str_take n s = "" → s = "".
Proof. destruct n, s; done. Qed.

Lemma block_size_pos : (0 < block_size)%nat.
Proof. unfold block_size, SHA256_BLOCK_SIZE. lia. Qed.

Lemma reads_enough size : (size + block_size ≤ reads_of size * block_size)%nat.
Proof.
  pose proof block_size_pos. unfold reads_of.
  pose proof (Nat.div_mod_eq size block_size). pose proof (Nat.mod_upper_bound size block_size).
  nia.
Qed.

(** With enough reads the loop ends, with all of the stream fed to the hasher in
    order, unless a read fails. *)
Lemma hash_loop_spec f F fuel stream hasher :
  (String.length stream + block_size ≤ fuel * block_size)%nat →
  yields f F (Some (hasher ++ bytes_of stream)) (hash_loop fuel stream hasher).
Proof.
  pose proof block_size_pos as Hb.
  revert stream hasher. induction fuel as [|n IH]; intros stream hasher Hf; [lia|].
  cbn [hash_loop]. apply yields_fails. cbn zeta.
  destruct (String.eqb_spec (str_take block_size stream) "") as [E|E].
  - apply str_take_empty in E as ->; [|lia]. cbn. rewrite app_nil_r. apply yields_ret.
  - rewrite <-(str_take_drop block_size stream) at 1. rewrite bytes_of_app, app_assoc. apply IH.
    assert (0 < String.length stream)%nat by (destruct stream; [by destruct block_size|cbn; lia]).
    rewrite length_str_drop. destruct n; nia.
Qed.

Definition digest (data : string) : string := hex_of_bytes (sha256 (bytes_of data)).

Lemma compute_sha256_spec f F p data :
  f !! p = Some (NFile data) → yields f F (digest data) (compute_sha256 p).
Proof.
  intros Hp. unfold compute_sha256.
  apply yields_get_bind. intros d Hd. rewrite Hd, Hp. cbn [is_Some]. rewrite bool_decide_true by done.
  apply yields_get_bind. intros d1 Hd1. rewrite Hd1, Hp. cbn [is_file_node negb].
  apply yields_fails, yields_get. intros d2 Hd2. rewrite Hd2, Hp.
  eapply yields_bind; [apply hash_loop_spec, reads_enough|]. apply yields_ret.
Qed.

Lemma hex_digit_plain n : (0 ≤ n < 16)%Z →
  negb (is_upper (hex_digit n)) && negb (is_space (hex_digit n)) = true.
Proof.
  intros Hn. pose proof (forall_range
    (λ n, negb (is_upper (hex_digit n)) && negb (is_space (hex_digit n))) 16 eq_refl n).
  apply H. lia.
Qed.

Lemma hex_of_bytes_plain bs : Forall (λ b, 0 ≤ b < 256)%Z bs →
  str_all (λ c, negb (is_upper c) && negb (is_space c)) (hex_of_bytes bs) = true.
Proof.
  induction 1 as [|b bs Hb _ IH]; [done|]. cbn [hex_of_bytes str_all].
  rewrite !hex_digit_plain by zdiv. exact IH.
Qed.

(** A digest is its own normal form. *)
Lemma digest_normal data : str_strip (str_lower (digest data)) = digest data.
Proof.
  pose proof (hex_of_bytes_plain _ (sha256_bound (bytes_of data))) as H. fold (digest data) in H.
  rewrite str_lower_id.
  - apply str_strip_id. eapply str_all_impl; [|exact H]. intros c. rewrite andb_true_iff. tauto.
  - eapply str_all_impl; [|exact H]. intros c. rewrite andb_true_iff. tauto.
Qed.

(** ** The exchange *)

Section swap.
Context (target staged tomb : path) (old new : Tree).
Context (Hts : apart target staged) (Htt : apart target tomb) (Hst : apart staged tomb).
Let V := recoverable target tomb old new.
Let HV : ∀ f, recoverable target tomb old new f → V f := λ f H, H.

Lemma new_kept f g : subtree target f = subtree target g →
  subtree target f = new → subtree target g = new.
Proof using. congruence. Qed.

Lemma swap_with_rollback_spec :
  spec (st V (unswapped target staged old new))
    (_swap_directories_with_rollback staged target tomb)
    (λ r d, match r with
            | Ret true => st V (λ f, subtree target f = new) d
            | Ret false => st V (interrupted target staged tomb old new) d
            | Raise _ => False
            end).
Proof using Hts Htt Hst.
  unfold _swap_directories_with_rollback.
  eapply spec_bind with (Q := λ b d, if b : bool then st V (displaced target staged tomb old new) d
                                      else st V (unswapped target staged old new) d).
  { eapply spec_catch with (Q := st V (unswapped target staged old new)).
    - eapply spec_bind with (Q := λ _, st V (displaced target staged tomb old new)).
      + eapply spec_post; [apply (displace_spec target staged tomb old new Hts Htt Hst V HV)|].
        intros [[]|e] d Hd; exact Hd.
      + intros []. apply spec_ret. auto.
    - intros e _. apply spec_ret. auto. }
  intros []; cbn [negb].
  2:{ apply spec_ret. intros d. apply st_impl. by left. }
  eapply spec_catch with (Q := st V (displaced target staged tomb old new)).
  - eapply spec_bind with (Q := λ _, st V (λ f, subtree target f = new)).
    + eapply spec_post; [apply (install_spec target staged tomb old new Hts Htt Hst V HV)|].
      intros [[]|e] d Hd; [|exact Hd]. eapply st_impl; [|exact Hd]. by intros f [].
    + intros []. apply spec_ret. auto.
  - intros e _. eapply spec_bind with (Q := λ _, st V (interrupted target staged tomb old new)).
    + eapply spec_post; [apply (rollback_spec target staged tomb old new Hts Htt Hst V HV)|].
      intros r d [-> Hd]. exact Hd.
    + intros []. apply spec_ret. auto.
Qed.

Lemma apart_below p q r : apart p q → apart p (q ++ r).
Proof using.
  intros H. split; [by apply apart_strip|]. destruct H as [H1 H2]. rewrite strip_None in *.
  intros s E. apply (H2 (r ++ s)). by rewrite app_assoc.
Qed.

Lemma keeps_shutil_move src dst :
  apart src target → apart dst target →
  keeps V true (λ f, subtree target f = new) (shutil_move src dst).
Proof using.
  intros Hs Hd. pose proof (recoverable_new target tomb old new V HV) as Hn.
  unfold shutil_move. apply keeps_bind; [apply keeps_is_dir|]. intros into.
  apply keeps_bind; [apply keeps_exists|]. intros there.
  destruct (into && there); [by apply keeps_raise|].
  assert (apart (if into then dst ++ [basename src] else dst) target) as Hd'.
  { destruct into; [|done]. by apply apart_sym, apart_below, apart_sym. }
  eapply keeps_catch; [by apply (keeps_replace V _ target Hn new_kept)|]. intros e.
  case_bool_decide; [by apply keeps_raise|].
  apply keeps_bind; [by apply (keeps_copytree V _ target Hn new_kept)|]. intros _.
  by apply (keeps_rmtree V _ target Hn new_kept).
Qed.

Lemma archive_keeps name backup timestamp :
  match backup with Some b => apart target b | None => True end →
  keeps V false (λ f, subtree target f = new)
    (_archive_or_cleanup_tombstone tomb name backup timestamp).
Proof using Htt.
  intros Hb. pose proof (recoverable_new target tomb old new V HV) as Hn.
  pose proof (apart_sym _ _ Htt) as Htt'.
  assert (keeps V false (λ f, subtree target f = new) (or_else (rmtree tomb) tt)) as Hrm.
  { by apply (keeps_or_else V false true), (keeps_rmtree V _ target Hn new_kept). }
  unfold _archive_or_cleanup_tombstone. destruct backup as [b|]; [|exact Hrm].
  eapply keeps_catch with (b' := true); [|by intros _].
  apply keeps_bind; [apply (keeps_mkdir_parents V _ target Hn new_kept)|].
  { destruct Hb as [Hb _]. apply strip_None. rewrite strip_None in Hb. intros r E.
    destruct b as [|c b _] using rev_ind; [by apply (Hb r)|].
    rewrite parent_snoc in E. apply (Hb (r ++ [c])). by rewrite E, app_assoc. }
  intros _. apply keeps_bind; [apply keeps_is_dir|]. intros there.
  assert (apart (if there then b ++ [name +:+ ".backup." +:+ timestamp] else b) target) as Hd.
  { destruct there; [|by apply apart_sym]. by apply apart_sym, apart_below. }
  eapply keeps_catch; [by apply (keeps_replace V _ target Hn new_kept)|]. intros e.
  by apply keeps_shutil_move.
Qed.
End swap.

(** ** A complete copy *)

Section copy.
Context (src dst : path) (new : Tree) (Hsd : apart src dst).
Context (Hnew : new !! [] = Some NDir).

(** The entries [dn] have been copied. *)
Definition copied (dn : list path) (f : Tree) : Prop :=
  subtree src f = new ∧ ∀ r, f !! (dst ++ r) = if decide (r ∈ dn) then new !! r else None.

Lemma copied_all dn f : copied dn f → (∀ r, is_Some (new !! r) → r ∈ dn) → subtree dst f = new.
Proof using.
  intros [_ H] Hall. apply map_eq. intros r. rewrite lookup_subtree, H. case_decide as Hr; [done|].
  destruct (new !! r) eqn:E; [|done]. exfalso. apply Hr, Hall. by rewrite E.
Qed.

Lemma copied_step dn f r n :
  copied dn f → new !! r = Some n → copied (r :: dn) (<[dst ++ r := n]> f).
Proof using Hsd.
  intros [H1 H2] Hr. split.
  - rewrite subtree_insert_apart; [done|]. by apply apart_strip.
  - intros q. destruct (decide (q = r)) as [->|Hne].
    + rewrite lookup_insert_eq, decide_True by constructor. done.
    + rewrite lookup_insert_ne, H2 by (intros E%app_inv_head; congruence).
      destruct (decide (q ∈ dn)); [by rewrite decide_True by (by right)|].
      rewrite decide_False; [done|]. intros [->|]%elem_of_cons; done.
Qed.

Let everywhere : Tree → Prop := λ _, True.

Lemma copy_entries_spec rs dn :
  spec (st everywhere (copied dn)) (copy_entries src dst rs)
    (λ r d, match r with
            | Ret true => st everywhere (copied (rev rs ++ dn)) d
            | Ret false => True
            | Raise _ => False
            end).
Proof using Hsd Hnew.
  revert dn. induction rs as [|r rs IH]; intros dn; cbn [copy_entries].
  { apply spec_ret. auto. }
  apply spec_get. intros d Hd.
  eapply spec_bind with (Q := λ b d, if b : bool then st everywhere (copied (r :: dn)) d else True).
  { unfold or_else. eapply spec_catch with (Q := λ _, True); [|intros e _; by apply spec_ret].
    eapply spec_bind with (Q := λ _, λ d', fs d' = fs d ∧ Forall everywhere (seen d')).
    { intros d' ->. destruct Hd as [_ Hs]. unfold sys_fails. by destruct (fails d) as [|[] l]. }
    intros _. destruct (fs d !! (src ++ r)) as [n|] eqn:En; [|by apply spec_ret].
    destruct (is_dir_node _); [|by apply spec_ret].
    eapply spec_bind with (Q := λ _, st everywhere (copied (r :: dn))); [|intros _; by apply spec_ret].
    apply spec_modify. intros w [Hw Hs]. destruct Hd as [Hc _]. rewrite Hw. split.
    - apply copied_step; [done|]. destruct Hc as [<- _]. by rewrite lookup_subtree.
    - by constructor. }
  intros [].
  - eapply spec_bind with (Q := λ b d, if b : bool then st everywhere (copied (rev rs ++ r :: dn)) d else True).
    + eapply spec_post; [apply IH|]. intros [[]|e] d'; done.
    + intros []; apply spec_ret; [|done]. intros d'. cbn [andb rev]. by rewrite <-app_assoc.
  - eapply spec_bind with (Q := λ _ _, True).
    + intros w _. pose proof (keeps_copy_entries everywhere everywhere src (λ f H, H)
        (λ f g _ H, H) false src dst rs (apart_sym _ _ Hsd) w) as H.
      destruct (copy_entries src dst rs w) as [[b|e] d']; cbn in *; [done|].
      destruct H as [[[=] _] _]. split; [exact I|]. by apply Forall_true.
    + intros b. by apply spec_ret.
Qed.

Lemma tree_order_elem t r : r ∈ tree_order t ↔ is_Some (t !! r).
Proof using.
  unfold tree_order. rewrite merge_sort_Permutation. rewrite list_elem_of_fmap. split.
  - intros ([q n] & -> & Hin). apply elem_of_map_to_list in Hin. cbn. by rewrite Hin.
  - intros [n Hn]. exists (r, n). split; [done|]. by apply elem_of_map_to_list.
Qed.

Definition uncopied (f : Tree) : Prop := subtree src f = new ∧ subtree dst f = ∅.

Lemma copytree_spec :
  spec (st everywhere uncopied) (copytree src dst)
    (λ r d, match r with
            | Ret _ => st everywhere (λ f, subtree dst f = new) d
            | Raise e => is_oserror e = true
            end).
Proof using Hsd Hnew.
  unfold copytree. apply spec_get. intros d Hd.
  eapply spec_bind with (Q := λ _, st everywhere (copied [[]])).
  { intros w ->. pose proof (os_mkdir_effect dst d) as He.
    destruct (os_mkdir dst d) as [[[]|e] d'] eqn:E; cbn in *; [|exact He].
    destruct Hd as [[Hsrc Hdst] _]. split; [|by apply Forall_true].
    rewrite He. split; [rewrite subtree_insert_apart; [done|apply Hsd]|].
    intros r. destruct r as [|c r].
    - rewrite app_nil_r, lookup_insert_eq, decide_True by (by apply list_elem_of_singleton). done.
    - rewrite decide_False by (by intros ?%list_elem_of_singleton).
      rewrite lookup_insert_ne, <-lookup_subtree, Hdst; [done|].
      intros E'. apply (f_equal length) in E'. rewrite length_app in E'. cbn in E'. lia. }
  intros [].
  set (rs := List.filter _ _).
  eapply spec_bind with (Q := λ b d, if b : bool then st everywhere (copied (rev rs ++ [[]])) d else True).
  { eapply spec_post; [apply copy_entries_spec|]. by intros [[]|e]. }
  intros []; [|by apply spec_raise].
  apply spec_ret. intros d' Hd'. eapply st_impl; [|exact Hd']. intros f Hf. cbn beta.
  eapply copied_all; [exact Hf|]. intros r Hr. apply elem_of_app.
  destruct (decide (r = [])) as [->|Hne]; [right; by apply list_elem_of_singleton|left].
  rewrite list_elem_of_In, <-List.in_rev. unfold rs. apply List.filter_In.
  rewrite bool_decide_false by done. split; [|done]. apply list_elem_of_In, tree_order_elem.
  by rewrite (proj1 (proj1 Hd)).
Qed.

(** The move of a directory to a place where there is none, by a rename or by
    a copy. *)
Lemma shutil_move_spec :
  spec (st everywhere uncopied) (shutil_move src dst)
    (λ r d, match r with
            | Ret _ => st everywhere (λ f, subtree dst f = new) d
            | Raise e => is_oserror e = true
            end).
Proof using Hsd Hnew.
  unfold shutil_move. apply spec_is_dir. intros into.
  apply spec_exists. intros there.
  destruct into.
  { intros d [[[[_ Hd] _] Hi] _]. exfalso. unfold is_dir_node in Hi.
    rewrite <-subtree_root, Hd, lookup_empty in Hi. done. }
  cbn [andb]. eapply spec_catch with (Q := st everywhere uncopied).
  - eapply spec_conseq with (P := st everywhere uncopied); [naive_solver| |].
    2:{ apply (os_replace_spec everywhere uncopied (λ f, subtree dst f = new)).
        + by apply apart_ne.
        + intros f [Hf _]. split; [done|]. by rewrite subtree_move_dst. }
    by intros [[]|e].
  - intros e _. destruct Hsd as [H1 H2]. rewrite H1. rewrite bool_decide_false by (by intros []).
    eapply spec_bind with (Q := λ _, st everywhere (λ f, subtree dst f = new)).
    + eapply spec_post; [apply copytree_spec|]. by intros [[]|e'].
    + intros []. eapply spec_post.
      * apply (keeps_rmtree everywhere (λ f, subtree dst f = new) dst); [done| |exact Hsd].
        congruence.
      * intros [[]|e'] d [Hr Hd]; [exact Hd|apply Hr].
Qed.

Lemma initial_move_spec :
  spec (st everywhere uncopied) (_perform_initial_target_move src dst)
    (λ r d, match r with
            | Ret true => st everywhere (λ f, subtree dst f = new) d
            | Ret false => True
            | Raise e => False
            end).
Proof using Hsd Hnew.
  unfold _perform_initial_target_move. eapply spec_catch with (Q := st everywhere uncopied).
  - eapply spec_bind with (Q := λ _, st everywhere (λ f, subtree dst f = new)); [|intros []; by apply spec_ret].
    eapply spec_post.
    + apply (os_replace_spec everywhere uncopied (λ f, subtree dst f = new)).
      * by apply apart_ne.
      * intros f [Hf _]. split; [done|]. by rewrite subtree_move_dst.
    + by intros [[]|e].
  - intros e _. eapply spec_catch with (Q := λ _, True); [|intros e' _; by apply spec_ret].
    eapply spec_bind with (Q := λ _, st everywhere (λ f, subtree dst f = new)); [|intros []; by apply spec_ret].
    eapply spec_post; [apply shutil_move_spec|]. by intros [[]|e'].
Qed.
End copy.

(** ** [execute_atomic_swap] *)

Section execute.
Context (timestamp : string) (staged target : path) (backup : option path) (old new : Tree).
Let tomb := tombstone_of target timestamp.
Context (Hts : apart target staged) (Htt : apart target tomb) (Hst : apart staged tomb).
Context (Hbackup : match backup with Some b => apart target b | None => True end).

Lemma parent_below p q : apart p q → strip q (parent p) = None.
Proof using.
  intros [H1 H2]. apply strip_None. rewrite strip_None in H2. intros r E.
  destruct p as [|c p _] using rev_ind; [by apply (H2 r)|].
  rewrite parent_snoc in E. apply (H2 (r ++ [c])). by rewrite E, app_assoc.
Qed.

Lemma parent_above p : p ≠ [] → strip p (parent p) = None.
Proof using.
  intros Hp. apply strip_None. intros r E. destruct p as [|c p _] using rev_ind; [done|].
  rewrite parent_snoc in E. apply (f_equal length) in E. rewrite !length_app in E. cbn in E. lia.
Qed.

Lemma target_not_root : target ≠ [].
Proof using Hts. intros E. destruct Hts as [H _]. by rewrite E in H. Qed.

(** Making the parents of the target touches neither tree. *)
Lemma make_parents_spec (V : Tree → Prop) :
  (∀ f, subtree target f = old → V f) →
  spec (st V (unswapped target staged old new)) (mkdir_parents (parent target))
    (λ r d, match r with
            | Ret _ => st V (unswapped target staged old new) d
            | Raise e => is_oserror e = true ∧ st V (unswapped target staged old new) d
            end).
Proof using Hts.
  intros HV. eapply spec_conseq with (P := λ d, st V (λ f, subtree target f = old) d ∧
    st (λ _, True) (λ f, subtree staged f = new) d).
  3:{ apply spec_and.
      - apply (keeps_mkdir_parents V _ target HV); [congruence|].
        apply parent_above, target_not_root.
      - apply (keeps_mkdir_parents (λ _, True) (λ f, subtree staged f = new) staged); [done|congruence|].
        by apply parent_below. }
  - intros d [[H1 H2] Hs]. split; [by split|]. split; [done|]. by apply Forall_true.
  - intros [[]|e] d [[He [H1 Hs]] [_ [H2 _]]]; [by split|].
    split; [apply He|]. by split.
Qed.

Lemma execute_spec :
  is_Some (old !! []) → new !! [] = Some NDir →
  spec (st (recoverable target tomb old new) (unswapped target staged old new))
    (execute_atomic_swap timestamp staged target backup)
    (λ r d, match r with
            | Ret true => st (recoverable target tomb old new) (λ f, subtree target f = new) d
            | Ret false => st (recoverable target tomb old new) (interrupted target staged tomb old new) d
            | Raise _ => False
            end).
Proof using Hts Htt Hst Hbackup.
  intros Hold Hnew. unfold execute_atomic_swap.
  assert (∀ d, st (recoverable target tomb old new) (unswapped target staged old new) d →
    st (recoverable target tomb old new) (interrupted target staged tomb old new) d) as Hstay.
  { intros d. apply st_impl. by left. }
  apply spec_is_dir. intros []; cbn [negb].
  2:{ apply spec_ret. intros d [Hd _]. by apply Hstay. }
  rewrite bool_decide_false by (by apply not_eq_sym, apart_ne).
  eapply spec_bind with (Q := λ _, st (recoverable target tomb old new) (unswapped target staged old new)).
  { eapply spec_catch with (Q := st (recoverable target tomb old new) (unswapped target staged old new)).
    - eapply spec_bind with (Q := λ _, st (recoverable target tomb old new) (unswapped target staged old new)).
      + eapply spec_conseq; [|intros r d H; exact H|apply make_parents_spec; by left]. naive_solver.
      + intros _. by apply spec_ret.
    - intros e _. by apply spec_ret. }
  intros []; cbn [negb]; [|by apply spec_ret].
  apply spec_exists. intros []; cbn [negb].
  2:{ intros d [[[Ht _] _] Hd]. exfalso. apply bool_decide_eq_false in Hd. apply Hd.
      by rewrite <-subtree_root, Ht. }
  eapply spec_bind with (Q := λ b d, if b : bool
    then st (recoverable target tomb old new) (λ f, subtree target f = new) d
    else st (recoverable target tomb old new) (interrupted target staged tomb old new) d).
  { eapply spec_conseq; [| |apply (swap_with_rollback_spec target staged tomb old new Hts Htt Hst)].
    - naive_solver.
    - by intros [[]|e]. }
  intros []; cbn [negb]; [|by apply spec_ret].
  eapply spec_bind with (Q := λ _, st (recoverable target tomb old new) (λ f, subtree target f = new)).
  - eapply spec_post; [by apply (archive_keeps target tomb old new Htt)|].
    intros [[]|e] d [Hr Hd]; [exact Hd|]. by destruct Hr.
  - intros _. by apply spec_ret.
Qed.

Lemma execute_first_spec :
  old = ∅ → new !! [] = Some NDir →
  spec (st (λ _, True) (unswapped target staged old new))
    (execute_atomic_swap timestamp staged target backup)
    (λ r d, match r with
            | Ret true => subtree target (fs d) = new
            | Ret false => True
            | Raise _ => False
            end).
Proof using Hts.
  intros Hempty Hnew. unfold execute_atomic_swap.
  apply spec_is_dir. intros []; cbn [negb]; [|by apply spec_ret].
  rewrite bool_decide_false by (by apply not_eq_sym, apart_ne).
  eapply spec_bind with (Q := λ _, st (λ _, True) (unswapped target staged old new)).
  { eapply spec_catch with (Q := st (λ _, True) (unswapped target staged old new)).
    - eapply spec_bind with (Q := λ _, st (λ _, True) (unswapped target staged old new)).
      + eapply spec_conseq; [|intros r d H; exact H|apply (make_parents_spec (λ _, True))]; [naive_solver|done].
      + intros _. by apply spec_ret.
    - intros e _. by apply spec_ret. }
  intros []; cbn [negb]; [|by apply spec_ret].
  apply spec_exists. intros []; cbn [negb].
  { intros d [[[Ht _] _] Hd]. exfalso. apply bool_decide_eq_true in Hd.
    rewrite <-subtree_root, Ht, Hempty, lookup_empty in Hd. by destruct Hd. }
  eapply spec_conseq; [| |apply (initial_move_spec staged target new (apart_sym _ _ Hts) Hnew)].
  - intros d [[[H1 H2] Hs] _]. split; [|done]. split; [done|]. by rewrite H1.
  - intros [[]|e] d Hd; [apply Hd|done|done].
Qed.
End execute.

(** ** Extraction stays inside the staging directory *)

Section containment.
Context (limit : nat) (root : path) (f0 : Tree).

(** A link that only leads further down. *)
Definition safe_target (t : string) : Prop :=
  startswith t "/" = false ∧ ".." ∉ str_split "/" t.

Definition links_inside (t : Tree) : Prop :=
  ∀ p s, t !! p = Some (NLink s) → safe_target s.

(** Nothing outside [root] differs from [f0], and no link in it leads out. *)
Definition contained (f : Tree) : Prop :=
  (∀ p, strip root p = None → f !! p = f0 !! p) ∧ links_inside (subtree root f).

Definition safe_member (m : TarInfo) : Prop :=
  has_dotdot (tar_name m) = false ∧
  (is_link m = true → rooted (linkname m) = false ∧ has_dotdot (linkname m) = false).

Definition inside (p : path) : Prop := is_Some (strip root p).

Lemma inside_app p r : inside p → inside (p ++ r).
Proof using. intros [s ->%strip_Some]. exists (s ++ r). by rewrite <-app_assoc, strip_app. Qed.

Lemma walk_inside f n cur todo q :
  links_inside (subtree root f) → inside cur → ".." ∉ todo →
  walk n f cur todo = Some q → inside q.
Proof using.
  intros Hf. revert cur todo. induction n as [|n IH]; intros cur todo Hc Ht.
  { destruct todo; cbn; [by intros [= <-]|done]. }
  destruct todo as [|c todo]; cbn [walk]; [by intros [= <-]|].
  apply not_elem_of_cons in Ht as [Hd Ht].
  destruct (bool_decide (c = "" ∨ c = ".")); [by apply IH|].
  rewrite bool_decide_false by done.
  destruct (f !! (cur ++ [c])) as [[| |s|]|] eqn:E; try (apply IH; [by apply inside_app|done]).
  destruct Hc as [r ->%strip_Some].
  rewrite <-app_assoc, <-lookup_subtree in E. destruct (Hf _ _ E) as [Hs Hdd]. rewrite Hs.
  apply IH; [by exists r; rewrite strip_app|]. rewrite elem_of_app. tauto.
Qed.

Lemma parts_no_dotdot s : has_dotdot s = false → ".." ∉ parts s.
Proof using. apply bool_decide_eq_false. Qed.

Lemma split_no_dotdot s : has_dotdot s = false → ".." ∉ str_split "/" s.
Proof using.
  intros H%parts_no_dotdot Hin. apply H. unfold parts. apply list_elem_of_In, List.filter_In.
  split; [by apply list_elem_of_In|done].
Qed.

Lemma rooted_safe s : rooted s = false → has_dotdot s = false → safe_target s.
Proof using.
  unfold rooted. intros [[H _]%orb_false_iff _]%orb_false_iff Hd. split; [done|].
  by apply split_no_dotdot.
Qed.

Lemma removelast_no_dotdot (l : path) : ".." ∉ l → ".." ∉ removelast l.
Proof using.
  destruct l as [|c l _] using rev_ind; [done|]. rewrite removelast_last.
  intros H Hin. apply H. apply elem_of_app. by left.
Qed.

Lemma root_inside : inside root.
Proof using. exists []. apply strip_Some. by rewrite app_nil_r. Qed.

Lemma follow_inside f comps q :
  contained f → ".." ∉ comps → follow limit f root comps = Some q → inside q.
Proof using. intros [_ Hf] Hc. by apply walk_inside; [|apply root_inside|]. Qed.

Lemma place_inside f comps q :
  contained f → ".." ∉ comps → place limit f root comps = Some q → inside q.
Proof using.
  intros [_ Hf] Hc. unfold place. destruct comps as [|c comps]; [intros [= <-]; apply root_inside|].
  destruct (walk _ _ _ _) as [q'|] eqn:E; [|done]. intros [= <-]. apply inside_app.
  eapply walk_inside; [exact Hf|apply root_inside| |exact E]. by apply removelast_no_dotdot.
Qed.

Definition safe_node (n : Node) : Prop :=
  match n with NLink t => safe_target t | _ => True end.

Lemma contained_insert f q n : inside q → safe_node n → contained f → contained (<[q:=n]> f).
Proof using.
  intros [r ->%strip_Some] Hn [H1 H2]. split.
  - intros p Hp. rewrite lookup_insert_ne; [by apply H1|]. intros <-. by rewrite strip_app in Hp.
  - intros p s. rewrite lookup_subtree. destruct (decide (r = p)) as [->|Hne].
    + rewrite lookup_insert_eq. by intros [= ->].
    + rewrite lookup_insert_ne by (intros E%app_inv_head; done).
      rewrite <-lookup_subtree. apply H2.
Qed.

Lemma contained_delete f q : inside q → contained f → contained (delete q f).
Proof using.
  intros [r ->%strip_Some] [H1 H2]. split.
  - intros p Hp. rewrite lookup_delete_ne; [by apply H1|]. intros <-. by rewrite strip_app in Hp.
  - intros p s. rewrite lookup_subtree. destruct (decide (r = p)) as [->|Hne].
    + by rewrite lookup_delete_eq.
    + rewrite lookup_delete_ne by (intros E%app_inv_head; done).
      rewrite <-lookup_subtree. apply H2.
Qed.

Context (V : Tree → Prop) (HV : ∀ f, contained f → V f).
Notation stays m := (preserves (st V contained) m).

Lemma update_stays f : (∀ g, contained g → contained (f g)) → stays (update f).
Proof using HV.
  intros Hf d [Hd Hs]. assert (contained (f (fs d))) by auto. split; [done|]. constructor; auto.
Qed.

Lemma fails_stays : stays sys_fails.
Proof using. intros [f [|[] l] s] Hd; exact Hd. Qed.

Lemma get_stays {B : Type} (k : Disk → PyM Disk B) :
  (∀ d, contained (fs d) → stays (k d)) → stays (py_bind py_get k).
Proof using. intros H d Hd. apply (H d); [apply Hd|exact Hd]. Qed.

Lemma catch_stays {A : Type} (m : PyM Disk A) h :
  stays m → (∀ e, stays (h e)) → stays (catch_os m h).
Proof using.
  intros Hm Hh d Hd. specialize (Hm d Hd). unfold catch_os, py_try.
  destruct (m d) as [[a|e] d']; [exact Hm|]. destruct (is_oserror e); [by apply Hh|exact Hm].
Qed.

Lemma at_path_stays {A : Type} o (k : path → PyM Disk A) :
  (∀ q, o = Some q → stays (k q)) → stays (at_path o k).
Proof using. intros H. destruct o as [q|]; cbn; [by apply H|apply preserves_raise]. Qed.

#[local] Hint Resolve fails_stays : py.

Lemma insert_stays q n : inside q → safe_node n → stays (update (insert q n)).
Proof using HV. intros. apply update_stays. intros g. by apply contained_insert. Qed.
Lemma delete_stays q : inside q → stays (update (delete q)).
Proof using HV. intros. apply update_stays. intros g. by apply contained_delete. Qed.
#[local] Hint Resolve insert_stays delete_stays : py.

Lemma mkdir_stays q : inside q → stays (os_mkdir q).
Proof using HV.
  intros Hq. unfold os_mkdir. apply preserves_bind; [auto with py|]. intros _.
  apply preserves_bind; [auto with py|]. intros d. case_match; [auto with py|].
  case_match; [by apply insert_stays|auto with py].
Qed.
#[local] Hint Resolve mkdir_stays : py.

Lemma makedirs_stays above todo : ".." ∉ above ++ todo → stays (makedirs limit root above todo).
Proof using HV.
  revert above. induction todo as [|c todo IH]; intros dn Hc; cbn [makedirs]; [auto with py|].
  assert (".." ∉ dn ++ [c]) as Hc'.
  { intros Hin. apply Hc. rewrite elem_of_app in *. rewrite list_elem_of_singleton in Hin.
    destruct Hin as [Hin| ->]; [by left|right; by constructor]. }
  apply get_stays. intros d Hd.
  apply preserves_bind; [|intros _; apply IH; by rewrite <-app_assoc].
  apply at_path_stays. intros q Hq.
  case_bool_decide; [auto with py|]. apply at_path_stays. intros q' Hq'.
  apply mkdir_stays. by eapply place_inside.
Qed.

Lemma write_member_stays comps data : ".." ∉ comps → stays (write_member limit root comps data).
Proof using HV.
  intros Hc. unfold write_member. apply preserves_bind; [auto with py|]. intros _.
  apply get_stays. intros d Hd. apply at_path_stays. intros q Hq.
  apply follow_inside in Hq; [|done..].
  assert (stays (if is_dir_node (fs d !! parent q)
    then update (insert q (NFile "")) ;;; sys_fails ;;; update (insert q (NFile data))
    else py_raise OSError)) as H.
  { case_match; [|auto with py]. apply preserves_bind; [by apply insert_stays|]. intros _.
    apply preserves_bind; [auto with py|]. intros _. by apply insert_stays. }
  destruct (fs d !! q) as [[]|]; try exact H; auto with py.
Qed.

Lemma make_entry_stays comps replace n :
  ".." ∉ comps → safe_node n → stays (make_entry limit root comps replace n).
Proof using HV.
  intros Hc Hn. unfold make_entry. apply preserves_bind; [auto with py|]. intros _.
  apply get_stays. intros d Hd. apply at_path_stays. intros q Hq.
  apply place_inside in Hq; [|done..]. destruct (negb _); [auto with py|].
  assert (stays (if replace then update (delete q) ;;; sys_fails ;;; update (insert q n)
                 else py_raise OSError)) as H.
  { destruct replace; [|auto with py]. apply preserves_bind; [by apply delete_stays|]. intros _.
    apply preserves_bind; [auto with py|]. intros _. by apply insert_stays. }
  destruct (fs d !! q) as [[]|]; try exact H; auto with py.
Qed.

Lemma make_directory_stays comps : ".." ∉ comps → stays (make_directory limit root comps).
Proof using HV.
  intros Hc. unfold make_directory. apply preserves_bind; [auto with py|]. intros _.
  apply get_stays. intros d Hd. apply at_path_stays. intros q Hq. apply place_inside in Hq; [|done..].
  repeat case_match; first [by apply insert_stays | auto with py].
Qed.

Lemma make_member_stays comps m :
  ".." ∉ comps → safe_member m → stays (make_member limit root comps m).
Proof using HV.
  intros Hc [Hn Hl]. unfold make_member, is_link in *. destruct (tar_kind m).
  - by apply write_member_stays.
  - by apply make_directory_stays.
  - apply make_entry_stays; [done|]. destruct Hl; [done|]. by apply rooted_safe.
  - auto with py.
  - by apply make_entry_stays.
Qed.

Lemma make_hardlink_stays members comps t :
  ".." ∉ comps → Forall safe_member members → has_dotdot t = false →
  stays (make_hardlink limit members root comps t).
Proof using HV.
  intros Hc Hm Ht. unfold make_hardlink. apply get_stays. intros d Hd.
  destruct (follow limit (fs d) root (parts t)) as [q|] eqn:Eq; cbn [mbind option_bind].
  - apply follow_inside in Eq; [|done|by apply parts_no_dotdot].
    destruct (fs d !! q) as [n|] eqn:En.
    + assert (safe_node n) as Hn.
      { destruct Eq as [r ->%strip_Some]. rewrite <-lookup_subtree in En. destruct Hd as [_ Hd].
        destruct n; try exact I. by eapply Hd. }
      destruct n; try (by apply make_entry_stays); auto with py.
    + destruct (List.find _ _) as [m|] eqn:Em; [|auto with py].
      apply List.find_some in Em as [Hin _]. rewrite List.Forall_forall in Hm.
      apply make_member_stays; auto.
  - destruct (List.find _ _) as [m|] eqn:Em; [|auto with py].
    apply List.find_some in Em as [Hin _]. rewrite List.Forall_forall in Hm.
    apply make_member_stays; auto.
Qed.

Lemma extract_member_stays members m :
  Forall safe_member members → safe_member m → stays (extract_member limit members root m).
Proof using HV.
  intros Hms Hm. pose proof Hm as [Hn Hl]. pose proof (parts_no_dotdot _ Hn) as Hp.
  unfold extract_member. apply preserves_bind.
  { apply makedirs_stays. by apply removelast_no_dotdot. }
  intros _. pose proof (make_member_stays (parts (tar_name m)) m Hp Hm) as H.
  destruct (tar_kind m) eqn:E; try done.
  apply make_hardlink_stays; [done|done|]. apply Hl. unfold is_link. by rewrite E.
Qed.

(** An extraction filter may refuse members, and keeps them safe. *)
Definition safe_filter (filter : TarInfo → result TarInfo) : Prop :=
  ∀ m m', safe_member m → filter m = Ret m' → safe_member m'.

Lemma extractall_stays filter members :
  safe_filter filter → Forall safe_member members → stays (extractall limit filter members root).
Proof using HV.
  intros Hf Hm. unfold extractall.
  assert (∀ todo, Forall safe_member todo → stays (extract_loop limit filter members todo root)) as H.
  { induction 1 as [|m todo Hsm _ IH]; cbn [extract_loop]; [auto with py|].
    destruct (filter m) as [m'|e] eqn:E; [|auto with py].
    apply preserves_bind; [|by intros _]. apply extract_member_stays; [done|]. by eapply Hf. }
  by apply H.
Qed.
End containment.

(** ** The guards on the members *)

Lemma resolve_reads limit (P : Tree → list Tree → Prop) p :
  preserves (λ d, P (fs d) (seen d)) (resolve limit p).
Proof.
  unfold resolve. apply preserves_bind; [intros [f [|[] l] s] Hd; exact Hd|]. intros _.
  apply preserves_bind; [auto with py|]. intros d. case_match; auto with py.
Qed.

Lemma guarded_resolve_reads limit P what p :
  preserves (λ d, P (fs d) (seen d)) (guarded_resolve limit what p).
Proof.
  intros d Hd. pose proof (resolve_reads limit P p d Hd) as H.
  unfold guarded_resolve, py_try. destruct (resolve limit p d) as [[q|e] d']; [exact H|].
  destruct e; try exact H; by destruct (is_oserror _).
Qed.

(** Whatever the file system holds, a member that passes is safe. *)
Lemma validate_tar_member_spec limit (P : Tree → list Tree → Prop) m root :
  spec (λ d, P (fs d) (seen d)) (_validate_tar_member limit m root)
    (λ r d, P (fs d) (seen d) ∧ match r with Ret _ => safe_member m | Raise _ => True end).
Proof.
  unfold _validate_tar_member.
  destruct (rooted (tar_name m)); [by apply spec_raise|].
  destruct (has_dotdot (tar_name m)) eqn:Hn; [by apply spec_raise|].
  assert (∀ what p (k : path → PyM Disk unit), (∀ q, spec (λ d, P (fs d) (seen d)) (k q)
      (λ r d, P (fs d) (seen d) ∧ match r with Ret _ => safe_member m | Raise _ => True end)) →
    spec (λ d, P (fs d) (seen d)) (py_bind (guarded_resolve limit what p) k)
      (λ r d, P (fs d) (seen d) ∧ match r with Ret _ => safe_member m | Raise _ => True end)) as Hr.
  { intros what p k Hk. eapply spec_bind; [|exact Hk].
    eapply spec_post; [apply spec_preserves, guarded_resolve_reads|]. by intros [q|e] d. }
  apply Hr. intros resolved_root. apply Hr. intros resolved_target.
  destruct (negb _); [by apply spec_raise|].
  destruct (is_link m) eqn:Hl; cbn [negb].
  2:{ apply spec_ret. intros d Hd. split; [done|]. split; [done|]. congruence. }
  destruct (rooted (linkname m)) eqn:Hlr; [by apply spec_raise|].
  destruct (has_dotdot (linkname m)) eqn:Hld; [by apply spec_raise|].
  apply Hr. intros resolved_link. destruct (negb _); [by apply spec_raise|].
  apply spec_ret. intros d Hd. split; [done|]. by split.
Qed.

Lemma validate_members_spec limit (P : Tree → list Tree → Prop) members root :
  spec (λ d, P (fs d) (seen d)) (validate_members limit members root)
    (λ r d, P (fs d) (seen d) ∧ match r with Ret _ => Forall safe_member members | Raise _ => True end).
Proof.
  induction members as [|m members IH]; cbn [validate_members]; [by apply spec_ret; split|].
  eapply spec_bind with (Q := λ _ d, safe_member m ∧ P (fs d) (seen d)).
  - eapply spec_post; [apply validate_tar_member_spec|]. intros [[]|e] d []; by split.
  - intros _. apply spec_pure. intros Hm. eapply spec_post; [exact IH|].
    intros [a|e] d []; split; auto.
Qed.

(** ** The staged release *)

(** ** Extraction without failures *)

Lemma steady_at_path {A} o (k : path → PyM Disk A) : (∀ q, steady (k q)) → steady (at_path o k).
Proof. intros H. destruct o; cbn; [done|auto with steady]. Qed.
#[local] Hint Resolve steady_at_path : steady.

Ltac steady_at := repeat (steady; try (apply steady_at_path; intros ?)).

Lemma steady_makedirs limit root above todo : steady (makedirs limit root above todo).
Proof. revert above. induction todo as [|c todo IH]; intros above; cbn [makedirs]; steady_at. Qed.
Lemma steady_write_member limit root comps data : steady (write_member limit root comps data).
Proof. unfold write_member. steady_at. Qed.
Lemma steady_make_entry limit root comps replace n : steady (make_entry limit root comps replace n).
Proof. unfold make_entry. steady_at. Qed.
Lemma steady_make_directory limit root comps : steady (make_directory limit root comps).
Proof. unfold make_directory. steady_at. Qed.
#[local] Hint Resolve steady_makedirs steady_write_member steady_make_entry steady_make_directory : steady.

Lemma steady_extract_member limit members root m : steady (extract_member limit members root m).
Proof.
  assert (Hm : ∀ comps m, steady (make_member limit root comps m)).
  { intros comps m'. unfold make_member. steady. }
  unfold extract_member, make_hardlink. steady; auto.
Qed.

Lemma steady_extractall limit filter members root : steady (extractall limit filter members root).
Proof.
  unfold extractall. generalize members at 2 as todo. induction todo as [|m todo IH]; cbn [extract_loop]; [steady|].
  pose proof steady_extract_member. steady; auto.
Qed.

Lemma steady_read_members read_archive tarball : steady (read_members read_archive tarball).
Proof. unfold read_members. steady. Qed.

Section release.
Context (limit : nat) (read_archive : string → result (list TarInfo)).
Context (data_filter : option (TarInfo → result TarInfo)).
Context (Hfilter : match data_filter with Some f => safe_filter f | None => True end).

Lemma outside_kept root f0 f p : apart p root → contained root f0 f → subtree p f = subtree p f0.
Proof using.
  intros Hp [H _]. apply map_eq. intros r. rewrite !lookup_subtree. apply H.
  by apply apart_strip, apart_sym.
Qed.

Lemma stage_body_spec (V : Tree → Prop) tarball stage f0 :
  (∀ f, contained stage f0 f → V f) →
  links_inside (subtree stage f0) →
  spec (st V (λ f, f = f0)) (stage_body limit read_archive data_filter tarball stage)
    (λ _ d, st V (contained stage f0) d).
Proof using Hfilter.
  intros HV Hlinks. unfold stage_body.
  eapply spec_try with (Q := λ _ d, st V (contained stage f0) d).
  2:{ intros e. assert (∀ e', spec (st V (contained stage f0)) (py_raise (A:=unit) e')
        (λ _ d, st V (contained stage f0) d)) by (by intros e'; apply spec_raise).
      destruct e; auto. repeat case_match; auto. }
  assert (∀ d, st V (λ f, f = f0) d → st V (contained stage f0) d) as Hstart.
  { intros d [Hd Hs]. split; [|done]. rewrite Hd. by split. }
  eapply spec_bind with (Q := λ _, st V (λ f, f = f0)).
  { intros d Hd. unfold read_members, py_bind, sys_fails.
    destruct (fails d) as [|[] l]; cbn [fs].
    1,3: cbn; destruct (_ !! tarball) as [[data| | |]|]; try (by apply Hstart);
      destruct (read_archive data); [exact Hd|by apply Hstart].
    by apply Hstart. }
  intros members.
  eapply spec_bind with (Q := λ _ d, Forall safe_member members ∧ st V (λ f, f = f0) d).
  { eapply spec_post; [apply (validate_members_spec limit (λ f s, f = f0 ∧ Forall V s))|].
    intros [[]|e] d [Hd Hm]; [by split|by apply Hstart]. }
  intros _. apply spec_pure. intros Hm.
  eapply spec_conseq with (P := st V (contained stage f0)) (Q := λ _, st V (contained stage f0)).
  - exact Hstart.
  - by intros [[]|e].
  - apply spec_preserves. destruct data_filter as [filter|].
    + by apply extractall_stays.
    + apply extractall_stays; [done| |done]. intros m m' Hs [= <-]. done.
Qed.
(** A body that returns has extracted every member. *)
Lemma stage_body_complete tarball stage d d' :
  stage_body limit read_archive data_filter tarball stage d = (Ret tt, d') →
  ∀ s, ∃ s', (members <- read_members read_archive tarball ;;
    extractall limit (default Ret data_filter) members stage) (mkDisk (fs d) [] s) = (Ret tt, mkDisk (fs d') [] s').
Proof using.
  clear Hfilter. intros H s. unfold stage_body, py_try in H.
  match type of H with (match ?m d with _ => _ end) = _ => destruct (m d) as [[[]|e] d2] eqn:E end.
  2:{ destruct e; try done. repeat case_match; done. }
  injection H as ->. unfold py_bind in E |- *.
  destruct (read_members read_archive tarball d) as [[ms|e] d1] eqn:E1; [|done].
  destruct (steady_read_members _ _ _ _ _ E1 s) as [s1 ->].
  pose proof (validate_members_spec limit (λ f _, f = fs d1) ms stage d1 eq_refl) as Hv.
  destruct (validate_members limit ms stage d1) as [[[]|e] dv]; [|done]. destruct Hv as [<- _].
  destruct data_filter as [f|]; cbn [default]; by apply (steady_extractall _ _ _ _ _ _ _ E).
Qed.
End release.

Lemma stage_release_spec limit read_archive data_filter dir n name timestamp tarball f0 old :
  match data_filter with Some f => safe_filter f | None => True end →
  name ≠ n → name ≠ n +:+ ".old." +:+ timestamp →
  spec (λ d, st (intact dir n old) (λ f, subtree (dir ++ [n]) f = old) d ∧ wf_tree (fs d) ∧ fs d = f0)
    (stage_release_package limit read_archive data_filter name timestamp tarball (dir ++ [n]))
    (λ r d, block_result dir n timestamp old
              (λ _ t, complete limit read_archive data_filter name tarball dir n f0 t ∧ links_inside t)
              (match r with Ret _ => Ret tt | Raise e => Raise e end) d).
Proof.
  intros Hf Hname Hts. unfold stage_release_package.
  set (accepted := λ (_ : unit) t, complete limit read_archive data_filter name tarball dir n f0 t ∧ links_inside t).
  apply spec_exists. intros []; cbn [negb].
  2:{ apply spec_raise. intros d [[Hd _] _]. by apply intact_result. }
  apply spec_is_file. intros []; cbn [negb].
  2:{ apply spec_raise. intros d [[[Hd _] _] _]. by apply intact_result. }
  eapply spec_bind with (Q := λ _, block_result dir n timestamp old accepted (Ret tt)).
  2:{ intros _. by apply spec_ret. }
  eapply spec_conseq with (P := λ d, st (intact dir n old) (λ f, subtree (dir ++ [n]) f = old) d ∧ wf_tree (fs d) ∧ fs d = f0);
    [by intros d [[Hd _] _]| |].
  2:{ apply (with_staging_spec dir n name timestamp Hname Hts f0 old (A:=unit) accepted).
      intros d [(H1 & H2 & s0 & H3) Hs].
      pose proof (stage_body_spec limit read_archive data_filter Hf (intact dir n old) tarball
        (dir ++ [name]) (fs d)) as H.
      destruct (stage_apart dir n name timestamp Hname Hts) as [Ha _].
      assert (∀ f, contained (dir ++ [name]) (fs d) f → subtree (dir ++ [n]) f = old) as Hout.
      { intros f Hc. rewrite <-H1. by eapply outside_kept. }
      specialize (H Hout). assert (links_inside (subtree (dir ++ [name]) (fs d))) as Hl.
      { rewrite H2. intros p s Hp. by apply lookup_singleton_Some in Hp as [_ [=]]. }
      specialize (H Hl d (conj eq_refl Hs)). destruct H as [Hc Hs'].
      pose proof (stage_body_complete limit read_archive data_filter tarball (dir ++ [name]) d) as Hx.
      destruct (stage_body _ _ _ _ _ d) as [[[]|e] d']; cbn in *.
      - split; [|done]. split; [by apply Hout|]. split; [|apply Hc].
        destruct (Hx d' eq_refl s0) as [s' E]. exists (fs d'), s'. split; [|done].
        unfold extraction, py_bind. rewrite H3. exact E.
      - split; [by apply Hout|done]. }
  by intros [[]|e] d.
Qed.

(** * Theorems *)


(** Extracting members that passed the guards changes nothing outside the
    staging directory, at any moment and whatever fails. *)
Theorem extraction_contained limit members root d d1 d2 r :
  validate_members limit members root d = (Ret tt, d1) →
  links_inside (subtree root (fs d)) → seen d = [] →
  extractall limit Ret members root d1 = (r, d2) →
  ∀ f p, f ∈ fs d2 :: seen d2 → strip root p = None → f !! p = fs d !! p.
Proof.
  intros Hv Hl Hs He f p Hf Hp.
  destruct (validate_members_spec limit (λ f s, f = fs d ∧ s = []) members root d (conj eq_refl Hs))
    as [[H1 H2] Hm]. rewrite Hv in H1, H2, Hm. cbn in H1, H2, Hm.
  pose proof (extractall_stays limit root (fs d) (contained root (fs d)) (λ f H, H) Ret members) as H.
  specialize (H ltac:(by intros m m' Hsm [= <-]) Hm d1). rewrite He in H. cbn in H.
  destruct H as [Hc Hcs].
  { split; [rewrite H1; by split|rewrite H2; constructor]. }
  rewrite Forall_forall in Hcs. apply elem_of_cons in Hf as [->|Hf]; [by apply Hc|].
  by apply (Hcs f Hf).
Qed.

(** C15: Exchanging the live directory for a staged one never raises; whatever
    fails, at every moment the live directory is the old or the new one, or is
    missing with the old one complete in the tombstone; success means the new
    one is live, failure that the old one is in place or in the tombstone and
    the staged one is untouched. *)
Theorem swap_crash_safe timestamp staged target backup d :
  let tomb := tombstone_of target timestamp in
  let old := subtree target (fs d) in
  let new := subtree staged (fs d) in
  apart target staged → apart target tomb → apart staged tomb →
  match backup with Some b => apart target b | None => True end →
  is_Some (fs d !! target) → fs d !! staged = Some NDir → seen d = [] →
  let '(r, d') := execute_atomic_swap timestamp staged target backup d in
  Forall (recoverable target tomb old new) (seen d') ∧
  match r with
  | Ret true => subtree target (fs d') = new
  | Ret false => (subtree target (fs d') = old ∨
                  subtree target (fs d') = ∅ ∧ subtree tomb (fs d') = old) ∧
                 subtree staged (fs d') = new
  | Raise _ => False
  end.
Proof.
  intros tomb old new H1 H2 H3 Hb Ht Hst Hseen.
  pose proof (execute_spec timestamp staged target backup old new H1 H2 H3 Hb) as H.
  specialize (H ltac:(unfold old; by rewrite subtree_root)
    ltac:(unfold new; by rewrite subtree_root) d).
  destruct (execute_atomic_swap timestamp staged target backup d) as [[[]|e] d']; cbn in H;
    (destruct H as [Hr Hs] || destruct H);
    try (split; [split; [done|done]|rewrite Hseen; constructor]).
  - by split.
  - split; [done|]. destruct Hr as [[? ?]|(?&?&?)]; auto.
Qed.

(** Streaming a file through the hasher ends within size / 64 KiB + 2 reads
    and gives the SHA-256 of the whole content, unless a read fails. *)
Theorem compute_sha256_terminates p d data :
  fs d !! p = Some (NFile data) →
  (∀ fuel, (reads_of (String.length data) ≤ fuel)%nat →
     (hash_loop fuel data [] d).1 ≠ Ret None) ∧
  ((compute_sha256 p d).1 = Ret (hex_of_bytes (sha256 (bytes_of data))) ∨
   (compute_sha256 p d).1 = Raise OSError ∧ true ∈ fails d).
Proof.
  intros Hp. split.
  - intros fuel Hfuel E.
    destruct (hash_loop_spec (fs d) (fails d) fuel data []) with (w := d) as [[H|[H _]] _]; try congruence.
    + pose proof (reads_enough (String.length data)). nia.
    + by split.
  - destruct (compute_sha256_spec (fs d) (fails d) p data Hp d) as [H _]; [by split|exact H].
Qed.

(** A checksum is accepted exactly when the normalised expectation is the
    digest of the file; one with non-ASCII characters raises [TypeError]. *)
Theorem verify_checksum_exact p expected d data :
  fs d !! p = Some (NFile data) → true ∉ fails d →
  let want := str_strip (str_lower expected) in
  (verify_checksum p expected d).1 =
    if str_isascii want then Ret (String.eqb (hex_of_bytes (sha256 (bytes_of data))) want)
    else Raise (TypeError "comparing strings with non-ASCII characters is not supported").
Proof.
  intros Hp Hok want. unfold verify_checksum, is_file, py_bind, py_get, py_ret.
  rewrite Hp. cbn [is_file_node negb]. unfold py_try.
  pose proof (compute_sha256_spec (fs d) (fails d) p data Hp d ltac:(by split)) as H.
  destruct (compute_sha256 p d) as [[h|e] d'] eqn:E; cbn in H; [|naive_solver].
  destruct H as [[[= ->]|[_ Hin]] _]; [|done]. cbn [fst].
  rewrite digest_normal. fold want. unfold compare_digest.
  assert (str_isascii (digest data) = true) as -> by apply hex_of_bytes_isascii, sha256_bound.
  cbn [andb]. by destruct (str_isascii want).
Qed.

(** * Witnesses *)

Definition example_tree : Tree :=
  list_to_map [([], NDir); (["opt"], NDir); (["opt"; "app"], NDir);
               (["opt"; "app"; "main.py"], NFile "old"); (["pkg.tar"], NFile "package");
               (["srv"], NDir); (["srv"; "new"], NDir); (["srv"; "new"; "main.py"], NFile "new")].
Definition example_disk (failures : list bool) : Disk := mkDisk example_tree failures [].

Definition example_archive (_ : string) : result (list TarInfo) :=
  Ret [mkTarInfo "bin" DIRTYPE "" ""; mkTarInfo "bin/run" REGTYPE "" "exec";
       mkTarInfo "current" SYMTYPE "bin" ""; mkTarInfo "current/extra" REGTYPE "" "more"].
(** A filter as the standard library's: no special files, and directories without
    data. *)
Definition example_filter (m : TarInfo) : result TarInfo :=
  match tar_kind m with
  | SPECIAL => Raise (TarError "SpecialFileError")
  | DIRTYPE => Ret (mkTarInfo (tar_name m) DIRTYPE "" "")
  | _ => Ret m
  end.
Lemma example_filter_safe : safe_filter example_filter.
Proof.
  intros m m' [Hn Hl]. unfold example_filter. destruct (tar_kind m) eqn:E; intros [= <-]; try by split.
Qed.
Definition stage_example (failures : list bool) : result path * Disk :=
  stage_release_package 40 example_archive (Some example_filter) ".tmp_deploy_x1" "20260101_000000_000000"
    ["pkg.tar"] ["opt"; "app"] (example_disk failures).

(** The release is staged through its own link and replaces the old tree. *)
Example stage_example_installs :
  let '(r, d') := stage_example [] in
  r = Ret ["opt"; "app"] ∧
  fs d' !! ["opt"; "app"; "bin"; "extra"] = Some (NFile "more") ∧
  fs d' !! ["opt"; "app"; "main.py"] = None ∧
  fs d' !! ["opt"; ".tmp_deploy_x1"] = None.
Proof. vm_compute. done. Qed.

(** A member that leaves the staging directory through a link of the archive. *)
Example escaping_link_rejected :
  (stage_release_package 40
     (λ _, Ret [mkTarInfo "out" SYMTYPE "../../etc" ""; mkTarInfo "out/passwd" REGTYPE "" "x"])
     None ".tmp_deploy_x1" "20260101_000000_000000" ["pkg.tar"] ["opt"; "app"] (example_disk [])).1
  = Raise (SecurityError "Link traversal rejected").
Proof. vm_compute. done. Qed.


Lemma extraction_contained_witness :
  let members := [mkTarInfo "bin" DIRTYPE "" ""; mkTarInfo "l" SYMTYPE "bin" "";
                  mkTarInfo "l/x" REGTYPE "" "data"] in
  let '(r1, d1) := validate_members 40 members ["srv"; "new"] (example_disk []) in
  let '(r2, d2) := extractall 40 Ret members ["srv"; "new"] d1 in
  r1 = Ret tt ∧ fs d2 !! ["srv"; "new"; "bin"; "x"] = Some (NFile "data") ∧
  fs d2 !! ["pkg.tar"] = fs (example_disk []) !! ["pkg.tar"].
Proof.
  cbv zeta. set (members := [_; _; _]).
  assert (fs (extractall 40 Ret members ["srv"; "new"]
      (validate_members 40 members ["srv"; "new"] (example_disk [])).2).2
    !! ["srv"; "new"; "bin"; "x"] = Some (NFile "data")) as Hf by (vm_compute; reflexivity).
  destruct (validate_members 40 members ["srv"; "new"] (example_disk [])) as [r1 d1] eqn:E1.
  cbn [snd] in Hf. destruct (extractall 40 Ret members ["srv"; "new"] d1) as [r2 d2] eqn:E2.
  pose proof (f_equal fst E1) as Hr. vm_compute in Hr. subst r1.
  split; [reflexivity|]. split; [exact Hf|].
  - apply (extraction_contained 40 members ["srv"; "new"] (example_disk []) d1 d2 r2 E1); [|done|done| |done].
    + intros p s Hp. rewrite lookup_subtree in Hp.
      apply elem_of_map_to_list in Hp. vm_compute in Hp.
      repeat (apply elem_of_cons in Hp as [Hp|Hp]; [congruence|]). by apply elem_of_nil in Hp.
    + by left.
Defined.

(** The second rename fails and so does the roll-back: the old tree is in the
    tombstone. *)
Lemma swap_crash_safe_witness :
  let d := example_disk [false; true; true] in
  let '(r, d') := execute_atomic_swap "20260101_000000_000000" ["srv"; "new"] ["opt"; "app"] None d in
  r = Ret false ∧
  fs d' !! ["opt"; "app.old.20260101_000000_000000"; "main.py"] = Some (NFile "old") ∧
  Forall (recoverable ["opt"; "app"] (tombstone_of ["opt"; "app"] "20260101_000000_000000")
            (subtree ["opt"; "app"] example_tree) (subtree ["srv"; "new"] example_tree)) (seen d').
Proof.
  pose proof (swap_crash_safe "20260101_000000_000000" ["srv"; "new"] ["opt"; "app"] None
    (example_disk [false; true; true])
    ltac:(split; reflexivity) ltac:(split; reflexivity) ltac:(split; reflexivity) I
    ltac:(by eexists) eq_refl eq_refl) as H.
  cbv zeta in *.
  assert ((execute_atomic_swap "20260101_000000_000000" ["srv"; "new"] ["opt"; "app"] None
    (example_disk [false; true; true])).1 = Ret false) as Hr by (vm_compute; reflexivity).
  assert (fs (execute_atomic_swap "20260101_000000_000000" ["srv"; "new"] ["opt"; "app"] None
    (example_disk [false; true; true])).2 !! ["opt"; "app.old.20260101_000000_000000"; "main.py"]
    = Some (NFile "old")) as Hf by (vm_compute; reflexivity).
  destruct (execute_atomic_swap _ _ _ _ _) as [r d']. cbn [fst snd] in Hr, Hf.
  split; [exact Hr|]. split; [exact Hf|exact (proj1 H)].
Defined.

Lemma compute_sha256_terminates_witness :
  (compute_sha256 ["pkg.tar"] (example_disk [])).1 = Ret (hex_of_bytes (sha256 (bytes_of "package"))).
Proof.
  destruct (compute_sha256_terminates ["pkg.tar"] (example_disk []) "package" eq_refl)
    as [_ [H|[_ H]]]; [exact H|]. by apply elem_of_nil in H.
Defined.

Lemma verify_checksum_exact_witness :
  (verify_checksum ["opt"; "app"; "main.py"]
    "  CBA06B5736FAF67E54B07B561EAE94395E774C517A7D910A54369E1263CCFBD4 " (example_disk [])).1 = Ret true.
Proof.
  rewrite (verify_checksum_exact ["opt"; "app"; "main.py"] _ (example_disk []) "old" eq_refl
    ltac:(apply not_elem_of_nil)). vm_compute. reflexivity.
Defined.
