(* ===== verification/Supervisor.v ===== *)
(** The privileged supervisor daemon ([app/supervisor/]): protocol models and
    white lists, method handlers, peer authentication, and the line server.

    The daemon's effects on the host are a log of spawned and killed processes;
    what a spawned process does is an oracle that sees the log.  The validation
    library is a class of parameters.  Bytes that a process prints are given
    as the text that [decode(errors="replace")] makes of them. *)

From S2P Require Import Prelude PyStr PyJson.
From Stdlib Require Import ZArith Lia Ascii Bool.
From stdpp Require Import base tactics list strings.

Local Open Scope Z_scope.

(** * The validation library *)

Class Pydantic := {
  validate_json : string → option json;
  model_dump_json : json → string;
  lax_str : json → option string;
  lax_int : json → option Z;
  lax_bool : json → option bool;
}.

Definition nl : string := String "010" "".

(** What the client and the server rely on: a text, number or truth value of
    JSON is accepted as such, and what is serialised fits on one line and is
    read back both by the library and by [json.loads]. *)
Class PydanticLaws `{Pydantic} := {
  lax_str_str s : lax_str (JStr s) = Some s;
  lax_int_int n : lax_int (JInt n) = Some n;
  lax_bool_bool b : lax_bool (JBool b) = Some b;
  dump_one_line v : plain v = true → str_all (λ c, negb (Ascii.eqb c "010")) (model_dump_json v) = true;
  validate_dump v : plain v = true → validate_json (model_dump_json v +:+ nl) = Some v;
  loads_dump v : plain v = true → loads (model_dump_json v +:+ nl) = Some v;
}.

(** * protocol.py *)

Definition ALLOWED_SERVICES : list string :=
  ["palworld.service"; "palworld-manager.service"; "palworld-dedicated.service"]%string.
Definition ALLOWED_METHODS : list string :=
  ["service.restart"; "service.status"; "service.reload"; "system.reboot"; "system.deploy"]%string.

Definition branch_char (c : ascii) : bool :=
  is_alnum c || Ascii.eqb c "." || Ascii.eqb c "_" || Ascii.eqb c "/" || Ascii.eqb c "-".

(** The pattern without its [$]. *)
Definition branch_name (s : string) : bool :=
  match s with
  | String c r => is_alnum c && str_all branch_char r && (Z.of_nat (String.length r) <=? 127)
  | EmptyString => false
  end.

Definition BRANCH_NAME_PATTERN_match (s : string) : bool := branch_name (before_final_nl s).

Section protocol.
Context `{Pydantic}.

Definition max_length (n : Z) (s : string) : option string :=
  if utf8_len s <=? n then Some s else None.
Definition ge_le (lo hi n : Z) : option Z :=
  if (lo <=? n) && (n <=? hi) then Some n else None.

(** A field of a model: its default when absent, its validators otherwise. *)
Definition field {A} (k : string) (default : option A) (check : json → option A)
    (d : list (string * json)) : option A :=
  match json_get k d with Some v => check v | None => default end.

Definition validate_service_name (v : json) : option string :=
  s ← lax_str v; if bool_decide (s ∈ ALLOWED_SERVICES) then Some s else None.
Definition validate_branch_name (v : json) : option string :=
  s ← lax_str v; s ← max_length 128 s;
  if BRANCH_NAME_PATTERN_match s then Some s else None.
Definition validate_method (v : json) : option string :=
  s ← lax_str v; if bool_decide (s ∈ ALLOWED_METHODS) then Some s else None.
Definition validate_dict (v : json) : option (list (string * json)) :=
  match v with JObj d => Some d | _ => None end.
Definition validate_jsonrpc (v : json) : option unit :=
  match v with JStr s => if String.eqb s "2.0" then Some tt else None | _ => None end.

Record ServiceRestartParams := { sr_service_name : string; sr_timeout_seconds : Z }.
Record ServiceStatusParams := { ss_service_name : string }.
Record ServiceReloadParams := { sl_daemon_reload : bool }.
Record SystemRebootParams := { rb_delay_seconds : Z; rb_reason : string }.
Record SystemDeployParams := { dp_target_branch : string }.

Definition validate_restart (d : list (string * json)) : option ServiceRestartParams :=
  s ← field "service_name" None validate_service_name d;
  t ← field "timeout_seconds" (Some 30) (λ v, n ← lax_int v; ge_le 5 120 n) d;
  Some {| sr_service_name := s; sr_timeout_seconds := t |}.
Definition validate_status (d : list (string * json)) : option ServiceStatusParams :=
  s ← field "service_name" None validate_service_name d; Some {| ss_service_name := s |}.
Definition validate_reload (d : list (string * json)) : option ServiceReloadParams :=
  b ← field "daemon_reload" (Some true) lax_bool d; Some {| sl_daemon_reload := b |}.
Definition validate_reboot (d : list (string * json)) : option SystemRebootParams :=
  n ← field "delay_seconds" (Some 0) (λ v, n ← lax_int v; ge_le 0 3600 n) d;
  r ← field "reason" (Some "Operator-initiated reboot via web management plane"%string)
        (λ v, s ← lax_str v; max_length 256 s) d;
  Some {| rb_delay_seconds := n; rb_reason := r |}.
Definition validate_deploy (d : list (string * json)) : option SystemDeployParams :=
  b ← field "target_branch" (Some "main"%string) validate_branch_name d;
  Some {| dp_target_branch := b |}.

Record JSONRPCRequest := {
  rq_id : string; rq_method : string; rq_params : list (string * json) }.

Definition JSONRPCRequest_model (v : json) : option JSONRPCRequest :=
  d ← validate_dict v;
  _ ← field "jsonrpc" (Some tt) validate_jsonrpc d;
  i ← field "id" None (λ v, s ← lax_str v; max_length 64 s) d;
  m ← field "method" None validate_method d;
  p ← field "params" (Some []) validate_dict d;
  Some {| rq_id := i; rq_method := m; rq_params := p |}.

Definition JSONRPCRequest_json (r : JSONRPCRequest) : json :=
  JObj [("jsonrpc", JStr "2.0"); ("id", JStr (rq_id r)); ("method", JStr (rq_method r));
        ("params", JObj (rq_params r))]%string.

Definition JSONRPCResult_json (id : string) (result : list (string * json)) : json :=
  JObj [("jsonrpc", JStr "2.0"); ("id", JStr id); ("result", JObj result)]%string.

Definition JSONRPCErrorResponse_json (id : option string) (code : Z) (message : string) : json :=
  JObj [("jsonrpc", JStr "2.0");
        ("id", match id with Some i => JStr i | None => JNull end);
        ("error", JObj [("code", JInt code); ("message", JStr message); ("data", JNull)])]%string.
End protocol.

(** * handlers.py *)

(** What the daemon did to the host, in order. *)
Inductive HostEvent : Type :=
  | Spawn (argv : list string) (start_new_session : bool)
  | Kill (pid : Z).

#[export] Instance HostEvent_eq_dec : EqDecision HostEvent.
Proof. solve_decision. Defined.

(** A spawned process: its exit, its output, and for how long it runs. *)
Record Process := {
  pid : Z;
  returncode : Z;
  stdout : string;
  stderr : string;
  seconds : Z }.

(** The processes of the host: [None] when the spawning call itself raises. *)
Definition Host : Type := list HostEvent → list string → bool → option Process.

Definition Log : Type := list HostEvent.

Definition create_subprocess_exec (host : Host) (argv : list string) (new_session : bool) :
    PyM Log Process :=
  λ log, match host log argv new_session with
         | Some p => (Ret p, log ++ [Spawn argv new_session])
         | None => (Raise OSError, log)
         end.

Definition kill (p : Process) : PyM Log unit := py_modify (λ log, log ++ [Kill (pid p)]).

Definition skipped : list (string * json) :=
  [("status", JStr "skipped"); ("reason", JStr "non-posix")]%string.

Section handlers.
Context `{Pydantic} (posix : bool) (host : Host).
Local Open Scope py_scope.

Definition handle_service_restart (params : ServiceRestartParams) : PyM Log (list (string * json)) :=
  if negb posix then py_ret skipped
  else
    let service_name := sr_service_name params in
    process <- create_subprocess_exec host ["/bin/systemctl"; "restart"; service_name]%string false ;;
    if (sr_timeout_seconds params <? seconds process)%Z then
      kill process ;;;
      py_ret [("status", JStr "error"); ("service", JStr service_name); ("reason", JStr "timeout")]%string
    else if negb (returncode process =? 0)%Z then
      py_ret [("status", JStr "error"); ("service", JStr service_name);
              ("returncode", JInt (returncode process));
              ("stderr", JStr (str_strip (stderr process)))]%string
    else
      py_ret [("status", JStr "success"); ("service", JStr service_name);
              ("action", JStr "restart")]%string.

Definition handle_service_status (params : ServiceStatusParams) : PyM Log (list (string * json)) :=
  if negb posix then py_ret skipped
  else
    let service_name := ss_service_name params in
    process <- create_subprocess_exec host ["/bin/systemctl"; "is-active"; service_name]%string false ;;
    py_ret [("service", JStr service_name); ("active_state", JStr (str_strip (stdout process)))]%string.

Definition handle_service_reload (params : ServiceReloadParams) : PyM Log (list (string * json)) :=
  if negb posix then py_ret skipped
  else if sl_daemon_reload params then
    _ <- create_subprocess_exec host ["/bin/systemctl"; "daemon-reload"]%string false ;;
    py_ret [("status", JStr "success"); ("action", JStr "daemon-reload")]%string
  else py_ret [("status", JStr "success"); ("action", JStr "none")]%string.

Definition reboot_minutes (delay_seconds : Z) : Z := Z.max 1 (delay_seconds / 60).

Definition handle_system_reboot (params : SystemRebootParams) : PyM Log (list (string * json)) :=
  if negb posix then py_ret skipped
  else
    let delay_seconds := rb_delay_seconds params in
    let reason := rb_reason params in
    _ <- (if (delay_seconds >? 0)%Z then
            create_subprocess_exec host
              ["/sbin/shutdown"; "-r"; String "+" (str_of_Z (reboot_minutes delay_seconds)); reason]%string
              false
          else
            create_subprocess_exec host ["/sbin/shutdown"; "-r"; "now"; reason]%string false) ;;
    py_ret [("status", JStr "scheduled"); ("delay_seconds", JInt delay_seconds);
            ("reason", JStr reason)]%string.

Definition handle_system_deploy (params : SystemDeployParams) : PyM Log (list (string * json)) :=
  if negb posix then py_ret skipped
  else
    let target_branch := dp_target_branch params in
    process <- create_subprocess_exec host
                 ["/var/lib/palmanager/deploy-runner.sh"; target_branch]%string true ;;
    py_ret [("status", JStr "dispatched"); ("target_branch", JStr target_branch);
            ("pid", JInt (pid process))]%string.

(** The two tables [PARAM_MODELS] and [METHOD_DISPATCH], applied in a row. *)
Definition validated {A} (v : option A) : PyM Log A :=
  match v with Some a => py_ret a | None => py_raise (ValueError "ValidationError") end.

Definition dispatch (method : string) (params : list (string * json)) :
    PyM Log (list (string * json)) :=
  if String.eqb method "service.restart" then
    p <- validated (validate_restart params) ;; handle_service_restart p
  else if String.eqb method "service.status" then
    p <- validated (validate_status params) ;; handle_service_status p
  else if String.eqb method "service.reload" then
    p <- validated (validate_reload params) ;; handle_service_reload p
  else if String.eqb method "system.reboot" then
    p <- validated (validate_reboot params) ;; handle_system_reboot p
  else if String.eqb method "system.deploy" then
    p <- validated (validate_deploy params) ;; handle_system_deploy p
  else py_raise (KeyError method).
End handlers.

(** * auth.py *)

(** [struct.unpack("3i", b)] on a little-endian host. *)
Definition i32 (b0 b1 b2 b3 : Z) : Z :=
  let u := b0 + b1 * 256 + b2 * 65536 + b3 * 16777216 in
  if u <? 2147483648 then u else u - 4294967296.

Definition unpack_3i (b : list Z) : result (Z * Z * Z) :=
  match b with
  | [p0; p1; p2; p3; u0; u1; u2; u3; g0; g1; g2; g3] =>
      Ret (i32 p0 p1 p2 p3, i32 u0 u1 u2 u3, i32 g0 g1 g2 g3)
  | _ => Raise StructError
  end.

(** The answer of [getsockopt(SO_PEERCRED)]: its bytes, or [OSError]. *)
Definition Peer : Type := option (list Z).

Definition get_peer_credentials (posix : bool) (sock : Peer) : result (Z * Z * Z) :=
  if negb posix then Raise OSError
  else match sock with
       | None => Raise OSError
       | Some cred_bytes => unpack_3i cred_bytes
       end.

Definition validate_peer_credentials (posix : bool) (sock : Peer) (allowed_uid : Z) :
    result (Z * Z * Z) :=
  match get_peer_credentials posix sock with
  | Raise e => Raise e
  | Ret (p, uid, gid) =>
      if negb ((uid =? allowed_uid) || (uid =? 0)) then Raise PermissionError
      else Ret (p, uid, gid)
  end.

(** * server.py *)

(** [StreamReader.readline] on the bytes still to come, with the reader's
    default limit: a line, empty at the end of the input, or [ValueError]. *)
Definition LIMIT : Z := 65536.

Definition strlen (s : string) : Z := Z.of_nat (String.length s).

Definition readline (s : string) : option (string * string) :=
  match str_split1 "010" s with
  | Some (l, r) => if LIMIT <? strlen l then None else Some (l +:+ nl, r)
  | None => if LIMIT <? strlen s then None else Some (s, ""%string)
  end.

(** A connection: what was written to it, whether it was closed, and the log of
    the host. *)
Record Conn := { log : Log; written : list string; closed : bool }.

Definition lift_log {A} (m : PyM Log A) : PyM Conn A :=
  λ c, let '(r, l) := m (log c) in (r, {| log := l; written := written c; closed := closed c |}).
Definition write (s : string) : PyM Conn unit :=
  py_modify (λ c, {| log := log c; written := written c ++ [s]; closed := closed c |}).
Definition close : PyM Conn unit :=
  py_modify (λ c, {| log := log c; written := written c; closed := true |}).

Section server.
Context `{Pydantic} (posix : bool) (host : Host).
Local Open Scope py_scope.

(** The answer to one line, and its effects. *)
Definition reply_to (line : string) : PyM Log json :=
  if LIMIT <? strlen line then
    py_ret (JSONRPCErrorResponse_json None (-32600) "Invalid Request: line too long")
  else
    match v ← validate_json line; JSONRPCRequest_model v with
    | None => py_ret (JSONRPCErrorResponse_json None (-32600) "Invalid Request")
    | Some request =>
        py_try
          (result <- dispatch posix host (rq_method request) (rq_params request) ;;
           py_ret (JSONRPCResult_json (rq_id request) result))
          (λ _, py_ret (JSONRPCErrorResponse_json (Some (rq_id request)) (-32603) "Internal Error"))
    end.

Fixpoint serve_lines (fuel : nat) (input : string) : PyM Conn unit :=
  match fuel with
  | O => py_raise (RuntimeError "fuel")
  | S fuel =>
      match readline input with
      | None => py_raise (ValueError "Separator is not found, and chunk exceed the limit")
      | Some (line, rest) =>
          match line with
          | EmptyString => py_ret tt
          | _ =>
              reply <- lift_log (reply_to line) ;;
              write (model_dump_json reply +:+ nl) ;;;
              serve_lines fuel rest
          end
      end
  end.

(** [try: ... finally: writer.close()] *)
Definition handle_lines (input : string) : PyM Conn unit :=
  λ c, let '(r, c') := serve_lines (S (String.length input)) input c in
       (r, (close c').2).

Definition handle_client (sock : Peer) (allowed_uid : Z) (input : string) : PyM Conn unit :=
  match validate_peer_credentials posix sock allowed_uid with
  | Raise PermissionError =>
      write (model_dump_json (JSONRPCErrorResponse_json None (-32000) "Permission denied") +:+ nl) ;;;
      close
  | Raise OSError => handle_lines input
  | Raise e => py_raise e
  | Ret _ => handle_lines input
  end.
End server.

(** * Lemmas *)

(** A line of the protocol: no line feed but the last character. *)
Definition is_line (s : string) : Prop :=
  s ≠ ""%string ∧ ∃ b, (s = b ∨ s = b +:+ nl) ∧ str_all (λ a, negb (Ascii.eqb a "010")) b = true
    ∧ strlen b ≤ LIMIT.

(** The head of the input holds no line of an acceptable length. *)
Definition overrun (s : string) : Prop :=
  LIMIT < strlen s ∧ ∀ b r, s = b +:+ String "010" r →
    str_all (λ a, negb (Ascii.eqb a "010")) b = true → LIMIT < strlen b.

Lemma readline_spec s :
  match readline s with
  | None => overrun s
  | Some (line, rest) =>
      s = line +:+ rest ∧ (line = ""%string → rest = ""%string) ∧ (line ≠ ""%string → is_line line)
  end.
Proof.
  unfold readline, overrun. destruct (str_split1 "010" s) as [[l r]|] eqn:E.
  - apply str_split1_Some in E as [-> Hl]. destruct (Z.ltb_spec LIMIT (strlen l)).
    + split.
      { unfold strlen in *. rewrite str_length_app. lia. }
      intros b r' Heq Hb. apply (f_equal (str_split1 "010")) in Heq.
      rewrite !str_split1_app in Heq by done. by simplify_eq.
    + split; [by rewrite str_app_assoc|]. split; [by destruct l|]. intros Hne.
      split; [done|]. exists l. auto.
  - apply str_split1_None in E. destruct (Z.ltb_spec LIMIT (strlen s)).
    + split; [done|]. intros b r -> _. exfalso.
      rewrite str_all_app in E. apply andb_prop in E as [_ E]. done.
    + split; [by rewrite str_app_nil_r|]. split; [done|]. intros. split; [done|]. exists s. auto.
Qed.

Lemma readline_line b rest :
  str_all (λ a, negb (Ascii.eqb a "010")) b = true → strlen b ≤ LIMIT →
  readline (b +:+ nl +:+ rest) = Some (b +:+ nl, rest).
Proof.
  intros Hb Hl. unfold readline, nl. rewrite str_app_cons, str_app_empty, str_split1_app by done.
  destruct (Z.ltb_spec LIMIT (strlen b)); [lia|done].
Qed.

Lemma readline_decreases s line rest :
  readline s = Some (line, rest) → line ≠ ""%string →
  (String.length rest < String.length s)%nat.
Proof.
  intros E Hne. pose proof (readline_spec s) as H. rewrite E in H.
  destruct H as (-> & _ & _). rewrite str_length_app. destruct line; [done|]. cbn. lia.
Qed.

(** Sequential answers, the reference for the line loop. *)
Inductive answered `{Pydantic} (posix : bool) (host : Host) :
    Log → list string → list string → Log → Prop :=
  | answered_nil l : answered posix host l [] [] l
  | answered_cons l l1 l2 line v lines replies :
      reply_to posix host line l = (Ret v, l1) →
      answered posix host l1 lines replies l2 →
      answered posix host l (line :: lines) ((model_dump_json v +:+ nl) :: replies) l2.

Definition str_concat : list string → string := str_join "".

Lemma str_concat_cons w ws : str_concat (w :: ws) = w +:+ str_concat ws.
Proof. destruct ws; [symmetry; apply str_app_nil_r|done]. Qed.

Section server_lemmas.
Context `{Pydantic} (posix : bool) (host : Host).

Lemma reply_to_returns line l : ∃ v l', reply_to posix host line l = (Ret v, l').
Proof.
  unfold reply_to. case_match; [by do 2 eexists|]. case_match; [|by do 2 eexists].
  unfold py_try, py_bind. destruct (dispatch _ _ _ _ l) as [[]]; by do 2 eexists.
Qed.

Lemma serve_lines_answered fuel input c :
  (String.length input < fuel)%nat →
  ∃ lines replies l',
    answered posix host (log c) lines replies l' ∧ Forall is_line lines ∧
    ((input = str_concat lines ∧ serve_lines posix host fuel input c =
       (Ret tt, {| log := l'; written := written c ++ replies; closed := closed c |})) ∨
     (∃ rest, input = str_concat lines +:+ rest ∧ overrun rest ∧
       serve_lines posix host fuel input c =
       (Raise (ValueError "Separator is not found, and chunk exceed the limit"),
        {| log := l'; written := written c ++ replies; closed := closed c |}))).
Proof.
  revert input c. induction fuel as [|fuel IH]; intros input c Hf; [lia|]. cbn [serve_lines].
  pose proof (readline_spec input) as Hr. destruct (readline input) as [[line rest]|] eqn:E.
  2:{ exists [], [], (log c). split; [constructor|]. split; [done|]. right.
      exists input. rewrite app_nil_r. by destruct c. }
  destruct Hr as (-> & Hempty & Hline).
  destruct (decide (line = ""%string)) as [->|Hne].
  { rewrite Hempty by done. exists [], [], (log c). split; [constructor|]. split; [done|].
    left. rewrite app_nil_r. by destruct c. }
  destruct (reply_to_returns line (log c)) as (v & l1 & Hv).
  edestruct (IH rest {| log := l1; written := written c ++ [model_dump_json v +:+ nl];
                        closed := closed c |}) as (lines & replies & l' & Ha & Hl & Hres).
  { pose proof (readline_decreases _ _ _ E Hne). lia. }
  cbn [log written closed] in *. rewrite <-app_assoc in Hres.
  exists (line :: lines), ((model_dump_json v +:+ nl) :: replies), l'.
  split; [by econstructor|]. split; [constructor; eauto|]. rewrite str_concat_cons.
  assert (∀ A (k1 k2 : A), match line with ""%string => k1 | String _ _ => k2 end = k2) as Hm
    by (by destruct line).
  assert (∀ k : unit → PyM Conn unit,
    py_bind (lift_log (reply_to posix host line)) (λ v, py_bind (write (model_dump_json v +:+ nl)) k) c
    = k tt {| log := l1; written := written c ++ [model_dump_json v +:+ nl]; closed := closed c |}) as Hk.
  { intros k. unfold py_bind, lift_log. by rewrite Hv. }
  rewrite Hm. rewrite Hk. destruct Hres as [[-> ->]|(r & -> & Ho & ->)]; [by left|].
  right. exists r. by rewrite str_app_assoc.
Qed.
End server_lemmas.

(** * The commands the daemon may run *)

(** The time argument of [shutdown]: now, or a whole number of minutes up to an hour. *)
Definition reboot_time (t : string) : Prop :=
  t = "now"%string ∨ ∃ m, 1 ≤ m ≤ 60 ∧ t = String "+" (str_of_Z m).

Definition allowed_command (argv : list string) (new_session : bool) : Prop :=
  (new_session = false ∧
     ((∃ s, s ∈ ALLOWED_SERVICES ∧ (argv = ["/bin/systemctl"; "restart"; s]%string ∨
                                    argv = ["/bin/systemctl"; "is-active"; s]%string)) ∨
      argv = ["/bin/systemctl"; "daemon-reload"]%string ∨
      (∃ t reason, argv = ["/sbin/shutdown"; "-r"; t; reason]%string ∧ reboot_time t))) ∨
  (new_session = true ∧
     ∃ b, argv = ["/var/lib/palmanager/deploy-runner.sh"; b]%string ∧
          branch_name (before_final_nl b) = true).

(** Only the daemon's own restart commands are killed. *)
Definition allowed_event (host : Host) (e : HostEvent) : Prop :=
  match e with
  | Spawn argv new_session => allowed_command argv new_session
  | Kill p => ∃ l s proc, host l ["/bin/systemctl"; "restart"; s]%string false = Some proc ∧ p = pid proc
  end.

Definition emits (host : Host) {A} (m : PyM Log A) : Prop :=
  ∀ l, ∃ es, (m l).2 = l ++ es ∧ Forall (allowed_event host) es.

Section emits.
Context (host : Host).

Lemma emits_ret {A} (a : A) : emits host (py_ret a).
Proof. intros l. exists []. by rewrite app_nil_r. Qed.
Lemma emits_raise {A} e : emits host (py_raise (A:=A) e).
Proof. intros l. exists []. by rewrite app_nil_r. Qed.
Lemma emits_bind {A B} (m : PyM Log A) (k : A → PyM Log B) :
  emits host m → (∀ a, emits host (k a)) → emits host (py_bind m k).
Proof.
  intros Hm Hk l. destruct (Hm l) as (es & E & Hes). unfold py_bind.
  destruct (m l) as [[a|e] l1]; cbn in E; subst l1; [|by exists es].
  destruct (Hk a (l ++ es)) as (es' & -> & Hes'). exists (es ++ es').
  by rewrite app_assoc, Forall_app.
Qed.
Lemma emits_try {A} (m : PyM Log A) h :
  emits host m → (∀ e, emits host (h e)) → emits host (py_try m h).
Proof.
  intros Hm Hh l. destruct (Hm l) as (es & E & Hes). unfold py_try.
  destruct (m l) as [[a|e] l1]; cbn in E; subst l1; [by exists es|].
  destruct (Hh e (l ++ es)) as (es' & -> & Hes'). exists (es ++ es').
  by rewrite app_assoc, Forall_app.
Qed.
Lemma emits_spawn argv b :
  allowed_command argv b → emits host (create_subprocess_exec host argv b).
Proof.
  intros Ha l. unfold create_subprocess_exec. destruct (host l argv b).
  - exists [Spawn argv b]. split; [done|]. constructor; [done|constructor].
  - exists []. by rewrite app_nil_r.
Qed.
Lemma emits_validated {A} (v : option A) : emits host (validated v).
Proof. destruct v; [apply emits_ret|apply emits_raise]. Qed.
End emits.

#[export] Hint Resolve emits_ret emits_raise emits_validated : py.

(** What the parameter models promise. *)
Section validators.
Context `{Pydantic}.
Implicit Types d : list (string * json).

Lemma validate_service_name_allowed d s :
  field "service_name" None validate_service_name d = Some s → s ∈ ALLOWED_SERVICES.
Proof.
  unfold field, validate_service_name. destruct (json_get _ d); [|done].
  destruct (lax_str j); cbn; [|done]. case_bool_decide; naive_solver.
Qed.

Lemma validate_restart_allowed d p :
  validate_restart d = Some p →
  sr_service_name p ∈ ALLOWED_SERVICES ∧ 5 ≤ sr_timeout_seconds p ≤ 120.
Proof.
  unfold validate_restart. intros (s & Hs & (t & Ht & [= <-])%bind_Some)%bind_Some. cbn.
  split; [by eapply validate_service_name_allowed|]. unfold field in Ht.
  destruct (json_get "timeout_seconds" d); [|injection Ht as <-; lia].
  apply bind_Some in Ht as (n & _ & Ht). unfold ge_le in Ht.
  destruct (Z.leb_spec 5 n), (Z.leb_spec n 120); naive_solver.
Qed.

Lemma validate_status_allowed d p :
  validate_status d = Some p → ss_service_name p ∈ ALLOWED_SERVICES.
Proof.
  unfold validate_status. intros (s & Hs & [= <-])%bind_Some.
  by eapply validate_service_name_allowed.
Qed.

Lemma validate_reboot_allowed d p :
  validate_reboot d = Some p → 0 ≤ rb_delay_seconds p ≤ 3600.
Proof.
  unfold validate_reboot. intros (n & Hn & (r & _ & [= <-])%bind_Some)%bind_Some. cbn.
  unfold field in Hn. destruct (json_get "delay_seconds" d); [|injection Hn as <-; lia].
  apply bind_Some in Hn as (n' & _ & Hn). unfold ge_le in Hn.
  destruct (Z.leb_spec 0 n'), (Z.leb_spec n' 3600); naive_solver.
Qed.

Lemma validate_deploy_allowed d p :
  validate_deploy d = Some p → BRANCH_NAME_PATTERN_match (dp_target_branch p) = true.
Proof.
  unfold validate_deploy. intros (b & Hb & [= <-])%bind_Some. cbn. unfold field in Hb.
  destruct (json_get "target_branch" d); [|by injection Hb as <-].
  unfold validate_branch_name in Hb. destruct (lax_str j); cbn in Hb; [|done].
  destruct (max_length 128 s); cbn in Hb; [|done].
  destruct (BRANCH_NAME_PATTERN_match s0) eqn:E; naive_solver.
Qed.

Lemma reboot_minutes_bounds n : 0 < n ≤ 3600 → 1 ≤ reboot_minutes n ≤ 60.
Proof. unfold reboot_minutes. intros. zdiv. Qed.
End validators.

Section commands.
Context `{Pydantic} (posix : bool) (host : Host).

Lemma handle_service_restart_emits p :
  sr_service_name p ∈ ALLOWED_SERVICES → emits host (handle_service_restart posix host p).
Proof.
  intros Hs. unfold handle_service_restart. destruct posix; cbn [negb]; [|auto with py].
  intros l. unfold py_bind, create_subprocess_exec, kill, py_modify, py_ret.
  destruct (host l ["/bin/systemctl"; "restart"; sr_service_name p]%string false) as [proc|] eqn:E;
    [|exists []; by rewrite app_nil_r].
  assert (allowed_event host (Spawn ["/bin/systemctl"; "restart"; sr_service_name p]%string false))
    by (left; eauto 10).
  destruct (sr_timeout_seconds p <? seconds proc).
  - exists [Spawn ["/bin/systemctl"; "restart"; sr_service_name p]%string false; Kill (pid proc)].
    split; [cbn; by rewrite <-app_assoc|].
    apply Forall_cons; split; [done|]. apply Forall_singleton. red. eauto.
  - eexists [_]. split; [|by apply Forall_singleton]. by destruct (returncode proc =? 0).
Qed.

Lemma handle_system_reboot_emits p :
  0 ≤ rb_delay_seconds p ≤ 3600 → emits host (handle_system_reboot posix host p).
Proof.
  intros Hd. unfold handle_system_reboot. destruct posix; cbn [negb]; [|auto with py].
  apply emits_bind; [|auto with py].
  destruct (Z.gtb_spec (rb_delay_seconds p) 0); apply emits_spawn; left; split; [done| |done|];
    right; right; do 2 eexists; (split; [done|]); [right|by left].
  exists (reboot_minutes (rb_delay_seconds p)). split; [apply reboot_minutes_bounds; lia|done].
Qed.

Lemma dispatch_emits m d : emits host (dispatch posix host m d).
Proof.
  unfold dispatch. repeat case_match; [| | | | |auto with py];
    match goal with |- emits _ (py_bind (validated ?v) _) => destruct v eqn:Ev end;
    try (intros l; exists []; by rewrite app_nil_r);
    cbn [validated]; rewrite py_bind_ret.
  - apply handle_service_restart_emits. by eapply validate_restart_allowed.
  - unfold handle_service_status. destruct posix; cbn [negb]; [|auto with py].
    apply emits_bind; [|auto with py]. apply emits_spawn. left.
    apply validate_status_allowed in Ev. eauto 10.
  - unfold handle_service_reload. destruct posix; cbn [negb]; [|auto with py].
    case_match; [|auto with py]. apply emits_bind; [|auto with py]. apply emits_spawn. left. auto.
  - apply handle_system_reboot_emits. by eapply validate_reboot_allowed.
  - unfold handle_system_deploy. destruct posix; cbn [negb]; [|auto with py].
    apply emits_bind; [|auto with py]. apply emits_spawn. right.
    apply validate_deploy_allowed in Ev. eauto.
Qed.

Lemma reply_to_emits line : emits host (reply_to posix host line).
Proof.
  unfold reply_to. case_match; [auto with py|]. case_match; [|auto with py].
  apply emits_try; [|auto with py]. apply emits_bind; [apply dispatch_emits|auto with py].
Qed.

Lemma answered_emits l lines replies l' :
  answered posix host l lines replies l' → ∃ es, l' = l ++ es ∧ Forall (allowed_event host) es.
Proof.
  induction 1 as [l|l l1 l2 line v lines replies Hr _ IH].
  - exists []. by rewrite app_nil_r.
  - destruct (reply_to_emits line l) as (es & E & Hes). rewrite Hr in E. cbn in E. subst l1.
    destruct IH as (es' & -> & Hes'). exists (es ++ es'). by rewrite app_assoc, Forall_app.
Qed.
End commands.

(** * Concrete instances *)

Definition visible (c : ascii) : bool := negb (Ascii.eqb c "010").

Lemma dumps_visible v : plain v = true → str_all visible (dumps "," ":" v) = true.
Proof.
  intros Hp. rewrite (dumps_is_layout "" "" 0). apply dumps_layout_all; try done.
  intros c Hc _. by destruct c as [[] [] [] [] [] [] [] []].
Qed.

(** The validation library instantiated with the JSON functions of [PyJson] and
    validators that accept nothing but the type itself. *)
#[export] Instance json_pydantic : Pydantic := {
  validate_json := loads;
  model_dump_json := dumps "," ":";
  lax_str v := match v with JStr s => Some s | _ => None end;
  lax_int v := match v with JInt n => Some n | _ => None end;
  lax_bool v := match v with JBool b => Some b | _ => None end;
}.

#[export] Instance json_pydantic_laws : PydanticLaws.
Proof.
  split; [done|done|done| | |].
  - intros v Hv. by apply dumps_visible.
  - intros v Hv. by apply (loads_dumps_ws "" "").
  - intros v Hv. by apply (loads_dumps_ws "" "").
Qed.

(** A host where [systemctl restart] takes ten seconds and everything works. *)
Definition example_host : Host :=
  λ l argv _, Some {| pid := 1000 + Z.of_nat (length l); returncode := 0; stdout := "active" +:+ nl;
                      stderr := ""; seconds := 10 |}.

(** The credentials [pid=7, uid=u, gid=1000]. *)
Definition example_peer (u : Z) : Peer :=
  Some [7; 0; 0; 0; u mod 256; u / 256 mod 256; u / 65536 mod 256; u / 16777216 mod 256; 232; 3; 0; 0].

Definition example_line (method : string) (params : list (string * json)) : string :=
  model_dump_json (JSONRPCRequest_json
    {| rq_id := "r1"; rq_method := method; rq_params := params |}) +:+ nl.

Definition fresh_conn : Conn := {| log := []; written := []; closed := false |}.

Example restart_run :
  handle_client true example_host (example_peer 995) 995
    (example_line "service.restart" [("service_name", JStr "palworld.service")]%string) fresh_conn
  = (Ret tt, {| log := [Spawn ["/bin/systemctl"; "restart"; "palworld.service"]%string false];
                written := [model_dump_json (JSONRPCResult_json "r1"
                   [("status", JStr "success"); ("service", JStr "palworld.service");
                    ("action", JStr "restart")]%string) +:+ nl]; closed := true |}).
Proof. vm_compute. reflexivity. Qed.
Example sshd_refused :
  (handle_client true example_host (example_peer 995) 995
    (example_line "service.restart" [("service_name", JStr "sshd.service")]%string) fresh_conn).2
  = {| log := []; written := [model_dump_json
          (JSONRPCErrorResponse_json (Some "r1"%string) (-32603) "Internal Error") +:+ nl];
       closed := true |}.
Proof. vm_compute. reflexivity. Qed.
Example branch_names :
  List.map BRANCH_NAME_PATTERN_match ["main"; "feat/my-branch"; "-x"; ""; "a b"; "main" +:+ nl; "a;b"]%string
  = [true; true; false; false; false; true; false].
Proof. vm_compute. reflexivity. Qed.

(** * Properties *)

(** The user id of the peer as the kernel reports it. *)
Definition peer_uid (sock : Peer) : option Z :=
  match sock with
  | Some b => match unpack_3i b with Ret (_, u, _) => Some u | Raise _ => None end
  | None => None
  end.

Lemma handle_client_cases `{Pydantic} posix host sock allowed_uid input c r c' :
  handle_client posix host sock allowed_uid input c = (r, c') →
  (log c' = log c ∧ ∀ u, posix = true → peer_uid sock = Some u → u ≠ allowed_uid → u ≠ 0 →
     written c' = written c ++
       [model_dump_json (JSONRPCErrorResponse_json None (-32000) "Permission denied") +:+ nl]
     ∧ closed c' = true ∧ r = Ret tt) ∨
  (handle_lines posix host input c = (r, c') ∧
   ∀ u, posix = true → peer_uid sock = Some u → u = allowed_uid ∨ u = 0).
Proof.
  unfold handle_client, validate_peer_credentials, get_peer_credentials, peer_uid.
  destruct posix; cbn [negb].
  2:{ intros E. right. split; [done|]. done. }
  destruct sock as [b|]; [|intros E; right; done].
  destruct (unpack_3i b) as [[[p u] g]|e] eqn:Eb.
  - destruct (Z.eqb_spec u allowed_uid), (Z.eqb_spec u 0); cbn [orb negb];
      try (intros E; right; split; [done|]; intros u' _ [= <-]; auto; fail).
    intros [= <- <-]. left. split; [done|]. intros u' _ [= <-] _ _. done.
  - intros E. left. assert (e = StructError) as ->
      by (unfold unpack_3i in Eb; repeat case_match; congruence).
    injection E as <- <-. done.
Qed.

Lemma handle_lines_answered `{Pydantic} posix host input c r c' :
  handle_lines posix host input c = (r, c') →
  ∃ lines replies,
    answered posix host (log c) lines replies (log c') ∧ Forall is_line lines ∧
    written c' = written c ++ replies ∧ closed c' = true ∧
    ((r = Ret tt ∧ input = str_concat lines) ∨
     ∃ e rest, r = Raise (ValueError e) ∧ input = str_concat lines +:+ rest ∧ overrun rest).
Proof.
  unfold handle_lines.
  destruct (serve_lines_answered posix host (S (String.length input)) input c)
    as (lines & replies & l' & Ha & Hl & Hres); [lia|].
  destruct Hres as [[-> E]|(rest & -> & Ho & E)]; rewrite E; cbn; intros [= <- <-];
    exists lines, replies; eauto 10.
Qed.

(** C5: A connection to the supervisor can run nothing but the commands of its policy:
    whatever bytes are sent, and whatever the validation library accepts, every process
    it spawns is a restart or a status query of a permitted service, a daemon reload, a
    reboot now or in 1 to 60 minutes, or the deploy script with a permitted branch name,
    and it kills nothing but its own restart commands.  On POSIX, when the kernel
    reports the credentials of the peer, it touches the host only if the peer runs as
    root or as the allowed user; a peer whose credentials cannot be read, and every peer
    elsewhere, is not restricted. *)
Theorem supervisor_commands_whitelisted `{Pydantic} posix host sock allowed_uid input c r c' :
  handle_client posix host sock allowed_uid input c = (r, c') →
  ∃ es, log c' = log c ++ es ∧ Forall (allowed_event host) es ∧
    (es ≠ [] → posix = true → ∀ u, peer_uid sock = Some u → u = allowed_uid ∨ u = 0).
Proof.
  intros [[E _]|[E Hu]]%handle_client_cases.
  - exists []. rewrite app_nil_r. split; [done|]. split; [constructor|done].
  - apply handle_lines_answered in E as (lines & replies & Ha & _).
    apply answered_emits in Ha as (es & E & Hes). exists es. eauto.
Qed.

Lemma supervisor_commands_whitelisted_witness :
  ∃ es, Forall (allowed_event example_host) es ∧
    es = [Spawn ["/bin/systemctl"; "restart"; "palworld.service"]%string false].
Proof.
  destruct (supervisor_commands_whitelisted _ _ _ _ _ _ _ _ restart_run) as (es & E & H & _).
  exists es. split; [exact H|]. symmetry. exact E.
Defined.

(** the server answers every line exactly once and in order: the written
    lines are the answers of the reference, the lines taken one after the other
    on the log the previous one left; each input line ends at its line feed;
    the connection ends closed, either at the end of the input or, with a
    [ValueError], in front of a line longer than 65536 bytes; a peer that is
    neither root nor the allowed user gets one refusal and nothing else. *)
Theorem one_reply_per_line `{Pydantic} host sock allowed_uid u input c r c' :
  peer_uid sock = Some u →
  handle_client true host sock allowed_uid input c = (r, c') →
  closed c' = true ∧
  if decide (u = allowed_uid ∨ u = 0) then
    ∃ lines replies,
      answered true host (log c) lines replies (log c') ∧ Forall is_line lines ∧
      written c' = written c ++ replies ∧
      ((r = Ret tt ∧ input = str_concat lines) ∨
       ∃ e rest, r = Raise (ValueError e) ∧ input = str_concat lines +:+ rest ∧ overrun rest)
  else
    r = Ret tt ∧ log c' = log c ∧
    written c' = written c ++
      [model_dump_json (JSONRPCErrorResponse_json None (-32000) "Permission denied") +:+ nl].
Proof.
  intros Hu E. pose proof E as E0. apply handle_client_cases in E.
  case_decide as Hd.
  - destruct E as [[_ H1]|[E _]].
    + assert (handle_lines true host input c = (r, c')) as E.
      { revert E0. unfold handle_client, validate_peer_credentials, get_peer_credentials.
        cbn [negb]. unfold peer_uid in Hu. destruct sock as [b|]; [|done].
        destruct (unpack_3i b) as [[[p u'] g]|]; [|done]. injection Hu as ->.
        destruct (Z.eqb_spec u allowed_uid), (Z.eqb_spec u 0); cbn [orb negb]; try done. lia. }
      apply handle_lines_answered in E as (lines & replies & ? & ? & ? & ? & ?). eauto 10.
    + apply handle_lines_answered in E as (lines & replies & ? & ? & ? & ? & ?). eauto 10.
  - destruct E as [[El H1]|[_ H1]]; [|exfalso; auto].
    destruct (H1 u) as (? & ? & ?); auto.
Qed.

Lemma one_reply_per_line_witness :
  ∃ c', handle_client true example_host (example_peer 1000) 995 "x" fresh_conn = (Ret tt, c')
    ∧ closed c' = true ∧ log c' = [].
Proof.
  eexists. split; [vm_compute; reflexivity|].
  pose proof (one_reply_per_line example_host (example_peer 1000) 995 1000 "x" fresh_conn _ _
                ltac:(vm_compute; reflexivity) ltac:(vm_compute; reflexivity)) as [H1 H2].
  split; [exact H1|]. destruct H2 as (_ & H2 & _). exact H2.
Defined.

Definition reply_field (k : string) (v : json) : option json :=
  match v with JObj d => json_get k d | _ => None end.

(** C27: the answer to a line echoes its request: for a line that is no valid
    request (too long, no JSON, an unknown method, a malformed id) the host is
    left alone and the answer is error -32600 without an id; for a valid
    request the answer carries its id and the dispatched handler's effects
    happen, with the handler's result when it returned and error -32603,
    saying nothing about the cause, when it raised. *)
Theorem reply_to_spec `{Pydantic} posix host line l :
  match v ← validate_json line; JSONRPCRequest_model v with
  | Some q =>
      if strlen line <=? LIMIT then
        ∃ v, reply_to posix host line l = (Ret v, (dispatch posix host (rq_method q) (rq_params q) l).2)
          ∧ reply_field "id" v = Some (JStr (rq_id q)) ∧ rq_method q ∈ ALLOWED_METHODS ∧
          match (dispatch posix host (rq_method q) (rq_params q) l).1 with
          | Ret d => reply_field "result" v = Some (JObj d) ∧ reply_field "error" v = None
          | Raise _ => reply_field "result" v = None ∧ reply_field "error" v =
              Some (JObj [("code", JInt (-32603)); ("message", JStr "Internal Error"); ("data", JNull)]%string)
          end
      else ∃ v, reply_to posix host line l = (Ret v, l) ∧ reply_field "id" v = Some JNull
  | None =>
      ∃ v m, reply_to posix host line l = (Ret v, l) ∧ reply_field "id" v = Some JNull ∧
        reply_field "error" v =
          Some (JObj [("code", JInt (-32600)); ("message", JStr m); ("data", JNull)]%string)
  end.
Proof.
  unfold reply_to. destruct (v ← validate_json line; JSONRPCRequest_model v) as [q|] eqn:Eq.
  - rewrite Z.ltb_antisym. destruct (strlen line <=? LIMIT); cbn [negb]; [|by eexists].
    unfold py_try, py_bind, py_ret.
    assert (rq_method q ∈ ALLOWED_METHODS) as Hm.
    { apply bind_Some in Eq as (v & _ & Hq). unfold JSONRPCRequest_model in Hq.
      apply bind_Some in Hq as (d & _ & Hq). apply bind_Some in Hq as (_ & _ & Hq).
      apply bind_Some in Hq as (i & _ & Hq). apply bind_Some in Hq as (m & Hm & Hq).
      apply bind_Some in Hq as (p & _ & Hq). injection Hq as <-. cbn. clear -Hm.
      unfold field, validate_method in Hm. destruct (json_get "method" d); [|done].
      destruct (lax_str j); cbn in Hm; [|done]. case_bool_decide; naive_solver. }
    destruct (dispatch _ _ _ _ l) as [[d|e] l']; cbn; eexists; done.
  - destruct (LIMIT <? strlen line); by do 2 eexists.
Qed.
