(* ===== verification/Daemon.v ===== *)
(** The life of the supervisor daemon: [SupervisorServer.start] and [stop] of
    supervisor/server.py and [main] of supervisor/main.py.

    The process, the signals that reach it and the peers that connect are steps of
    a transition system: [start] is suspended once, after the socket has been bound,
    and the kernel accepts connections between any two of its system calls. *)

From S2P Require Import Prelude.
From Stdlib Require Import ZArith Bool Lia.
From stdpp Require Import base tactics list strings.

Local Open Scope Z_scope.
Local Open Scope py_scope.

(** * State *)

Record Socket := mkSocket { owner : Z; group : Z; mode : Z }.
Inductive Node : Type := SocketNode (s : Socket) | Plain (m : Z) | Directory.

(** A call of [stop] that a signal has queued, or that waits for the connections. *)
Inductive StopTask : Type := Queued | Waiting.

Inductive Phase : Type :=
  | Fresh              (** before [run_until_complete] *)
  | Starting           (** suspended in [start_unix_server], the socket is bound *)
  | Chmodded           (** between [chmod] and the end of [start] *)
  | Serving            (** [run_forever] *)
  | Leaving (e : exc)  (** the [finally] block, with the exception of [start] *)
  | Ended (r : result unit).

Record Daemon := mkDaemon {
  at_path : option Node;
  listening : bool;
  server : bool;               (** [self.server] has been assigned *)
  connections : nat;
  phase : Phase;
  stops : list StopTask;
  admitted : list (Z * list Z) (** the user and the groups of every peer that got through *) }.

Definition set_path (n : option Node) (d : Daemon) : Daemon :=
  mkDaemon n (listening d) (server d) (connections d) (phase d) (stops d) (admitted d).
Definition set_listening (b : bool) (d : Daemon) : Daemon :=
  mkDaemon (at_path d) b (server d) (connections d) (phase d) (stops d) (admitted d).
Definition set_server (d : Daemon) : Daemon :=
  mkDaemon (at_path d) (listening d) true (connections d) (phase d) (stops d) (admitted d).
Definition set_phase (p : Phase) (d : Daemon) : Daemon :=
  mkDaemon (at_path d) (listening d) (server d) (connections d) p (stops d) (admitted d).
Definition set_stops (l : list StopTask) (d : Daemon) : Daemon :=
  mkDaemon (at_path d) (listening d) (server d) (connections d) (phase d) l (admitted d).
Definition set_peers (n : nat) (l : list (Z * list Z)) (d : Daemon) : Daemon :=
  mkDaemon (at_path d) (listening d) (server d) n (phase d) (stops d) l.

Definition fresh_daemon (n : option Node) : Daemon := mkDaemon n false false 0 Fresh [] [].

(** * The host *)

(** [connect] asks for the permission to write. *)
Definition may_connect (uid : Z) (gids : list Z) (s : Socket) : bool :=
  (uid =? 0) ||
  if uid =? owner s then Z.testbit (mode s) 7
  else if bool_decide (group s ∈ gids) then Z.testbit (mode s) 4 else Z.testbit (mode s) 1.

Class DaemonHost := {
  posix : bool;
  euid : Z;
  egid : Z;
  umask : Z;
  bind_error : option exc;
  getpwuid : Z → option Z;      (** the group of a user, if the user is known *)
  getpwnam : string → option Z;
  wait_closed_waits : bool      (** whether [wait_closed] waits for open connections; it depends on the version *)
}.

Section daemon.
Context `{DaemonHost}.

(** [os.remove], with [FileNotFoundError] suppressed. *)
Definition remove : PyM Daemon unit :=
  d <- py_get ;;
  match at_path d with
  | Some Directory => py_raise OSError
  | _ => py_put (set_path None d)
  end.

Definition NOT_POSIX : exc := RuntimeError "Unix Domain Sockets are only supported on POSIX systems".

(** The permissions of a new socket. *)
Definition created_mode : Z := Z.ldiff 511 umask.

(** [start] up to the suspension of [start_unix_server]. *)
Definition start_head : PyM Daemon unit :=
  if negb posix then py_raise NOT_POSIX
  else
    remove ;;;
    match bind_error with
    | Some e => py_raise e
    | None => py_modify (λ d, set_listening true (set_path (Some (SocketNode (mkSocket euid egid created_mode))) d))
    end.

Definition SOCKET_MODE : Z := 432.  (* 0o660 *)

Definition os_chmod (m : Z) : PyM Daemon unit :=
  d <- py_get ;;
  match at_path d with
  | None => py_raise FileNotFoundError
  | Some (SocketNode s) => py_put (set_path (Some (SocketNode (mkSocket (owner s) (group s) m))) d)
  | Some (Plain _) => py_put (set_path (Some (Plain m)) d)
  | Some Directory => py_ret tt
  end.

Definition os_chown (u g : Z) : PyM Daemon unit :=
  d <- py_get ;;
  match at_path d with
  | None => py_raise FileNotFoundError
  | Some (SocketNode s) => py_put (set_path (Some (SocketNode (mkSocket u g (mode s)))) d)
  | Some _ => py_ret tt
  end.

(** [self.server = ...] and [os.chmod]. *)
Definition start_chmod : PyM Daemon unit := py_modify set_server ;;; os_chmod SOCKET_MODE.

(** The group that may connect. *)
Definition allowed_group (allowed_uid : Z) : Z := default allowed_uid (getpwuid allowed_uid).

Definition start_chown (allowed_uid : Z) : PyM Daemon unit :=
  if euid =? 0 then os_chown 0 (allowed_group allowed_uid) else py_ret tt.

(** [stop] up to [wait_closed]: whether it waits there. *)
Definition stop_head (d : Daemon) : bool * Daemon :=
  if server d then (true, set_listening false d) else (false, d).

Definition drained (d : Daemon) : bool := negb wait_closed_waits || (connections d =? 0)%nat.

(** [args.allowed_uid], or the user of the manager. *)
Definition main_allowed_uid (requested : Z) : Z :=
  if (requested =? 0) && posix then default requested (getpwnam "palmanager") else requested.

(** [main] catches [NotImplementedError] and no other error of [start]. *)
Definition main_result (e : exc) : result unit :=
  if bool_decide (e = NOT_POSIX) then Ret tt else Raise e.

(** The [finally] block starts: [stop] as far as it gets. *)
Definition leave (e : exc) (d : Daemon) : Daemon := set_phase (Leaving e) (stop_head d).2.

(** The continuation of [main] after a part of [start]. *)
Definition continue (m : PyM Daemon unit) (p : Phase) (d : Daemon) : Daemon :=
  match m d with
  | (Ret _, d') => set_phase p d'
  | (Raise e, d') => leave e d'
  end.

(** The loop runs and takes signals. *)
Definition loop_runs (p : Phase) : bool :=
  match p with Starting | Serving | Leaving _ => true | _ => false end.

Definition stop_queued (i : nat) (d : Daemon) : Daemon :=
  let '(waits, d') := stop_head d in
  if waits then set_stops (<[i := Waiting]> (stops d')) d'
  else set_stops (delete i (stops d')) (remove d').2.

Inductive daemon_step (allowed_uid : Z) : Daemon → Daemon → Prop :=
  | d_begin d : phase d = Fresh → daemon_step allowed_uid d (continue start_head Starting d)
  | d_chmod d : phase d = Starting → daemon_step allowed_uid d (continue start_chmod Chmodded d)
  | d_chown d : phase d = Chmodded → daemon_step allowed_uid d (continue (start_chown allowed_uid) Serving d)
  | d_signal d : posix = true → loop_runs (phase d) = true → daemon_step allowed_uid d (set_stops (stops d ++ [Queued]) d)
  | d_stop i d : loop_runs (phase d) = true → stops d !! i = Some Queued → daemon_step allowed_uid d (stop_queued i d)
  | d_stopped i d : loop_runs (phase d) = true → stops d !! i = Some Waiting → drained d = true →
      daemon_step allowed_uid d (set_stops (delete i (stops d)) (remove d).2)
  | d_left e d : phase d = Leaving e → server d = false ∨ drained d = true →
      daemon_step allowed_uid d
        (set_phase (Ended (match (remove d).1 with Raise e' => Raise e' | Ret _ => main_result e end)) (remove d).2)
  | d_connect uid gids s d : listening d = true → at_path d = Some (SocketNode s) → may_connect uid gids s = true →
      daemon_step allowed_uid d (set_peers (S (connections d)) (admitted d ++ [(uid, gids)]) d)
  | d_disconnect d : connections d ≠ 0%nat → daemon_step allowed_uid d (set_peers (pred (connections d)) (admitted d) d).
End daemon.

(** * Facts *)

Section facts.
Context `{DaemonHost} (allowed_uid : Z).
Notation step := (daemon_step allowed_uid).

(** Case analysis of a part of [start] or [stop] in the hypotheses and the goal. *)
Ltac run_calls :=
  unfold continue, stop_queued, start_head, start_chmod, start_chown, leave, stop_head, os_chmod, os_chown, remove,
    py_bind, py_get, py_put, py_modify, py_ret, py_raise, set_phase, set_path, set_server, set_listening, set_stops, set_peers in *;
  repeat case_match; simplify_eq/=.

(** A started daemon runs on POSIX, and knows its server. *)
Definition started (d : Daemon) : Prop :=
  match phase d with
  | Starting => posix = true
  | Chmodded | Serving => posix = true ∧ server d = true
  | _ => True
  end.

Lemma started_step d d' : started d → step d d' → started d'.
Proof using.
  intros Hd Hs. destruct Hs; unfold started in *; destruct d as [pa li se co ph st ad]; cbn in *; subst;
    try (destruct ph; try done); run_calls; try done; try tauto; by destruct posix.
Qed.

Lemma serving_step d d' : phase d = Serving → step d d' →
  phase d' = Serving ∧ server d' = server d ∧ (listening d = false → listening d' = false ∧ admitted d' = admitted d).
Proof using.
  intros Hp Hs. destruct Hs; destruct d as [pa li se co ph st ad]; cbn in *; subst; try done; run_calls; try done.
Qed.

Lemma serving_stays d d' : phase d = Serving → star step d d' →
  phase d' = Serving ∧ server d' = server d ∧ (listening d = false → listening d' = false ∧ admitted d' = admitted d).
Proof using.
  intros Hp Hs. induction Hs as [d|d1 d2 d3 Hs IH Hstep]; [done|]. destruct (IH Hp) as (H2 & Hse & Hl).
  destruct (serving_step d2 d3 H2 Hstep) as (H3 & Hse' & Hl'). split_and!; [done|congruence|].
  intros Hf. destruct (Hl Hf) as [E1 E2]. destruct (Hl' E1) as [E3 E4]. split; congruence.
Qed.

(** C31: A signal does not end the daemon: once it serves, no sequence of signals and
    connections makes the process leave its loop, but one signal is enough to close
    the server for good, after which no peer ever gets through again. *)
Theorem signalled_daemon_lives n d :
  star step (fresh_daemon n) d → phase d = Serving →
  (∀ d', star step d d' → phase d' = Serving) ∧
  ∃ d1, star step (set_stops (stops d ++ [Queued]) d) d1 ∧ step d (set_stops (stops d ++ [Queued]) d) ∧
    ∀ d2, star step d1 d2 → phase d2 = Serving ∧ listening d2 = false ∧ admitted d2 = admitted d.
Proof using.
  intros Hr Hp. assert (Hst : started d) by (apply (star_invariant step started (fresh_daemon n) d); [apply started_step|done|done]).
  unfold started in Hst. rewrite Hp in Hst. destruct Hst as [Hx Hse].
  split; [intros d' Hd; by apply (serving_stays d d' Hp)|].
  set (d0 := set_stops (stops d ++ [Queued]) d).
  assert (Hstep : step d0 (stop_queued (length (stops d)) d0)).
  { apply d_stop; [cbn; by rewrite Hp|]. cbn. rewrite lookup_app_r, Nat.sub_diag by done. done. }
  exists (stop_queued (length (stops d)) d0). split_and!.
  - eapply star_step; [apply star_refl|exact Hstep].
  - apply d_signal; [done|]. by rewrite Hp.
  - intros d2 Hd2. assert (Hp1 : phase (stop_queued (length (stops d)) d0) = Serving ∧
        listening (stop_queued (length (stops d)) d0) = false ∧ admitted (stop_queued (length (stops d)) d0) = admitted d).
    { unfold stop_queued, stop_head. subst d0. destruct d; cbn in *. subst. done. }
    destruct Hp1 as (H1 & H2 & H3). destruct (serving_stays _ _ H1 Hd2) as (H4 & _ & H5). destruct (H5 H2) as [H6 H7].
    split_and!; [done|done|congruence].
Qed.

(** ** Who may connect *)

Definition entitled (peer : Z * list Z) : Prop :=
  peer.1 = 0 ∨ allowed_group allowed_uid ∈ peer.2 ∨ egid ∈ peer.2.
Definition closed_to_others (s : Socket) : Prop :=
  owner s = 0 ∧ Z.testbit (mode s) 1 = false ∧ (group s = egid ∨ group s = allowed_group allowed_uid).
Definition exposed (d : Daemon) : bool :=
  listening d || match phase d with Starting | Chmodded | Serving => true | _ => false end.
Definition path_closed (n : option Node) : Prop :=
  match n with Some (SocketNode s) => closed_to_others s | _ => True end.
Definition guarded (d : Daemon) : Prop :=
  Forall entitled (admitted d) ∧ (exposed d = true → path_closed (at_path d)).

Lemma connect_entitled uid gids s : closed_to_others s → may_connect uid gids s = true → entitled (uid, gids).
Proof using.
  intros (Ho & Hm & Hg). unfold may_connect, entitled. cbn [fst snd]. rewrite Ho.
  destruct (Z.eqb_spec uid 0); [tauto|]. cbn [orb]. case_bool_decide as Hin; [|congruence].
  intros _. right. destruct Hg as [<-|<-]; tauto.
Qed.

Hypothesis (Hroot : euid = 0) (Humask : Z.testbit umask 1 = true).

Lemma created_closed : closed_to_others (mkSocket euid egid created_mode).
Proof using Hroot Humask.
  split_and!; [done| |by left]. cbn [mode]. unfold created_mode. by rewrite Z.ldiff_spec, Humask.
Qed.

Lemma remove_guarded d : guarded d → guarded (remove d).2.
Proof using.
  intros [Ha He]. unfold remove, py_bind, py_get. destruct d as [pa li se co ph st ad]. cbn [at_path].
  destruct pa as [[s| |]|]; done.
Qed.

Lemma stop_head_guarded d : guarded d → guarded (stop_head d).2.
Proof using.
  intros [Ha He]. unfold stop_head. destruct d as [pa [|] [|] co ph st ad]; cbn in *; try done.
  split; [done|]. intros _. by apply He.
Qed.

Lemma stops_guarded l d : guarded d → guarded (set_stops l d).
Proof using. done. Qed.

(** Leaving the loop exposes nothing new. *)
Lemma phase_guarded p d :
  match p with Starting | Chmodded | Serving => exposed d = true | _ => True end → guarded d → guarded (set_phase p d).
Proof using.
  intros Hp [Ha He]. destruct d as [pa li se co ph st ad]. split; [done|]. unfold exposed in *. cbn in *.
  intros Hx. apply He. destruct p, li; done.
Qed.

Lemma leave_guarded e d : guarded d → guarded (leave e d).
Proof using. intros Hd. apply phase_guarded; [done|]. by apply stop_head_guarded. Qed.

Lemma guarded_step d d' : guarded d → step d d' → guarded d'.
Proof using Hroot Humask.
  intros Hg Hs. destruct Hs as [d Hp|d Hp|d Hp|d Hx Hl|i d Hl Hi|i d Hl Hi Hd|e d Hp Hd|uid gids s d Hl Hp Hm|d Hc'].
  - unfold continue, start_head. destruct (negb posix); [by apply leave_guarded|].
    unfold py_bind at 1. pose proof (remove_guarded d Hg) as Hr. destruct (remove d) as [[u|e] d']; [|by apply leave_guarded].
    destruct bind_error; [by apply leave_guarded|]. split; [apply Hr|]. intros _. apply created_closed.
  - unfold continue, start_chmod, os_chmod, py_modify, py_bind, py_get. destruct d as [pa li se co ph st ad].
    cbn in Hp |- *. subst ph. destruct Hg as [Ha He]. unfold exposed in He. cbn in He. rewrite orb_true_r in He.
    specialize (He eq_refl). destruct pa as [[[o g m]|m|]|]; try (split; done).
    split; [done|]. intros _. destruct He as (Ho & _ & Hgr). by split_and!.
  - unfold continue, start_chown, os_chown, py_modify, py_bind, py_get. rewrite Hroot. destruct d as [pa li se co ph st ad].
    cbn in Hp |- *. subst ph. destruct Hg as [Ha He]. unfold exposed in He. cbn in He. rewrite orb_true_r in He.
    specialize (He eq_refl). destruct pa as [[[o g m]|m|]|]; try (split; done); [|by apply leave_guarded].
    split; [done|]. intros _. destruct He as (_ & Hm & _). split_and!; [done|done|by right].
  - by apply stops_guarded.
  - unfold stop_queued. pose proof (stop_head_guarded d Hg) as Hh. destruct (stop_head d) as [[|] d'].
    + by apply stops_guarded.
    + apply stops_guarded. by apply remove_guarded.
  - apply stops_guarded. by apply remove_guarded.
  - apply phase_guarded; [done|]. by apply remove_guarded.
  - destruct Hg as [Ha He]. split; [|exact He]. apply Forall_app. split; [done|]. constructor; [|done].
    eapply connect_entitled; [|exact Hm]. unfold exposed in He. rewrite Hl in He. specialize (He eq_refl). by rewrite Hp in He.
  - exact Hg.
Qed.

(** C17: When the daemon runs as root with a umask that takes the right to write from
    others: whatever is at the path at first, and however the steps of the start, the
    signals and the peers are interleaved, only the super-user and members of the
    manager's group or of the daemon's own get through to the supervisor. *)
Theorem socket_guarded n d : star step (fresh_daemon n) d → Forall entitled (admitted d).
Proof using Hroot Humask.
  intros Hs. enough (guarded d) by firstorder.
  apply (star_invariant step guarded (fresh_daemon n) d); [apply guarded_step|done|]. split; [constructor|done].
Qed.
End facts.

(** What a start leaves that nothing disturbs: whatever was at the path but a
    directory is replaced by the socket of the manager's group. *)
Lemma start_ready `{DaemonHost} allowed_uid n :
  posix = true → bind_error = None → euid = 0 → n ≠ Some Directory →
  star (daemon_step allowed_uid) (fresh_daemon n)
    (mkDaemon (Some (SocketNode (mkSocket 0 (allowed_group allowed_uid) 432))) true true 0 Serving [] []).
Proof.
  intros Hp Hb He Hn.
  set (d1 := mkDaemon (Some (SocketNode (mkSocket euid egid created_mode))) true false 0 Starting [] []).
  set (d2 := mkDaemon (Some (SocketNode (mkSocket euid egid 432))) true true 0 Chmodded [] []).
  assert (E1 : continue start_head Starting (fresh_daemon n) = d1).
  { unfold continue, start_head, remove, py_bind, py_get. rewrite Hp, Hb. by destruct n as [[s| |]|]. }
  assert (E2 : continue start_chmod Chmodded d1 = d2) by done.
  assert (E3 : continue (start_chown allowed_uid) Serving d2 =
    mkDaemon (Some (SocketNode (mkSocket 0 (allowed_group allowed_uid) 432))) true true 0 Serving [] []).
  { unfold continue, start_chown. by rewrite He. }
  rewrite <-E3, <-E2, <-E1.
  eapply star_step; [eapply star_step; [eapply star_step; [apply star_refl|by apply d_begin]|]|].
  - apply d_chmod. by rewrite E1.
  - apply d_chown. by rewrite E1, E2.
Qed.

(** * Observations *)

Definition example_host (mask : Z) (waits : bool) : DaemonHost :=
  {| posix := true; euid := 0; egid := 0; umask := mask; bind_error := None;
     getpwuid := λ u, if u =? 995 then Some 994 else None; getpwnam := λ _, Some 995; wait_closed_waits := waits |}.

Definition serving (h : DaemonHost) : Daemon :=
  mkDaemon (Some (SocketNode (mkSocket 0 994 432))) true true 0 Serving [] [].

Lemma serving_reachable mask waits :
  star (daemon_step (H := example_host mask waits) 995) (fresh_daemon (Some (Plain 420))) (serving (example_host mask waits)).
Proof. by apply (start_ready (H := example_host mask waits)). Qed.

(** After SIGTERM the manager of the service waits in vain. *)
Lemma signalled_daemon_lives_witness :
  ∃ d1, star (daemon_step (H := example_host 18 true) 995) (set_stops [Queued] (serving (example_host 18 true))) d1 ∧
    ∀ d2, star (daemon_step (H := example_host 18 true) 995) d1 d2 →
      phase d2 = Serving ∧ listening d2 = false ∧ admitted d2 = [].
Proof.
  destruct (signalled_daemon_lives (H := example_host 18 true) 995 (Some (Plain 420)) (serving (example_host 18 true))
    (serving_reachable 18 true) eq_refl) as (_ & d1 & H1 & _ & H2).
  exists d1. split; [exact H1|exact H2].
Defined.

Lemma socket_guarded_witness :
  Forall (entitled (H := example_host 18 true) 995)
    (admitted (set_peers 1 [(995, [994])] (serving (example_host 18 true)))).
Proof.
  apply (socket_guarded (H := example_host 18 true) 995 eq_refl eq_refl (Some (Plain 420))).
  eapply star_step; [apply serving_reachable|].
  apply (d_connect (H := example_host 18 true) 995 995 [994] (mkSocket 0 994 432) (serving (example_host 18 true))); vm_compute; done.
Defined.

(** A signal that arrives while the socket is being bound removes it under the
    start, which fails: only then does the process end. *)
Lemma signal_during_start :
  ∃ d, star (daemon_step (H := example_host 18 true) 995) (fresh_daemon None) d ∧ phase d = Ended (Raise FileNotFoundError).
Proof.
  eexists. split.
  - eapply star_step; [eapply star_step; [eapply star_step; [eapply star_step; [eapply star_step; [apply star_refl|]|]|]|]|].
    + by apply d_begin.
    + by apply d_signal.
    + by apply (d_stop _ 0).
    + by apply d_chmod.
    + apply d_left; [vm_compute; reflexivity|by right].
  - by vm_compute.
Qed.

(** With a mask that takes nothing from others anyone may connect until the mode
    has been set. *)
Lemma open_window :
  may_connect 1000 [1000] (mkSocket 0 0 (created_mode (H := example_host 0 true))) = true ∧
  may_connect 1000 [1000] (mkSocket 0 994 SOCKET_MODE) = false.
Proof. by vm_compute. Qed.

(** A user without an entry lends its number to the group. *)
Lemma unknown_user_group : allowed_group (H := example_host 18 true) 1234 = 1234.
Proof. done. Qed.
