(* ===== verification/SupervisorClient.v ===== *)
(** The supervisor's client ([app/supervisor/client.py]) and the two ends put
    together: a call over the socket against a direct call of the handler.  The
    client waits for the answer for a limited time, which the handler does not know. *)

From S2P Require Import Prelude PyStr PyJson Supervisor.
From Stdlib Require Import ZArith Lia Ascii Bool.
From stdpp Require Import base tactics list strings.

Local Open Scope Z_scope.

(** How the connection attempt ends. *)
Inductive Connect : Type :=
  | Connected
  | SocketNotFound
  | ConnectionRefused
  | ConnectTimeout
  | ConnectOSError (msg : string).

(** What becomes of a call: the result, one of the two exceptions the module
    documents, or another exception. *)
Inductive Outcome : Type :=
  | CallResult (d : list (string * json))
  | SupervisorClientError (msg : string)
  | SupervisorRPCError (code : Z) (message : string) (data : option (list (string * json)))
  | OtherError (e : exc).

(** What arrives on an open connection: the bytes until the end of the stream,
    or nothing within the time limit. *)
Inductive Response : Type :=
  | Received (s : string)
  | ResponseTimeout.

(** [k in v] for a decoded JSON value. *)
Definition py_in (k : string) (v : json) : result bool :=
  match v with
  | JObj d => Ret (match json_get k d with Some _ => true | None => false end)
  | JArr l => Ret (List.existsb (λ w, match w with JStr s => String.eqb s k | _ => false end) l)
  | JStr s => Ret (str_contains k s)
  | _ => Raise (TypeError "argument is not iterable")
  end.

Section client.
Context `{Pydantic}.

Definition validate_optional_id (v : json) : option (option string) :=
  match v with JNull => Some None | _ => Some <$> lax_str v end.
Definition validate_data (v : json) : option (option (list (string * json))) :=
  match v with JNull => Some None | JObj d => Some (Some d) | _ => None end.

(** [JSONRPCErrorDetail] and [JSONRPCErrorResponse]: code, message and data. *)
Definition JSONRPCErrorDetail_model (v : json) :
    option (Z * string * option (list (string * json))) :=
  d ← validate_dict v;
  code ← field "code" None lax_int d;
  message ← field "message" None lax_str d;
  data ← field "data" (Some None) validate_data d;
  Some (code, message, data).

Definition JSONRPCErrorResponse_model (v : json) :
    option (Z * string * option (list (string * json))) :=
  d ← validate_dict v;
  _ ← field "jsonrpc" (Some tt) validate_jsonrpc d;
  _ ← field "id" None validate_optional_id d;
  field "error" None JSONRPCErrorDetail_model d.

Definition JSONRPCResult_model (v : json) : option (list (string * json)) :=
  d ← validate_dict v;
  _ ← field "jsonrpc" (Some tt) validate_jsonrpc d;
  _ ← field "id" None lax_str d;
  field "result" None validate_dict d.

Definition ValidationError : exc := ValueError "ValidationError".

(** The part of [_send_request] after the payload was written. *)
Definition read_response (timeout : string) (r : Response) : Outcome :=
  match r with
  | ResponseTimeout =>
      SupervisorClientError ("Timeout waiting for supervisor response after " +:+ timeout +:+ "s")
  | Received s =>
      match readline s with
      | None => OtherError (ValueError "Separator is not found, and chunk exceed the limit")
      | Some (EmptyString, _) =>
          SupervisorClientError "Supervisor closed connection without responding"
      | Some (response_line, _) =>
          match loads response_line with
          | None => OtherError (ValueError "JSONDecodeError")
          | Some response_data =>
              match py_in "error" response_data with
              | Raise e => OtherError e
              | Ret true =>
                  match JSONRPCErrorResponse_model response_data with
                  | Some (code, message, data) => SupervisorRPCError code message data
                  | None => OtherError ValidationError
                  end
              | Ret false =>
                  match JSONRPCResult_model response_data with
                  | Some result => CallResult result
                  | None => OtherError ValidationError
                  end
              end
          end
      end
  end.

Definition connect_error (socket_path timeout : string) (c : Connect) : option string :=
  match c with
  | Connected => None
  | SocketNotFound =>
      Some ("Supervisor socket not found at " +:+ socket_path +:+ ". Is palworld-supervisor running?")
  | ConnectionRefused =>
      Some ("Connection refused at " +:+ socket_path +:+ ". Is palworld-supervisor running?")
  | ConnectTimeout =>
      Some ("Timeout connecting to supervisor at " +:+ socket_path +:+ " after " +:+ timeout +:+ "s")
  | ConnectOSError e => Some ("OS error connecting to supervisor: " +:+ e)
  end.

(** The request object the client builds: its own model validates it. *)
Definition request_line (request_id method : string) (params : list (string * json)) : option string :=
  let request := JSONRPCRequest_json
    {| rq_id := request_id; rq_method := method; rq_params := params |} in
  match JSONRPCRequest_model request with
  | Some _ => Some (model_dump_json request +:+ nl)
  | None => None
  end.

(** [_send_request] over a transport that answers the bytes of the payload. *)
Definition send_request {S} (unix_sockets : bool) (platform socket_path timeout : string)
    (connect : Connect) (transport : string → PyM S Response)
    (request_id method : string) (params : list (string * json)) : PyM S Outcome :=
  match request_line request_id method params with
  | None => py_ret (OtherError ValidationError)
  | Some payload =>
      if negb unix_sockets then
        py_ret (SupervisorClientError
          ("Unix domain sockets not supported on platform " +:+ platform))
      else
        match connect_error socket_path timeout connect with
        | Some msg => py_ret (SupervisorClientError msg)
        | None => py_bind (transport payload) (λ r, py_ret (read_response timeout r))
        end
  end.
End client.

(** The five public calls: method and parameters. *)
Definition restart_service (service_name : string) (timeout_seconds : Z) : string * list (string * json) :=
  ("service.restart", [("service_name", JStr service_name); ("timeout_seconds", JInt timeout_seconds)])%string.
Definition get_service_status (service_name : string) : string * list (string * json) :=
  ("service.status", [("service_name", JStr service_name)])%string.
Definition reload_systemd (daemon_reload : bool) : string * list (string * json) :=
  ("service.reload", [("daemon_reload", JBool daemon_reload)])%string.
Definition schedule_reboot (delay_seconds : Z) (reason : string) : string * list (string * json) :=
  ("system.reboot", ("delay_seconds", JInt delay_seconds) ::
     match reason with EmptyString => [] | _ => [("reason", JStr reason)] end)%string.
Definition trigger_deploy (target_branch : string) : string * list (string * json) :=
  ("system.deploy", [("target_branch", JStr target_branch)])%string.

(** * The two ends together *)

Section calls.
Context `{PydanticLaws}.
(** The limit of the client in milliseconds and as it is printed, and how long the
    supervisor takes until its answer is there, which depends on the host. *)
Context (host : Host) (timeout_ms : Z) (timeout socket_path : string) (answer_time : string → Log → Z).

(** A transport that is the supervisor itself: the payload is everything the
    client sends on the connection, and the answer is what the server writes, if
    that comes before the client's [wait_for] ends.  The server does not notice
    that a client has given up: its handler goes on to the end. *)
Definition supervisor_transport (sock : Peer) (allowed_uid : Z) (payload : string) :
    PyM Log Response :=
  λ l, let '(_, c) := handle_client true host sock allowed_uid payload
                        {| log := l; written := []; closed := false |} in
       (Ret (if answer_time payload l <? timeout_ms then Received (str_concat (written c)) else ResponseTimeout), log c).

(** What a caller expects: the handler's own effects, and its result or an
    internal error. *)
Definition direct_call (method : string) (params : list (string * json)) : PyM Log Outcome :=
  λ l, let '(r, l') := dispatch true host method params l in
       (Ret (match r with
             | Ret d => CallResult d
             | Raise _ => SupervisorRPCError (-32603) "Internal Error" None
             end), l').

Definition call (sock : Peer) (allowed_uid : Z) (request_id : string)
    (mp : string * list (string * json)) : PyM Log Outcome :=
  send_request true "linux" socket_path timeout Connected
    (supervisor_transport sock allowed_uid) request_id mp.1 mp.2.

(** Whether the answer to a request comes before the client gives up. *)
Definition in_time (request_id method : string) (params : list (string * json)) (l : Log) : bool :=
  match request_line request_id method params with Some payload => answer_time payload l <? timeout_ms | None => true end.
Definition timed_out : Outcome :=
  SupervisorClientError ("Timeout waiting for supervisor response after " +:+ timeout +:+ "s").

(** ** Lemmas *)

Lemma request_model_json q :
  rq_method q ∈ ALLOWED_METHODS → utf8_len (rq_id q) ≤ 64 →
  JSONRPCRequest_model (JSONRPCRequest_json q) = Some q.
Proof.
  intros Hm Hi. unfold JSONRPCRequest_model, JSONRPCRequest_json.
  cbn [validate_dict mbind option_bind]. unfold field, validate_method. cbn.
  rewrite !lax_str_str. cbn. unfold max_length. destruct (Z.leb_spec (utf8_len (rq_id q)) 64); [|lia].
  cbn. rewrite bool_decide_eq_true_2 by done. cbn. by destruct q.
Qed.

(** What the client makes of a well-formed answer. *)
Definition reply_outcome (r : result (list (string * json))) : Outcome :=
  match r with
  | Ret d => CallResult d
  | Raise _ => SupervisorRPCError (-32603) "Internal Error" None
  end.

Lemma read_line_reply v :
  plain v = true → strlen (model_dump_json v) ≤ LIMIT →
  readline (model_dump_json v +:+ nl) = Some (model_dump_json v +:+ nl, ""%string).
Proof.
  intros Hp Hl. pose proof (readline_line (model_dump_json v) "" (dump_one_line v Hp) Hl) as E.
  by rewrite str_app_nil_r in E.
Qed.

Lemma line_cons (s : string) : ∃ c r, s +:+ nl = String c r.
Proof. destruct s; [by do 2 eexists|]. rewrite str_app_cons. by do 2 eexists. Qed.

Lemma read_response_reply v :
  plain v = true → strlen (model_dump_json v) ≤ LIMIT →
  read_response timeout (Received (model_dump_json v +:+ nl)) =
  match py_in "error" v with
  | Raise e => OtherError e
  | Ret true => match JSONRPCErrorResponse_model v with
                | Some (code, message, data) => SupervisorRPCError code message data
                | None => OtherError ValidationError
                end
  | Ret false => match JSONRPCResult_model v with
                 | Some result => CallResult result
                 | None => OtherError ValidationError
                 end
  end.
Proof.
  intros Hp Hl. unfold read_response. rewrite read_line_reply by done.
  pose proof (loads_dump v Hp) as E. destruct (line_cons (model_dump_json v)) as (c & r & Ec).
  rewrite Ec in *. by rewrite E.
Qed.

Lemma read_error_reply i code message :
  (∀ s, i = Some s → utf8_valid s = true) → utf8_valid message = true →
  strlen (model_dump_json (JSONRPCErrorResponse_json i code message)) ≤ LIMIT →
  read_response timeout (Received (model_dump_json (JSONRPCErrorResponse_json i code message) +:+ nl))
  = SupervisorRPCError code message None.
Proof.
  intros Hi Hm Hl. rewrite read_response_reply; [| |done].
  - cbn. rewrite lax_int_int. destruct i; cbn; by rewrite !lax_str_str.
  - cbn. rewrite Hm. destruct i as [s|]; cbn; [by rewrite (Hi s)|done].
Qed.

Lemma read_result_reply i d :
  utf8_valid i = true → plain (JObj d) = true →
  strlen (model_dump_json (JSONRPCResult_json i d)) ≤ LIMIT →
  read_response timeout (Received (model_dump_json (JSONRPCResult_json i d) +:+ nl)) = CallResult d.
Proof.
  intros Hi Hd Hl. rewrite read_response_reply; [| |done].
  - cbn. by rewrite lax_str_str.
  - cbn in Hd |- *. by rewrite Hi, Hd.
Qed.

(** One line on a connection: one answer. *)
Lemma handle_one_line line v l l' :
  str_all (λ a, negb (Ascii.eqb a "010")) line = true → strlen line ≤ LIMIT →
  reply_to true host (line +:+ nl) l = (Ret v, l') →
  handle_lines true host (line +:+ nl) {| log := l; written := []; closed := false |} =
  (Ret tt, {| log := l'; written := [model_dump_json v +:+ nl]; closed := true |}).
Proof.
  intros Ha Hl Hv. unfold handle_lines. cbn [serve_lines].
  pose proof (readline_line line "" Ha Hl) as E. rewrite str_app_nil_r in E. rewrite E.
  destruct (line_cons line) as (a & r & Ec). rewrite Ec in *.
  unfold py_bind at 1, lift_log. cbn [log]. rewrite Hv. done.
Qed.

Lemma request_plain q :
  rq_method q ∈ ALLOWED_METHODS → plain (JObj (rq_params q)) = true → utf8_valid (rq_id q) = true →
  plain (JSONRPCRequest_json q) = true.
Proof.
  intros Hm Hp Hi. assert (utf8_valid (rq_method q) = true) as Hma.
  { revert Hm. clear. unfold ALLOWED_METHODS. rewrite !elem_of_cons, elem_of_nil.
    by intros [->|[->|[->|[->|[->|[]]]]]]. }
  cbn in Hp |- *. by rewrite Hi, Hma, Hp.
Qed.

(** The server's answer to a valid request. *)
Lemma request_answered q l :
  rq_method q ∈ ALLOWED_METHODS → utf8_len (rq_id q) ≤ 64 → plain (JSONRPCRequest_json q) = true →
  strlen (model_dump_json (JSONRPCRequest_json q)) < LIMIT →
  ∃ v, reply_to true host (model_dump_json (JSONRPCRequest_json q) +:+ nl) l =
    (Ret v, (dispatch true host (rq_method q) (rq_params q) l).2) ∧
    v = match (dispatch true host (rq_method q) (rq_params q) l).1 with
        | Ret d => JSONRPCResult_json (rq_id q) d
        | Raise _ => JSONRPCErrorResponse_json (Some (rq_id q)) (-32603) "Internal Error"
        end.
Proof.
  intros Hm Hi Hq Hreq. unfold reply_to.
  assert (LIMIT <? strlen (model_dump_json (JSONRPCRequest_json q) +:+ nl) = false) as ->.
  { apply Z.ltb_ge. unfold strlen in *. rewrite str_length_app. cbn. lia. }
  rewrite validate_dump by done. cbn [mbind option_bind].
  rewrite request_model_json by done.
  unfold py_try, py_bind, py_ret. destruct (dispatch true host _ _ l) as [[d|e] l']; by eexists.
Qed.
End calls.

(** * Properties *)



(** ** What modelling showed *)

(** When the kernel does not report the peer's credentials the server, on any
    platform, serves the connection without authentication. *)
Lemma unreadable_credentials_accepted `{Pydantic} posix host allowed_uid input c :
  handle_client posix host None allowed_uid input c = handle_lines posix host input c.
Proof.
  unfold handle_client, validate_peer_credentials, get_peer_credentials. by destruct posix.
Qed.

(** The branch pattern lets one line feed pass at the end of the name. *)
Lemma branch_with_line_feed_deployed :
  (dispatch true example_host "system.deploy" [("target_branch", JStr ("main" +:+ nl))]%string []).2
  = [Spawn ["/var/lib/palmanager/deploy-runner.sh"; "main" +:+ nl]%string true].
Proof. vm_compute. reflexivity. Qed.

(** The reason of a reboot reaches [shutdown] as an argument of its own, also
    when it looks like an option. *)
Lemma reason_may_be_an_option :
  (dispatch true example_host "system.reboot" [("reason", JStr "--halt")]%string []).2
  = [Spawn ["/sbin/shutdown"; "-r"; "now"; "--halt"]%string false].
Proof. vm_compute. reflexivity. Qed.
