(* ===== verification/Lifecycle.v ===== *)
(** The reboot life cycle of the game server ([app/engine/service.py]) and the
    endpoints that start and cancel it ([app/routers/system.py]).

    The engine is one object that several coroutines share.  A countdown runs
    in one coroutine that holds the engine's [asyncio.Lock]; at each of its
    awaits other coroutines may run: they cancel the countdown, stage settings,
    open and close web sockets, or start another countdown, which claims the
    lock file and then waits for the lock.  The model runs the holder and takes,
    at each await, the operations that happen there from a schedule; all
    interleavings are schedules.  What the game server, Discord and the file
    system answer are parameters, and the trace records what was done. *)

From S2P Require Import Prelude PyStr PyNum PyDict IniParser SettingsMeta Pipeline.
From Stdlib Require Import ZArith Lia Ascii Bool.
From stdpp Require Import base tactics list strings gmap sets.

Local Open Scope Z_scope.

(** * State *)

Inductive Phase : Type := IDLE | COUNTDOWN | SAVING | MAINTENANCE | PROBING.

#[export] Instance Phase_eq_dec : EqDecision Phase.
Proof. solve_decision. Defined.

Definition phase_name (p : Phase) : string :=
  match p with
  | IDLE => "IDLE" | COUNTDOWN => "COUNTDOWN" | SAVING => "SAVING"
  | MAINTENANCE => "MAINTENANCE" | PROBING => "PROBING"
  end.

Record LifecycleState := {
  phase : Phase;
  remaining_seconds : Z;
  total_seconds : Z;
  current_broadcast : string;
  is_updating : bool }.

Definition idle_state : LifecycleState :=
  {| phase := IDLE; remaining_seconds := 0; total_seconds := 0; current_broadcast := "";
     is_updating := false |}.

Inductive Notice : Type :=
  | RebootCountdown (time_str : string) (trigger_update : bool) (tag : option string) (custom : string)
  | RebootCancelled (reason : string)
  | RebootComplete
  | AdminBroadcast (message : string).

Inductive Event : Type :=
  | Announce (message : string)
  | Discord (n : Notice)
  | WsUpdate (p : Phase) (remaining : Z)
  | SaveWorld
  | IniWrite (path content : string)
  | RestartService (name : string)
  | Probe
  | Sleep (seconds : Z)
  | CancelReply (accepted : bool).

(** What another coroutine does while the countdown waits. *)
Inductive EnvOp : Type :=
  | Cancel (reason : string)
  | Stage (ini : string)
  | Register (ws : Z)
  | Unregister (ws : Z)
  | Start (now : Z).

(** The operations during one await; for the one-second wait of a tick, those
    before its timer fires and those between that and the resumption. *)
Record Slot := { early : list EnvOp; late : list EnvOp }.

Record Engine := {
  lock_file : option Z;  (** its modification time, in nanoseconds *)
  life : LifecycleState;
  cancel_event : bool;
  cancel_reason : string;
  staged_ini : option string;
  flags : gset string;  (** the update flag files that exist *)
  active_sockets : list Z;
  schedule : list Slot;
  trace : list Event }.

Definition set_lock (l : option Z) (s : Engine) : Engine :=
  {| lock_file := l; life := life s; cancel_event := cancel_event s;
     cancel_reason := cancel_reason s; staged_ini := staged_ini s; flags := flags s;
     active_sockets := active_sockets s; schedule := schedule s; trace := trace s |}.
Definition set_life (l : LifecycleState) (s : Engine) : Engine :=
  {| lock_file := lock_file s; life := l; cancel_event := cancel_event s;
     cancel_reason := cancel_reason s; staged_ini := staged_ini s; flags := flags s;
     active_sockets := active_sockets s; schedule := schedule s; trace := trace s |}.
Definition set_cancel (b : bool) (reason : string) (s : Engine) : Engine :=
  {| lock_file := lock_file s; life := life s; cancel_event := b;
     cancel_reason := reason; staged_ini := staged_ini s; flags := flags s;
     active_sockets := active_sockets s; schedule := schedule s; trace := trace s |}.
Definition set_staged (i : option string) (s : Engine) : Engine :=
  {| lock_file := lock_file s; life := life s; cancel_event := cancel_event s;
     cancel_reason := cancel_reason s; staged_ini := i; flags := flags s;
     active_sockets := active_sockets s; schedule := schedule s; trace := trace s |}.
Definition set_flags (f : gset string) (s : Engine) : Engine :=
  {| lock_file := lock_file s; life := life s; cancel_event := cancel_event s;
     cancel_reason := cancel_reason s; staged_ini := staged_ini s; flags := f;
     active_sockets := active_sockets s; schedule := schedule s; trace := trace s |}.
Definition set_sockets (w : list Z) (s : Engine) : Engine :=
  {| lock_file := lock_file s; life := life s; cancel_event := cancel_event s;
     cancel_reason := cancel_reason s; staged_ini := staged_ini s; flags := flags s;
     active_sockets := w; schedule := schedule s; trace := trace s |}.
Definition set_schedule (l : list Slot) (s : Engine) : Engine :=
  {| lock_file := lock_file s; life := life s; cancel_event := cancel_event s;
     cancel_reason := cancel_reason s; staged_ini := staged_ini s; flags := flags s;
     active_sockets := active_sockets s; schedule := l; trace := trace s |}.
Definition log_event (e : Event) (s : Engine) : Engine :=
  {| lock_file := lock_file s; life := life s; cancel_event := cancel_event s;
     cancel_reason := cancel_reason s; staged_ini := staged_ini s; flags := flags s;
     active_sockets := active_sockets s; schedule := schedule s; trace := trace s ++ [e] |}.

Definition with_phase (p : Phase) (b : string) (l : LifecycleState) : LifecycleState :=
  {| phase := p; remaining_seconds := remaining_seconds l; total_seconds := total_seconds l;
     current_broadcast := b; is_updating := is_updating l |}.
Definition with_remaining (n : Z) (l : LifecycleState) : LifecycleState :=
  {| phase := phase l; remaining_seconds := n; total_seconds := total_seconds l;
     current_broadcast := current_broadcast l; is_updating := is_updating l |}.
Definition with_broadcast (b : string) (l : LifecycleState) : LifecycleState :=
  with_phase (phase l) b l.

(** * The world outside the engine *)

Class World := {
  posix : bool;
  stat_fails : bool;  (** inspecting the lock file raises an [OSError] *)
  unlink_fails : bool;
  touch_fails : bool;
  writable : string → bool;  (** a file can be written at the path *)
  removable : string → bool;
  announce_ok : string → bool;
  socket_alive : Z → bool;
  probe_result : nat → option bool;  (** [None]: the answer is no JSON *)
  update_flag : string;
  ini_path : string;
  settings_ini_path : string;
  home : string;
  service_name : string;
}.

Section engine.
Context `{World}.
Local Open Scope py_scope.

Definition emit (e : Event) : PyM Engine unit := py_modify (log_event e).

(** [touch] for a file that may exist: its time becomes the present one. *)
Definition touch_lock (now : Z) : PyM Engine unit :=
  if touch_fails then py_raise OSError else py_modify (set_lock (Some now)).

Definition STALE_NS : Z := 900 * 1000000000.

Definition already_active : exc := RuntimeError "Reboot countdown sequence is already active.".

Definition check_and_acquire_lock (now : Z) : PyM Engine unit :=
  s <- py_get ;;
  match lock_file s with
  | None => py_ret tt
  | Some mtime =>
      if stat_fails then py_raise already_active
      else if (now - mtime >? STALE_NS)%Z then
        if unlink_fails then py_raise already_active else py_modify (set_lock None)
      else py_ret tt
  end ;;;
  touch_lock now.

Definition cancel_countdown (reason : string) : PyM Engine bool :=
  s <- py_get ;;
  if decide (phase (life s) = COUNTDOWN) then
    py_modify (set_cancel true reason) ;;; emit (CancelReply true) ;;; py_ret true
  else emit (CancelReply false) ;;; py_ret false.

Definition stage_settings (serialized_ini : string) : PyM Engine unit :=
  py_modify (set_staged (Some serialized_ini)).

Definition register_socket (ws : Z) : PyM Engine unit :=
  py_modify (λ s, if decide (ws ∈ active_sockets s) then s
                  else set_sockets (active_sockets s ++ [ws]) s).
Definition unregister_socket (ws : Z) : PyM Engine unit :=
  py_modify (λ s, set_sockets (List.filter (λ w, negb (w =? ws)%Z) (active_sockets s)) s).

Definition env_step (s : Engine) (op : EnvOp) : Engine :=
  match op with
  | Cancel reason => (cancel_countdown reason s).2
  | Stage ini => (stage_settings ini s).2
  | Register ws => (register_socket ws s).2
  | Unregister ws => (unregister_socket ws s).2
  | Start now => (check_and_acquire_lock now s).2
  end.

Definition run_env (ops : list EnvOp) (s : Engine) : Engine := fold_left env_step ops s.

(** An await: the operations of its slot run. *)
Definition await : PyM Engine unit :=
  py_modify (λ s,
    match schedule s with
    | [] => s
    | slot :: rest => run_env (early slot ++ late slot) (set_schedule rest s)
    end).

(** [asyncio.wait_for(event.wait(), timeout=1.0)]: whether the event woke it.
    What happens after the timer fired comes too late for this wait. *)
Definition wait_for_event : PyM Engine bool :=
  λ s, if cancel_event s then (Ret true, s)
       else match schedule s with
            | [] => (Ret false, s)
            | slot :: rest =>
                let s1 := run_env (early slot) (set_schedule rest s) in
                (Ret (cancel_event s1), run_env (late slot) s1)
            end.

(** The loop of [broadcast_ws] over the set of sockets: its iterator raises when
    the size of the set is no longer what it was. *)
Fixpoint send_all (size : nat) (sockets dead : list Z) : PyM Engine (list Z) :=
  s <- py_get ;;
  if negb (Nat.eqb (length (active_sockets s)) size) then
    py_raise (RuntimeError "Set changed size during iteration")
  else
    match sockets with
    | [] => py_ret dead
    | ws :: rest =>
        await ;;; send_all size rest (if socket_alive ws then dead else ws :: dead)
    end.

Definition broadcast_ws : PyM Engine unit :=
  s <- py_get ;;
  emit (WsUpdate (phase (life s)) (remaining_seconds (life s))) ;;;
  dead_sockets <- send_all (length (active_sockets s)) (active_sockets s) [] ;;
  py_modify (λ s, set_sockets
    (List.filter (λ w, negb (bool_decide (w ∈ dead_sockets))) (active_sockets s)) s).

Definition notify (n : Notice) : PyM Engine unit := emit (Discord n) ;;; await.

Definition send_broadcast (message : string) (mirror_discord : bool) : PyM Engine bool :=
  emit (Announce message) ;;; await ;;;
  (if mirror_discord then notify (AdminBroadcast message) else py_ret tt) ;;;
  py_ret (announce_ok message).

Definition trigger_save : PyM Engine unit := emit SaveWorld ;;; await.
Definition sleep (seconds : Z) : PyM Engine unit := emit (Sleep seconds) ;;; await.

Definition candidate_flags : list string :=
  [update_flag; "/var/lib/palmanager/update_requested"; "/home/steam/.update_requested"]%string.

Definition set_update_flags : PyM Engine unit :=
  py_modify (λ s, set_flags (flags s ∪ list_to_set (List.filter writable candidate_flags)) s).
Definition clear_update_flags : PyM Engine unit :=
  py_modify (λ s, set_flags
    (flags s ∖ list_to_set (List.filter (λ p, writable p && removable p) candidate_flags)) s).

Definition format_countdown_string (remaining_seconds : Z) : string :=
  if (60 <=? remaining_seconds)%Z then
    let mins := (remaining_seconds / 60)%Z in
    str_of_Z mins +:+ " minute" +:+ (if (mins >? 1)%Z then "s" else "")
  else str_of_Z remaining_seconds +:+ " seconds".

Definition COUNTDOWN_DISCORD_INTERVALS : list Z := [600; 300; 60].
Definition COUNTDOWN_ALL_INTERVALS : list Z := [600; 300; 180; 120; 60; 30; 15; 10; 5; 4; 3; 2; 1].

Definition in_intervals (n : Z) (l : list Z) : bool := List.existsb (Z.eqb n) l.

(** The banner of a tick, and the ticks that have one. *)
Definition announced (countdown_seconds remaining : Z) : bool :=
  in_intervals remaining COUNTDOWN_ALL_INTERVALS || (remaining =? countdown_seconds)%Z.
Definition discord_announced (countdown_seconds remaining : Z) : bool :=
  in_intervals remaining COUNTDOWN_DISCORD_INTERVALS || (remaining =? countdown_seconds)%Z.

(** [f" to {tag}" if tag else ""] *)
Definition target_info (tag : option string) : string :=
  match tag with Some (String _ _ as t) => " to " +:+ t | _ => "" end.

Definition with_custom (custom_message base : string) : string :=
  match custom_message with EmptyString => base | _ => custom_message +:+ " - " +:+ base end.

Definition countdown_message (trigger_update : bool) (tag : option string) (custom_message : string)
    (remaining : Z) : string :=
  let time_str := format_countdown_string remaining in
  with_custom custom_message
    (if trigger_update then "Server updating" +:+ target_info tag +:+ " and restarting in " +:+ time_str +:+ "."
     else "Server maintenance restart in " +:+ time_str +:+ ".").

Definition update_life (f : LifecycleState → LifecycleState) : PyM Engine unit :=
  py_modify (λ s, set_life (f (life s)) s).

(** The banner and the notice of a tick, at the seconds that have them. *)
Definition announce_tick (countdown_seconds : Z) (trigger_update : bool) (tag : option string)
    (custom_message : string) (remaining : Z) : PyM Engine unit :=
  if announced countdown_seconds remaining then
    let full_msg := countdown_message trigger_update tag custom_message remaining in
    update_life (with_broadcast full_msg) ;;;
    _ <- send_broadcast full_msg false ;;
    if discord_announced countdown_seconds remaining then
      notify (RebootCountdown (format_countdown_string remaining) trigger_update tag custom_message)
    else py_ret tt
  else py_ret tt.

(** One iteration of the countdown: whether it was cancelled. *)
Definition countdown_tick (countdown_seconds : Z) (trigger_update : bool) (tag : option string)
    (custom_message : string) (remaining : Z) : PyM Engine bool :=
  s <- py_get ;;
  if cancel_event s then py_ret true
  else
    update_life (with_remaining remaining) ;;;
    announce_tick countdown_seconds trigger_update tag custom_message remaining ;;;
    broadcast_ws ;;;
    wait_for_event.

(** [_run_countdown_loop] with [remaining] seconds left: whether it completed. *)
Fixpoint run_countdown_loop (countdown_seconds : Z) (trigger_update : bool) (tag : option string)
    (custom_message : string) (remaining : nat) : PyM Engine bool :=
  match remaining with
  | O => py_ret true
  | S n =>
      cancelled <- countdown_tick countdown_seconds trigger_update tag custom_message
                     (Z.of_nat remaining) ;;
      if (cancelled : bool) then py_ret false
      else run_countdown_loop countdown_seconds trigger_update tag custom_message n
  end.

Definition staged_candidates : list string :=
  ["/var/lib/palmanager/staged_PalWorldSettings.ini";
   home +:+ "/.palmanager/staged_PalWorldSettings.ini";
   "/home/steam/.staged_PalWorldSettings.ini"]%string.

Definition ini_write (content path : string) : PyM Engine unit :=
  if writable path then emit (IniWrite path content) else py_ret tt.

Fixpoint ini_writes (content : string) (paths : list string) : PyM Engine unit :=
  match paths with
  | [] => py_ret tt
  | p :: ps => ini_write content p ;;; ini_writes content ps
  end.

Definition apply_staged_configuration : PyM Engine unit :=
  s <- py_get ;;
  match staged_ini s with
  | Some (String _ _ as content) =>
      ini_writes content (ini_path :: staged_candidates) ;;;
      py_modify (set_staged None)
  | _ => py_ret tt
  end.

(** The probing loop: at most [n] attempts are left. *)
Fixpoint probe_readiness (n i : nat) : PyM Engine unit :=
  match n with
  | O => py_ret tt
  | S n =>
      emit Probe ;;; await ;;;
      match probe_result i with
      | None => py_raise (ValueError "JSONDecodeError")
      | Some true => notify RebootComplete
      | Some false => sleep 2 ;;; probe_readiness n (S i)
      end
  end.

(** The three phases of [_restart_and_await_readiness]. *)
Definition saving_phase : PyM Engine unit :=
  update_life (with_phase SAVING "Saving world state to disk...") ;;;
  broadcast_ws ;;;
  _ <- send_broadcast "Server restarting NOW. Saving progress." true ;;
  trigger_save ;;;
  sleep 1.

Definition maintenance_phase : PyM Engine unit :=
  update_life (with_phase MAINTENANCE "Executing systemctl restart & backup hooks...") ;;;
  broadcast_ws ;;;
  apply_staged_configuration ;;;
  (if posix then emit (RestartService service_name) ;;; await else py_ret tt) ;;;
  sleep 3.

Definition probing_phase : PyM Engine unit :=
  update_life (with_phase PROBING "Probing engine initialization and readiness...") ;;;
  broadcast_ws ;;;
  probe_readiness 90 0.

Definition restart_and_await_readiness : PyM Engine unit :=
  saving_phase ;;; maintenance_phase ;;; probing_phase.

Definition release_reboot_lock : PyM Engine unit :=
  (if unlink_fails then py_ret tt else py_modify (set_lock None)) ;;;
  update_life (λ _, idle_state).

(** The cancelled countdown: the message, the notice, the flags. *)
Definition abort_reboot : PyM Engine unit :=
  s <- py_get ;;
  _ <- send_broadcast
         (match cancel_reason s with
          | EmptyString => "Server restart CANCELLED."
          | r => "Server restart CANCELLED: " +:+ r
          end) false ;;
  s <- py_get ;;
  notify (RebootCancelled (cancel_reason s)) ;;;
  clear_update_flags.

Record Request := {
  countdown_seconds : Z;
  trigger_update : bool;
  update_version_tag : option string;
  custom_message : string }.

(** The countdown or the immediate announcement: whether the restart follows. *)
Definition announce_reboot (r : Request) : PyM Engine bool :=
  let n := countdown_seconds r in
  if (n >? 0)%Z then
    update_life (λ _, {| phase := COUNTDOWN; remaining_seconds := n; total_seconds := n;
      current_broadcast := match custom_message r with
                           | EmptyString => "Initiating countdown sequence..." | m => m end;
      is_updating := trigger_update r |}) ;;;
    broadcast_ws ;;;
    run_countdown_loop n (trigger_update r) (update_version_tag r) (custom_message r) (Z.to_nat n)
  else
    _ <- send_broadcast (with_custom (custom_message r)
           (if trigger_update r then "Server updating and restarting immediately."
            else "Server restarting immediately.")) false ;;
    notify (RebootCountdown "immediately" (trigger_update r) (update_version_tag r)
              (custom_message r)) ;;;
    py_ret true.

(** The part of [execute_countdown_and_reboot] that holds the engine's lock. *)
Definition locked_sequence (r : Request) : PyM Engine unit :=
  py_finally
    (py_modify (set_cancel false "") ;;;
     (if trigger_update r then set_update_flags else py_ret tt) ;;;
     completed <- announce_reboot r ;;
     if (completed : bool) then restart_and_await_readiness else abort_reboot)
    (release_reboot_lock ;;; broadcast_ws).

(** The whole call when the engine's lock is free. *)
Definition execute_countdown_and_reboot (now : Z) (r : Request) : PyM Engine unit :=
  check_and_acquire_lock now ;;; locked_sequence r.

(** ** Endpoints *)

Definition MSG_IN_PROGRESS : string := "Reboot sequence already in progress.".

(** [_write_ini_file_with_fallback]: the target, or a file in the home directory. *)
Definition write_ini_file_with_fallback (content : string) : PyM Engine unit :=
  if writable settings_ini_path then emit (IniWrite settings_ini_path content)
  else
    let fallback_file := home +:+ "/.palmanager/PalWorldSettings.ini" in
    if writable fallback_file then emit (IniWrite fallback_file content) else py_raise OSError.

Definition stage_settings_for_reboot (content : string) : PyM Engine unit :=
  ini_writes content staged_candidates.

Definition reboot_message (r : Request) : string :=
  (if (countdown_seconds r =? 0)%Z then "Immediate server restart"
   else "Countdown sequence (" +:+ str_of_Z (countdown_seconds r) +:+ "s)")
  +:+ (if trigger_update r then " with SteamCMD update" else "") +:+ " initiated.".

(** [trigger_reboot]: the message of the answer, and the call that is queued
    behind it. [f] is the configuration file that the pipeline reads. *)
Definition trigger_reboot (f : IniFile) (settings : dict) (r : Request) :
    PyM Engine (string * Request) :=
  s <- py_get ;;
  match lock_file s with
  | Some _ => py_raise (HTTPException 409 MSG_IN_PROGRESS)
  | None =>
      match settings with
      | [] => py_ret tt
      | _ =>
          match merge_and_serialize f settings with
          | Raise e => py_raise e
          | Ret serialized_ini =>
              await ;;; write_ini_file_with_fallback serialized_ini ;;;
              stage_settings serialized_ini ;;;
              stage_settings_for_reboot serialized_ini
          end
      end ;;;
      py_ret (reboot_message r, r)
  end.

Definition cancel_reboot (reason : string) : PyM Engine unit :=
  s <- py_get ;;
  if decide (phase (life s) = COUNTDOWN) then
    success <- cancel_countdown reason ;;
    if (success : bool) then py_ret tt
    else py_raise (HTTPException 409 "Failed to cancel reboot. Server is no longer in 'COUNTDOWN' phase.")
  else
    py_raise (HTTPException 409 ("Cannot cancel reboot during phase '" +:+ phase_name (phase (life s))
      +:+ "'. Cancellation is only permitted during 'COUNTDOWN'.")).

(** [shutdown_server] on a valid request: the countdown that is queued, which ends
    in a restart. *)
Definition shutdown_server (seconds : Z) (message : string) : PyM Engine Request :=
  s <- py_get ;;
  match lock_file s with
  | Some _ =>
      py_raise (HTTPException 409 "Reboot sequence already in progress. Cancel it before scheduling a shutdown.")
  | None =>
      py_ret {| countdown_seconds := seconds; trigger_update := false; update_version_tag := None;
                custom_message := message |}
  end.
End engine.

(** * Concrete runs *)

#[export] Instance example_world : World := {
  posix := true; stat_fails := false; unlink_fails := false; touch_fails := false;
  writable := λ _, true; removable := λ _, true; announce_ok := λ _, true;
  socket_alive := λ _, true; probe_result := λ i, Some (Nat.leb 2 i);
  update_flag := "/var/lib/palmanager/update_requested"; ini_path := "/srv/PalWorldSettings.ini";
  settings_ini_path := "/srv/PalWorldSettings.ini";
  home := "/home/pal"; service_name := "palworld.service" }.

Definition fresh_engine (slots : list Slot) (sockets : list Z) : Engine :=
  {| lock_file := None; life := idle_state; cancel_event := false; cancel_reason := "";
     staged_ini := None; flags := ∅; active_sockets := sockets; schedule := slots; trace := [] |}.

Definition plain_request (n : Z) : Request :=
  {| countdown_seconds := n; trigger_update := false; update_version_tag := None;
     custom_message := "" |}.

Example two_second_run :
  (execute_countdown_and_reboot 0 (plain_request 2) (fresh_engine [] [])).2.(trace) =
  [WsUpdate COUNTDOWN 2; Announce "Server maintenance restart in 2 seconds.";
   Discord (RebootCountdown "2 seconds" false None ""); WsUpdate COUNTDOWN 2;
   Announce "Server maintenance restart in 1 seconds."; WsUpdate COUNTDOWN 1;
   WsUpdate SAVING 1; Announce "Server restarting NOW. Saving progress.";
   Discord (AdminBroadcast "Server restarting NOW. Saving progress."); SaveWorld; Sleep 1;
   WsUpdate MAINTENANCE 1; RestartService "palworld.service"; Sleep 3; WsUpdate PROBING 1;
   Probe; Sleep 2; Probe; Sleep 2; Probe; Discord RebootComplete; WsUpdate IDLE 0].
Proof. vm_compute. reflexivity. Qed.

(** * How a segment of a run evolves *)

(** Everything but the replies to cancellations is the holder's own doing. *)
Definition is_reply (e : Event) : bool := match e with CancelReply _ => true | _ => false end.
Definition visible (es : list Event) : list Event := List.filter (λ e, negb (is_reply e)) es.

(** From [s] to [s'] the trace grows by events whose visible part is [vis]; the
    phase stays; an accepted cancellation needs the phase COUNTDOWN and leaves
    the event set, and nothing else sets it; the rest of the schedule remains. *)
Definition evolves (vis : list Event) (s s' : Engine) : Prop :=
  ∃ es, trace s' = trace s ++ es ∧ visible es = vis ∧
    phase (life s') = phase (life s) ∧
    (CancelReply true ∈ es → phase (life s) = COUNTDOWN ∧ cancel_event s' = true) ∧
    (cancel_event s' = true ↔ cancel_event s = true ∨ CancelReply true ∈ es) ∧
    (∃ used, schedule s = used ++ schedule s').

Lemma visible_app es1 es2 : visible (es1 ++ es2) = visible es1 ++ visible es2.
Proof. apply List.filter_app. Qed.

Lemma evolves_refl s : evolves [] s s.
Proof.
  exists []. rewrite app_nil_r, elem_of_nil. split_and!; try done; [tauto|by exists []].
Qed.

Lemma evolves_trans v1 v2 s1 s2 s3 :
  evolves v1 s1 s2 → evolves v2 s2 s3 → evolves (v1 ++ v2) s1 s3.
Proof.
  intros (es1 & T1 & V1 & P1 & A1 & C1 & u1 & S1) (es2 & T2 & V2 & P2 & A2 & C2 & u2 & S2).
  exists (es1 ++ es2). split; [by rewrite T2, T1, app_assoc|].
  split; [by rewrite visible_app, V1, V2|]. split; [congruence|]. split.
  { intros [H|H]%elem_of_app; [naive_solver|]. destruct (A2 H). split; [congruence|done]. }
  split; [rewrite C2, C1, elem_of_app; tauto|]. exists (u1 ++ u2). by rewrite S1, S2, app_assoc.
Qed.

Lemma evolves_trans_nil v s1 s2 s3 : evolves [] s1 s2 → evolves v s2 s3 → evolves v s1 s3.
Proof. intros H1 H2. apply (evolves_trans [] v _ _ _ H1 H2). Qed.

(** Changes of the state that leave trace, phase, event and schedule alone. *)
Lemma evolves_same s s' :
  trace s' = trace s → phase (life s') = phase (life s) → cancel_event s' = cancel_event s →
  schedule s' = schedule s → evolves [] s s'.
Proof.
  intros E1 E2 E3 E4. exists []. rewrite app_nil_r, elem_of_nil, E3.
  split_and!; try congruence; [done|done|tauto|by exists []].
Qed.

Section segments.
Context `{World}.

Lemma evolves_log e s : is_reply e = false → evolves [e] s (log_event e s).
Proof.
  intros He. exists [e]. split; [done|]. split; [cbn; by rewrite He|]. split; [done|]. split.
  { intros E%list_elem_of_singleton. by subst e. }
  split; [|by exists []]. rewrite list_elem_of_singleton. cbn. split; [tauto|].
  intros [|<-]; done.
Qed.

Lemma env_step_spec s op :
  evolves [] s (env_step s op) ∧ life (env_step s op) = life s ∧ flags (env_step s op) = flags s ∧
  ((∀ r, op ≠ Cancel r) → cancel_event (env_step s op) = cancel_event s) ∧
  ((∀ t, op ≠ Start t) → lock_file (env_step s op) = lock_file s).
Proof.
  destruct op as [r|i|w|w|t]; cbn.
  - unfold cancel_countdown, emit, py_bind, py_get, py_modify, py_ret.
    destruct (decide (phase (life s) = COUNTDOWN)); cbn.
    + split; [|naive_solver]. exists [CancelReply true]. cbn. split_and!; try done; [|by exists []].
      rewrite list_elem_of_singleton. tauto.
    + split; [|naive_solver]. exists [CancelReply false]. cbn. rewrite list_elem_of_singleton.
      split_and!; try done; [|by exists []]. split; [tauto|]. by intros [|].
  - split; [by apply evolves_same|done].
  - unfold register_socket, py_modify. cbn.
    destruct (decide (w ∈ active_sockets s)); (split; [by apply evolves_same|done]).
  - split; [by apply evolves_same|done].
  - unfold check_and_acquire_lock, touch_lock, py_bind, py_get, py_modify, py_raise, py_ret.
    destruct (lock_file s) as [m|] eqn:E; destruct stat_fails, unlink_fails, touch_fails;
      try destruct (t - m >? STALE_NS); cbn;
      (split; [by apply evolves_same|split_and!; try done; intros Hn; by destruct (Hn t)]).
Qed.

Lemma run_env_spec ops s :
  evolves [] s (run_env ops s) ∧ life (run_env ops s) = life s ∧ flags (run_env ops s) = flags s ∧
  ((∀ r, Cancel r ∉ ops) → cancel_event (run_env ops s) = cancel_event s) ∧
  ((∀ t, Start t ∉ ops) → lock_file (run_env ops s) = lock_file s).
Proof.
  unfold run_env. revert s. induction ops as [|op ops IH]; intros s; cbn [fold_left].
  { split; [apply evolves_refl|done]. }
  destruct (env_step_spec s op) as (E & L & F & C & K). destruct (IH (env_step s op)) as (E' & L' & F' & C' & K').
  split; [by eapply evolves_trans_nil|]. split; [congruence|]. split; [congruence|]. split; intros Hn.
  - rewrite C', C; [done| |].
    + intros r ->. by apply (Hn r), list_elem_of_here.
    + intros r Hr. apply (Hn r). by apply list_elem_of_further.
  - rewrite K', K; [done| |].
    + intros r ->. by apply (Hn r), list_elem_of_here.
    + intros r Hr. apply (Hn r). by apply list_elem_of_further.
Qed.

(** A segment in which the holder changes neither the life-cycle state nor the
    update flags. *)
Definition quiet (vis : list Event) (s s' : Engine) : Prop :=
  evolves vis s s' ∧ life s' = life s ∧ flags s' = flags s.

Lemma quiet_trans v1 v2 s1 s2 s3 : quiet v1 s1 s2 → quiet v2 s2 s3 → quiet (v1 ++ v2) s1 s3.
Proof.
  intros (E1 & L1 & F1) (E2 & L2 & F2). split; [by eapply evolves_trans|]. split; congruence.
Qed.

Lemma quiet_log e s : is_reply e = false → quiet [e] s (log_event e s).
Proof. intros. split; [by apply evolves_log|done]. Qed.

Lemma evolves_pop slot rest s : schedule s = slot :: rest → evolves [] s (set_schedule rest s).
Proof.
  intros E. exists []. rewrite app_nil_r. split_and!; try done.
  - by intros ?%elem_of_nil.
  - rewrite elem_of_nil. cbn. tauto.
  - exists [slot]. by rewrite E.
Qed.

Lemma await_spec s : ∃ s', await s = (Ret tt, s') ∧ quiet [] s s'.
Proof.
  unfold await, py_modify. eexists. split; [reflexivity|].
  destruct (schedule s) as [|slot rest] eqn:E; [split; [apply evolves_refl|done]|].
  destruct (run_env_spec (early slot ++ late slot) (set_schedule rest s)) as (H1 & H2 & H3 & _).
  split; [|by rewrite H2, H3]. eapply evolves_trans_nil; [by eapply evolves_pop|done].
Qed.

(** No cancellation arrives between the timer of a tick and its resumption. *)
Definition punctual (l : list Slot) : Prop :=
  Forall (λ slot, ∀ r, Cancel r ∉ late slot) l.

Lemma wait_for_event_spec s :
  ∃ b s', wait_for_event s = (Ret b, s') ∧ quiet [] s s' ∧
    (b = true → cancel_event s' = true) ∧
    (b = false → punctual (schedule s) → cancel_event s' = false).
Proof.
  unfold wait_for_event. destruct (cancel_event s) eqn:Ec.
  { exists true, s. split; [done|]. split; [|done]. split; [apply evolves_refl|done]. }
  destruct (schedule s) as [|slot rest] eqn:E.
  { exists false, s. split; [done|]. split; [|done]. split; [apply evolves_refl|done]. }
  cbv zeta. set (s1 := run_env (early slot) (set_schedule rest s)).
  destruct (run_env_spec (early slot) (set_schedule rest s)) as (H1 & H2 & H3 & _). fold s1 in H1, H2, H3.
  destruct (run_env_spec (late slot) s1) as (H1' & H2' & H3' & H4' & _).
  do 2 eexists. split; [reflexivity|]. split; [|split].
  - split; [|by rewrite H2', H3', H2, H3].
    eapply evolves_trans_nil; [by eapply evolves_pop|]. by eapply evolves_trans_nil.
  - intros Hb. destruct H1' as (? & _ & _ & _ & _ & Hm & _). rewrite Hm. auto.
  - intros Hb Hp. rewrite H4'; [done|]. apply Forall_cons in Hp as [Hp _]. exact Hp.
Qed.

Lemma notify_spec n s : ∃ s', notify n s = (Ret tt, s') ∧ quiet [Discord n] s s'.
Proof.
  unfold notify, emit, py_bind, py_modify. destruct (await_spec (log_event (Discord n) s)) as (s' & E & H1).
  exists s'. split; [done|]. apply (quiet_trans [_] [] _ _ _ (quiet_log (Discord n) s eq_refl) H1).
Qed.

Lemma emit_await_spec e s :
  is_reply e = false → ∃ s', py_bind (emit e) (λ _, await) s = (Ret tt, s') ∧ quiet [e] s s'.
Proof.
  intros He. unfold emit, py_bind, py_modify. destruct (await_spec (log_event e s)) as (s' & E & H1).
  exists s'. split; [done|]. apply (quiet_trans [_] [] _ _ _ (quiet_log e s He) H1).
Qed.

Lemma send_broadcast_spec m mirror s :
  ∃ s', send_broadcast m mirror s = (Ret (announce_ok m), s') ∧
    quiet (Announce m :: if mirror then [Discord (AdminBroadcast m)] else []) s s'.
Proof.
  unfold send_broadcast, emit. unfold py_bind, py_modify, py_ret.
  destruct (await_spec (log_event (Announce m) s)) as (s1 & -> & H1).
  pose proof (quiet_trans [_] [] _ _ _ (quiet_log (Announce m) s eq_refl) H1) as H2. destruct mirror.
  - destruct (notify_spec (AdminBroadcast m) s1) as (s2 & -> & H3). exists s2. split; [done|].
    apply (quiet_trans _ _ _ _ _ H2 H3).
  - by exists s1.
Qed.

Lemma send_all_spec size ws dead s :
  ∃ r s', send_all size ws dead s = (r, s') ∧ quiet [] s s'.
Proof.
  revert dead s. induction ws as [|w ws IH]; intros dead s; cbn [send_all];
    unfold py_bind at 1, py_get; destruct (negb _); try (do 2 eexists; split; [reflexivity|];
      split; [apply evolves_refl|done]).
  unfold py_bind. destruct (await_spec s) as (s1 & -> & H1).
  destruct (IH (if socket_alive w then dead else w :: dead) s1) as (r & s2 & E & H2).
  exists r, s2. split; [exact E|]. apply (quiet_trans [] [] _ _ _ H1 H2).
Qed.

Lemma broadcast_ws_spec s :
  ∃ r s', broadcast_ws s = (r, s') ∧ quiet [WsUpdate (phase (life s)) (remaining_seconds (life s))] s s'.
Proof.
  unfold broadcast_ws, emit, py_bind, py_get, py_modify.
  set (s1 := log_event _ s). pose proof (quiet_log (WsUpdate (phase (life s)) (remaining_seconds (life s))) s eq_refl) as H1.
  destruct (send_all_spec (length (active_sockets s)) (active_sockets s) [] s1) as (r & s2 & -> & H2).
  pose proof (quiet_trans [_] [] _ _ _ H1 H2) as H3.
  destruct r as [dead|e]; do 2 eexists; (split; [reflexivity|]); [|exact H3].
  destruct H3 as (H3 & H4 & H5). split; [|done].
  apply (evolves_trans [_] [] _ _ _ H3). by apply evolves_same.
Qed.
End segments.

(** * The countdown *)

Section countdown.
Context `{World} (total : Z) (updating : bool) (tag : option string) (custom : string).

(** What the tick with [n] seconds left shows: at the announced seconds the
    banner and, at the rarer ones, the notice; the state to the web clients. *)
Definition banner_events (n : Z) : list Event :=
  if announced total n then
    Announce (countdown_message updating tag custom n) ::
    if discord_announced total n
    then [Discord (RebootCountdown (format_countdown_string n) updating tag custom)] else []
  else [].
Definition tick_events (n : Z) : list Event := banner_events n ++ [WsUpdate COUNTDOWN n].

(** [n, n-1, ..., 1] *)
Fixpoint countdown_from (n : nat) : list Z :=
  match n with O => [] | S k => Z.of_nat n :: countdown_from k end.

Definition countdown_events (n : nat) : list Event := List.flat_map tick_events (countdown_from n).

Lemma announce_tick_spec n s :
  ∃ s', announce_tick total updating tag custom n s = (Ret tt, s') ∧
    evolves (banner_events n) s s' ∧ flags s' = flags s ∧
    remaining_seconds (life s') = remaining_seconds (life s).
Proof.
  unfold announce_tick, banner_events.
  destruct (announced total n); [|exists s; split; [done|split; [apply evolves_refl|done]]].
  unfold update_life, py_bind, py_modify.
  set (s1 := set_life _ s). assert (evolves [] s s1) as H1 by (by apply evolves_same).
  destruct (send_broadcast_spec (countdown_message updating tag custom n) false s1) as (s2 & -> & H2 & L2 & F2).
  pose proof (evolves_trans_nil _ _ _ _ H1 H2) as H3.
  destruct (discord_announced total n).
  - destruct (notify_spec (RebootCountdown (format_countdown_string n) updating tag custom) s2)
      as (s3 & -> & H4 & L4 & F4). exists s3. split; [done|].
    split; [apply (evolves_trans _ _ _ _ _ H3 H4)|]. by rewrite L4, L2, F4, F2.
  - exists s2. split; [done|]. split; [done|]. by rewrite L2, F2.
Qed.

Lemma countdown_tick_spec n s :
  phase (life s) = COUNTDOWN →
  ∃ res s' vis, countdown_tick total updating tag custom n s = (res, s') ∧
    evolves vis s s' ∧ flags s' = flags s ∧ (vis = [] ∨ vis = tick_events n) ∧
    match res with
    | Ret true => cancel_event s' = true
    | Ret false => vis = tick_events n ∧ (punctual (schedule s) → cancel_event s' = false)
    | Raise _ => True
    end.
Proof.
  intros Hp. unfold countdown_tick. unfold py_bind at 1, py_get.
  destruct (cancel_event s) eqn:Ec.
  { exists (Ret true), s, []. split; [done|]. split; [apply evolves_refl|]. auto. }
  unfold py_bind, update_life, py_modify.
  set (s1 := set_life _ s). assert (evolves [] s s1) as H1 by (by apply evolves_same).
  destruct (announce_tick_spec n s1) as (s2 & -> & H2 & F2 & R2).
  destruct (broadcast_ws_spec s2) as (r & s3 & -> & H3 & L3 & F3).
  assert (phase (life s2) = COUNTDOWN) as Hp2.
  { destruct H2 as (? & _ & _ & Hph & _). rewrite Hph. done. }
  rewrite Hp2, R2 in H3.
  pose proof (evolves_trans _ _ _ _ _ (evolves_trans_nil _ _ _ _ H1 H2) H3) as H4.
  change (evolves (tick_events n) s s3) in H4.
  destruct r as [[]|e].
  2:{ exists (Raise e), s3, (tick_events n). split; [done|]. split; [done|].
      split; [by rewrite F3, F2|]. auto. }
  destruct (wait_for_event_spec s3) as (b & s4 & -> & (H5 & L5 & F5) & Ht & Hf).
  exists (Ret b), s4, (tick_events n). split; [done|].
  split; [rewrite <-(app_nil_r (tick_events n)); by eapply evolves_trans|].
  split; [rewrite F5, F3, F2; done|]. split; [auto|]. destruct b; [auto|].
  split; [done|]. intros Hpn. apply Hf; [done|].
  destruct H4 as (? & _ & _ & _ & _ & _ & used & Hs). rewrite Hs in Hpn.
  by apply Forall_app in Hpn as [_ Hpn].
Qed.

Lemma run_countdown_loop_spec n s :
  phase (life s) = COUNTDOWN →
  ∃ res s' vis, run_countdown_loop total updating tag custom n s = (res, s') ∧
    evolves vis s s' ∧ flags s' = flags s ∧ vis `prefix_of` countdown_events n ∧
    match res with
    | Ret true => vis = countdown_events n ∧
        (n ≠ 0%nat → punctual (schedule s) → cancel_event s' = false)
    | Ret false => cancel_event s' = true
    | Raise _ => True
    end.
Proof.
  revert s. induction n as [|n IH]; intros s Hp; cbn [run_countdown_loop].
  { exists (Ret true), s, []. split; [done|]. split; [apply evolves_refl|]. done. }
  destruct (countdown_tick_spec (Z.of_nat (S n)) s Hp) as (r & s1 & v & E & H1 & F1 & Hv & Hr).
  unfold py_bind. rewrite E.
  assert (v `prefix_of` countdown_events (S n)) as Hpre.
  { unfold countdown_events. cbn [countdown_from List.flat_map].
    destruct Hv as [->| ->]; [apply prefix_nil|by apply prefix_app_r]. }
  destruct r as [[]|e]; [by exists (Ret false), s1, v| |by exists (Raise e), s1, v].
  destruct Hr as [-> Hc]. destruct (IH s1) as (r & s2 & v2 & E2 & H2 & F2 & Hv2 & Hr2).
  { destruct H1 as (? & _ & _ & -> & _). done. }
  exists r, s2, (tick_events (Z.of_nat (S n)) ++ v2). split; [done|].
  split; [by eapply evolves_trans|]. split; [congruence|].
  split; [unfold countdown_events; cbn [countdown_from List.flat_map]; by apply prefix_app|].
  destruct r as [[]|e]; [|done|done]. destruct Hr2 as [-> Hr2]. split; [done|].
  intros _ Hpn. destruct n as [|n].
  { cbn in E2. injection E2 as <-. auto. }
  apply Hr2; [done|]. destruct H1 as (? & _ & _ & _ & _ & _ & used & Hs). rewrite Hs in Hpn.
  by apply Forall_app in Hpn as [_ Hpn].
Qed.
End countdown.

(** * The restart *)

(** The events that are about the game server itself. *)
Definition is_milestone (e : Event) : bool :=
  match e with SaveWorld | IniWrite _ _ | RestartService _ | Probe => true | _ => false end.
Definition milestones (es : list Event) : list Event := List.filter is_milestone es.

Lemma milestones_app es1 es2 : milestones (es1 ++ es2) = milestones es1 ++ milestones es2.
Proof. apply List.filter_app. Qed.

Lemma milestones_visible es : milestones (visible es) = milestones es.
Proof. unfold milestones, visible. induction es as [|[] es IH]; cbn; congruence. Qed.

(** A segment that accepts no cancellation and whose milestones are [ms]. *)
Definition steady (ms : list Event) (s s' : Engine) : Prop :=
  ∃ es, trace s' = trace s ++ es ∧ CancelReply true ∉ es ∧ milestones es = ms.

Lemma steady_trans m1 m2 s1 s2 s3 :
  steady m1 s1 s2 → steady m2 s2 s3 → steady (m1 ++ m2) s1 s3.
Proof.
  intros (e1 & T1 & A1 & M1) (e2 & T2 & A2 & M2). exists (e1 ++ e2).
  split; [by rewrite T2, T1, app_assoc|]. split; [rewrite elem_of_app; tauto|].
  by rewrite milestones_app, M1, M2.
Qed.

Lemma steady_evolves vis s s' :
  phase (life s) ≠ COUNTDOWN → evolves vis s s' → steady (milestones vis) s s'.
Proof.
  intros Hp (es & T & V & _ & A & _). exists es. split; [done|]. split; [naive_solver|].
  by rewrite <-V, milestones_visible.
Qed.

Lemma steady_same s s' : trace s' = trace s → steady [] s s'.
Proof. intros E. exists []. rewrite app_nil_r. split; [done|]. split; [by intros ?%elem_of_nil|done]. Qed.

Section restart.
Context `{World}.

Lemma ini_writes_spec content ps s :
  ∃ s', ini_writes content ps s = (Ret tt, s') ∧
    quiet (List.map (λ p, IniWrite p content) (List.filter writable ps)) s s'.
Proof.
  revert s. induction ps as [|p ps IH]; intros s; cbn [ini_writes].
  { exists s. split; [done|]. split; [apply evolves_refl|done]. }
  unfold py_bind, ini_write, emit, py_modify, py_ret. cbn [List.filter]. destruct (writable p).
  - destruct (IH (log_event (IniWrite p content) s)) as (s' & E & H1). exists s'. split; [exact E|].
    apply (quiet_trans [_] _ _ _ _ (quiet_log (IniWrite p content) s eq_refl) H1).
  - apply IH.
Qed.

(** The files that a staged configuration is written to. *)
Definition staged_writes (staged : option string) : list Event :=
  match staged with
  | Some (String _ _ as content) =>
      List.map (λ p, IniWrite p content) (List.filter writable (ini_path :: staged_candidates))
  | _ => []
  end.

Lemma milestones_staged_writes o : milestones (staged_writes o) = staged_writes o.
Proof.
  unfold staged_writes, milestones. destruct o as [[]|]; try done.
  generalize (List.filter writable (ini_path :: staged_candidates)) as ps.
  induction ps as [|p ps IH]; [done|]. cbn. by f_equal.
Qed.

Lemma apply_staged_configuration_spec s :
  phase (life s) ≠ COUNTDOWN →
  ∃ s', apply_staged_configuration s = (Ret tt, s') ∧
    steady (staged_writes (staged_ini s)) s s' ∧ phase (life s') = phase (life s) ∧
    (staged_writes (staged_ini s) ≠ [] → staged_ini s' = None).
Proof.
  intros Hp. unfold apply_staged_configuration. unfold py_bind at 1, py_get.
  assert (steady [] s s) as H0 by (by apply steady_same).
  destruct (staged_ini s) as [[|c r]|]; [by exists s| |by exists s].
  unfold py_bind. destruct (ini_writes_spec (String c r) (ini_path :: staged_candidates) s)
    as (s1 & -> & H1 & L1 & _).
  eexists. split; [reflexivity|]. split; [|by rewrite <-L1].
  rewrite <-(app_nil_r (staged_writes _)). apply (steady_trans _ _ s s1); [|by apply steady_same].
  rewrite <-milestones_staged_writes. by apply steady_evolves.
Qed.

Lemma saving_phase_spec s :
  ∃ r s', saving_phase s = (r, s') ∧
    steady (match r with Ret _ => [SaveWorld] | Raise _ => [] end) s s'.
Proof.
  unfold saving_phase, trigger_save, sleep, update_life. unfold py_bind at 1, py_modify.
  set (s1 := set_life _ s). assert (steady [] s s1) as H1 by (by apply steady_same).
  unfold py_bind at 1. destruct (broadcast_ws_spec s1) as (r & s2 & -> & H2 & L2 & _).
  apply (steady_evolves _ _ _) in H2; [|done].
  pose proof (steady_trans _ _ _ _ _ H1 H2) as H3. destruct r as [|e]; [|by exists (Raise e), s2].
  unfold py_bind at 1.
  destruct (send_broadcast_spec "Server restarting NOW. Saving progress." true s2) as (s3 & -> & H4 & L4 & _).
  apply steady_evolves in H4; [|by rewrite L2].
  destruct (emit_await_spec SaveWorld s3 eq_refl) as (s4 & E4 & H5 & L5 & _).
  unfold py_bind at 1. rewrite E4. apply steady_evolves in H5; [|by rewrite L4, L2].
  destruct (emit_await_spec (Sleep 1) s4 eq_refl) as (s5 & -> & H6 & _).
  apply steady_evolves in H6; [|by rewrite L5, L4, L2].
  exists (Ret tt), s5. split; [done|].
  apply (steady_trans [] [SaveWorld] _ _ _ (steady_trans _ _ _ _ _ H3 H4)).
  apply (steady_trans _ _ _ _ _ H5 H6).
Qed.

(** The milestones of the maintenance phase, for the configuration that was
    staged when it was reached. *)
Definition maintenance_milestones (staged : option string) : list Event :=
  staged_writes staged ++ if posix then [RestartService service_name] else [].

Lemma maintenance_phase_spec s :
  ∃ r s', maintenance_phase s = (r, s') ∧
    ∃ staged, steady (match r with Ret _ => maintenance_milestones staged | Raise _ => [] end) s s'.
Proof.
  unfold maintenance_phase, sleep, update_life. unfold py_bind at 1, py_modify.
  set (s1 := set_life _ s). assert (steady [] s s1) as H1 by (by apply steady_same).
  unfold py_bind at 1. destruct (broadcast_ws_spec s1) as (r & s2 & -> & H2 & L2 & _).
  apply (steady_evolves _ _ _) in H2; [|done].
  pose proof (steady_trans _ _ _ _ _ H1 H2) as H3.
  destruct r as [|e]; [|exists (Raise e), s2; split; [done|by exists None]].
  unfold py_bind at 1.
  destruct (apply_staged_configuration_spec s2) as (s3 & -> & H4 & L4 & _); [by rewrite L2|].
  assert (∃ s4, (if posix then py_bind (emit (RestartService service_name)) (λ _, await)
                 else py_ret tt) s3 = (Ret tt, s4) ∧ phase (life s4) = phase (life s3) ∧
    steady (if posix then [RestartService service_name] else []) s3 s4) as (s4 & E4 & L5 & H5).
  { destruct posix; [|exists s3; split; [done|]; split; [done|by apply steady_same]].
    destruct (emit_await_spec (RestartService service_name) s3 eq_refl) as (s4 & -> & H5 & L5 & _).
    exists s4. split; [done|]. split; [by rewrite L5|].
    apply steady_evolves in H5; [done|by rewrite L4, L2]. }
  unfold py_bind at 1. rewrite E4.
  destruct (emit_await_spec (Sleep 3) s4 eq_refl) as (s5 & -> & H6 & _).
  apply steady_evolves in H6; [|by rewrite L5, L4, L2].
  exists (Ret tt), s5. split; [done|]. exists (staged_ini s2).
  apply (steady_trans [] (maintenance_milestones (staged_ini s2)) _ _ _ H3).
  rewrite <-(app_nil_r (maintenance_milestones _)).
  apply (steady_trans _ [] _ s4 _); [by eapply steady_trans|exact H6].
Qed.

Lemma probe_readiness_spec n i s :
  phase (life s) ≠ COUNTDOWN →
  ∃ r s' k, probe_readiness n i s = (r, s') ∧ steady (replicate k Probe) s s' ∧ (k ≤ n)%nat ∧
    (r = Ret tt → (k = n ∧ ∀ j, (i ≤ j < i + n)%nat → probe_result j = Some false) ∨
                  (0 < k ∧ probe_result (i + k - 1) = Some true)%nat).
Proof.
  revert i s. induction n as [|n IH]; intros i s Hp; cbn [probe_readiness].
  { exists (Ret tt), s, 0%nat. split; [done|]. split; [by apply steady_same|]. split; [lia|].
    intros _. left. split; [done|]. lia. }
  destruct (emit_await_spec Probe s eq_refl) as (s1 & E1 & H1 & L1 & _).
  assert (∀ B (k : unit → PyM Engine B),
    py_bind (emit Probe) (λ _, py_bind await k) s = k tt s1) as E1'.
  { intros B k. unfold py_bind in *. destruct (emit Probe s) as [[]]; [|done]. by rewrite E1. }
  rewrite E1'. apply steady_evolves in H1; [|done].
  destruct (probe_result i) as [[]|] eqn:Ei.
  - destruct (notify_spec RebootComplete s1) as (s2 & -> & H2 & _).
    apply steady_evolves in H2; [|by rewrite L1]. exists (Ret tt), s2, 1%nat. split; [done|].
    split; [apply (steady_trans [Probe] [] _ _ _ H1 H2)|]. split; [lia|]. intros _. right.
    split; [lia|]. by replace (i + 1 - 1)%nat with i by lia.
  - unfold sleep. destruct (emit_await_spec (Sleep 2) s1 eq_refl) as (s2 & E2 & H2 & L2 & _).
    unfold py_bind at 1. rewrite E2. apply steady_evolves in H2; [|by rewrite L1].
    destruct (IH (S i) s2) as (r & s3 & k & -> & H3 & Hk & Hr); [by rewrite L2, L1|].
    exists r, s3, (S k). split; [done|].
    split; [apply (steady_trans [Probe] _ _ _ _ H1 (steady_trans [] _ _ _ _ H2 H3))|].
    split; [lia|]. intros Hret. destruct (Hr Hret) as [[-> Hall]|[Hk0 Hok]].
    + left. split; [done|]. intros j Hj. destruct (decide (j = i)) as [->|]; [done|]. apply Hall. lia.
    + right. split; [lia|]. by replace (i + S k - 1)%nat with (S i + k - 1)%nat by lia.
  - exists (Raise (ValueError "JSONDecodeError")), s1, 1%nat. split; [done|]. split; [done|]. split; [lia|done].
Qed.

(** What a restart does to the game server, in order. *)
Definition restart_milestones (staged : option string) (probes : nat) : list Event :=
  SaveWorld :: maintenance_milestones staged ++ replicate probes Probe.

Lemma restart_and_await_readiness_spec s :
  ∃ r s' staged k ms, restart_and_await_readiness s = (r, s') ∧ steady ms s s' ∧
    (k ≤ 90)%nat ∧ ms `prefix_of` restart_milestones staged k ∧
    (r = Ret tt → ms = restart_milestones staged k ∧
       ((k = 90%nat ∧ ∀ j, (j < 90)%nat → probe_result j = Some false) ∨
        (0 < k ∧ probe_result (k - 1) = Some true)%nat)).
Proof.
  unfold restart_and_await_readiness. unfold py_bind at 1.
  destruct (saving_phase_spec s) as (r & s1 & -> & H1). destruct r as [[]|e].
  2:{ exists (Raise e), s1, None, 0%nat, []. split; [done|]. split; [done|]. split; [lia|].
      split; [apply prefix_nil|done]. }
  unfold py_bind at 1. destruct (maintenance_phase_spec s1) as (r & s2 & -> & staged & H2).
  pose proof (steady_trans _ _ _ _ _ H1 H2) as H3. destruct r as [[]|e].
  2:{ exists (Raise e), s2, None, 0%nat, [SaveWorld]. split; [done|]. split; [done|].
      split; [lia|]. split; [by eexists|done]. }
  unfold probing_phase, update_life. unfold py_bind at 1, py_modify.
  set (s3 := set_life _ s2). assert (steady [] s2 s3) as H4 by (by apply steady_same).
  unfold py_bind at 1. destruct (broadcast_ws_spec s3) as (r & s4 & -> & H5 & L5 & _).
  apply (steady_evolves _ _ _) in H5; [|done].
  pose proof (steady_trans _ _ _ _ _ H3 (steady_trans _ _ _ _ _ H4 H5)) as H6.
  cbn [milestones List.filter is_milestone app] in H6. rewrite app_nil_r in H6.
  destruct r as [[]|e].
  2:{ exists (Raise e), s4, staged, 0%nat, (SaveWorld :: maintenance_milestones staged).
      split; [done|]. split; [done|]. split; [lia|]. split; [|done].
      unfold restart_milestones. by rewrite app_nil_r. }
  destruct (probe_readiness_spec 90 0 s4) as (r & s5 & k & -> & H7 & Hk & Hr); [by rewrite L5|].
  exists r, s5, staged, k, (restart_milestones staged k). split; [done|].
  split; [apply (steady_trans _ _ _ _ _ H6 H7)|]. split; [done|]. split; [done|].
  intros Hret. split; [done|]. destruct (Hr Hret) as [[-> Hall]|Hok]; [|by right].
  left. split; [done|]. intros j Hj. apply Hall. lia.
Qed.
End restart.

(** * The sequence as a whole *)

Section sequence.
Context `{World}.

(** What the clients see of a countdown of [r]. *)
Definition request_events (r : Request) : list Event :=
  let n := countdown_seconds r in
  WsUpdate COUNTDOWN n ::
  countdown_events n (trigger_update r) (update_version_tag r) (custom_message r) (Z.to_nat n).

Lemma milestones_countdown_events total updating tag custom n :
  milestones (countdown_events total updating tag custom n) = [].
Proof.
  unfold countdown_events. induction n as [|n IH]; [done|].
  cbn [countdown_from List.flat_map]. rewrite milestones_app, IH, app_nil_r.
  unfold tick_events, banner_events. repeat case_match; done.
Qed.

Lemma milestones_prefix vis full :
  milestones full = [] → vis `prefix_of` full → milestones vis = [].
Proof. intros Hf [k ->]. rewrite milestones_app in Hf. by apply app_eq_nil in Hf as [? _]. Qed.

(** From the claim of the sequence to the decision to restart or to abort. *)
Definition announces (s : Engine) (res : result bool) (s' : Engine) : Prop :=
  ∃ es, trace s' = trace s ++ es ∧ milestones es = [] ∧ flags s' = flags s ∧
    match res with
    | Ret true => punctual (schedule s) → CancelReply true ∉ es
    | Ret false => CancelReply true ∈ es ∧ phase (life s') = COUNTDOWN
    | Raise _ => True
    end.

Lemma announce_reboot_spec r s :
  phase (life s) = IDLE → cancel_event s = false →
  ∃ res s', announce_reboot r s = (res, s') ∧ announces s res s' ∧
    (countdown_seconds r > 0 → ∃ es, trace s' = trace s ++ es ∧
       visible es `prefix_of` request_events r ∧ (res = Ret true → visible es = request_events r)).
Proof.
  intros Hp Hc. unfold announce_reboot. destruct (Z.gtb_spec (countdown_seconds r) 0) as [Hn|Hn].
  - unfold update_life. unfold py_bind at 1, py_modify. set (s1 := set_life _ s).
    unfold py_bind at 1. destruct (broadcast_ws_spec s1) as (res & s2 & -> & H2 & L2 & F2).
    assert (request_events r = [WsUpdate COUNTDOWN (countdown_seconds r)] ++ countdown_events
      (countdown_seconds r) (trigger_update r) (update_version_tag r) (custom_message r)
      (Z.to_nat (countdown_seconds r))) as Er by done.
    destruct res as [[]|e].
    2:{ exists (Raise e), s2. destruct H2 as (es & T & V & _). split; [done|]. split.
        - exists es. split; [exact T|]. split; [by rewrite <-milestones_visible, V|done].
        - intros _. exists es. split; [exact T|]. split; [|done]. rewrite V, Er. by eexists. }
    destruct (run_countdown_loop_spec (countdown_seconds r) (trigger_update r)
      (update_version_tag r) (custom_message r) (Z.to_nat (countdown_seconds r)) s2)
      as (res & s3 & vis & -> & H3 & F3 & Hv & Hr); [by rewrite L2|].
    destruct (evolves_trans _ _ _ _ _ H2 H3) as (es & T & V & P & A & C & used & Hs).
    destruct H2 as (_ & _ & _ & _ & _ & _ & used2 & Hs2).
    exists res, s3. split; [done|]. split.
    + exists es. split; [exact T|]. split.
      { rewrite <-milestones_visible, V, milestones_app.
        rewrite (milestones_prefix _ _ (milestones_countdown_events _ _ _ _ _) Hv). done. }
      split; [by rewrite F3, F2|]. destruct res as [[]|e]; [|split; [|by rewrite P]|done].
      * intros Hpn Hin. destruct Hr as [_ Hr].
        change (schedule s) with (schedule s1) in Hpn. rewrite Hs2 in Hpn.
        apply Forall_app in Hpn as [_ Hpn]. rewrite Hr in C by (try done; lia).
        destruct C as [_ C]. discriminate C. by right.
      * destruct C as [C _]. destruct (C Hr) as [Hf|]; [|done].
        change (cancel_event s = true) in Hf. congruence.
    + intros _. exists es. split; [exact T|]. rewrite V, Er. split; [by apply prefix_app|].
      intros ->. by destruct Hr as [-> _].
  - unfold py_bind.
    destruct (send_broadcast_spec (with_custom (custom_message r)
           (if trigger_update r then "Server updating and restarting immediately."
            else "Server restarting immediately.")) false s) as (s1 & -> & H1 & L1 & F1).
    destruct (notify_spec (RebootCountdown "immediately" (trigger_update r) (update_version_tag r)
              (custom_message r)) s1) as (s2 & -> & H2 & L2 & F2).
    destruct (evolves_trans _ _ _ _ _ H1 H2) as (es & T & V & _ & A & _).
    exists (Ret true), s2. split; [done|]. split; [|lia]. exists es. split; [done|].
    split; [by rewrite <-milestones_visible, V|]. split; [by rewrite F2, F1|].
    intros _ Hin. destruct (A Hin). congruence.
Qed.

(** No other countdown claims the lock file while this one runs. *)
Definition no_start (l : list Slot) : Prop :=
  Forall (λ slot, ∀ t, Start t ∉ early slot ++ late slot) l.

Lemma no_start_app l1 l2 : no_start (l1 ++ l2) → no_start l2.
Proof. unfold no_start. rewrite Forall_app. tauto. Qed.

Lemma await_lock s :
  no_start (schedule s) →
  lock_file (await s).2 = lock_file s ∧ no_start (schedule (await s).2).
Proof.
  intros Hn. unfold await, py_modify. cbn. destruct (schedule s) as [|slot rest] eqn:E.
  { by rewrite E. }
  apply Forall_cons in Hn as [Hslot Hn].
  destruct (run_env_spec (early slot ++ late slot) (set_schedule rest s)) as (Hev & _ & _ & _ & ->); [|done].
  split; [done|]. destruct Hev as (_ & _ & _ & _ & _ & _ & used & Hs). cbn in Hs. rewrite Hs in Hn.
  by apply no_start_app in Hn.
Qed.

Lemma broadcast_ws_lock s :
  no_start (schedule s) → lock_file (broadcast_ws s).2 = lock_file s.
Proof.
  intros Hn. assert (∀ size ws dead s, no_start (schedule s) →
    lock_file (send_all size ws dead s).2 = lock_file s) as Hsend.
  { intros size ws. induction ws as [|w ws IH]; intros dead s0 H0; cbn [send_all];
      unfold py_bind at 1, py_get; destruct (negb _); try done.
    unfold py_bind. destruct (await_lock s0 H0) as [H1 H2].
    destruct (await_spec s0) as (s1 & E & _). rewrite E in *. by rewrite IH. }
  unfold broadcast_ws, emit, py_bind, py_get, py_modify.
  set (s1 := log_event _ s). specialize (Hsend (length (active_sockets s)) (active_sockets s) [] s1 Hn).
  destruct (send_all _ _ _ s1) as [[]]; exact Hsend.
Qed.

Lemma release_tail s s1 :
  trace s1 = trace s → flags s1 = flags s → schedule s1 = schedule s →
  (unlink_fails = false → lock_file s1 = None) →
  ∃ r s', broadcast_ws (set_life idle_state s1) = (r, s') ∧ steady [] s s' ∧
    life s' = idle_state ∧ flags s' = flags s ∧
    (unlink_fails = false → no_start (schedule s) → lock_file s' = None).
Proof.
  intros T1 F1 S1 K1. set (s2 := set_life _ s1).
  destruct (broadcast_ws_spec s2) as (r & s3 & E & H3 & L3 & F3).
  exists r, s3. split; [exact E|]. apply steady_evolves in H3; [|done].
  split; [|split; [by rewrite L3|split; [by rewrite F3, <-F1|]]].
  - apply (steady_trans [] [] _ s2 _); [by apply steady_same|exact H3].
  - intros Hu Hn. rewrite <-S1 in Hn. pose proof (broadcast_ws_lock s2 Hn) as K.
    rewrite E in K. cbn in K. by rewrite K, K1.
Qed.

Lemma release_spec s :
  ∃ r s', py_bind release_reboot_lock (λ _, broadcast_ws) s = (r, s') ∧ steady [] s s' ∧
    life s' = idle_state ∧ flags s' = flags s ∧
    (unlink_fails = false → no_start (schedule s) → lock_file s' = None).
Proof.
  unfold release_reboot_lock, update_life, py_modify, py_bind, py_ret.
  pose proof (release_tail s) as Ht.
  destruct unlink_fails; [apply (Ht s)|apply (Ht (set_lock None s))]; done.
Qed.

Lemma abort_reboot_spec s :
  ∃ s', abort_reboot s = (Ret tt, s') ∧
    (∃ es, trace s' = trace s ++ es ∧ milestones es = []) ∧
    flags s' = flags s ∖ list_to_set (List.filter (λ p, writable p && removable p) candidate_flags).
Proof.
  unfold abort_reboot. unfold py_bind at 1, py_get. unfold py_bind at 1.
  match goal with |- context [send_broadcast ?m false s] =>
    destruct (send_broadcast_spec m false s) as (s1 & -> & H1 & L1 & F1) end.
  unfold py_bind. destruct (notify_spec (RebootCancelled (cancel_reason s1)) s1) as (s2 & -> & H2 & L2 & F2).
  eexists. split; [reflexivity|]. cbn. split; [|by rewrite F2, F1].
  destruct (evolves_trans _ _ _ _ _ H1 H2) as (es & T & V & _). exists es. split; [done|].
  by rewrite <-milestones_visible, V.
Qed.

(** The update flags when the sequence of [r] has claimed the engine. *)
Definition claimed_flags (r : Request) (s : Engine) : gset string :=
  if trigger_update r then flags s ∪ list_to_set (List.filter writable candidate_flags) else flags s.
Definition cleared_flags (f : gset string) : gset string :=
  f ∖ list_to_set (List.filter (λ p, writable p && removable p) candidate_flags).

(** The state when the announcement starts. *)
Definition claim (r : Request) (s : Engine) : Engine :=
  set_flags (claimed_flags r s) (set_cancel false "" s).

Definition sequence_body (r : Request) : PyM Engine unit :=
  py_bind (announce_reboot r) (λ completed,
    if (completed : bool) then restart_and_await_readiness else abort_reboot).

Lemma locked_sequence_claim r s :
  locked_sequence r s =
  py_finally (sequence_body r) (py_bind release_reboot_lock (λ _, broadcast_ws)) (claim r s).
Proof.
  unfold locked_sequence, py_finally, sequence_body, claim, claimed_flags, set_update_flags.
  unfold py_bind at 1 2, py_modify, py_ret. by destruct (trigger_update r), s.
Qed.

Lemma sequence_body_spec r s :
  phase (life s) = IDLE → cancel_event s = false →
  ∃ res s' es staged k, sequence_body r s = (res, s') ∧ trace s' = trace s ++ es ∧
    (k ≤ 90)%nat ∧ milestones es `prefix_of` restart_milestones staged k ∧
    (punctual (schedule s) → CancelReply true ∈ es → milestones es = []) ∧
    (res = Ret tt →
       (milestones es = [] ∧ CancelReply true ∈ es ∧ flags s' = cleared_flags (flags s)) ∨
       (milestones es = restart_milestones staged k ∧
        ((k = 90%nat ∧ ∀ j, (j < 90)%nat → probe_result j = Some false) ∨
         (0 < k ∧ probe_result (k - 1) = Some true)%nat))).
Proof.
  intros Hp Hc. unfold sequence_body, py_bind.
  destruct (announce_reboot_spec r s Hp Hc) as (res & s1 & -> & (es & T & M & F & Hres) & _).
  destruct res as [[]|e].
  - destruct (restart_and_await_readiness_spec s1)
      as (res & s2 & staged & k & ms & -> & (es2 & T2 & A2 & M2) & Hk & Hpre & Hret).
    exists res, s2, (es ++ es2), staged, k. rewrite milestones_app, M, M2. cbn [app].
    split; [done|]. split; [by rewrite T2, T, app_assoc|]. split; [done|]. split; [done|].
    split; [|intros Hr; right; by apply Hret].
    intros Hpn [Hin|Hin]%elem_of_app; [by destruct (Hres Hpn)|done].
  - destruct (abort_reboot_spec s1) as (s2 & -> & (es2 & T2 & M2) & F2). destruct Hres as [Hin _].
    exists (Ret tt), s2, (es ++ es2), None, 0%nat. rewrite milestones_app, M, M2.
    split; [done|]. split; [by rewrite T2, T, app_assoc|]. split; [lia|].
    split; [apply prefix_nil|]. split; [done|]. intros _. left. split; [done|].
    split; [apply elem_of_app; by left|]. by rewrite F2, F.
  - exists (Raise e), s1, es, None, 0%nat. rewrite M. split; [done|]. split; [done|].
    split; [lia|]. split; [apply prefix_nil|done].
Qed.

Lemma locked_sequence_spec r s out s' es :
  phase (life s) = IDLE → locked_sequence r s = (out, s') → trace s' = trace s ++ es →
  ∃ staged k, (k ≤ 90)%nat ∧ milestones es `prefix_of` restart_milestones staged k ∧
    (punctual (schedule s) → CancelReply true ∈ es → milestones es = []) ∧
    (out = Ret tt →
       (milestones es = [] ∧ CancelReply true ∈ es ∧
        flags s' = cleared_flags (claimed_flags r s)) ∨
       (milestones es = restart_milestones staged k ∧
        ((k = 90%nat ∧ ∀ j, (j < 90)%nat → probe_result j = Some false) ∨
         (0 < k ∧ probe_result (k - 1) = Some true)%nat))).
Proof.
  intros Hp E T. rewrite locked_sequence_claim in E. unfold py_finally in E.
  destruct (sequence_body_spec r (claim r s)) as (res & s1 & es1 & staged & k & E1 & T1 & Hk & Hpre & Hacc & Hret);
    [done|done|]. rewrite E1 in E.
  destruct (release_spec s1) as (rel & s2 & E2 & (es2 & T2 & A2 & M2) & _ & F2 & _). rewrite E2 in E.
  assert (s' = s2) as -> by (destruct rel; congruence).
  assert (es = es1 ++ es2) as ->.
  { apply (app_inv_head (trace s)). rewrite <-T, T2, T1. cbn. by rewrite app_assoc. }
  exists staged, k. rewrite milestones_app, M2, app_nil_r. split; [done|]. split; [done|]. split.
  - intros Hpn [Hin|Hin]%elem_of_app; [by apply Hacc|done].
  - intros ->. assert (res = Ret tt) as -> by (destruct rel; congruence).
    destruct (Hret eq_refl) as [(H1 & H2 & H3)|H1]; [left|by right].
    split; [done|]. split; [apply elem_of_app; by left|]. by rewrite F2, H3.
Qed.

(** The schedule only shrinks, so its absence of other countdowns lasts. *)
Definition calm (s : Engine) : Prop := no_start (schedule s).

Lemma calm_await : preserves calm await.
Proof. intros s Hs. by apply await_lock. Qed.
Lemma calm_modify f : (∀ s, schedule (f s) = schedule s) → preserves calm (py_modify f).
Proof. intros Hf. apply preserves_modify. unfold calm. intros s. by rewrite Hf. Qed.
Lemma calm_emit e : preserves calm (emit e).
Proof. by apply calm_modify. Qed.
Lemma calm_update_life f : preserves calm (update_life f).
Proof. by apply calm_modify. Qed.
Lemma calm_wait_for_event : preserves calm wait_for_event.
Proof.
  intros s Hs. destruct (wait_for_event_spec s) as (b & s' & -> & (Hev & _) & _).
  destruct Hev as (_ & _ & _ & _ & _ & _ & used & Hu). unfold calm in *. rewrite Hu in Hs.
  by apply no_start_app in Hs.
Qed.
Lemma calm_modify_get (f : Engine → Engine) :
  (∀ s, schedule (f s) = schedule s) → preserves calm (λ s, (Ret tt, f s)).
Proof. intros Hf s. unfold calm. cbn. by rewrite Hf. Qed.
End sequence.

#[export] Hint Resolve calm_await calm_emit calm_update_life calm_wait_for_event : py.

Section calm.
Context `{World}.

Lemma calm_send_all size ws dead : preserves calm (send_all size ws dead).
Proof. revert dead. induction ws; intros dead; cbn [send_all]; preserve. Qed.
Lemma calm_broadcast_ws : preserves calm broadcast_ws.
Proof. unfold broadcast_ws. preserve; [apply calm_send_all|by apply calm_modify]. Qed.
Lemma calm_notify n : preserves calm (notify n).
Proof. unfold notify. preserve. Qed.
End calm.

#[export] Hint Resolve calm_broadcast_ws calm_notify : py.

Section calm_sequence.
Context `{World}.

Lemma calm_send_broadcast m b : preserves calm (send_broadcast m b).
Proof. unfold send_broadcast. preserve. Qed.
Lemma calm_loop cd u t c n : preserves calm (run_countdown_loop cd u t c n).
Proof.
  pose proof calm_send_broadcast.
  induction n; cbn [run_countdown_loop]; unfold countdown_tick, announce_tick; preserve.
Qed.
Lemma calm_ini_writes c ps : preserves calm (ini_writes c ps).
Proof. induction ps; cbn [ini_writes]; unfold ini_write; preserve. Qed.
Lemma calm_probe n i : preserves calm (probe_readiness n i).
Proof. revert i. induction n; intros i; cbn [probe_readiness]; unfold sleep; preserve. Qed.

Lemma calm_body r : preserves calm (sequence_body r).
Proof.
  pose proof calm_send_broadcast. pose proof calm_loop. pose proof calm_ini_writes.
  pose proof calm_probe.
  unfold sequence_body, announce_reboot, restart_and_await_readiness, saving_phase,
    maintenance_phase, probing_phase, apply_staged_configuration, abort_reboot, trigger_save, sleep.
  preserve; try (unfold ini_write; preserve); by apply calm_modify.
Qed.
End calm_sequence.

(** * Properties *)

(** C7: A cancellation in time prevents the restart.  The schedule is punctual: no
    cancellation arrives between the expiry of a tick's timer and the moment at which
    the countdown resumes.  Then a call of [cancel_countdown] that is answered with
    success at any other moment of a sequence leaves the game server alone: no save, no
    configuration file written, no restart and no probe, whatever else runs meanwhile
    and whether or not the sequence ends with an exception.  (A later one is
    [late_cancel_restarts].) *)
Theorem cancel_prevents_restart `{World} r s out s' es :
  phase (life s) = IDLE → punctual (schedule s) →
  locked_sequence r s = (out, s') → trace s' = trace s ++ es →
  CancelReply true ∈ es → milestones es = [].
Proof.
  intros Hp Hpn E T. destruct (locked_sequence_spec r s out s' es Hp E T) as (_ & _ & _ & _ & Hacc & _).
  by apply Hacc.
Qed.

Lemma cancel_prevents_restart_witness :
  let s := fresh_engine [{| early := [Stage "x"]; late := [] |}; {| early := []; late := [] |};
                         {| early := [Cancel "raid"]; late := [] |}] [] in
  milestones (trace (locked_sequence (plain_request 60) s).2) = [] ∧
  CancelReply true ∈ trace (locked_sequence (plain_request 60) s).2.
Proof.
  intros s. assert (CancelReply true ∈ trace (locked_sequence (plain_request 60) s).2) as Hin.
  { apply list_elem_of_In. vm_compute. tauto. }
  split; [|exact Hin].
  apply (cancel_prevents_restart (plain_request 60) s (locked_sequence (plain_request 60) s).1
    (locked_sequence (plain_request 60) s).2 (trace (locked_sequence (plain_request 60) s).2));
    [reflexivity| |apply surjective_pairing|symmetry; exact (app_nil_l _)|exact Hin].
  repeat constructor; intros r Hr; by apply elem_of_nil in Hr.
Defined.

(** C19: what a sequence does to the game server comes in one order and at most
    once: save the world, write the staged configuration (one text to every
    path that can be written), restart the service, probe at most 90 times; an
    exception cuts this list short and never reorders it. A sequence that ends
    normally either restarted, and probed until the first answer that the
    server is ready, or was cancelled, and then an accepted cancellation is on
    the trace and the update flags it had set are gone again. *)
Theorem restart_in_order `{World} r s out s' es :
  phase (life s) = IDLE → locked_sequence r s = (out, s') → trace s' = trace s ++ es →
  ∃ staged k, (k ≤ 90)%nat ∧ milestones es `prefix_of` restart_milestones staged k ∧
    (out = Ret tt →
       (milestones es = [] ∧ CancelReply true ∈ es ∧
        flags s' = cleared_flags (claimed_flags r s)) ∨
       (milestones es = restart_milestones staged k ∧
        ((k = 90%nat ∧ ∀ j, (j < 90)%nat → probe_result j = Some false) ∨
         (0 < k ∧ probe_result (k - 1) = Some true)%nat))).
Proof.
  intros Hp E T. destruct (locked_sequence_spec r s out s' es Hp E T) as (staged & k & ? & ? & _ & ?).
  by exists staged, k.
Qed.

Lemma restart_in_order_witness :
  let s := fresh_engine [{| early := [Stage "[x]"]; late := [] |}] [] in
  ∃ staged k, (k ≤ 90)%nat ∧
    milestones (trace (locked_sequence (plain_request 1) s).2) `prefix_of` restart_milestones staged k ∧
    length (milestones (trace (locked_sequence (plain_request 1) s).2)) = 9%nat.
Proof.
  intros s. destruct (restart_in_order (plain_request 1) s (locked_sequence (plain_request 1) s).1
    (locked_sequence (plain_request 1) s).2 (trace (locked_sequence (plain_request 1) s).2))
    as (staged & k & H1 & H2 & _); [reflexivity|apply surjective_pairing|symmetry; exact (app_nil_l _)|].
  exists staged, k. split; [exact H1|]. split; [exact H2|]. vm_compute. reflexivity.
Defined.

(** the engine is always released: however a sequence ends, by restart,
    cancellation or exception, its state is idle again, and the lock file is
    gone when it can be removed and no other countdown claimed it meanwhile. *)
Theorem lifecycle_always_released `{World} r s out s' :
  locked_sequence r s = (out, s') →
  life s' = idle_state ∧
  (unlink_fails = false → no_start (schedule s) → lock_file s' = None).
Proof.
  rewrite locked_sequence_claim. unfold py_finally.
  pose proof (calm_body r (claim r s)) as Hcalm.
  destruct (sequence_body r (claim r s)) as [res s1] eqn:E1.
  destruct (release_spec s1) as (rel & s2 & E2 & _ & L & _ & K). rewrite E2. intros E.
  assert (s' = s2) as -> by (destruct rel; congruence). split; [done|].
  intros Hu Hn. apply K; [done|]. by apply Hcalm.
Qed.

Lemma lifecycle_always_released_witness :
  life (locked_sequence (plain_request 2)
          (fresh_engine [{| early := [Register 7]; late := [] |}] [1])).2 = idle_state ∧
  (locked_sequence (plain_request 2)
     (fresh_engine [{| early := [Register 7]; late := [] |}] [1])).1
  = Raise (RuntimeError "Set changed size during iteration").
Proof.
  split; [|vm_compute; reflexivity].
  apply (lifecycle_always_released (plain_request 2)
    (fresh_engine [{| early := [Register 7]; late := [] |}] [1]) _ _ (surjective_pairing _)).
Defined.

(** the countdown is what was announced: a countdown of [n] seconds that
    completes shows the web clients [n] and then [n, n-1, ..., 1], one tick a
    second, with the banner exactly at the announced seconds and the Discord
    notice exactly at the rarer ones, whatever other coroutines do meanwhile;
    one that is cut short shows a prefix of this. *)
Theorem countdown_schedule `{World} r s :
  phase (life s) = IDLE → cancel_event s = false → countdown_seconds r > 0 →
  ∃ res s' es, announce_reboot r s = (res, s') ∧ trace s' = trace s ++ es ∧
    visible es `prefix_of` request_events r ∧ (res = Ret true → visible es = request_events r).
Proof.
  intros Hp Hc Hn. destruct (announce_reboot_spec r s Hp Hc) as (res & s' & E & _ & Hs).
  destruct (Hs Hn) as (es & ? & ? & ?). by exists res, s', es.
Qed.

Lemma countdown_schedule_witness :
  ∃ res s' es, announce_reboot (plain_request 120) (fresh_engine [] []) = (res, s') ∧
    trace s' = [] ++ es ∧ visible es `prefix_of` request_events (plain_request 120) ∧
    (res = Ret true → visible es = request_events (plain_request 120)).
Proof. apply (countdown_schedule (plain_request 120) (fresh_engine [] [])); done. Defined.

(** ** What modelling showed *)

(** A cancellation between the expiry of the last tick's timer and the
    resumption of the countdown is accepted, and the server restarts all the
    same. *)
Lemma late_cancel_restarts :
  let es := trace (locked_sequence (plain_request 1)
    (fresh_engine [{| early := []; late := [] |}; {| early := []; late := [] |};
                   {| early := []; late := [Cancel "stop"] |}] [])).2 in
  CancelReply true ∈ es ∧ RestartService "palworld.service" ∈ es.
Proof. split; apply list_elem_of_In; vm_compute; tauto. Qed.

(** A lock file that is not stale does not stop a second countdown. *)
Lemma fresh_lock_not_rejected `{World} now mtime s :
  stat_fails = false → touch_fails = false → lock_file s = Some mtime → now - mtime ≤ STALE_NS →
  check_and_acquire_lock now s = (Ret tt, set_lock (Some now) s).
Proof.
  intros Hs Ht El Hn. unfold check_and_acquire_lock, touch_lock, py_bind, py_get, py_modify, py_ret.
  rewrite El, Hs, Ht. destruct (Z.gtb_spec (now - mtime) STALE_NS); [lia|done].
Qed.

(** A web socket that opens while the state is sent to another one aborts the
    restart. *)
Lemma new_socket_aborts_restart :
  let res := locked_sequence (plain_request 0)
    (fresh_engine [{| early := []; late := [] |}; {| early := []; late := [] |};
                   {| early := [Register 7]; late := [] |}] [1]) in
  milestones (trace res.2) = [] ∧
  res.1 = Raise (RuntimeError "Set changed size during iteration").
Proof. split; vm_compute; reflexivity. Qed.

(** A key of the settings that are saved before a reboot is written as it
    comes, so a key of one's own making smuggles an administrative setting in. *)
Lemma reboot_settings_key_smuggles :
  let s := (trigger_reboot Missing [("Region=a,AdminPassword", VStr "w")]%string (plain_request 60)
              (fresh_engine [] [])).2 in
  match staged_ini s with
  | Some content => parse_path (Readable content) = [("Region", VStr "a"); ("AdminPassword", VStr "w")]%string
  | None => False
  end.
Proof. vm_compute. reflexivity. Qed.
