(* ===== verification/Metrics.v ===== *)
(** Telemetry storage: the time-series database
    ([app/database/metrics_db.py]) and the buffer in front of it
    ([flush_metrics_buffer] of [app/routers/deps.py], the sampling loop of
    [app/main.py], the endpoints of [app/routers/telemetry.py]).

    The connection keeps the rows that its open transaction shows and those
    that are committed.  Which database call fails, and how, is an argument of
    each call.  The buffer is shared by coroutines; a flush is two atomic
    steps, taking the batch and finishing it, with the database thread between
    them, and any number of flushes may be in flight. *)

From S2P Require Import Prelude PyStr PyTime.
From Stdlib Require Import ZArith Lia Ascii Bool Permutation.
From stdpp Require Import base tactics list strings.

Local Open Scope Z_scope.

(** * Data *)

(** Floating-point values by their decimals, as in [PyJson]. *)
Definition real : Type := Z * Z.

Record MetricSnapshotRecord := {
  timestamp : string;
  server_fps : real;
  server_frame_time_ms : real;
  uptime_seconds : Z;
  active_players : Z;
  max_players : Z;
  cpu_avg_pct : real;
  host_ram_used_gb : real;
  host_ram_total_gb : real;
  host_ram_pct : real;
  cgroup_ram_used_gb : real;
  cgroup_ram_pct : real;
  disk_used_gb : real;
  disk_pct : real;
  net_rx_rate_kbps : real;
  net_tx_rate_kbps : real }.

#[export] Instance MetricSnapshotRecord_eq_dec : EqDecision MetricSnapshotRecord.
Proof. solve_decision. Defined.

(** A stored row: its id and the sample. *)
Record MetricRow := { row_id : Z; sample : MetricSnapshotRecord }.

Record Table := { seq : Z; rows : list MetricRow }.

(** The connection of the manager. *)
Record MetricsDb := { working : Table; committed : Table }.

Definition empty_table : Table := {| seq := 0; rows := [] |}.
Definition initialize : MetricsDb := {| working := empty_table; committed := empty_table |}.

(** How a call fails: at which statement of an [executemany], or at its commit. *)
Inductive Fault : Type :=
  | NoFault
  | ExecuteFails (n : nat) (e : exc)
  | CommitFails (e : exc).

Definition insert (t : Table) (s : MetricSnapshotRecord) : Table :=
  {| seq := seq t + 1; rows := rows t ++ [{| row_id := seq t + 1; sample := s |}] |}.
Definition insert_all (t : Table) (l : list MetricSnapshotRecord) : Table := fold_left insert l t.

Definition set_working (t : Table) (d : MetricsDb) : MetricsDb :=
  {| working := t; committed := committed d |}.
Definition commit (d : MetricsDb) : MetricsDb := {| working := working d; committed := working d |}.
Definition rollback (d : MetricsDb) : MetricsDb :=
  {| working := committed d; committed := committed d |}.

(** [sqlite3.IntegrityError] and [OperationalError] are [DatabaseError]s. *)
Definition is_database_error (e : exc) : bool :=
  match e with IntegrityError _ | OperationalError | DatabaseError => true | _ => false end.

(** * MetricsDatabaseManager *)

Definition record_snapshot (f : Fault) (s : MetricSnapshotRecord) : PyM MetricsDb Z :=
  λ d, match f with
       | ExecuteFails _ e => (Raise e, d)
       | CommitFails e => (Raise e, set_working (insert (working d) s) d)
       | NoFault =>
           let d' := set_working (insert (working d) s) d in (Ret (seq (working d')), commit d')
       end.

Definition record_snapshots_batch (f : Fault) (snapshots : list MetricSnapshotRecord) :
    PyM MetricsDb Z :=
  λ d, match snapshots with
       | [] => (Ret 0, d)
       | _ =>
           let fail e d' := (Raise e, if is_database_error e then rollback d' else d') in
           match f with
           | ExecuteFails n e => fail e (set_working (insert_all (working d) (take n snapshots)) d)
           | CommitFails e => fail e (set_working (insert_all (working d) snapshots) d)
           | NoFault =>
               (Ret (Z.of_nat (length snapshots)),
                commit (set_working (insert_all (working d) snapshots) d))
           end
       end.

(** [DELETE ... WHERE timestamp < cutoff]: how many, and what remains. *)
Definition older (cutoff : string) (r : MetricRow) : bool := String.ltb (timestamp (sample r)) cutoff.
Definition delete_older (cutoff : string) (t : Table) : Table :=
  {| seq := seq t; rows := List.filter (λ r, negb (older cutoff r)) (rows t) |}.
Definition count_older (cutoff : string) (t : Table) : Z :=
  Z.of_nat (length (List.filter (older cutoff) (rows t))).

Definition prune_older_than (f : Fault) (now : datetime) (days : nat) : PyM MetricsDb Z :=
  λ d, match minus_days now days with
       | None => (Raise OverflowError, d)
       | Some cutoff_dt =>
           let cutoff_str := isoformat cutoff_dt in
           match f with
           | ExecuteFails _ e => if is_database_error e then (Ret 0, d) else (Raise e, d)
           | CommitFails e =>
               let d' := set_working (delete_older cutoff_str (working d)) d in
               if is_database_error e then (Ret 0, d') else (Raise e, d')
           | NoFault =>
               (Ret (count_older cutoff_str (working d)),
                commit (set_working (delete_older cutoff_str (working d)) d))
           end
       end.

(** The newest [limit] rows, oldest first. *)
Definition get_recent_snapshots (f : Fault) (limit : Z) (d : MetricsDb) : result (list MetricRow) :=
  match f with
  | ExecuteFails _ e | CommitFails e => if is_database_error e then Ret [] else Raise e
  | NoFault => Ret (rev (sql_limit_offset limit 0 (rev (rows (working d)))))
  end.

(** * The buffer *)

(** [metrics_buffer], the batches that flushes have taken, and the database;
    [sampled] is every sample ever appended. *)
Record Telemetry := {
  metrics_buffer : list MetricSnapshotRecord;
  in_flight : list (list MetricSnapshotRecord);
  metrics_db : MetricsDb;
  sampled : list MetricSnapshotRecord }.

Definition fresh_telemetry : Telemetry :=
  {| metrics_buffer := []; in_flight := []; metrics_db := initialize; sampled := [] |}.

(** [metrics_buffer.append(snapshot)] of the sampling loop, and its size. *)
Definition append_sample (x : MetricSnapshotRecord) (s : Telemetry) : Telemetry :=
  {| metrics_buffer := metrics_buffer s ++ [x]; in_flight := in_flight s;
     metrics_db := metrics_db s; sampled := sampled s ++ [x] |}.

(** [flush_metrics_buffer] until its thread starts: nothing to do, or a batch. *)
Definition begin_flush (s : Telemetry) : option (list MetricSnapshotRecord) * Telemetry :=
  match metrics_buffer s with
  | [] => (None, s)
  | batch =>
      (Some batch, {| metrics_buffer := []; in_flight := in_flight s ++ [batch];
                      metrics_db := metrics_db s; sampled := sampled s |})
  end.

(** The rest of it, for the [i]-th batch in flight. *)
Definition finish_flush (i : nat) (f : Fault) (s : Telemetry) : option (result Z * Telemetry) :=
  match in_flight s !! i with
  | None => None
  | Some batch =>
      let '(r, d) := record_snapshots_batch f batch (metrics_db s) in
      let rest := delete i (in_flight s) in
      Some match r with
           | Ret inserted =>
               (Ret inserted, {| metrics_buffer := metrics_buffer s; in_flight := rest;
                                 metrics_db := d; sampled := sampled s |})
           | Raise e =>
               if is_database_error e then
                 (Ret 0, {| metrics_buffer := take 1000 batch ++ metrics_buffer s; in_flight := rest;
                            metrics_db := d; sampled := sampled s |})
               else
                 (Raise e, {| metrics_buffer := metrics_buffer s; in_flight := rest;
                              metrics_db := d; sampled := sampled s |})
           end
  end.

(** A whole flush with nothing in between. *)
Definition flush_metrics_buffer (f : Fault) (s : Telemetry) : result Z * Telemetry :=
  match begin_flush s with
  | (None, s') => (Ret 0, s')
  | (Some _, s') => default (Ret 0, s') (finish_flush (length (in_flight s)) f s')
  end.

(** When the sampling loop flushes. *)
Definition flush_due (now last_flush interval : Z) (buffer_size : nat) : bool :=
  (interval <=? now - last_flush) || (1000 <=? Z.of_nat buffer_size).

(** ** Schedules of the coroutines *)

Inductive Label : Type :=
  | LSample (x : MetricSnapshotRecord)
  | LBegin
  | LFinish (i : nat) (f : Fault).

Definition telemetry_step (s : Telemetry) (l : Label) : Telemetry :=
  match l with
  | LSample x => append_sample x s
  | LBegin => (begin_flush s).2
  | LFinish i f => match finish_flush i f s with Some (_, s') => s' | None => s end
  end.

Definition telemetry_run (s : Telemetry) (ls : list Label) : Telemetry :=
  fold_left telemetry_step ls s.

(** The database answers, or fails with an error of its own, and a batch that
    is given back fits into what is kept of it. *)
Definition recoverable (s : Telemetry) (l : Label) : Prop :=
  match l with
  | LFinish i (ExecuteFails _ e | CommitFails e) =>
      is_database_error e = true ∧
      ∀ batch, in_flight s !! i = Some batch → (length batch ≤ 1000)%nat
  | _ => True
  end.

Fixpoint all_recoverable (s : Telemetry) (ls : list Label) : Prop :=
  match ls with
  | [] => True
  | l :: ls' => recoverable s l ∧ all_recoverable (telemetry_step s l) ls'
  end.

(** * Lemmas *)

Lemma insert_all_rows t l :
  List.map sample (rows (insert_all t l)) = List.map sample (rows t) ++ l.
Proof.
  unfold insert_all. revert t. induction l as [|x l IH]; intros t; cbn [fold_left];
    [by rewrite app_nil_r|]. rewrite IH. cbn. by rewrite List.map_app, <-app_assoc.
Qed.

(** Between calls nothing is pending in the transaction. *)
Definition settled (d : MetricsDb) : Prop := working d = committed d.

Lemma record_snapshots_batch_spec f l d :
  settled d → (∀ n e, f = ExecuteFails n e → is_database_error e = true) →
  (∀ e, f = CommitFails e → is_database_error e = true) →
  let '(r, d') := record_snapshots_batch f l d in
  settled d' ∧
  match r with
  | Ret n => n = Z.of_nat (length l) ∧
      List.map sample (rows (committed d')) = List.map sample (rows (committed d)) ++ l
  | Raise e => is_database_error e = true ∧ d' = d ∧ f ≠ NoFault
  end.
Proof.
  intros Hs He Hc. destruct d as [w c]. unfold settled in Hs. cbn in Hs. subst w.
  destruct l as [|x l]; [by cbn; rewrite app_nil_r|]. destruct f as [|n e|e]; cbn.
  - split; [done|]. split; [done|]. apply (insert_all_rows c (x :: l)).
  - rewrite (He n e eq_refl). done.
  - rewrite (Hc e eq_refl). done.
Qed.

(** Every sample is in the buffer, in a batch in flight, or stored. *)
Definition conserved (s : Telemetry) : Prop :=
  settled (metrics_db s) ∧
  sampled s ≡ₚ metrics_buffer s ++ concat (in_flight s) ++
                List.map sample (rows (committed (metrics_db s))).

Lemma concat_delete {A} (l : list (list A)) i b :
  l !! i = Some b → concat l ≡ₚ b ++ concat (delete i l).
Proof.
  revert i. induction l as [|x l IH]; intros [|i]; cbn; [done|done|by intros [= ->]|].
  intros H. rewrite (IH i H). by rewrite !app_assoc, (Permutation_app_comm x b).
Qed.

Lemma conserved_step s l : conserved s → recoverable s l → conserved (telemetry_step s l).
Proof.
  intros [Hs Hp] Hr. destruct l as [x| |i f]; cbn.
  - split; [done|]. cbn. rewrite Hp. solve_Permutation.
  - unfold begin_flush. destruct (metrics_buffer s) as [|b bs] eqn:E; [split; [done|cbn; by rewrite E]|].
    split; [done|]. cbn [metrics_buffer in_flight metrics_db sampled snd]. rewrite Hp.
    rewrite concat_app. cbn [concat]. rewrite app_nil_r, app_nil_l, <-app_assoc. solve_Permutation.
  - unfold finish_flush. destruct (in_flight s !! i) as [batch|] eqn:Ei; [|done].
    pose proof (record_snapshots_batch_spec f batch (metrics_db s) Hs) as Hspec.
    destruct (record_snapshots_batch f batch (metrics_db s)) as [r d'].
    destruct Hspec as [Hs' Hres];
      [intros n e ->; by destruct Hr|intros e ->; by destruct Hr|].
    rewrite (concat_delete _ _ _ Ei) in Hp. destruct r as [n|e].
    + split; [done|]. cbn. destruct Hres as [_ ->]. rewrite Hp. solve_Permutation.
    + destruct Hres as (-> & -> & Hf). split; [done|]. cbn.
      assert (length batch ≤ 1000)%nat by (destruct f as [|n e'|e']; [done|..]; by apply Hr).
      rewrite take_ge by done. rewrite Hp. solve_Permutation.
Qed.

(** ** Times of the stored rows *)

(** Rows whose timestamps are formatted times, by a function that reads them. *)
Definition stamped (time : MetricRow → datetime) (t : Table) : Prop :=
  Forall (λ r, valid_datetime (time r) = true ∧ timestamp (sample r) = isoformat (time r)) (rows t).

Lemma older_time time t cutoff r :
  stamped time t → valid_datetime cutoff = true → r ∈ rows t →
  older (isoformat cutoff) r = dt_ltb (time r) cutoff.
Proof.
  intros Ht Hc Hr. unfold stamped in Ht. rewrite Forall_forall in Ht.
  destruct (Ht r Hr) as [Hv E]. unfold older. by rewrite E, isoformat_ltb.
Qed.

Lemma filter_ext_in' {A} (f g : A → bool) l :
  (∀ x, x ∈ l → f x = g x) → List.filter f l = List.filter g l.
Proof. intros H. apply List.filter_ext_in. intros x Hx. apply H. by apply list_elem_of_In. Qed.

Lemma length_filter_negb {A} (p : A → bool) l :
  length (List.filter p l) = (length l - length (List.filter (λ x, negb (p x)) l))%nat.
Proof.
  induction l as [|x l IH]; [done|]. cbn.
  pose proof (List.filter_length_le (λ x, negb (p x)) l). destruct (p x); cbn; lia.
Qed.

(** * Properties *)

(** C20: no sample is lost or stored twice while the database recovers: after
    any interleaving of samples and flushes in which a failing flush fails with
    a database error and had taken at most 1000 samples, the samples taken are
    exactly those in the buffer, in batches in flight and in committed rows. *)
Theorem telemetry_conserved ls :
  all_recoverable fresh_telemetry ls →
  let s := telemetry_run fresh_telemetry ls in
  settled (metrics_db s) ∧
  sampled s ≡ₚ metrics_buffer s ++ concat (in_flight s) ++
                List.map sample (rows (committed (metrics_db s))).
Proof.
  assert (∀ s, conserved s → all_recoverable s ls → conserved (telemetry_run s ls)) as H.
  { induction ls as [|l ls IH]; intros s Hs; [done|]. intros [Hl Hr].
    apply (IH (telemetry_step s l)); [by apply conserved_step|done]. }
  intros Hr. by apply (H fresh_telemetry).
Qed.

Definition example_sample (players : Z) : MetricSnapshotRecord :=
  {| timestamp := isoformat {| year := 2026; month := 3; day := 1; hour := 7; minute := 5;
                               second := players; microsecond := 0 |};
     server_fps := (60, 0); server_frame_time_ms := (166, -1); uptime_seconds := 100;
     active_players := players; max_players := 32; cpu_avg_pct := (125, -1);
     host_ram_used_gb := (8, 0); host_ram_total_gb := (16, 0); host_ram_pct := (50, 0);
     cgroup_ram_used_gb := (4, 0); cgroup_ram_pct := (25, 0); disk_used_gb := (100, 0);
     disk_pct := (10, 0); net_rx_rate_kbps := (0, 0); net_tx_rate_kbps := (0, 0) |}.

Definition example_labels : list Label :=
  [LSample (example_sample 1); LSample (example_sample 2); LBegin; LSample (example_sample 3);
   LFinish 0 (CommitFails OperationalError); LBegin; LFinish 0 NoFault].

Lemma telemetry_conserved_witness :
  sampled (telemetry_run fresh_telemetry example_labels) ≡ₚ
    List.map sample (rows (committed (metrics_db (telemetry_run fresh_telemetry example_labels))))
  ∧ length (rows (committed (metrics_db (telemetry_run fresh_telemetry example_labels)))) = 3%nat.
Proof.
  split; [|vm_compute; reflexivity].
  destruct (telemetry_conserved example_labels) as [_ H]; [|exact H].
  cbn. repeat split; try exact I. intros batch [= <-]. cbn. lia.
Defined.

(** pruning is exact: over rows whose timestamps are formatted times, a
    pruning that succeeds removes precisely the rows of times before
    now - days, comparing texts as it does, reports how many, keeps the order
    of the others and commits; one that meets a database error reports 0 and
    commits nothing. *)
Theorem prune_older_than_exact time f now days cutoff d :
  settled d → stamped time (committed d) → valid_datetime now = true →
  minus_days now days = Some cutoff → (∀ n e, f = ExecuteFails n e → is_database_error e = true) →
  (∀ e, f = CommitFails e → is_database_error e = true) →
  let '(r, d') := prune_older_than f now days d in
  match f with
  | NoFault =>
      let kept := List.filter (λ r, negb (dt_ltb (time r) cutoff)) (rows (committed d)) in
      r = Ret (Z.of_nat (length (rows (committed d)) - length kept)) ∧
      rows (committed d') = kept ∧ settled d'
  | _ => r = Ret 0 ∧ committed d' = committed d
  end.
Proof.
  intros Hs Ht Hnow Hc He Hce. unfold prune_older_than. rewrite Hc.
  pose proof (minus_days_valid _ _ _ Hnow Hc) as Hv. destruct f as [|n e|e].
  - cbn -[dt_ltb]. rewrite Hs. unfold count_older, delete_older. cbn -[dt_ltb].
    assert (∀ r, r ∈ rows (committed d) → older (isoformat cutoff) r = dt_ltb (time r) cutoff) as Ho
      by (intros; by eapply older_time).
    split; [|split; [|done]].
    + do 2 f_equal. rewrite (filter_ext_in' _ (λ r, dt_ltb (time r) cutoff)) by done.
      apply length_filter_negb.
    + apply filter_ext_in'. intros r Hr. by rewrite Ho.
  - rewrite (He n e eq_refl). done.
  - rewrite (Hce e eq_refl). done.
Qed.

Definition noon (d : Z) : datetime :=
  {| year := 2026; month := 3; day := d; hour := 12; minute := 0; second := 0; microsecond := 5 |}.

(** Samples of the first to the fourth of a month, stored. *)
Definition four_days : MetricsDb :=
  (record_snapshots_batch NoFault
     (List.map (λ d, {| timestamp := isoformat (noon d); server_fps := (60, 0);
        server_frame_time_ms := (166, -1); uptime_seconds := 100; active_players := d;
        max_players := 32; cpu_avg_pct := (125, -1); host_ram_used_gb := (8, 0);
        host_ram_total_gb := (16, 0); host_ram_pct := (50, 0); cgroup_ram_used_gb := (4, 0);
        cgroup_ram_pct := (25, 0); disk_used_gb := (100, 0); disk_pct := (10, 0);
        net_rx_rate_kbps := (0, 0); net_tx_rate_kbps := (0, 0) |}) [1; 2; 3; 4]) initialize).2.

Lemma prune_older_than_exact_witness :
  (prune_older_than NoFault (noon 5) 2 four_days).1 = Ret 2 ∧
  List.map row_id (rows (committed (prune_older_than NoFault (noon 5) 2 four_days).2)) = [3; 4].
Proof.
  pose proof (prune_older_than_exact (λ r, noon (row_id r)) NoFault (noon 5) 2 (noon 3) four_days
    eq_refl ltac:(repeat constructor) eq_refl eq_refl ltac:(done) ltac:(done)) as H.
  destruct (prune_older_than NoFault (noon 5) 2 four_days) as [r d'].
  destruct H as (H1 & H2 & _). split; [exact H1|]. cbn [snd]. rewrite H2. reflexivity.
Defined.

(** A flush that the database takes stores the whole buffer. *)
Lemma flush_stores t :
  in_flight t = [] → settled (metrics_db t) →
  ∃ n t', flush_metrics_buffer NoFault t = (Ret n, t') ∧ metrics_buffer t' = [] ∧ settled (metrics_db t') ∧
    List.map sample (rows (committed (metrics_db t'))) =
      List.map sample (rows (committed (metrics_db t))) ++ metrics_buffer t.
Proof.
  intros Hf Hs. unfold flush_metrics_buffer, begin_flush, finish_flush.
  destruct (metrics_buffer t) as [|x l] eqn:E; [exists 0, t; by rewrite app_nil_r|].
  cbn [in_flight]. rewrite Hf. cbn [length app]. change ([x :: l] !! 0%nat) with (Some (x :: l)).
  cbn [metrics_db metrics_buffer in_flight sampled].
  pose proof (record_snapshots_batch_spec NoFault (x :: l) (metrics_db t) Hs ltac:(done) ltac:(done)) as H.
  destruct (record_snapshots_batch NoFault (x :: l) (metrics_db t)) as [[n|e] d];
    [|by destruct H as (_ & _ & _ & ?)]. destruct H as (H1 & _ & H2). eexists _, _. split; [reflexivity|]. done.
Qed.

(** ** What modelling showed *)

(** A failing flush of more than 1000 samples keeps the oldest 1000 of them
    and drops the newest. *)
Lemma failed_flush_drops_newest s e :
  in_flight s = [] → settled (metrics_db s) → is_database_error e = true →
  (0 < length (metrics_buffer s))%nat →
  flush_metrics_buffer (CommitFails e) s =
  (Ret 0, {| metrics_buffer := take 1000 (metrics_buffer s); in_flight := [];
             metrics_db := metrics_db s; sampled := sampled s |}).
Proof.
  intros Hf Hs He Hl. unfold flush_metrics_buffer, begin_flush, finish_flush.
  destruct (metrics_buffer s) as [|x l] eqn:E; [cbn in Hl; lia|]. cbn [in_flight]. rewrite Hf.
  cbn [length app]. change ([x :: l] !! 0%nat) with (Some (x :: l)). cbn -[take]. rewrite He.
  cbn -[take]. rewrite app_nil_r. unfold rollback.
  destruct (metrics_db s) as [w c]. unfold settled in Hs. cbn in Hs. by rewrite Hs.
Qed.

(** A pruning whose commit fails reports 0, but its deletion stays in the open
    transaction and the next successful call commits it. *)
Lemma failed_prune_commits_later :
  let d := (prune_older_than (CommitFails OperationalError) (noon 5) 2 four_days).2 in
  (prune_older_than (CommitFails OperationalError) (noon 5) 2 four_days).1 = Ret 0 ∧
  List.map row_id (rows (committed (record_snapshot NoFault (example_sample 9) d).2)) = [3; 4; 5].
Proof. split; vm_compute; reflexivity. Qed.

(** Samples, and whole flushes of which those that hold [x] violate a constraint of
    the table. *)
Inductive constraint_step (x : MetricSnapshotRecord) : Telemetry → Telemetry → Prop :=
  | constraint_sample y s : constraint_step x s (append_sample y s)
  | constraint_flush n msg f s :
      (x ∈ metrics_buffer s → f = ExecuteFails n (IntegrityError msg)) →
      constraint_step x s (flush_metrics_buffer f s).2.

Definition blocked (x : MetricSnapshotRecord) (d : MetricsDb) (s : Telemetry) : Prop :=
  x ∈ take 1000 (metrics_buffer s) ∧ in_flight s = [] ∧ metrics_db s = d.

(** A sample that the table refuses (a frame rate that is not a number is stored as
    NULL) goes back to the front of the buffer with its batch: as long as the
    process runs nothing is stored any more. *)
Lemma refused_sample_blocks_storage x d s s' :
  settled d → blocked x d s → star (constraint_step x) s s' → blocked x d s'.
Proof.
  intros Hd Hb Hstar. revert Hb. apply (star_invariant (constraint_step x) (blocked x d)); [|done].
  clear s s' Hstar. intros a b (Hx & Hf & Hdb) Hab. destruct Hab as [y a|n msg f a Hfault].
  - split_and!; [|done|done]. cbn [append_sample metrics_buffer].
    destruct (decide (length (metrics_buffer a) ≤ 1000)%nat) as [Hle|Hgt].
    + rewrite take_app_ge by done. apply elem_of_app. left. by rewrite take_ge in Hx.
    + rewrite take_app_le by lia. done.
  - assert (Hin : x ∈ metrics_buffer a) by by apply (subseteq_take 1000).
    rewrite (Hfault Hin). unfold flush_metrics_buffer, begin_flush.
    destruct (metrics_buffer a) as [|z l] eqn:E; [by apply elem_of_nil in Hin|]. rewrite Hf. unfold finish_flush.
    cbn [in_flight length app]. change ([z :: l] !! 0%nat) with (Some (z :: l)).
    cbn -[take]. split_and!; cbn -[take].
    + rewrite app_nil_r, take_take. done.
    + done.
    + rewrite Hdb. unfold settled in Hd. destruct d as [w c]. cbn in Hd. by rewrite Hd.
Qed.
