(* ===== verification/Updater.v ===== *)
(** The update watcher ([app/engine/updater.py]): the comparison with the
    upstream repository, the lock file that keeps deployments apart, the
    dispatch of a deployment, its progress and the summary it leaves.

    Times are microseconds since the epoch.  The lock file is its modification
    time and its content.  What the file system, GitHub and the supervisor answer
    are parameters; JSON values are those of [PyJson]. *)

From S2P Require Import Prelude PyStr PyNum PyDict PyJson.
From Stdlib Require Import ZArith Lia Ascii Bool.
From stdpp Require Import base tactics list strings.

Local Open Scope Z_scope.
Local Open Scope py_scope.

(** * State *)

Inductive SummaryStatus : Type := success | failed.

Record PostUpdateSummary := {
  s_status : SummaryStatus;
  s_target_branch : string;
  s_deployed_version : option string;
  s_deployed_commit : string;
  s_deployed_commit_short : string;
  s_deployed_at : string;
  s_duration_seconds : Z;
  s_summary : string;
  s_acknowledged : bool }.

Record Watcher := mkWatcher {
  lock : option (Z * string);  (** the lock file: modification time and content *)
  update_available : bool;
  current_commit : string;
  latest_commit : string;
  commits_behind : Z;
  latest_commit_message : string;
  last_checked : string;
  last_error : option string;
  post_update : option string;  (** the content of the summary file, if there is one *)
  dispatched : list string  (** the branches handed to a deployer *)
}.

Definition initial_watcher (now_iso : string) (l : option (Z * string)) (post : option string) : Watcher :=
  mkWatcher l false "" "" 0 "" now_iso None post [].

Definition set_lock (l : option (Z * string)) (w : Watcher) : Watcher :=
  mkWatcher l (update_available w) (current_commit w) (latest_commit w) (commits_behind w)
    (latest_commit_message w) (last_checked w) (last_error w) (post_update w) (dispatched w).
Definition set_checked (iso : string) (w : Watcher) : Watcher :=
  mkWatcher (lock w) (update_available w) (current_commit w) (latest_commit w) (commits_behind w)
    (latest_commit_message w) iso (last_error w) (post_update w) (dispatched w).
Definition set_current (c : string) (w : Watcher) : Watcher :=
  mkWatcher (lock w) (update_available w) c (latest_commit w) (commits_behind w)
    (latest_commit_message w) (last_checked w) (last_error w) (post_update w) (dispatched w).
Definition set_latest (c message : string) (w : Watcher) : Watcher :=
  mkWatcher (lock w) (update_available w) (current_commit w) c (commits_behind w)
    message (last_checked w) None (post_update w) (dispatched w).
Definition set_divergence (b : bool) (n : Z) (w : Watcher) : Watcher :=
  mkWatcher (lock w) b (current_commit w) (latest_commit w) n
    (latest_commit_message w) (last_checked w) (last_error w) (post_update w) (dispatched w).
Definition set_error (e : string) (w : Watcher) : Watcher :=
  mkWatcher (lock w) (update_available w) (current_commit w) (latest_commit w) (commits_behind w)
    (latest_commit_message w) (last_checked w) (Some e) (post_update w) (dispatched w).
Definition set_post (p : string) (w : Watcher) : Watcher :=
  mkWatcher (lock w) (update_available w) (current_commit w) (latest_commit w) (commits_behind w)
    (latest_commit_message w) (last_checked w) (last_error w) (Some p) (dispatched w).
Definition dispatch (branch : string) (w : Watcher) : Watcher :=
  mkWatcher (lock w) (update_available w) (current_commit w) (latest_commit w) (commits_behind w)
    (latest_commit_message w) (last_checked w) (last_error w) (post_update w) (dispatched w ++ [branch]).

(** * What the watcher runs in *)

(** An answer of the GitHub API: none, or a status with a body that is JSON or not. *)
Inductive Http : Type :=
  | RequestFails
  | Response (status : Z) (body : option json).

(** The thread a function runs in: the one of the event loop, or a worker of
    [asyncio.to_thread]. *)
Inductive Thread : Type := EventLoopThread | WorkerThread.

(** [asyncio.get_event_loop()]: the running loop, and [RuntimeError] in a thread
    that is not the main one and has none. *)
Definition get_event_loop (t : Thread) : result unit :=
  match t with
  | EventLoopThread => Ret tt
  | WorkerThread => Raise (RuntimeError "There is no current event loop in thread")
  end.

Class UpdateHost := {
  posix : bool;
  lock_stat_fails : bool;  (** inspecting the lock file raises an [OSError] *)
  lock_unlink_fails : bool;
  lock_write_fails : bool;
  post_read_fails : bool;
  post_write_fails : bool;
  deploy_log_fails : bool;
  script_exists : string → bool;
  script_is_file : string → bool;
  popen_fails : bool;
  (** the injected hook, and the text of the exception it raises *)
  command_runner : option (string → string → option string);
  oserror_text : string;  (** the text of an [OSError] *)
  (** the probe of the local commit: git's exit status and output, or none, and
      the metadata files that can be read *)
  git_head : option (Z * string);
  commit_files : list string;
  http_get : string → Http;
  (** [str] of a JSON list, object or float *)
  json_repr : json → string;
}.

(** [str(v)] of a JSON value *)
Notation str_json := (py_str json_repr).

Record Config := {
  repo_url : string;
  branch : string;
  deploy_script : option string;
  repo_dir : string }.

Definition STALE_LOCK_TIMEOUT : Z := 1800 * 1000000.

Section watcher.
Context `{UpdateHost} (cfg : Config).

(** * The lock file *)

(** [unlink(missing_ok=True)] *)
Definition unlink_lock : PyM Watcher unit :=
  if lock_unlink_fails then py_raise OSError else py_modify (set_lock None).

Definition is_update_in_progress (now : Z) : PyM Watcher bool :=
  w <- py_get ;;
  match lock w with
  | None => py_ret false
  | Some (mtime, _) =>
      py_try
        (if lock_stat_fails then py_raise OSError
         else if STALE_LOCK_TIMEOUT <? now - mtime then unlink_lock ;;; py_ret false
         else py_ret true)
        (λ e, if is_oserror e then py_ret false else py_raise e)
  end.

(** * The local commit *)

Definition get_local_commit : string :=
  let from_files :=
    match List.find (λ c, negb (String.eqb (str_strip c) "")) commit_files with
    | Some c => str_strip c
    | None => "unknown"
    end in
  match git_head with
  | Some (code, out) =>
      if (code =? 0) && negb (String.eqb (str_strip out) "") then str_strip out else from_files
  | None => from_files
  end.

(** * The summary of the last deployment *)

Definition parse_summary (data : json) : PyM Watcher PostUpdateSummary :=
  status <- lift (json_field data "status" JNull) ;;
  version <- lift (json_field data "deployed_version" JNull) ;;
  target <- lift (json_field data "target_branch" (JStr "main")) ;;
  commit <- lift (json_field data "deployed_commit" (JStr "unknown")) ;;
  short <- lift (json_field data "deployed_commit_short" (JStr "unknown")) ;;
  at_ <- lift (json_field data "deployed_at" (JStr "")) ;;
  duration <- lift (json_field data "duration_seconds" (JInt 0)) ;;
  seconds <- lift (int_json duration) ;;
  summary <- lift (json_field data "summary" (JStr "")) ;;
  ack <- lift (json_field data "acknowledged" (JBool false)) ;;
  py_ret {| s_status := match status with
                        | JStr s => if String.eqb s "failed" then failed else success
                        | _ => success end;
            s_target_branch := str_json target;
            s_deployed_version := match version with JNull => None | v => Some (str_json v) end;
            s_deployed_commit := str_json commit;
            s_deployed_commit_short := str_json short;
            s_deployed_at := str_json at_;
            s_duration_seconds := Z.max 0 seconds;
            s_summary := str_json summary;
            s_acknowledged := truthy ack |}.

(** [except OSError], [json.JSONDecodeError] and [ValueError]: no summary. *)
Definition get_last_update_summary : PyM Watcher (option PostUpdateSummary) :=
  w <- py_get ;;
  match post_update w with
  | None => py_ret None
  | Some text =>
      py_try
        (if post_read_fails then py_raise OSError
         else
           let raw_text := str_strip text in
           if String.eqb raw_text "" then py_ret None
           else match loads raw_text with
                | None => py_raise (ValueError "Expecting value")
                | Some data => s <- parse_summary data ;; py_ret (Some s)
                end)
        (λ e, match e with
              | ValueError _ => py_ret None
              | _ => if is_oserror e then py_ret None else py_raise e
              end)
  end.

(** [data["acknowledged"] = True] needs a dict. *)
Definition acknowledge_last_update : PyM Watcher bool :=
  w <- py_get ;;
  match post_update w with
  | None => py_ret false
  | Some text =>
      py_try
        (if post_read_fails then py_raise OSError
         else match loads (str_strip text) with
              | None => py_raise (ValueError "Expecting value")
              | Some (JObj l) =>
                  let data := dict_set "acknowledged" (JBool true) (dict_update [] l) in
                  if post_write_fails then py_raise OSError
                  else py_modify (set_post (dumps_indent 2 (JObj data))) ;;; py_ret true
              | Some _ => py_raise (TypeError "object does not support item assignment")
              end)
        (λ e, match e with
              | ValueError _ => py_ret false
              | _ => if is_oserror e then py_ret false else py_raise e
              end)
  end.

(** * The status *)

Record UpdateStatusResponse := {
  us_update_available : bool;
  us_current_commit : string;
  us_latest_commit : string;
  us_target_branch : string;
  us_commits_behind : Z;
  us_latest_commit_message : string;
  us_last_checked : string;
  us_update_in_progress : bool;
  us_error : option string;
  us_last_update : option PostUpdateSummary }.

Definition or_unknown (s : string) : string := if String.eqb s "" then "unknown" else s.

Definition get_status (now : Z) : PyM Watcher UpdateStatusResponse :=
  w <- py_get ;;
  busy <- is_update_in_progress now ;;
  last <- get_last_update_summary ;;
  py_ret {| us_update_available := update_available w;
            us_current_commit := or_unknown (current_commit w);
            us_latest_commit := or_unknown (latest_commit w);
            us_target_branch := branch cfg;
            us_commits_behind := commits_behind w;
            us_latest_commit_message := latest_commit_message w;
            us_last_checked := last_checked w;
            us_update_in_progress := busy;
            us_error := last_error w;
            us_last_update := last |}.
(** * The comparison with the upstream repository *)

(** The first occurrence of a character, as what is before and from it. *)
Fixpoint until (p : ascii → bool) (s : string) : string * string :=
  match s with
  | EmptyString => (EmptyString, EmptyString)
  | String c r => if p c then (EmptyString, s)
                  else let '(a, b) := until p r in (String c a, b)
  end.

Definition is_scheme_char (c : ascii) : bool :=
  is_alnum c || Ascii.eqb c "+" || Ascii.eqb c "-" || Ascii.eqb c ".".

(** The path of [urllib.parse.urlparse]: without the scheme, the host, the
    query and the fragment. *)
Definition url_path (url : string) : string :=
  let '(scheme, rest) := until (Ascii.eqb ":") url in
  let after_scheme :=
    match scheme, rest with
    | String c _, String _ r =>
        if (is_upper c || is_lower c) && str_all is_scheme_char scheme then r else url
    | _, _ => url
    end in
  let after_host :=
    match str_strip_prefix "//" after_scheme with
    | Some r => (until (λ c, Ascii.eqb "/" c || Ascii.eqb "?" c || Ascii.eqb "#" c) r).2
    | None => after_scheme
    end in
  (until (λ c, Ascii.eqb "?" c || Ascii.eqb "#" c) after_host).1.

Definition removesuffix (suffix s : string) : string :=
  match str_strip_prefix (str_rev suffix) (str_rev s) with
  | Some r => str_rev r
  | None => s
  end.

Definition parse_repo_slug (url : string) : result (string * string) :=
  match List.filter (λ p, negb (String.eqb p "")) (str_split "/" (url_path url)) with
  | owner :: repo :: _ => Ret (owner, removesuffix ".git" repo)
  | _ => Raise (ValueError ("Invalid GitHub repository URL format: " +:+ url))
  end.

Definition github : string := "https://api.github.com/repos/".

(** The deployed commit is the upstream one, up to abbreviation. *)
Definition same_commit (local_sha remote_sha : string) : bool :=
  negb (String.eqb local_sha "unknown") &&
  (String.eqb local_sha remote_sha || startswith local_sha (str_take 7 remote_sha)
   || startswith remote_sha (str_take 7 local_sha)).

(** [resp.raise_for_status()] and [resp.json()]. *)
Definition checked_body (status : Z) (body : option json) : PyM Watcher json :=
  if negb ((200 <=? status) && (status <? 300)) then py_raise (HTTPError (str_of_Z status))
  else match body with
       | None => py_raise (ValueError "Expecting value")
       | Some v => py_ret v
       end.

Definition summary_line (message : json) : result string :=
  if truthy message then
    match message with
    | JStr s => Ret (str_strip (hd "" (str_split "010" s)))
    | _ => Raise (AttributeError "object has no attribute 'split'")
    end
  else Ret "".

(** The commits the upstream branch is ahead. *)
Definition count_behind (owner repo local_sha remote_sha : string) : PyM Watcher unit :=
  match http_get (github +:+ owner +:+ "/" +:+ repo +:+ "/compare/" +:+ local_sha +:+ "..." +:+ remote_sha) with
  | RequestFails => py_raise (HTTPError "RequestError")
  | Response status body =>
      if status =? 200 then
        match body with
        | None => py_raise (ValueError "Expecting value")
        | Some compare_data =>
            ahead <- lift (json_field compare_data "ahead_by" (JInt 1)) ;;
            ahead_by <- lift (int_json ahead) ;;
            let behind := Z.max 0 ahead_by in
            py_modify (set_divergence (0 <? behind) behind)
        end
      else py_modify (set_divergence true 1)
  end.

(** The probe of the commits endpoint, inside the [try]; [true] ends the check. *)
Definition probe_upstream (local_sha owner repo : string) : PyM Watcher unit :=
  match http_get (github +:+ owner +:+ "/" +:+ repo +:+ "/commits/" +:+ branch cfg) with
  | RequestFails => py_raise (HTTPError "RequestError")
  | Response status body =>
      if (status =? 403) || (status =? 429)
      then py_modify (set_error ("GitHub API rate limit encountered (HTTP " +:+ str_of_Z status +:+ ")"))
      else
        data <- checked_body status body ;;
        sha <- lift (json_field data "sha" (JStr "")) ;;
        commit_meta <- lift (json_field data "commit" (JObj [])) ;;
        message <- lift (json_field commit_meta "message" (JStr "")) ;;
        line <- lift (summary_line message) ;;
        let remote_sha := str_strip (str_json sha) in
        py_modify (set_latest remote_sha line) ;;;
        if same_commit local_sha remote_sha then py_modify (set_divergence false 0)
        else if negb (String.eqb local_sha "unknown") && negb (String.eqb local_sha "")
                && negb (String.eqb remote_sha "")
        then count_behind owner repo local_sha remote_sha
        else py_modify (set_divergence false 0)
  end.

Definition check_error (e : exc) : PyM Watcher unit :=
  match e with
  | HTTPError cls =>
      if String.eqb cls "RequestError"
      then py_modify (set_error "Network error connecting to GitHub API")
      else py_modify (set_error ("HTTP " +:+ cls +:+ " from upstream GitHub"))
  | KeyError k => py_modify (set_error ("Payload key error: " +:+ k))
  | ValueError m => py_modify (set_error ("Payload value error: " +:+ m))
  | _ => py_raise e
  end.

Definition check_for_updates (now : Z) (now_iso : string) : PyM Watcher UpdateStatusResponse :=
  py_modify (set_checked now_iso) ;;;
  py_modify (set_current get_local_commit) ;;;
  match parse_repo_slug (repo_url cfg) with
  | Raise (ValueError m) => py_modify (set_error m) ;;; get_status now
  | Raise e => py_raise e
  | Ret (owner, repo) =>
      py_try (probe_upstream get_local_commit owner repo) check_error ;;;
      get_status now
  end.

(** * Deployments *)

Definition resolve_deploy_script : string :=
  let candidates := ["/opt/palworld-web-manager/scripts/deploy.sh"; repo_dir cfg +:+ "/scripts/deploy.sh"] in
  let found := default (hd "" candidates) (List.find script_is_file candidates) in
  match deploy_script cfg with
  | Some script => if negb (String.eqb script "") && script_exists script then script else found
  | None => found
  end.

(** [re.match(r"^[a-zA-Z0-9_.-]+$", s)]: the dollar sign also matches before a
    final line feed. *)
Definition is_branch_char (c : ascii) : bool :=
  is_alnum c || Ascii.eqb c "_" || Ascii.eqb c "." || Ascii.eqb c "-".
Definition valid_branch (s : string) : bool :=
  let body := before_final_nl s in negb (String.eqb body "") && str_all is_branch_char body.

Definition format_epoch (now : Z) : string :=
  str_of_Z (now / 1000000) +:+ "." +:+ fixed_digits 6 now.

Definition nl : string := String "010" "".
Definition lock_payload (pid now : Z) (target_branch : string) : string :=
  "pid=" +:+ str_of_Z pid +:+ nl +:+
  "started_at=" +:+ format_epoch now +:+ nl +:+
  "timestamp=" +:+ format_epoch now +:+ nl +:+
  "branch=" +:+ target_branch +:+ nl +:+
  "operation=portal_update" +:+ nl.

(** The body of [async with self._async_lock]: no other coroutine runs inside. *)
Definition acquire_lock (pid now : Z) (target_branch : string) : PyM Watcher unit :=
  busy <- is_update_in_progress now ;;
  if busy : bool then py_raise (HTTPException 409 "An update deployment is already in progress.")
  else if lock_write_fails
  then py_raise (HTTPException 500 "Failed to initialize deployment concurrency lock.")
  else py_modify (set_lock (Some (now, lock_payload pid now target_branch))).

(** On POSIX a failure to reach the supervisor is logged and not raised. *)
Definition _spawn_detached_deployer (t : Thread) (script target_branch : string) : PyM Watcher unit :=
  if deploy_log_fails then py_raise OSError
  else if posix then
    py_try (lift (get_event_loop t) ;;; py_modify (dispatch target_branch)) (λ _, py_ret tt)
  else if popen_fails then py_raise OSError
  else py_modify (dispatch target_branch).

Record UpdateApplyResponse := {
  ua_status : string; ua_message : string; ua_target_branch : string; ua_triggered_at : string }.

(** The lock is given back before the failure is reported. *)
Definition release_and_fail (detail : string) : PyM Watcher unit :=
  unlink_lock ;;; py_raise (HTTPException 500 detail).

Definition run_deployer (target_branch : string) : PyM Watcher unit :=
  let script := resolve_deploy_script in
  match command_runner with
  | Some runner =>
      match runner script target_branch with
      | None => py_modify (dispatch target_branch)
      | Some err => release_and_fail ("Deployer execution failed: " +:+ err)
      end
  | None =>
      if negb (script_is_file script)
      then release_and_fail ("Host deploy script not found at " +:+ script +:+ ".")
      else py_try (_spawn_detached_deployer WorkerThread script target_branch)
             (λ _, release_and_fail ("Failed to spawn deployment subprocess: " +:+ oserror_text))
  end.

Definition apply_update (pid now : Z) (now_iso : string) (requested : option string)
    : PyM Watcher UpdateApplyResponse :=
  let target_branch := match requested with
                       | Some b => if String.eqb b "" then branch cfg else b
                       | None => branch cfg
                       end in
  if negb (valid_branch target_branch) then py_raise (HTTPException 400 "Invalid target branch name.")
  else
    acquire_lock pid now target_branch ;;;
    run_deployer target_branch ;;;
    py_ret {| ua_status := "applying";
              ua_message := "Update process initiated. System service will reload momentarily.";
              ua_target_branch := target_branch;
              ua_triggered_at := now_iso |}.

(** * Progress *)

Inductive StepStatus : Type := pending | running | completed | step_failed.
#[export] Instance StepStatus_eq_dec : EqDecision StepStatus.
Proof. solve_decision. Defined.

Record DeploymentStepInfo := mkStep { step_index : Z; step_name : string; step_status : StepStatus }.

Inductive Operation : Type := portal_update | tls_certificate | server_restart | no_operation.

Record DeploymentProgressResponse := {
  dp_operation : Operation;
  dp_active : bool;
  dp_current_step : Z;
  dp_total_steps : Z;
  dp_step_name : string;
  dp_percentage : Z;
  dp_elapsed_seconds : Z;
  dp_estimated_remaining_seconds : option Z;
  dp_steps : list DeploymentStepInfo;
  dp_log_tail : list string;
  dp_last_update : option PostUpdateSummary }.

Definition default_steps : list DeploymentStepInfo :=
  [mkStep 1 "Pulling latest updates from origin" pending;
   mkStep 2 "Updating Python dependencies via uv" pending;
   mkStep 3 "Syncing application code & systemd units" pending;
   mkStep 4 "Enforcing POSIX ACLs & storage permissions" pending;
   mkStep 5 "Restarting palworld-manager.service" pending].

(** [steps[s - 1].status = v] *)
Definition set_status (s : Z) (v : StepStatus) (steps : list DeploymentStepInfo)
    : list DeploymentStepInfo :=
  List.map (λ st, if step_index st =? s then mkStep (step_index st) (step_name st) v else st) steps.
Definition status_of (steps : list DeploymentStepInfo) (s : Z) : result StepStatus :=
  match py_index steps (s - 1) with Ret st => Ret (step_status st) | Raise e => Raise e end.

(** ** The lock file's content *)

Record LockInfo := mkLockInfo {
  started_at : option pyfloat; timestamp_fallback : option pyfloat; lock_operation : Operation }.

Definition operation_of (s : string) : option Operation :=
  if String.eqb s "portal_update" then Some portal_update
  else if String.eqb s "tls_certificate" then Some tls_certificate
  else if String.eqb s "server_restart" then Some server_restart
  else if String.eqb s "none" then Some no_operation
  else None.

(** A number that cannot be read ends the loop; what was read before stays. *)
Fixpoint parse_lock (lines : list string) (i : LockInfo) : LockInfo :=
  match lines with
  | [] => i
  | line :: rest =>
      match str_strip_prefix "started_at=" line with
      | Some v =>
          match float_of v with
          | Some t => parse_lock rest (mkLockInfo (Some t) (timestamp_fallback i) (lock_operation i))
          | None => i
          end
      | None =>
          match str_strip_prefix "timestamp=" line with
          | Some v =>
              match float_of v with
              | Some t => parse_lock rest (mkLockInfo (started_at i) (Some t) (lock_operation i))
              | None => i
              end
          | None =>
              match str_strip_prefix "operation=" line with
              | Some v =>
                  parse_lock rest (mkLockInfo (started_at i) (timestamp_fallback i)
                    (default (lock_operation i) (operation_of (str_strip v))))
              | None => parse_lock rest i
              end
          end
      end
  end.

Definition nonzero (t : pyfloat) : bool := match t with FDec m _ => negb (m =? 0) | _ => true end.

(** [int(time.time() - start)], not below 0. *)
Definition elapsed_since (now : Z) (start : pyfloat) : result Z :=
  match start with
  | FDec m e =>
      let us := if 0 <=? e + 6 then m * 10 ^ (e + 6) else - ((- m) / 10 ^ (- e - 6)) in
      Ret (Z.max 0 ((now - us) / 1000000))
  | FInf _ => Raise OverflowError
  | FNaN => Raise (ValueError "cannot convert float NaN to integer")
  end.

Definition effective_start (now : Z) (i : LockInfo) : pyfloat :=
  match started_at i with
  | Some t => t
  | None => match timestamp_fallback i with
            | Some t => if nonzero t then t else FDec now (-6)
            | None => FDec now (-6)
            end
  end.

(** ** The log *)

(** [\[(?:STEP\s+)?(\d+)/(\d+)\]\s+] at the start of a text. *)
Definition step_header (s : string) : option Z :=
  match s with
  | String c r =>
      if negb (Ascii.eqb c "[") then None
      else
        let r := match str_strip_prefix "STEP" r with
                 | Some r' => match r' with
                              | String d _ => if is_space d then lstrip_by is_space r' else r
                              | EmptyString => r
                              end
                 | None => r
                 end in
        let '(d1, r1) := until (λ c, negb (is_digit c)) r in
        match r1 with
        | String slash r2 =>
            if negb (Ascii.eqb slash "/") || String.eqb d1 "" then None
            else
              let '(d2, r3) := until (λ c, negb (is_digit c)) r2 in
              match r3 with
              | String close (String sp _) =>
                  if Ascii.eqb close "]" && is_space sp && negb (String.eqb d2 "")
                  then Some (digits_value d1 0) else None
              | _ => None
              end
        | EmptyString => None
        end
  | EmptyString => None
  end.

(** [step_pattern.search(line)]: the first position that matches. *)
Fixpoint step_search (line : string) : option Z :=
  match step_header line with
  | Some n => Some n
  | None => match line with String _ r => step_search r | EmptyString => None end
  end.

Definition add (x : Z) (l : list Z) : list Z := if bool_decide (x ∈ l) then l else x :: l.
Definition zmax (x : Z) (l : list Z) : Z := fold_left Z.max l x.

(** The steps that were started and completed, as sets. *)
Definition scan_line (acc : list Z * list Z) (line : string) : list Z * list Z :=
  let '(started, completed_) := acc in
  let found := step_search line in
  let started := match found with Some n => add n started | None => started end in
  let completed_ :=
    if str_contains "[ OK ]" line then
      match found with
      | Some n => add n completed_
      | None => match started with [] => completed_ | x :: l => add (zmax x l) completed_ end
      end
    else completed_ in
  (started, completed_).
Definition scan_log (lines : list string) : list Z * list Z := fold_left scan_line lines ([], []).

Definition mark_step (started completed_ : list Z) (acc : list DeploymentStepInfo * Z) (s : Z)
    : list DeploymentStepInfo * Z :=
  let '(steps, current) := acc in
  if bool_decide (s ∈ completed_) then (set_status s completed steps, current)
  else if bool_decide (s ∈ started) then (set_status s running steps, s)
  else if (s =? 1) && (match started with [] => true | _ => false end)
  then (set_status 1 running steps, 1)
  else (set_status s pending steps, current).

(** The states of the five steps and the current one. *)
Definition mark_steps (started completed_ : list Z) : result (list DeploymentStepInfo * Z) :=
  let '(steps, current) :=
    fold_left (mark_step started completed_) [1; 2; 3; 4; 5] (default_steps, 1) in
  match completed_ with
  | [] => Ret (steps, current)
  | x :: l =>
      let max_comp := zmax x l in
      if max_comp <? 5 then
        let current := max_comp + 1 in
        match status_of steps current with
        | Ret pending => Ret (set_status current running steps, current)
        | Ret _ => Ret (steps, current)
        | Raise e => Raise e
        end
      else Ret (steps, 5)
  end.

Definition percentage (completed_ : list Z) (current : StepStatus) : Z :=
  let comp_count := Z.of_nat (length completed_) in
  if comp_count =? 5 then 100
  else Z.min 95 (Z.max 5 (comp_count * 20 +
         (if bool_decide (current = running) then 10 else 0))).

Definition log_lines (content : option string) : list string :=
  match content with
  | None => []
  | Some text => let l := read_lines text in List.map str_rstrip (drop (length l - 30) l)
  end.

(** What is shown while no deployment runs. *)
Definition idle_progress (last_update : option PostUpdateSummary) (lines : list string)
    : DeploymentProgressResponse :=
  let quiet := {| dp_operation := no_operation; dp_active := false; dp_current_step := 0;
    dp_total_steps := 5; dp_step_name := ""; dp_percentage := 0; dp_elapsed_seconds := 0;
    dp_estimated_remaining_seconds := None; dp_steps := default_steps; dp_log_tail := lines;
    dp_last_update := last_update |} in
  match last_update with
  | None => quiet
  | Some u =>
      if s_acknowledged u then quiet
      else match s_status u with
      | failed =>
          {| dp_operation := portal_update; dp_active := false; dp_current_step := 1;
             dp_total_steps := 5; dp_step_name := "Deployment failed: " +:+ s_summary u;
             dp_percentage := 0; dp_elapsed_seconds := s_duration_seconds u;
             dp_estimated_remaining_seconds := Some 0;
             dp_steps := set_status 1 step_failed default_steps; dp_log_tail := lines;
             dp_last_update := last_update |}
      | success =>
          {| dp_operation := portal_update; dp_active := false; dp_current_step := 5;
             dp_total_steps := 5; dp_step_name := "Deployment completed successfully";
             dp_percentage := 100; dp_elapsed_seconds := s_duration_seconds u;
             dp_estimated_remaining_seconds := Some 0;
             dp_steps := List.map (λ st, mkStep (step_index st) (step_name st) completed) default_steps;
             dp_log_tail := []; dp_last_update := last_update |}
      end
  end.

(** What the lock file and the log say of a running deployment. *)
Definition active_progress (now : Z) (info : LockInfo) (last_update : option PostUpdateSummary)
    (lines : list string) : result DeploymentProgressResponse :=
  match elapsed_since now (effective_start now info) with
  | Raise e => Raise e
  | Ret elapsed =>
      let '(started, completed_) := scan_log lines in
      match mark_steps started completed_ with
      | Raise e => Raise e
      | Ret (steps, current) =>
          match py_index steps (current - 1) with
          | Raise e => Raise e
          | Ret step =>
              let percent := percentage completed_ (step_status step) in
              let in_range := (1 <=? current) && (current <=? 5) in
              if List.existsb (str_contains "Deployment aborted with error") lines then
                Ret {| dp_operation := lock_operation info; dp_active := false;
                       dp_current_step := current; dp_total_steps := 5;
                       dp_step_name := "Deployment aborted at step " +:+ str_of_Z current;
                       dp_percentage := percent; dp_elapsed_seconds := elapsed;
                       dp_estimated_remaining_seconds := Some 0;
                       dp_steps := if in_range then set_status current step_failed steps else steps;
                       dp_log_tail := lines; dp_last_update := last_update |}
              else
                Ret {| dp_operation := lock_operation info; dp_active := true;
                       dp_current_step := current; dp_total_steps := 5;
                       dp_step_name := if in_range then step_name step else "";
                       dp_percentage := percent; dp_elapsed_seconds := elapsed;
                       dp_estimated_remaining_seconds := Some (Z.max 5 (45 - elapsed));
                       dp_steps := steps; dp_log_tail := lines; dp_last_update := last_update |}
          end
      end
  end.

(** [log] is the content of the log file, if it can be read. *)
Definition get_deployment_progress (now : Z) (log : option string)
    : PyM Watcher DeploymentProgressResponse :=
  is_active <- is_update_in_progress now ;;
  last_update <- get_last_update_summary ;;
  let lines := log_lines log in
  if negb is_active then py_ret (idle_progress last_update lines)
  else
    w <- py_get ;;
    let start := mkLockInfo None None portal_update in
    let info := match lock w with
                | Some (_, content) => parse_lock (splitlines content) start
                | None => start
                end in
    lift (active_progress now info last_update lines).
End watcher.

(** * Lemmas *)

Section lemmas.
Context `{UpdateHost} (cfg : Config).

(** ** The steps of a deployment *)

(** The five steps, in any states. *)
Definition five_steps (steps : list DeploymentStepInfo) : Prop :=
  List.map step_index steps = [1; 2; 3; 4; 5] ∧
  List.map step_name steps = List.map step_name default_steps.

Lemma set_status_five s v steps : five_steps steps → five_steps (set_status s v steps).
Proof using.
  intros [H1 H2]. unfold five_steps, set_status. rewrite !List.map_map. split.
  - rewrite <-H1. apply List.map_ext. intros st. by destruct (step_index st =? s).
  - rewrite <-H2. apply List.map_ext. intros st. by destruct (step_index st =? s).
Qed.

Lemma five_index steps i : five_steps steps → 1 ≤ i ≤ 5 → ∃ st, py_index steps (i - 1) = Ret st.
Proof using.
  intros [H1 _] Hi. destruct steps as [|a [|b [|c [|d [|e [|]]]]]]; try done.
  assert (i = 1 ∨ i = 2 ∨ i = 3 ∨ i = 4 ∨ i = 5) as Hc by lia.
  destruct Hc as [->|[->|[->|[->| ->]]]]; by eexists.
Qed.

Lemma mark_step_inv started completed_ acc s :
  1 ≤ s ≤ 5 → five_steps acc.1 → 1 ≤ acc.2 ≤ 5 →
  five_steps (mark_step started completed_ acc s).1 ∧ 1 ≤ (mark_step started completed_ acc s).2 ≤ 5.
Proof using.
  destruct acc as [steps current]. cbn [fst snd]. intros Hs Hst Hc. unfold mark_step.
  repeat case_match; cbn [fst snd]; (split; [by apply set_status_five|lia]).
Qed.

Lemma zmax_ge x l : x ≤ zmax x l.
Proof using.
  unfold zmax. revert x. induction l as [|y l IH]; intros x; cbn [fold_left]; [lia|].
  specialize (IH (Z.max x y)). lia.
Qed.

Definition nonneg (l : list Z) : Prop := Forall (λ x, 0 ≤ x) l.

Lemma mark_steps_spec started completed_ :
  nonneg completed_ →
  ∃ steps current, mark_steps started completed_ = Ret (steps, current) ∧
    five_steps steps ∧ 1 ≤ current ≤ 5.
Proof using.
  intros Hn. unfold mark_steps.
  assert (∀ l acc, Forall (λ s, 1 ≤ s ≤ 5) l → five_steps acc.1 → 1 ≤ acc.2 ≤ 5 →
    five_steps (fold_left (mark_step started completed_) l acc).1 ∧
    1 ≤ (fold_left (mark_step started completed_) l acc).2 ≤ 5) as Hfold.
  { induction l as [|s l IH]; intros acc Hl H1 H2; [by split|]. cbn [fold_left].
    apply Forall_cons in Hl as [Hs Hl].
    destruct (mark_step_inv started completed_ acc s Hs H1 H2). by apply IH. }
  destruct (Hfold [1; 2; 3; 4; 5] (default_steps, 1)) as [Hs Hc]; [repeat constructor; lia|done|cbn; lia|].
  destruct (fold_left _ _ _) as [steps current]. cbn [fst snd] in Hs, Hc.
  destruct completed_ as [|x l]; [eauto|].
  assert (0 ≤ zmax x l) by (pose proof (zmax_ge x l); apply Forall_cons in Hn as [? _]; lia).
  destruct (Z.ltb_spec (zmax x l) 5); [|eauto with lia].
  destruct (five_index steps (zmax x l + 1) Hs) as [st Hst]; [lia|].
  unfold status_of. rewrite Hst.
  destruct (step_status st); do 2 eexists; (split; [done|]); split; try lia; try done.
  by apply set_status_five.
Qed.

Lemma step_header_nonneg s n : step_header s = Some n → 0 ≤ n.
Proof using.
  assert (∀ s acc, 0 ≤ acc → str_all is_digit s = true → 0 ≤ digits_value s acc) as Hd.
  { induction s0 as [|c s0 IH]; intros acc Ha; cbn; [done|]. intros [Hc Hs]%andb_prop.
    apply IH; [|done]. unfold is_digit, in_range in Hc. apply andb_prop in Hc as [Hc _]. lia. }
  assert (∀ s, str_all is_digit (until (λ c, negb (is_digit c)) s).1 = true) as Hu.
  { induction s0 as [|c s0 IH]; cbn; [done|]. destruct (is_digit c) eqn:E; cbn; [|done].
    destruct (until _ s0). cbn in *. by rewrite E. }
  unfold step_header. destruct s as [|c r]; [done|]. destruct (negb _); [done|].
  set (r' := match str_strip_prefix "STEP" r with Some _ => _ | None => _ end). clearbody r'.
  pose proof (Hu r') as Hd1. destruct (until _ r') as [d1 r1]. cbn [fst] in Hd1.
  repeat case_match; try done. intros [= <-]. apply Hd; [lia|done].
Qed.

Lemma step_search_nonneg s n : step_search s = Some n → 0 ≤ n.
Proof using.
  induction s as [|c s IH]; cbn [step_search].
  - destruct (step_header "") eqn:E; [|done]. intros [= <-]. by eapply step_header_nonneg.
  - destruct (step_header (String c s)) eqn:E; [|exact IH]. intros [= <-].
    by eapply step_header_nonneg.
Qed.

Lemma add_nonneg x l : 0 ≤ x → nonneg l → nonneg (add x l).
Proof using. intros Hx Hl. unfold add. case_bool_decide; [done|by constructor]. Qed.

Lemma scan_line_nonneg acc line :
  nonneg acc.1 → nonneg acc.2 → nonneg (scan_line acc line).1 ∧ nonneg (scan_line acc line).2.
Proof using.
  destruct acc as [started completed_]. cbn [fst snd]. intros H1 H2. unfold scan_line.
  destruct (step_search line) as [n|] eqn:E; cbn [fst snd].
  - apply step_search_nonneg in E. assert (nonneg (add n started)) by (by apply add_nonneg).
    destruct (str_contains _ _); (split; [done|]); [by apply add_nonneg|done].
  - split; [done|]. destruct (str_contains _ _); [|done]. destruct started as [|x l]; [done|].
    apply add_nonneg; [|done]. pose proof (zmax_ge x l). apply Forall_cons in H1 as [? _]. lia.
Qed.

Lemma scan_log_nonneg lines : nonneg (scan_log lines).2.
Proof using.
  unfold scan_log. enough (∀ acc, nonneg acc.1 → nonneg acc.2 →
    nonneg (fold_left scan_line lines acc).2) as H' by (apply H'; constructor).
  induction lines as [|l lines IH]; intros acc H1 H2; [done|]. cbn [fold_left].
  destruct (scan_line_nonneg acc l H1 H2). by apply IH.
Qed.

(** ** The progress response satisfies its schema *)

Definition valid_progress (r : DeploymentProgressResponse) : Prop :=
  0 ≤ dp_current_step r ≤ dp_total_steps r ∧ dp_total_steps r = 5 ∧
  0 ≤ dp_percentage r ≤ 100 ∧ 0 ≤ dp_elapsed_seconds r ∧
  (∀ n, dp_estimated_remaining_seconds r = Some n → 0 ≤ n) ∧
  five_steps (dp_steps r) ∧ (dp_active r = true → 1 ≤ dp_current_step r).

Lemma percentage_bounds l s : 0 ≤ percentage l s ≤ 100.
Proof using. unfold percentage. destruct (_ =? 5); [lia|]. destruct (bool_decide _); lia. Qed.

Definition valid_summary (u : option PostUpdateSummary) : Prop :=
  match u with Some u => 0 ≤ s_duration_seconds u | None => True end.

Lemma idle_progress_valid u lines : valid_summary u → valid_progress (idle_progress u lines).
Proof using.
  intros Hu. unfold valid_progress, idle_progress.
  destruct u as [u|]; [|repeat split; cbn; naive_solver lia].
  destruct (s_acknowledged u); [repeat split; cbn; naive_solver lia|].
  cbn in Hu. destruct (s_status u); cbn -[default_steps]; repeat split; naive_solver lia.
Qed.

Lemma active_progress_valid now info u lines :
  match active_progress now info u lines with
  | Ret r => valid_progress r
  | Raise e => ∃ t, elapsed_since now t = Raise e
  end.
Proof using.
  unfold active_progress.
  destruct (elapsed_since now (effective_start now info)) as [elapsed|e] eqn:Ee; [|eauto].
  assert (0 ≤ elapsed).
  { unfold elapsed_since in Ee. destruct (effective_start now info); try done. injection Ee as <-. lia. }
  pose proof (scan_log_nonneg lines) as Hn. destruct (scan_log lines) as [started completed_].
  destruct (mark_steps_spec started completed_ Hn) as (steps & current & -> & Hs & Hc).
  destruct (five_index steps current Hs Hc) as [st ->].
  pose proof (percentage_bounds completed_ (step_status st)).
  destruct (List.existsb _ lines); unfold valid_progress; cbn -[Z.max];
    (split_and!; [lia|lia|done|lia|lia|lia|intros n [= <-]; lia| |lia]); [|done].
  destruct ((1 <=? current) && (current <=? 5)); [by apply set_status_five|done].
Qed.

(** ** The lock *)

Lemma is_update_in_progress_spec now w :
  let r := is_update_in_progress now w in
  (∃ b, r.1 = Ret b) ∧
  (r.2 = w ∨ (r.2 = set_lock None w ∧ r.1 = Ret false ∧
              ∃ t c, lock w = Some (t, c) ∧ STALE_LOCK_TIMEOUT < now - t)).
Proof using.
  unfold is_update_in_progress, py_bind, py_get. destruct (lock w) as [[t c]|] eqn:E; cbn [fst snd].
  2:{ split; [by eexists|by left]. }
  unfold py_try, unlink_lock. destruct lock_stat_fails; cbn; [split; [by eexists|by left]|].
  destruct (Z.ltb_spec STALE_LOCK_TIMEOUT (now - t)); cbn; [|split; [by eexists|by left]].
  destruct lock_unlink_fails; cbn; [split; [by eexists|by left]|].
  split; [by eexists|]. right. eauto 10.
Qed.

(** A lock that is not stale keeps others out, when it can be inspected. *)
Lemma fresh_lock_busy now t c w :
  lock_stat_fails = false → lock w = Some (t, c) → now - t ≤ STALE_LOCK_TIMEOUT →
  is_update_in_progress now w = (Ret true, w).
Proof using.
  intros Hs Hl Ht. unfold is_update_in_progress, py_bind, py_get, py_try. rewrite Hl, Hs.
  by destruct (Z.ltb_spec STALE_LOCK_TIMEOUT (now - t)); [lia|].
Qed.

Lemma lift_ret {S A} (r : result A) (w : S) : lift r w = (r, w).
Proof using. by destruct r. Qed.

(** Reading the summary changes nothing, and its duration is not negative. *)
Lemma get_last_update_summary_spec w :
  (get_last_update_summary w).2 = w ∧
  match (get_last_update_summary w).1 with Ret u => valid_summary u | Raise _ => True end.
Proof using.
  unfold get_last_update_summary, py_bind, py_get. destruct (post_update w) as [text|]; [|done].
  unfold py_try. destruct post_read_fails; [done|]. cbn zeta.
  destruct (String.eqb (str_strip text) ""); [done|].
  destruct (loads (str_strip text)) as [data|]; [|done].
  unfold parse_summary. destruct data as [| | | | | | |l]; try (by split).
  cbn [json_field lift]. unfold py_bind, py_ret.
  destruct (int_json _) as [seconds|e]; cbn [lift].
  - cbn. split; [done|lia].
  - by destruct e.
Qed.

(** ** Acquiring the lock and running the deployer *)

Context (Hstat : lock_stat_fails = false) (Hunlink : lock_unlink_fails = false).

(** A lock that keeps others out. *)
Definition fresh_lock (now : Z) (w : Watcher) : Prop :=
  ∃ t c, lock w = Some (t, c) ∧ now - t ≤ STALE_LOCK_TIMEOUT.

Lemma in_progress_exact now w :
  (fresh_lock now w ∧ is_update_in_progress now w = (Ret true, w)) ∨
  (¬ fresh_lock now w ∧ is_update_in_progress now w = (Ret false, set_lock None w)).
Proof using Hstat Hunlink.
  unfold is_update_in_progress, py_bind, py_get, py_try, unlink_lock. rewrite Hstat, Hunlink.
  unfold fresh_lock. destruct w as [[[t c]|] ? ? ? ? ? ? ? ? ?]; cbn.
  - destruct (Z.ltb_spec STALE_LOCK_TIMEOUT (now - t)); [right|left]; (split; [|done]).
    + intros (t' & c' & [= -> ->] & Ht). lia.
    + eauto.
  - right. split; [|done]. by intros (? & ? & ? & _).
Qed.

Lemma acquire_lock_spec pid now tb w :
  match acquire_lock pid now tb w with
  | (Ret _, w') => ¬ fresh_lock now w ∧ w' = set_lock (Some (now, lock_payload pid now tb)) w
  | (Raise e, w') =>
      (e = HTTPException 409 "An update deployment is already in progress." ∧ fresh_lock now w ∧ w' = w) ∨
      (e = HTTPException 500 "Failed to initialize deployment concurrency lock." ∧
       ¬ fresh_lock now w ∧ w' = set_lock None w)
  end.
Proof using Hstat Hunlink.
  unfold acquire_lock, py_bind.
  destruct (in_progress_exact now w) as [[Hf ->]|[Hf ->]]; [left; done|].
  destruct lock_write_fails; [by right|done].
Qed.

Lemma run_deployer_spec tb w :
  match run_deployer cfg tb w with
  | (Ret _, w') => w' = w ∨ w' = dispatch tb w
  | (Raise e, w') => (∃ detail, e = HTTPException 500 detail) ∧ w' = set_lock None w
  end.
Proof using Hunlink.
  assert (∀ d, release_and_fail d w = (Raise (HTTPException 500 d), set_lock None w)) as Hr.
  { intros d. unfold release_and_fail, unlink_lock, py_bind. by rewrite Hunlink. }
  unfold run_deployer. destruct command_runner as [runner|].
  { destruct (runner _ _); [rewrite Hr; eauto|by right]. }
  destruct (negb _); [rewrite Hr; eauto|].
  unfold _spawn_detached_deployer, py_try.
  destruct deploy_log_fails; [cbn; rewrite Hr; eauto|].
  destruct posix; [by left|].
  destruct popen_fails; [cbn; rewrite Hr; eauto|by right].
Qed.
End lemmas.

(** * Requests that interleave

    A request to deploy acquires the lock, and later, after other requests have
    run, hands its branch to the deployer; the deployment script removes the
    lock file when it ends. *)

Inductive LockEvent : Type := Accepted (t : Z) | Released.

Record UState := mkUState {
  u_now : Z;
  u_watcher : Watcher;
  u_waiting : list string;  (** requests between acquisition and dispatch *)
  u_log : list LockEvent  (** newest first *)
}.

Section machine.
Context `{UpdateHost} (cfg : Config).
Context (Hstat : lock_stat_fails = false) (Hunlink : lock_unlink_fails = false).

(** The calls that do not deploy. *)
Inductive observation : Type :=
  | Status
  | CheckUpdates (now_iso : string)
  | Acknowledge
  | Progress (log : option string).

Definition observe (now : Z) (o : observation) (w : Watcher) : Watcher :=
  match o with
  | Status => (get_status cfg now w).2
  | CheckUpdates iso => (check_for_updates cfg now iso w).2
  | Acknowledge => (acknowledge_last_update w).2
  | Progress log => (get_deployment_progress now log w).2
  end.

Inductive ustep : UState → UState → Prop :=
  | u_tick now now' w p l : now ≤ now' → ustep (mkUState now w p l) (mkUState now' w p l)
  | u_observe now w p l o : ustep (mkUState now w p l) (mkUState now (observe now o w) p l)
  | u_acquire now w p l pid tb w' :
      valid_branch tb = true → acquire_lock pid now tb w = (Ret tt, w') →
      ustep (mkUState now w p l) (mkUState now w' (tb :: p) (Accepted now :: l))
  | u_rejected now w p l pid tb e w' :
      acquire_lock pid now tb w = (Raise e, w') →
      ustep (mkUState now w p l) (mkUState now w' p l)
  | u_dispatched now w p1 tb p2 l w' :
      run_deployer cfg tb w = (Ret tt, w') →
      ustep (mkUState now w (p1 ++ tb :: p2) l) (mkUState now w' (p1 ++ p2) l)
  | u_failed now w p1 tb p2 l e w' :
      run_deployer cfg tb w = (Raise e, w') →
      ustep (mkUState now w (p1 ++ tb :: p2) l) (mkUState now w' (p1 ++ p2) (Released :: l))
  | u_finished now w p l :
      ustep (mkUState now w p l) (mkUState now (set_lock None w) p (Released :: l)).

(** ** What the observations change *)

(** The lock stays, or was stale and is removed. *)
Definition lock_kept (now : Z) (w w' : Watcher) : Prop :=
  lock w' = lock w ∨ (lock w' = None ∧ ¬ fresh_lock now w).

(** Availability is a positive number of commits behind. *)
Definition coherent (w : Watcher) : Prop :=
  update_available w = (0 <? commits_behind w) ∧ 0 ≤ commits_behind w.

Definition observed (now : Z) (w w' : Watcher) : Prop :=
  lock_kept now w w' ∧ (coherent w → coherent w') ∧ dispatched w' = dispatched w.

Lemma observed_refl now w : observed now w w.
Proof using. split; [by left|done]. Qed.

Lemma in_progress_observed now w : observed now w (is_update_in_progress now w).2.
Proof using Hstat Hunlink.
  destruct (in_progress_exact Hstat Hunlink now w) as [[Hf ->]|[Hf ->]]; [apply observed_refl|].
  split; [by right|done].
Qed.

Lemma get_status_observed now w : observed now w (get_status cfg now w).2.
Proof using Hstat Hunlink.
  unfold get_status. unfold py_bind at 1, py_get. unfold py_bind at 1.
  pose proof (in_progress_observed now w) as Ho.
  destruct (is_update_in_progress now w) as [[b|e] w1]; [|exact Ho].
  unfold py_bind. pose proof (get_last_update_summary_spec w1) as [Hs _].
  by destruct (get_last_update_summary w1) as [[u|e] w2]; cbn in *; subst w2.
Qed.

(** The state between the parts of a check: only what it learned differs. *)
Definition checked (now : Z) (w0 w : Watcher) : Prop :=
  lock w = lock w0 ∧ (coherent w0 → coherent w) ∧ dispatched w = dispatched w0.

Lemma checked_modify w0 (f : Watcher → Watcher) now :
  (∀ w, lock (f w) = lock w ∧ (coherent w → coherent (f w)) ∧ dispatched (f w) = dispatched w) →
  preserves (checked now w0) (py_modify f).
Proof using.
  intros Hf w (H1 & H2 & H3). destruct (Hf w) as (F1 & F2 & F3). cbn.
  split_and!; [congruence|auto|congruence].
Qed.

Lemma checked_lift {A} w0 now (r : result A) : preserves (checked now w0) (lift r).
Proof using. destruct r; cbn [lift]; auto with py. Qed.

Lemma probe_checked now w0 local owner repo :
  preserves (checked now w0) (probe_upstream cfg local owner repo).
Proof using.
  assert (∀ b n, b = (0 <? n) → 0 ≤ n → preserves (checked now w0) (py_modify (set_divergence b n))) as Hd.
  { intros b n -> Hn. apply checked_modify. intros w. split; [done|]. split; [|done]. by intros _. }
  unfold probe_upstream. destruct (http_get _) as [|status body]; [auto with py|].
  destruct ((status =? 403) || (status =? 429)); [by apply checked_modify|].
  apply preserves_bind.
  { unfold checked_body. destruct (negb _); [auto with py|]. destruct body; auto with py. }
  intros data. repeat (apply preserves_bind; [apply checked_lift|intros ?]).
  apply preserves_bind; [by apply checked_modify|]. intros _.
  destruct (same_commit _ _); [by apply Hd|]. destruct (_ && _ && _); [|by apply Hd].
  unfold count_behind. destruct (http_get _) as [|st b]; [auto with py|].
  destruct (st =? 200); [|by apply Hd]. destruct b; [|auto with py].
  repeat (apply preserves_bind; [apply checked_lift|intros ?]). apply Hd; [done|lia].
Qed.

Lemma check_error_checked now w0 e : preserves (checked now w0) (check_error e).
Proof using.
  unfold check_error. destruct e; auto with py; repeat case_match; by apply checked_modify.
Qed.

Lemma check_observed now iso w : observed now w (check_for_updates cfg now iso w).2.
Proof using Hstat Hunlink.
  assert (∀ w1, checked now w w1 → observed now w (get_status cfg now w1).2) as Hend.
  { intros w1 (H1 & H2 & H3). destruct (get_status_observed now w1) as (G1 & G2 & G3).
    split_and!; [|auto|congruence]. unfold lock_kept, fresh_lock in *. rewrite H1 in G1. exact G1. }
  assert (∀ w1, checked now w w1 → observed now w w1) as Hdone.
  { intros w1 (H1 & H2 & H3). split_and!; [by left|auto|done]. }
  unfold check_for_updates. unfold py_bind at 1 2, py_modify at 1 2.
  set (w1 := set_current _ _).
  assert (checked now w w1) as Hw1 by (split_and!; done).
  destruct (parse_repo_slug _) as [[owner repo]|e].
  2:{ destruct e; try (by apply Hdone). apply Hend. split_and!; done. }
  unfold py_bind, py_try.
  pose proof (probe_checked now w get_local_commit owner repo w1 Hw1) as Hp.
  destruct (probe_upstream cfg get_local_commit owner repo w1) as [[[]|e] w2]; [by apply Hend|].
  pose proof (check_error_checked now w e w2 Hp) as Hc.
  destruct (check_error e w2) as [[[]|e'] w3]; [by apply Hend|by apply Hdone].
Qed.

Lemma acknowledge_observed now w : observed now w (acknowledge_last_update w).2.
Proof using.
  unfold acknowledge_last_update, py_bind at 1, py_get.
  destruct (post_update w) as [text|]; [|apply observed_refl].
  unfold py_try. destruct post_read_fails; [apply observed_refl|].
  destruct (loads _) as [[]|]; try apply observed_refl.
  destruct post_write_fails; [apply observed_refl|]. split; [by left|done].
Qed.

Lemma progress_observed now log w : observed now w (get_deployment_progress now log w).2.
Proof using Hstat Hunlink.
  unfold get_deployment_progress. unfold py_bind at 1.
  pose proof (in_progress_observed now w) as Ho.
  destruct (is_update_in_progress now w) as [[b|e] w1]; [|exact Ho].
  unfold py_bind at 1. pose proof (get_last_update_summary_spec w1) as [Hs _].
  destruct (get_last_update_summary w1) as [[u|e] w2]; cbn [fst snd] in *; subst w2; [|exact Ho].
  destruct b; cbn [negb]; [|exact Ho]. unfold py_bind, py_get. by rewrite lift_ret.
Qed.

Lemma observe_observed now o w : observed now w (observe now o w).
Proof using Hstat Hunlink.
  destruct o; [apply get_status_observed|apply check_observed|apply acknowledge_observed|
    apply progress_observed].
Qed.

(** ** Invariants *)

(** Between two acceptances the lock was released or became stale. *)
Fixpoint exclusive (l : list LockEvent) : Prop :=
  match l with
  | Accepted t2 :: ((Accepted t1 :: _) as l') => STALE_LOCK_TIMEOUT < t2 - t1 ∧ exclusive l'
  | _ :: l' => exclusive l'
  | [] => True
  end.

(** The last acceptance that was not released holds the lock until it is stale. *)
Definition held (s : UState) : Prop :=
  exclusive (u_log s) ∧
  match u_log s with
  | Accepted t :: _ =>
      (∃ c, lock (u_watcher s) = Some (t, c)) ∨ STALE_LOCK_TIMEOUT < u_now s - t
  | _ => True
  end.

Lemma held_kept now w w' p l :
  lock_kept now w w' → held (mkUState now w p l) → held (mkUState now w' p l).
Proof using.
  intros Hk [He Hh]. split; [done|]. cbn in *. destruct l as [|[t|] l]; try done.
  destruct Hh as [[c Hc]|]; [|by right]. destruct Hk as [->|[_ Hf]]; [left; eauto|].
  right. destruct (decide (STALE_LOCK_TIMEOUT < now - t)); [done|]. exfalso. apply Hf.
  exists t, c. split; [done|lia].
Qed.

Lemma ustep_held s s' : held s → ustep s s' → held s'.
Proof using Hstat Hunlink.
  intros Hs Hstep. destruct Hstep as [now now' w p l Ht|now w p l o|now w p l pid tb w' Hb Ha|
    now w p l pid tb e w' Ha|now w p1 tb p2 l w' Hr|now w p1 tb p2 l e w' Hr|now w p l].
  - destruct Hs as [He Hh]. split; [done|]. cbn in *. destruct l as [|[t|] l]; try done.
    destruct Hh; [by left|right; lia].
  - eapply held_kept; [|exact Hs]. by destruct (observe_observed now o w).
  - pose proof (acquire_lock_spec Hstat Hunlink pid now tb w) as Hsp. rewrite Ha in Hsp.
    destruct Hsp as [Hf ->]. destruct Hs as [He Hh]. split; [|by left; eexists].
    cbn in *. destruct l as [|[t|] l]; try done. split; [|done].
    destruct Hh as [[c Hc]|]; [|done].
    destruct (decide (STALE_LOCK_TIMEOUT < now - t)); [done|]. exfalso. apply Hf.
    exists t, c. split; [done|lia].
  - pose proof (acquire_lock_spec Hstat Hunlink pid now tb w) as Hsp. rewrite Ha in Hsp.
    eapply held_kept; [|exact Hs]. destruct Hsp as [(_ & _ & ->)|(_ & Hf & ->)]; [by left|by right].
  - pose proof (run_deployer_spec cfg Hunlink tb w) as Hsp. rewrite Hr in Hsp.
    destruct Hs as [He Hh]. split; [done|]. by destruct Hsp as [->| ->].
  - by destruct Hs as [He _].
  - by destruct Hs as [He _].
Qed.

Lemma ustep_coherent s s' : coherent (u_watcher s) → ustep s s' → coherent (u_watcher s').
Proof using Hstat Hunlink.
  intros Hs Hstep. destruct Hstep as [now now' w p l Ht|now w p l o|now w p l pid tb w' Hb Ha|
    now w p l pid tb e w' Ha|now w p1 tb p2 l w' Hr|now w p1 tb p2 l e w' Hr|now w p l];
    cbn [u_watcher] in *; try done.
  - destruct (observe_observed now o w) as (_ & Hc & _). by apply Hc.
  - pose proof (acquire_lock_spec Hstat Hunlink pid now tb w) as Hsp. rewrite Ha in Hsp.
    by destruct Hsp as [_ ->].
  - pose proof (acquire_lock_spec Hstat Hunlink pid now tb w) as Hsp. rewrite Ha in Hsp.
    by destruct Hsp as [(_ & _ & ->)|(_ & _ & ->)].
  - pose proof (run_deployer_spec cfg Hunlink tb w) as Hsp. rewrite Hr in Hsp.
    by destruct Hsp as [->| ->].
  - pose proof (run_deployer_spec cfg Hunlink tb w) as Hsp. rewrite Hr in Hsp.
    by destruct Hsp as [_ ->].
Qed.
End machine.

(** ** The lock file's text *)

Lemma epoch_chars now :
  0 ≤ now → str_all (λ c, is_digit c || Ascii.eqb c ".") (format_epoch now) = true.
Proof.
  intros Hn. unfold format_epoch.
  destruct (nonneg_digits (now / 1000000) ltac:(zdiv)) as [_ H1].
  pose proof (fixed_digits_all 6 now Hn) as H2.
  assert (∀ s, str_all is_digit s = true →
    str_all (λ c, is_digit c || Ascii.eqb c ".") s = true) as H.
  { intros s. apply str_all_impl. by intros c ->. }
  rewrite !str_all_app, (H _ H1), (H _ H2). done.
Qed.

Lemma epoch_char_facts c : is_digit c || Ascii.eqb c "." = true →
  is_space c = false ∧ is_upper c = false ∧ Ascii.eqb c "e" = false ∧
  Ascii.eqb c "-" = false ∧ Ascii.eqb c "+" = false ∧ is_line_break c = false ∧
  Ascii.eqb c carriage_return = false ∧ Ascii.eqb c "i" = false ∧ Ascii.eqb c "n" = false.
Proof. destruct c as [[] [] [] [] [] [] [] []]; intros H; try discriminate H; done. Qed.

Lemma epoch_all p now :
  0 ≤ now → (∀ c, is_digit c || Ascii.eqb c "." = true → p c = true) →
  str_all p (format_epoch now) = true.
Proof. intros Hn Hp. eapply str_all_impl; [exact Hp|by apply epoch_chars]. Qed.

Lemma float_of_epoch now : 0 ≤ now → float_of (format_epoch now) = Some (FDec now (-6)).
Proof.
  intros Hn. unfold float_of.
  assert (str_strip (format_epoch now) = format_epoch now) as ->.
  { apply str_strip_id, epoch_all; [done|]. by intros c (->&_)%epoch_char_facts. }
  assert (split_sign (format_epoch now) = (1, format_epoch now)) as ->.
  { pose proof (epoch_chars now Hn) as H. destruct (format_epoch now) as [|c s]; [done|].
    cbn in H. apply andb_prop in H as [(_&_&_&H1&H2&_)%epoch_char_facts _]. cbn. by rewrite H1, H2. }
  cbn zeta.
  assert (str_lower (format_epoch now) = format_epoch now) as ->.
  { apply str_lower_id, epoch_all; [done|]. by intros c (_&->&_)%epoch_char_facts. }
  assert (∀ w d s, w = String d s → Ascii.eqb d "i" = true ∨ Ascii.eqb d "n" = true →
    String.eqb (format_epoch now) w = false) as Hw.
  { intros w d s -> Hd. apply String.eqb_neq. intros E. pose proof (epoch_chars now Hn) as H.
    rewrite E in H. cbn in H. apply andb_prop in H as [H _].
    apply epoch_char_facts in H as (_&_&_&_&_&_&_&H1&H2). destruct Hd; congruence. }
  rewrite (Hw "inf" "i"%char "nf"), (Hw "infinity" "i"%char "nfinity"), (Hw "nan" "n"%char "an") by auto.
  cbn [orb]. rewrite (str_split_none "e").
  2:{ apply epoch_all; [done|]. by intros c (_&_&->&_)%epoch_char_facts. }
  assert (any_mantissa (format_epoch now) = Some (now, -6)) as ->.
  { pose proof (py_mantissa_body now Hn) as Hm. fold (format_epoch now) in Hm.
    unfold any_mantissa. destruct (nonneg_digits (now / 1000000) ltac:(zdiv)) as [_ H1].
    assert (∃ r, str_split "." (format_epoch now) =
      str_of_Z (now / 1000000) :: str_split "." r) as [r ->].
    { eexists. unfold format_epoch. apply (str_split_app "."). eapply str_all_impl; [|exact H1].
      intros c Hc. by rewrite digit_neq. }
    destruct (str_split "." r) eqn:E; [by apply str_split_nonempty in E|exact Hm]. }
  cbn. by rewrite Z.mul_1_l.
Qed.

Lemma branch_one_line tb : str_all is_branch_char tb = true → one_line tb = true.
Proof.
  apply str_all_impl. intros c H. destruct c as [[] [] [] [] [] [] [] []]; try discriminate H; done.
Qed.

Lemma str_of_Z_one_line n : one_line (str_of_Z n) = true.
Proof.
  assert (∀ m, 0 ≤ m → one_line (str_of_Z m) = true) as H.
  { intros m Hm. destruct (nonneg_digits m Hm) as [_ Hd]. eapply str_all_impl; [|exact Hd].
    intros c Hc. destruct c as [[] [] [] [] [] [] [] []]; try discriminate Hc; done. }
  destruct (decide (n < 0)); [|apply H; lia].
  rewrite str_of_neg by done. unfold one_line in *. cbn. apply H. lia.
Qed.

(** What is read back from the lock file that an update wrote. *)
Lemma parse_lock_payload pid now tb :
  0 ≤ now → str_all is_branch_char tb = true →
  parse_lock (splitlines (lock_payload pid now tb)) (mkLockInfo None None portal_update) =
  mkLockInfo (Some (FDec now (-6))) (Some (FDec now (-6))) portal_update.
Proof.
  intros Hn Hb.
  assert (one_line (format_epoch now) = true) as He.
  { apply epoch_all; [done|]. by intros c (_&_&_&_&_&->&->&_)%epoch_char_facts. }
  assert (∀ p s, one_line p = true → one_line s = true → one_line (p +:+ s) = true) as Happ.
  { intros p s H1 H2. unfold one_line in *. by rewrite str_all_app, H1, H2. }
  unfold lock_payload, nl.
  assert (∀ p s t, one_line p = true → one_line s = true →
    splitlines (p +:+ s +:+ String "010" "" +:+ t) = (p +:+ s) :: splitlines t) as Hs.
  { intros p s t H1 H2. change (String "010" "" +:+ t) with (String line_feed t).
    rewrite <-(splitlines_cons (p +:+ s) t) by by apply Happ. by rewrite str_app_assoc. }
  rewrite (Hs "pid="), (Hs "started_at="), (Hs "timestamp="), (Hs "branch=")
    by (try done; auto using str_of_Z_one_line, branch_one_line).
  change (splitlines ("operation=portal_update" +:+ String "010" "")) with ["operation=portal_update"].
  cbn [parse_lock].
  change (str_strip_prefix "started_at=" ("pid=" +:+ str_of_Z pid)) with (@None string).
  change (str_strip_prefix "timestamp=" ("pid=" +:+ str_of_Z pid)) with (@None string).
  change (str_strip_prefix "operation=" ("pid=" +:+ str_of_Z pid)) with (@None string).
  cbv iota. rewrite str_strip_prefix_app, float_of_epoch by done.
  cbn [timestamp_fallback lock_operation started_at].
  change (str_strip_prefix "started_at=" ("timestamp=" +:+ format_epoch now)) with (@None string).
  cbv iota. rewrite str_strip_prefix_app, float_of_epoch by done.
  cbn [timestamp_fallback lock_operation started_at].
  change (str_strip_prefix "started_at=" ("branch=" +:+ tb)) with (@None string).
  change (str_strip_prefix "timestamp=" ("branch=" +:+ tb)) with (@None string).
  change (str_strip_prefix "operation=" ("branch=" +:+ tb)) with (@None string).
  reflexivity.
Qed.

(** ** Acknowledging *)

Lemma json_get_last_value k l : json_get k l = last_value k l.
Proof. induction l as [|[k' v] l IH]; [done|]. cbn. by rewrite IH. Qed.

Lemma json_get_dict k l : NoDup (List.map fst l) → json_get k l = dict_get k l.
Proof. intros H. by rewrite json_get_last_value, last_value_nodup. Qed.

(** The dict of a JSON object has the values that [json_get] finds. *)
Lemma json_get_set k k' v l :
  json_get k (dict_set k' v (dict_update [] l)) =
  if decide (k = k') then Some v else json_get k l.
Proof.
  rewrite json_get_dict by (apply dict_set_nodup, dict_update_nodup; constructor).
  rewrite dict_get_set, dict_get_update, <-json_get_last_value. case_decide; [done|].
  by destruct (json_get k l).
Qed.

Definition acknowledge (u : PostUpdateSummary) : PostUpdateSummary :=
  {| s_status := s_status u; s_target_branch := s_target_branch u;
     s_deployed_version := s_deployed_version u; s_deployed_commit := s_deployed_commit u;
     s_deployed_commit_short := s_deployed_commit_short u; s_deployed_at := s_deployed_at u;
     s_duration_seconds := s_duration_seconds u; s_summary := s_summary u;
     s_acknowledged := true |}.

Section acknowledge.
Context `{UpdateHost}.

(** The outcome depends on the values of the object only. *)
Lemma parse_summary_values l w :
  (parse_summary (JObj l) w).1 =
  match int_json (default (JInt 0) (json_get "duration_seconds" l)) with
  | Raise e => Raise e
  | Ret seconds =>
      Ret {| s_status := match json_get "status" l with
                         | Some (JStr s) => if String.eqb s "failed" then failed else success
                         | _ => success end;
             s_target_branch := str_json (default (JStr "main") (json_get "target_branch" l));
             s_deployed_version := match json_get "deployed_version" l with
                                   | None | Some JNull => None | Some v => Some (str_json v) end;
             s_deployed_commit := str_json (default (JStr "unknown") (json_get "deployed_commit" l));
             s_deployed_commit_short :=
               str_json (default (JStr "unknown") (json_get "deployed_commit_short" l));
             s_deployed_at := str_json (default (JStr "") (json_get "deployed_at" l));
             s_duration_seconds := Z.max 0 seconds;
             s_summary := str_json (default (JStr "") (json_get "summary" l));
             s_acknowledged := truthy (default (JBool false) (json_get "acknowledged" l)) |}
  end.
Proof using.
  unfold parse_summary. cbn [json_field lift]. unfold py_bind, py_ret.
  change (match json_get "duration_seconds" l with Some w => w | None => JInt 0 end)
    with (default (JInt 0) (json_get "duration_seconds" l)).
  destruct (int_json (default (JInt 0) (json_get "duration_seconds" l))) as [seconds|e]; [|done].
  cbn [lift fst py_ret].
  by destruct (json_get "status" l), (json_get "deployed_version" l) as [[]|].
Qed.

Lemma strip_indented k kv l : str_strip (dumps_indent k (JObj (kv :: l))) = dumps_indent k (JObj (kv :: l)).
Proof using.
  unfold dumps_indent. rewrite dump_obj. set (body := str_join _ _). clearbody body.
  unfold str_strip, strip_by. cbn [lstrip_by]. change (is_space "{") with false. cbv iota.
  rewrite <-!str_app_assoc, <-str_app_cons. by apply rstrip_last.
Qed.

Lemma acknowledge_spec w text l u :
  post_read_fails = false → post_write_fails = false →
  post_update w = Some text → loads (str_strip text) = Some (JObj l) → plain (JObj l) = true →
  (get_last_update_summary w).1 = Ret (Some u) →
  let r := acknowledge_last_update w in
  r.1 = Ret true ∧ (get_last_update_summary r.2).1 = Ret (Some (acknowledge u)).
Proof using.
  intros Hr Hw Hp Hl Hpl Hu.
  set (d := dict_set "acknowledged" (JBool true) (dict_update [] l)).
  assert (acknowledge_last_update w = (Ret true, set_post (dumps_indent 2 (JObj d)) w)) as ->.
  { unfold acknowledge_last_update, py_bind, py_get, py_try. by rewrite Hp, Hr, Hw, Hl. }
  cbn [fst snd]. split; [done|].
  assert (plain (JObj d) = true) as Hpd.
  { cbn [plain] in *. apply List.forallb_forall. apply List.Forall_forall. unfold d.
    apply dict_set_Forall; [done|]. apply dict_update_Forall; [|constructor].
    apply List.Forall_forall. by apply List.forallb_forall. }
  assert (∃ kv d', d = kv :: d') as (kv & d' & Ed).
  { destruct d as [|kv d'] eqn:E; [|eauto]. exfalso.
    assert (json_get "acknowledged" d = Some (JBool true)) as H' by (unfold d; by rewrite json_get_set).
    by rewrite E in H'. }
  assert (∀ w1 text1 l1, post_update w1 = Some text1 → loads (str_strip text1) = Some (JObj l1) →
    (get_last_update_summary w1).1 =
      match (parse_summary (JObj l1) w1).1 with
      | Ret s => Ret (Some s)
      | Raise (ValueError _) => Ret None
      | Raise e => if is_oserror e then Ret None else Raise e
      end) as Hget.
  { intros w1 text1 l1 H1 H2. unfold get_last_update_summary, py_bind at 1, py_get, py_try.
    rewrite H1, Hr. cbn zeta. destruct (String.eqb_spec (str_strip text1) "") as [E|].
    { by rewrite E in H2. }
    rewrite H2. unfold py_bind. destruct (parse_summary (JObj l1) w1) as [[s|e] w2]; [done|].
    cbn [fst]. destruct e; done. }
  rewrite (Hget _ _ _ Hp Hl), parse_summary_values in Hu.
  rewrite (Hget _ (dumps_indent 2 (JObj d)) d).
  - rewrite parse_summary_values. unfold d. rewrite !json_get_set.
    rewrite !decide_False by done. rewrite decide_True by done. cbn [default].
    destruct (int_json _) as [seconds|e].
    + injection Hu as <-. done.
    + destruct e; done.
  - done.
  - rewrite Ed, strip_indented, <-Ed. by apply loads_indent.
Qed.
End acknowledge.

(** * Theorems *)

Section theorems.
Context `{UpdateHost} (cfg : Config).

(** C18: When the lock file can be inspected and removed without an error of the file
    system, deployments do not overlap: over every interleaving of requests, status
    queries, dispatches, failures and ends of deployments, two acceptances with no
    release of the lock between them are more than the stale timeout of 30 minutes
    apart. *)
Theorem deployments_exclusive now w s :
  lock_stat_fails = false → lock_unlink_fails = false →
  star (ustep cfg) (mkUState now w [] []) s → exclusive (u_log s).
Proof using.
  intros Hs Hu Hstar.
  apply (star_invariant (ustep cfg) held) in Hstar as [He _]; [done| |by split].
  intros a b Ha Hab. exact (ustep_held cfg Hs Hu a b Ha Hab).
Qed.

(** In every reachable state an update is shown as available exactly when
    the number of commits behind is positive, and that number is not negative. *)
Theorem available_iff_behind now iso l post s :
  lock_stat_fails = false → lock_unlink_fails = false →
  star (ustep cfg) (mkUState now (initial_watcher iso l post) [] []) s →
  update_available (u_watcher s) = (0 <? commits_behind (u_watcher s)) ∧
  0 ≤ commits_behind (u_watcher s).
Proof using.
  intros Hs Hu Hstar.
  apply (star_invariant (ustep cfg) (λ s, coherent (u_watcher s))) in Hstar as H0; [exact H0| |].
  - intros a b Ha Hab. exact (ustep_coherent cfg Hs Hu a b Ha Hab).
  - by split.
Qed.

(** On POSIX an accepted update is never handed to the supervisor: the
    dispatch runs in a worker thread, where [get_event_loop] raises, and the
    failure is only logged; the caller is told that the update is being applied
    and the lock stays. *)
Theorem update_never_dispatched pid now iso requested w resp w' :
  posix = true → command_runner = None →
  apply_update cfg pid now iso requested w = (Ret resp, w') →
  ua_status resp = "applying" ∧ dispatched w' = dispatched w ∧
  lock w' = Some (now, lock_payload pid now (ua_target_branch resp)).
Proof using.
  intros Hp Hr. unfold apply_update.
  set (tb := match requested with Some b => _ | None => _ end). clearbody tb.
  destruct (negb (valid_branch tb)); [done|].
  unfold py_bind. destruct (acquire_lock pid now tb w) as [[[]|e] w1] eqn:Ea; [|done].
  assert (lock w1 = Some (now, lock_payload pid now tb) ∧ dispatched w1 = dispatched w) as [Hl Hd].
  { unfold acquire_lock, py_bind in Ea.
    destruct (is_update_in_progress_spec now w) as [_ Hs].
    destruct (is_update_in_progress now w) as [[[]|e] w0]; try done.
    destruct lock_write_fails; [done|]. injection Ea as <-. split; [done|].
    destruct Hs as [Hs|[Hs _]]; cbn in Hs; by subst w0. }
  destruct (run_deployer cfg tb w1) as [[[]|e] w2] eqn:Er; [|done]. intros [= <- <-].
  assert (w2 = w1) as ->; [|done].
  revert Er. unfold run_deployer. rewrite Hr.
  assert (∀ d, release_and_fail d w1 ≠ (Ret tt, w2)) as Hf.
  { intros d. unfold release_and_fail, unlink_lock, py_bind. by destruct lock_unlink_fails. }
  destruct (negb _); [by intros E%Hf|].
  unfold _spawn_detached_deployer, py_try. rewrite Hp.
  destruct deploy_log_fails; [by intros E%Hf|].
  by intros [= <-].
Qed.

(** C25: Every progress response satisfies its schema: step, percentage, times
    and the list of steps are within their bounds, and no list index is out of
    range. *)
Theorem progress_satisfies_schema now log w :
  match (get_deployment_progress now log w).1 with
  | Ret r => valid_progress r
  | Raise e => (get_last_update_summary w).1 = Raise e ∨
               (∃ w1, (get_last_update_summary w1).1 = Raise e) ∨ (∃ t, elapsed_since now t = Raise e)
  end.
Proof using.
  unfold get_deployment_progress. unfold py_bind at 1.
  destruct (is_update_in_progress_spec now w) as [[b Hb] _].
  destruct (is_update_in_progress now w) as [r w1]. cbn in Hb. subst r.
  unfold py_bind at 1. destruct (get_last_update_summary_spec w1) as [Hs Hv].
  destruct (get_last_update_summary w1) as [[u|e] w2] eqn:Eu; cbn [fst snd] in *; subst w2.
  2:{ right. left. exists w1. by rewrite Eu. }
  destruct b; cbn [negb]; [|by apply idle_progress_valid].
  unfold py_bind, py_get. rewrite lift_ret. cbn [fst].
  set (info := match lock w1 with Some _ => _ | None => _ end). clearbody info.
  pose proof (active_progress_valid now info u (log_lines log)) as Ha.
  destruct (active_progress now info u (log_lines log)); [exact Ha|by right; right].
Qed.

(** What an accepted update wrote into the lock file is what progress
    queries read back: until the lock is stale they show an active portal update
    with the seconds since its start. *)
Theorem progress_after_apply pid now later tb w u :
  lock_stat_fails = false → 0 ≤ now ≤ later → later - now ≤ STALE_LOCK_TIMEOUT →
  str_all is_branch_char tb = true → lock w = Some (now, lock_payload pid now tb) →
  (get_last_update_summary w).1 = Ret u →
  ∃ r, (get_deployment_progress later None w).1 = Ret r ∧
    dp_active r = true ∧ dp_operation r = portal_update ∧ dp_current_step r = 1 ∧
    dp_elapsed_seconds r = (later - now) / 1000000 ∧ dp_last_update r = u.
Proof using.
  intros Hs Hn Hf Hb Hl Hu. unfold get_deployment_progress. unfold py_bind at 1.
  rewrite (fresh_lock_busy later now _ w Hs Hl) by done.
  unfold py_bind at 1. pose proof (get_last_update_summary_spec w) as [Hw _].
  destruct (get_last_update_summary w) as [r w1]. cbn [fst snd] in *. subst r w1.
  cbn [negb]. unfold py_bind, py_get. rewrite lift_ret, Hl, parse_lock_payload by (try done; lia).
  unfold active_progress, effective_start. cbn [started_at].
  unfold elapsed_since. cbn [Z.add Z.leb Z.compare Z.pos_sub Pos.pred_double].
  eexists. split; [reflexivity|]. cbn -[Z.div Z.max]. split_and!; try done.
  change (0 <=? -6 + 6) with true. change (10 ^ (-6 + 6)) with 1. cbv iota. rewrite Z.mul_1_r.
  pose proof (Z.div_pos (later - now) 1000000). lia.
Qed.

(** Acknowledging rewrites the summary so that it reads back as
    acknowledged and otherwise unchanged. *)
Theorem acknowledge_reads_back w text l u :
  post_read_fails = false → post_write_fails = false →
  post_update w = Some text → loads (str_strip text) = Some (JObj l) → plain (JObj l) = true →
  (get_last_update_summary w).1 = Ret (Some u) →
  (acknowledge_last_update w).1 = Ret true ∧
  (get_last_update_summary (acknowledge_last_update w).2).1 = Ret (Some (acknowledge u)).
Proof using. intros H1 H2 H3 H4 H5 H6. exact (acknowledge_spec w text l u H1 H2 H3 H4 H5 H6). Qed.
End theorems.

(** * Witnesses and examples *)

Definition example_json (s : string) : string :=
  str_map (λ c, if Ascii.eqb c "'" then dquote else c) s.

Definition example_http (url : string) : Http :=
  if str_contains "/compare/" url then Response 200 (Some (JObj [("ahead_by", JInt 3)]))
  else Response 200 (Some (JObj [("sha", JStr "bbbbbbbbbb");
         ("commit", JObj [("message", JStr ("Fix the lock" +:+ nl +:+ "details"))])])).

Definition example_host (on_posix : bool) : UpdateHost :=
  {| posix := on_posix; lock_stat_fails := false; lock_unlink_fails := false;
     lock_write_fails := false; post_read_fails := false; post_write_fails := false;
     deploy_log_fails := false; script_exists := λ _, true; script_is_file := λ _, true;
     popen_fails := false; command_runner := None; oserror_text := "";
     git_head := Some (0, "aaaaaaaaaa" +:+ nl); commit_files := []; http_get := example_http;
     json_repr := λ _, "" |}.
Definition example_config : Config :=
  {| repo_url := "https://github.com/owner/palworld.git"; branch := "main";
     deploy_script := None; repo_dir := "/srv/app" |}.
Definition example_watcher : Watcher := initial_watcher "t0" None None.

Example slug_examples :
  parse_repo_slug "https://github.com/owner/palworld.git" = Ret ("owner", "palworld") ∧
  parse_repo_slug "https://github.com/owner" =
    Raise (ValueError "Invalid GitHub repository URL format: https://github.com/owner").
Proof. vm_compute. done. Qed.

Example branch_examples :
  valid_branch "release-1.2_x" = true ∧ valid_branch ("main" +:+ nl) = true ∧
  valid_branch "feature/x" = false ∧ valid_branch "" = false ∧ valid_branch "-x" = true.
Proof. vm_compute. done. Qed.

Example log_example :
  let line s := s +:+ nl in
  match active_progress 90000000 (mkLockInfo (Some (FDec 60 0)) None portal_update) None
    (log_lines (Some (line "[STEP 1/5] Pulling latest updates..." +:+ line "[ OK ] pulled" +:+
                      line "[2/5] Updating dependencies"))) with
  | Ret r => dp_current_step r = 2 ∧ dp_percentage r = 30 ∧ dp_elapsed_seconds r = 30 ∧
             List.map step_status (dp_steps r) = [completed; running; pending; pending; pending]
  | Raise _ => False
  end.
Proof. vm_compute. done. Qed.

Lemma deployments_exclusive_witness :
  let s1 := (acquire_lock (H := example_host true) 7 0 "main" example_watcher).2 in
  let s2 := (acquire_lock (H := example_host true) 7 1900000000 "main" s1).2 in
  exclusive [Accepted 1900000000; Accepted 0] ∧
  lock s2 = Some (1900000000, lock_payload 7 1900000000 "main").
Proof.
  cbv zeta. split; [|reflexivity].
  refine (deployments_exclusive (H := example_host true) example_config 0 example_watcher
    (mkUState 1900000000 _ ["main"; "main"] [Accepted 1900000000; Accepted 0]) eq_refl eq_refl _).
  eapply star_step; [eapply star_step; [eapply star_step; [apply star_refl|]|]|].
  - eapply (u_acquire _ 0 _ _ _ 7 "main"); [reflexivity|vm_compute; reflexivity].
  - apply (u_tick _ 0 1900000000). lia.
  - eapply (u_acquire _ _ _ _ _ 7 "main"); [reflexivity|vm_compute; reflexivity].
Defined.

Lemma available_iff_behind_witness :
  let w := observe (H := example_host true) example_config 5 (CheckUpdates "t1") example_watcher in
  commits_behind w = 3 ∧ latest_commit_message w = "Fix the lock" ∧
  update_available w = (0 <? commits_behind w) ∧ 0 ≤ commits_behind w.
Proof.
  cbv zeta. split; [vm_compute; reflexivity|]. split; [vm_compute; reflexivity|].
  apply (available_iff_behind (H := example_host true) example_config 5 "t0" None None
    (mkUState 5 (observe (H := example_host true) example_config 5 (CheckUpdates "t1") example_watcher) [] [])
    eq_refl eq_refl).
  apply star_one. apply u_observe.
Defined.

Lemma update_never_dispatched_witness :
  let '(r, w') := apply_update (H := example_host true) example_config 7 5 "t1" None example_watcher in
  (∃ resp, r = Ret resp ∧ ua_status resp = "applying") ∧ dispatched w' = [] ∧
  (** the same request on another platform reaches the deployer *)
  dispatched (apply_update (H := example_host false) example_config 7 5 "t1" None example_watcher).2 = ["main"].
Proof.
  destruct (apply_update (H := example_host true) example_config 7 5 "t1" None example_watcher)
    as [[resp|e] w'] eqn:E.
  - pose proof (update_never_dispatched (H := example_host true) example_config 7 5 "t1" None
      example_watcher resp w' eq_refl eq_refl E) as (H1 & H2 & _).
    split; [by exists resp|]. split; [exact H2|vm_compute; reflexivity].
  - exfalso. apply (f_equal fst) in E. vm_compute in E. discriminate E.
Defined.

Lemma progress_after_apply_witness :
  let w := (apply_update (H := example_host true) example_config 7 1700000000250000 "t1" None example_watcher).2 in
  ∃ r, (get_deployment_progress (H := example_host true) 1700000061500000 None w).1 = Ret r ∧
    dp_active r = true ∧ dp_operation r = portal_update ∧ dp_current_step r = 1 ∧
    dp_elapsed_seconds r = 61 ∧ dp_last_update r = None.
Proof.
  apply (progress_after_apply (H := example_host true) 7 1700000000250000 1700000061500000 "main" _ None eq_refl);
    [lia|unfold STALE_LOCK_TIMEOUT; lia|reflexivity|vm_compute; reflexivity|vm_compute; reflexivity].
Defined.

Definition example_summary : string :=
  example_json "{'status': 'failed', 'deployed_commit': 'abc', 'duration_seconds': -4, 'summary': 'x'}".

Lemma acknowledge_reads_back_witness :
  let w := initial_watcher "t0" None (Some example_summary) in
  match (get_last_update_summary (H := example_host true)
           (acknowledge_last_update (H := example_host true) w).2).1 with
  | Ret (Some u) => s_acknowledged u = true ∧ s_status u = failed ∧ s_duration_seconds u = 0
  | _ => False
  end.
Proof.
  cbv zeta.
  destruct (acknowledge_reads_back (H := example_host true)
    (initial_watcher "t0" None (Some example_summary)) example_summary
    [("status", JStr "failed"); ("deployed_commit", JStr "abc"); ("duration_seconds", JInt (-4));
     ("summary", JStr "x")]
    {| s_status := failed; s_target_branch := "main"; s_deployed_version := None;
       s_deployed_commit := "abc"; s_deployed_commit_short := "unknown"; s_deployed_at := "";
       s_duration_seconds := 0; s_summary := "x"; s_acknowledged := false |}
    eq_refl eq_refl eq_refl ltac:(vm_compute; reflexivity) eq_refl ltac:(vm_compute; reflexivity)) as [_ E].
  rewrite E. done.
Defined.

(** A summary file that is JSON but not an object is not reported as absent. *)
Lemma summary_list_raises :
  (get_last_update_summary (H := example_host true) (initial_watcher "t0" None (Some "[]"))).1
  = Raise (AttributeError "object has no attribute 'get'").
Proof. vm_compute. reflexivity. Qed.

(** A start time that is no number makes every progress query fail. *)
Lemma lock_nan_raises :
  (get_deployment_progress (H := example_host true) 5 None
    (set_lock (Some (0, "started_at=nan")) example_watcher)).1
  = Raise (ValueError "cannot convert float NaN to integer").
Proof. vm_compute. reflexivity. Qed.

(** An upstream answer without a commit id counts as up to date. *)
Lemma empty_sha_is_current local_sha : local_sha ≠ "unknown" → same_commit local_sha "" = true.
Proof.
  intros H. unfold same_commit. apply String.eqb_neq in H. rewrite H. cbn [negb andb].
  by destruct (String.eqb local_sha ""), local_sha.
Qed.
