(* ===== verification/Changelog.v ===== *)
(** The changelog parser of engine/changelog.py: the four patterns, the line
    loop with its release builder, and the cache by modification time.

    A file's modification time is an integer, a path is its text, and the
    candidates of [resolve_path] are given.  Log messages are not modelled. *)

From S2P Require Import Prelude PyStr PyDict PyRe.
From Stdlib Require Import ZArith Ascii Bool Lia.
From stdpp Require Import base tactics list strings.

Local Open Scope Z_scope.
Local Open Scope py_scope.

(** * The patterns *)

Definition is_v (c : ascii) : bool := Ascii.eqb c "v" || Ascii.eqb c "V".
Definition is_suffix_char (c : ascii) : bool :=
  is_alnum c || Ascii.eqb c "_" || Ascii.eqb c "." || Ascii.eqb c "-".
Definition is_category_char (c : ascii) : bool :=
  is_alnum c || Ascii.eqb c "_" || Ascii.eqb c "-" || Ascii.eqb c " ".
Definition is_bullet (c : ascii) : bool := Ascii.eqb c "*" || Ascii.eqb c "-".

Definition RE_UNRELEASED_HEADER : re :=
  Lit "##" ·· Many is_space 1 ·· Opt (Lit "[") ·· lit_ci "unreleased" ·· Opt (Lit "]") ··
  Many is_space 0 ·· Eol.

Definition RE_VERSION : re :=
  Many is_digit 1 ·· Lit "." ·· Many is_digit 1 ·· Opt (Lit "." ·· Many is_digit 1) ··
  Opt (Lit "-" ·· Many is_suffix_char 1).

Definition digits (n : nat) : re := Nat.iter n (λ r, Cls is_digit ·· r) (Lit "").
Definition RE_DATE : re := digits 4 ·· Lit "-" ·· digits 2 ·· Lit "-" ·· digits 2.

Definition RE_RELEASE_HEADER : re :=
  Lit "##" ·· Many is_space 1 ·· Opt (Lit "[") ·· Opt (Cls is_v) ··
  Group "version" RE_VERSION ·· Opt (Lit "]") ··
  Opt (Many is_space 0 ·· Lit "-" ·· Many is_space 0 ·· Group "date" RE_DATE) ··
  Many is_space 0 ·· Eol.

Definition RE_CATEGORY_HEADER : re :=
  Lit "###" ·· Many is_space 1 ·· Group "category" (Many is_category_char 1) ·· Many is_space 0 ·· Eol.

Definition RE_BULLET_ITEM : re :=
  Many is_space 0 ·· Cls is_bullet ·· Many is_space 1 ·· Group "item" (Many not_line_feed 1) ·· Eol.

(** * Data *)

Record ChangelogCategoryItem := mkCategoryItem { category : string; items : list string }.

Record ChangelogRelease := mkRelease {
  version : string;
  date : option string;
  categories : list ChangelogCategoryItem;
  raw_body : string }.

Record ChangelogResponse := mkResponse {
  current_version : string;
  releases : list ChangelogRelease;
  unreleased : list ChangelogCategoryItem }.

Definition unavailable : string := "Changelog details are currently unavailable on this host.".

Definition _build_fallback_response (v : string) : ChangelogResponse :=
  mkResponse v [mkRelease v None [mkCategoryItem "Information" [unavailable]] unavailable] [].

(** [_ReleaseState]: a dict of categories and the raw lines of the release. *)
Definition categories_of (d : list (string * list string)) : list ChangelogCategoryItem :=
  (λ kv, mkCategoryItem kv.1 kv.2) <$> d.

Record _ReleaseState := mkState {
  st_version : string;
  st_date : option string;
  st_categories : list (string * list string);
  raw_lines : list string }.

Definition build_release (s : _ReleaseState) : option ChangelogRelease :=
  if String.eqb (st_version s) "" then None
  else Some (mkRelease (st_version s) (st_date s) (categories_of (st_categories s))
               (str_strip (str_join (String line_feed "") (raw_lines s)))).

Definition reset (v : string) (d : option string) : _ReleaseState := mkState v d [] [].

(** * The line loop *)

Inductive active : Type := Preamble | Unreleased | Release.

Record Loop := mkLoop {
  l_releases : list ChangelogRelease;
  unreleased_cats : list (string * list string);
  active_section : active;
  current_cat : option string;
  state : _ReleaseState }.

Definition loop_init : Loop := mkLoop [] [] Preamble None (reset "" None).

Definition _flush_active_release (rs : list ChangelogRelease) (s : _ReleaseState) : list ChangelogRelease :=
  match build_release s with Some r => rs ++ [r] | None => rs end.

(** [d.setdefault(k, []).append(x)] *)
Definition dict_append (k x : string) (d : list (string * list string)) : list (string * list string) :=
  dict_set k (default [] (dict_get k d) ++ [x]) d.

Definition matches (r : re) (s : string) : bool := if re_match r s then true else false.

(** [current_cat or default] *)
Definition target_cat (cur : option string) (other : string) : string :=
  match cur with Some (String _ _ as c) => c | _ => other end.

Definition process_line (b : Loop) (line : string) : Loop :=
  let line_str := rstrip_by (λ c, Ascii.eqb c line_feed || Ascii.eqb c carriage_return) line in
  if matches RE_UNRELEASED_HEADER line_str then
    mkLoop (_flush_active_release (l_releases b) (state b)) (unreleased_cats b) Unreleased None (state b)
  else match re_match RE_RELEASE_HEADER line_str with
  | Some m =>
      mkLoop (_flush_active_release (l_releases b) (state b)) (unreleased_cats b) Release None
        (reset (default "" (group "version" m)) (group "date" m))
  | None =>
  match re_match RE_CATEGORY_HEADER line_str with
  | Some m =>
      let cat := str_strip (default "" (group "category" m)) in
      match active_section b with
      | Unreleased =>
          mkLoop (l_releases b) (dict_setdefault cat [] (unreleased_cats b)) Unreleased (Some cat) (state b)
      | Release =>
          mkLoop (l_releases b) (unreleased_cats b) Release (Some cat)
            (mkState (st_version (state b)) (st_date (state b))
               (dict_setdefault cat [] (st_categories (state b))) (raw_lines (state b) ++ [line_str]))
      | Preamble => mkLoop (l_releases b) (unreleased_cats b) Preamble (Some cat) (state b)
      end
  | None =>
  match re_match RE_BULLET_ITEM line_str with
  | Some m =>
      let item_text := str_strip (default "" (group "item" m)) in
      match active_section b with
      | Unreleased =>
          mkLoop (l_releases b) (dict_append (target_cat (current_cat b) "Planned") item_text (unreleased_cats b))
            Unreleased (current_cat b) (state b)
      | Release =>
          mkLoop (l_releases b) (unreleased_cats b) Release (current_cat b)
            (mkState (st_version (state b)) (st_date (state b))
               (dict_append (target_cat (current_cat b) "Other") item_text (st_categories (state b)))
               (raw_lines (state b) ++ [line_str]))
      | Preamble => b
      end
  | None =>
      match active_section b with
      | Release =>
          if String.eqb (str_strip line_str) "" then b
          else mkLoop (l_releases b) (unreleased_cats b) Release (current_cat b)
                 (mkState (st_version (state b)) (st_date (state b)) (st_categories (state b))
                    (raw_lines (state b) ++ [line_str]))
      | _ => b
      end
  end end end.

Definition _parse_lines (lines : list string) : list ChangelogRelease * list ChangelogCategoryItem :=
  let b := foldl process_line loop_init lines in
  (_flush_active_release (l_releases b) (state b), categories_of (unreleased_cats b)).

(** * The cached parser *)

Record Files := mkFiles {
  is_file : string → bool;
  st_mtime : string → result Z;
  read_text : string → result string }.

Record ChangelogParser := mkParser {
  custom_path : option string;
  _cached : option (string * Z * ChangelogResponse) }.

Section parser.
(** [APP_VERSION], and the candidates relative to the module, the fixed ones and the working directory. *)
Context (APP_VERSION : string) (candidates : list string) (first_candidate : string).

Definition resolve_path (h : Files) (custom : option string) (repo_root : option string) : string :=
  match custom, repo_root with
  | Some p, _ => p
  | None, Some r => (r +:+ "/CHANGELOG.md")%string
  | None, None => default first_candidate (List.find (is_file h) (first_candidate :: candidates))
  end.

Definition _read_and_parse (h : Files) (p : string)
    : result (option (list ChangelogRelease * list ChangelogCategoryItem)) :=
  match read_text h p with
  | Ret raw_text =>
      let '(rs, un) := _parse_lines (splitlines raw_text) in
      match rs with [] => Ret None | _ => Ret (Some (rs, un)) end
  | Raise e =>
      if is_oserror e || match e with UnicodeDecodeError | ValueError _ => true | _ => false end
      then Ret None else Raise e
  end.

Definition parse (h : Files) (repo_root : option string) : PyM ChangelogParser ChangelogResponse :=
  s <- py_get;;
  let target := resolve_path h (custom_path s) repo_root in
  if negb (is_file h target) then py_ret (_build_fallback_response APP_VERSION)
  else match st_mtime h target with
  | Raise e => if is_oserror e then py_ret (_build_fallback_response APP_VERSION) else py_raise e
  | Ret mtime =>
      let fresh :=
        match _read_and_parse h target with
        | Raise e => py_raise e
        | Ret None => py_ret (_build_fallback_response APP_VERSION)
        | Ret (Some (rs, un)) =>
            let response := mkResponse APP_VERSION rs un in
            py_modify (λ s, mkParser (custom_path s) (Some (target, mtime, response)));;;
            py_ret response
        end in
      match _cached s with
      | Some (p, m, response) =>
          if String.eqb p target && (m =? mtime) then py_ret response else fresh
      | None => fresh
      end
  end.
End parser.

(** * A reference: the sections of a changelog *)

Inductive header : Type :=
  | HUnreleased
  | HRelease (v : string) (d : option string).

Definition strip_end (line : string) : string :=
  rstrip_by (λ c, Ascii.eqb c line_feed || Ascii.eqb c carriage_return) line.

Definition header_of (line : string) : option header :=
  if matches RE_UNRELEASED_HEADER (strip_end line) then Some HUnreleased
  else m ← re_match RE_RELEASE_HEADER (strip_end line);
       Some (HRelease (default "" (group "version" m)) (group "date" m)).

(** The lines before the first header, and each header with the lines under it. *)
Fixpoint sections (lines : list string) : list string * list (header * list string) :=
  match lines with
  | [] => ([], [])
  | l :: ls =>
      let '(body, secs) := sections ls in
      match header_of l with
      | Some h => ([], (h, body) :: secs)
      | None => (l :: body, secs)
      end
  end.

(** The items of a section's lines under their categories. *)
Definition add_entry (other : string) (b : option string * list (string * list string)) (line : string)
    : option string * list (string * list string) :=
  match re_match RE_CATEGORY_HEADER (strip_end line) with
  | Some m => let cat := str_strip (default "" (group "category" m)) in (Some cat, dict_setdefault cat [] b.2)
  | None =>
      match re_match RE_BULLET_ITEM (strip_end line) with
      | Some m => (b.1, dict_append (target_cat b.1 other) (str_strip (default "" (group "item" m))) b.2)
      | None => b
      end
  end.
Definition entries (other : string) (d : list (string * list string)) (body : list string)
    : list (string * list string) := (foldl (add_entry other) (None, d) body).2.

Definition text_lines (body : list string) : list string :=
  List.filter (λ l, negb (String.eqb (str_strip l) "")) (strip_end <$> body).

Definition release_of (v : string) (d : option string) (body : list string) : ChangelogRelease :=
  mkRelease v d (categories_of (entries "Other" [] body))
    (str_strip (str_join (String line_feed "") (text_lines body))).

(** The releases of the sections, and the merged unreleased categories. *)
Definition release_sections (secs : list (header * list string)) : list ChangelogRelease :=
  omap (λ hb, match hb.1 with HRelease v d => Some (release_of v d hb.2) | HUnreleased => None end) secs.
Definition unreleased_sections (secs : list (header * list string)) : list (string * list string) :=
  foldl (λ d hb, match hb.1 with HUnreleased => entries "Planned" d hb.2 | HRelease _ _ => d end) [] secs.

Definition is_release (h : header) : bool := match h with HRelease _ _ => true | HUnreleased => false end.

(** No unreleased section comes after a release. *)
Fixpoint unreleased_first (secs : list (header * list string)) : bool :=
  match secs with
  | [] => true
  | (HUnreleased, _) :: secs' => unreleased_first secs'
  | (HRelease _ _, _) :: secs' => forallb (λ hb, is_release hb.1) secs'
  end.

(** What the loop emits: the builder's release is flushed at every header and at
    the end, and an unreleased header does not clear the builder. *)
Fixpoint emitted (pending : list ChangelogRelease) (secs : list (header * list string)) : list ChangelogRelease :=
  match secs with
  | [] => pending
  | (HUnreleased, _) :: secs' => pending ++ emitted pending secs'
  | (HRelease v d, body) :: secs' => pending ++ emitted [release_of v d body] secs'
  end.

(** * Examples *)

Definition sample : list string :=
  ["# Changelog"; "## [Unreleased]"; "- soon"; "## [0.2.0] - 2026-01-02"; "### Fixed"; "- a bug";
   "## v0.1 "; "text"].

Example parse_sample :
  _parse_lines sample =
  ([mkRelease "0.2.0" (Some "2026-01-02") [mkCategoryItem "Fixed" ["a bug"]]
      ("### Fixed" +:+ String line_feed "- a bug");
    mkRelease "0.1" None [] "text"], [mkCategoryItem "Planned" ["soon"]]).
Proof. vm_compute. reflexivity. Qed.

(** * Lemmas: the lines *)

Lemma header_of_release line m :
  re_match RE_RELEASE_HEADER line = Some m → default "" (group "version" m) ≠ "".
Proof.
  intros (s' & H)%re_match_sound. unfold RE_RELEASE_HEADER in H.
  repeat match type of H with
  | derives (Seq (Group _ _) _) _ _ _ _ => fail 1
  | derives (Seq _ _) _ _ _ _ => inversion H as [| | |? ? ? ? ? ? ? ? _ H'| | | | | |]; subst; clear H; rename H' into H
  end.
  apply group_nonempty in H as (v & -> & Hv); [done|vm_compute; intros Hn; by inversion Hn as [|? ? ? Hn']; subst; inversion Hn'|cbn; lia].
Qed.

Lemma flush_release rs v d cats raw :
  v ≠ "" →
  _flush_active_release rs (mkState v d cats raw) =
  rs ++ [mkRelease v d (categories_of cats) (str_strip (str_join (String line_feed "") raw))].
Proof. intros Hv. unfold _flush_active_release, build_release. cbn. by destruct (String.eqb_spec v ""). Qed.

(** A category or bullet line is not blank. *)
Lemma str_strip_blank s : str_strip s = "" → str_all is_space s = true.
Proof.
  unfold str_strip, strip_by. induction s as [|c s IH]; [done|]. cbn [lstrip_by str_all].
  destruct (is_space c) eqn:Hc; [by intros H%IH|]. cbn [rstrip_by].
  rewrite Hc. by destruct (rstrip_by is_space s).
Qed.

Lemma category_not_blank s m : re_match RE_CATEGORY_HEADER s = Some m → String.eqb (str_strip s) "" = false.
Proof.
  intros H. destruct (String.eqb_spec (str_strip s) "") as [Hs|]; [|done]. exfalso.
  apply str_strip_blank in Hs. revert H. unfold re_match, RE_CATEGORY_HEADER. cbn [rmatch].
  destruct s as [|c s]; [done|]. cbn [str_strip_prefix].
  destruct (Ascii.eqb_spec "#" c) as [<-|]; [by cbn in Hs|done].
Qed.

Lemma bullet_not_blank s m : re_match RE_BULLET_ITEM s = Some m → String.eqb (str_strip s) "" = false.
Proof.
  intros H. destruct (String.eqb_spec (str_strip s) "") as [Hs|]; [|done]. exfalso.
  apply str_strip_blank in Hs. revert H. unfold re_match, RE_BULLET_ITEM. cbn [rmatch].
  rewrite many_all_space; [done|done|]. intros [|c s'] Hs'; [done|].
  cbn [str_all] in Hs'. apply andb_prop in Hs' as [Hc _].
  destruct (is_bullet c) eqn:Hb; [|done]. unfold is_bullet in Hb.
  destruct (Ascii.eqb_spec c "*") as [->|]; [done|]. cbn in Hb.
  by apply Ascii.eqb_eq in Hb as ->.
Qed.

(** A line under a header, by section. *)
Definition body_line (line : string) : Prop := header_of line = None.

Lemma body_line_inv line :
  body_line line →
  matches RE_UNRELEASED_HEADER (strip_end line) = false ∧ re_match RE_RELEASE_HEADER (strip_end line) = None.
Proof.
  unfold body_line, header_of. destruct (matches _ _); [done|].
  by destruct (re_match RE_RELEASE_HEADER (strip_end line)).
Qed.

Lemma process_unreleased rs d cur st line :
  body_line line →
  process_line (mkLoop rs d Unreleased cur st) line =
  let b := add_entry "Planned" (cur, d) line in mkLoop rs b.2 Unreleased b.1 st.
Proof.
  intros [Hu Hr]%body_line_inv. unfold process_line, add_entry, strip_end in *. cbv zeta.
  rewrite Hu, Hr. by repeat case_match.
Qed.

Lemma process_preamble rs d cur st line :
  body_line line →
  ∃ cur', process_line (mkLoop rs d Preamble cur st) line = mkLoop rs d Preamble cur' st.
Proof.
  intros [Hu Hr]%body_line_inv. unfold process_line, strip_end in *. cbv zeta.
  rewrite Hu, Hr. repeat case_match; cbn in *; try done; by eexists.
Qed.

Lemma process_release rs u cur v dt d raw line :
  body_line line →
  process_line (mkLoop rs u Release cur (mkState v dt d raw)) line =
  let b := add_entry "Other" (cur, d) line in
  mkLoop rs u Release b.1 (mkState v dt b.2 (raw ++ text_lines [line])).
Proof.
  intros [Hu Hr]%body_line_inv. unfold text_lines. cbn [fmap list_fmap List.filter].
  unfold process_line, add_entry. cbv zeta. fold (strip_end line).
  rewrite Hu, Hr.
  destruct (re_match RE_CATEGORY_HEADER _) as [m|] eqn:E; [by rewrite (category_not_blank _ _ E)|].
  destruct (re_match RE_BULLET_ITEM _) as [m|] eqn:E'; [by rewrite (bullet_not_blank _ _ E')|].
  cbn. destruct (String.eqb _ ""); cbn; [by rewrite app_nil_r|done].
Qed.

(** * Lemmas: the sections *)

Lemma fold_unreleased rs d cur st body :
  Forall body_line body →
  foldl process_line (mkLoop rs d Unreleased cur st) body =
  let b := foldl (add_entry "Planned") (cur, d) body in mkLoop rs b.2 Unreleased b.1 st.
Proof.
  intros H. revert d cur. induction H as [|l body Hl _ IH]; intros d cur; [done|].
  cbn [foldl]. rewrite process_unreleased by done. cbv zeta.
  destruct (add_entry "Planned" (cur, d) l) as [cur' d']. apply IH.
Qed.

Lemma fold_preamble rs d cur st body :
  Forall body_line body →
  ∃ cur', foldl process_line (mkLoop rs d Preamble cur st) body = mkLoop rs d Preamble cur' st.
Proof.
  intros H. revert cur. induction H as [|l body Hl _ IH]; intros cur; [by eexists|].
  cbn [foldl]. destruct (process_preamble rs d cur st l Hl) as [cur' ->]. apply IH.
Qed.

Lemma fold_release rs u cur v dt d raw body :
  Forall body_line body →
  foldl process_line (mkLoop rs u Release cur (mkState v dt d raw)) body =
  let b := foldl (add_entry "Other") (cur, d) body in
  mkLoop rs u Release b.1 (mkState v dt b.2 (raw ++ text_lines body)).
Proof.
  intros H. revert d cur raw. induction H as [|l body Hl _ IH]; intros d cur raw.
  - cbn. by rewrite app_nil_r.
  - cbn [foldl]. rewrite process_release by done. cbv zeta.
    destruct (add_entry "Other" (cur, d) l) as [cur' d']. cbn [fst snd]. rewrite IH. cbv zeta.
    rewrite <-app_assoc. do 3 f_equal. unfold text_lines. cbn [fmap list_fmap List.filter app].
    by destruct (negb _).
Qed.

(** The loop on a section: its header, then its lines. *)
Definition enter (h : header) (b : Loop) : Loop :=
  let rs := _flush_active_release (l_releases b) (state b) in
  match h with
  | HUnreleased => mkLoop rs (unreleased_cats b) Unreleased None (state b)
  | HRelease v d => mkLoop rs (unreleased_cats b) Release None (reset v d)
  end.
Definition run_section (b : Loop) (hb : header * list string) : Loop :=
  foldl process_line (enter hb.1 b) hb.2.

Lemma process_header b line h : header_of line = Some h → process_line b line = enter h b.
Proof.
  unfold header_of, process_line, strip_end. cbv zeta.
  destruct (matches _ _); [by intros [= <-]|].
  destruct (re_match RE_RELEASE_HEADER _) as [m|]; [by intros [= <-]|done].
Qed.

Lemma header_version line v d : header_of line = Some (HRelease v d) → v ≠ "".
Proof.
  unfold header_of. destruct (matches _ _); [done|].
  destruct (re_match RE_RELEASE_HEADER _) as [m|] eqn:E; [|done].
  intros [= <- _]. by eapply header_of_release.
Qed.

(** What [sections] returns: lines without headers under headers with versions. *)
Definition section_ok (hb : header * list string) : Prop :=
  Forall body_line hb.2 ∧ match hb.1 with HRelease v _ => v ≠ "" | HUnreleased => True end.

Lemma sections_ok lines :
  let '(body, secs) := sections lines in
  Forall body_line body ∧ Forall section_ok secs ∧
  ∀ b, foldl process_line b lines = foldl run_section (foldl process_line b body) secs.
Proof.
  induction lines as [|l lines IH]; cbn [sections]; [by repeat constructor|].
  destruct (sections lines) as [body secs]. destruct IH as (Hb & Hs & Hf).
  destruct (header_of l) as [h|] eqn:E; (split; [by constructor|split]).
  - constructor; [|done]. split; [done|]. cbn. destruct h; [done|]. by eapply header_version.
  - intros b. cbn [foldl]. rewrite (process_header b l h E), Hf. done.
  - done.
  - intros b. cbn [foldl]. apply Hf.
Qed.

(** The loop's result, from a state whose builder holds [pending]. *)
Definition finish (b : Loop) : list ChangelogRelease * list (string * list string) :=
  (_flush_active_release (l_releases b) (state b), unreleased_cats b).

Lemma run_sections secs b pending :
  Forall section_ok secs →
  (∀ rs, _flush_active_release rs (state b) = rs ++ pending) →
  finish (foldl run_section b secs) =
  (l_releases b ++ emitted pending secs,
   foldl (λ d hb, match hb.1 with HUnreleased => entries "Planned" d hb.2 | HRelease _ _ => d end)
     (unreleased_cats b) secs).
Proof.
  intros H. revert b pending. induction H as [|[h body] secs [Hb Hh] _ IH]; intros b pending Hp.
  { unfold finish. cbn. by rewrite Hp. }
  cbn [foldl fst snd]. destruct h as [|v d]; cbn [fst snd] in *.
  - unfold run_section at 2. cbn [enter fst snd]. rewrite fold_unreleased by done. cbv zeta.
    rewrite (IH _ pending) by exact Hp. cbn [l_releases unreleased_cats emitted].
    by rewrite Hp, <-app_assoc.
  - unfold run_section at 2. cbn [enter fst snd]. unfold reset. rewrite fold_release by done. cbv zeta.
    rewrite (IH _ [release_of v d body]).
    + cbn [l_releases unreleased_cats emitted]. by rewrite Hp, <-app_assoc.
    + intros rs. cbn [state]. by rewrite flush_release.
Qed.

Lemma emitted_ordered secs :
  unreleased_first secs = true → emitted [] secs = release_sections secs.
Proof.
  assert (Hall : ∀ p secs, forallb (λ hb : header * list string, is_release hb.1) secs = true →
    emitted p secs = p ++ release_sections secs).
  { intros p ss. revert p. induction ss as [|[[|v d] body] ss IH]; intros p; cbn; [by rewrite app_nil_r|done|].
    intros H. by rewrite IH. }
  induction secs as [|[[|v d] body] secs IH]; cbn; [done|exact IH|].
  intros H. by rewrite Hall.
Qed.

(** The loop on any text: a release is emitted again at each unreleased header
    that follows it before the next release. *)
Lemma parse_lines_emitted lines :
  _parse_lines lines =
  (emitted [] (sections lines).2, categories_of (unreleased_sections (sections lines).2)).
Proof.
  pose proof (sections_ok lines) as H. destruct (sections lines) as [body secs].
  destruct H as (Hb & Hs & Hf). cbn [snd].
  assert (Hrun : finish (foldl process_line loop_init lines) = (emitted [] secs, unreleased_sections secs)).
  { rewrite Hf. unfold loop_init. destruct (fold_preamble [] [] None (reset "" None) body Hb) as [cur' ->].
    rewrite (run_sections secs _ []); [done|done|]. intros rs. by rewrite app_nil_r. }
  unfold finish in Hrun. injection Hrun as H1 H2. unfold _parse_lines. cbv zeta. by rewrite H1, H2.
Qed.

Lemma release_before_unreleased_repeated : 
  (_parse_lines ["## [1.0.0]"; "- a"; "## [Unreleased]"; "- b"]).1 =
  [mkRelease "1.0.0" None [mkCategoryItem "Other" ["a"]] "- a";
   mkRelease "1.0.0" None [mkCategoryItem "Other" ["a"]] "- a"].
Proof. vm_compute. reflexivity. Qed.

(** * The theorems *)

(** C26: For a changelog whose unreleased sections come first, the parser returns
    exactly one release per version header, in the order of the file, each with
    the header's version and date, the items under that header and its text;
    and, wherever they are, the unreleased sections' items are merged by
    category. *)
Theorem parse_lines_sections lines :
  unreleased_first (sections lines).2 = true →
  _parse_lines lines =
  (release_sections (sections lines).2, categories_of (unreleased_sections (sections lines).2)).
Proof. intros H. by rewrite parse_lines_emitted, emitted_ordered. Qed.

Lemma parse_lines_sections_witness :
  unreleased_first (sections sample).2 = true ∧
  _parse_lines sample =
  (release_sections (sections sample).2, categories_of (unreleased_sections (sections sample).2)).
Proof.
  split; [vm_compute; reflexivity|]. apply (parse_lines_sections sample). vm_compute. reflexivity.
Defined.

(** * The cache *)

Section cache.
Context (APP_VERSION : string) (candidates : list string) (first_candidate : string).
Notation parse := (parse APP_VERSION candidates first_candidate).
Notation resolve_path := (resolve_path candidates first_candidate).

(** The answers of one parser to a sequence of requests, each on the files of its moment. *)
Fixpoint parse_all (s : ChangelogParser) (calls : list (Files * option string)) : list (result ChangelogResponse) :=
  match calls with
  | [] => []
  | (h, root) :: calls' => let '(r, s') := parse h root s in r :: parse_all s' calls'
  end.

(** Without the cache. *)
Definition parse_fresh (custom : option string) (call : Files * option string) : result ChangelogResponse :=
  (parse call.1 call.2 (mkParser custom None)).1.

(** The cache holds what the file with its time parses to. *)
Definition cache_ok (content : string → Z → result string) (s : ChangelogParser) : Prop :=
  ∀ p m response, _cached s = Some (p, m, response) →
  ∃ rs un t, content p m = Ret t ∧ _parse_lines (splitlines t) = (rs, un) ∧ rs ≠ [] ∧
    response = mkResponse APP_VERSION rs un.

Definition consistent (content : string → Z → result string) (h : Files) : Prop :=
  ∀ p m, st_mtime h p = Ret m → read_text h p = content p m.

Lemma parse_step content h root s :
  consistent content h → cache_ok content s →
  (parse h root s).1 = parse_fresh (custom_path s) (h, root) ∧
  cache_ok content (parse h root s).2 ∧ custom_path (parse h root s).2 = custom_path s.
Proof.
  intros Hc Hs. unfold parse_fresh. cbn [fst snd]. unfold Changelog.parse, py_bind, py_get.
  cbn [custom_path _cached]. set (target := resolve_path h (custom_path s) root).
  destruct (negb (is_file h target)); [by auto|].
  destruct (st_mtime h target) as [m|e] eqn:Em; [|by destruct (is_oserror e)].
  specialize (Hc _ _ Em). unfold _read_and_parse. rewrite Hc.
  set (fresh := match _ with Ret _ => _ | Raise _ => _ end).
  assert (Hfresh : ∀ c, (fresh s).1 = (fresh (mkParser (custom_path s) c)).1 ∧ cache_ok content (fresh s).2 ∧
    custom_path (fresh s).2 = custom_path s).
  { intros c. subst fresh. destruct (content target m) as [t|e] eqn:Et; [|by destruct (_ || _)].
    destruct (_parse_lines (splitlines t)) as [rs un] eqn:E. destruct rs as [|r rs]; [by auto|].
    split; [done|split; [|done]]. intros p m' resp [= <- <- <-]. exists (r :: rs), un, t. auto. }
  destruct (_cached s) as [[[p m'] resp]|] eqn:Ecache; [|apply Hfresh].
  destruct (String.eqb_spec p target) as [->|]; [|apply Hfresh].
  destruct (Z.eqb_spec m' m) as [->|]; [|apply Hfresh]. cbn [andb].
  split; [|by auto]. destruct (Hs _ _ _ Ecache) as (rs & un & t & Ht & Ep & Hrs & ->).
  subst fresh. rewrite Ht, Ep. by destruct rs.
Qed.

(** One parser's answers to any sequence of requests are those of parsers
    without a cache, as long as a file keeps its text while it keeps its
    modification time. *)
Theorem parse_cached_exact (content : string → Z → result string) s calls :
  Forall (λ call, consistent content call.1) calls → cache_ok content s →
  parse_all s calls = parse_fresh (custom_path s) <$> calls.
Proof.
  intros H. revert s. induction H as [|[h root] calls Hc _ IH]; intros s Hs; [done|].
  cbn [parse_all fmap list_fmap]. destruct (parse_step content h root s Hc Hs) as (Hr & Hok & Hcp).
  destruct (parse h root s) as [r s']. cbn [fst snd] in *. rewrite (IH s' Hok), Hr, Hcp. done.
Qed.
End cache.

Definition example_files (t : Z) (text : string) : Files :=
  mkFiles (λ p, String.eqb p "CHANGELOG.md") (λ _, Ret t) (λ _, Ret text).
Definition example_text (m : Z) : string := if m =? 1 then "## 1.0" else "## 2.0".

Lemma parse_cached_exact_witness :
  (parse_all "9" [] "x" (mkParser (Some "CHANGELOG.md") None)
     ((λ m, (example_files m (example_text m), None)) <$> [1; 1; 2]))
  = parse_fresh "9" [] "x" (Some "CHANGELOG.md") <$>
     ((λ m, (example_files m (example_text m), None)) <$> [1; 1; 2]) ∧
  (parse_fresh "9" [] "x" (Some "CHANGELOG.md") (example_files 1 (example_text 1), None)) =
   Ret (mkResponse "9" [mkRelease "1.0" None [] ""] []).
Proof.
  split; [|vm_compute; reflexivity].
  apply (parse_cached_exact "9" [] "x" (λ _ m, Ret (example_text m)) (mkParser (Some "CHANGELOG.md") None)).
  - repeat constructor; intros p m [= <-]; reflexivity.
  - intros p m r [=].
Defined.
