(* ===== verification/Tracker.v ===== *)
(** Community tracker of monitoring/tracker.py: the Steam A2S query and its
    packet parser, the directory listing, the network alignment and the parts of
    the telemetry matrix that hold logic.

    A packet is a list of byte values, the network a stream of answers, and clock
    readings count tenths of a millisecond.  [TimeoutError] and the errors of
    address resolution are subclasses of [OSError] and are represented by it. *)

From S2P Require Import Prelude PyStr PyDict PyJson.
From Stdlib Require Import ZArith Ascii Bool Lia.
From stdpp Require Import base tactics list strings.

Local Open Scope Z_scope.
Local Open Scope py_scope.

(** * The A2S_INFO answer *)

Record SteamA2SInfo := mkA2S {
  responsive : bool;
  ping_ms : option Z;
  server_name : string;
  map_name : string;
  folder : string;
  game : string;
  query_port : Z;
  players : Z;
  max_players : Z }.

Definition a2s_fallback (port : Z) : SteamA2SInfo := mkA2S false None "" "" "" "" port 0 32.

Definition A2S_PREFIX : list Z := [255; 255; 255; 255].
Definition A2S_INFO_REQUEST : list Z :=
  A2S_PREFIX ++ [84] ++ bytes_of "Source Engine Query" ++ [0].

(** [data.find(b, offset)], [None] for -1. *)
Fixpoint index_of (b : Z) (l : list Z) : option nat :=
  match l with
  | [] => None
  | c :: l' => if c =? b then Some O else S <$> index_of b l'
  end.
Definition find (data : list Z) (b : Z) (offset : nat) : option nat :=
  (λ i, (offset + i)%nat) <$> index_of b (drop offset data).

(** [data[i:j].decode('utf-8', errors='replace')] *)
Definition decode_slice (data : list Z) (i j : nat) : string :=
  string_of_bytes (utf8_replace (take (j - i) (drop i data))).

(** Up to [n] NUL-terminated fields from [offset], and the offset after them. *)
Fixpoint read_fields (n : nat) (data : list Z) (offset : nat) : list string * nat :=
  match n with
  | O => ([], offset)
  | S n' =>
      match find data 0 offset with
      | None => ([], offset)
      | Some null_pos =>
          let '(fields, offset') := read_fields n' data (S null_pos) in
          (decode_slice data offset null_pos :: fields, offset')
      end
  end.

(** [fields[i] if len(fields) > i else other] *)
Definition field (fields : list string) (i : nat) (other : string) : string := nth i fields other.

Definition parse_a2s_packet {S} (data : list Z) (latency_ms : option Z) (port : Z) : PyM S SteamA2SInfo :=
  if (length data <? 6)%nat || negb (bool_decide (take 4 data = A2S_PREFIX)) then py_ret (a2s_fallback port)
  else
    kind <- lift (py_index data 4) ;;
    if negb (kind =? 73) then py_ret (a2s_fallback port)
    else
      let '(fields, offset) := read_fields 4 data 6 in
      counts <- (if (offset + 4 <=? length data)%nat then
                   p <- lift (py_index data (Z.of_nat offset + 2)) ;;
                   m <- lift (py_index data (Z.of_nat offset + 3)) ;;
                   py_ret (p, m)
                 else py_ret (0, 32)) ;;
      py_ret (mkA2S true latency_ms (field fields 0 "Palworld Dedicated Server")
                (field fields 1 "Pal/Maps/World") (field fields 2 "Pal") (field fields 3 "Palworld")
                port counts.1 counts.2).

(** * The query over UDP *)

(** What the sockets answer: whether a send fails, the datagrams or errors of the
    receives (a time-out when there are none left), the readings of the clock. *)
Record Net := mkNet {
  send_fails : list bool;
  incoming : list (result (list Z));
  clock : list Z;
  sent : list (string * Z * list Z) }.

Definition perf_counter : PyM Net Z :=
  λ n, match clock n with
       | [] => (Ret 0, n)
       | t :: ts => (Ret t, mkNet (send_fails n) (incoming n) ts (sent n))
       end.

(** [sock.sendto(data, (ip, port))] *)
Definition sendto (data : list Z) (ip : string) (port : Z) : PyM Net unit :=
  if (port <? 0) || (65535 <? port) then py_raise OverflowError
  else λ n, match send_fails n with
       | true :: es => (Raise OSError, mkNet es (incoming n) (clock n) (sent n))
       | es => (Ret tt, mkNet (tail es) (incoming n) (clock n) (sent n ++ [(ip, port, data)]))
       end.

(** [sock.recvfrom(2048)] *)
Definition recvfrom : PyM Net (list Z) :=
  λ n, match incoming n with
       | [] => (Raise OSError, n)
       | Ret d :: rest => (Ret (take 2048 d), mkNet (send_fails n) rest (clock n) (sent n))
       | Raise _ :: rest => (Raise OSError, mkNet (send_fails n) rest (clock n) (sent n))
       end.

Definition exchange (data : list Z) (ip : string) (port : Z) : PyM Net (list Z * Z) :=
  t0 <- perf_counter ;;
  sendto data ip port ;;;
  resp_data <- recvfrom ;;
  t1 <- perf_counter ;;
  py_ret (resp_data, t1 - t0).

Definition _execute_a2s_socket_query (ip : string) (port : Z) : PyM Net (option SteamA2SInfo) :=
  py_try
    (first <- exchange A2S_INFO_REQUEST ip port ;;
     final <- (if (9 <=? length first.1)%nat then
                 kind <- lift (py_index first.1 4) ;;
                 if kind =? 65
                 then exchange (A2S_INFO_REQUEST ++ take 4 (drop 5 first.1)) ip port
                 else py_ret first
               else py_ret first) ;;
     parsed <- parse_a2s_packet final.1 (Some final.2) port ;;
     py_ret (if responsive parsed then Some parsed else None))
    (λ e, if is_oserror e then py_ret None else py_raise e).

(** * The probe *)

(** [self.a2s] *)
Record A2SState := mkA2SState {
  a_ping_ms : option Z;
  a_responsive : bool;
  a_server_name : option string;
  a_map_name : option string;
  a_players : Z;
  a_max_players : Z;
  a_query_port : Z }.

Definition initial_a2s : A2SState := mkA2SState None false None None 0 32 27015.

Definition target_hosts (host : string) : list string :=
  if negb (String.eqb host "") && negb (String.eqb host "127.0.0.1") && negb (String.eqb host "localhost")
  then ["127.0.0.1"; host] else ["127.0.0.1"].

Definition probed_ports (port : Z) (candidate_ports : list Z) : list Z :=
  foldl (λ acc c, if bool_decide (c ∈ acc) then acc else acc ++ [c]) []
    (match candidate_ports with [] => [port; 27015; 8211] | _ => candidate_ports end).

Fixpoint sweep (targets : list (string * Z)) : PyM Net (option SteamA2SInfo) :=
  match targets with
  | [] => py_ret None
  | (ip, port) :: rest =>
      res <- _execute_a2s_socket_query ip port ;;
      match res with Some r => py_ret (Some r) | None => sweep rest end
  end.

Definition probe_targets (host : string) (port : Z) (candidate_ports : list Z) : list (string * Z) :=
  tip ← target_hosts host; tport ← probed_ports port candidate_ports; [(tip, tport)].

Definition Probe : Type := A2SState * Net.

(** A call that only uses the network. *)
Definition on_net {A} (m : PyM Net A) : PyM Probe A :=
  λ s, let '(r, n) := m s.2 in (r, (s.1, n)).
Definition set_a2s (f : A2SState → A2SState) : PyM Probe unit := py_modify (λ s, (f s.1, s.2)).

Definition unreachable (a : A2SState) : A2SState :=
  mkA2SState None false (a_server_name a) (a_map_name a) (a_players a) (a_max_players a) (a_query_port a).

Definition record_answer (r : SteamA2SInfo) (a : A2SState) : A2SState :=
  mkA2SState (ping_ms r) true
    (if String.eqb (server_name r) "" then a_server_name a else Some (server_name r))
    (if String.eqb (map_name r) "" then a_map_name a else Some (map_name r))
    (players r) (max_players r) (query_port r).

Definition probe_steam_a2s_info (host : string) (port : Z) (candidate_ports : list Z) : PyM Probe SteamA2SInfo :=
  res <- py_try (on_net (sweep (probe_targets host port candidate_ports)))
           (λ e, if is_oserror e || match e with RuntimeError _ | ValueError _ => true | _ => false end
                 then py_ret None else py_raise e) ;;
  match res with
  | Some r => set_a2s (record_answer r) ;;; py_ret r
  | None => set_a2s unreachable ;;; py_ret (a2s_fallback port)
  end.

(** * Packets: lemmas *)

Section packet.
(** The fields of a well-formed answer, and what may follow them. *)
Context (protocol : Z) (name map fold_ game_ : string) (id0 id1 p m : Z) (rest : list Z).

Definition c_string (s : string) : list Z := bytes_of s ++ [0].
Definition a2s_packet : list Z :=
  A2S_PREFIX ++ [73; protocol] ++ c_string name ++ c_string map ++ c_string fold_ ++ c_string game_ ++
  [id0; id1; p; m] ++ rest.
End packet.

(** Text that the protocol can carry: valid UTF-8 without NUL. *)
Definition c_text (s : string) : bool := utf8_valid s && forallb (λ b, negb (b =? 0)) (bytes_of s).

Lemma index_of_zero w post :
  forallb (λ b, negb (b =? 0)) w = true → index_of 0 (w ++ 0 :: post) = Some (length w).
Proof.
  induction w as [|b w IH]; cbn; [done|]. intros [Hb Hw]%andb_prop.
  destruct (b =? 0); [done|]. by rewrite IH.
Qed.

Lemma read_field n pre s post :
  c_text s = true →
  read_fields (S n) (pre ++ c_string s ++ post) (length pre) =
  let '(fields, o) := read_fields n ((pre ++ c_string s) ++ post) (length (pre ++ c_string s)) in
  (s :: fields, o).
Proof.
  intros [Hv Hz]%andb_prop. cbn [read_fields]. unfold find.
  rewrite drop_app_length. unfold c_string at 1. rewrite <-app_assoc. cbn [app].
  rewrite index_of_zero by done. cbn [fmap option_fmap option_map].
  replace (S (length pre + length (bytes_of s))) with (length (pre ++ c_string s))
    by (unfold c_string; rewrite !length_app; cbn; lia).
  rewrite (app_assoc pre). destruct (read_fields n _ _) as [fields o].
  f_equal. f_equal. unfold decode_slice.
  replace (length pre + length (bytes_of s) - length pre)%nat with (length (bytes_of s)) by lia.
  rewrite <-!app_assoc, drop_app_length. unfold c_string. rewrite <-app_assoc, take_app_length.
  unfold utf8_valid in Hv. destruct (utf8_decode (bytes_of s)) as [ps|] eqn:E; [|done].
  rewrite (utf8_replace_valid _ _ E). apply string_of_bytes_of.
Qed.

Lemma py_index_app {A} (l : list A) a r : py_index (l ++ a :: r) (Z.of_nat (length l)) = Ret a.
Proof.
  unfold py_index. destruct (Z.ltb_spec (Z.of_nat (length l)) 0); [lia|].
  rewrite Nat2Z.id, lookup_app_r, Nat.sub_diag by lia. done.
Qed.

(** C33: An answer that carries four texts, the two bytes of the application id
    and the two player counts is parsed into exactly these, whatever follows. *)
Theorem a2s_packet_roundtrip {S} protocol name map fold_ game_ id0 id1 p m rest latency port (s : S) :
  c_text name = true → c_text map = true → c_text fold_ = true → c_text game_ = true →
  parse_a2s_packet (a2s_packet protocol name map fold_ game_ id0 id1 p m rest) latency port s =
  (Ret (mkA2S true latency name map fold_ game_ port p m), s).
Proof.
  intros H1 H2 H3 H4. set (data := a2s_packet _ _ _ _ _ _ _ _ _ _).
  set (pre := A2S_PREFIX ++ [73; protocol]).
  set (fields := (((pre ++ c_string name) ++ c_string map) ++ c_string fold_) ++ c_string game_).
  assert (Hdata : data = fields ++ [id0; id1; p; m] ++ rest).
  { subst data fields pre. unfold a2s_packet. by rewrite <-!app_assoc. }
  assert (Hread : read_fields 4 data 6 = ([name; map; fold_; game_], length fields)).
  { replace data with (pre ++ c_string name ++ c_string map ++ c_string fold_ ++ c_string game_ ++
      [id0; id1; p; m] ++ rest) by (rewrite Hdata; subst fields; by rewrite <-!app_assoc).
    change 6%nat with (length pre). rewrite !read_field by done. done. }
  unfold parse_a2s_packet.
  destruct (Nat.ltb_spec (length data) 6) as [Hl|_].
  { rewrite Hdata in Hl. subst fields pre. rewrite !length_app in Hl. cbn in Hl. lia. }
  change (take 4 data) with A2S_PREFIX. rewrite bool_decide_true by done. cbn [negb orb].
  change (py_index data 4) with (Ret 73). rewrite Hread. cbn [lift].
  destruct (Nat.leb_spec (length fields + 4) (length data)) as [_|Hl].
  2: { rewrite Hdata, length_app in Hl. cbn in Hl. lia. }
  assert (Hi : ∀ k w a r, k = Z.of_nat (length w) → data = (fields ++ w) ++ a :: r →
    py_index data (Z.of_nat (length fields) + k) = Ret a).
  { intros k w a r -> ->. rewrite <-Nat2Z.inj_add, <-length_app. apply py_index_app. }
  rewrite (Hi 2 [id0; id1] p (m :: rest)) by (done || rewrite Hdata, <-app_assoc; done).
  rewrite (Hi 3 [id0; id1; p] m rest) by (done || rewrite Hdata, <-app_assoc; done).
  done.
Qed.

Lemma a2s_packet_roundtrip_witness :
  c_text "Pal" = true ∧
  parse_a2s_packet (a2s_packet 17 "Pal" "Map" "" "Palworld" 1 2 5 32 [0; 100]) (Some 42) 27015 tt =
  (Ret (mkA2S true (Some 42) "Pal" "Map" "" "Palworld" 27015 5 32), tt).
Proof.
  split; [reflexivity|].
  apply (a2s_packet_roundtrip 17 "Pal" "Map" "" "Palworld" 1 2 5 32 [0; 100]); reflexivity.
Defined.

(** * The probe: lemmas *)

Lemma py_index_lt {A} (l : list A) i : 0 ≤ i < Z.of_nat (length l) → ∃ a, py_index l i = Ret a.
Proof.
  intros Hi. unfold py_index. destruct (Z.ltb_spec i 0); [lia|].
  destruct (lookup_lt_is_Some_2 l (Z.to_nat i)) as [a ->]; [lia|]. by eexists.
Qed.

(** The parser returns on every packet, without effects. *)
Lemma parse_total data latency port :
  ∃ r, ∀ S (s : S), parse_a2s_packet data latency port s = (Ret r, s).
Proof.
  unfold parse_a2s_packet. destruct (Nat.ltb_spec (length data) 6); [by eexists|]. cbn [orb].
  destruct (negb _); [by eexists|].
  destruct (py_index_lt data 4) as [kind ->]; [lia|]. cbn [lift].
  destruct (negb (kind =? 73)) eqn:Hk.
  { exists (a2s_fallback port). intros S s. unfold py_bind, py_ret. by rewrite Hk. }
  destruct (read_fields 4 data 6) as [fields offset].
  destruct (Nat.leb_spec (offset + 4) (length data)).
  - destruct (py_index_lt data (Z.of_nat offset + 2)) as [a ->]; [lia|].
    destruct (py_index_lt data (Z.of_nat offset + 3)) as [b ->]; [lia|].
    eexists. intros S s. unfold py_bind, py_ret. rewrite Hk. reflexivity.
  - eexists. intros S s. unfold py_bind, py_ret. rewrite Hk. reflexivity.
Qed.

Section probe.
Context (T : list (string * Z)) (n0 : Net).
Context (HT : Forall (λ t, 0 ≤ t.2 ≤ 65535) T).

Definition query_data (d : list Z) : Prop := ∃ w, d = A2S_INFO_REQUEST ++ w ∧ (length w ≤ 4)%nat.

(** Since [n0], at most [k] queries were sent, all to the targets. *)
Definition since (k : nat) (n : Net) : Prop :=
  (∃ extra, sent n = sent n0 ++ extra ∧ (length extra ≤ k)%nat ∧
     Forall (λ d, d.1 ∈ T ∧ query_data d.2) extra) ∧
  ∃ used, incoming n0 = used ++ incoming n.

Definition received (d : list Z) : Prop := ∃ d0, Ret d0 ∈ incoming n0 ∧ d = take 2048 d0.

Definition answers (r : SteamA2SInfo) : Prop :=
  ∃ d latency port, received d ∧ (∀ S (s : S), parse_a2s_packet d latency port s = (Ret r, s)).

(** The outcome of a call that sends [j] queries at most. *)
Definition ends {A : Type} (k : nat) (φ : A → Prop) (r : result A) (n : Net) : Prop :=
  since k n ∧ match r with Ret a => φ a | Raise e => is_oserror e = true end.

Lemma since_mono k j n : (k ≤ j)%nat → since k n → since j n.
Proof. intros ? [(x & ? & ? & ?) ?]. split; [exists x|done]. auto with lia. Qed.

Lemma perf_counter_spec k : spec (since k) perf_counter (ends k (λ _, True)).
Proof. intros [se inc [|t ts] se'] H; by split. Qed.

Lemma sendto_spec k d ip port :
  (ip, port) ∈ T → query_data d → spec (since k) (sendto d ip port) (ends (S k) (λ _, True)).
Proof.
  intros Ht Hd. unfold sendto. rewrite Forall_forall in HT.
  pose proof (HT _ Ht) as Hp. cbn in Hp.
  replace ((port <? 0) || (65535 <? port)) with false by lia.
  intros [es inc ts s] Hn. assert (Hk : since (S k) (mkNet es inc ts s)) by (by eapply since_mono; [|exact Hn]; lia).
  destruct Hn as [(x & Hs & Hlen & Hx) Hu]. cbn in *.
  assert (since (S k) (mkNet (tail es) inc ts (s ++ [(ip, port, d)]))).
  { split; [|done]. exists (x ++ [(ip, port, d)]). cbn. rewrite Hs, app_assoc, length_app. cbn.
    split_and!; [done|lia|]. apply Forall_app. split; [done|]. by repeat constructor. }
  destruct es as [|[] es]; by split.
Qed.

Lemma recvfrom_spec k : spec (since k) recvfrom (ends k received).
Proof.
  intros [se [|[d|e] inc] ts s] [Hs (used & Hu)]; cbn in *; (split; [split; [done|]|]); try done.
  - by exists used.
  - exists (used ++ [Ret d]). cbn. by rewrite Hu, <-app_assoc.
  - exists d. split; [|done]. rewrite Hu, elem_of_app. right. by left.
  - exists (used ++ [Raise e]). cbn. by rewrite Hu, <-app_assoc.
Qed.

(** Sequencing of calls that end well or with an [OSError]. *)
Lemma ends_bind {A B : Type} k j (φ : A → Prop) (ψ : B → Prop) (m : PyM Net A) (f : A → PyM Net B) i :
  (j ≤ i)%nat → spec (since k) m (ends j φ) → (∀ a, φ a → spec (since j) (f a) (ends i ψ)) →
  spec (since k) (py_bind m f) (ends i ψ).
Proof.
  intros Hji Hm Hf. eapply spec_bind with (Q := λ a n, φ a ∧ since j n).
  - eapply spec_post; [exact Hm|]. intros [a|e] n [Hn Hr]; [done|].
    split; [by eapply since_mono|done].
  - intros a. apply spec_pure. apply Hf.
Qed.

Lemma ends_ret {A : Type} k (φ : A → Prop) a : φ a → spec (since k) (py_ret a) (ends k φ).
Proof. intros H. apply spec_ret. by split. Qed.

Lemma exchange_spec k d ip port :
  (ip, port) ∈ T → query_data d → spec (since k) (exchange d ip port) (ends (S k) (λ a, received a.1)).
Proof.
  intros Ht Hd. unfold exchange.
  eapply ends_bind; [|apply perf_counter_spec|intros t0 _]; [lia|].
  eapply ends_bind; [|by apply sendto_spec|intros _ _]; [lia|].
  eapply ends_bind; [|apply recvfrom_spec|intros r Hr]; [lia|].
  eapply ends_bind; [|apply perf_counter_spec|intros t1 _]; [lia|].
  by apply ends_ret.
Qed.

Definition found (r : option SteamA2SInfo) : Prop :=
  match r with Some i => responsive i = true ∧ answers i | None => True end.

Lemma query_spec k ip port :
  (ip, port) ∈ T → spec (since k) (_execute_a2s_socket_query ip port)
    (λ r n, since (k + 2) n ∧ ∃ i, r = Ret i ∧ found i).
Proof.
  intros Ht. unfold _execute_a2s_socket_query.
  eapply spec_try with (Q := λ e n, is_oserror e = true ∧ since (k + 2) n).
  - eapply spec_post with (Q := ends (k + 2) found).
    2: { intros [a|e] n [Hn Hr]; [|done]. split; [done|]. by exists a. }
    eapply ends_bind with (j := S k); [lia| |].
    { apply exchange_spec; [done|]. exists []. rewrite app_nil_r. split; [done|cbn; lia]. }
    intros first Hfirst. eapply ends_bind with (j := (k + 2)%nat) (φ := λ a, received a.1); [lia| |].
    + destruct (Nat.leb_spec 9 (length first.1)) as [Hl|_].
      * destruct (py_index_lt first.1 4) as [kind ->]; [lia|]. cbn [lift].
        rewrite py_bind_ret. destruct (kind =? 65).
        -- eapply spec_post; [apply exchange_spec; [done|]|].
           { eexists. split; [done|]. rewrite length_take. lia. }
           intros r n [Hn Hr]. split; [|done]. eapply since_mono; [|exact Hn]. lia.
        -- eapply spec_post; [by apply ends_ret|]. intros r n [Hn Hr]. split; [|done].
           eapply since_mono; [|exact Hn]. lia.
      * eapply spec_post; [by apply ends_ret|]. intros r n [Hn Hr]. split; [|done].
        eapply since_mono; [|exact Hn]. lia.
    + intros final Hfinal. destruct (parse_total final.1 (Some final.2) port) as [i Hi].
      intros n Hn. unfold py_bind. rewrite Hi. split; [done|]. cbn.
      destruct (responsive i) eqn:Hr; [|done]. split; [done|]. by eexists _, _, _.
  - intros e. apply spec_pure. intros ->. apply spec_ret. intros n Hn. split; [done|]. by eexists.
Qed.

Lemma sweep_spec k targets :
  (∀ t, t ∈ targets → t ∈ T) → spec (since k) (sweep targets)
    (λ r n, since (k + 2 * length targets) n ∧ ∃ i, r = Ret i ∧ found i).
Proof.
  revert k. induction targets as [|[ip port] ts IH]; intros k Hin; cbn [sweep length].
  - apply spec_ret. intros n Hn. split; [by rewrite Nat.add_0_r|]. by exists None.
  - eapply spec_bind with (Q := λ i n, found i ∧ since (k + 2) n).
    { eapply spec_post; [apply query_spec, Hin; by left|].
      intros r n (Hn & i & -> & Hi). done. }
    intros i. apply spec_pure. intros Hi. destruct i as [r|].
    + apply spec_ret. intros n Hn. split; [eapply since_mono; [|exact Hn]; lia|]. by exists (Some r).
    + eapply spec_post; [apply IH; intros t Ht; apply Hin; by right|].
      intros r n [Hn Hr]. split; [|done]. eapply since_mono; [|exact Hn]. lia.
Qed.
End probe.

(** Whatever the network does, a probe of valid ports returns; it sends at
    most two queries per host and port, and nothing but queries to these; the
    tracker is marked responsive exactly when the result is, and then the result
    is the parse of a datagram that was received. *)
Theorem probe_reports_reachability host port candidate_ports a n :
  let targets := probe_targets host port candidate_ports in
  Forall (λ t, 0 ≤ t.2 ≤ 65535) targets →
  ∃ r a' n', probe_steam_a2s_info host port candidate_ports (a, n) = (Ret r, (a', n')) ∧
    a_responsive a' = responsive r ∧ a_ping_ms a' = ping_ms r ∧
    (responsive r = true → answers n r) ∧
    since targets n (2 * length targets) n'.
Proof.
  intros targets Hp.
  pose proof (sweep_spec targets n Hp 0 targets (λ t H, H) n) as H.
  destruct H as (Hs & i & Hi & Hf).
  { split; [|by exists []]. exists []. by rewrite app_nil_r. }
  unfold probe_steam_a2s_info, py_bind, py_try, on_net. cbn [fst snd]. fold targets.
  destruct (sweep targets n) as [r n']. cbn [fst snd] in *. subst r. destruct i as [r|].
  - destruct Hf as [Hr Ha]. eexists r, _, n'. split; [reflexivity|]. cbn. by rewrite Hr.
  - eexists _, _, n'. split; [reflexivity|]. cbn. done.
Qed.

Definition example_net : Net :=
  mkNet [] [Ret (A2S_PREFIX ++ [65; 1; 2; 3; 4]);
            Ret (a2s_packet 17 "Pal" "Map" "" "Palworld" 1 2 5 32 [])] [0; 10; 20; 62] [].

Lemma probe_reports_reachability_witness :
  Forall (λ t, 0 ≤ t.2 ≤ 65535) (probe_targets "" 27015 []) ∧
  ∃ r a' n', probe_steam_a2s_info "" 27015 [] (initial_a2s, example_net) = (Ret r, (a', n')) ∧
    r = mkA2S true (Some 42) "Pal" "Map" "" "Palworld" 27015 5 32 ∧
    sent n' = [("127.0.0.1", 27015, A2S_INFO_REQUEST); ("127.0.0.1", 27015, A2S_INFO_REQUEST ++ [1; 2; 3; 4])] ∧
    a_responsive a' = responsive r.
Proof.
  assert (H : Forall (λ t, 0 ≤ t.2 ≤ 65535) (probe_targets "" 27015 []))
    by (repeat constructor; vm_compute; intros [=]).
  split; [exact H|].
  destruct (probe_reports_reachability "" 27015 [] initial_a2s example_net H)
    as (r & a' & n' & E & Hr & _). exists r, a', n'. split; [exact E|].
  vm_compute in E. injection E as <- <- <-. split; [reflexivity|split; reflexivity].
Defined.

(** A query port outside the range of UDP ports makes the probe raise. *)
Lemma query_port_out_of_range_raises :
  (probe_steam_a2s_info "" 70000 [] (initial_a2s, mkNet [] [] [] [])).1 = Raise OverflowError.
Proof. reflexivity. Qed.

(** * Identity, directory listing and network alignment *)

(** The domain of the identity: the first configured one, without a port. *)
Definition first_set (names : list (option string)) (other : string) : string :=
  default other (List.find (λ s, negb (String.eqb s "")) (omap id names)).

Definition clean_domain (raw_domain : string) : string :=
  let c := str_strip (hd "" (str_split ":" raw_domain)) in
  if negb (String.eqb c "") && negb (str_contains "." c) && negb (String.eqb c "yourdomain")
  then c +:+ ".duckdns.org" else c.

Definition identity_domain (domain env1 env2 env3 : option string) : string :=
  clean_domain (first_set [domain; env1; env2; env3] "yourdomain.duckdns.org").

(** An answer of an HTTP service: its status and body, or an [httpx.HTTPError]. *)
Definition http_answer : Type := result (Z * string).
Definition is_httperror (e : exc) : bool := match e with HTTPError _ => true | _ => false end.

(** [except httpx.HTTPError]: log and go on. *)
Definition on_httperror {S} (m : PyM S unit) : PyM S unit :=
  py_try m (λ e, if is_httperror e then py_ret tt else py_raise e).

Record Pocketpair := mkPocketpair {
  listed : bool;
  server_id : json;
  pp_name : json;
  pp_version : json;
  last_check : Z }.

Definition set_unlisted (p : Pocketpair) : Pocketpair :=
  mkPocketpair false (JStr "Unlisted") (pp_name p) (pp_version p) (last_check p).
Definition set_last_check (t : Z) (p : Pocketpair) : Pocketpair :=
  mkPocketpair (listed p) (server_id p) (pp_name p) (pp_version p) t.

(** The loop over the directory: the first server whose name contains ours. *)
Fixpoint match_servers (ours : string) (servers : list json) : PyM Pocketpair bool :=
  match servers with
  | [] => py_ret false
  | s :: rest =>
      name <- lift (json_field s "name" (JStr "")) ;;
      match name with
      | JStr s_name =>
          if str_contains (str_lower ours) (str_lower s_name) then
            fallback <- lift (json_field s "id" (JStr "Listed")) ;;
            sid <- lift (json_field s "serverId" fallback) ;;
            version <- lift (json_field s "version" (JStr "Unknown")) ;;
            py_modify (λ p, mkPocketpair true sid (JStr s_name) version (last_check p)) ;;;
            py_ret true
          else match_servers ours rest
      | _ => py_raise (AttributeError "object has no attribute 'lower'")
      end
  end.

Definition probe_pocketpair_master_list (now : Z) (ours : string) (answer : http_answer) : PyM Pocketpair unit :=
  p <- py_get ;;
  if now - last_check p <? 45 then py_ret tt
  else
    on_httperror
      (res <- lift answer ;;
       if res.1 =? 200 then
         data <- lift (json_body res.2) ;;
         servers <- lift (json_field data "servers" (JArr [])) ;;
         l <- lift (json_iter servers) ;;
         matched <- match_servers ours l ;;
         if matched : bool then py_ret tt else py_modify set_unlisted
       else py_ret tt) ;;;
    py_modify (set_last_check now).

(** [self.dns] *)
Record Dns := mkDns { cached_public_ip : json; cached_dns_ip : string }.

Definition is_text (v : json) (t : string) : bool := match v with JStr s => String.eqb s t | _ => false end.

Definition is_aligned (d : Dns) : bool :=
  truthy (cached_public_ip d) && negb (is_text (cached_public_ip d) "Detecting...") &&
  negb (is_text (cached_public_ip d) "Unknown") && negb (String.eqb (cached_dns_ip d) "Unresolved") &&
  is_text (cached_public_ip d) (cached_dns_ip d).

(** The public address from the web service, then the address of the domain. *)
Definition probe_network_alignment (domain : string) (answer : http_answer) (resolved : option string) : PyM Dns bool :=
  on_httperror
    (res <- lift answer ;;
     if res.1 =? 200 then
       data <- lift (json_body res.2) ;;
       ip <- lift (json_field data "ip" (JStr "Unknown")) ;;
       py_modify (λ d, mkDns ip (cached_dns_ip d))
     else py_ret tt) ;;;
  py_modify (λ d, mkDns (cached_public_ip d)
    (if String.eqb domain "" then "Unresolved" else default "Unresolved" resolved)) ;;;
  d <- py_get ;; py_ret (is_aligned d).

(** * The telemetry matrix *)

(** [_build_security_matrix] on the arguments of [get_tracker_telemetry_kwargs]. *)
Record TrackerSettings := mkSettings {
  host_ip : string;
  PublicPort : Z;
  QueryPort : Z;
  ServerPassword : string;
  RCONPort : Z;
  RCONEnabled : bool;
  RESTAPIPort : Z }.

Record SecurityMatrixInfo := mkSecurity {
  is_password_protected : bool;
  server_password : string;
  rcon_port : Z;
  rcon_enabled : bool;
  rcon_advisory : string;
  rest_port : Z;
  sec_max_players : Z;
  sec_current_players : Z;
  slot_capacity_label : string }.

Definition _build_security_matrix (s : TrackerSettings) (current_players max_players : Z) : SecurityMatrixInfo :=
  mkSecurity (negb (String.eqb (ServerPassword s) "")) (ServerPassword s) (RCONPort s) (RCONEnabled s)
    (if RCONEnabled s then "enabled_warn" else "disabled_ok") (RESTAPIPort s) max_players current_players
    (str_of_Z current_players +:+ " / " +:+ str_of_Z max_players +:+ " Tamers").

(** [_build_top_badge]: its label. *)
Definition top_badge_label (is_listed log_registered is_multiplay : bool) (direct_host : string) (port : Z) : string :=
  if is_listed then "Community Listed"
  else if log_registered then "Console Search Ready"
  else if negb is_multiplay then "Private Server"
  else "Direct Connect (" +:+ direct_host +:+ ":" +:+ str_of_Z port +:+ ")".

(** [_build_a2s_telemetry] *)
Definition _build_a2s_telemetry (identity_name : string) (a : A2SState) : SteamA2SInfo :=
  mkA2S (a_responsive a) (a_ping_ms a)
    (match a_server_name a with Some (String _ _ as n) => n | _ => identity_name end)
    (match a_map_name a with Some (String _ _ as n) => n | _ => "Pal/Maps/World" end)
    "Pal" "Palworld" (a_query_port a) (a_players a) (a_max_players a).

(** The endpoint has no parameter for a caller: anyone gets the join password,
    which the configuration pipeline protects. *)
Lemma community_tracker_discloses_password s c m :
  server_password (_build_security_matrix s c m) = ServerPassword s.
Proof. reflexivity. Qed.

Lemma domain_with_scheme : clean_domain "https://my.duckdns.org" = "https.duckdns.org".
Proof. vm_compute. reflexivity. Qed.

(** The directory listing is that of the first matching server, if any. *)
Definition names_match (ours : string) (s : json) : bool :=
  match json_field s "name" (JStr "") with
  | Ret (JStr n) => str_contains (str_lower ours) (str_lower n)
  | _ => false
  end.

Lemma match_servers_found ours servers p :
  Forall (λ s, ∃ n, json_field s "name" (JStr "") = Ret (JStr n)) servers →
  (match_servers ours servers p).1 = Ret (existsb (names_match ours) servers) ∧
  (existsb (names_match ours) servers = true → listed (match_servers ours servers p).2 = true).
Proof.
  induction 1 as [|s servers [n Hn] _ IH]; [by split|].
  cbn [match_servers existsb]. assert (Hm : names_match ours s = str_contains (str_lower ours) (str_lower n))
    by (unfold names_match; by rewrite Hn).
  rewrite Hm, Hn. cbn [lift]. rewrite !py_bind_ret. destruct (str_contains _ _); [|exact IH].
  by destruct s.
Qed.
