(* ===== verification/TextFile.v ===== *)
(** Text files that are saved through a temporary file beside them: the way the
    player ledger and the session cache are written.

    The directory is that of AtomicIO.  Unlike its [atomic_write_file], nothing is
    synced, so these are facts about a crash of the process. *)

From S2P Require Import Prelude PyStr AtomicIO.
From Stdlib Require Import ZArith Ascii Bool.
From stdpp Require Import base tactics list strings gmap.

Local Open Scope Z_scope.
Local Open Scope py_scope.

(** A path by its stem and suffix, and [path.with_suffix('.tmp')]. *)
Definition saved_path (stem suffix : string) : string := stem +:+ suffix.
Definition temp_file (stem : string) : string := stem +:+ ".tmp".

(** [Path.write_text]: opened with truncation, an existing file keeps its mode. *)
Definition sys_truncate (name : string) : PyM World unit :=
  sys_fail ;;;
  w <- py_get ;;
  change (insert name (mkFile "" false (default 420 (f_mode <$> files w !! name)) (now w))).
Definition write_text (name data : string) : PyM World unit := sys_truncate name ;;; sys_write name data.

(** The directory is made, the temporary file written and moved over the target. *)
Definition save_text (stem suffix text : string) : PyM World unit :=
  sys_fail ;;;
  write_text (temp_file stem) text ;;;
  sys_replace (temp_file stem) (saved_path stem suffix).

(** * Lemmas *)

Section saved_file.
Context (stem suffix : string) (Hsuffix : suffix ≠ ".tmp") (text : string) (old : option File).
Notation target := (saved_path stem suffix).
Notation tmp := (temp_file stem).

Definition kept (fs : Dir) : Prop := fs !! target = old.
Definition renewed (fs : Dir) : Prop := f_data <$> fs !! target = Some text.
Definition kept_or_renewed (fs : Dir) : Prop := kept fs ∨ renewed fs.

Lemma str_app_inj (s t u : string) : s +:+ t = s +:+ u → t = u.
Proof. induction s as [|c s IH]; [done|]. rewrite !str_app_cons. intros [= H]. by apply IH. Qed.

Lemma tmp_not_target : tmp ≠ target.
Proof using Hsuffix. intros H. apply str_app_inj in H. by apply Hsuffix. Qed.

Lemma untouched_insert fs f : kept fs → kept (<[tmp := f]> fs).
Proof using Hsuffix.
  intros H. unfold kept. rewrite lookup_insert_ne; [done|exact tmp_not_target].
Qed.

Lemma save_spec :
  spec (always kept kept_or_renewed)
    (save_text stem suffix text)
    (λ r w, match r with
            | Ret _ => always renewed kept_or_renewed w
            | Raise _ => always kept kept_or_renewed w
            end).
Proof using Hsuffix.
  intros [fs os vs c] [Hu Hv]. cbn [files visited] in Hu, Hv.
  unfold save_text, write_text, sys_truncate, sys_write, sys_replace, sys_fail, alter_file, change, draw,
    py_bind, py_modify, py_raise, py_ret, py_get.
  destruct os as [|[[] k] [|[[] k1] [|[[] k2] [|[[] k3] os]]]];
    cbn; rewrite ?lookup_insert_eq; cbn; rewrite ?lookup_insert_eq; cbn;
    rewrite ?lookup_insert_eq; cbn;
    repeat match goal with
    | |- always _ _ _ => split; cbn
    | |- kept (<[tmp := _]> _) => apply untouched_insert
    | |- renewed (<[target := _]> _) => unfold renewed; by rewrite lookup_insert_eq
    | |- Forall _ (<[target := _]> _ :: _) => constructor; [right|]
    | |- Forall _ (_ :: _) => constructor; [left|]
    end; done.
Qed.
End saved_file.


(** When no call fails, the new text is in place. *)
Lemma save_text_calm stem suffix text w :
  oracle w = [] →
  (save_text stem suffix text w).1 = Ret tt ∧
  f_data <$> files (save_text stem suffix text w).2 !! saved_path stem suffix = Some text.
Proof.
  intros Ho. destruct w as [fs os vs c]. cbn in Ho. subst os.
  unfold save_text, write_text, sys_truncate, sys_write, sys_replace, sys_fail, alter_file, change, draw,
    py_bind, py_modify, py_raise, py_ret, py_get. cbn.
  repeat (rewrite lookup_insert_eq; cbn). done.
Qed.
