(* ===== verification/PlayerLedger.v ===== *)
(** The player ledger of monitoring/tracker.py: the roster of every player ever
    seen, merged with the live players of each telemetry cycle and saved as JSON.

    The disk is that of AtomicIO.  Player records are the JSON values the game
    server and the file give, so a record need not have the expected fields. *)

From S2P Require Import Prelude PyStr PyDict PyJson AtomicIO TextFile.
From Stdlib Require Import ZArith Ascii Bool Lia.
From stdpp Require Import base tactics list strings gmap.

Local Open Scope Z_scope.
Local Open Scope py_scope.

(** * The player ledger *)

Section ledger.
(** The text of floats and containers under [str], and the ledger's path
    without its suffix. *)
Context (json_repr : json → string) (stem suffix : string).

Notation ledger_path := (saved_path stem suffix).

(** [self.players_history], which [json.loads] may have made of any text, and the disk. *)
Record Ledger := mkLedger { players_history : json; disk : World }.

Definition on_disk {A} (m : PyM World A) : PyM Ledger A :=
  λ s, let '(r, w) := m (disk s) in (r, mkLedger (players_history s) w).
Definition set_history (h : json) : PyM Ledger unit := py_modify (λ s, mkLedger h (disk s)).

(** [_load_player_ledger]: errors of the file system and of the parser are logged. *)
Definition _load_player_ledger : PyM Ledger unit :=
  s <- py_get ;;
  match files (disk s) !! ledger_path with
  | None => py_ret tt
  | Some _ =>
      text <- on_disk (on_oserror (f <- sys_stat ledger_path ;; py_ret (Some (f_data f))) None) ;;
      match text with
      | None => py_ret tt
      | Some t =>
          if negb (utf8_valid t) then py_raise UnicodeDecodeError
          else match loads t with Some v => set_history v | None => py_ret tt end
      end
  end.

Definition _save_player_ledger : PyM Ledger unit :=
  s <- py_get ;;
  on_disk (on_oserror (save_text stem suffix (dumps_indent 2 (players_history s))) tt).

(** ** Merging the live players *)

(** [d.get(k, v)] and [d[k]] *)
Definition dget (k : string) (v : json) (d : list (string * json)) : json := default v (dict_get k d).
Definition dict_item (k : string) (d : list (string * json)) : result json :=
  match dict_get k d with Some v => Ret v | None => Raise (KeyError k) end.

Definition json_or (a b : json) : json := if truthy a then a else b.

Definition player_id (p : list (string * json)) : string :=
  py_str json_repr
    (json_or (dget "playerId" JNull p) (json_or (dget "userId" JNull p) (JStr "Unknown"))).
Definition player_name (p : list (string * json)) : json :=
  json_or (dget "name" JNull p) (json_or (dget "accountName" JNull p) (JStr "Tamer")).

Definition zero : json := JFloat 0 0.

Definition new_record (now_ts pid : string) (p : list (string * json)) : list (string * json) :=
  [("playerId", JStr pid); ("userId", dget "userId" (JStr "") p); ("name", player_name p);
   ("first_seen", JStr now_ts); ("last_seen", JStr now_ts); ("level", dget "level" (JInt 1) p);
   ("ping", dget "ping" zero p); ("location_x", dget "location_x" zero p);
   ("location_y", dget "location_y" zero p)].

(** [record[k] = p.get(k, record.get(k, v))] *)
Definition refresh_item (p : list (string * json)) (k : string) (v : json) (r : list (string * json)) :=
  dict_set k (dget k (dget k v r) p) r.
Definition refresh_record (now_ts : string) (p r : list (string * json)) : list (string * json) :=
  refresh_item p "location_y" zero
    (refresh_item p "location_x" zero
      (refresh_item p "ping" zero
        (refresh_item p "level" (JInt 1)
          (dict_set "last_seen" (JStr now_ts) (dict_set "name" (player_name p) r))))).

Inductive status : Type := ONLINE | OFFLINE.

Record PlayerRecord := mkPlayer {
  p_playerId : string;
  p_userId : json;
  p_name : json;
  p_level : json;
  p_ping : json;
  p_location_x : json;
  p_location_y : json;
  p_first_seen : json;
  p_last_seen : json;
  p_status : status }.

Definition active_record (now_ts pid : string) (name : json) (r : list (string * json)) : PyM Ledger PlayerRecord :=
  level <- lift (dict_item "level" r) ;;
  ping <- lift (dict_item "ping" r) ;;
  x <- lift (dict_item "location_x" r) ;;
  y <- lift (dict_item "location_y" r) ;;
  first_seen <- lift (dict_item "first_seen" r) ;;
  py_ret (mkPlayer pid (dget "userId" (JStr "") r) name level ping x y first_seen (JStr now_ts) ONLINE).

Definition offline_record (now_ts pid : string) (r : list (string * json)) : PlayerRecord :=
  mkPlayer pid (dget "userId" (JStr "") r) (dget "name" (JStr "Tamer") r) (dget "level" (JInt 1) r)
    zero (dget "location_x" zero r) (dget "location_y" zero r)
    (dget "first_seen" (JStr now_ts) r) (dget "last_seen" (JStr now_ts) r) OFFLINE.

Definition merge_player (now_ts : string) (live : json) : PyM Ledger PlayerRecord :=
  match dict_of live with
  | None => py_raise (AttributeError "object has no attribute 'get'")
  | Some p =>
      let pid := player_id p in
      s <- py_get ;;
      match dict_of (players_history s) with
      | None => py_raise (TypeError "the ledger is not a dict")
      | Some h =>
          match dict_get pid h with
          | None =>
              let r := new_record now_ts pid p in
              set_history (JObj (dict_set pid (JObj r) h)) ;;;
              active_record now_ts pid (player_name p) r
          | Some v =>
              match dict_of v with
              | None => py_raise (TypeError "object does not support item assignment")
              | Some r0 =>
                  let r := refresh_record now_ts p r0 in
                  set_history (JObj (dict_set pid (JObj r) h)) ;;;
                  active_record now_ts pid (player_name p) r
              end
          end
      end
  end.

Fixpoint merge_players (now_ts : string) (live : list json) : PyM Ledger (list PlayerRecord) :=
  match live with
  | [] => py_ret []
  | p :: rest =>
      r <- merge_player now_ts p ;;
      rs <- merge_players now_ts rest ;;
      py_ret (r :: rs)
  end.

Fixpoint offline_records (now_ts : string) (active_ids : list string) (h : list (string * json))
    : result (list PlayerRecord) :=
  match h with
  | [] => Ret []
  | (pid, v) :: h' =>
      if bool_decide (pid ∈ active_ids) then offline_records now_ts active_ids h'
      else match dict_of v with
      | None => Raise (AttributeError "object has no attribute 'get'")
      | Some r =>
          match offline_records now_ts active_ids h' with
          | Ret rs => Ret (offline_record now_ts pid r :: rs)
          | Raise e => Raise e
          end
      end
  end.

Record PlayerLedgerMatrix := mkMatrix {
  active_count : nat;
  total_registered : nat;
  active_players : list PlayerRecord;
  offline_players : list PlayerRecord }.

Definition update_and_get_players (now_ts : string) (live_players_raw : list json) : PyM Ledger PlayerLedgerMatrix :=
  active_list <- merge_players now_ts live_players_raw ;;
  s <- py_get ;;
  match dict_of (players_history s) with
  | None => py_raise (AttributeError "object has no attribute 'items'")
  | Some h =>
      offline_list <- lift (offline_records now_ts (List.map p_playerId active_list) h) ;;
      (match active_list with [] => py_ret tt | _ => _save_player_ledger end) ;;;
      py_ret (mkMatrix (length active_list) (length h) active_list offline_list)
  end.
End ledger.

(** * The ledger: lemmas *)

Lemma dict_of_nodup v d : dict_of v = Some d → NoDup (List.map fst d).
Proof. destruct v; try done. intros [= <-]. apply dict_update_nodup. constructor. Qed.

Lemma dict_of_obj d : NoDup (List.map fst d) → dict_of (JObj d) = Some d.
Proof.
  intros H. cbn [dict_of]. f_equal. by rewrite dict_update_fresh.
Qed.

(** The fields that identify a player and its first visit. *)
Definition lasting : list string := ["playerId"; "userId"; "first_seen"].

Definition keeps_records (h h' : list (string * json)) : Prop :=
  ∀ pid v r, dict_get pid h = Some v → dict_of v = Some r →
  ∃ v' r', dict_get pid h' = Some v' ∧ dict_of v' = Some r' ∧
    Forall (λ k, dict_get k r' = dict_get k r) lasting.

(** [b] is the ledger [a] with players added, in their order of arrival. *)
Definition extends (a b : json) : Prop :=
  match dict_of a with
  | Some h => ∃ h', dict_of b = Some h' ∧ keeps_records h h' ∧ (List.map fst h) `prefix_of` (List.map fst h')
  | None => b = a
  end.

Lemma keeps_records_refl h : keeps_records h h.
Proof. intros pid v r H1 H2. exists v, r. split_and!; [done|done|]. by repeat constructor. Qed.

Lemma extends_refl a : extends a a.
Proof.
  unfold extends. destruct (dict_of a) as [h|] eqn:E; [|done]. exists h.
  split_and!; [done|apply keeps_records_refl|done].
Qed.

Lemma extends_trans a b c : extends a b → extends b c → extends a c.
Proof.
  unfold extends. destruct (dict_of a) as [h1|] eqn:E1; [|by intros ->; rewrite E1].
  intros (h2 & E2 & K12 & P12). rewrite E2. intros (h3 & E3 & K23 & P23).
  exists h3. split_and!; [done| |by etrans]. intros pid v r Hv Hr.
  destruct (K12 _ _ _ Hv Hr) as (v2 & r2 & Hv2 & Hr2 & F2).
  destruct (K23 _ _ _ Hv2 Hr2) as (v3 & r3 & Hv3 & Hr3 & F3).
  exists v3, r3. split_and!; [done|done|]. rewrite Forall_forall in *.
  intros k Hk. by rewrite F3, F2.
Qed.

Lemma dict_set_prefix k (v : json) d : (List.map fst d) `prefix_of` (List.map fst (dict_set k v d)).
Proof.
  rewrite dict_set_keys. case_match; [done|]. by eexists.
Qed.

Lemma refresh_lasting now_ts p r k :
  k ∈ lasting → dict_get k (refresh_record now_ts p r) = dict_get k r.
Proof.
  intros Hk. unfold refresh_record, refresh_item. rewrite !dict_get_set.
  unfold lasting in Hk. repeat rewrite elem_of_cons in Hk. rewrite elem_of_nil in Hk.
  destruct Hk as [->|[->|[->|[]]]]; by repeat case_decide.
Qed.

Lemma refresh_nodup now_ts p r :
  NoDup (List.map fst r) → NoDup (List.map fst (refresh_record now_ts p r)).
Proof. intros H. unfold refresh_record, refresh_item. by repeat apply dict_set_nodup. Qed.

Section ledger_lemmas.
Context (json_repr : json → string) (stem suffix : string).

Lemma active_record_spec now_ts pid name r s :
  ∃ res, active_record now_ts pid name r s = (res, s) ∧
    ∀ p, res = Ret p → p_playerId p = pid ∧ p_status p = ONLINE.
Proof.
  unfold active_record, dict_item.
  destruct (dict_get "level" r), (dict_get "ping" r), (dict_get "location_x" r),
    (dict_get "location_y" r), (dict_get "first_seen" r);
    (eexists; split; [reflexivity|]; intros p [= <-]; done).
Qed.

(** A record put under a new name, or in place of one with the same lasting fields. *)
Lemma keeps_set pid r h :
  NoDup (List.map fst r) →
  match dict_get pid h with
  | Some v => match dict_of v with
              | Some r0 => Forall (λ k, dict_get k r = dict_get k r0) lasting
              | None => False end
  | None => True end →
  keeps_records h (dict_set pid (JObj r) h).
Proof.
  intros Hr H pid' v r' Hv Hr'. rewrite dict_get_set.
  destruct (decide (pid' = pid)) as [->|]; [|by apply (keeps_records_refl h pid' v)].
  rewrite Hv, Hr' in H. exists (JObj r), r. split_and!; [done|by apply dict_of_obj|done].
Qed.

(** What one player's merge does to the ledger, and the entry it returns. *)
Definition merged (live : json) (s : Ledger) (rs : result PlayerRecord * Ledger) : Prop :=
  extends (players_history s) (players_history rs.2) ∧ disk rs.2 = disk s ∧
  match rs.1 with
  | Ret r => ∃ p h, dict_of live = Some p ∧ p_playerId r = player_id json_repr p ∧
      p_status r = ONLINE ∧ dict_of (players_history rs.2) = Some h ∧
      player_id json_repr p ∈ List.map fst h
  | Raise _ => True
  end.

Lemma merged_raise live s e : merged live s (Raise e, s).
Proof. split_and!; [apply extends_refl|done|done]. Qed.

Lemma merge_player_spec now_ts live s : merged live s (merge_player json_repr now_ts live s).
Proof.
  unfold merge_player. destruct (dict_of live) as [p|] eqn:Elive; [|apply merged_raise].
  unfold py_bind at 1. cbn [py_get]. set (pid := player_id json_repr p).
  destruct (dict_of (players_history s)) as [h|] eqn:Eh; [|apply merged_raise].
  assert (Hset : ∀ r, NoDup (List.map fst r) →
    match dict_get pid h with
    | Some v => match dict_of v with
                | Some r0 => Forall (λ k, dict_get k r = dict_get k r0) lasting
                | None => False end
    | None => True end →
    merged live s
      ((set_history (JObj (dict_set pid (JObj r) h)) ;;; active_record now_ts pid (player_name p) r) s)).
  { intros r Hr H. pose proof (dict_of_nodup _ _ Eh) as Hh.
    assert (Hd : dict_of (JObj (dict_set pid (JObj r) h)) = Some (dict_set pid (JObj r) h))
      by (by apply dict_of_obj, dict_set_nodup).
    unfold py_bind, set_history, py_modify.
    destruct (active_record_spec now_ts pid (player_name p) r
      (mkLedger (JObj (dict_set pid (JObj r) h)) (disk s))) as (res & -> & Hres).
    unfold merged. cbn [players_history disk fst snd]. split; [|split; [done|]].
    - unfold extends. rewrite Eh, Hd. exists (dict_set pid (JObj r) h). split; [done|]. split; [exact (keeps_set pid r h Hr H)|apply dict_set_prefix].
    - destruct res as [r'|e]; [|done]. destruct (Hres r' eq_refl) as [Hid Hst].
      exists p, (dict_set pid (JObj r) h). split_and!; try done.
      rewrite dict_set_keys. case_decide; [done|]. apply elem_of_app. right. by left. }
  destruct (dict_get pid h) as [v|] eqn:Ev.
  - destruct (dict_of v) as [r0|] eqn:Er; [|apply merged_raise].
    apply Hset; [by apply refresh_nodup, (dict_of_nodup v)|].
    apply Forall_forall. intros k Hk. by apply refresh_lasting.
  - apply Hset; [|done]. cbn. repeat constructor; set_solver.
Qed.

Definition registered (v : json) (pid : string) : Prop := ∃ h, dict_of v = Some h ∧ pid ∈ List.map fst h.

Lemma registered_extends a b pid : extends a b → registered a pid → registered b pid.
Proof.
  intros He (h & E & Hin). unfold extends in He. rewrite E in He.
  destruct He as (h' & E' & _ & [l Hl]). exists h'. split; [done|].
  rewrite Hl, elem_of_app. by left.
Qed.

Lemma merge_players_spec now_ts live s :
  let '(res, s') := merge_players json_repr now_ts live s in
  extends (players_history s) (players_history s') ∧ disk s' = disk s ∧
  match res with
  | Ret rs => ∃ ps, List.map dict_of live = List.map Some ps ∧
      List.map p_playerId rs = List.map (player_id json_repr) ps ∧
      Forall (λ r, p_status r = ONLINE ∧ registered (players_history s') (p_playerId r)) rs
  | Raise _ => True
  end.
Proof.
  revert s. induction live as [|p live IH]; intros s; cbn [merge_players].
  { split_and!; [apply extends_refl|done|]. by exists []. }
  unfold py_bind at 1. pose proof (merge_player_spec now_ts p s) as H.
  destruct (merge_player json_repr now_ts p s) as [[r|e] s1]; destruct H as (He & Hd & Hr);
    cbn [fst snd] in *; [|done].
  destruct Hr as (d & h & Hp & Hid & Hst & Hh & Hin). specialize (IH s1). unfold py_bind.
  destruct (merge_players json_repr now_ts live s1) as [[rs|e] s2]; destruct IH as (He' & Hd' & Hrs);
    (split_and!; [by eapply extends_trans|congruence|]); [|done].
  destruct Hrs as (ps & Hps & Hids & Hall). exists (d :: ps). cbn [List.map].
  split_and!; [by rewrite Hp, Hps|by rewrite Hid, Hids|]. constructor; [|done].
  split; [done|]. eapply registered_extends; [exact He'|]. exists h. by rewrite Hid.
Qed.

Lemma save_history s : players_history (_save_player_ledger stem suffix s).2 = players_history s.
Proof. unfold _save_player_ledger, py_bind, py_get, on_disk. by destruct (on_oserror _ _ _). Qed.

Lemma update_extends now_ts live s :
  extends (players_history s) (players_history (update_and_get_players json_repr stem suffix now_ts live s).2).
Proof.
  unfold update_and_get_players. unfold py_bind at 1.
  pose proof (merge_players_spec now_ts live s) as H.
  destruct (merge_players json_repr now_ts live s) as [[rs|e] s1]; destruct H as (He & _); [|done].
  unfold py_bind at 1. cbn [py_get]. destruct (dict_of (players_history s1)); [|done].
  unfold lift. destruct (offline_records _ _ _) as [off|e]; [|done].
  rewrite py_bind_ret. destruct rs; [done|]. unfold py_bind.
  pose proof (save_history s1) as Hs. by destruct (_save_player_ledger stem suffix s1) as [[]s2]; cbn in *; rewrite Hs.
Qed.

(** The tracker's calls that change the ledger. *)
Inductive ledger_step : Ledger → Ledger → Prop :=
  | l_update now_ts live s :
      ledger_step s (update_and_get_players json_repr stem suffix now_ts live s).2
  | l_save s : ledger_step s (_save_player_ledger stem suffix s).2.

(** C32: The ledger never forgets: over every sequence of updates with any
    players, whether they return or raise, every player that was registered
    stays registered at the same position, with the same ids and the same first
    visit. *)
Theorem ledger_never_forgets s s' h :
  star ledger_step s s' → dict_of (players_history s) = Some h →
  ∃ h', dict_of (players_history s') = Some h' ∧ keeps_records h h' ∧
    (List.map fst h) `prefix_of` (List.map fst h').
Proof using.
  intros Hstar Hh.
  assert (He : extends (players_history s) (players_history s')).
  { apply (star_invariant ledger_step (λ t, extends (players_history s) (players_history t)) s s');
      [|done|apply extends_refl].
    intros a b Ha Hab. destruct Hab; [eapply extends_trans; [exact Ha|apply update_extends]|].
    by rewrite save_history. }
  unfold extends in He. by rewrite Hh in He.
Qed.

Lemma offline_ids now_ts ids h rs :
  offline_records now_ts ids h = Ret rs →
  List.map p_playerId rs = List.filter (λ pid, negb (bool_decide (pid ∈ ids))) (List.map fst h) ∧
  Forall (λ r, p_status r = OFFLINE) rs.
Proof.
  revert rs. induction h as [|[pid v] h IH]; intros rs; cbn [offline_records List.map fst List.filter].
  { by intros [= <-]. }
  case_bool_decide; cbn [negb]; [apply IH|].
  destruct (dict_of v) as [r|]; [|done]. destruct (offline_records _ _ h) as [rs'|e]; [|done].
  intros [= <-]. destruct (IH _ eq_refl) as [H1 H2]. cbn [List.map]. split; [by rewrite H1|by constructor].
Qed.

(** An update that returns lists the live players in their order as online,
    and exactly the other registered players, once each, as offline; each live
    player is registered afterwards and the total is the size of the ledger. *)
Theorem players_partition now_ts live s m s' :
  update_and_get_players json_repr stem suffix now_ts live s = (Ret m, s') →
  ∃ ps h, List.map dict_of live = List.map Some ps ∧ dict_of (players_history s') = Some h ∧
    List.map p_playerId (active_players m) = List.map (player_id json_repr) ps ∧
    List.map p_playerId (offline_players m) =
      List.filter (λ pid, negb (bool_decide (pid ∈ List.map (player_id json_repr) ps))) (List.map fst h) ∧
    NoDup (List.map fst h) ∧ (∀ pid, pid ∈ List.map (player_id json_repr) ps → pid ∈ List.map fst h) ∧
    active_count m = length live ∧ total_registered m = length h ∧
    Forall (λ r, p_status r = ONLINE) (active_players m) ∧
    Forall (λ r, p_status r = OFFLINE) (offline_players m).
Proof using.
  unfold update_and_get_players. unfold py_bind at 1.
  pose proof (merge_players_spec now_ts live s) as H.
  destruct (merge_players json_repr now_ts live s) as [[rs|e] s1]; destruct H as (_ & _ & H); [|done].
  destruct H as (ps & Hps & Hids & Hall).
  unfold py_bind at 1. cbn [py_get]. destruct (dict_of (players_history s1)) as [h|] eqn:Eh; [|done].
  unfold lift. destruct (offline_records _ _ _) as [off|e] eqn:Eoff; [|done].
  apply offline_ids in Eoff as [Hoff1 Hoff2]. rewrite py_bind_ret. intros Hend.
  assert (players_history s' = players_history s1 ∧ m = mkMatrix (length rs) (length h) rs off) as [Hs' ->].
  { destruct rs as [|r0 rs]; [by injection Hend as <- <-|]. unfold py_bind in Hend.
    pose proof (save_history s1) as Hs. destruct (_save_player_ledger stem suffix s1) as [[u|e] s2]; [|done].
    by injection Hend as <- <-. }
  exists ps, h. cbn [active_players offline_players active_count total_registered]. rewrite Hs', Eh.
  rewrite Forall_forall in Hall. split_and!; try done.
  - by rewrite Hoff1, Hids.
  - by eapply dict_of_nodup.
  - intros pid Hpid. rewrite <-Hids in Hpid. apply list_elem_of_fmap in Hpid as (r & -> & Hr).
    destruct (Hall _ Hr) as (_ & h' & E & Hin). congruence.
  - apply (f_equal length) in Hids, Hps. rewrite !length_map in Hids, Hps. lia.
  - apply Forall_forall. intros r Hr. by apply Hall.
Qed.
End ledger_lemmas.

(** * The ledger's file *)

(** Saving the ledger never raises; whatever fails, at every moment the file
    is the old one or holds the whole new text, and when nothing fails it holds
    the new text. *)
Theorem ledger_file_crash_safe stem suffix s :
  suffix ≠ ".tmp" → visited (disk s) = [] →
  let target := saved_path stem suffix in
  let text := dumps_indent 2 (players_history s) in
  let old := files (disk s) !! target in
  let '(r, s') := _save_player_ledger stem suffix s in
  r = Ret tt ∧ players_history s' = players_history s ∧
  Forall (λ fs, fs !! target = old ∨ f_data <$> fs !! target = Some text)
    (files (disk s') :: visited (disk s')) ∧
  (oracle (disk s) = [] → f_data <$> files (disk s') !! target = Some text).
Proof.
  intros Hs Hv target text old.
  set (m := save_text stem suffix text).
  assert (Hsave : _save_player_ledger stem suffix s =
    (Ret tt, mkLedger (players_history s) (m (disk s)).2)).
  { unfold _save_player_ledger. change (py_bind py_get ?k s) with (k s s). unfold on_disk, on_oserror, py_try.
    fold text target m. by destruct (m (disk s)) as [[[]|e] w]. }
  pose proof (save_spec stem suffix Hs text old (disk s)) as H. fold target m in H.
  specialize (H ltac:(split; [done|rewrite Hv; constructor])).
  rewrite Hsave. destruct (m (disk s)) as [[[]|e] w] eqn:E; cbn [fst snd players_history disk] in *;
    destruct H as [H1 H2].
  - split_and!; [done|done| |done]. constructor; [by right|exact H2].
  - split_and!; [done|done|constructor; [by left|exact H2]|].
    intros Ho. pose proof (save_text_calm stem suffix text (disk s) Ho) as [Hr _].
    fold m in Hr. by rewrite E in Hr.
Qed.

Definition example_repr (v : json) : string := "".
Definition example_world : World :=
  mkWorld {["players_history.json"%string := mkFile "{}" true 420 0]} [] [] 5.
Definition live_player (id name : string) : json := JObj [("playerId", JStr id); ("name", JStr name)].
Definition ledger_after (live : list json) (s : Ledger) : Ledger :=
  (update_and_get_players example_repr "players_history" ".json" "t2" live s).2.
Definition example_ledger : Ledger :=
  (update_and_get_players example_repr "players_history" ".json" "t1" [live_player "a" "Ann"]
     (mkLedger (JObj []) example_world)).2.

Lemma ledger_never_forgets_witness :
  let s' := ledger_after [live_player "b" "Bob"; live_player "a" "Anna"] example_ledger in
  ∃ h h', dict_of (players_history example_ledger) = Some h ∧ dict_of (players_history s') = Some h' ∧
    keeps_records h h' ∧ List.map fst h' = ["a"; "b"].
Proof.
  cbv zeta. destruct (dict_of (players_history example_ledger)) as [h|] eqn:Eh; [|by vm_compute in Eh].
  destruct (ledger_never_forgets example_repr "players_history" ".json" example_ledger
    (ledger_after [live_player "b" "Bob"; live_player "a" "Anna"] example_ledger) h
    (star_step _ _ _ _ (star_refl _ _) (l_update _ _ _ "t2" _ example_ledger)) Eh)
    as (h' & Eh' & Hk & _).
  exists h, h'. split; [done|]. split; [exact Eh'|]. split; [exact Hk|].
  vm_compute in Eh'. injection Eh' as <-. reflexivity.
Defined.

Lemma players_partition_witness :
  ∃ m s', update_and_get_players example_repr "players_history" ".json" "t2" [live_player "b" "Bob"] example_ledger
          = (Ret m, s') ∧
    List.map p_playerId (active_players m) = ["b"] ∧ List.map p_playerId (offline_players m) = ["a"] ∧
    Forall (λ r, p_status r = OFFLINE) (offline_players m).
Proof.
  destruct (update_and_get_players example_repr "players_history" ".json" "t2" [live_player "b" "Bob"] example_ledger)
    as [[m|e] s'] eqn:E; [|by vm_compute in E].
  exists m, s'. split; [done|].
  destruct (players_partition example_repr "players_history" ".json" "t2" [live_player "b" "Bob"] example_ledger m s' E)
    as (_ & _ & _ & _ & _ & _ & _ & _ & _ & _ & _ & Hoff).
  split; [|split; [|exact Hoff]]; vm_compute in E; injection E as <- <-; reflexivity.
Defined.

Lemma ledger_file_crash_safe_witness :
  let s := mkLedger (JObj [("a", JObj [])]) example_world in
  let s' := (_save_player_ledger "players_history" ".json" s).2 in
  f_data <$> files (disk s') !! "players_history.json" = Some (dumps_indent 2 (JObj [("a", JObj [])])).
Proof.
  cbv zeta.
  assert (Hs : ".json"%string ≠ ".tmp") by (intros [=]).
  pose proof (ledger_file_crash_safe "players_history" ".json"
    (mkLedger (JObj [("a", JObj [])]) example_world) Hs eq_refl) as H.
  cbv zeta in H. destruct (_save_player_ledger _ _ _) as [r s']. destruct H as (_ & _ & _ & H).
  exact (H eq_refl).
Defined.

(** ** What the ledger does not survive *)

(** A ledger file with JSON that is not an object is loaded, and every update with a player raises. *)
Lemma ledger_of_list_raises now_ts p w :
  is_Some (dict_of p) →
  (update_and_get_players example_repr "players_history" ".json" now_ts [p] (mkLedger (JArr []) w)).1
  = Raise (TypeError "the ledger is not a dict").
Proof. intros [d Hd]. unfold update_and_get_players, merge_players, merge_player, py_bind. by rewrite Hd. Qed.

(** A record without a first visit makes the update of its player raise. *)
Lemma record_without_first_seen_raises :
  (update_and_get_players example_repr "players_history" ".json" "t" [live_player "a" "Ann"]
     (mkLedger (JObj [("a", JObj [])]) example_world)).1 = Raise (KeyError "first_seen").
Proof. vm_compute. reflexivity. Qed.

(** A ledger file that is not UTF-8 makes the constructor raise. *)
Lemma ledger_not_utf8_raises :
  (_load_player_ledger "players_history" ".json"
     (mkLedger (JObj []) (mkWorld {["players_history.json"%string := mkFile (String "255" "") true 420 0]} [] [] 0))).1
  = Raise UnicodeDecodeError.
Proof. vm_compute. reflexivity. Qed.

(** Without a player id, all such players share one record. *)
Lemma players_without_id_share_a_record :
  let s := ledger_after [JObj [("name", JStr "Ann")]; JObj [("name", JStr "Bob")]] (mkLedger (JObj []) example_world) in
  ∃ h, dict_of (players_history s) = Some h ∧ List.map fst h = ["Unknown"].
Proof. cbv zeta. eexists. split; [vm_compute; reflexivity|reflexivity]. Qed.
