(* ===== verification/NetDiag.v ===== *)
(** Network diagnostics of monitoring/net_diagnostics.py: throughput rates, the
    validation of probe targets, the default gateway from the routing table, the
    verdict and the sweep.

    Clock readings are milliseconds, rates hundredths of kB/s and thousandths of
    Mbit/s, the metrics of the verdict thousandths of their unit; [round] is
    rounding to even of the exact quotient.  The hostname pattern is a scanner of
    labels.  The statistics that [ping] or the socket probes give are an argument. *)

From S2P Require Import Prelude PyStr PyNum.
From Stdlib Require Import ZArith Ascii Bool Lia.
From stdpp Require Import base tactics list strings.

Local Open Scope Z_scope.
Local Open Scope py_scope.

(** * Throughput *)

Record NetworkThroughputTracker := mkThroughput {
  _last_net_bytes_recv : Z;
  _last_net_bytes_sent : Z;
  _last_net_time : Z;
  _cached_rx_kbps : Z;
  _cached_tx_kbps : Z }.

Definition throughput_init : NetworkThroughputTracker := mkThroughput 0 0 0 0 0.

Inductive traffic : Type := SATURATED | ELEVATED | HEALTHY.

Record Rates := mkRates {
  rx_rate_kbps : Z; tx_rate_kbps : Z; rx_rate_mbps : Z; tx_rate_mbps : Z; traffic_status : traffic }.

(** [delta] bytes in [dt] milliseconds, in hundredths of kB/s. *)
Definition rate_of (delta dt : Z) : Z := round_div (delta * 100000) (1024 * dt).
Definition mbps_of (kbps : Z) : Z := round_div (kbps * 8) 100.

Definition calculate_rates (now bytes_recv bytes_sent : Z) : PyM NetworkThroughputTracker Rates :=
  t <- py_get ;;
  let dt := now - _last_net_time t in
  (if (800 <=? dt) && (0 <? _last_net_bytes_recv t) then
     py_modify (λ t, mkThroughput bytes_recv bytes_sent now
       (rate_of (Z.max 0 (bytes_recv - _last_net_bytes_recv t)) dt)
       (rate_of (Z.max 0 (bytes_sent - _last_net_bytes_sent t)) dt))
   else if _last_net_bytes_recv t =? 0 then
     py_modify (λ t, mkThroughput bytes_recv bytes_sent now (_cached_rx_kbps t) (_cached_tx_kbps t))
   else py_ret tt) ;;;
  t <- py_get ;;
  let rx := mbps_of (_cached_rx_kbps t) in
  let tx := mbps_of (_cached_tx_kbps t) in
  py_ret (mkRates (_cached_rx_kbps t) (_cached_tx_kbps t) rx tx
    (if 50000 <=? rx + tx then SATURATED else if 15000 <=? rx + tx then ELEVATED else HEALTHY)).

(** * Internet addresses, as [ipaddress.ip_address] accepts them *)

(** The value of a decimal octet: at most three digits, no leading zero. *)
Definition parse_octet (s : string) : option Z :=
  if negb (String.eqb s "") && str_all is_digit s && (String.length s <=? 3)%nat &&
     (String.eqb s "0" || negb (startswith s "0")) && (digits_value s 0 <=? 255)
  then Some (digits_value s 0) else None.

Definition is_ipv4 (s : string) : bool :=
  match str_split "." s with
  | [a; b; c; d] => forallb (λ o, match parse_octet o with Some _ => true | None => false end) [a; b; c; d]
  | _ => false
  end.

Definition is_hextet (s : string) : bool :=
  negb (String.eqb s "") && (String.length s <=? 4)%nat &&
  str_all (λ c, match hex_value c with Some _ => true | None => false end) s.

(** The parts of the text between colons; an IPv4 tail counts as two hextets. *)
Definition ipv6_parts (s : string) : option (list string) :=
  let parts := str_split ":" s in
  if (length parts <? 3)%nat then None
  else
    let tail := List.last parts "" in
    let parts' := if str_contains "." tail
                  then if is_ipv4 tail then Some (removelast parts ++ ["0"; "0"]) else None
                  else Some parts in
    match parts' with
    | Some ps => if (9 <? length ps)%nat then None else Some ps
    | None => None
    end.

(** The positions of the empty parts strictly inside: where [::] may stand. *)
Fixpoint empty_inside (i : nat) (parts : list string) : list nat :=
  match parts with
  | [] => []
  | [_] => []
  | p :: rest => (if String.eqb p "" then [i] else []) ++ empty_inside (S i) rest
  end.

(** The hextets around a [::], and how many the [::] stands for. *)
Definition hi_parts (hi : list string) : option (list string) :=
  match hi with
  | [h] => if String.eqb h "" then Some [] else Some hi
  | h :: _ => if String.eqb h "" then None else Some hi
  | [] => Some hi
  end.
Definition lo_parts (lo : list string) : option (list string) :=
  match lo with
  | [l] => if String.eqb l "" then Some [] else Some lo
  | _ => if String.eqb (List.last lo "x") "" then None else Some lo
  end.
Definition is_ipv6_address (s : string) : bool :=
  match ipv6_parts s with
  | None => false
  | Some parts =>
      match empty_inside 1 (tail parts) with
      | [] => (length parts =? 8)%nat && forallb is_hextet parts
      | [skip] =>
          match hi_parts (take skip parts), lo_parts (drop (S skip) parts) with
          | Some h, Some l => (length h + length l <=? 7)%nat && forallb is_hextet (h ++ l)
          | _, _ => false
          end
      | _ => false
      end
  end.

(** An address with an optional scope after [%]. *)
Definition is_ipv6 (s : string) : bool :=
  negb (str_contains "/" s) &&
  match str_split1 "%" s with
  | None => is_ipv6_address s
  | Some (addr, scope) =>
      negb (String.eqb scope "") && negb (str_contains "%" scope) && is_ipv6_address addr
  end.

Definition is_ip_address (s : string) : bool := is_ipv4 s || is_ipv6 s.

(** * Probe targets *)

Definition is_label_char (c : ascii) : bool := is_alnum c || Ascii.eqb c "-".

(** One label of [_HOSTNAME_REGEX]: 1 to 63 characters, hyphens only inside. *)
Definition is_label (s : string) : bool :=
  (1 <=? String.length s)%nat && (String.length s <=? 63)%nat && str_all is_label_char s &&
  negb (startswith s "-") && negb (endswith s "-").
Definition is_hostname (s : string) : bool := forallb is_label (str_split "." s).

Definition validate_probe_target (target : string) : result string :=
  let clean := str_strip target in
  if String.eqb clean "" then Raise (ValueError "Probe target cannot be empty or whitespace-only.")
  else if startswith clean "-" then Raise (ValueError "Probe target cannot start with a hyphen/flag")
  else if is_ip_address clean then Ret clean
  else if (String.length clean <=? 253)%nat && is_hostname clean then Ret clean
  else Raise (ValueError "Invalid probe target format (must be valid IP address or hostname)").

(** The command of [execute_ping_probes] on POSIX, if it gets that far. *)
Definition ping_command (ping_bin target : string) (count : Z) : option (list string) :=
  match validate_probe_target target with
  | Raise _ => None
  | Ret clean => Some [ping_bin; "-c"; str_of_Z (Z.max 1 (Z.min count 20)); "-W"; "1"; clean]
  end.

(** * The default gateway *)

(** [line.split()]: the runs of characters that are not white space. *)
Fixpoint words (s cur : string) : list string :=
  match s with
  | EmptyString => if String.eqb cur "" then [] else [cur]
  | String c s' =>
      if is_space c then (if String.eqb cur "" then words s' "" else cur :: words s' "")
      else words s' (cur +:+ String c "")
  end.

(** [int(s, 16)]: a sign, the prefix 0x, and underscores between digits are accepted. *)
Fixpoint hex_us (after : bool) (s : string) (acc : Z) : option Z :=
  match s with
  | EmptyString => if after then Some acc else None
  | String c s' =>
      match hex_value c with
      | Some v => hex_us true s' (16 * acc + v)
      | None => if Ascii.eqb c "_" && after then hex_us false s' acc else None
      end
  end.
Definition py_int16 (s : string) : option Z :=
  let '(sg, ds) := split_sign s in
  let body := match str_strip_prefix "0x" (str_lower ds) with
              | Some (String "_" r) => r | Some r => r | None => ds end in
  (λ n, sg * n) <$> hex_us false body 0.

(** [socket.inet_ntoa(struct.pack('<I', n))] *)
Definition dotted (n : Z) : string :=
  str_join "." (List.map (λ i, str_of_Z (n / 256 ^ i mod 256)) [0; 1; 2; 3]).

Definition fallback_ip : string := "192.168.1.1".

Fixpoint scan_routes (lines : list string) : result string :=
  match lines with
  | [] => Ret fallback_ip
  | line :: rest =>
      match words line "" with
      | _ :: destination_hex :: gateway_hex :: _ =>
          if String.eqb destination_hex "00000000" && negb (String.eqb gateway_hex "00000000") then
            match py_int16 gateway_hex with
            | None => Ret fallback_ip
            | Some n => if (n <? 0) || (4294967295 <? n) then Raise StructError else Ret (dotted n)
            end
          else scan_routes rest
      | _ => scan_routes rest
      end
  end.

(** The routing table of the kernel: absent, unreadable, or its text. *)
Definition resolve_default_gateway (posix : bool) (proc_route : option (result string)) : result string :=
  if negb posix then Ret fallback_ip
  else match proc_route with
  | None => Ret fallback_ip
  | Some (Raise e) => if is_oserror e then Ret fallback_ip else Raise e
  | Some (Ret text) =>
      if negb (str_isascii text) then Ret fallback_ip else scan_routes (tail (splitlines text))
  end.

(** * The verdict *)

Record Metrics := mkMetrics {
  server_fps : Z; server_frame_time_ms : Z;
  gw_avg : Z; gw_jitter : Z; gw_loss : Z;
  net_avg : Z; net_jitter : Z; net_loss : Z;
  udp_drops : bool; nat_aligned : bool }.

Inductive verdict : Type := SERVER_TICK_STARVATION | NETWORK_JITTER | NAT_PACKET_LOSS | CLEAN.

Section diagnostics.
(** [f'{x:.1f}'] *)
Context (fmt1 : Z → string).

Definition evaluate_diagnostics_verdict (m : Metrics) : verdict * string * string * string :=
  if (server_fps m <? 25000) || (40000 <? server_frame_time_ms m) then
    (SERVER_TICK_STARVATION, "⚠️ Server Engine Tick Lag (Low FPS)",
     "The server is ticking at " +:+ fmt1 (server_fps m) +:+ " FPS (" +:+ fmt1 (server_frame_time_ms m) +:+
     "ms frame time). Palworld movement reconciliation assumes >= 30 FPS. When engine ticks drop below this threshold, player positions desynchronize and snap back (rubberbanding), even with zero network latency.",
     "Lower Pal/Item spawn multipliers (PalSpawnNumRate, DropItemMaxNum), restart the server to clear memory fragmentation, or allocate more CPU threads.")
  else if (20000 <? gw_jitter m) || (0 <? gw_loss m) then
    (NETWORK_JITTER, "⚠️ Local LAN / Router Jitter Detected",
     "Local router gateway latency variance is high (Jitter: " +:+ fmt1 (gw_jitter m) +:+ "ms, Loss: " +:+
     fmt1 (gw_loss m) +:+ "%). This indicates local Wi-Fi interference, powerline ethernet instability, or router CPU saturation.",
     "Connect the server directly via Cat6 Ethernet cable, bypass Wi-Fi repeaters, and check router CPU load.")
  else if (2000 <? net_loss m) || udp_drops m then
    (NAT_PACKET_LOSS, "⚠️ UDP Packet Drops / NAT State Saturation",
     "Detected " +:+ fmt1 (net_loss m) +:+
     "% public internet packet loss or kernel UDP drops. Router NAT state tables may be overflowing or UDP socket queues are dropping packets.",
     "Verify router port forwarding for UDP 8211. Increase Linux UDP socket buffer limits (sysctl -w net.core.rmem_max=26214400).")
  else if 35000 <? net_jitter m then
    (NETWORK_JITTER, "⚠️ ISP WAN Bufferbloat / Jitter",
     "Local LAN is clean, but public internet ping spikes significantly (Jitter: " +:+ fmt1 (net_jitter m) +:+
     "ms). Bufferbloat or ISP WAN congestion is causing erratic packet arrival times.",
     "Enable SQM / Smart Queue Management on your router to eliminate WAN bufferbloat under load.")
  else
    (CLEAN, "🟢 Network & NAT Healthy (No Bottlenecks Detected)",
     "Local gateway latency is steady (" +:+ fmt1 (gw_avg m) +:+ "ms, jitter: " +:+ fmt1 (gw_jitter m) +:+
     "ms, 0% loss). Internet latency is steady (" +:+ fmt1 (net_avg m) +:+ "ms, jitter: " +:+ fmt1 (net_jitter m) +:+
     "ms). Server tickrate is optimal (" +:+ fmt1 (server_fps m) +:+ " FPS, " +:+ fmt1 (server_frame_time_ms m) +:+
     "ms). NAT alignment is " +:+ (if nat_aligned m then "VERIFIED" else "PENDING") +:+ ".",
     "Host network, NAT, and engine tick rate are running smoothly. If individual tamers report rubberbanding, the bottleneck is on their local ISP, high-latency Wi-Fi, or remote connection.").

(** [check_udp_drops] on the counters of the interface, if they can be read. *)
Definition check_udp_drops (counters : option (Z * Z)) : bool :=
  match counters with Some (dropin, errin) => (0 <? dropin) || (0 <? errin) | None => false end.

Record NetworkDiagnosticsResult := mkDiagnostics {
  gateway_ip : string;
  d_metrics : Metrics;
  d_verdict : verdict;
  verdict_title : string;
  verdict_details : string;
  recommendation : string }.

(** The probes ([ping_runner]) give average, jitter and loss of a target. *)
Definition run_network_diagnostics_sweep (ping_runner : string → Z → Z * Z * Z) (posix : bool)
    (proc_route : option (result string)) (counters : option (Z * Z)) (fps frame_time : Z) (aligned : bool)
    : result NetworkDiagnosticsResult :=
  match resolve_default_gateway posix proc_route with
  | Raise e => Raise e
  | Ret gw =>
      let '(gavg, gjit, gloss) := ping_runner gw 5 in
      let '(navg, njit, nloss) := ping_runner "1.1.1.1" 5 in
      let m := mkMetrics fps frame_time gavg gjit gloss navg njit nloss (check_udp_drops counters) aligned in
      let '(v, title, details, rec) := evaluate_diagnostics_verdict m in
      Ret (mkDiagnostics gw m v title details rec)
  end.
End diagnostics.

(** * Examples *)

Example addresses :
  List.map is_ip_address ["1.2.3.4"; "::1"; "fe80::1%eth0"; "::ffff:1.2.3.4"; "1:2:3:4:5:6:7:8"; "::"] =
    repeat true 6 ∧
  List.map is_ip_address ["1.2.3"; "01.2.3.4"; "1.2.3.256"; "1::2::3"; ":1:2:3:4:5:6:7"; "1:2:3:4:5:6:7:8::"; "fe80::1%"] =
    repeat false 7.
Proof. split; vm_compute; reflexivity. Qed.

Example hostnames :
  List.map is_hostname ["a"; "my-host.example.org"] = [true; true] ∧
  List.map is_hostname ["-a"; "a-"; "a..b"; "a.b."; "a b"; "a;b"] = repeat false 6.
Proof. split; vm_compute; reflexivity. Qed.

Example gateway_example :
  resolve_default_gateway true (Some (Ret ("h" +:+ String line_feed "eth0 00000000 0101A8C0 0003" +:+ String line_feed "")))
  = Ret "192.168.1.1".
Proof. vm_compute. reflexivity. Qed.

(** * Probe targets: lemmas *)

Definition safe_char (c : ascii) : bool :=
  is_alnum c || Ascii.eqb c "-" || Ascii.eqb c "." || Ascii.eqb c ":".

Lemma str_split_forall (q : ascii → bool) c s :
  q c = true → Forall (λ p, str_all q p = true) (str_split c s) → str_all q s = true.
Proof.
  intros Hc. induction s as [|d s IH]; cbn [str_split str_all]; [done|].
  destruct (Ascii.eqb_spec d c) as [->|].
  - intros [_ H]%Forall_cons. rewrite Hc. by apply IH.
  - destruct (str_split c s) as [|w ws] eqn:E; [by apply str_split_nonempty in E|].
    intros [H1 H2]%Forall_cons. cbn [str_all] in H1. apply andb_prop in H1 as [Hd Hw].
    rewrite Hd. cbn. apply IH. by constructor.
Qed.

(** A fact of every character, by its 256 values. *)
Ltac each_char c := destruct c as [[] [] [] [] [] [] [] []]; vm_compute; done.

Lemma digit_safe c : is_digit c = true → safe_char c = true.
Proof. each_char c. Qed.
Lemma hex_safe c : (match hex_value c with Some _ => true | None => false end) = true → safe_char c = true.
Proof. each_char c. Qed.
Lemma label_safe c : is_label_char c = true → safe_char c = true.
Proof. each_char c. Qed.
#[local] Hint Resolve digit_safe hex_safe label_safe : py.

Definition safe (s : string) : bool := str_all safe_char s.

Lemma octet_safe s : (match parse_octet s with Some _ => true | None => false end) = true → safe s = true.
Proof.
  unfold parse_octet. destruct (_ && _) eqn:H; [|done]. intros _.
  repeat (apply andb_prop in H as [H ?]). eapply str_all_impl; [|done]. auto with py.
Qed.

Lemma ipv4_safe s : is_ipv4 s = true → safe s = true.
Proof.
  unfold is_ipv4. intros H. apply (str_split_forall safe_char "."); [done|].
  destruct (str_split "." s) as [|a [|b [|c [|d [|]]]]]; try done.
  cbn [forallb] in H. repeat (apply andb_prop in H as [? H]).
  repeat constructor; by apply octet_safe.
Qed.

Lemma hextet_safe s : is_hextet s = true → safe s = true.
Proof.
  intros [_ H]%andb_prop. eapply str_all_impl; [|done]. auto with py.
Qed.

Lemma hostname_safe s : is_hostname s = true → safe s = true.
Proof.
  unfold is_hostname. intros H. apply (str_split_forall safe_char "."); [done|].
  apply Forall_forall. intros p Hp. rewrite forallb_forall in H.
  specialize (H p ltac:(by apply list_elem_of_In)). unfold is_label in H.
  repeat (apply andb_prop in H as [H ?]). eapply str_all_impl; [|done]. auto with py.
Qed.

Lemma forallb_safe l : forallb is_hextet l = true → Forall (λ p, safe p = true) l.
Proof.
  intros H. apply Forall_forall. intros p Hp. rewrite forallb_forall in H.
  by apply hextet_safe, H, list_elem_of_In.
Qed.

(** Where [empty_inside] reports one position, the part there is empty. *)
Lemma empty_inside_at i parts k : empty_inside i parts = [k] → parts !! (k - i)%nat = Some "" ∧ (i ≤ k)%nat.
Proof.
  assert (Hge : ∀ l i k, k ∈ empty_inside i l → (i ≤ k)%nat).
  { induction l as [|p [|q l] IH]; intros j k' Hk; cbn [empty_inside] in Hk; try by apply elem_of_nil in Hk.
    apply elem_of_app in Hk as [Hk|Hk]; [|apply IH in Hk; lia].
    destruct (String.eqb p ""); [apply list_elem_of_singleton in Hk; lia|by apply elem_of_nil in Hk]. }
  revert i. induction parts as [|p [|q l] IH]; intros i H; try done.
  cbn [empty_inside] in H. destruct (String.eqb_spec p "") as [->|].
  - injection H as -> _. by rewrite Nat.sub_diag.
  - change (empty_inside (S i) (q :: l) = [k]) in H. destruct (IH _ H) as [H1 H2].
    split; [|lia]. replace (k - i)%nat with (S (k - S i)) by lia. exact H1.
Qed.

Lemma hi_parts_Some hi h : hi_parts hi = Some h → h = hi ∨ h = [] ∧ hi = [""].
Proof.
  destruct hi as [|h0 [|h1 hi]]; cbn; [naive_solver| |];
    destruct (String.eqb_spec h0 "") as [->|]; naive_solver.
Qed.
Lemma lo_parts_Some lo l : lo_parts lo = Some l → l = lo ∨ l = [] ∧ lo = [""].
Proof.
  destruct lo as [|l0 [|l1 lo]]; cbn [lo_parts].
  - naive_solver.
  - destruct (String.eqb_spec l0 "") as [->|]; naive_solver.
  - destruct (String.eqb _ ""); naive_solver.
Qed.

Lemma ipv6_parts_safe parts :
  (match empty_inside 1 (tail parts) with
   | [] => (length parts =? 8)%nat && forallb is_hextet parts
   | [skip] =>
       match hi_parts (take skip parts), lo_parts (drop (S skip) parts) with
       | Some h, Some l => (length h + length l <=? 7)%nat && forallb is_hextet (h ++ l)
       | _, _ => false
       end
   | _ => false
   end) = true → Forall (λ p, safe p = true) parts.
Proof.
  destruct (empty_inside 1 (tail parts)) as [|k [|]] eqn:E; [| |done].
  { intros [_ H]%andb_prop. by apply forallb_safe. }
  apply empty_inside_at in E as [Hk Hle].
  assert (Hsplit : parts = take k parts ++ [""] ++ drop (S k) parts).
  { destruct parts as [|p parts]; [by cbn in Hk|]. cbn [tail] in Hk.
    rewrite <-(take_drop_middle (p :: parts) k "") at 1; [done|].
    destruct k; [lia|]. cbn. by replace (S k - 1)%nat with k in Hk by lia. }
  intros H. rewrite Hsplit. apply Forall_app. rewrite Forall_app.
  assert (Hone : ∀ hi ok : list string,
    (ok = hi ∨ ok = [] ∧ hi = [""]) → Forall (λ p, safe p = true) ok → Forall (λ p, safe p = true) hi).
  { intros hi ok [->|[-> ->]] Hok; [done|by repeat constructor]. }
  set (hi := take k parts) in *. set (lo := drop (S k) parts) in *.
  destruct (hi_parts hi) as [h|] eqn:Eh; [|done]. destruct (lo_parts lo) as [l|] eqn:El; [|done].
  apply hi_parts_Some in Eh. apply lo_parts_Some in El. apply andb_prop in H as [_ Hf].
  rewrite forallb_app in Hf. apply andb_prop in Hf as [H1 H2].
  split_and!; [by apply (Hone hi h), forallb_safe|by repeat constructor|by apply (Hone lo l), forallb_safe].
Qed.

Lemma ipv6_address_safe s : is_ipv6_address s = true → safe s = true.
Proof.
  unfold is_ipv6_address. destruct (ipv6_parts s) as [parts|] eqn:Ep; [|done].
  intros H%ipv6_parts_safe. apply (str_split_forall safe_char ":"); [done|].
  revert Ep. unfold ipv6_parts. set (ps := str_split ":" s).
  destruct (length ps <? 3)%nat; [done|]. cbv zeta.
  destruct (str_contains "." (List.last ps "")) eqn:Edot.
  - destruct (is_ipv4 (List.last ps "")) eqn:E4; [|done].
    destruct (9 <? _)%nat; [done|]. intros [= <-]. apply Forall_app in H as [H _].
    rewrite (app_removelast_last (l := ps) "" (str_split_nonempty ":" s)). apply Forall_app. split; [exact H|].
    repeat constructor. by apply ipv4_safe.
  - destruct (9 <? _)%nat; [done|]. by intros [= <-].
Qed.

(** The texts that reach the command line of [ping]. *)
Definition probe_safe (r : string) : Prop :=
  safe r = true ∨ ∃ addr scope, r = addr +:+ String "%" scope ∧ safe addr = true ∧ is_ipv6_address addr = true.

(** What the validation accepts is the stripped target; it is never empty
    nor starts with a hyphen, and every character of it is alphanumeric, a
    hyphen, a point or a colon, but for the scope of an IPv6 address, which may
    be any text. *)
Theorem validate_probe_target_sound target r :
  validate_probe_target target = Ret r →
  r = str_strip target ∧ r ≠ "" ∧ startswith r "-" = false ∧ probe_safe r.
Proof.
  unfold validate_probe_target. destruct (String.eqb_spec (str_strip target) "") as [|Hne]; [done|].
  destruct (startswith (str_strip target) "-") eqn:Hd; [done|].
  destruct (is_ip_address (str_strip target)) eqn:Hip.
  - intros [= <-]. split_and!; [done|done|done|].
    apply orb_prop in Hip as [H4|H6]; [left; by apply ipv4_safe|].
    unfold is_ipv6 in H6. apply andb_prop in H6 as [_ H6].
    destruct (str_split1 "%" (str_strip target)) as [[addr scope]|] eqn:E.
    + apply andb_prop in H6 as [_ H6]. right. exists addr, scope.
      split_and!; [by destruct (str_split1_Some _ _ _ _ E)|by apply ipv6_address_safe|done].
    + left. by apply ipv6_address_safe.
  - destruct (_ && is_hostname _) eqn:Hh; [|done]. intros [= <-].
    apply andb_prop in Hh as [_ Hh]. split_and!; [done|done|done|]. left. by apply hostname_safe.
Qed.

Lemma validate_probe_target_sound_witness :
  validate_probe_target " host.example.org " = Ret "host.example.org" ∧ probe_safe "host.example.org".
Proof.
  split; [vm_compute; reflexivity|].
  apply (validate_probe_target_sound " host.example.org " "host.example.org"). vm_compute. reflexivity.
Defined.

(** The scope of an address passes whatever it is. *)
Lemma scope_with_metacharacters :
  validate_probe_target "fe80::1%$(reboot); x" = Ret "fe80::1%$(reboot); x".
Proof. vm_compute. reflexivity. Qed.

(** The gateway of a malformed routing table makes the diagnostics raise. *)
Lemma gateway_too_long_raises :
  scan_routes ["eth0 00000000 0101A8C000"] = Raise StructError.
Proof. vm_compute. reflexivity. Qed.

(** * The gateway *)

Lemma hex_value_lower c : hex_value (lower_char c) = hex_value c.
Proof. destruct c as [[] [] [] [] [] [] [] []]; vm_compute; reflexivity. Qed.

Lemma hex_us_lower b s acc :
  str_all (λ c, match hex_value c with Some _ => true | None => false end) s = true →
  hex_us b s acc = hex_us b (str_lower s) acc.
Proof.
  unfold str_lower. revert b acc. induction s as [|c s IH]; intros b acc; cbn [str_all str_map hex_us]; [done|].
  rewrite hex_value_lower. destruct (hex_value c); [|done]. apply IH.
Qed.

Lemma str_all_hex_lower s :
  str_all (λ c, match hex_value c with Some _ => true | None => false end) (str_lower s) =
  str_all (λ c, match hex_value c with Some _ => true | None => false end) s.
Proof. unfold str_lower. induction s as [|c s IH]; cbn; [done|]. by rewrite hex_value_lower, IH. Qed.

Lemma hex_us_byte b x bs acc :
  0 ≤ x < 256 → hex_us b (hex_of_bytes (x :: bs)) acc = hex_us true (hex_of_bytes bs) (256 * acc + x).
Proof.
  intros Hx. cbn [hex_of_bytes hex_us]. rewrite !hex_digit_value by zdiv. f_equal. zdiv.
Qed.

Lemma hex_of_bytes_hex bs :
  Forall (λ x, 0 ≤ x < 256) bs →
  str_all (λ c, match hex_value c with Some _ => true | None => false end) (hex_of_bytes bs) = true.
Proof.
  induction 1 as [|x bs Hx _ IH]; [done|]. cbn [hex_of_bytes str_all].
  by rewrite !hex_digit_value by zdiv.
Qed.

(** A text of hexadecimal digits has no sign and no prefix. *)
Lemma py_int16_hex c1 c2 s :
  str_all (λ c, match hex_value c with Some _ => true | None => false end) (String c1 (String c2 s)) = true →
  py_int16 (String c1 (String c2 s)) = hex_us false (String c1 (String c2 s)) 0.
Proof.
  intros H. pose proof H as H'. cbn [str_all] in H'. apply andb_prop in H' as [H1 H'].
  apply andb_prop in H' as [H2 _].
  assert (Hs : split_sign (String c1 (String c2 s)) = (1, String c1 (String c2 s))).
  { unfold split_sign. destruct (Ascii.eqb_spec c1 "-") as [->|]; [done|].
    by destruct (Ascii.eqb_spec c1 "+") as [->|]. }
  unfold py_int16. rewrite Hs.
  assert (Hx : str_strip_prefix "0x" (str_lower (String c1 (String c2 s))) = None).
  { unfold str_lower. cbn [str_map str_strip_prefix]. destruct (Ascii.eqb "0" (lower_char c1)); [|done].
    destruct (Ascii.eqb_spec "x" (lower_char c2)) as [Hc|]; [|done].
    by rewrite <-hex_value_lower, <-Hc in H2. }
  rewrite Hx. destruct (hex_us false _ 0) as [n|]; [|done]. cbn. f_equal. lia.
Qed.

(** A default route of the kernel's table, whose gateway is written as the
    hexadecimal of the address in the byte order of the machine, in either case,
    is found and printed as the dotted address. *)
Theorem gateway_of_route a b c d h line iface more rest :
  Forall (λ x, 0 ≤ x < 256) [a; b; c; d] → 0 < a + b + c + d →
  str_lower h = hex_of_bytes [d; c; b; a] → words line "" = iface :: "00000000" :: h :: more →
  scan_routes (line :: rest) = Ret (str_join "." [str_of_Z a; str_of_Z b; str_of_Z c; str_of_Z d]).
Proof.
  intros Hb Hpos Hh Hw. cbn [scan_routes]. rewrite Hw. cbn [String.eqb Ascii.eqb Bool.eqb andb].
  rewrite !Forall_cons in Hb. destruct Hb as (Ha & Hb' & Hc & Hd & _).
  assert (Hall : str_all (λ c, match hex_value c with Some _ => true | None => false end) h = true).
  { rewrite <-str_all_hex_lower, Hh. apply hex_of_bytes_hex. rewrite !Forall_cons. split_and!; try lia. constructor. }
  assert (Hv : hex_us false h 0 = Some (a + 256 * b + 65536 * c + 16777216 * d)).
  { rewrite hex_us_lower, Hh by done. rewrite !hex_us_byte by done. cbn [hex_of_bytes hex_us]. f_equal. lia. }
  assert (Hne : String.eqb h "00000000" = false).
  { destruct (String.eqb_spec h "00000000") as [->|]; [|done]. exfalso. 
    change (hex_us false "00000000" 0) with (Some 0) in Hv. injection Hv as Hv. lia. }
  rewrite Hne. cbn [negb].
  destruct h as [|c1 [|c2 h]]; [done|unfold str_lower in Hh; cbn in Hh; by destruct (hex_digit _)|].
  rewrite py_int16_hex, Hv by done.
  destruct (_ || _) eqn:Hr; [exfalso; lia|]. unfold dotted. cbn [List.map].
  repeat f_equal; zdiv.
Qed.

Lemma gateway_of_route_witness :
  words "eth0 00000000 FE01A8C0 0003" "" = ["eth0"; "00000000"; "FE01A8C0"; "0003"] ∧
  scan_routes ["eth0 00000000 FE01A8C0 0003"] = Ret "192.168.1.254".
Proof.
  split; [vm_compute; reflexivity|].
  apply (gateway_of_route 192 168 1 254 "FE01A8C0" "eth0 00000000 FE01A8C0 0003" "eth0" ["0003"] []);
    [repeat constructor; lia|lia|vm_compute; reflexivity|vm_compute; reflexivity].
Defined.

(** * The verdict and the rates *)

(** A clean bill needs every metric within its limit, and losses and drops at none. *)
Lemma verdict_clean_iff fmt1 m :
  (evaluate_diagnostics_verdict fmt1 m).1.1.1 = CLEAN ↔
  25000 ≤ server_fps m ∧ server_frame_time_ms m ≤ 40000 ∧ gw_jitter m ≤ 20000 ∧ gw_loss m ≤ 0 ∧
  net_loss m ≤ 2000 ∧ udp_drops m = false ∧ net_jitter m ≤ 35000.
Proof.
  unfold evaluate_diagnostics_verdict.
  destruct (_ || (40000 <? _)) eqn:H1; [split; [done|lia]|].
  destruct (_ || (0 <? _)) eqn:H2; [split; [done|lia]|].
  destruct (_ || udp_drops m) eqn:H3; [split; [done|destruct (udp_drops m); [naive_solver|lia]]|].
  destruct (35000 <? net_jitter m) eqn:H4; [split; [done|lia]|].
  apply orb_false_iff in H3 as [H3 ->]. split; [intros _|done]. lia.
Qed.

Definition rates_ok (t : NetworkThroughputTracker) : Prop := 0 ≤ _cached_rx_kbps t ∧ 0 ≤ _cached_tx_kbps t.

(** Counters that were reset, and clocks that go back, never give a negative rate. *)
Lemma rates_nonneg now r s t :
  rates_ok t → rates_ok (calculate_rates now r s t).2 ∧
  ∃ x, (calculate_rates now r s t).1 = Ret x ∧
    0 ≤ rx_rate_kbps x ∧ 0 ≤ tx_rate_kbps x ∧ 0 ≤ rx_rate_mbps x ∧ 0 ≤ tx_rate_mbps x.
Proof.
  intros [H1 H2]. unfold calculate_rates, py_bind, py_get, py_modify, py_ret.
  assert (Hm : ∀ k, 0 ≤ k → 0 ≤ mbps_of k) by (intros k Hk; apply round_div_nonneg; lia).
  assert (Hr : ∀ n dt, 800 ≤ dt → 0 ≤ rate_of (Z.max 0 n) dt) by (intros; apply round_div_nonneg; lia).
  destruct ((800 <=? now - _last_net_time t) && (0 <? _last_net_bytes_recv t)) eqn:E1; cbn;
    [|destruct (_last_net_bytes_recv t =? 0); cbn]; (split; [split; cbn; try done; apply Hr; lia|]);
    eexists; (split; [reflexivity|]); cbn; split_and!; auto; try apply Hm; try (apply Hr; lia); done.
Qed.

(** An interface that has received nothing never gets a rate for what it sends. *)
Lemma no_rate_without_reception now s t :
  _last_net_bytes_recv t = 0 →
  (calculate_rates now 0 s t).1 = Ret (mkRates (_cached_rx_kbps t) (_cached_tx_kbps t)
     (mbps_of (_cached_rx_kbps t)) (mbps_of (_cached_tx_kbps t))
     (if 50000 <=? mbps_of (_cached_rx_kbps t) + mbps_of (_cached_tx_kbps t) then SATURATED
      else if 15000 <=? mbps_of (_cached_rx_kbps t) + mbps_of (_cached_tx_kbps t) then ELEVATED else HEALTHY)).
Proof.
  intros H. unfold calculate_rates, py_bind, py_get, py_modify, py_ret. rewrite H.
  change (0 <? 0) with false. by rewrite andb_false_r.
Qed.
