(* ===== verification/Tls.v ===== *)
(** TLS certificates: engine/tls_manager.py (status, staging, provisioning),
    engine/tls_scheduler.py, the DuckDNS helpers of engine/duckdns.py and the
    discovery of certificate pairs of core/config.py.

    The cryptography library and the ACME client are parameters: a private key
    and a certificate are their PEM texts, [load_cert] is what loading a
    certificate gives.  Times are seconds.  The certificate directory is the disk
    of AtomicIO, on which the bundle is written by its [atomic_write_file]. *)

From S2P Require Import Prelude PyStr AtomicIO.
From Stdlib Require Import ZArith Ascii Bool Lia.
From stdpp Require Import base tactics list strings gmap.

Local Open Scope Z_scope.
Local Open Scope py_scope.

(** * Domains *)

Definition removeprefix (p s : string) : string := default s (str_strip_prefix p s).
Definition removesuffix (p s : string) : string :=
  if endswith s p then str_take (String.length s - String.length p) s else s.

Definition clean_domain_name (domain : string) : string :=
  let c := removeprefix "http://" (removeprefix "https://" (str_lower (str_strip domain))) in
  let c := hd "" (str_split "/" c) in
  hd "" (str_split ":" c).

Definition extract_subdomain (domain : string) : string :=
  removesuffix ".duckdns.org" (clean_domain_name domain).

(** The answer of DuckDNS: status and text, or a [RequestError] of httpx. *)
Definition duckdns_ok (answer : result (Z * string)) : result bool :=
  match answer with
  | Ret (status, text) => if (200 <=? status) && (status <? 300) then Ret (startswith text "OK") else Ret false
  | Raise (HTTPError _) => Ret false
  | Raise e => Raise e
  end.

Definition duckdns_url (domain token last : string) : string :=
  "https://www.duckdns.org/update?domains=" +:+ extract_subdomain domain +:+ "&token=" +:+ token +:+ last.
Definition set_duckdns_txt_record (get : string → result (Z * string)) (domain token txt_record : string) : result bool :=
  duckdns_ok (get (duckdns_url domain token ("&txt=" +:+ txt_record))).
Definition clear_duckdns_txt_record (get : string → result (Z * string)) (domain token : string) : result bool :=
  duckdns_ok (get (duckdns_url domain token "&clear=true")).
Definition sync_duckdns_ip (get : string → result (Z * string)) (domain token ip : string) : result bool :=
  duckdns_ok (get (duckdns_url domain token ("&ip=" +:+ ip))).

Example subdomain_example : extract_subdomain " https://My.DuckDNS.org:8443/x " = "my".
Proof. vm_compute. reflexivity. Qed.

(** * Certificates *)

(** What the manager reads of a certificate. *)
Record Certificate := mkCert {
  issuer_cn : option string;
  subject_cn : option string;
  dns_names : list string;
  not_before : Z;
  not_after : Z }.

Inductive TLSProvisionMode : Type := ACME_LETSENCRYPT | SELF_SIGNED_FALLBACK | EXISTING_VALID.

Record TLSCertificateStatus := mkStatus {
  is_valid : bool;
  domain : string;
  issuer : string;
  subject_alt_names : list string;
  validity : option (Z * Z);
  days_remaining : Z;
  is_self_signed : bool;
  error_message : option string }.

Record TLSProvisionResult := mkProvision {
  success : bool;
  mode : TLSProvisionMode;
  r_domain : string;
  r_days_remaining : Z;
  message : string;
  error : option string }.

(** The values of the modes, and what an outcome says. *)
Definition mode_value (m : TLSProvisionMode) : string :=
  match m with ACME_LETSENCRYPT => "letsencrypt" | SELF_SIGNED_FALLBACK => "self_signed" | EXISTING_VALID => "existing" end.
Definition outcome_message (m : TLSProvisionMode) : string :=
  match m with
  | ACME_LETSENCRYPT => "Provisioned Let's Encrypt certificate via ACME DNS-01."
  | SELF_SIGNED_FALLBACK => "Provisioned self-signed fallback certificate."
  | EXISTING_VALID => "Existing certificate is valid and not near expiry."
  end.
Definition provisioned (m : TLSProvisionMode) (d : string) (days : Z) : TLSProvisionResult :=
  mkProvision true m d days (outcome_message m) None.

Record ACMECertificateResult := mkAcme { acme_success : bool; fullchain_pem : option string; acme_error : option string }.

Definition RENEWAL_THRESHOLD_DAYS : Z := 30.
Definition fullchain : string := "fullchain.pem".
Definition privkey : string := "privkey.pem".

Section tls.
(** The certificate library, the key that is generated, the ACME flow, and the
    names that temporary files get. *)
Context (load_cert : string → option Certificate).
Context (self_signed : string → string → string).
Context (tmp1 tmp2 : string).

(** [stage_tls_bundle]: the certificate first, then the key. *)
Definition stage_tls_bundle (cert_pem key_pem : string) : PyM World unit :=
  sys_fail ;;;
  atomic_write_file tmp1 "" fullchain cert_pem 0 false (Some 420) true ;;;
  atomic_write_file tmp2 "" privkey key_pem 0 false (Some 384) true ;;;
  py_ret tt.

(** [domain or other] *)
Definition domain_or (d : option string) (other : string) : string :=
  match d with Some (String _ _ as s) => s | _ => other end.

Definition missing_status (d : option string) (message : string) : TLSCertificateStatus :=
  mkStatus false (domain_or d "unknown") "unknown" [] None 0 false (Some message).

Definition status_of (now : Z) (d : option string) (c : Certificate) : TLSCertificateStatus :=
  let issuer_name := default "unknown" (issuer_cn c) in
  let subject_name := default "unknown" (subject_cn c) in
  let days := Z.max 0 ((not_after c - now) / 86400) in
  let valid := (0 <? days) && (not_before c <=? now) in
  mkStatus valid (domain_or d subject_name) issuer_name (dns_names c)
    (Some (not_before c, not_after c)) days (String.eqb issuer_name subject_name)
    (if valid then None else Some "Certificate expired or not yet valid").

Definition get_tls_certificate_status (now : Z) (d : option string) : PyM World TLSCertificateStatus :=
  have_chain <- sys_exists fullchain ;;
  have_key <- sys_exists privkey ;;
  if negb have_chain || negb have_key then py_ret (missing_status d "Certificate files missing")
  else
    f <- sys_stat fullchain ;;
    match load_cert (f_data f) with
    | None => py_ret (missing_status d "Failed to load certificate")
    | Some c => py_ret (status_of now d c)
    end.

(** The first tier, ACME: every exception makes it fall back. *)
Definition tier1 (d token key_pem : string) (acme : result ACMECertificateResult)
    : PyM World (option TLSProvisionResult) :=
  if String.eqb (str_strip token) "" then py_ret None
  else py_try
    (r <- lift acme ;;
     match acme_success r, fullchain_pem r with
     | true, Some (String _ _ as chain) =>
         stage_tls_bundle chain key_pem ;;;
         py_ret (Some (provisioned ACME_LETSENCRYPT d 90))
     | _, _ => py_ret None
     end)
    (λ _, py_ret None).

(** [provision_tls_certificates], with the new key and the outcome of the ACME flow. *)
Definition provision_tls_certificates (now : Z) (d token : string) (force : bool)
    (key_pem : string) (acme : result ACMECertificateResult) : PyM World TLSProvisionResult :=
  status <- get_tls_certificate_status now (Some d) ;;
  if negb force && is_valid status && (RENEWAL_THRESHOLD_DAYS <? days_remaining status)
  then py_ret (provisioned EXISTING_VALID d (days_remaining status))
  else
    by_acme <- tier1 d token key_pem acme ;;
    match by_acme with
    | Some r => py_ret r
    | None =>
        stage_tls_bundle (self_signed key_pem d) key_pem ;;;
        py_ret (provisioned SELF_SIGNED_FALLBACK d 365)
    end.

(** * The scheduler *)

Record TlsSettings := mkTlsSettings {
  ssl_cert_mode : string;
  ssl_auto_renew : bool;
  duckdns_domain : string;
  duckdns_token : string }.

#[export] Instance TlsSettings_eq_dec : EqDecision TlsSettings.
Proof. solve_decision. Defined.

(** The scheduler's state: the disk, how often a service restart was dispatched,
    and the times at which it came to provisioning. *)
Record Sched := mkSched { s_world : World; restarts : nat; attempts : list Z }.

Definition on_world {A} (m : PyM World A) : PyM Sched A :=
  λ s, let '(r, w) := m (s_world s) in (r, mkSched w (restarts s) (attempts s)).
Definition dispatch_manager_service_restart : PyM Sched unit :=
  py_modify (λ s, mkSched (s_world s) (S (restarts s)) (attempts s)).
Definition note_attempt (now : Z) : PyM Sched unit :=
  py_modify (λ s, mkSched (s_world s) (restarts s) (now :: attempts s)).

Definition or_localhost (d : string) : string := if String.eqb d "" then "localhost" else d.

(** One turn of the loop of [certificate_renewal_scheduler]: the seconds it sleeps. *)
Definition scheduler_turn (cfg : TlsSettings) (now : Z) (key_pem : string) (acme : result ACMECertificateResult)
    : PyM Sched Z :=
  py_try
    (if String.eqb (ssl_cert_mode cfg) "custom" then py_ret 86400
     else if negb (ssl_auto_renew cfg) then py_ret 3600
     else
       status <- on_world (get_tls_certificate_status now (Some (or_localhost (duckdns_domain cfg)))) ;;
       if is_valid status && (30 <? days_remaining status) then
         py_ret (Z.min (Z.max ((days_remaining status - 30) * 86400) 3600) 86400)
       else
         let token := if String.eqb (ssl_cert_mode cfg) "letsencrypt" then duckdns_token cfg else "" in
         note_attempt now ;;;
         result <- on_world (provision_tls_certificates now (or_localhost (duckdns_domain cfg)) token false key_pem acme) ;;
         if success result then dispatch_manager_service_restart ;;; py_ret 86400
         else py_ret 21600)
    (λ _, py_ret 3600).

(** The loop: each turn has its new key, its outcome of the ACME flow, and by
    how much its sleep is overslept. *)
Fixpoint scheduler_run (cfg : TlsSettings) (turns : list (string * result ACMECertificateResult * Z))
    (now : Z) (s : Sched) : Z * Sched :=
  match turns with
  | [] => (now, s)
  | (key_pem, acme, late) :: rest =>
      match scheduler_turn cfg now key_pem acme s with
      | (Ret sleep, s') => scheduler_run cfg rest (now + sleep + late) s'
      | (Raise _, s') => (now, s')
      end
  end.

(** At start-up: a pair is provisioned when [resolve_ssl_paths] finds none. *)
Definition trigger_tls_provisioning_check (active_pair : option (string * string)) (cfg : TlsSettings) (now : Z)
    (key_pem : string) (acme : result ACMECertificateResult) : PyM Sched unit :=
  match active_pair with
  | Some _ => py_ret tt
  | None =>
      let raw_domain := str_lower (str_strip (duckdns_domain cfg)) in
      if bool_decide (raw_domain ∈ [""; "localhost"; "yourdomain.duckdns.org"]) then py_ret tt
      else
        result <- on_world (provision_tls_certificates now (duckdns_domain cfg) (duckdns_token cfg) false key_pem acme) ;;
        if success result then dispatch_manager_service_restart else py_ret tt
  end.
End tls.

(** [None]: the settings are incomplete and nothing is asked of the service. *)
Definition trigger_duckdns_sync (get : string → result (Z * string)) (cfg : TlsSettings) : option (result bool) :=
  if String.eqb (duckdns_domain cfg) "" || String.eqb (duckdns_token cfg) "" then None
  else Some (sync_duckdns_ip get (duckdns_domain cfg) (duckdns_token cfg) "").

(** * Discovery of a certificate pair *)

(** [resolve_ssl_paths]: the candidates in order of precedence; the first pair
    of files that OpenSSL loads. *)
Record SslSettings := mkSsl {
  ssl_cert_path : string;
  ssl_key_path : string;
  ssl_cert_dir : string;
  ssl_auto_detect : bool;
  ssl_domain : string }.

Definition in_dir (dir chain key : string) : string * string := (dir +:+ "/" +:+ chain, dir +:+ "/" +:+ key).

Definition ssl_candidates (home : string) (cfg : SslSettings) : list (string * string) :=
  (if negb (String.eqb (ssl_cert_path cfg) "") && negb (String.eqb (ssl_key_path cfg) "")
   then [(ssl_cert_path cfg, ssl_key_path cfg)] else []) ++
  (if negb (String.eqb (ssl_cert_dir cfg) "")
   then [in_dir (ssl_cert_dir cfg) "tls.crt" "tls.key"; in_dir (ssl_cert_dir cfg) "fullchain.pem" "privkey.pem";
         in_dir (ssl_cert_dir cfg) "cert.pem" "key.pem"; in_dir (ssl_cert_dir cfg) "server.crt" "server.key"]
   else []) ++
  (if ssl_auto_detect cfg then
     [in_dir "/var/lib/palmanager/certs" fullchain privkey] ++
     (if negb (String.eqb (ssl_domain cfg) "")
      then [in_dir ("/etc/letsencrypt/live/" +:+ str_lower (str_strip (ssl_domain cfg))) fullchain privkey] else []) ++
     [in_dir (home +:+ "/.palmanager/certs") fullchain privkey]
   else []).

(** A pair counts when both are files and [load_cert_chain] accepts them; paths are
    taken with the home directory expanded and links resolved.  Every
    error of the file system or of OpenSSL makes the candidate fail. *)
Definition resolve_ssl_paths (home : string) (is_file : string → bool) (load_cert_chain : string → string → bool)
    (cfg : SslSettings) : option (string * string) :=
  List.find (λ ck, is_file ck.1 && is_file ck.2 && load_cert_chain ck.1 ck.2) (ssl_candidates home cfg).

Lemma resolve_ssl_paths_first home is_file load_cert_chain cfg c k :
  resolve_ssl_paths home is_file load_cert_chain cfg = Some (c, k) →
  is_file c = true ∧ is_file k = true ∧ load_cert_chain c k = true ∧
  ∃ l1 l2, ssl_candidates home cfg = l1 ++ (c, k) :: l2 ∧
    Forall (λ ck, is_file ck.1 && is_file ck.2 && load_cert_chain ck.1 ck.2 = false) l1.
Proof.
  unfold resolve_ssl_paths. induction (ssl_candidates home cfg) as [|[c' k'] l IH]; cbn; [done|].
  destruct (is_file c' && is_file k' && load_cert_chain c' k') eqn:E.
  - intros [= -> ->]. repeat (apply andb_prop in E as [E ?]). split_and!; try done.
    exists [], l. by split.
  - intros H. destruct (IH H) as (H1 & H2 & H3 & l1 & l2 & -> & Hl). split_and!; try done.
    exists ((c', k') :: l1), l2. split; [done|]. by constructor.
Qed.

(** * Provisioning: lemmas *)

(** The certificates that a provisioning can install. *)
Definition new_chains (self_signed : string → string → string) (key d : string)
    (acme : result ACMECertificateResult) : list string :=
  self_signed key d ::
  match acme with
  | Ret r => match acme_success r, fullchain_pem r with true, Some c => [c] | _, _ => [] end
  | Raise _ => []
  end.

Section provisioning.
Context (load_cert : string → option Certificate) (self_signed : string → string → string).
Context (tmp1 tmp2 : string).
Context (Ht1 : tmp1 ≠ fullchain ∧ tmp1 ≠ privkey) (Ht2 : tmp2 ≠ fullchain ∧ tmp2 ≠ privkey).
Context (Hb1 : startswith tmp1 (backup_prefix fullchain) = false).
Context (Hb2 : startswith tmp2 (backup_prefix privkey) = false).

(** One file of the bundle is written: it is [Pt] at every moment and new at the
    end; the other one keeps [Qo]. *)
Lemma write_one tmp target other data m (Pt Qo Po : option File → Prop) :
  tmp ≠ target → tmp ≠ other → target ≠ other → startswith tmp (backup_prefix target) = false →
  (∀ f, is_new data f → Pt f) → (∀ f, Qo f → Po f) →
  spec (λ w, Pt (files w !! target) ∧ Qo (files w !! other) ∧
          Forall (λ fs, Pt (fs !! target) ∧ Po (fs !! other)) (visited w))
    (atomic_write_file tmp "" target data 0 false m true)
    (λ r w, (Pt (files w !! target) ∧ Qo (files w !! other) ∧
             Forall (λ fs, Pt (fs !! target) ∧ Po (fs !! other)) (visited w)) ∧
            match r with Ret _ => is_new data (files w !! target) | Raise e => e = OSError end).
Proof.
  intros Hn1 Hn2 Hn3 Hfresh Hnew HQ w (Ht & Ho & Hv). apply Forall_and in Hv as [Hv1 Hv2].
  pose proof (atomic_write_file_spec tmp "" target data 0 false m true (files w !! target)
    (λ fs, Pt (fs !! target))) as Hs.
  specialize (Hs ltac:(intros fs [->|H]; auto) Hn1 Hfresh w (conj eq_refl Hv1)).
  pose proof (atomic_write_frame (λ fs, Qo (fs !! other)) (λ fs, Po (fs !! other)) (λ n, n ≠ other)
    tmp "" target data 0 m true) as Hf.
  specialize (Hf ltac:(intros fs; apply HQ) ltac:(intros fs n f H Hq; cbv beta in *; by rewrite lookup_insert_ne)
    ltac:(intros fs n H Hq; cbv beta in *; by rewrite lookup_delete_ne) Hn2 Hn3 w (conj Ho Hv2)).
  destruct (atomic_write_file _ _ _ _ _ _ _ _ w) as [[res|e] w']; cbn [fst snd] in *;
    destruct Hf as [Hq Hvo].
  - destruct Hs as ([Hr Hvt] & _). cbv beta in *.
    split; [split; [by apply Hnew|split; [done|by apply Forall_and]]|exact Hr].
  - destruct Hs as ([Hu Hvt] & ->). split; [|done].
    split; [by rewrite Hu|split; [done|by apply Forall_and]].
Qed.

(** What a crash can expose: each file is an old or a whole new one. *)
Context (key : string) (chains : list string) (old_c old_k : option File).
Definition chain_ok (f : option File) : Prop := f = old_c ∨ ∃ c, c ∈ chains ∧ is_new c f.
Definition key_ok (f : option File) : Prop := f = old_k ∨ is_new key f.
Definition bundle_ok (fs : Dir) : Prop := chain_ok (fs !! fullchain) ∧ key_ok (fs !! privkey).

Lemma stage_spec chain :
  chain ∈ chains →
  spec (always bundle_ok bundle_ok) (stage_tls_bundle tmp1 tmp2 chain key)
    (λ r w, always bundle_ok bundle_ok w ∧
       match r with
       | Ret _ => is_new chain (files w !! fullchain) ∧ is_new key (files w !! privkey)
       | Raise e => e = OSError
       end).
Proof using Ht1 Ht2 Hb1 Hb2.
  intros Hchain. unfold stage_tls_bundle.
  eapply spec_bind with (Q := λ _, always bundle_ok bundle_ok).
  { intros w Hw. pose proof (sys_fail_keeps bundle_ok bundle_ok w Hw) as H.
    unfold sys_fail, draw, py_bind, py_raise, py_ret in *.
    by destruct w as [fs [|[[] k] os] vs c]. }
  intros _. eapply spec_bind with (Q := λ _ w, always bundle_ok bundle_ok w ∧ is_new chain (files w !! fullchain)).
  { eapply spec_conseq; [| |apply (write_one tmp1 fullchain privkey chain (Some 420) chain_ok key_ok key_ok)];
      try (by destruct Ht1); try done.
    - intros w [[Hc Hk] Hv]. by split.
    - intros [a|e] w [(Hc & Hk & Hv) Hr]; (split; [split; [by split|exact Hv]|exact Hr]).
    - intros f Hf. right. by exists chain. }
  intros _. eapply spec_bind with (Q := λ _ w, always bundle_ok bundle_ok w ∧
      is_new chain (files w !! fullchain) ∧ is_new key (files w !! privkey)).
  { eapply spec_conseq; [| |apply (write_one tmp2 privkey fullchain key (Some 384) key_ok
      (λ f, chain_ok f ∧ is_new chain f) chain_ok)]; try (by destruct Ht2); try done.
    - intros w [[[Hc Hk] Hv] Hn]. split_and!; try done. eapply Forall_impl; [exact Hv|]. by intros fs [].
    - intros [a|e] w [(Hk & [Hc Hn] & Hv) Hr];
        (split; [split; [by split|eapply Forall_impl; [exact Hv|]; by intros fs []]|]); [by split|exact Hr].
    - intros f Hf. by right.
    - by intros f []. }
  intros _. apply spec_ret. intros w (Hw & Hc & Hk). by split.
Qed.

(** ** The status *)

Lemma status_reads now d w :
  let '(r, w') := get_tls_certificate_status load_cert now d w in
  files w' = files w ∧ visited w' = visited w ∧
  match r with
  | Raise e => e = OSError
  | Ret st => is_valid st = true → ∃ f g c, files w !! fullchain = Some f ∧ files w !! privkey = Some g ∧
      load_cert (f_data f) = Some c ∧ st = status_of now d c
  end.
Proof using.
  unfold get_tls_certificate_status, sys_exists, sys_stat, sys_fail, draw, py_bind, py_get, py_ret, py_raise.
  destruct w as [fs os vs t]. cbn [files oracle visited].
  destruct (fs !! fullchain) as [f|] eqn:Ef; cbn; [|done].
  destruct (fs !! privkey) as [g|] eqn:Eg; cbn; [|done].
  destruct os as [|[[] k] os]; cbn [fst]; [|done|]; cbn [files]; rewrite ?Ef;
    (destruct (load_cert (f_data f)) as [c|] eqn:Ec; split_and!; try done; intros _; by exists f, g, c).
Qed.

Lemma tier1_spec d token acme :
  chains = new_chains self_signed key d acme →
  spec (always bundle_ok bundle_ok) (tier1 tmp1 tmp2 d token key acme)
    (λ r w, always bundle_ok bundle_ok w ∧
       match r with
       | Ret (Some res) => res = provisioned ACME_LETSENCRYPT d 90 ∧
           ∃ a c, acme = Ret a ∧ acme_success a = true ∧ fullchain_pem a = Some c ∧
             is_new c (files w !! fullchain) ∧ is_new key (files w !! privkey)
       | Ret None => True
       | Raise _ => False
       end).
Proof using Ht1 Ht2 Hb1 Hb2.
  intros Hchains. unfold tier1. destruct (String.eqb _ ""); [by apply spec_ret|].
  eapply spec_try with (Q := λ _, always bundle_ok bundle_ok); [|intros e; by apply spec_ret].
  destruct acme as [a|e]; [|by apply spec_raise]. cbn [lift]. rewrite py_bind_ret.
  destruct (acme_success a) eqn:Ea; [|by apply spec_ret].
  destruct (fullchain_pem a) as [[|ch c]|] eqn:Ec; try by apply spec_ret.
  eapply spec_bind with (Q := λ _ w, always bundle_ok bundle_ok w ∧
    is_new (String ch c) (files w !! fullchain) ∧ is_new key (files w !! privkey)).
  - eapply spec_post; [apply stage_spec|].
    { rewrite Hchains. unfold new_chains. rewrite Ea, Ec. right. by left. }
    intros [u|e] w [Hw Hr]; [by split|done].
  - intros _. apply spec_ret. intros w (Hw & Hc & Hk). split; [done|]. split; [done|].
    by exists a, (String ch c).
Qed.
End provisioning.

(** C28: Whatever fails during provisioning, at every moment the certificate and the key
    are each the old file or a complete synced new one.  When it returns that the
    certificate at hand is valid, the files are untouched and the certificate is valid
    for at least 31 days more; whether the key fits it is not looked at
    ([torn_bundle_kept]).  When it returns another mode, both files are new: the new
    key, and the chain that the ACME flow issued or the self-signed certificate of that
    key.  It raises nothing but an error of the file system. *)
Theorem provision_installs_pair load_cert self_signed tmp1 tmp2 now d token force key acme w :
  tmp1 ≠ fullchain ∧ tmp1 ≠ privkey → tmp2 ≠ fullchain ∧ tmp2 ≠ privkey →
  startswith tmp1 (backup_prefix fullchain) = false → startswith tmp2 (backup_prefix privkey) = false →
  visited w = [] →
  let chains := new_chains self_signed key d acme in
  let '(r, w') := provision_tls_certificates load_cert self_signed tmp1 tmp2 now d token force key acme w in
  Forall (bundle_ok key chains (files w !! fullchain) (files w !! privkey)) (visited w') ∧
  match r with
  | Ret res =>
      match mode res with
      | EXISTING_VALID => files w' = files w ∧ force = false ∧ ∃ f c, files w !! fullchain = Some f ∧
          load_cert (f_data f) = Some c ∧ not_before c <= now ∧ 31 * 86400 <= not_after c - now
      | ACME_LETSENCRYPT => ∃ a c, acme = Ret a ∧ acme_success a = true ∧ fullchain_pem a = Some c ∧
          is_new c (files w' !! fullchain) ∧ is_new key (files w' !! privkey)
      | SELF_SIGNED_FALLBACK =>
          is_new (self_signed key d) (files w' !! fullchain) ∧ is_new key (files w' !! privkey)
      end
  | Raise e => e = OSError
  end.
Proof.
  intros Ht1 Ht2 Hb1 Hb2 Hv chains. unfold provision_tls_certificates, py_bind at 1.
  pose proof (status_reads load_cert now (Some d) w) as Hst.
  destruct (get_tls_certificate_status load_cert now (Some d) w) as [[st|e] w1];
    destruct Hst as (Hfs & Hvis & Hst); [|by rewrite Hvis, Hv].
  destruct (negb force && is_valid st && (RENEWAL_THRESHOLD_DAYS <? days_remaining st)) eqn:Eex.
  { apply andb_prop in Eex as [Eex Hdays]. apply andb_prop in Eex as [Hforce Hvalid].
    destruct (Hst Hvalid) as (f & g & c & Hf & _ & Hc & ->). cbn [py_ret mode].
    rewrite Hvis, Hv. split; [constructor|]. split; [done|]. split; [by destruct force|].
    exists f, c. cbn in Hvalid, Hdays. unfold RENEWAL_THRESHOLD_DAYS in Hdays.
    split_and!; try done; [|zdiv]. apply andb_prop in Hvalid as [_ ?]. lia. }
  clear Hst Eex. rewrite <-Hfs. set (B := bundle_ok key chains (files w1 !! fullchain) (files w1 !! privkey)).
  assert (HB : always B B w1).
  { split; [|rewrite Hvis, Hv; constructor]. split; by left. }
  pose proof (tier1_spec self_signed tmp1 tmp2 Ht1 Ht2 Hb1 Hb2 key chains (files w1 !! fullchain)
    (files w1 !! privkey) d token acme eq_refl w1 HB) as Htier. fold B in Htier. unfold py_bind at 1.
  destruct (tier1 tmp1 tmp2 d token key acme w1) as [[[res|]|e] w2]; cbn [fst snd] in Htier; [| |by destruct Htier].
  - destruct Htier as ([_ Hvis2] & -> & a & c & H). cbn [py_ret mode]. split; [exact Hvis2|]. by exists a, c.
  - destruct Htier as [HB2 _].
    pose proof (stage_spec tmp1 tmp2 Ht1 Ht2 Hb1 Hb2 key chains (files w1 !! fullchain) (files w1 !! privkey)
      (self_signed key d) ltac:(by left) w2 HB2) as Hs. fold B in Hs. unfold py_bind.
    destruct (stage_tls_bundle tmp1 tmp2 (self_signed key d) key w2) as [[u|e] w3]; cbn [fst snd] in Hs;
      destruct Hs as ([_ Hvis3] & Hr); [|by split].
    cbn [py_ret mode]. by split.
Qed.

Definition example_cert (s : string) : option Certificate :=
  if String.eqb s "new chain" then Some (mkCert (Some "R3") (Some "my.duckdns.org") ["my.duckdns.org"] 0 (90 * 86400))
  else None.
Definition example_self (key d : string) : string := "self " +:+ key.
Definition old_bundle (os : list outcome) : World :=
  mkWorld (<["privkey.pem"%string := mkFile "old key" true 384 0]> {["fullchain.pem"%string := mkFile "old chain" true 420 0]})
    os [] 0.
Definition issued : result ACMECertificateResult := Ret (mkAcme true (Some "new chain") None).

Lemma provision_installs_pair_witness :
  let '(r, w') := provision_tls_certificates example_cert example_self "t1" "t2" 0 "my.duckdns.org" "tok" false "new key"
    issued (old_bundle []) in
  r = Ret (provisioned ACME_LETSENCRYPT "my.duckdns.org" 90) ∧
  ∃ c, acme_success (mkAcme true (Some "new chain") None) = true ∧ is_new c (files w' !! fullchain) ∧
    is_new "new key" (files w' !! privkey).
Proof.
  pose proof (provision_installs_pair example_cert example_self "t1" "t2" 0 "my.duckdns.org" "tok" false "new key"
    issued (old_bundle []) ltac:(split; intros [=]) ltac:(split; intros [=]) eq_refl eq_refl eq_refl) as H.
  cbv zeta in H. destruct (provision_tls_certificates _ _ _ _ _ _ _ _ _ _ _) as [r w'] eqn:E.
  assert (Hr : r = Ret (provisioned ACME_LETSENCRYPT "my.duckdns.org" 90))
    by (apply (f_equal fst) in E; vm_compute in E; by rewrite <-E).
  subst r. split; [reflexivity|]. destruct H as [_ (a & c & Ha & _ & _ & Hc & Hk)].
  exists c. by split.
Defined.

(** A certificate that is valid for more than 30 days makes provisioning
    report success and change nothing, whatever the key beside it is: a bundle
    that was torn between its two files, whose certificate does not fit its key,
    is not repaired until the certificate nears its expiry. *)
Theorem torn_bundle_kept load_cert self_signed tmp1 tmp2 now d token key acme w f g c :
  files w !! fullchain = Some f → files w !! privkey = Some g → load_cert (f_data f) = Some c →
  not_before c <= now → 31 * 86400 <= not_after c - now → oracle w = [] →
  provision_tls_certificates load_cert self_signed tmp1 tmp2 now d token false key acme w =
  (Ret (provisioned EXISTING_VALID d ((not_after c - now) / 86400)), w).
Proof.
  intros Hf Hg Hc Hb Ha Ho. unfold provision_tls_certificates, get_tls_certificate_status, sys_exists, sys_stat,
    sys_fail, draw, py_bind, py_get, py_ret, py_raise.
  rewrite Hf, Hg. cbn. rewrite Ho. cbn. rewrite Hf, Hc.
  assert (Hd : 31 <= (not_after c - now) / 86400) by zdiv.
  assert (Hst : is_valid (status_of now (Some d) c) = true ∧
    days_remaining (status_of now (Some d) c) = (not_after c - now) / 86400).
  { cbn. split; lia. }
  destruct Hst as [-> ->]. unfold RENEWAL_THRESHOLD_DAYS.
  destruct (Z.ltb_spec 30 ((not_after c - now) / 86400)); [done|lia].
Qed.

(** The writing of the key fails after that of the certificate; the next
    provisioning reports success and leaves the old key with the new certificate. *)
Definition torn : World :=
  mkWorld (files (stage_tls_bundle "t1" "t2" "new chain" "new key"
    (old_bundle (repeat (false, O) 12 ++ [(true, O)]))).2) [] [] 0.

Lemma torn_bundle_kept_witness :
  (f_data <$> files torn !! fullchain, f_data <$> files torn !! privkey) = (Some "new chain"%string, Some "old key"%string) ∧
  provision_tls_certificates example_cert example_self "t1" "t2" 86400 "my.duckdns.org" "tok" false "key2" issued torn =
  (Ret (provisioned EXISTING_VALID "my.duckdns.org" 89), torn).
Proof.
  split; [vm_compute; reflexivity|].
  destruct (files torn !! fullchain) as [f|] eqn:Ef; [|by vm_compute in Ef].
  destruct (files torn !! privkey) as [g|] eqn:Eg; [|by vm_compute in Eg].
  apply (torn_bundle_kept example_cert example_self "t1" "t2" 86400 "my.duckdns.org" "tok" "key2" issued torn f g
    (mkCert (Some "R3") (Some "my.duckdns.org") ["my.duckdns.org"] 0 (90 * 86400)) Ef Eg).
  - vm_compute in Ef. by injection Ef as <-.
  - cbn. lia.
  - cbn. lia.
  - reflexivity.
Defined.

(** * The scheduler *)

Section scheduler.
Context (load_cert : string → option Certificate) (self_signed : string → string → string) (tmp1 tmp2 : string).
Context (cfg : TlsSettings) (Hauto : ssl_auto_renew cfg = true) (Hmode : ssl_cert_mode cfg ≠ "custom").
Notation turn := (scheduler_turn load_cert self_signed tmp1 tmp2 cfg).
Notation run := (scheduler_run load_cert self_signed tmp1 tmp2 cfg).

(** The certificate [c] is installed with some key, and reads do not fail. *)
Definition installed (c : Certificate) (w : World) : Prop :=
  ∃ f g, files w !! fullchain = Some f ∧ files w !! privkey = Some g ∧ load_cert (f_data f) = Some c ∧ oracle w = [].

Lemma status_installed now d c w :
  installed c w → get_tls_certificate_status load_cert now d w = (Ret (status_of now d c), w).
Proof using.
  intros (f & g & Hf & Hg & Hc & Ho). unfold get_tls_certificate_status, sys_exists, sys_stat, sys_fail, draw,
    py_bind, py_get, py_ret, py_raise.
  rewrite Hf, Hg. cbn. rewrite Ho. cbn. by rewrite Hf, Hc.
Qed.

Lemma turn_early now key acme c s :
  installed c (s_world s) → not_before c <= now → 31 * 86400 <= not_after c - now →
  turn now key acme s = (Ret 86400, s).
Proof using Hauto Hmode.
  intros Hc Hb Ha. unfold scheduler_turn, py_try.
  destruct (String.eqb_spec (ssl_cert_mode cfg) "custom"); [done|]. rewrite Hauto. cbn [negb].
  unfold on_world, py_bind at 1. rewrite (status_installed _ _ _ _ Hc).
  assert (Hd : 31 <= (not_after c - now) / 86400) by zdiv.
  replace (is_valid _ && _) with true.
  - cbn [status_of days_remaining]. destruct s as [w r a]. cbn [py_ret]. f_equal. f_equal. lia.
  - cbn. symmetry. destruct (Z.ltb_spec 0 (Z.max 0 ((not_after c - now) / 86400))); [|lia].
    destruct (Z.leb_spec (not_before c) now); [|lia].
    destruct (Z.ltb_spec 30 (Z.max 0 ((not_after c - now) / 86400))); [done|lia].
Qed.

(** No turn raises, and none forgets an attempt. *)
Lemma turn_total now key acme s :
  ∃ sleep s', turn now key acme s = (Ret sleep, s') ∧ attempts s ⊆ attempts s' ∧ 3600 <= sleep <= 86400.
Proof using.
  clear Hauto Hmode.
  assert (Hw : ∀ A (m : PyM World A) s0 r s1, on_world m s0 = (r, s1) → attempts s1 = attempts s0).
  { intros A m s0 r s1. unfold on_world. destruct (m (s_world s0)). by intros [= _ <-]. }
  unfold scheduler_turn, py_try.
  destruct (String.eqb _ "custom"); [by eexists _, _; split_and!; [reflexivity|done| |]|].
  destruct (negb (ssl_auto_renew cfg)); [by eexists _, _; split_and!; [reflexivity|done| |]|].
  unfold py_bind at 1. destruct (on_world _ s) as [[st|e] s1] eqn:E1; pose proof (Hw _ _ _ _ _ E1) as H1.
  2: { eexists _, _. split_and!; [reflexivity|by rewrite H1|lia|lia]. }
  destruct (_ && _); [eexists _, _; split_and!; [reflexivity|by rewrite H1|lia|lia]|].
  unfold py_bind at 1, note_attempt, py_modify. unfold py_bind at 1.
  destruct (on_world _ (mkSched _ _ _)) as [[res|e] s2] eqn:E2; pose proof (Hw _ _ _ _ _ E2) as H2; cbn in H2.
  2: { eexists _, _. split_and!; [reflexivity| |lia|lia]. rewrite H2, H1. set_solver. }
  destruct (success res); eexists _, _; (split_and!; [reflexivity| |lia|lia]); cbn; rewrite H2, H1; set_solver.
Qed.

Lemma run_attempts turns now s : attempts s ⊆ attempts (run turns now s).2.
Proof using.
  clear Hauto Hmode. revert now s. induction turns as [|[[key acme] late] turns IH]; intros now s; cbn [scheduler_run]; [done|].
  destruct (turn_total now key acme s) as (sl & s' & -> & Hin & _). etrans; [exact Hin|apply IH].
Qed.

Lemma turn_due now key acme c s :
  installed c (s_world s) → not_after c - now < 31 * 86400 → now ∈ attempts (turn now key acme s).2.
Proof using Hauto Hmode.
  intros Hc Ha. unfold scheduler_turn, py_try.
  destruct (String.eqb_spec (ssl_cert_mode cfg) "custom"); [done|]. rewrite Hauto. cbn [negb].
  assert (Hst : ∀ d, on_world (get_tls_certificate_status load_cert now d) s = (Ret (status_of now d c), s)).
  { intros d. unfold on_world. rewrite (status_installed _ _ _ _ Hc). by destruct s. }
  set (d := Some (or_localhost (duckdns_domain cfg))) in *. unfold py_bind at 1. rewrite Hst.
  assert (Hd : (not_after c - now) / 86400 <= 30) by zdiv.
  assert (Hdue : is_valid (status_of now d c) && (30 <? days_remaining (status_of now d c)) = false).
  { apply andb_false_intro2. cbn. apply Z.ltb_ge. lia. }
  rewrite Hdue. unfold py_bind at 1, note_attempt, py_modify. unfold py_bind at 1.
  set (s1 := mkSched (s_world s) (restarts s) (now :: attempts s)).
  assert (Hin : ∀ A (m : PyM World A), now ∈ attempts (on_world m s1).2).
  { intros A m. unfold on_world. destruct (m (s_world s1)). cbn. by left. }
  match goal with |- context [on_world ?m s1] => specialize (Hin _ m); destruct (on_world m s1) as [[res|e] s2] end;
    cbn in *; [|done]. by destruct (success res).
Qed.

(** C29: The renewal is in time: with automatic renewal, whatever happens to the
    ACME flow and however much up to [slack] each sleep is overslept, a valid
    certificate leads to an attempt of renewal when less than 31 days remain, and
    at least 30 days less [slack]; one turn per day of validity above 29 is
    enough. *)
Theorem renewal_in_time turns slack now s c :
  installed c (s_world s) → not_before c <= now → 31 * 86400 <= not_after c - now → 0 <= slack →
  Forall (λ t, 0 <= t.2 <= slack) turns → (not_after c - now) / 86400 - 29 <= Z.of_nat (length turns) →
  ∃ t, t ∈ attempts (run turns now s).2 ∧ not_after c - 31 * 86400 < t <= not_after c - 30 * 86400 + slack.
Proof using Hauto Hmode.
  intros Hc Hb Ha Hslack Hlate. revert now Hb Ha.
  induction Hlate as [|[[key acme] late] turns Hl Hlate IH]; intros now Hb Ha Hlen.
  { cbn in Hlen. exfalso. assert (31 <= (not_after c - now) / 86400) by zdiv. lia. }
  cbn [scheduler_run]. rewrite (turn_early now key acme c s Hc Hb Ha). cbn [snd length] in *.
  set (now' := now + 86400 + late).
  assert (Hdays : (not_after c - now') / 86400 <= (not_after c - now) / 86400 - 1).
  { subst now'. replace (not_after c - now) with (not_after c - (now + 86400) + 1 * 86400) by lia.
    rewrite Z.div_add by lia. pose proof (Z.div_le_mono (not_after c - (now + 86400 + late)) (not_after c - (now + 86400)) 86400). lia. }
  destruct (Z.le_gt_cases (31 * 86400) (not_after c - now')) as [Hge|Hlt].
  { apply IH; [lia|exact Hge|lia]. }
  destruct turns as [|[[key' acme'] late'] turns].
  { exfalso. cbn in Hlen. assert (31 <= (not_after c - now) / 86400) by zdiv. lia. }
  exists now'. split; [|subst now'; lia]. cbn [scheduler_run].
  pose proof (turn_due now' key' acme' c s Hc Hlt) as Hin.
  destruct (turn_total now' key' acme' s) as (sl & s' & E & _). rewrite E in Hin |- *.
  by apply run_attempts.
Qed.
End scheduler.

Definition daily : TlsSettings := mkTlsSettings "letsencrypt" true "my.duckdns.org" "tok".
Definition fresh : World :=
  mkWorld (<["privkey.pem"%string := mkFile "k" true 384 0]> {["fullchain.pem"%string := mkFile "new chain" true 420 0]}) [] [] 0.

Lemma renewal_in_time_witness :
  ∃ t, t ∈ attempts (scheduler_run example_cert example_self "t1" "t2" daily
                       (repeat ("key2"%string, issued, 60) 61) 0 (mkSched fresh 0 [])).2 ∧
    59 * 86400 < t <= 60 * 86400 + 60.
Proof.
  assert (Hc : installed example_cert (mkCert (Some "R3") (Some "my.duckdns.org") ["my.duckdns.org"] 0 (90 * 86400)) fresh).
  { eexists _, _. split; [vm_compute; reflexivity|split; [vm_compute; reflexivity|split; reflexivity]]. }
  destruct (renewal_in_time example_cert example_self "t1" "t2" daily eq_refl ltac:(intros [=])
    (repeat ("key2"%string, issued, 60) 61) 60 0 (mkSched fresh 0 []) _ Hc) as (t & Ht & Hr).
  - cbn. lia.
  - cbn. lia.
  - lia.
  - apply Forall_forall. intros x Hx. apply list_elem_of_In, repeat_spec in Hx. subst x. cbn. lia.
  - vm_compute. intros [=].
  - exists t. split; [exact Ht|]. cbn in Hr. lia.
Defined.
