(* ===== verification/Acme.v ===== *)
(** The ACME client of engine/acme_client.py: signed requests, the steps of the
    DNS-01 protocol and the flow that orders a certificate.

    RSA keys, signatures and certificate requests belong to the cryptography
    library and are parameters, as is the network: [answer] gives the outcome of a
    call from the calls made before it.  A session is the calls so far and the
    directory of the account key.  Sleeping is a call whose argument counts tenths
    of a second.  Cancellation of the task is not modelled. *)

From S2P Require Import Prelude PyStr PyDict PyCrypto PyJson AtomicIO Tls.
From Stdlib Require Import ZArith Ascii Bool Lia.
From stdpp Require Import base tactics list strings gmap.

Local Open Scope Z_scope.
Local Open Scope py_scope.

(** * Requests *)

Record Jws := mkJws { protected : string; payload : string; signature : string }.

Inductive Call : Type :=
  | Get (url : string)
  | Head (url : string)
  | Post (url : string) (jws : Jws)
  | Sleep (tenths : nat).

Record Response := mkResponse {
  status : Z;
  location : option string;
  replay_nonce : option string;
  content : string }.

Record ACMEOrder := mkOrder { order_url : string; authorization_urls : json; finalize_url : json }.
Record ACMEChallenge := mkChallenge { challenge_url : json; token : json; key_authorization_digest : string }.

Record Session := mkSession { calls : list Call; key_dir : World }.

Definition ACME_MAX_POLL_ATTEMPTS : nat := 40.

Definition _b64url (data : list Z) : string := rstrip_by (Ascii.eqb "=") (b64encode true data).

(** [n.to_bytes((n.bit_length() + 7) // 8, 'big')] *)
Definition bit_length (n : Z) : Z := if n =? 0 then 0 else Z.log2 n + 1.
Definition int_bytes (n : Z) : list Z := be_bytes (Z.to_nat ((bit_length n + 7) / 8)) n.

(** [dict(v)] of a JSON value: an object, or an iterable of pairs, of which the
    text keys can be looked up later. *)
Definition json_pair (v : json) : result (list (string * json)) :=
  match v with
  | JArr [JStr k; w] => Ret [(k, w)]
  | JArr [JArr _; _] | JArr [JObj _; _] => Raise (TypeError "unhashable type")
  | JArr [_; _] => Ret []
  | JObj l =>
      match dict_update [] l with
      | [(k, _); (w, _)] => Ret [(k, JStr w)]
      | _ => Raise (ValueError "dictionary update sequence element has wrong length")
      end
  | JStr s =>
      if utf8_len s =? 2 then Ret [(utf8_take 1 s, JStr (removeprefix (utf8_take 1 s) s))]
      else Raise (ValueError "dictionary update sequence element has wrong length")
  | JArr _ => Raise (ValueError "dictionary update sequence element has wrong length")
  | _ => Raise (TypeError "cannot convert dictionary update sequence element to a sequence")
  end.
Definition json_dict (v : json) : result (list (string * json)) :=
  match v with
  | JObj l => Ret (dict_update [] l)
  | JArr l =>
      foldl (λ acc w, match acc, json_pair w with
                      | Ret d, Ret p => Ret (dict_update d p)
                      | Ret _, Raise e => Raise e
                      | Raise e, _ => Raise e
                      end) (Ret []) l
  | JStr s => if String.eqb s "" then Ret [] else Raise (ValueError "dictionary update sequence element has wrong length")
  | _ => Raise (TypeError "object is not iterable")
  end.

(** [v[0]] *)
Definition json_first (v : json) : result json :=
  match v with
  | JArr (w :: _) => Ret w
  | JStr (String c s) => Ret (JStr (utf8_take 1 (String c s)))
  | JArr [] | JStr EmptyString => Raise IndexError
  | JObj _ => Raise (KeyError "0")
  | _ => Raise (TypeError "object is not subscriptable")
  end.

Definition as_url (v : json) : result string :=
  match v with JStr s => Ret s | _ => Raise (TypeError "Invalid type for url") end.

Definition raise_for_status (r : Response) : result unit :=
  if (200 <=? status r) && (status r <? 300) then Ret tt else Raise (HTTPError "HTTPStatusError").

Section acme.
Context (json_repr : json → string) (exc_text : exc → string).
(** The account key: loading, its PEM text, its modulus and exponent, its signatures. *)
Context {Key : Type} (load_key : string → result Key) (key_pem : Key → string)
  (public_numbers : Key → Z * Z) (sign : Key → list Z → list Z).
Context (answer : list Call → Call → result Response).

Definition http (c : Call) : PyM Session Response :=
  λ s, (answer (calls s) c, mkSession (calls s ++ [c]) (key_dir s)).
Definition sleep (tenths : nat) : PyM Session unit :=
  py_modify (λ s, mkSession (calls s ++ [Sleep tenths]) (key_dir s)).
Definition on_key_dir {A} (m : PyM World A) : PyM Session A :=
  λ s, let '(r, w) := m (key_dir s) in (r, mkSession (calls s) w).

Definition jwk (key : Key) : list (string * json) :=
  let '(n, e) := public_numbers key in
  [("e", JStr (_b64url (int_bytes e))); ("kty", JStr "RSA"); ("n", JStr (_b64url (int_bytes n)))].

Definition _jwk_thumbprint (key : Key) : string :=
  _b64url (sha256 (bytes_of (dumps "," ":" (JObj (jwk key))))).

Definition _jws_header (key : Key) (url nonce : string) (kid : option string) : json :=
  JObj ([("alg", JStr "RS256"); ("nonce", JStr nonce); ("url", JStr url)] ++
        match kid with
        | Some (String _ _ as k) => [("kid", JStr k)]
        | _ => [("jwk", JObj (jwk key))]
        end).

(** The payload is a dict or a text, of which the callers use the empty one. *)
Definition _sign_jws (key : Key) (url nonce : string) (body : json) (kid : option string) : Jws :=
  let protected64 := _b64url (bytes_of (dumps ", " ": " (_jws_header key url nonce kid))) in
  let payload64 :=
    match body with
    | JStr EmptyString => ""
    | JStr s => _b64url (bytes_of s)
    | _ => _b64url (bytes_of (dumps ", " ": " body))
    end in
  mkJws protected64 payload64 (_b64url (sign key (bytes_of (protected64 +:+ "." +:+ payload64)))).

Definition get_acme_directory (directory_url : string) : PyM Session (list (string * json)) :=
  r <- http (Get directory_url) ;;
  lift (raise_for_status r) ;;;
  v <- lift (json_body (content r)) ;;
  lift (json_dict v).

(** [create_or_load_account_key]; [tmp] is the name of the temporary file and
    [fresh] the key that is generated when there is none. *)
Definition create_or_load_account_key (tmp name : string) (fresh : Key) : PyM World Key :=
  sys_fail ;;;
  there <- sys_exists name ;;
  if there : bool then f <- sys_stat name ;; lift (load_key (f_data f))
  else atomic_write_file tmp "" name (key_pem fresh) 0 false (Some 384) true ;;; py_ret fresh.

Definition get_nonce (new_nonce_url : json) : PyM Session string :=
  u <- lift (as_url new_nonce_url) ;;
  r <- http (Head u) ;;
  lift (raise_for_status r) ;;;
  match replay_nonce r with
  | Some (String _ _ as n) => py_ret n
  | _ => py_raise (ValueError "Replay-Nonce header missing from response")
  end.

(** What every request does: a new nonce, the signature, the post. *)
Definition post_jws (key : Key) (url new_nonce_url body : json) (kid : option string) : PyM Session Response :=
  nonce <- get_nonce new_nonce_url ;;
  u <- lift (as_url url) ;;
  r <- http (Post u (_sign_jws key u nonce body kid)) ;;
  lift (raise_for_status r) ;;;
  py_ret r.

Definition register_account (key : Key) (new_account_url new_nonce_url : json) : PyM Session string :=
  r <- post_jws key new_account_url new_nonce_url (JObj [("termsOfServiceAgreed", JBool true)]) None ;;
  match location r with
  | Some (String _ _ as u) => py_ret u
  | _ => py_raise (ValueError "Location header missing from newAccount response")
  end.

Definition create_order (account_url : string) (key : Key) (domain : string) (new_order_url new_nonce_url : json)
    : PyM Session ACMEOrder :=
  r <- post_jws key new_order_url new_nonce_url
         (JObj [("identifiers", JArr [JObj [("type", JStr "dns"); ("value", JStr domain)]])]) (Some account_url) ;;
  match location r with
  | Some (String _ _ as u) =>
      data <- lift (json_body (content r)) ;;
      auths <- lift (json_field data "authorizations" (JArr [])) ;;
      fin <- lift (json_field data "finalize" (JStr "")) ;;
      py_ret (mkOrder u auths fin)
  | _ => py_raise (ValueError "Location header missing from newOrder response")
  end.

Definition compute_key_authorization_digest (token : json) (key : Key) : result string :=
  let key_auth := py_str json_repr token +:+ "." +:+ _jwk_thumbprint key in
  if str_isascii key_auth then Ret (_b64url (sha256 (bytes_of key_auth)))
  else Raise (ValueError "UnicodeEncodeError").

(** The first challenge of type dns-01. *)
Fixpoint find_challenge (key : Key) (challenges : list json) : result ACMEChallenge :=
  match challenges with
  | [] => Raise (ValueError "No dns-01 challenge found in authorization")
  | ch :: rest =>
      match json_field ch "type" JNull with
      | Raise e => Raise e
      | Ret (JStr "dns-01") =>
          match json_field ch "token" (JStr "") with
          | Raise e => Raise e
          | Ret t =>
              match compute_key_authorization_digest t key, json_field ch "url" (JStr "") with
              | Ret d, Ret u => Ret (mkChallenge u t d)
              | Raise e, _ | _, Raise e => Raise e
              end
          end
      | Ret _ => find_challenge key rest
      end
  end.

Definition get_dns01_challenge (account_url : string) (key : Key) (authorization_url new_nonce_url : json)
    : PyM Session ACMEChallenge :=
  r <- post_jws key authorization_url new_nonce_url (JStr "") (Some account_url) ;;
  data <- lift (json_body (content r)) ;;
  challenges <- lift (json_field data "challenges" (JArr [])) ;;
  l <- lift (json_iter challenges) ;;
  lift (find_challenge key l).

Definition respond_to_challenge (account_url : string) (key : Key) (url new_nonce_url : json) : PyM Session bool :=
  post_jws key url new_nonce_url (JObj []) (Some account_url) ;;; py_ret true.

Definition is_status (v : json) (t : string) : bool := match v with JStr s => String.eqb s t | _ => false end.

(** The loop of [poll_order_status] with the attempts that are left. *)
Fixpoint poll_attempts (n : nat) (account_url : string) (key : Key) (url new_nonce_url : json) : PyM Session json :=
  match n with
  | O => py_raise OSError
  | S n' =>
      r <- post_jws key url new_nonce_url (JStr "") (Some account_url) ;;
      data <- lift (json_body (content r)) ;;
      st <- lift (json_field data "status" JNull) ;;
      if is_status st "ready" || is_status st "valid" || is_status st "invalid" then py_ret data
      else sleep 30 ;;; poll_attempts n' account_url key url new_nonce_url
  end.
Definition poll_order_status : string → Key → json → json → PyM Session json :=
  poll_attempts ACME_MAX_POLL_ATTEMPTS.

Definition finalize_order (account_url : string) (key : Key) (url : json) (csr_der : list Z) (new_nonce_url : json)
    : PyM Session json :=
  r <- post_jws key url new_nonce_url (JObj [("csr", JStr (_b64url csr_der))]) (Some account_url) ;;
  data <- lift (json_body (content r)) ;;
  st <- lift (json_field data "status" JNull) ;;
  final <- (if is_status st "processing" then
              let polled := match location r with Some u => JStr u | None => url end in
              data' <- poll_order_status account_url key polled new_nonce_url ;;
              st' <- lift (json_field data' "status" JNull) ;;
              py_ret (data', st')
            else py_ret (data, st)) ;;
  if negb (is_status final.2 "valid") then py_raise (ValueError "Order not valid after finalize")
  else
    cert_url <- lift (json_field final.1 "certificate" JNull) ;;
    if truthy cert_url then py_ret cert_url
    else py_raise (ValueError "Certificate URL missing from finalized order").

Definition download_certificate (account_url : string) (key : Key) (certificate_url new_nonce_url : json)
    : PyM Session string :=
  r <- post_jws key certificate_url new_nonce_url (JStr "") (Some account_url) ;;
  py_ret (content r).

(** * The flow *)

(** The DuckDNS helpers on the network of the session. *)
Definition duckdns (call : (string → result (Z * string)) → result bool) (url : string) : PyM Session bool :=
  λ s, (call (λ u, match answer (calls s) (Get u) with
                   | Ret r => Ret (status r, content r)
                   | Raise e => Raise e
                   end),
        mkSession (calls s ++ [Get url]) (key_dir s)).
Definition set_txt (domain duckdns_token txt : string) : PyM Session bool :=
  duckdns (λ get, set_duckdns_txt_record get domain duckdns_token txt)
    (duckdns_url domain duckdns_token ("&txt=" +:+ txt)).
Definition clear_txt (domain duckdns_token : string) : PyM Session bool :=
  duckdns (λ get, clear_duckdns_txt_record get domain duckdns_token) (duckdns_url domain duckdns_token "&clear=true").

(** Steps 8 to 11, once the record is set; [csr] is the request for the
    certificate in DER, if the library can make it for the domain. *)
Definition validate_and_issue (account_url : string) (key : Key) (order : ACMEOrder) (challenge : ACMEChallenge)
    (new_nonce_url : json) (csr : result (list Z)) : PyM Session string :=
  sleep 100 ;;;
  respond_to_challenge account_url key (challenge_url challenge) new_nonce_url ;;;
  final <- poll_order_status account_url key (JStr (order_url order)) new_nonce_url ;;
  st <- lift (json_field final "status" JNull) ;;
  if is_status st "invalid" then py_raise (ValueError "Order became invalid during validation")
  else
    csr_der <- lift csr ;;
    cert_url <- finalize_order account_url key (finalize_url order) csr_der new_nonce_url ;;
    download_certificate account_url key cert_url new_nonce_url.

(** Steps 7 to 12: the record is cleared when the call that set it returned. *)
Definition with_txt_record {A} (domain duckdns_token txt : string) (body : PyM Session A) : PyM Session A :=
  set_txt domain duckdns_token txt ;;;
  py_finally body (py_try (clear_txt domain duckdns_token ;;; py_ret tt) (λ _, py_ret tt)).

(** Steps 2 to 6: the account key, the account, the order and its challenge. *)
Definition prepare (domain : string) (directory : list (string * json)) (tmp key_name : string) (fresh : Key)
    : PyM Session (Key * string * ACMEOrder * ACMEChallenge) :=
  let endpoint k := default (JStr "") (dict_get k directory) in
  key <- on_key_dir (create_or_load_account_key tmp key_name fresh) ;;
  account_url <- register_account key (endpoint "newAccount") (endpoint "newNonce") ;;
  order <- create_order account_url key domain (endpoint "newOrder") (endpoint "newNonce") ;;
  if negb (truthy (authorization_urls order)) then
    py_raise (ValueError "No authorization URLs returned from newOrder")
  else
    authz_url <- lift (json_first (authorization_urls order)) ;;
    challenge <- get_dns01_challenge account_url key authz_url (endpoint "newNonce") ;;
    py_ret (key, account_url, order, challenge).

Definition dns01_steps (domain duckdns_token directory_url tmp key_name : string) (fresh : Key)
    (csr : result (list Z)) : PyM Session string :=
  directory <- get_acme_directory directory_url ;;
  ready <- prepare domain directory tmp key_name fresh ;;
  let '(key, account_url, order, challenge) := ready in
  with_txt_record domain duckdns_token (key_authorization_digest challenge)
    (validate_and_issue account_url key order challenge (default (JStr "") (dict_get "newNonce" directory)) csr).

Definition perform_dns01_flow (domain duckdns_token directory_url tmp key_name : string) (fresh : Key)
    (csr : result (list Z)) : PyM Session ACMECertificateResult :=
  py_try
    (cert_pem <- dns01_steps domain duckdns_token directory_url tmp key_name fresh csr ;;
     py_ret (mkAcme true (Some cert_pem) None))
    (λ e, py_ret (mkAcme false None (Some (exc_text e)))).

(** * Traces of calls *)

Definition posts_of : list Call → list string := omap (λ c, match c with Post u _ => Some u | _ => None end).
Definition gets_of : list Call → list string := omap (λ c, match c with Get u => Some u | _ => None end).
Definition slept : list Call → nat := foldr (λ c t, match c with Sleep n => n + t | _ => t end)%nat 0%nat.

(** Every post of [new], made after the calls [h], carries the nonce of the call
    just before it. *)
Definition nonces_fresh (h new : list Call) : Prop :=
  ∀ pre u j post, new = pre ++ Post u j :: post →
  ∃ pre' nu r nonce key body kid,
    pre = pre' ++ [Head nu] ∧ answer (h ++ pre') (Head nu) = Ret r ∧ replay_nonce r = Some nonce ∧
    nonce ≠ ""%string ∧ j = _sign_jws key u nonce body kid.

Lemma nonces_fresh_app h a b : nonces_fresh h a → nonces_fresh (h ++ a) b → nonces_fresh h (a ++ b).
Proof using.
  intros Ha Hb pre u j post E.
  destruct (app_eq_inv _ _ _ _ E) as [(k & -> & E')|(k & -> & E')].
  - destruct k as [|c k].
    + cbn in E'. symmetry in E'. destruct (Hb [] u j post E') as (pre' & ? & ? & ? & ? & ? & ? & H & _).
      by destruct pre'.
    + cbn in E'. injection E' as <- ->. by eapply Ha.
  - destruct (Hb k u j post E') as (pre' & nu & r & nonce & key & body & kid & -> & Hr & Hn).
    exists (a ++ pre'), nu, r, nonce, key, body, kid. rewrite app_assoc. split; [done|]. by rewrite app_assoc.
Qed.

Record talk (n t : nat) (h new : list Call) : Prop := mkTalk {
  talk_gets : gets_of new = [];
  talk_nonces : nonces_fresh h new;
  talk_length : (length new ≤ n)%nat;
  talk_slept : (slept new ≤ t)%nat }.

Lemma slept_app a b : slept (a ++ b) = (slept a + slept b)%nat.
Proof using. induction a as [|c a IH]; cbn; [done|]. rewrite IH. destruct c; lia. Qed.

Lemma nonces_fresh_nil h : nonces_fresh h [].
Proof using. by intros [|? ?] u j post. Qed.

Lemma talk_nil n t h : talk n t h [].
Proof using. split; [done|apply nonces_fresh_nil|cbn; lia|cbn; lia]. Qed.

Lemma talk_app n1 t1 n2 t2 h a b : talk n1 t1 h a → talk n2 t2 (h ++ a) b → talk (n1 + n2) (t1 + t2) h (a ++ b).
Proof using.
  intros [Ga Na La Sa] [Gb Nb Lb Sb]. split.
  - unfold gets_of in *. by rewrite omap_app, Ga, Gb.
  - by apply nonces_fresh_app.
  - rewrite length_app. lia.
  - rewrite slept_app. lia.
Qed.

Lemma talk_weaken n t n' t' h new : talk n t h new → (n ≤ n')%nat → (t ≤ t')%nat → talk n' t' h new.
Proof using. intros [] ? ?. split; [done|done|lia|lia]. Qed.

(** A computation that makes at most [n] calls, sleeps at most [t], and whose
    result relates to the addresses it posted to and to all calls so far. *)
Definition says {A} (n t : nat) (φ : A → list string → list Call → Prop) (m : PyM Session A) : Prop :=
  ∀ s, ∃ new, calls (m s).2 = calls s ++ new ∧ talk n t (calls s) new ∧
    ∀ a, (m s).1 = Ret a → φ a (posts_of new) (calls s ++ new).

Lemma says_conseq {A} n t n' t' φ φ' (m : PyM Session A) :
  says n t φ m → (n ≤ n')%nat → (t ≤ t')%nat → (∀ a p h, φ a p h → φ' a p h) → says n' t' φ' m.
Proof using.
  intros Hm Hn Ht Hφ s. destruct (Hm s) as (new & E & Ht' & Hr). exists new. split; [done|].
  split; [by eapply talk_weaken|]. intros a Ha. by apply Hφ, Hr.
Qed.

Lemma says_weaken {A} n t n' t' φ (m : PyM Session A) : says n t φ m → (n ≤ n')%nat → (t ≤ t')%nat → says n' t' φ m.
Proof using. intros Hm Hn Ht. by eapply says_conseq. Qed.

Lemma says_bind {A B} n1 t1 n2 t2 φ ψ (m : PyM Session A) (k : A → PyM Session B) :
  says n1 t1 φ m → (∀ a p h, φ a p h → says n2 t2 (λ b p', ψ b (p ++ p')) (k a)) →
  says (n1 + n2) (t1 + t2) ψ (py_bind m k).
Proof using.
  intros Hm Hk s. destruct (Hm s) as (new & E & Ht & Hr). unfold py_bind.
  destruct (m s) as [[a|e] s1]; cbn [fst snd] in *.
  - destruct (Hk a _ _ (Hr a eq_refl) s1) as (new' & E' & Ht' & Hr'). exists (new ++ new').
    rewrite E in Ht', E', Hr'. rewrite app_assoc. split; [done|]. split; [by apply talk_app|].
    intros b Hb. unfold posts_of. rewrite omap_app. by apply Hr'.
  - exists new. split; [done|]. split; [eapply talk_weaken; [exact Ht|lia|lia]|]. done.
Qed.

Lemma says_lift {A} n t (r : result A) : says n t (λ a p _, r = Ret a ∧ p = []) (lift r).
Proof using.
  intros s. exists []. rewrite app_nil_r. destruct r; (split; [done|]); (split; [apply talk_nil|]);
    intros a'; cbn; [by intros [= ->]|done].
Qed.

Lemma says_ret {A} n t (a : A) : says n t (λ b p _, b = a ∧ p = []) (py_ret a).
Proof using.
  intros s. exists []. rewrite app_nil_r. split; [done|]. split; [apply talk_nil|]. cbn. by intros b [= ->].
Qed.
Lemma says_raise {A} n t φ e : says (A := A) n t φ (py_raise e).
Proof using. intros s. exists []. rewrite app_nil_r. split; [done|]. split; [apply talk_nil|]. done. Qed.

Lemma says_sleep k : says 1 k (λ _ p _, p = []) (sleep k).
Proof using.
  intros s. exists [Sleep k]. split; [done|]. split; [|done]. split; [done| |cbn; lia|cbn; lia].
  intros [|? [|? ?]] u j post; done.
Qed.

(** What a post that returned tells: its address, and that it was the last call. *)
Definition posted (url : json) (r : Response) (p : list string) (h : list Call) : Prop :=
  ∃ u pre j, url = JStr u ∧ p = [u] ∧ h = pre ++ [Post u j] ∧ answer pre (Post u j) = Ret r ∧
    raise_for_status r = Ret tt.

Lemma talk_head n t h u : talk (S n) t h [Head u].
Proof using. split; [done| |cbn; lia|cbn; lia]. intros [|? [|? ?]] v j post; done. Qed.

Lemma post_jws_says key url nurl body kid : says 2 0 (posted url) (post_jws key url nurl body kid).
Proof using.
  intros s. set (good := λ rs : result Response * Session, ∃ new, calls rs.2 = calls s ++ new ∧ talk 2 0 (calls s) new ∧
    ∀ a, rs.1 = Ret a → posted url a (posts_of new) (calls s ++ new)).
  change (good (post_jws key url nurl body kid s)).
  assert (Hnil : ∀ e, good (Raise e, s)).
  { intros e. exists []. rewrite app_nil_r. split; [done|]. split; [apply talk_nil|done]. }
  unfold post_jws, get_nonce. destruct nurl as [| | | | |nu| |]; try exact (Hnil _). clear Hnil.
  cbn [as_url lift]. rewrite !py_bind_ret.
  set (s1 := mkSession (calls s ++ [Head nu]) (key_dir s)).
  assert (Hhead : ∀ e, good (Raise e, s1)).
  { intros e. exists [Head nu]. split; [done|]. split; [apply talk_head|done]. }
  unfold py_bind at 1 2, http at 1. fold s1.
  destruct (answer (calls s) (Head nu)) as [r|e] eqn:Er; [|exact (Hhead e)].
  unfold py_bind at 1. destruct (raise_for_status r) as [[]|e]; [|exact (Hhead e)]. cbn [lift py_ret].
  destruct (replay_nonce r) as [[|c nonce]|] eqn:En; try exact (Hhead _). cbn [py_ret].
  destruct url as [| | | | |u| |]; try exact (Hhead _). clear Hhead. cbn [as_url lift]. rewrite !py_bind_ret.
  set (j := _sign_jws key u (String c nonce) body kid).
  set (s2 := mkSession (calls s1 ++ [Post u j]) (key_dir s1)).
  assert (Ht : talk 2 0 (calls s) [Head nu; Post u j]).
  { split; [done| |cbn; lia|cbn; lia].
    intros [|c1 [|c2 [|c3 pre]]] v j' post; try done. intros [= <- <- <- <-].
    exists [], nu, r, (String c nonce), key, body, kid. rewrite app_nil_r. done. }
  assert (Hs2 : calls s2 = calls s ++ [Head nu; Post u j]).
  { unfold s2, s1. cbn. by rewrite <-app_assoc. }
  assert (Hpost : ∀ e, good (Raise e, s2)).
  { intros e. exists [Head nu; Post u j]. split; [done|]. split; [exact Ht|done]. }
  unfold py_bind at 1, http. fold s2.
  destruct (answer (calls s1) (Post u j)) as [r'|e] eqn:Er'; [|exact (Hpost e)].
  unfold py_bind. destruct (raise_for_status r') as [[]|e] eqn:Es; cbn [lift py_ret py_raise]; [|exact (Hpost e)].
  exists [Head nu; Post u j]. split; [done|]. split; [exact Ht|].
  intros a [= <-]. exists u, (calls s1), j. split_and!; [done|done| |done|done].
  unfold s1. cbn. by rewrite <-app_assoc.
Qed.

(** Computations without calls. *)
Definition quiet {A} (m : PyM Session A) : Prop := ∀ s, calls (m s).2 = calls s.
Lemma quiet_lift {A} (r : result A) : quiet (lift r).
Proof using. by destruct r. Qed.
Lemma quiet_ret {A} (a : A) : quiet (py_ret a).
Proof using. done. Qed.
Lemma quiet_raise {A} e : quiet (py_raise (A := A) e).
Proof using. done. Qed.
Lemma quiet_bind {A B} (m : PyM Session A) (k : A → PyM Session B) : quiet m → (∀ a, quiet (k a)) → quiet (py_bind m k).
Proof using.
  intros Hm Hk s. unfold py_bind. specialize (Hm s). destruct (m s) as [[a|e] s']; cbn in *; [|done].
  by rewrite Hk.
Qed.
Hint Resolve quiet_lift quiet_ret quiet_raise quiet_bind : core.

Lemma says_quiet {A} n t (m : PyM Session A) : quiet m → says n t (λ _ p _, p = []) m.
Proof using.
  intros Hm s. exists []. rewrite app_nil_r. split; [apply Hm|]. split; [apply talk_nil|done].
Qed.

Lemma says_then {A B} n t φ (m : PyM Session A) (k : A → PyM Session B) :
  says n t φ m → (∀ a, quiet (k a)) → says n t (λ _ p _, ∃ a h, φ a p h) (py_bind m k).
Proof using.
  intros Hm Hk. rewrite <-(Nat.add_0_r n), <-(Nat.add_0_r t).
  eapply says_bind; [exact Hm|]. intros a p h Ha.
  eapply says_conseq; [apply (says_quiet 0 0), Hk|lia|lia|]. intros b p' h' ->. rewrite app_nil_r. eauto.
Qed.

Definition one_post (url : json) (p : list string) : Prop := ∃ u, url = JStr u ∧ p = [u].
Lemma post_then {B} key url nurl body kid (k : Response → PyM Session B) :
  (∀ r, quiet (k r)) → says 2 0 (λ _ p _, one_post url p) (py_bind (post_jws key url nurl body kid) k).
Proof using.
  intros Hk. eapply says_conseq; [apply says_then; [apply post_jws_says|done]|lia|lia|].
  intros b p h (r & h' & u & pre & j & -> & -> & _). by exists u.
Qed.

Ltac quietly :=
  repeat first
    [ apply quiet_lift | apply quiet_ret | apply quiet_raise
    | apply quiet_bind; [|intros ?]
    | progress case_match ].

Lemma register_says key url nurl : says 2 0 (λ _ p _, one_post url p) (register_account key url nurl).
Proof using. apply post_then. intros r. quietly. Qed.
Lemma order_says acct key domain url nurl : says 2 0 (λ _ p _, one_post url p) (create_order acct key domain url nurl).
Proof using. apply post_then. intros r. quietly. Qed.
Lemma challenge_says acct key url nurl : says 2 0 (λ _ p _, one_post url p) (get_dns01_challenge acct key url nurl).
Proof using. apply post_then. intros r. quietly. Qed.
Lemma respond_says acct key url nurl : says 2 0 (λ _ p _, one_post url p) (respond_to_challenge acct key url nurl).
Proof using. apply post_then. intros r. quietly. Qed.

Lemma poll_says n acct key url nurl :
  says (3 * n) (30 * n) (λ _ p _, ∃ u k, url = JStr u ∧ p = replicate k u ∧ (1 ≤ k ≤ n)%nat)
    (poll_attempts n acct key url nurl).
Proof using.
  induction n as [|n IH]; [apply says_raise|]. cbn [poll_attempts].
  replace (3 * S n)%nat with (2 + (0 + (0 + (1 + 3 * n))))%nat by lia.
  replace (30 * S n)%nat with (0 + (0 + (0 + (30 + 30 * n))))%nat by lia.
  eapply says_bind; [apply post_jws_says|]. intros r p h (u & pre & j & -> & -> & _).
  eapply says_bind; [apply says_lift|]. intros data p1 h1 [_ ->].
  eapply says_bind; [apply says_lift|]. intros st p2 h2 [_ ->]. cbn [app].
  destruct (is_status st "ready" || is_status st "valid" || is_status st "invalid").
  - eapply says_conseq; [apply (says_ret 0 0)|lia|lia|]. intros a p3 h3 [_ ->]. exists u, 1%nat. split_and!; [done|done|lia|lia].
  - eapply says_bind; [apply says_sleep|]. intros _ p3 h3 ->. cbn [app].
    eapply says_conseq; [exact IH|lia|lia|]. intros a p4 h4 (u' & k & [= <-] & -> & Hk).
    exists u, (S k). split_and!; [done|done|lia|lia].
Qed.

Lemma finalize_says acct key url csr nurl :
  says 122 1200 (λ _ p _, ∃ u v j, url = JStr u ∧ p = u :: replicate j v ∧ (j ≤ 40)%nat)
    (finalize_order acct key url csr nurl).
Proof using.
  unfold finalize_order. apply (says_weaken (2 + (0 + (0 + (120 + 0)))) (0 + (0 + (0 + (1200 + 0))))); [|lia|lia].
  eapply says_bind; [apply post_jws_says|]. intros r p h (u & pre & j & -> & -> & _).
  eapply says_bind; [apply says_lift|]. intros data p1 h1 [_ ->].
  eapply says_bind; [apply says_lift|]. intros st p2 h2 [_ ->]. cbn [app].
  eapply (says_bind _ _ _ _ (λ _ p _, ∃ v j, p = replicate j v ∧ (j ≤ 40)%nat)).
  - destruct (is_status st "processing").
    + eapply says_conseq; [apply says_then; [apply (poll_says 40)|intros ?; quietly]|lia|lia|].
      intros a p3 h3 (x & h' & v & k & _ & -> & Hk). exists v, k. split; [done|lia].
    + eapply says_conseq; [apply (says_ret 0 0)|lia|lia|]. intros a p3 h3 [_ ->]. exists u, 0%nat. split; [done|lia].
  - intros final p3 h3 (v & k & -> & Hk). eapply says_conseq; [apply (says_quiet 0 0)|lia|lia|].
    + quietly.
    + intros a p4 h4 ->. exists u, v, k. rewrite app_nil_r. done.
Qed.

(** The certificate is what the server answered to the last post. *)
Definition certificate_from (c pem : string) (h : list Call) : Prop :=
  ∃ pre j r, h = pre ++ [Post c j] ∧ answer pre (Post c j) = Ret r ∧ raise_for_status r = Ret tt ∧ content r = pem.

Lemma download_says acct key url nurl :
  says 2 0 (λ pem p h, ∃ c, url = JStr c ∧ p = [c] ∧ certificate_from c pem h) (download_certificate acct key url nurl).
Proof using.
  intros s. destruct (post_jws_says key url nurl (JStr "") (Some acct) s) as (new & E & Ht & Hr).
  exists new. unfold download_certificate, py_bind. destruct (post_jws _ _ _ _ _ s) as [[r|e] s']; cbn in *; [|done].
  split; [done|]. split; [done|]. intros a [= <-]. destruct (Hr r eq_refl) as (u & pre & j & -> & -> & -> & Ha & Hs).
  exists u. split; [done|]. split; [done|]. by exists pre, j, r.
Qed.

(** The posts after the record is set: the challenge, the order until it is
    ready, its completion, the order until it is valid, the certificate. *)
Definition issued (order : ACMEOrder) (challenge : ACMEChallenge) (pem : string) (p : list string) (h : list Call) : Prop :=
  ∃ ch f v c k j, challenge_url challenge = JStr ch ∧ finalize_url order = JStr f ∧
    (1 ≤ k ≤ 40)%nat ∧ (j ≤ 40)%nat ∧
    p = ch :: replicate k (order_url order) ++ f :: replicate j v ++ [c] ∧ certificate_from c pem h.

Lemma validate_says acct key order ch nurl csr :
  says 247 2500 (issued order ch) (validate_and_issue acct key order ch nurl csr).
Proof using.
  unfold validate_and_issue.
  apply (says_weaken (1 + (2 + (120 + (0 + (0 + (122 + 2))))))
    (100 + (0 + (1200 + (0 + (0 + (1200 + 0))))))); [|lia|lia].
  eapply says_bind; [apply says_sleep|]. intros _ p0 h0 ->.
  eapply says_bind; [apply respond_says|]. intros _ p1 h1 (c1 & Hc1 & ->).
  eapply says_bind; [apply (poll_says 40)|]. intros final p2 h2 (u & k & [= <-] & -> & Hk).
  eapply says_bind; [apply says_lift|]. intros st p3 h3 [_ ->].
  destruct (is_status st "invalid"); [apply says_raise|].
  eapply says_bind; [apply says_lift|]. intros der p4 h4 [_ ->].
  eapply says_bind; [apply finalize_says|]. intros cert p5 h5 (f & v & j & Hf & -> & Hj).
  eapply says_conseq; [apply download_says|lia|lia|]. intros pem p6 h6 (c & -> & -> & Hc).
  exists c1, f, v, c, k, j. split_and!; [done|done|lia|lia|lia| |done].
  cbn. by rewrite <-?app_assoc.
Qed.

(** ** The whole flow *)

Lemma prepare_says domain directory tmp name fresh :
  says 6 0 (λ x p _, ∃ a o z, p = [a; o; z]) (prepare domain directory tmp name fresh).
Proof using.
  unfold prepare. apply (says_weaken (0 + (2 + (2 + (0 + (2 + 0))))) (0 + (0 + (0 + (0 + (0 + 0)))))); [|lia|lia].
  eapply says_bind; [apply (says_quiet 0 0)|].
  { intros s. unfold on_key_dir. by destruct (create_or_load_account_key _ _ _ _). }
  intros key p h ->. eapply says_bind; [apply register_says|]. intros acct p1 h1 (a & _ & ->).
  eapply says_bind; [apply order_says|]. intros order p2 h2 (o & _ & ->).
  destruct (truthy _); [|apply says_raise]. cbn [negb].
  eapply says_bind; [apply says_lift|]. intros z p3 h3 [_ ->].
  eapply says_bind; [apply challenge_says|]. intros ch p4 h4 (z' & _ & ->).
  eapply says_conseq; [apply (says_ret 0 0)|lia|lia|]. intros x p5 h5 [_ ->]. by exists a, o, z'.
Qed.

Section flow.
Context (domain duckdns_token : string).
Notation set_url txt := (duckdns_url domain duckdns_token ("&txt=" +:+ txt)).
Notation clear_url := (duckdns_url domain duckdns_token "&clear=true").

(** The call that sets the record failed in a way that DuckDNS helpers do not handle. *)
Definition set_raised (h : list Call) (txt : string) : Prop :=
  ∃ e, answer h (Get (set_url txt)) = Raise e ∧ ∀ c, e ≠ HTTPError c.

Lemma duckdns_raise (r : result (Z * string)) e : duckdns_ok r = Raise e → r = Raise e ∧ ∀ c, e ≠ HTTPError c.
Proof using.
  destruct r as [[st t]|e']; cbn; [by destruct (_ && _)|]. destruct e'; try done; intros [= <-]; done.
Qed.

Lemma with_txt_trace {A} n t φ txt (body : PyM Session A) s :
  says n t φ body →
  let '(r, s') := with_txt_record domain duckdns_token txt body s in
  (∃ e, r = Raise e ∧ calls s' = calls s ++ [Get (set_url txt)] ∧ set_raised (calls s) txt) ∨
  (∃ mid, calls s' = calls s ++ Get (set_url txt) :: mid ++ [Get clear_url] ∧
     talk n t (calls s ++ [Get (set_url txt)]) mid ∧
     ∀ a, r = Ret a → φ a (posts_of mid) (calls s ++ Get (set_url txt) :: mid)).
Proof using.
  intros Hbody. unfold with_txt_record. unfold py_bind at 1. unfold set_txt at 1, duckdns at 1, set_duckdns_txt_record.
  set (s1 := mkSession (calls s ++ [Get (set_url txt)]) (key_dir s)).
  destruct (duckdns_ok _) as [b|e] eqn:Eset.
  - destruct (Hbody s1) as (mid & E & Ht & Hr). unfold py_finally.
    destruct (body s1) as [r s2]. cbn [fst snd] in *.
    assert (Hc : ∃ s3, py_try (clear_txt domain duckdns_token ;;; py_ret tt) (λ _, py_ret tt) s2 = (Ret tt, s3) ∧
      calls s3 = calls s2 ++ [Get clear_url]).
    { unfold py_try, py_bind, clear_txt, duckdns. destruct (clear_duckdns_txt_record _ _ _); eexists; split; reflexivity. }
    destruct Hc as (s3 & -> & Hc). right. exists mid. rewrite Hc, E. unfold s1 in *. cbn [calls] in *.
    split; [by rewrite <-!app_assoc|]. split; [done|]. intros a ->. specialize (Hr a eq_refl).
    by rewrite <-app_assoc in Hr.
  - left. exists e. split; [done|]. split; [done|].
    apply duckdns_raise in Eset as [Eset Hne]. exists e. split; [|done].
    destruct (answer (calls s) (Get (set_url txt))); [done|]. by injection Eset as ->.
Qed.

(** The calls of a flow: the directory, the account with the order and its
    challenge, and then the record around everything else. *)
Lemma steps_trace directory_url tmp name fresh csr s :
  let h := calls s ++ [Get directory_url] in
  let '(r, s') := dns01_steps domain duckdns_token directory_url tmp name fresh csr s in
  ∃ pre tail, calls s' = h ++ pre ++ tail ∧ talk 6 0 h pre ∧
    ((tail = [] ∧ ∃ e, r = Raise e) ∨
     (∃ e txt, r = Raise e ∧ tail = [Get (set_url txt)] ∧ set_raised (h ++ pre) txt) ∨
     (∃ txt mid, tail = Get (set_url txt) :: mid ++ [Get clear_url] ∧
        talk 247 2500 (h ++ pre ++ [Get (set_url txt)]) mid ∧
        ∀ pem, r = Ret pem → ∃ a o z order ch, posts_of pre = [a; o; z] ∧
          issued order ch pem (posts_of mid) (h ++ pre ++ Get (set_url txt) :: mid))).
Proof using.
  intros h. unfold dns01_steps. unfold py_bind at 1.
  assert (Hdir : (get_acme_directory directory_url s).2 = mkSession h (key_dir s)).
  { unfold get_acme_directory, py_bind, http. destruct (answer _ _) as [r|e]; [|done].
    destruct (raise_for_status r); [|done]. cbn [lift py_ret].
    destruct (json_body (content r)) as [v|]; [|done]. cbn [lift py_ret]. by destruct (json_dict v). }
  destruct (get_acme_directory directory_url s) as [[directory|e] s0]; cbn in Hdir; subst s0.
  2: { exists [], []. rewrite !app_nil_r. split; [done|]. split; [apply talk_nil|]. left. eauto. }
  set (s0 := mkSession h (key_dir s)).
  destruct (prepare_says domain directory tmp name fresh s0) as (pre & E & Ht & Hr). unfold py_bind at 1.
  destruct (prepare domain directory tmp name fresh s0) as [[[[[key acct] order] ch]|e] s1]; cbn [fst snd calls] in *.
  2: { exists pre, []. rewrite !app_nil_r. split; [done|]. split; [done|]. left. eauto. }
  destruct (Hr _ eq_refl) as (a & o & z & Hpre).
  pose proof (with_txt_trace 247 2500 _ (key_authorization_digest ch) _ s1
    (validate_says acct key order ch (default (JStr "") (dict_get "newNonce" directory)) csr)) as Hw.
  destruct (with_txt_record _ _ _ _ s1) as [r s2]. rewrite E in Hw. cbn [calls s0] in Hw.
  destruct Hw as [(e & -> & Ec & Hs)|(mid & Ec & Hmid & Hres)].
  - exists pre, [Get (set_url (key_authorization_digest ch))]. split; [by rewrite Ec, <-app_assoc|]. split; [done|].
    right. left. eauto.
  - exists pre, (Get (set_url (key_authorization_digest ch)) :: mid ++ [Get clear_url]).
    split; [by rewrite Ec, <-app_assoc|]. split; [done|]. right. right.
    exists (key_authorization_digest ch), mid. split; [done|]. split; [by rewrite app_assoc|].
    intros pem ->. exists a, o, z, order, ch. split; [done|]. specialize (Hres pem eq_refl).
    by rewrite <-app_assoc in Hres.
Qed.

Lemma nonces_fresh_get h u : nonces_fresh h [Get u].
Proof using. intros [|? [|? ?]] v j post; done. Qed.

Lemma gets_app a b : gets_of (a ++ b) = gets_of a ++ gets_of b.
Proof using. apply omap_app. Qed.

Lemma flow_outcome directory_url tmp name fresh csr s :
  let '(r, s') := perform_dns01_flow domain duckdns_token directory_url tmp name fresh csr s in
  let '(r1, s1) := dns01_steps domain duckdns_token directory_url tmp name fresh csr s in
  s' = s1 ∧ match r1 with
            | Ret pem => r = Ret (mkAcme true (Some pem) None)
            | Raise e => r = Ret (mkAcme false None (Some (exc_text e)))
            end.
Proof using.
  unfold perform_dns01_flow, py_try, py_bind.
  by destruct (dns01_steps domain duckdns_token directory_url tmp name fresh csr s) as [[pem|e] s1].
Qed.

(** C34: The flow never raises.  Besides the directory it asks DuckDNS for nothing,
    or sets the record last when that call fails in an unforeseen way, or sets
    the record once and clears it with its very last call, whatever happens in
    between. *)
Theorem acme_record_cleared directory_url tmp name fresh csr s :
  let '(r, s') := perform_dns01_flow domain duckdns_token directory_url tmp name fresh csr s in
  ∃ res new, r = Ret res ∧ calls s' = calls s ++ Get directory_url :: new ∧
    (gets_of new = [] ∨
     (∃ pre txt, new = pre ++ [Get (set_url txt)] ∧ gets_of pre = [] ∧
        set_raised (calls s ++ Get directory_url :: pre) txt) ∨
     (∃ pre txt mid, new = pre ++ Get (set_url txt) :: mid ++ [Get clear_url] ∧ gets_of (pre ++ mid) = [])).
Proof using.
  pose proof (flow_outcome directory_url tmp name fresh csr s) as Ho.
  pose proof (steps_trace directory_url tmp name fresh csr s) as Ht. cbv zeta in Ht.
  destruct (perform_dns01_flow _ _ _ _ _ _ _ s) as [r s'].
  destruct (dns01_steps _ _ _ _ _ _ _ s) as [r1 s1]. destruct Ho as [-> Hr].
  destruct Ht as (pre & tail & Ec & [Gpre _ _ _] & Htail).
  assert (Hres : ∃ res, r = Ret res) by (destruct r1; eauto). destruct Hres as [res ->].
  exists res, (pre ++ tail). split; [done|]. split; [by rewrite Ec, <-!app_assoc|].
  destruct Htail as [[-> _]|[(e & txt & _ & -> & Hs)|(txt & mid & -> & [Gmid _ _ _] & _)]].
  - left. by rewrite app_nil_r.
  - right. left. exists pre, txt. rewrite <-app_assoc in Hs. done.
  - right. right. exists pre, txt, mid. by rewrite gets_app, Gpre, Gmid.
Qed.

(** C35: The flow ends: it makes at most 256 calls, sleeping included, and sleeps at
    most 250 seconds in all; and every request it posts carries the nonce that
    the call just before it obtained. *)
Theorem acme_flow_ends directory_url tmp name fresh csr s :
  ∃ new, calls (perform_dns01_flow domain duckdns_token directory_url tmp name fresh csr s).2 = calls s ++ new ∧
    (length new ≤ 256)%nat ∧ (slept new ≤ 2500)%nat ∧ nonces_fresh (calls s) new.
Proof using.
  pose proof (flow_outcome directory_url tmp name fresh csr s) as Ho.
  pose proof (steps_trace directory_url tmp name fresh csr s) as Ht. cbv zeta in Ht.
  destruct (perform_dns01_flow _ _ _ _ _ _ _ s) as [r s'].
  destruct (dns01_steps _ _ _ _ _ _ _ s) as [r1 s1]. destruct Ho as [-> _]. cbn [snd].
  destruct Ht as (pre & tail & Ec & [_ Npre Lpre Spre] & Htail).
  exists ([Get directory_url] ++ pre ++ tail). rewrite !length_app, !slept_app.
  split; [by rewrite Ec, <-!app_assoc|].
  assert (Hjoin : nonces_fresh (calls s ++ [Get directory_url] ++ pre) tail →
    nonces_fresh (calls s) ([Get directory_url] ++ pre ++ tail)).
  { intros Htail'. apply nonces_fresh_app; [apply nonces_fresh_get|]. apply nonces_fresh_app; [done|].
    by rewrite <-app_assoc. }
  destruct Htail as [[-> _]|[(e & txt & _ & -> & Hs)|(txt & mid & -> & [_ Nmid Lmid Smid] & _)]].
  - split_and!; [cbn; lia|cbn; lia|]. apply Hjoin, nonces_fresh_nil.
  - split_and!; [cbn; lia|cbn; lia|]. apply Hjoin, nonces_fresh_get.
  - cbn. rewrite length_app, slept_app. split_and!; [cbn; lia|cbn; lia|].
    apply Hjoin. change (?g :: mid ++ ?l) with ([g] ++ mid ++ l).
    apply nonces_fresh_app; [apply nonces_fresh_get|].
    apply nonces_fresh_app; [|apply nonces_fresh_get]. by rewrite <-!app_assoc in *.
Qed.

(** ** A run of the protocol *)

(** A signed request that the server answered with success: a new nonce, and the
    post that carries it. *)
Definition asked (key : Key) (nurl url body : json) (kid : option string) (h seg : list Call) (r : Response) : Prop :=
  ∃ nu hr nonce u, nurl = JStr nu ∧ url = JStr u ∧ nonce ≠ ""%string ∧
    seg = [Head nu; Post u (_sign_jws key u nonce body kid)] ∧
    answer h (Head nu) = Ret hr ∧ replay_nonce hr = Some nonce ∧
    answer (h ++ [Head nu]) (Post u (_sign_jws key u nonce body kid)) = Ret r ∧ raise_for_status r = Ret tt.
(** What the body of an answer says under a name. *)
Definition body_says (r : Response) (k : string) (other v : json) : Prop :=
  ∃ data, json_body (content r) = Ret data ∧ json_field data k other = Ret v.

Definition order_ended (st : json) : bool := is_status st "ready" || is_status st "valid" || is_status st "invalid".
(** The address is asked, every three seconds, until the order has ended. *)
Inductive polled (key : Key) (nurl url : json) (acct : string) : nat → list Call → list Call → json → Prop :=
  | polled_ended n h seg r data st :
      asked key nurl url (JStr "") (Some acct) h seg r → json_body (content r) = Ret data →
      json_field data "status" JNull = Ret st → order_ended st = true → polled key nurl url acct (S n) h seg data
  | polled_waits n h seg r rest data st data' :
      asked key nurl url (JStr "") (Some acct) h seg r → json_body (content r) = Ret data →
      json_field data "status" JNull = Ret st → order_ended st = false →
      polled key nurl url acct n (h ++ seg ++ [Sleep 30]) rest data' →
      polled key nurl url acct (S n) h (seg ++ Sleep 30 :: rest) data'.

(** The order is completed with the certificate request; it is valid at once or
    after it was processed, and names the certificate. *)
Definition completed (key : Key) (nurl url : json) (acct : string) (csr : result (list Z)) (h seg : list Call) (cert : json)
    : Prop :=
  ∃ der seg0 r data st, csr = Ret der ∧
    asked key nurl url (JObj [("csr", JStr (_b64url der))]) (Some acct) h seg0 r ∧
    json_body (content r) = Ret data ∧ json_field data "status" JNull = Ret st ∧
    ∃ final, json_field final "status" JNull = Ret (JStr "valid") ∧
      json_field final "certificate" JNull = Ret cert ∧ truthy cert = true ∧
      ((is_status st "processing" = false ∧ seg = seg0 ∧ final = data) ∨
       (is_status st "processing" = true ∧ ∃ seg1, seg = seg0 ++ seg1 ∧
          polled key nurl (match location r with Some u => JStr u | None => url end) acct 40 (h ++ seg0) seg1 final)).

(** The first dns-01 challenge that the authorisation offers, and the text that the
    record has to hold for it. *)
Definition dns01_challenge (key : Key) (l : list json) (ch : ACMEChallenge) : Prop :=
  ∃ pre x post, l = pre ++ x :: post ∧ json_field x "type" JNull = Ret (JStr "dns-01") ∧
    Forall (λ y, ∃ v, json_field y "type" JNull = Ret v ∧ v ≠ JStr "dns-01") pre ∧
    json_field x "token" (JStr "") = Ret (token ch) ∧ json_field x "url" (JStr "") = Ret (challenge_url ch) ∧
    key_authorization_digest ch =
      _b64url (sha256 (bytes_of (py_str json_repr (token ch) +:+ "." +:+ _jwk_thumbprint key))).

(** The parties and the calls of a run. *)
Record Run := mkRun {
  r_key : Key; r_directory : list (string * json); r_account : string; r_order : ACMEOrder; r_authz : json;
  r_challenge : ACMEChallenge; r_certificate : json;
  for_account : list Call; for_order : list Call; for_authz : list Call; for_response : list Call;
  for_ready : list Call; for_completion : list Call; for_certificate : list Call }.

Definition endpoint_of (p : Run) (k : string) : json := default (JStr "") (dict_get k (r_directory p)).

(** All calls of a run, in the order of the protocol. *)
Definition run_calls (directory_url : string) (p : Run) : list Call :=
  Get directory_url :: for_account p ++ for_order p ++ for_authz p ++
  Get (set_url (key_authorization_digest (r_challenge p))) :: Sleep 100 ::
  for_response p ++ for_ready p ++ for_completion p ++ for_certificate p.

(** Each request goes where the answers so far said. *)
Record valid_run (directory_url : string) (csr : result (list Z)) (h : list Call) (p : Run) (pem : string) : Prop := {
  vr_directory : ∃ r v, answer h (Get directory_url) = Ret r ∧ raise_for_status r = Ret tt ∧
    json_body (content r) = Ret v ∧ json_dict v = Ret (r_directory p);
  vr_account : let h1 := h ++ [Get directory_url] in
    ∃ r, asked (r_key p) (endpoint_of p "newNonce") (endpoint_of p "newAccount")
        (JObj [("termsOfServiceAgreed", JBool true)]) None h1 (for_account p) r ∧
      location r = Some (r_account p) ∧ r_account p ≠ ""%string;
  vr_order : let h2 := h ++ [Get directory_url] ++ for_account p in
    ∃ r, asked (r_key p) (endpoint_of p "newNonce") (endpoint_of p "newOrder")
        (JObj [("identifiers", JArr [JObj [("type", JStr "dns"); ("value", JStr domain)]])])
        (Some (r_account p)) h2 (for_order p) r ∧
      location r = Some (order_url (r_order p)) ∧
      body_says r "authorizations" (JArr []) (authorization_urls (r_order p)) ∧
      body_says r "finalize" (JStr "") (finalize_url (r_order p));
  vr_authz : let h3 := h ++ [Get directory_url] ++ for_account p ++ for_order p in
    json_first (authorization_urls (r_order p)) = Ret (r_authz p) ∧
    ∃ r v l, asked (r_key p) (endpoint_of p "newNonce") (r_authz p) (JStr "") (Some (r_account p)) h3 (for_authz p) r ∧
      body_says r "challenges" (JArr []) v ∧ json_iter v = Ret l ∧ dns01_challenge (r_key p) l (r_challenge p);
  vr_response : let h4 := h ++ [Get directory_url] ++ for_account p ++ for_order p ++ for_authz p ++
      [Get (set_url (key_authorization_digest (r_challenge p))); Sleep 100] in
    ∃ r, asked (r_key p) (endpoint_of p "newNonce") (challenge_url (r_challenge p)) (JObj []) (Some (r_account p))
      h4 (for_response p) r;
  vr_ready : let h5 := h ++ [Get directory_url] ++ for_account p ++ for_order p ++ for_authz p ++
      [Get (set_url (key_authorization_digest (r_challenge p))); Sleep 100] ++ for_response p in
    ∃ data st, polled (r_key p) (endpoint_of p "newNonce") (JStr (order_url (r_order p))) (r_account p) 40
        h5 (for_ready p) data ∧
      json_field data "status" JNull = Ret st ∧ is_status st "ready" || is_status st "valid" = true;
  vr_completion : let h6 := h ++ [Get directory_url] ++ for_account p ++ for_order p ++ for_authz p ++
      [Get (set_url (key_authorization_digest (r_challenge p))); Sleep 100] ++ for_response p ++ for_ready p in
    completed (r_key p) (endpoint_of p "newNonce") (finalize_url (r_order p)) (r_account p) csr h6 (for_completion p)
      (r_certificate p);
  vr_certificate : let h7 := h ++ [Get directory_url] ++ for_account p ++ for_order p ++ for_authz p ++
      [Get (set_url (key_authorization_digest (r_challenge p))); Sleep 100] ++ for_response p ++ for_ready p ++
      for_completion p in
    ∃ r, asked (r_key p) (endpoint_of p "newNonce") (r_certificate p) (JStr "") (Some (r_account p)) h7
        (for_certificate p) r ∧ content r = pem }.

(** *** Reading a run off a success *)

Lemma bind_inv {S A B} (m : PyM S A) (k : A → PyM S B) s b s' :
  py_bind m k s = (Ret b, s') → ∃ a s1, m s = (Ret a, s1) ∧ k a s1 = (Ret b, s').
Proof using. unfold py_bind. destruct (m s) as [[a|e] s1]; [|done]. by exists a, s1. Qed.
Lemma lift_inv {S A} (r : result A) (s : S) a s' : lift r s = (Ret a, s') → r = Ret a ∧ s' = s.
Proof using. destruct r; [|done]. by intros [= -> ->]. Qed.

Tactic Notation "inv_bind" hyp(H) "as" ident(x) ident(s1) ident(E) := apply bind_inv in H as (x & s1 & E & H).
Tactic Notation "inv_lift" hyp(H) "as" ident(x) ident(E) :=
  let s1 := fresh "s" in apply bind_inv in H as (x & s1 & E & H); apply lift_inv in E as [E ->].

Lemma http_inv c s r s' : http c s = (Ret r, s') → answer (calls s) c = Ret r ∧ calls s' = calls s ++ [c].
Proof using. unfold http. by intros [= -> <-]. Qed.

Lemma post_inv key url nurl body kid s r s' :
  post_jws key url nurl body kid s = (Ret r, s') →
  ∃ seg, asked key nurl url body kid (calls s) seg r ∧ calls s' = calls s ++ seg.
Proof using.
  unfold post_jws, get_nonce. intros H. inv_bind H as nonce s1 E.
  inv_lift E as nu Enu. inv_bind E as hr s2 Ehead. inv_lift E as t Eok.
  inv_lift H as u Eu. inv_bind H as r' s3 Epost. inv_lift H as t' Eok'. injection H as -> ->.
  apply http_inv in Ehead as [Ehead C2]. apply http_inv in Epost as [Epost C3].
  destruct (replay_nonce hr) as [[|c n]|] eqn:En; try done. injection E as <- <-.
  destruct nurl as [| | | | |nu'| |]; try done. injection Enu as ->.
  destruct url as [| | | | |u'| |]; try done. injection Eu as ->. destruct t'. rewrite C2 in Epost.
  eexists [_; _]. split; [|rewrite C3, C2, <-app_assoc; done].
  exists nu, hr, (String c n), u. done.
Qed.

(** A request, and what is made of its answer without any call. *)
Lemma post_then_inv {B} key url nurl body kid (k : Response → PyM Session B) s b s' :
  py_bind (post_jws key url nurl body kid) k s = (Ret b, s') → (∀ r, quiet (k r)) →
  ∃ seg r s1, asked key nurl url body kid (calls s) seg r ∧ k r s1 = (Ret b, s') ∧ calls s' = calls s ++ seg.
Proof using.
  intros H Hk. inv_bind H as r s1 E. apply post_inv in E as (seg & Ha & Ec). exists seg, r, s1.
  split_and!; [done|done|]. pose proof (Hk r s1) as Hq. rewrite H in Hq. cbn in Hq. congruence.
Qed.

Lemma register_account_inv key url nurl s acct s' :
  register_account key url nurl s = (Ret acct, s') →
  ∃ seg r, asked key nurl url (JObj [("termsOfServiceAgreed", JBool true)]) None (calls s) seg r ∧
    calls s' = calls s ++ seg ∧ location r = Some acct ∧ acct ≠ ""%string.
Proof using.
  intros (seg & r & s1 & Ha & Hr & Ec)%post_then_inv; [|intros r; quietly]. exists seg, r.
  destruct (location r) as [[|c u]|]; try done. by injection Hr as <- ->.
Qed.

Lemma order_inv acct key url nurl s o s' :
  create_order acct key domain url nurl s = (Ret o, s') →
  ∃ seg r, asked key nurl url (JObj [("identifiers", JArr [JObj [("type", JStr "dns"); ("value", JStr domain)]])])
      (Some acct) (calls s) seg r ∧
    calls s' = calls s ++ seg ∧ location r = Some (order_url o) ∧
    body_says r "authorizations" (JArr []) (authorization_urls o) ∧ body_says r "finalize" (JStr "") (finalize_url o).
Proof using.
  intros (seg & r & s1 & Ha & Hr & Ec)%post_then_inv; [|intros r; quietly]. exists seg, r.
  destruct (location r) as [[|c u]|]; try done.
  inv_lift Hr as data Ed. inv_lift Hr as auths Ea. inv_lift Hr as fin Ef. injection Hr as <- ->.
  split_and!; [done|done|done|by exists data|by exists data].
Qed.

Lemma find_challenge_spec key l ch : find_challenge key l = Ret ch → dns01_challenge key l ch.
Proof using.
  induction l as [|x l IH]; [done|]. cbn [find_challenge].
  destruct (json_field x "type" JNull) as [v|e] eqn:Et; [|done].
  destruct (is_status v "dns-01") eqn:Hv.
  - destruct v as [| | | | |t| |]; try done. apply String.eqb_eq in Hv as ->. destruct (json_field x "token" (JStr "")) as [t|e] eqn:Ek; [|done].
    destruct (compute_key_authorization_digest t key) as [d|e] eqn:Ed; [|by destruct (json_field x "url" (JStr ""))].
    destruct (json_field x "url" (JStr "")) as [u|e] eqn:Eu; [|done]. intros [= <-].
    exists [], x, l. split_and!; [done|done|constructor|done|done|]. cbn [key_authorization_digest token].
    unfold compute_key_authorization_digest in Ed. destruct (str_isascii _); [|done]. by injection Ed as <-.
  - intros H. assert (Hne : v ≠ JStr "dns-01") by (by intros ->). clear Hv.
    assert (Hrest : find_challenge key l = Ret ch).
    { revert H. destruct v as [| | | | |t| |]; try exact (λ H, H).
      repeat match goal with
      | |- context [match ?x with _ => _ end] => is_var x; destruct x; try exact (λ H, H)
      end. by destruct Hne. }
    destruct (IH Hrest) as (pre & y & post & -> & H1 & H2 & H3). exists (x :: pre), y, post.
    split_and!; [done|done| |apply H3..]. constructor; [by exists v|done].
Qed.

Lemma challenge_inv acct key url nurl s ch s' :
  get_dns01_challenge acct key url nurl s = (Ret ch, s') →
  ∃ seg r v l, asked key nurl url (JStr "") (Some acct) (calls s) seg r ∧ calls s' = calls s ++ seg ∧
    body_says r "challenges" (JArr []) v ∧ json_iter v = Ret l ∧ dns01_challenge key l ch.
Proof using.
  intros (seg & r & s1 & Ha & Hr & Ec)%post_then_inv; [|intros r; quietly].
  inv_lift Hr as data Ed. inv_lift Hr as v Ev. inv_lift Hr as l El. apply lift_inv in Hr as [Hr ->].
  exists seg, r, v, l. split_and!; [done|done|by exists data|done|by apply find_challenge_spec].
Qed.

Lemma poll_inv n acct key url nurl s data s' :
  poll_attempts n acct key url nurl s = (Ret data, s') →
  ∃ seg st, polled key nurl url acct n (calls s) seg data ∧ calls s' = calls s ++ seg ∧
    json_field data "status" JNull = Ret st ∧ order_ended st = true.
Proof using.
  revert s. induction n as [|n IH]; intros s; [done|]. cbn [poll_attempts]. intros H.
  inv_bind H as r s1 E. apply post_inv in E as (seg & Ha & Ec).
  inv_lift H as data1 Ed. inv_lift H as st Est. fold (order_ended st) in H. destruct (order_ended st) eqn:Eo.
  - injection H as -> ->. exists seg, st. split_and!; [by eapply polled_ended|done|done|done].
  - inv_bind H as u s2 E. unfold sleep, py_modify in E. injection E as _ <-.
    destruct (IH _ H) as (rest & st' & Hp & Ec' & Hst & Ho). cbn [calls] in *. rewrite Ec, <-app_assoc in Hp, Ec'.
    exists (seg ++ Sleep 30 :: rest), st'. split_and!; [by eapply polled_waits| |done|done].
    rewrite Ec', <-!app_assoc. done.
Qed.

Lemma valid_status v : is_status v "valid" = true → v = JStr "valid".
Proof using. destruct v as [| | | | |t| |]; try done. by intros ->%String.eqb_eq. Qed.

Lemma finalize_inv acct key url der nurl s cert s' :
  finalize_order acct key url der nurl s = (Ret cert, s') →
  ∃ seg, completed key nurl url acct (Ret der) (calls s) seg cert ∧ calls s' = calls s ++ seg.
Proof using.
  unfold finalize_order. intros H. inv_bind H as r s1 E. apply post_inv in E as (seg0 & Ha & Ec).
  inv_lift H as data Ed. inv_lift H as st Est. inv_bind H as final s2 E.
  destruct (is_status final.2 "valid") eqn:Ev; [|done]. cbn [negb] in H. apply valid_status in Ev.
  inv_lift H as c Ecert. destruct (truthy c) eqn:Etr; [|done]. injection H as -> ->.
  destruct (is_status st "processing") eqn:Ep.
  - inv_bind E as data' s3 Epoll. inv_lift E as st' Est'. injection E as <- ->. cbn [fst snd] in *. subst st'.
    apply poll_inv in Epoll as (seg1 & st1 & Hp & Ec1 & _). exists (seg0 ++ seg1).
    rewrite Ec1, Ec, <-app_assoc. split; [|done]. exists der, seg0, r, data, st.
    split_and!; [done|done|done|done|]. exists data'. split_and!; [done|done|done|]. right. split; [done|].
    exists seg1. rewrite <-Ec. by split.
  - injection E as <- ->. cbn [fst snd] in *. subst st. exists seg0. split; [|done].
    exists der, seg0, r, data, (JStr "valid"). split_and!; [done|done|done|done|].
    exists data. split_and!; [done|done|done|]. by left.
Qed.

Lemma set_txt_inv txt s b s' :
  set_txt domain duckdns_token txt s = (Ret b, s') → calls s' = calls s ++ [Get (set_url txt)].
Proof using. unfold set_txt, duckdns. by intros [= _ <-]. Qed.

(** The steps that end with a certificate, and the record around them. *)
Lemma record_inv {A} txt (body : PyM Session A) s a s' :
  with_txt_record domain duckdns_token txt body s = (Ret a, s') →
  ∃ s1 s2, calls s1 = calls s ++ [Get (set_url txt)] ∧ body s1 = (Ret a, s2) ∧ calls s' = calls s2 ++ [Get clear_url].
Proof using.
  unfold with_txt_record. intros H. inv_bind H as b s1 E. apply set_txt_inv in E. exists s1.
  unfold py_finally in H. destruct (body s1) as [r s2]. exists s2.
  assert (Hc : ∃ s3, py_try (clear_txt domain duckdns_token ;;; py_ret tt) (λ _, py_ret tt) s2 = (Ret tt, s3) ∧
    calls s3 = calls s2 ++ [Get clear_url]).
  { unfold py_try, py_bind, clear_txt, duckdns. destruct (clear_duckdns_txt_record _ _ _); eexists; split; reflexivity. }
  destruct Hc as (s3 & Hs3 & Hc). rewrite Hs3 in H. injection H as -> <-. done.
Qed.

Lemma directory_inv directory_url s d s' :
  get_acme_directory directory_url s = (Ret d, s') →
  (∃ r v, answer (calls s) (Get directory_url) = Ret r ∧ raise_for_status r = Ret tt ∧
    json_body (content r) = Ret v ∧ json_dict v = Ret d) ∧ calls s' = calls s ++ [Get directory_url].
Proof using.
  unfold get_acme_directory. intros H. inv_bind H as r s1 E. apply http_inv in E as [E Ec].
  inv_lift H as t Eok. inv_lift H as v Ev. apply lift_inv in H as [H ->]. destruct t. split; [by exists r, v|done].
Qed.

Lemma issue_inv acct key o ch nurl csr s pem s' :
  validate_and_issue acct key o ch nurl csr s = (Ret pem, s') →
  ∃ sr sp sf sc cert data st,
    (∃ r, asked key nurl (challenge_url ch) (JObj []) (Some acct) (calls s ++ [Sleep 100]) sr r) ∧
    polled key nurl (JStr (order_url o)) acct 40 (calls s ++ [Sleep 100] ++ sr) sp data ∧
    json_field data "status" JNull = Ret st ∧ is_status st "ready" || is_status st "valid" = true ∧
    completed key nurl (finalize_url o) acct csr (calls s ++ [Sleep 100] ++ sr ++ sp) sf cert ∧
    (∃ r, asked key nurl cert (JStr "") (Some acct) (calls s ++ [Sleep 100] ++ sr ++ sp ++ sf) sc r ∧ content r = pem) ∧
    calls s' = calls s ++ [Sleep 100] ++ sr ++ sp ++ sf ++ sc.
Proof using.
  unfold validate_and_issue. intros H. inv_bind H as u s1 E. unfold sleep, py_modify in E. injection E as _ <-.
  inv_bind H as b s2 E. unfold respond_to_challenge in E.
  apply post_then_inv in E as (sr & r & s3 & Hr & _ & C2); [|intros ?; quietly]. cbn [calls] in *.
  inv_bind H as data s4 E. apply poll_inv in E as (sp & st & Hp & C4 & Est & Eo).
  inv_lift H as st' Est'. rewrite Est in Est'. injection Est' as <-.
  destruct (is_status st "invalid") eqn:Einv; [done|]. inv_lift H as der Eder. subst csr.
  inv_bind H as cert s5 E. apply finalize_inv in E as (sf & Hf & C5).
  unfold download_certificate in H. apply post_then_inv in H as (sc & rc & s6 & Hc & Epem & C6); [|intros ?; quietly].
  injection Epem as <- _. rewrite C2 in *. rewrite C4 in *. rewrite C5 in *. rewrite <-?app_assoc in *.
  exists sr, sp, sf, sc, cert, data, st. split_and!; [by exists r|done|done| |done|by exists rc|by rewrite C6, <-?app_assoc].
  unfold order_ended in Eo. by rewrite Einv, orb_false_r in Eo.
Qed.

(** C36: A certificate is reported only after a complete run of the protocol: the
    account is registered and the order made where the directory says, the
    authorisation is read where the order says, the record is set to the digest of
    the token of its first dns-01 challenge, the challenge is answered, the order is
    polled until it is ready or valid, completed with the certificate request where
    it says and, while it is processed, polled until it is valid, and the
    certificate is what the server answers where the valid order says.  No other
    call is made but the clearing of the record at the end. *)
Theorem acme_issued_in_order directory_url tmp name fresh csr s res s' :
  perform_dns01_flow domain duckdns_token directory_url tmp name fresh csr s = (Ret res, s') →
  acme_success res = true →
  ∃ p pem, fullchain_pem res = Some pem ∧ valid_run directory_url csr (calls s) p pem ∧
    calls s' = calls s ++ run_calls directory_url p ++ [Get clear_url].
Proof using.
  intros E Hs. pose proof (flow_outcome directory_url tmp name fresh csr s) as Ho. rewrite E in Ho.
  destruct (dns01_steps _ _ _ _ _ _ _ s) as [r1 s1] eqn:H. destruct Ho as [-> Hr].
  destruct r1 as [pem|e]; injection Hr as ->; [|done]. clear E Hs.
  unfold dns01_steps in H. inv_bind H as directory s2 E. apply directory_inv in E as [Hd C2].
  inv_bind H as ready s3 E. unfold prepare in E. inv_bind E as key s4 Ek.
  assert (C4 : calls s4 = calls s2).
  { unfold on_key_dir in Ek. destruct (create_or_load_account_key _ _ _ _). by injection Ek as _ <-. }
  inv_bind E as acct s5 Ea. apply register_account_inv in Ea as (sa & ra & Ha & C5 & La & Na).
  inv_bind E as o s6 Eo. apply order_inv in Eo as (so & ro & Ho & C6 & Lo & Ba & Bf).
  destruct (truthy (authorization_urls o)); [|done]. cbn [negb] in E.
  inv_lift E as z Ez. inv_bind E as ch s7 Ec. apply challenge_inv in Ec as (sz & rz & v & l & Hz & C7 & Bz & Lz & Hch).
  injection E as <- ->. cbv beta iota in H. apply record_inv in H as (s8 & s9 & C8 & H & C9).
  apply issue_inv in H as (sr & sp & sf & sc & cert & data & st & Hr & Hp & Est & Eo' & Hf & Hc & C10).
  rewrite C8 in *. rewrite C7 in *. rewrite C6 in *. rewrite C5 in *. rewrite C4 in *. rewrite C2 in *.
  rewrite <-?app_assoc in *. cbn [app] in *.
  exists (mkRun key directory acct o z ch cert sa so sz sr sp sf sc), pem. split; [done|]. split.
  - split; cbn; [done|by exists ra|by exists ro|split; [done|by exists rz, v, l]|done|by exists data, st|done|done].
  - rewrite C9, C10. unfold run_calls. do 8 (rewrite <-?app_assoc; cbn [app]). done.
Qed.
End flow.
End acme.

(** * A server that issues at once *)

Definition quoted (s : string) : string := str_map (λ c, if Ascii.eqb c "'" then dquote else c) s.
Definition ok (where_ body : string) : result Response :=
  Ret (mkResponse 200 (if String.eqb where_ "" then None else Some where_) (Some "x"%string) (quoted body)).

(** DuckDNS refuses every change with the text KO. *)
Definition example_answer (h : list Call) (c : Call) : result Response :=
  match c with
  | Get "dir" => ok "" "{'newNonce':'n','newAccount':'a','newOrder':'o'}"
  | Get _ => ok "" "KO"
  | Head _ => ok "" ""
  | Post "a" _ => ok "acct" ""
  | Post "o" _ => ok "ord" "{'authorizations':['z'],'finalize':'f'}"
  | Post "z" _ => ok "" "{'challenges':[{'type':'http-01'},{'type':'dns-01','token':'t','url':'ch'}]}"
  | Post "ord" _ => ok "" "{'status':'ready'}"
  | Post "f" _ => ok "" "{'status':'valid','certificate':'c'}"
  | Post "c" _ => ok "" "PEM"
  | _ => ok "" "{}"
  end%string.

Definition example_flow : result ACMECertificateResult * Session :=
  perform_dns01_flow (λ _, "") (λ _, "error") (λ _, Raise (ValueError "key")) (λ _, "key") (λ _ : unit, (3233, 17))
    (λ _ _, [1; 2; 3]) example_answer "my.duckdns.org" "tok" "dir" "tmp" "account.key" tt (Ret [0])
    (mkSession [] (mkWorld ∅ [] [] 0)).

(** The answer of DuckDNS is not looked at: the challenge is answered although
    the record was not set. *)
Lemma txt_failure_ignored :
  example_flow.1 = Ret (mkAcme true (Some "PEM"%string) None) ∧
  posts_of (calls example_flow.2) = ["a"; "o"; "z"; "ch"; "ord"; "f"; "c"]%string.
Proof. vm_compute. done. Qed.

Lemma acme_issued_in_order_witness :
  acme_success (mkAcme true (Some "PEM"%string) None) = true ∧
  ∃ p, valid_run (λ _, "") (λ _ : unit, (3233, 17)) (λ _ _, [1; 2; 3]) example_answer "my.duckdns.org" "tok" "dir"
      (Ret [0]) [] p "PEM" ∧
    calls example_flow.2 = run_calls "my.duckdns.org" "tok" "dir" p ++
      [Get (duckdns_url "my.duckdns.org" "tok" "&clear=true")].
Proof.
  split; [reflexivity|].
  assert (E : example_flow = (Ret (mkAcme true (Some "PEM"%string) None), example_flow.2)).
  { rewrite (surjective_pairing example_flow) at 1. f_equal. }
  destruct (acme_issued_in_order _ _ _ _ _ _ _ _ _ _ _ _ _ _ _ _ _ E eq_refl) as (p & pem & [= <-] & H1 & H2).
  exists p. split; [exact H1|exact H2].
Defined.
