(* ===== verification/LogScraper.v ===== *)
(** Log scraper of monitoring/log_scraper.py: sessions in engine logs, the cached
    session, and the console's log lines; with the redaction of core/logger.py.

    Lines are without their ends, as [readlines] and [splitlines] give them; case
    is folded and digits are read as ASCII.  What [first_seen] and the last line
    hold comes from JSON and need not be text.  The search of a user's pattern,
    the log files and the journal are arguments. *)

From S2P Require Import Prelude PyStr PyJson PyRe AtomicIO TextFile.
From Stdlib Require Import ZArith Ascii Bool Lia.
From stdpp Require Import base tactics list strings gmap.

Local Open Scope Z_scope.
Local Open Scope py_scope.

(** * Redaction *)

Definition quote_char : ascii := "034"%char.
Definition is_quote (c : ascii) : bool := Ascii.eqb c quote_char || Ascii.eqb c "'".
Definition is_value_char (c : ascii) : bool := negb (is_quote c || is_space c || Ascii.eqb c ",").
Definition is_assign (c : ascii) : bool := Ascii.eqb c ":" || Ascii.eqb c "=".
Definition is_token_char (c : ascii) : bool :=
  is_alnum c || Ascii.eqb c "+" || Ascii.eqb c "/" || Ascii.eqb c "=" || Ascii.eqb c "." ||
  Ascii.eqb c "_" || Ascii.eqb c "-".
Definition is_hex (c : ascii) : bool := match hex_value c with Some _ => true | None => false end.

Definition RE_ASSIGNMENT : re :=
  Group "1" (Alt (lit_ci "admin_password") (Alt (lit_ci "password") (Alt (lit_ci "token") (lit_ci "secret")))) ··
  Many is_space 0 ·· Cls is_assign ·· Many is_space 0 ·· Opt (Cls is_quote) ·· Many is_value_char 1.
Definition RE_AUTHORIZATION : re :=
  Group "1" (Alt (lit_ci "Basic") (lit_ci "Bearer")) ·· Many is_space 1 ·· Many is_token_char 1.
Definition hexes (n : nat) : re := Nat.iter n (λ r, Cls is_hex ·· r) (Lit "").
Definition RE_UUID : re :=
  hexes 8 ·· Lit "-" ·· hexes 4 ·· Lit "-" ·· hexes 4 ·· Lit "-" ·· hexes 4 ·· Lit "-" ·· hexes 12.

Definition the_group (g : caps) : string := default "" (group "1" g).
Definition sanitize_log_text (text : string) : string :=
  re_sub RE_UUID (λ _, "[REDACTED_UUID]")
    (re_sub RE_AUTHORIZATION (λ g, the_group g +:+ " [REDACTED]")
      (re_sub RE_ASSIGNMENT (λ g, the_group g +:+ "=[REDACTED]") text)).

(** * Sessions *)

(** The patterns of a session line, any of which may stand anywhere. *)
Definition LOG_SEARCH_PATTERN : re :=
  Alt (lit_ci "Created public lobby session")
  (Alt (lit_ci "EOS-SDK" ·· Many not_line_feed 0 ·· lit_ci "sessions")
  (Alt (lit_ci "Lobby" ·· Many not_line_feed 0 ·· lit_ci "Registered")
  (Alt (lit_ci "PublicSession") (Alt (lit_ci "Steam server initialized")
  (Alt (lit_ci "Server registration succeeded") (lit_ci "LogPalServer")))))).

Definition is_id_char (c : ascii) : bool := is_alnum c || Ascii.eqb c "_" || Ascii.eqb c "-".
Definition RE_SESSION_ID : re := Lit "SessionId:" ·· Many is_space 0 ·· Group "1" (Many is_id_char 1).
Definition two : re := Cls is_digit ·· Cls is_digit.
Definition RE_TIMESTAMP : re :=
  Lit "[" ·· Group "1" (two ·· two ·· Lit "." ·· two ·· Lit "." ·· two ·· Lit "-" ·· two ·· Lit "." ·· two ·· Lit "." ·· two).

(** [s.replace(a, b)] and [s.replace(a, b, 1)] for one character. *)
Definition replace_all (a b : ascii) : string → string := str_map (λ c, if Ascii.eqb c a then b else c).
Fixpoint replace_first (a b : ascii) (s : string) : string :=
  match s with
  | EmptyString => EmptyString
  | String c s' => if Ascii.eqb c a then String b s' else String c (replace_first a b s')
  end.

Record PalLogScraper := mkScraper {
  registered : bool;
  first_seen : json;
  session_id : option string;
  last_matched_line : json;
  disk : World }.

Definition awaiting : string := "Awaiting initial engine log lines...".
Definition scraper_init (w : World) : PalLogScraper := mkScraper false JNull None (JStr awaiting) w.

Definition truthy_id (i : option string) : bool := match i with Some (String _ _) => true | _ => false end.

Definition update_scraper (f : PalLogScraper → PalLogScraper) : PyM PalLogScraper unit := py_modify f.
Definition set_registered (s : PalLogScraper) : PalLogScraper :=
  mkScraper true (first_seen s) (session_id s) (last_matched_line s) (disk s).
Definition set_session_id (i : string) (s : PalLogScraper) : PalLogScraper :=
  mkScraper (registered s) (first_seen s) (Some i) (last_matched_line s) (disk s).
Definition set_first_seen (t : json) (s : PalLogScraper) : PalLogScraper :=
  mkScraper (registered s) t (session_id s) (last_matched_line s) (disk s).
Definition set_last_line (l : json) (s : PalLogScraper) : PalLogScraper :=
  mkScraper (registered s) (first_seen s) (session_id s) l (disk s).

(** The stamp of a line: the text of the log, or the clock. *)
Definition stamp_of (now_text line : string) : string :=
  match re_search RE_TIMESTAMP line with
  | Some m => replace_first "-" " " (replace_all "." "-" (default "" (group "1" m)))
  | None => now_text
  end.

(** [_extract_session_from_lines]: the first line that matches decides. *)
Fixpoint _extract_session_from_lines (now_text : string) (lines : list string) : PyM PalLogScraper bool :=
  match lines with
  | [] => py_ret false
  | line :: rest =>
      match re_search LOG_SEARCH_PATTERN line with
      | None => _extract_session_from_lines now_text rest
      | Some _ =>
          update_scraper set_registered ;;;
          (match re_search RE_SESSION_ID line with
           | Some m => update_scraper (set_session_id (default "" (group "1" m)))
           | None => py_ret tt
           end) ;;;
          s <- py_get ;;
          (if truthy (first_seen s) then py_ret tt
           else update_scraper (set_first_seen (JStr (stamp_of now_text line)))) ;;;
          py_ret true
      end
  end.

(** The last of up to fifty lines that is text and not a rule. *)
Definition shown_line (raw : string) : option string :=
  let clean := str_strip raw in
  if negb (String.eqb clean "") && negb (startswith clean "=") && (5 <? utf8_len clean)
  then Some (utf8_take 120 clean) else None.
Definition last_lines {A} (n : nat) (l : list A) : list A := drop (length l - n) l.
Definition tail_line (lines : list string) : PyM PalLogScraper unit :=
  match omap shown_line (rev (last_lines 50 lines)) with
  | l :: _ => update_scraper (set_last_line (JStr l))
  | [] => py_ret tt
  end.

(** [_scan_historical_log_files] on the first ten thousand lines of each file,
    [None] for one that cannot be read. *)
Fixpoint _scan_historical_log_files (now_text : string) (logs : list (option (list string))) : PyM PalLogScraper unit :=
  match logs with
  | [] => py_ret tt
  | None :: rest => _scan_historical_log_files now_text rest
  | Some lines :: rest =>
      hit <- _extract_session_from_lines now_text (take 10000 lines) ;;
      s <- py_get ;;
      if hit && truthy_id (session_id s) then py_ret tt else _scan_historical_log_files now_text rest
  end.

(** [_scan_journalctl] on what the journal gives, if anything. *)
Definition _scan_journalctl (now_text : string) (posix : bool) (journal : option (list string)) : PyM PalLogScraper unit :=
  s <- py_get ;;
  if registered s || negb posix then py_ret tt
  else match journal with
  | None => py_ret tt
  | Some lines => tail_line lines ;;; _extract_session_from_lines now_text lines ;;; py_ret tt
  end.

(** * The cached session *)

Section cache.
Context (json_repr : json → string) (stem suffix : string).

Definition on_disk {A} (m : PyM World A) : PyM PalLogScraper A :=
  λ s, let '(r, w) := m (disk s) in
       (r, mkScraper (registered s) (first_seen s) (session_id s) (last_matched_line s) w).

Definition cache_data (updated_at : string) (s : PalLogScraper) : json :=
  JObj [("session_id", match session_id s with Some i => JStr i | None => JNull end);
        ("first_seen", first_seen s); ("last_line", last_matched_line s); ("updated_at", JStr updated_at)].

Definition _save_session_cache (updated_at : string) : PyM PalLogScraper unit :=
  s <- py_get ;;
  if truthy_id (session_id s)
  then on_disk (on_oserror (save_text stem suffix (dumps_indent 2 (cache_data updated_at s))) tt)
  else py_ret tt.

Definition _load_session_cache : PyM PalLogScraper unit :=
  s <- py_get ;;
  match files (disk s) !! saved_path stem suffix with
  | None => py_ret tt
  | Some _ =>
      text <- on_disk (on_oserror (f <- sys_stat (saved_path stem suffix) ;; py_ret (Some (f_data f))) None) ;;
      match text with
      | None => py_ret tt
      | Some t =>
          if negb (utf8_valid t) then py_raise UnicodeDecodeError
          else match loads t with
          | None => py_ret tt
          | Some v =>
              cached <- lift (json_field v "session_id" JNull) ;;
              if truthy cached then
                seen <- lift (json_field v "first_seen" JNull) ;;
                line <- lift (json_field v "last_line" (last_matched_line s)) ;;
                update_scraper (set_session_id (py_str json_repr cached)) ;;;
                update_scraper set_registered ;;;
                update_scraper (set_first_seen seen) ;;;
                update_scraper (set_last_line line)
              else py_ret tt
          end
      end
  end.

Record LogScraperInfo := mkInfo {
  i_registered : bool; i_session_id : option string; i_first_seen : json; i_last_line : json }.

(** [probe_local_logs]: the lines of the active log, the archived logs, the journal. *)
Definition probe_local_logs (now_text updated_at : string) (posix : bool) (active : option (list string))
    (logs : list (option (list string))) (journal : option (list string)) : PyM PalLogScraper LogScraperInfo :=
  (match active with Some lines => tail_line lines | None => py_ret tt end) ;;;
  s <- py_get ;;
  if registered s && truthy_id (session_id s)
  then py_ret (mkInfo true (session_id s) (first_seen s) (last_matched_line s))
  else
    _scan_historical_log_files now_text logs ;;;
    _scan_journalctl now_text posix journal ;;;
    s <- py_get ;;
    (if registered s then _save_session_cache updated_at else py_ret tt) ;;;
    s <- py_get ;;
    py_ret (mkInfo (registered s)
      (if truthy_id (session_id s) then session_id s
       else if registered s then Some "EOS-Session-Active" else None)
      (first_seen s) (last_matched_line s)).
End cache.

(** * The console *)

Section console.
(** [re.search(query, line, re.IGNORECASE)], [None] for a malformed query. *)
Context (user_search : string → string → option bool).

Definition RE_EOS : re := Alt (lit_ci "eos") (Alt (lit_ci "session") (Alt (lit_ci "lobby") (lit_ci "steam"))).
Definition RE_WARN : re :=
  Alt (lit_ci "warning") (Alt (lit_ci "error") (Alt (lit_ci "fatal") (Alt (lit_ci "crash") (lit_ci "fail")))).
Definition found_in (r : re) (s : string) : bool := match re_search r s with Some _ => true | None => false end.

Definition level_ok (level clean : string) : bool :=
  let l := str_lower level in
  if String.eqb l "engine" then str_contains "logpalserver" (str_lower clean)
  else if String.eqb l "eos" then found_in RE_EOS clean
  else if String.eqb l "warn_error" then found_in RE_WARN clean
  else true.

Definition query_ok (filter_query : option string) (clean : string) : bool :=
  match filter_query with
  | Some (String _ _ as q) =>
      match user_search q clean with
      | Some b => b
      | None => str_contains (str_lower q) (str_lower clean)
      end
  | _ => true
  end.

Definition strip_line (line : string) : string :=
  strip_by (λ c, Ascii.eqb c line_feed || Ascii.eqb c carriage_return) line.

(** [_filter_log_lines] *)
Definition _filter_log_lines (raw_lines : list string) (filter_query : option string) (level : string) : list string :=
  omap (λ line, let clean := strip_line line in
    if negb (String.eqb clean "") && level_ok level clean && query_ok filter_query clean
    then Some (sanitize_log_text clean) else None) raw_lines.

(** The candidate log files: absent ([None]), unreadable or their lines. *)
Fixpoint read_first (files : list (string * option (result (list string)))) : option (string * list string) :=
  match files with
  | [] => None
  | (path, Some (Ret lines)) :: _ => Some (path, lines)
  | _ :: rest => read_first rest
  end.

Record ServerLogs := mkLogs {
  source : string; total_lines_scanned : nat; returned_lines : nat; lines : list string }.

Definition clamp_tail (tail : Z) : nat := Z.to_nat (Z.max 10 (Z.min tail 2000)).

(** [read_server_logs]; [journal n] are the last [n] lines of the journal. *)
Definition read_server_logs (files : list (string * option (result (list string)))) (posix : bool)
    (journal : nat → list string) (tail : Z) (filter_query : option string) (level : string) : ServerLogs :=
  let n := clamp_tail tail in
  let '(path, raw) := match read_first files with
                      | Some (p, ls) => (p, last_lines (n * 3) ls)
                      | None => ("journalctl", [])
                      end in
  let raw_lines := match raw with [] => if posix then journal (n * 3)%nat else [] | _ => raw end in
  let filtered := _filter_log_lines raw_lines filter_query level in
  mkLogs path (length raw_lines) (length (last_lines n filtered)) (last_lines n filtered).
End console.

(** * The console's window *)

Section console_lemmas.
Context (user_search : string → string → option bool).

Lemma filter_shown q level raws :
  Forall (λ l, ∃ raw, raw ∈ raws ∧ l = sanitize_log_text (strip_line raw) ∧ strip_line raw ≠ ""%string ∧
    level_ok level (strip_line raw) = true ∧ query_ok user_search q (strip_line raw) = true)
    (_filter_log_lines user_search raws q level).
Proof using.
  apply Forall_forall. intros l (raw & Hraw & E)%list_elem_of_omap. exists raw. split; [done|]. cbv beta zeta in E.
  destruct (String.eqb (strip_line raw) "") eqn:E1, (level_ok level (strip_line raw)) eqn:E2,
    (query_ok user_search q (strip_line raw)) eqn:E3; cbn in E; try discriminate E.
  injection E as <-. apply String.eqb_neq in E1. done.
Qed.

Lemma last_lines_split {A} n (l : list A) : l = take (length l - n) l ++ last_lines n l.
Proof using. symmetry. apply take_drop. Qed.
Lemma last_lines_length {A} n (l : list A) : length (last_lines n l) = Nat.min n (length l).
Proof using. unfold last_lines. rewrite length_drop. lia. Qed.

(** C37: The console's answer: it looks at the end of the first readable file, at most
    three times the clamped number of lines, or, when that is empty or no file can be read, at what the
    journal gives for that number; it returns the newest matching lines among them, at most the clamped
    number and all of them when there are no more; and each is the redaction of a
    line that passes the filters. *)
Theorem read_server_logs_window files posix journal tail q level :
  let r := read_server_logs user_search files posix journal tail q level in
  let n := clamp_tail tail in
  (10 ≤ n ≤ 2000)%nat ∧
  ∃ scanned older,
    total_lines_scanned r = length scanned ∧
    ((∃ before, read_first files = Some (source r, before ++ scanned) ∧ scanned ≠ [] ∧ (length scanned ≤ 3 * n)%nat) ∨
     (∀ p ls, read_first files = Some (p, ls) → ls = []) ∧ scanned = if posix then journal (n * 3)%nat else []) ∧
    _filter_log_lines user_search scanned q level = older ++ lines r ∧
    returned_lines r = length (lines r) ∧
    length (lines r) = Nat.min n (length older + length (lines r)) ∧
    Forall (λ l, ∃ raw, raw ∈ scanned ∧ l = sanitize_log_text (strip_line raw) ∧
      level_ok level (strip_line raw) = true ∧ query_ok user_search q (strip_line raw) = true) (lines r).
Proof using.
  intros r n. split; [unfold n, clamp_tail; lia|].
  assert (Hr : ∃ scanned,
    ((∃ before, read_first files = Some (source r, before ++ scanned) ∧ scanned ≠ [] ∧ (length scanned ≤ 3 * n)%nat) ∨
     (∀ p ls, read_first files = Some (p, ls) → ls = []) ∧ scanned = if posix then journal (n * 3)%nat else []) ∧
    r = mkLogs (source r) (length scanned) (length (last_lines n (_filter_log_lines user_search scanned q level)))
          (last_lines n (_filter_log_lines user_search scanned q level))).
  { unfold r, read_server_logs. fold n. set (scanned := if posix then journal (n * 3)%nat else []).
    destruct (read_first files) as [[p ls]|].
    - pose proof (last_lines_length (n * 3) ls) as Hl. destruct (last_lines (n * 3) ls) as [|l0 ls0] eqn:E.
      + exists scanned. split; [|done]. right. split; [|done]. intros p' ls' [= <- <-]. cbn [length] in Hl.
        destruct ls; [done|]. cbn [length] in Hl. unfold n, clamp_tail in Hl. lia.
      + exists (l0 :: ls0). split; [|done]. left. exists (take (length ls - n * 3) ls). cbn [source].
        split; [by rewrite (last_lines_split (n * 3) ls), E at 1|]. split; [done|lia].
    - exists scanned. split; [|done]. by right. }
  destruct Hr as (scanned & Hsrc & Er).
  set (flt := _filter_log_lines user_search scanned q level) in *.
  exists scanned, (take (length flt - n) flt).
  split; [by rewrite Er|]. split; [done|].
  rewrite Er. cbn [lines returned_lines]. split; [apply last_lines_split|]. split; [done|].
  split; [rewrite last_lines_length, length_take; lia|].
  apply Forall_drop. eapply Forall_impl; [apply filter_shown|]. naive_solver.
Qed.
End console_lemmas.

(** * The session *)

Section session_lemmas.
Context (stem suffix : string).

(** What is kept of a session that is known, [i] and [seen] being its values before. *)
Definition settled (i : option string) (seen : json) (s : PalLogScraper) : Prop :=
  registered s = true ∧ (truthy_id i = true → session_id s = i) ∧ (truthy seen = true → first_seen s = seen).
Definition settled_but_id (seen : json) : PalLogScraper → Prop := settled None seen.

Lemma set_first_seen_keeps t seen s :
  truthy (first_seen s) = false → settled_but_id seen s → settled_but_id seen (set_first_seen t s).
Proof using. intros H (? & _ & Hs). split_and!; try done. cbn. intros Hx. rewrite Hs in H; congruence. Qed.

Lemma extract_keeps seen now_text ls :
  preserves (settled_but_id seen) (_extract_session_from_lines now_text ls).
Proof using.
  induction ls as [|line ls IH]; cbn; [apply preserves_ret|].
  destruct (re_search LOG_SEARCH_PATTERN line); [|done].
  apply preserves_bind; [apply preserves_modify; by intros x (? & ? & ?)|]. intros _.
  apply preserves_bind; [case_match; [apply preserves_modify; by intros x (? & ? & ?)|apply preserves_ret]|].
  intros _. apply preserves_get_bind. intros s Hs. destruct (truthy (first_seen s)) eqn:E; [done|].
  by apply (set_first_seen_keeps (JStr (stamp_of now_text line))).
Qed.

Lemma tail_keeps i seen ls : preserves (settled i seen) (tail_line ls).
Proof using. unfold tail_line. case_match; [apply preserves_ret|apply preserves_modify; by intros x (? & ? & ?)]. Qed.

Lemma historical_keeps seen now_text logs : preserves (settled_but_id seen) (_scan_historical_log_files now_text logs).
Proof using.
  induction logs as [|[ls|] logs IH]; [apply preserves_ret| |exact IH]. cbn [_scan_historical_log_files].
  apply preserves_bind; [apply extract_keeps|]. intros hit. apply preserves_get_bind. intros s Hs.
  case_match; [done|by apply IH].
Qed.

Lemma journalctl_keeps seen now_text posix j : preserves (settled_but_id seen) (_scan_journalctl now_text posix j).
Proof using.
  apply preserves_get_bind. intros s Hs. case_match; [done|]. destruct j as [ls|]; [|done].
  clear H. revert s Hs. change (preserves (settled_but_id seen)
    (tail_line ls ;;; _extract_session_from_lines now_text ls ;;; py_ret tt)).
  apply preserves_bind; [apply tail_keeps|intros _].
  apply preserves_bind; [apply extract_keeps|intros _; apply preserves_ret].
Qed.

Lemma save_cache_keeps i seen updated_at : preserves (settled i seen) (_save_session_cache stem suffix updated_at).
Proof using.
  apply preserves_get_bind. intros s Hs. case_match; [|done]. unfold on_disk. by destruct (on_oserror _ _ _).
Qed.

Lemma probe_keeps i seen now_text updated_at posix active logs journal :
  preserves (settled i seen) (probe_local_logs stem suffix now_text updated_at posix active logs journal).
Proof using.
  unfold probe_local_logs. apply preserves_bind; [case_match; [apply tail_keeps|apply preserves_ret]|].
  intros _. apply preserves_get_bind. intros s Hs. destruct (registered s && truthy_id (session_id s)) eqn:E; [done|].
  assert (Hi : truthy_id i = false).
  { destruct (truthy_id i) eqn:Ei; [|done]. destruct Hs as (Hr & Hi & _). by rewrite Hr, Hi, Ei in E. }
  assert (Heq : ∀ t, settled i seen t ↔ settled_but_id seen t) by (intros t; unfold settled_but_id, settled; rewrite Hi; naive_solver).
  apply Heq in Hs. apply Heq. clear E. revert s Hs.
  match goal with |- ∀ s, _ → settled_but_id seen (?m s).2 => change (preserves (settled_but_id seen) m) end.
  apply preserves_bind; [apply historical_keeps|intros _].
  apply preserves_bind; [apply journalctl_keeps|intros _].
  apply preserves_get_bind. intros s Hs.
  destruct (registered s); [|done]. revert s Hs.
  match goal with |- ∀ s, _ → settled_but_id seen (?m s).2 => change (preserves (settled_but_id seen) m) end.
  apply preserves_bind; [apply save_cache_keeps|intros _].
  by apply preserves_get_bind.
Qed.

Inductive scraper_step : PalLogScraper → PalLogScraper → Prop :=
| s_probe now_text updated_at posix active logs journal s :
    scraper_step s (probe_local_logs stem suffix now_text updated_at posix active logs journal s).2
| s_environment s w :
    scraper_step s (mkScraper (registered s) (first_seen s) (session_id s) (last_matched_line s) w).

(** Over any sequence of probes, whatever the logs hold and whatever becomes
    of the cache file, a registered session stays registered, and a session id or
    a time of first sight that is known never changes. *)
Theorem session_settles s s' :
  star scraper_step s s' → registered s = true →
  registered s' = true ∧ (truthy_id (session_id s) = true → session_id s' = session_id s) ∧
  (truthy (first_seen s) = true → first_seen s' = first_seen s).
Proof using.
  intros Hstar Hr. apply (star_invariant scraper_step (settled (session_id s) (first_seen s)) s s'); [|done|done].
  intros a b Ha Hab. destruct Hab; [by apply probe_keeps|done].
Qed.

(** A session that is saved when no call fails is what a new scraper loads:
    its id, the time of first sight and the line shown. *)
Theorem session_cache_roundtrip (json_repr : json → string) updated_at s i :
  session_id s = Some i → i ≠ ""%string → oracle (disk s) = [] →
  plain (cache_data updated_at s) = true →
  let '(r, s') := _save_session_cache stem suffix updated_at s in
  r = Ret tt ∧
  let '(r', t) := _load_session_cache json_repr stem suffix
                    (scraper_init (mkWorld (files (disk s')) [] [] 0)) in
  r' = Ret tt ∧ registered t = true ∧ session_id t = Some i ∧
  first_seen t = first_seen s ∧ last_matched_line t = last_matched_line s.
Proof using.
  intros Hi Hne Ho Hp. remember (dumps_indent 2 (cache_data updated_at s)) as text eqn:Htext.
  assert (Ht : truthy (JStr i) = true) by (cbn; by destruct (String.eqb_spec i "")).
  destruct (save_text_calm stem suffix text (disk s) Ho) as [Hr Hf].
  assert (Hsave : _save_session_cache stem suffix updated_at s =
    (Ret tt, mkScraper (registered s) (first_seen s) (session_id s) (last_matched_line s)
       (save_text stem suffix text (disk s)).2)).
  { unfold _save_session_cache. change (py_bind py_get ?k s) with (k s s). cbv beta.
    assert (Hx : truthy_id (session_id s) = true) by (rewrite Hi; by destruct i). rewrite Hx.
    unfold on_disk, on_oserror, py_try. rewrite <-Htext.
    by destruct (save_text stem suffix text (disk s)) as [r w]; cbn in Hr; subst r. }
  rewrite Hsave. split; [done|]. cbn [disk].
  set (fs := files (save_text stem suffix text (disk s)).2) in *. clearbody fs.
  destruct (fs !! saved_path stem suffix) as [f|] eqn:Ef; [|done].
  cbn in Hf. injection Hf as Hf.
  unfold _load_session_cache. change (py_bind py_get ?k ?s) with (k s s). cbv beta.
  cbn [disk scraper_init files]. rewrite Ef. unfold py_bind at 1, on_disk, on_oserror, py_try.
  assert (Hstat : (x <- sys_stat (saved_path stem suffix) ;; py_ret (Some (f_data x)))
    (mkWorld fs [] [] 0)
    = (Ret (Some text), mkWorld fs [] [] 0)).
  { unfold sys_stat, sys_fail, draw, py_bind, py_get, py_modify, py_ret. cbn. rewrite Ef. cbn. by rewrite Hf. }
  cbn [disk scraper_init]. rewrite Hstat. cbv beta iota.
  rewrite Htext, utf8_valid_ascii by by apply dumps_indent_isascii. cbn [negb].
  rewrite loads_indent by done. unfold cache_data. rewrite Hi.
  unfold lift, json_field. cbn. by destruct (String.eqb_spec i "").
Qed.
End session_lemmas.

(** * Examples *)

Definition dq (s : string) : string := str_map (λ c, if Ascii.eqb c "'" then quote_char else c) s.

Example redacts :
  List.map sanitize_log_text ["login admin_password = hunter2, ok"; "Authorization: Bearer ey.J-x"; "id 12345678-1234-1234-1234-1234567890ab."]
  = ["login admin_password=[REDACTED], ok"; "Authorization: Bearer [REDACTED]"; "id [REDACTED_UUID]."].
Proof. vm_compute. reflexivity. Qed.

(** The value of a JSON member is not redacted, nor what follows a space in a quoted value. *)
Lemma json_password_leaks :
  sanitize_log_text (dq "{'password': 'hunter2'}") = dq "{'password': 'hunter2'}".
Proof. vm_compute. reflexivity. Qed.
Lemma quoted_password_leaks :
  sanitize_log_text (dq "AdminPassword='correct horse'") = dq "AdminPassword=[REDACTED] horse'".
Proof. vm_compute. reflexivity. Qed.

(** The stamp of a line loses the separator of its date and keeps that of its time. *)
Lemma stamp_is_malformed :
  stamp_of "now" "[2026.01.02-03.04.05:678][  0]LogPalServer: ready" = "2026 01-02-03-04-05".
Proof. vm_compute. reflexivity. Qed.

(** Any line of the server's own log category counts as a registered session. *)
Lemma any_server_line_registers w :
  i_session_id (match (probe_local_logs "c" ".json" "t" "u" true None [Some ["LogPalServer: x"]] None (scraper_init w)).1 with
                | Ret i => i | Raise _ => mkInfo false None JNull JNull end) = Some "EOS-Session-Active".
Proof. vm_compute. reflexivity. Qed.

(** ** The theorems on concrete logs *)

Definition known_session : PalLogScraper :=
  mkScraper true (JStr "2026-01-02") (Some "EOS-1") (JStr "ready") (mkWorld ∅ [] [] 0).
Definition console_example : ServerLogs :=
  read_server_logs (λ q l, Some (str_contains q l)) [("old", None); ("Pal.log", Some (Ret ["Error: password=x"; "fine"]))]
    true (λ _, []) 3 None "WARN_ERROR".

Lemma read_server_logs_window_witness :
  (10 ≤ clamp_tail 3 ≤ 2000)%nat ∧ lines console_example = ["Error: password=[REDACTED]"] ∧
  ∃ scanned older, _filter_log_lines (λ q l, Some (str_contains q l)) scanned None "WARN_ERROR"
    = older ++ lines console_example.
Proof.
  destruct (read_server_logs_window (λ q l, Some (str_contains q l))
    [("old", None); ("Pal.log", Some (Ret ["Error: password=x"; "fine"]))] true (λ _, []) 3 None "WARN_ERROR") as (H1 & scanned & older & _ & _ & H2 & _).
  split; [exact H1|]. split; [vm_compute; reflexivity|]. exists scanned, older. exact H2.
Defined.

Lemma session_settles_witness :
  let s' := (probe_local_logs "c" ".json" "t" "u" true (Some ["LogPalServer: SessionId: other"]) [] None known_session).2 in
  session_id s' = Some "EOS-1" ∧ first_seen s' = JStr "2026-01-02".
Proof.
  cbv zeta.
  destruct (session_settles "c" ".json" known_session _
    (star_step _ _ _ _ (star_refl _ _)
      (s_probe "c" ".json" "t" "u" true (Some ["LogPalServer: SessionId: other"]) [] None known_session)) eq_refl)
    as (_ & H1 & H2).
  split; [exact (H1 eq_refl)|exact (H2 eq_refl)].
Defined.

Lemma session_cache_roundtrip_witness :
  let s' := (_save_session_cache "c" ".json" "u" known_session).2 in
  session_id (_load_session_cache (λ _, "?") "c" ".json" (scraper_init (mkWorld (files (disk s')) [] [] 0))).2
  = Some "EOS-1".
Proof.
  cbv zeta.
  assert (Hne : "EOS-1"%string ≠ ""%string) by (intros [=]).
  pose proof (session_cache_roundtrip "c" ".json" (λ _, "?") "u" known_session "EOS-1" eq_refl Hne eq_refl eq_refl) as H.
  destruct (_save_session_cache "c" ".json" "u" known_session) as [r s']. cbn [snd].
  destruct H as [_ H]. destruct (_load_session_cache _ _ _ _) as [r' t]. cbn [snd].
  destruct H as (_ & _ & H & _). exact H.
Defined.
