(* ===== verification/GameApi.v ===== *)
(** The game server's REST interface (engine/service.py), the Discord notifier
    (engine/notifications.py), the moderation endpoints (routers/players.py) and
    the readiness and save endpoints of routers/system.py.

    The network is an argument: [answer] gives the status and body of a request
    from the requests sent before it, or the exception it raises; the state is
    the web application and the requests sent so far.  Time stamps of embeds are
    an argument, floats are decimals. *)

From S2P Require Import Prelude PyStr PyNum PyDict PyJson Database Auth Access.
From Stdlib Require Import ZArith Ascii Bool Lia.
From stdpp Require Import base tactics list strings.

Local Open Scope Z_scope.
Local Open Scope py_scope.

(** * Requests *)

Inductive Sent : Type :=
  | ApiGet (url : string) (auth : string * string)
  | ApiPost (url : string) (auth : string * string) (body : option json)
  | Webhook (url : string) (payload : json)
  | Slept (seconds : pyfloat).

Record Client := mkClient { app : App; sent : list Sent }.

Record EngineConfig := mkConfig {
  admin_password : string;
  rest_port : Z;
  server_name : string;
  webhook_url : option string }.

Record ReadinessInfo := mkReadiness {
  ready : bool;
  version : json;
  r_server_name : json;
  diagnostic_code : string;
  diagnostic_message : string }.

Record EngineMetrics := mkEngineMetrics {
  server_fps : json;
  server_frame_time_ms : pyfloat;
  uptime_seconds : json;
  days : json;
  current_players : json;
  max_players : json }.

Definition COLOR_INFO : Z := 3900150.
Definition COLOR_SUCCESS : Z := 1096065.
Definition COLOR_WARNING : Z := 16096779.
Definition COLOR_ALERT : Z := 15680580.
Definition COLOR_BROADCAST : Z := 9133302.

Section api.
Context (answer : list Sent → Sent → result (Z * string)).
(** The text of an HTTP exception. *)
Context (error_text : string → string).
Context (cfg : EngineConfig) (timestamp : string).

Definition http (c : Sent) : PyM Client (Z * string) :=
  λ s, (answer (sent s) c, mkClient (app s) (sent s ++ [c])).
Definition on_app {A} (m : PyM App A) : PyM Client A :=
  λ s, let '(r, a) := m (app s) in (r, mkClient a (sent s)).
Definition pause (seconds : pyfloat) : PyM Client unit :=
  py_modify (λ s, mkClient (app s) (sent s ++ [Slept seconds])).

(** [except httpx.HTTPError] with its subclasses, told apart by their names. *)
Definition on_http {A} (m : PyM Client A) (h : string → PyM Client A) : PyM Client A :=
  py_try m (λ e, match e with HTTPError cls => h cls | _ => py_raise e end).

Definition base_url : string := "http://127.0.0.1:" +:+ str_of_Z (rest_port cfg) +:+ "/v1/api".
Definition auth : string * string := ("admin", admin_password cfg).
Definition api_get (path : string) : PyM Client (Z * string) := http (ApiGet (base_url +:+ path) auth).
Definition api_post (path : string) (body : option json) : PyM Client (Z * string) :=
  http (ApiPost (base_url +:+ path) auth body).

(** * Discord *)

(** [parse_discord_retry_after] *)
Definition parse_discord_retry_after (body : string) : result pyfloat :=
  match (match json_body body with
         | Ret v => match json_field v "retry_after" (JFloat 15 (-1)) with Ret w => float_json w | Raise e => Raise e end
         | Raise e => Raise e
         end) with
  | Raise (ValueError _) | Raise (KeyError _) => Ret (FDec 2 0)
  | r => r
  end.

Record Embed := mkEmbed {
  title : string;
  description : string;
  color : Z;
  fields : list (string * string * bool);
  footer : string }.

Definition field_json (f : string * string * bool) : json :=
  JObj [("name", JStr f.1.1); ("value", JStr f.1.2); ("inline", JBool f.2)].
Definition embed_payload (e : Embed) : json :=
  JObj [("embeds", JArr [JObj
    [("title", JStr (title e)); ("description", JStr (description e)); ("color", JInt (color e));
     ("fields", JArr (List.map field_json (fields e))); ("footer", JObj [("text", JStr (footer e))]);
     ("timestamp", JStr timestamp)]])].

Definition webhook_allowed : option string :=
  match webhook_url cfg with
  | Some u => if negb (String.eqb u "") && startswith (str_strip u) "https://discord.com/api/webhooks/"
              then Some u else None
  | None => None
  end.

Definition delivered (status : Z) : bool := (status =? 200) || (status =? 204).

Definition send_embed (e : Embed) : PyM Client bool :=
  match webhook_allowed with
  | None => py_ret false
  | Some url =>
      on_http
        (res <- http (Webhook url (embed_payload e)) ;;
         if delivered res.1 then py_ret true
         else if res.1 =? 429 then
           retry_after <- lift (parse_discord_retry_after res.2) ;;
           pause retry_after ;;;
           res_retry <- http (Webhook url (embed_payload e)) ;;
           py_ret (delivered res_retry.1)
         else py_ret false)
        (λ _, py_ret false)
  end.

Definition SUITE : string := "Palworld Operations Suite".
Definition name_or (name other : string) : string := if String.eqb name "" then other else name.

Definition notify_admin_broadcast (name message : string) : PyM Client bool :=
  let clean_msg := str_strip (str_replace "[ADMIN NOTICE]" "" message) in
  send_embed (mkEmbed "📢 In-Game Admin Announcement" ("**" +:+ clean_msg +:+ "**") COLOR_BROADCAST []
    ("Server: " +:+ name_or name "Palworld Dedicated Server")).

Definition notify_server_ready (name version public_ip : string) (port : Z) : PyM Client bool :=
  send_embed (mkEmbed "🟢 Palworld Server Online & Ready"
    "The dedicated server has successfully initialized and is accepting player connections." COLOR_SUCCESS
    [("Server Name", name_or name "Palworld Dedicated Server", true);
     ("Engine Version", name_or version "Live", true);
     ("Direct Connect",
      if String.eqb public_ip "" then "`Port " +:+ str_of_Z port +:+ "`"
      else "`" +:+ public_ip +:+ ":" +:+ str_of_Z port +:+ "`", false)] SUITE).

Definition two_lines : string := String "010" (String "010" "").
Definition with_reason (reason desc : string) : string :=
  if String.eqb reason "" then desc else "**Reason:** " +:+ reason +:+ two_lines +:+ desc.

Definition notify_reboot_countdown (remaining : string) (is_updating : bool) (update_tag custom_message : string)
    : PyM Client bool :=
  let update_text :=
    if is_updating && negb (String.eqb update_tag "") then " (Updating to " +:+ update_tag +:+ ")"
    else if is_updating then " (with SteamCMD update)" else "" in
  let desc :=
    if String.eqb (str_lower remaining) "immediately"
    then "Server is restarting **immediately**" +:+ update_text +:+ ". World save and maintenance in progress."
    else "Server restart scheduled in **" +:+ remaining +:+ "**" +:+ update_text +:+
         ". Please find a safe location to prevent data loss." in
  send_embed (mkEmbed "⚠️ Server Reboot in Progress" (with_reason custom_message desc) COLOR_WARNING [] SUITE).

Definition notify_reboot_complete (name : string) : PyM Client bool :=
  send_embed (mkEmbed "🔄 Server Maintenance Complete"
    ("**" +:+ name_or name "Palworld Server" +:+ "** has completed its restart cycle and is back online.")
    COLOR_SUCCESS [] SUITE).

Definition notify_reboot_cancelled (name reason : string) : PyM Client bool :=
  send_embed (mkEmbed "🛑 Server Reboot Cancelled"
    (with_reason reason
      "The scheduled server restart has been **CANCELLED** by an administrator. Gameplay may continue uninterrupted.")
    COLOR_INFO [] ("Server: " +:+ name_or name "Palworld Dedicated Server")).

Definition notify_player_action (action player_id reason : string) : PyM Client bool :=
  send_embed (mkEmbed ("🛡️ Admin Action: " +:+ str_upper action)
    ("Administrative moderation action executed on player `" +:+ player_id +:+ "`.")
    (if String.eqb (str_lower action) "ban" then COLOR_ALERT else COLOR_WARNING)
    ([("Action", str_upper action, true); ("Player ID / SteamID", "`" +:+ player_id +:+ "`", true)] ++
     if String.eqb reason "" then [] else [("Reason", reason, false)]) SUITE).

(** * The engine's calls *)

Definition not_ready (code message : string) : ReadinessInfo :=
  mkReadiness false JNull (JStr (server_name cfg)) code message.

Definition check_readiness : PyM Client ReadinessInfo :=
  on_http
    (res <- api_get "/info" ;;
     if res.1 =? 200 then
       info <- lift (json_body res.2) ;;
       v <- lift (json_field info "version" JNull) ;;
       n <- lift (json_field info "servername" (JStr (server_name cfg))) ;;
       py_ret (mkReadiness true v n "OK" "Palworld REST API operational.")
     else if res.1 =? 401 then
       py_ret (not_ready "UNAUTHORIZED"
         "Authentication failed (HTTP 401). Verify AdminPassword in PalWorldSettings.ini matches engine configuration.")
     else py_ret (not_ready "ERROR"
         ("Palworld REST probe returned unexpected HTTP status " +:+ str_of_Z res.1 +:+ ".")))
    (λ cls,
      py_ret
        (if String.eqb cls "TimeoutException" then
           not_ready "TIMEOUT" "Palworld REST probe timed out after 2.0s (server may be hanging or booting)."
         else if String.eqb cls "ConnectError" then
           not_ready "CONNECTION_REFUSED" ("Connection refused on port " +:+ str_of_Z (rest_port cfg) +:+
             ". Palworld server is offline or starting.")
         else not_ready "ERROR" ("HTTP probe communication error: " +:+ error_text cls))).

Definition no_metrics : EngineMetrics := mkEngineMetrics (JInt 0) (FDec 0 0) (JInt 0) (JInt 0) (JInt 0) (JInt 32).

Definition get_engine_metrics : PyM Client EngineMetrics :=
  on_http
    (res <- api_get "/metrics" ;;
     if res.1 =? 200 then
       data <- lift (json_body res.2) ;;
       fps <- lift (json_field data "serverfps" (JInt 0)) ;;
       raw <- lift (json_field data "serverframetime" (JFloat 0 0)) ;;
       frame <- lift (float_json raw) ;;
       up <- lift (json_field data "uptime" (JInt 0)) ;;
       d <- lift (json_field data "days" (JInt 0)) ;;
       current <- lift (json_field data "currentplayernum" (JInt 0)) ;;
       most <- lift (json_field data "maxplayernum" (JInt 32)) ;;
       py_ret (mkEngineMetrics fps (round_float 2 frame) up d current most)
     else py_ret no_metrics)
    (λ _, py_ret no_metrics).

Definition get_raw_players : PyM Client (list json) :=
  on_http
    (res <- api_get "/players" ;;
     if res.1 =? 200 then
       data <- lift (json_body res.2) ;;
       players <- lift (json_field data "players" (JArr [])) ;;
       py_ret (match players with JArr l => l | _ => [] end)
     else py_ret [])
    (λ _, py_ret []).

Definition mirrored (mirror_discord : bool) (message : string) : PyM Client unit :=
  if mirror_discord then notify_admin_broadcast (name_or (server_name cfg) "Palworld Server") message ;;; py_ret tt
  else py_ret tt.

Definition send_broadcast (message : string) (mirror_discord : bool) : PyM Client bool :=
  on_http
    (res <- api_post "/announce" (Some (JObj [("message", JStr message)])) ;;
     mirrored mirror_discord message ;;;
     py_ret (res.1 =? 200))
    (λ _, mirrored mirror_discord message ;;; py_ret false).

(** [kick_player] and [ban_player] *)
Definition moderate (action player_id message : string) : PyM Client bool :=
  on_http
    (res <- api_post ("/" +:+ action) (Some (JObj [("userid", JStr player_id); ("message", JStr message)])) ;;
     (if res.1 =? 200 then notify_player_action action player_id message ;;; py_ret tt else py_ret tt) ;;;
     py_ret (res.1 =? 200))
    (λ _, py_ret false).
Definition kick_player : string → string → PyM Client bool := moderate "kick".
Definition ban_player : string → string → PyM Client bool := moderate "ban".

Definition unban_player (player_id : string) : PyM Client bool :=
  on_http (res <- api_post "/unban" (Some (JObj [("userid", JStr player_id)])) ;; py_ret (res.1 =? 200))
    (λ _, py_ret false).
Definition trigger_save : PyM Client bool :=
  on_http (res <- api_post "/save" None ;; py_ret (res.1 =? 200)) (λ _, py_ret false).

(** * Endpoints *)

Record PlayerRequest := mkPlayerRequest { player_id : string; message : string }.
Definition valid_player_request (q : PlayerRequest) : bool :=
  (1 <=? utf8_len (player_id q)) && (utf8_len (player_id q) <=? 64) && (utf8_len (message q) <=? 128).
Definition valid_warn (m : string) : bool := (1 <=? utf8_len m) && (utf8_len m <=? 256).

(** The clock, the secret and the request that the permission dependency reads. *)
Context (now : Z) (now_ts secret : string) (request : Request).
Definition perm (permission : string) : PyM Client UserRecord :=
  on_app (require_permission permission now now_ts secret request).
Definition validated {A} (b : bool) (m : PyM Client A) : PyM Client A :=
  if b then m else py_raise (HTTPException 422 "Unprocessable Entity").
Definition or_fail (ok : bool) (status : Z) (detail answer_text : string) : PyM Client string :=
  if ok then py_ret answer_text else py_raise (HTTPException status detail).

Definition handle_kick (q : PlayerRequest) : PyM Client string :=
  perm "player:kick" ;;;
  validated (valid_player_request q)
    (ok <- kick_player (player_id q) (name_or (message q) "Kicked by administrator") ;;
     or_fail ok 500 "Failed to kick player via REST API." ("Player " +:+ player_id q +:+ " disconnected.")).

Definition handle_ban (q : PlayerRequest) : PyM Client string :=
  perm "player:ban" ;;;
  validated (valid_player_request q)
    (ok <- ban_player (player_id q) (name_or (message q) "Banned by administrator") ;;
     or_fail ok 500 "Failed to ban player via REST API." ("Player " +:+ player_id q +:+ " banned.")).

Definition handle_warn (text : string) : PyM Client string :=
  perm "player:broadcast" ;;;
  validated (valid_warn text)
    (ok <- send_broadcast ("[ADMIN NOTICE] " +:+ text) true ;;
     or_fail ok 500 "Failed to broadcast message." "Broadcast alert sent across in-game HUD and echoed to Discord.").

(** [/ready]: the name, the version and the code of the probe. *)
Definition readiness_check : PyM Client (json * json * string) :=
  r <- check_readiness ;;
  if ready r then py_ret (r_server_name r, version r, diagnostic_code r)
  else py_raise (HTTPException 503
    (name_or (diagnostic_message r) "Palworld server engine is starting or unreachable.")).

(** [/api/server/save]: who triggered the save. *)
Definition manual_world_save : PyM Client string :=
  user <- perm "server:reboot" ;;
  ok <- trigger_save ;;
  or_fail ok 503 "World save failed. Ensure the Palworld server is online and reachable." (u_username user).

(** * What is sent *)

(** Every request that [m] adds satisfies [φ]. *)
Definition sends (φ : Sent → Prop) {A} (m : PyM Client A) : Prop :=
  ∀ s, ∃ new, sent (m s).2 = sent s ++ new ∧ Forall φ new.

Section sends.
Context (φ : Sent → Prop).
Lemma sends_ret {A} (a : A) : sends φ (py_ret a).
Proof using. intros s. exists []. rewrite app_nil_r. by split. Qed.
Lemma sends_raise {A} e : sends φ (py_raise (A := A) e).
Proof using. intros s. exists []. rewrite app_nil_r. by split. Qed.
Lemma sends_lift {A} (r : result A) : sends φ (lift r).
Proof using. destruct r; [apply sends_ret|apply sends_raise]. Qed.
Lemma sends_bind {A B} (m : PyM Client A) (k : A → PyM Client B) :
  sends φ m → (∀ a, sends φ (k a)) → sends φ (py_bind m k).
Proof using.
  intros Hm Hk s. destruct (Hm s) as (new & E & Hn). unfold py_bind. destruct (m s) as [[a|e] s1]; cbn in *; [|eauto].
  destruct (Hk a s1) as (new' & E' & Hn'). exists (new ++ new'). rewrite E', E, app_assoc, Forall_app. done.
Qed.
Lemma sends_on_http {A} (m : PyM Client A) h : sends φ m → (∀ c, sends φ (h c)) → sends φ (on_http m h).
Proof using.
  intros Hm Hh s. destruct (Hm s) as (new & E & Hn). unfold on_http, py_try.
  destruct (m s) as [[a|e] s1]; cbn in *; [eauto|].
  destruct e; try (by eauto). destruct (Hh cls s1) as (new' & E' & Hn'). exists (new ++ new').
  rewrite E', E, app_assoc, Forall_app. done.
Qed.
Lemma sends_http c : φ c → sends φ (http c).
Proof using. intros Hc s. exists [c]. split; [done|]. by constructor. Qed.
Lemma sends_pause x : φ (Slept x) → sends φ (pause x).
Proof using. intros Hc s. exists [Slept x]. split; [done|]. by constructor. Qed.
Lemma sends_on_app {A} (m : PyM App A) : sends φ (on_app m).
Proof using. intros s. exists []. rewrite app_nil_r. unfold on_app. by destruct (m (app s)). Qed.
End sends.

Ltac sending_step :=
  first
    [ apply sends_ret | apply sends_raise | apply sends_lift | apply sends_on_app
    | apply sends_bind; [|intros ?] | apply sends_on_http; [|intros ?]
    | apply sends_http | apply sends_pause | progress case_match ].
Ltac sending := repeat sending_step.

(** Credentials go to the local interface only, embeds only to an allowed webhook. *)
Definition proper (c : Sent) : Prop :=
  match c with
  | ApiGet u a | ApiPost u a _ => a = auth ∧ startswith u "http://127.0.0.1:" = true
  | Webhook u p => webhook_url cfg = Some u ∧ startswith (str_strip u) "https://discord.com/api/webhooks/" = true ∧
      ∃ e ts, p = JObj [("embeds", JArr [JObj
        [("title", JStr (title e)); ("description", JStr (description e)); ("color", JInt (color e));
         ("fields", JArr (List.map field_json (fields e))); ("footer", JObj [("text", JStr (footer e))]);
         ("timestamp", JStr ts)]])]
  | Slept _ => True
  end.

Lemma webhook_allowed_Some u :
  webhook_allowed = Some u → webhook_url cfg = Some u ∧ startswith (str_strip u) "https://discord.com/api/webhooks/" = true.
Proof using.
  unfold webhook_allowed. destruct (webhook_url cfg) as [v|]; [|done].
  destruct (negb (String.eqb v "")); [|done]. cbn [andb].
  destruct (startswith (str_strip v) _) eqn:E; [|done]. intros [= <-]. done.
Qed.

Lemma send_embed_proper e : sends proper (send_embed e).
Proof using.
  unfold send_embed. destruct webhook_allowed as [u|] eqn:E; [|sending].
  apply webhook_allowed_Some in E as [E1 E2].
  assert (Hw : proper (Webhook u (embed_payload e))) by (split_and!; [done|done|by exists e, timestamp]).
  sending; done.
Qed.

Lemma local_proper_get path : sends proper (api_get path).
Proof using. apply sends_http. split; [done|]. by unfold base_url. Qed.
Lemma local_proper_post path body : sends proper (api_post path body).
Proof using. apply sends_http. split; [done|]. by unfold base_url. Qed.

Ltac properly :=
  repeat first [ apply local_proper_get | apply local_proper_post | apply send_embed_proper | sending_step ].

Lemma mirrored_proper b m : sends proper (mirrored b m).
Proof using. unfold mirrored, notify_admin_broadcast. properly. Qed.
Lemma broadcast_proper m b : sends proper (send_broadcast m b).
Proof using.
  unfold send_broadcast. apply sends_on_http; [|intros ?; apply sends_bind; [apply mirrored_proper|intros ?; properly]].
  apply sends_bind; [properly|intros ?]. apply sends_bind; [apply mirrored_proper|intros ?; properly].
Qed.
Lemma moderate_proper action pid m : sends proper (moderate action pid m).
Proof using. unfold moderate, notify_player_action. properly. Qed.
Lemma readiness_proper : sends proper check_readiness.
Proof using. unfold check_readiness. properly. Qed.

(** ** One request and its outcome *)

(** What a notification adds: at most two posts with a pause between them; what
    it raises is not an HTTP exception. *)
Definition to_discord (c : Sent) : Prop := match c with Webhook _ _ | Slept _ => True | _ => False end.
Definition notified {A} (s : Client) (out : result A * Client) : Prop :=
  app out.2 = app s ∧
  (∃ new, sent out.2 = sent s ++ new ∧ Forall to_discord new ∧ (length new ≤ 3)%nat) ∧
  ∀ e, out.1 = Raise e → ∀ cls, e ≠ HTTPError cls.

Lemma notified_new {A} s new (r : result A) :
  Forall to_discord new → (length new ≤ 3)%nat → (∀ e, r = Raise e → ∀ cls, e ≠ HTTPError cls) →
  notified s (r, mkClient (app s) (sent s ++ new)).
Proof using. intros H1 H2 H3. split; [done|]. split; [by exists new|done]. Qed.

Lemma send_embed_spec e s : notified s (send_embed e s).
Proof using.
  unfold send_embed. destruct webhook_allowed as [u|].
  2: { split; [done|]. split; [exists []; rewrite app_nil_r; split_and!; [done|done|cbn; lia]|done]. }
  set (w := Webhook u (embed_payload e)). unfold on_http, py_try. unfold py_bind at 1, http at 1.
  destruct (answer (sent s) w) as [[st body]|x].
  2: { destruct x; apply notified_new; repeat constructor; congruence. }
  cbn [fst snd]. destruct (delivered st); [apply notified_new; repeat constructor; congruence|].
  destruct (st =? 429); [|apply notified_new; repeat constructor; congruence].
  destruct (parse_discord_retry_after body) as [t|x]; cbn [lift].
  2: { unfold py_bind at 1, py_raise. destruct x; apply notified_new; repeat constructor; congruence. }
  rewrite py_bind_ret. unfold py_bind, pause, py_modify, http. cbn [app sent]. rewrite <-!app_assoc. cbn [List.app].
  destruct (answer _ w) as [[st' body']|x]; [|destruct x]; apply notified_new; repeat constructor; congruence.
Qed.

(** The game server decides: the request is sent once; the outcome is its status;
    only an accepted action is announced, and nothing but an exception of the
    announcement changes the outcome. *)
Lemma moderate_spec action pid text s :
  let c := ApiPost (base_url +:+ "/" +:+ action) auth (Some (JObj [("userid", JStr pid); ("message", JStr text)])) in
  let '(r, s') := moderate action pid text s in
  app s' = app s ∧ ∃ new, sent s' = sent s ++ c :: new ∧ Forall to_discord new ∧ (length new ≤ 3)%nat ∧
  match answer (sent s) c with
  | Ret (st, _) => if st =? 200 then r = Ret true ∨ ∃ e, r = Raise e else new = [] ∧ r = Ret false
  | Raise (HTTPError _) => new = [] ∧ r = Ret false
  | Raise e => new = [] ∧ r = Raise e
  end.
Proof using.
  intros c. unfold moderate, on_http, py_try. unfold py_bind at 1, api_post, http at 1. fold c.
  set (s1 := mkClient (app s) (sent s ++ [c])).
  destruct (answer (sent s) c) as [[st body]|x].
  2: { destruct x; (split; [done|]); exists []; split_and!; done || (cbn; lia). }
  cbn [fst]. destruct (st =? 200).
  2: { split; [done|]. exists []. split_and!; [done|done|cbn; lia|done|done]. }
  unfold py_bind. destruct (send_embed_spec (mkEmbed ("🛡️ Admin Action: " +:+ str_upper action)
    ("Administrative moderation action executed on player `" +:+ pid +:+ "`.")
    (if String.eqb (str_lower action) "ban" then COLOR_ALERT else COLOR_WARNING)
    ([("Action", str_upper action, true); ("Player ID / SteamID", "`" +:+ pid +:+ "`", true)] ++
     if String.eqb text "" then [] else [("Reason", text, false)]) SUITE) s1) as (Ha & (new & Hs & Hd & Hl) & He).
  unfold notify_player_action. destruct (send_embed _ s1) as [[b|e] s2]; cbn [fst snd py_ret] in *.
  - split; [done|]. exists new. rewrite Hs. unfold s1. cbn. rewrite <-app_assoc. split_and!; [done|done|done|by left].
  - specialize (He e eq_refl). destruct e; try (split; [done|]; exists new; rewrite Hs; unfold s1; cbn; rewrite <-app_assoc;
      split_and!; [done|done|done|right; by eexists]). by destruct (He cls).
Qed.

(** ** The moderation endpoints *)

Definition moderation_outcome (permission action other done_text failed : string) (q : PlayerRequest) (s : Client)
    (out : result string * Client) : Prop :=
  match require_permission permission now now_ts secret request (app s) with
  | (Raise e, a) => out = (Raise e, mkClient a (sent s))
  | (Ret _, a) =>
      if valid_player_request q then
        let c := ApiPost (base_url +:+ "/" +:+ action) auth
          (Some (JObj [("userid", JStr (player_id q)); ("message", JStr (name_or (message q) other))])) in
        app out.2 = a ∧ ∃ new, sent out.2 = sent s ++ c :: new ∧ Forall to_discord new ∧ (length new ≤ 3)%nat ∧
        match answer (sent s) c with
        | Ret (st, _) =>
            if st =? 200 then out.1 = Ret done_text ∨ ∃ e, out.1 = Raise e
            else new = [] ∧ out.1 = Raise (HTTPException 500 failed)
        | Raise (HTTPError _) => new = [] ∧ out.1 = Raise (HTTPException 500 failed)
        | Raise e => new = [] ∧ out.1 = Raise e
        end
      else out = (Raise (HTTPException 422 "Unprocessable Entity"), mkClient a (sent s))
  end.

Lemma moderation_spec permission action other done_text failed q s :
  moderation_outcome permission action other done_text failed q s
    ((perm permission ;;;
      validated (valid_player_request q)
        (ok <- moderate action (player_id q) (name_or (message q) other) ;; or_fail ok 500 failed done_text)) s).
Proof using.
  unfold moderation_outcome, perm, on_app, py_bind.
  destruct (require_permission permission now now_ts secret request (app s)) as [[u|e] a]; [|done].
  unfold validated. destruct (valid_player_request q); [|done]. cbv zeta.
  set (s1 := mkClient a (sent s)).
  pose proof (moderate_spec action (player_id q) (name_or (message q) other) s1) as H. cbv zeta in H.
  change (sent s1) with (sent s) in H.
  destruct (moderate action (player_id q) (name_or (message q) other) s1) as [r s2].
  destruct H as (Ha & new & Hs & Hd & Hl & H).
  assert (Hout : ∀ ok, (or_fail ok 500 failed done_text s2) =
    ((if ok then Ret done_text else Raise (HTTPException 500 failed)), s2)) by (by intros []).
  split; [destruct r; [rewrite Hout|]; done|]. exists new.
  split; [destruct r; [rewrite Hout|]; done|]. split; [done|]. split; [done|].
  destruct (answer (sent s) _) as [[st body]|e].
  - destruct (st =? 200).
    + destruct H as [->|[e ->]]; [left|right; by exists e]. by rewrite Hout.
    + destruct H as [-> ->]. by rewrite Hout.
  - destruct e; destruct H as [-> ->]; by rewrite ?Hout.
Qed.

(** Kicking and banning: a caller without the permission is refused and nothing
    is sent; a valid request is sent to the game server exactly once; the answer
    is a success when the server accepted it, and 500 otherwise, in which case
    nothing is announced.  Only an exception of the announcement can turn an
    accepted request into an error. *)
Theorem moderation_exact q s :
  moderation_outcome "player:kick" "kick" "Kicked by administrator"
    ("Player " +:+ player_id q +:+ " disconnected.") "Failed to kick player via REST API." q s (handle_kick q s) ∧
  moderation_outcome "player:ban" "ban" "Banned by administrator"
    ("Player " +:+ player_id q +:+ " banned.") "Failed to ban player via REST API." q s (handle_ban q s).
Proof using. split; apply moderation_spec. Qed.
(** ** Histories *)

Inductive Op : Type :=
  | OpKick (q : PlayerRequest) | OpBan (q : PlayerRequest) | OpUnban (id : string) | OpWarn (text : string)
  | OpReady | OpSave | OpMetrics | OpPlayers
  | OpAnnounce (text : string) (mirror : bool) | OpNotify (e : Embed).

Definition run_op (o : Op) : PyM Client unit :=
  match o with
  | OpKick q => handle_kick q ;;; py_ret tt
  | OpBan q => handle_ban q ;;; py_ret tt
  | OpUnban id => unban_player id ;;; py_ret tt
  | OpWarn text => handle_warn text ;;; py_ret tt
  | OpReady => readiness_check ;;; py_ret tt
  | OpSave => manual_world_save ;;; py_ret tt
  | OpMetrics => get_engine_metrics ;;; py_ret tt
  | OpPlayers => get_raw_players ;;; py_ret tt
  | OpAnnounce text mirror => send_broadcast text mirror ;;; py_ret tt
  | OpNotify e => send_embed e ;;; py_ret tt
  end.

Lemma run_op_proper o : sends proper (run_op o).
Proof using.
  destruct o; cbn [run_op]; (apply sends_bind; [|intros ?; sending]);
    unfold handle_kick, handle_ban, handle_warn, readiness_check, manual_world_save, perm, validated, kick_player,
      ban_player, unban_player, trigger_save, get_engine_metrics, get_raw_players, or_fail;
    repeat first [ apply moderate_proper | apply broadcast_proper | apply readiness_proper
      | apply local_proper_get | apply local_proper_post | apply send_embed_proper | sending_step ].
Qed.
End api.

Inductive client_step (answer : list Sent → Sent → result (Z * string)) (error_text : string → string)
    (cfg : EngineConfig) : Client → Client → Prop :=
| step_op timestamp now now_ts secret request o s :
    client_step answer error_text cfg s (run_op answer error_text cfg timestamp now now_ts secret request o s).2.

(** Over any sequence of operations the administrator's credentials are sent
    to the local interface of the game server and nowhere else, and the only
    other requests are embeds to a configured webhook of Discord. *)
Theorem secrets_stay_local answer error_text cfg s s' :
  star (client_step answer error_text cfg) s s' → Forall (proper cfg) (sent s) → Forall (proper cfg) (sent s').
Proof.
  intros Hstar. apply (star_invariant (client_step answer error_text cfg) (λ t, Forall (proper cfg) (sent t)) s s');
    [|done].
  intros a b Ha Hab. destruct Hab as [ts now now_ts secret request o a].
  destruct (run_op_proper answer error_text cfg ts now now_ts secret request o a) as (new & -> & Hn). apply Forall_app. by split.
Qed.

Definition example_cfg : EngineConfig :=
  mkConfig "secret" 8212 "Pal" (Some "https://discord.com/api/webhooks/1").
(** Discord limits the rate and answers with a body that is no number. *)
Definition example_answer (_ : list Sent) (c : Sent) : result (Z * string) :=
  match c with Webhook _ _ => Ret (429, "[]") | _ => Ret (200, "{") end.
Definition from_localhost : Request := mkRequest [] [] (Some "127.0.0.1").
Definition example_client : Client := mkClient example_app [].
Definition example_kick : Op := OpKick (mkPlayerRequest "76561198000000000" "").

Lemma secrets_stay_local_witness :
  List.map (λ c, match c with ApiPost u _ _ => u | Webhook u _ => u | _ => "" end)
    (sent (run_op example_answer (λ x, x) example_cfg "t" 0 "t" "secret" from_localhost example_kick example_client).2)
    = ["http://127.0.0.1:8212/v1/api/kick"; "https://discord.com/api/webhooks/1"] ∧
  Forall (proper example_cfg)
    (sent (run_op example_answer (λ x, x) example_cfg "t" 0 "t" "secret" from_localhost example_kick example_client).2).
Proof.
  split; [by vm_compute|].
  apply (secrets_stay_local example_answer (λ x, x) example_cfg example_client).
  - eapply star_step; [apply star_refl|]. apply step_op.
  - constructor.
Defined.

(** An accepted kick ends in an internal error when Discord's answer to the
    announcement is 429 with a body that is not an object. *)
Lemma accepted_kick_fails :
  (run_op example_answer (λ x, x) example_cfg "t" 0 "t" "secret" from_localhost example_kick example_client).1
    = Raise (AttributeError "object has no attribute 'get'").
Proof. by vm_compute. Qed.

(** A probe whose answer is no JSON raises instead of reporting that the server is
    not ready. *)
Lemma malformed_info_raises :
  ∃ text, (check_readiness example_answer (λ x, x) example_cfg example_client).1 = Raise (ValueError text).
Proof. eexists. by vm_compute. Qed.

(** A mirrored broadcast that the game server did not take is reported as failed. *)
Definition offline_game (_ : list Sent) (c : Sent) : result (Z * string) :=
  match c with Webhook _ _ => Ret (204, "") | _ => Raise (HTTPError "ConnectError") end.
Lemma mirrored_broadcast_reported_as_failed :
  (send_broadcast offline_game example_cfg "t" "hello" true example_client).1 = Ret false ∧
  length (sent (send_broadcast offline_game example_cfg "t" "hello" true example_client).2) = 2%nat.
Proof. by vm_compute. Qed.
