(* ===== verification/Feedback.v ===== *)
(** Feedback submissions (routers/feedback.py) and the links to the issue
    composer (api/schemas.py).

    The state is the web application, the background tasks that wait to create an
    issue, and the commands handed to the GitHub client; the outcome of such a
    command is an argument.  The development's texts are UTF-8, so a request holds
    no lone surrogates. *)

From S2P Require Import Prelude PyStr PyNum PyDict PyJson Database Auth Access.
From Stdlib Require Import ZArith Ascii Bool Lia.
From stdpp Require Import base tactics list strings.

Local Open Scope Z_scope.
Local Open Scope py_scope.

(** * Requests *)

Record FeedbackSubmitRequest := mkSubmit {
  category : string;
  title : string;
  description : string;
  expected_behavior : option string;
  current_behavior : option string;
  steps_to_reproduce : option string;
  host_environment : option string;
  diagnostic_logs : option string;
  proposed_solution : option string;
  feature_proposal : option string;
  problem_user_story : option string;
  twelve_factor_considerations : option string;
  alternatives_considered : option string;
  documentation_area : option string;
  motivation_missing_context : option string;
  proposed_content : option string;
  vulnerability_summary : option string;
  affected_files_lines : option string;
  cwe_identifier : option string;
  severity : option string;
  poc_reproduction : option string;
  recommended_remediation : option string }.

(** The optional members with their names and bounds, in the order of the model. *)
Definition optional_members (q : FeedbackSubmitRequest) : list (string * option string * Z) :=
  [("expected_behavior", expected_behavior q, 2000); ("current_behavior", current_behavior q, 2000);
   ("steps_to_reproduce", steps_to_reproduce q, 2000); ("host_environment", host_environment q, 1000);
   ("diagnostic_logs", diagnostic_logs q, 5000); ("proposed_solution", proposed_solution q, 2000);
   ("feature_proposal", feature_proposal q, 2000); ("problem_user_story", problem_user_story q, 2000);
   ("twelve_factor_considerations", twelve_factor_considerations q, 2000);
   ("alternatives_considered", alternatives_considered q, 2000); ("documentation_area", documentation_area q, 500);
   ("motivation_missing_context", motivation_missing_context q, 2000); ("proposed_content", proposed_content q, 5000);
   ("vulnerability_summary", vulnerability_summary q, 1000); ("affected_files_lines", affected_files_lines q, 500);
   ("cwe_identifier", cwe_identifier q, 100); ("severity", severity q, 8);
   ("poc_reproduction", poc_reproduction q, 3000); ("recommended_remediation", recommended_remediation q, 2000)]%string.

Definition CATEGORIES : list string := ["bug_report"; "feature_request"; "documentation_update"; "security_report"].

Definition valid_severity (s : option string) : bool :=
  match s with Some v => bool_decide (v ∈ ["Critical"; "High"; "Medium"; "Low"]%string) | None => true end.

Definition valid_submit (q : FeedbackSubmitRequest) : bool :=
  bool_decide (category q ∈ CATEGORIES) &&
  (3 <=? utf8_len (title q)) && (utf8_len (title q) <=? 200) && (utf8_len (description q) <=? 5000) &&
  List.forallb (λ m : string * option string * Z,
    match m.1.2 with Some v => utf8_len v <=? m.2 | None => true end) (optional_members q) &&
  valid_severity (severity q).

(** [req.model_dump(exclude={...}, exclude_none=True)] *)
Definition dump_member (m : string * option string * Z) : list (string * json) :=
  match m.1.2 with Some v => [(m.1.1, JStr v)] | None => [] end.
Definition feedback_metadata (q : FeedbackSubmitRequest) : json :=
  JObj (concat (List.map dump_member (optional_members q))).

(** [x or y] of an optional text *)
Definition or_text (x : option string) (y : string) : string :=
  match x with Some v => if String.eqb v "" then y else v | None => y end.
Definition or_na (x : option string) : string := or_text x "N/A".

Definition line_feed : string := String "010" "".
Definition section_ (heading body : string) : string := heading +:+ line_feed +:+ body +:+ line_feed.
Definition sections (l : list string) : string := str_join line_feed l.

Definition render_feedback_markdown (q : FeedbackSubmitRequest) : string :=
  if String.eqb (category q) "bug_report" then
    sections
      [section_ "## 🐛 Expected Behavior" (or_na (expected_behavior q));
       section_ "## 💥 Current Behavior" (or_na (current_behavior q));
       section_ "## 📋 Steps to Reproduce" (or_na (steps_to_reproduce q));
       section_ "## 🖥️ Environment & Host Diagnostics" (or_na (host_environment q));
       section_ "## 📜 Diagnostic Logs & Tracebacks"
         ("```text" +:+ line_feed +:+ or_na (diagnostic_logs q) +:+ line_feed +:+ "```");
       section_ "## 🛠️ Possible Root Cause / Proposed Solution" (or_na (proposed_solution q))]
  else if String.eqb (category q) "feature_request" then
    sections
      [section_ "## 🚀 Feature Proposal" (or_text (feature_proposal q) (title q));
       section_ "## 🎯 Problem / User Story" (or_na (problem_user_story q));
       section_ "## 💡 Proposed Solution & Architecture" (or_na (Some (description q)));
       section_ "## 🧱 12-Factor & Resilience Considerations" (or_na (twelve_factor_considerations q));
       section_ "## 🔄 Alternatives Considered" (or_na (alternatives_considered q))]
  else if String.eqb (category q) "documentation_update" then
    sections
      [section_ "## 📝 Documentation Area" (or_na (documentation_area q));
       section_ "## 🎯 Motivation & Missing Context" (or_na (motivation_missing_context q));
       section_ "## ✏️ Proposed Content / Diff"
         (or_text (proposed_content q) (or_na (Some (description q))))]
  else if String.eqb (category q) "security_report" then
    sections
      [section_ "## 🛡️ Security Vulnerability Summary"
         (or_text (vulnerability_summary q) (or_na (Some (description q))));
       section_ "## 🔍 Vulnerability Details & Attack Vector"
         ("- **Affected File & Line(s)**: " +:+ or_na (affected_files_lines q) +:+ line_feed +:+
          "- **CWE Identifier**: " +:+ or_na (cwe_identifier q) +:+ line_feed +:+
          "- **Severity**: " +:+ or_text (severity q) "Medium");
       section_ "## 💣 Proof of Concept / Reproduction Flow" (or_na (poc_reproduction q));
       section_ "## 🛡️ Recommended Remediation / Defensive Patch" (or_na (recommended_remediation q))]
  else or_text (Some (description q)) (title q).

(** * Links to the issue composer *)

(** [urllib.parse.quote(s, safe='')] *)
Definition unreserved (c : ascii) : bool :=
  is_alnum c || Ascii.eqb c "_" || Ascii.eqb c "." || Ascii.eqb c "-" || Ascii.eqb c "~".
Definition percent (c : ascii) : string := String "%" (str_upper (hex_of_bytes [ord c])).
Fixpoint quote (s : string) : string :=
  match s with
  | EmptyString => ""
  | String c s' => (if unreserved c then String c "" else percent c) +:+ quote s'
  end.
(** [urlencode(params, quote_via=quote)] *)
Definition urlencode (params : list (string * string)) : string :=
  str_join "&" (List.map (λ kv : string * string, quote kv.1 +:+ "=" +:+ quote kv.2) params).

Definition TEMPLATE_FILENAMES (category : string) : string :=
  if String.eqb category "feature_request" then "feature_request.md"
  else if String.eqb category "documentation_update" then "documentation_update.md"
  else if String.eqb category "security_report" then "security_report.md"
  else "bug_report.md".

Definition issue_params (category : string) (title body : option string) : list (string * string) :=
  ("template", TEMPLATE_FILENAMES category) ::
  match title with Some t => if String.eqb t "" then [] else [("title", t)] | None => [] end ++
  match body with Some b => if String.eqb b "" then [] else [("body", b)] | None => [] end.

Definition build_github_issue_url (repo_url category : string) (title body : option string) : string :=
  let base := rstrip_by (Ascii.eqb "/") repo_url in
  if String.eqb category "security_report" then base +:+ "/security/advisories/new"
  else base +:+ "/issues/new?" +:+ urlencode (issue_params category title body).

Definition REDIRECT_CATEGORY_MAP : list (string * string) :=
  [("bug", "bug_report"); ("bug_report", "bug_report"); ("feature", "feature_request");
   ("feature_request", "feature_request"); ("docs", "documentation_update");
   ("documentation", "documentation_update"); ("documentation_update", "documentation_update");
   ("security", "security_report"); ("security_report", "security_report")].

Definition redirect_to_github_template (github_repo_url category_shortcut : string) : result string :=
  match assoc_get (str_lower category_shortcut) REDIRECT_CATEGORY_MAP with
  | Some category => Ret (build_github_issue_url github_repo_url category None None)
  | None => Raise (HTTPException 404 ("Unrecognized feedback category '" +:+ category_shortcut +:+ "'."))
  end.

(** * State and endpoints *)

(** A queued call of [dispatch_github_issue]. *)
Record IssueTask := mkTask { k_category : string; k_title : string; k_body : string; k_feedback_id : Z }.

Record Feedback := mkFB {
  app : App;
  tasks : list IssueTask;
  spawned : list (list string) }.

(** What became of the client's process. *)
Inductive GhOutcome : Type :=
  | GhTimeout
  | GhOSError
  | GhExit (returncode : Z) (stdout : string).

Definition on_app {A} (m : PyM App A) : PyM Feedback A :=
  λ s, let '(r, a) := m (app s) in (r, mkFB a (tasks s) (spawned s)).
Definition spawn (cmd : list string) : PyM Feedback unit :=
  py_modify (λ s, mkFB (app s) (tasks s) (spawned s ++ [cmd])).

Definition issue_label (category : string) : string :=
  if String.eqb category "bug_report" then "bug"
  else if String.eqb category "feature_request" then "enhancement"
  else if String.eqb category "documentation_update" then "documentation"
  else if String.eqb category "security_report" then "security"
  else "feedback".

Definition issue_command (gh_bin : string) (t : IssueTask) : list string :=
  [gh_bin; "issue"; "create"; "--title"; "[" +:+ str_upper (k_category t) +:+ "] " +:+ k_title t;
   "--body"; k_body t; "--label"; issue_label (k_category t)].

Definition isdigit (s : string) : bool := negb (String.eqb s "") && str_all is_digit s.

(** [int(parts[-1])] of the client's output.  A text of more than 4300 digits is
    refused by [int], output that is not UTF-8 by [decode]; both are ValueErrors. *)
Definition issue_number (stdout : string) : option Z :=
  if utf8_valid stdout then
    let last := List.last (str_split "/" (str_strip stdout)) "" in
    if isdigit last && (Z.of_nat (String.length last) <=? 4300) then Some (digits_value last 0) else None
  else None.

Definition has_nul (s : string) : bool := negb (str_all (λ c, negb (Ascii.eqb c zero)) s).

(** SQLite holds 64-bit integers; the driver refuses others. *)
Definition int64 (n : Z) : bool := (- 2 ^ 63 <=? n) && (n <? 2 ^ 63).
Definition link_issue (feedback_id n : Z) : PyM Feedback unit :=
  if int64 n then on_app (on_db (update_feedback_status feedback_id "OPEN" (Some n))) ;;; py_ret tt
  else py_raise OverflowError.

Definition dispatch_github_issue (gh : option (string * GhOutcome)) (t : IssueTask) : PyM Feedback unit :=
  match gh with
  | None => py_ret tt
  | Some (gh_bin, outcome) =>
      if List.existsb has_nul (issue_command gh_bin t) then py_ret tt
      else
        spawn (issue_command gh_bin t) ;;;
        match outcome with
        | GhExit 0 stdout =>
            match issue_number stdout with
            | Some n => link_issue (k_feedback_id t) n
            | None => py_ret tt
            end
        | _ => py_ret tt
        end
  end.

Record FeedbackResponse := mkFeedbackResponse {
  p_id : Z;
  p_category : string;
  p_title : string;
  p_description : string;
  p_metadata : json;
  p_submitted_by : string;
  p_status : string;
  p_github_issue_number : option Z;
  p_created_at : string }.

Definition respond (metadata : json) (r : FeedbackRecord) : FeedbackResponse :=
  mkFeedbackResponse (f_id r) (f_category r) (f_title r) (f_description r) metadata (f_submitted_by r)
    (f_status r) (f_github_issue_number r) (f_created_at r).

(** The clock, the secret and the request that the dependencies read. *)
Section endpoints.
Context (now : Z) (now_ts secret : string) (request : Request).

Definition submit_feedback (q : FeedbackSubmitRequest) : PyM Feedback FeedbackResponse :=
  user <- on_app (require_permission "feedback:submit" now now_ts secret request) ;;
  if negb (valid_submit q) then py_raise (HTTPException 422 "Unprocessable Entity")
  else
    let markdown_body := render_feedback_markdown q in
    let metadata := feedback_metadata q in
    rec <- on_app (on_db (create_feedback now_ts (category q) (title q) markdown_body (dumps ", " ": " metadata)
                            (u_username user) None)) ;;
    py_modify (λ s, mkFB (app s)
      (tasks s ++ [mkTask (category q) (title q) markdown_body (f_id rec)]) (spawned s)) ;;;
    py_ret (respond metadata rec).

(** One stored record as a response; the response model wants an object. *)
Definition listed (r : FeedbackRecord) : result FeedbackResponse :=
  match (match loads (f_metadata_json r) with Some v => v | None => JObj [] end) with
  | JObj l => Ret (respond (JObj l) r)
  | _ => Raise (ValueError "metadata: Input should be a valid dictionary")
  end.
Fixpoint list_all (rs : list FeedbackRecord) : result (list FeedbackResponse) :=
  match rs with
  | [] => Ret []
  | r :: rs' =>
      match listed r with
      | Ret x => match list_all rs' with Ret xs => Ret (x :: xs) | Raise e => Raise e end
      | Raise e => Raise e
      end
  end.

Definition list_feedback_submissions (mine : bool) (submitted_by category status : option string) (limit offset : Z)
    : PyM Feedback (list FeedbackResponse) :=
  if negb (match category with Some c => bool_decide (c ∈ CATEGORIES) | None => true end)
  then py_raise (HTTPException 422 "Unprocessable Entity") else
  filter_user <-
    (if mine then
       u <- on_app (get_current_user_optional now now_ts secret request) ;;
       match u with
       | Some r => py_ret (Some (u_username r))
       | None => py_raise (HTTPException 401 "Authentication required to filter submissions by current user.")
       end
     else py_ret submitted_by) ;;
  if negb (int64 limit && int64 offset) then py_raise OverflowError else
  records <- on_app (on_db (list_feedbacks limit offset filter_user category status)) ;;
  lift (list_all records).
End endpoints.

(** The calls that do not touch the table of submissions. *)
Definition unrelated (c : db_call) : bool :=
  match c with CallCreateFeedback _ _ _ _ _ _ _ | CallUpdateFeedback _ _ _ => false | _ => true end.

(** Every text of the request is well-formed. *)
Definition texts_ok (q : FeedbackSubmitRequest) : bool :=
  List.forallb (λ m : string * option string * Z,
    match m.1.2 with Some v => utf8_valid v | None => true end) (optional_members q).

(** What happens to the endpoint: a request, the turn of a queued task, another
    call of the database. *)
Inductive Action : Type :=
  | Submission (now : Z) (now_ts secret : string) (request : Request) (q : FeedbackSubmitRequest)
  | Turn (gh : option (string * GhOutcome)) (k : nat)
  | Elsewhere (c : db_call) (bootstrap : BootstrapState) (files : list string).

Definition perform (a : Action) (s : Feedback) : Feedback :=
  match a with
  | Submission now now_ts secret request q => (submit_feedback now now_ts secret request q s).2
  | Turn gh k =>
      match tasks s !! k with
      | Some t => (dispatch_github_issue gh t (mkFB (app s) (delete k (tasks s)) (spawned s))).2
      | None => s
      end
  | Elsewhere c bs ex => mkFB (mkApp (run_call c (db (app s))) bs ex) (tasks s) (spawned s)
  end.
Definition perform_all (l : list Action) (s : Feedback) : Feedback := fold_left (λ s a, perform a s) l s.

Definition regular (a : Action) : Prop :=
  match a with
  | Submission _ _ _ _ q => texts_ok q = true
  | Turn _ _ => True
  | Elsewhere c _ _ => unrelated c = true
  end.

(** * Specification: a list of tickets *)

Record Ticket := mkTicket {
  t_request : FeedbackSubmitRequest;
  t_user : string;
  t_created : string;
  t_issue : option Z }.

Definition set_issue (n : Z) (t : Ticket) : Ticket := mkTicket (t_request t) (t_user t) (t_created t) (Some n).

(** The board: the tickets, the positions of those that wait to be published, and
    the commands that published some. *)
Record Board := mkBoard { tickets : list Ticket; pending : list nat; commands : list (list string) }.
Definition empty_board : Board := mkBoard [] [] [].

(** The queued task and the command of the ticket at a position. *)
Definition ticket_task (i : nat) (t : Ticket) : IssueTask :=
  mkTask (category (t_request t)) (title (t_request t)) (render_feedback_markdown (t_request t)) (Z.of_nat i + 1).

(** The command that publishes a ticket: there is a client, and it takes the texts. *)
Definition publishes (gh : option (string * GhOutcome)) (k : IssueTask) : option (list string * GhOutcome) :=
  match gh with
  | Some (gh_bin, outcome) =>
      if List.existsb has_nul (issue_command gh_bin k) then None else Some (issue_command gh_bin k, outcome)
  | None => None
  end.
(** The number of the issue: the client said so. *)
Definition published_as (outcome : GhOutcome) : option Z :=
  match outcome with
  | GhExit 0 stdout => n ← issue_number stdout; if int64 n then Some n else None
  | _ => None
  end.

(** What happens to the board.  A submission is filed under its user and time, a
    refused one is not; a turn publishes the ticket that waits at the position. *)
Inductive Event : Type :=
  | Filed (q : FeedbackSubmitRequest) (user created : string)
  | Taken (gh : option (string * GhOutcome)) (k : nat)
  | Nothing.

Definition board_step (b : Board) (e : Event) : Board :=
  match e with
  | Filed q user created =>
      mkBoard (tickets b ++ [mkTicket q user created None]) (pending b ++ [length (tickets b)]) (commands b)
  | Taken gh k =>
      match pending b !! k with
      | None => b
      | Some i =>
          match t ← tickets b !! i; publishes gh (ticket_task i t) with
          | None => mkBoard (tickets b) (delete k (pending b)) (commands b)
          | Some (command, outcome) =>
              mkBoard
                (match published_as outcome with Some n => alter (set_issue n) i (tickets b) | None => tickets b end)
                (delete k (pending b)) (commands b ++ [command])
          end
      end
  | Nothing => b
  end.

(** The event of an action: whom the permission lets through, with a valid request,
    files a ticket. *)
Definition submission_event (now : Z) (now_ts secret : string) (request : Request) (q : FeedbackSubmitRequest) (a : App)
    : Event :=
  match (require_permission "feedback:submit" now now_ts secret request a).1 with
  | Ret u => if valid_submit q then Filed q (u_username u) now_ts else Nothing
  | Raise _ => Nothing
  end.
Definition event_of (a : Action) (s : Feedback) : Event :=
  match a with
  | Submission now now_ts secret request q => submission_event now now_ts secret request q (app s)
  | Turn gh k => Taken gh k
  | Elsewhere _ _ _ => Nothing
  end.
(** The board of a history, event by event. *)
Fixpoint board_of (l : list Action) (s : Feedback) (b : Board) : Board :=
  match l with
  | [] => b
  | a :: l' => board_of l' (perform a s) (board_step b (event_of a s))
  end.

Fixpoint numbered (i : Z) (ts : list Ticket) : list (Z * Ticket) :=
  match ts with [] => [] | t :: ts' => (i, t) :: numbered (i + 1) ts' end.

(** What a listing shows of a ticket: the submission as it was made. *)
Definition ticket_response (it : Z * Ticket) : FeedbackResponse :=
  let q := t_request it.2 in
  mkFeedbackResponse it.1 (category q) (title q) (render_feedback_markdown q) (feedback_metadata q) (t_user it.2)
    "OPEN" (match t_issue it.2 with Some n => if n =? 0 then None else Some n | None => None end) (t_created it.2).

Definition ticket_matches (submitted_by category_ status : option string) (it : Z * Ticket) : bool :=
  null_or_eq submitted_by (t_user it.2) && null_or_eq category_ (category (t_request it.2)) &&
  null_or_eq status "OPEN".

(** The newest tickets first. *)
Definition listing (submitted_by category_ status : option string) (limit offset : Z) (ts : list Ticket)
    : list FeedbackResponse :=
  List.map ticket_response
    (sql_limit_offset limit offset
      (reverse (List.filter (ticket_matches submitted_by category_ status) (numbered 1 ts)))).

(** * The stored rows represent the tickets *)

Definition ticket_row (it : Z * Ticket) : FeedbackRecord :=
  let q := t_request it.2 in
  mkFeedback it.1 (category q) (title q) (render_feedback_markdown q) (dumps ", " ": " (feedback_metadata q))
    (t_user it.2) "OPEN" (t_issue it.2) (t_created it.2).

(** The task [k] publishes the ticket at the position [i]. *)
Definition task_of (ts : list Ticket) (i : nat) (k : IssueTask) : Prop :=
  ∃ t, ts !! i = Some t ∧ k = ticket_task i t.

Record fb_rel (b : Board) (s : Feedback) : Prop := {
  rel_rows : feedback_submissions (db (app s)) = List.map ticket_row (numbered 1 (tickets b));
  rel_seq : feedback_seq (db (app s)) = Z.of_nat (length (tickets b));
  rel_texts : Forall (λ t, texts_ok (t_request t) = true) (tickets b);
  rel_tasks : Forall2 (task_of (tickets b)) (pending b) (tasks s);
  rel_commands : spawned s = commands b }.

Lemma numbered_app i ts t : numbered i (ts ++ [t]) = numbered i ts ++ [(i + Z.of_nat (length ts), t)].
Proof.
  revert i. induction ts as [|t' ts IH]; intros i; [cbn; by rewrite Z.add_0_r|].
  replace (i + Z.of_nat (length (t' :: ts))) with (i + 1 + Z.of_nat (length ts)) by (cbn [length]; lia).
  cbn [List.app numbered]. by rewrite IH.
Qed.

Lemma numbered_ge i ts j t : In (j, t) (numbered i ts) → i ≤ j.
Proof.
  revert i. induction ts as [|u ts IH]; intros i; [done|]. intros [H|H]; [injection H; lia|].
  apply IH in H. lia.
Qed.

(** Linking an issue is the update of one row. *)
Lemma link_row n k ts i :
  t_update f_id (i + Z.of_nat k) (set_feedback_status "OPEN" (Some n)) (List.map ticket_row (numbered i ts)) =
  List.map ticket_row (numbered i (alter (set_issue n) k ts)).
Proof.
  unfold t_update. revert i k. induction ts as [|t ts IH]; intros i k; [done|].
  destruct k as [|k]; cbn.
  - rewrite Z.add_0_r, Z.eqb_refl. f_equal. clear IH.
    rewrite List.map_map. apply List.map_ext_in. intros [j t'] Hin. cbn.
    apply numbered_ge in Hin.
    by rewrite (proj2 (Z.eqb_neq j i)) by lia.
  - rewrite (proj2 (Z.eqb_neq i _)) by lia. f_equal. rewrite <-IH. do 2 f_equal.
    by replace (i + 1 + Z.of_nat k) with (i + Z.of_nat (S k)) by lia.
Qed.

Lemma task_of_app ts t i k : task_of ts i k → task_of (ts ++ [t]) i k.
Proof. intros (u & ? & ?). exists u. split; [by apply lookup_app_l_Some|done]. Qed.

Lemma task_of_alter ts n j i k : task_of ts i k → task_of (alter (set_issue n) j ts) i k.
Proof.
  intros (u & H2 & H3). destruct (decide (j = i)) as [->|].
  - exists (set_issue n u). split; [by rewrite list_lookup_alter_eq, H2|done].
  - exists u. split; [by rewrite list_lookup_alter_ne|done].
Qed.

Lemma metadata_plain q : texts_ok q = true → plain (feedback_metadata q) = true.
Proof.
  unfold texts_ok, feedback_metadata. cbn [plain].
  assert (H : ∀ l : list (string * option string * Z),
    Forall (λ m, utf8_valid m.1.1 = true) l →
    List.forallb (λ m, match m.1.2 with Some v => utf8_valid v | None => true end) l = true →
    List.forallb (λ kv : string * json, utf8_valid kv.1 && plain kv.2) (concat (List.map dump_member l)) = true).
  { induction 1 as [|[[k o] n] l Hk _ IH]; [done|]. cbn [List.map concat List.forallb fst snd].
    intros [Ho Hl]%andb_prop. rewrite List.forallb_app, IH by done. rewrite andb_true_r.
    unfold dump_member. cbn [fst snd] in *. destruct o; [|done]. cbn. by rewrite Hk, Ho. }
  apply H. repeat constructor.
Qed.

Lemma listed_ticket it :
  texts_ok (t_request it.2) = true → listed (read_feedback (ticket_row it)) = Ret (ticket_response it).
Proof.
  intros H%metadata_plain. unfold listed. cbn [read_feedback ticket_row f_metadata_json].
  rewrite (loads_dumps " " " ") by done. done.
Qed.

(** * Refinement *)

Lemma require_permission_state permission now now_ts secret request a :
  (require_permission permission now now_ts secret request a).2 = a.
Proof.
  pose proof (require_permission_exact permission now now_ts secret request a) as H.
  destruct (get_current_user now now_ts secret request a). by rewrite H.
Qed.

(** A submission: its event on the board, and the answer. *)
Definition submission_reply (now : Z) (now_ts secret : string) (request : Request) (q : FeedbackSubmitRequest)
    (b : Board) (a : App) : result FeedbackResponse :=
  match (require_permission "feedback:submit" now now_ts secret request a).1 with
  | Ret u =>
      if valid_submit q
      then Ret (ticket_response (Z.of_nat (length (tickets b)) + 1, mkTicket q (u_username u) now_ts None))
      else Raise (HTTPException 422 "Unprocessable Entity")
  | Raise e => Raise e
  end.

Lemma submit_refines now now_ts secret request q b s :
  texts_ok q = true → fb_rel b s →
  (submit_feedback now now_ts secret request q s).1 = submission_reply now now_ts secret request q b (app s) ∧
  fb_rel (board_step b (submission_event now now_ts secret request q (app s)))
    (submit_feedback now now_ts secret request q s).2.
Proof.
  intros Hq R. unfold submit_feedback, submission_reply, submission_event, on_app, py_bind.
  pose proof (require_permission_state "feedback:submit" now now_ts secret request (app s)) as Ha.
  destruct (require_permission _ _ _ _ _ _) as [[u|e] a]; cbn [fst snd] in *; subst a;
    [|split; [done|by destruct s]].
  destruct (valid_submit q) eqn:Hv; [|split; [done|by destruct s]]. destruct R as [R1 R2 R3 R4 R5].
  unfold on_db, create_feedback, py_bind, py_get, py_put, py_ret, py_modify.
  cbn [negb app db tasks fst snd feedback_submissions feedback_seq set_feedback]. rewrite R2. split; [done|].
  split; cbn [negb app db tasks spawned fst snd feedback_submissions feedback_seq set_feedback board_step tickets pending commands].
  - rewrite R1, numbered_app, (Z.add_comm 1), List.map_app. done.
  - rewrite length_app. cbn [length]. lia.
  - apply Forall_app. split; [done|by constructor].
  - apply Forall2_app; [by eapply Forall2_impl; [|intros; by apply task_of_app]|].
    constructor; [|constructor]. exists (mkTicket q (u_username u) now_ts None).
    split; [by rewrite lookup_app_r, Nat.sub_diag by done|done].
  - done.
Qed.

Lemma link_refines b s i n k p :
  task_of (tickets b) i k → int64 n = true → fb_rel (mkBoard (tickets b) p (commands b)) s →
  fb_rel (mkBoard (alter (set_issue n) i (tickets b)) p (commands b)) (link_issue (k_feedback_id k) n s).2.
Proof.
  intros (u & Hi & ->) Hn [R1 R2 R3 R4 R5]. unfold link_issue. rewrite Hn.
  unfold on_app, on_db, update_feedback_status, get_feedback, py_bind, py_modify, py_get, py_ret. cbn in *.
  split; cbn.
  - rewrite R1, Z.add_comm. apply link_row.
  - by rewrite length_alter.
  - apply Forall_forall. intros x [j Hj]%list_elem_of_lookup. rewrite Forall_forall in R3.
    destruct (decide (i = j)) as [->|].
    + rewrite list_lookup_alter_eq in Hj. apply fmap_Some in Hj as (y & Hy & ->). cbn. apply R3.
      by eapply list_elem_of_lookup_2.
    + rewrite list_lookup_alter_ne in Hj by done. apply R3. by eapply list_elem_of_lookup_2.
  - eapply Forall2_impl; [exact R4|]. intros; by apply task_of_alter.
  - done.
Qed.

(** Forgetting a queued task and a waiting position. *)
Lemma Forall2_delete {A B} (P : A → B → Prop) k l l' : Forall2 P l l' → Forall2 P (delete k l) (delete k l').
Proof. intros H. revert k. induction H; intros [|k]; cbn; [done..|]. by constructor. Qed.

Lemma dispatch_refines gh b i k s p :
  task_of (tickets b) i k → fb_rel (mkBoard (tickets b) p (commands b)) s →
  fb_rel
    (match publishes gh k with
     | None => mkBoard (tickets b) p (commands b)
     | Some (command, outcome) =>
         mkBoard (match published_as outcome with Some n => alter (set_issue n) i (tickets b) | None => tickets b end)
           p (commands b ++ [command])
     end) (dispatch_github_issue gh k s).2.
Proof.
  intros Ht R. unfold dispatch_github_issue, publishes. destruct gh as [[gh_bin outcome]|]; [|done].
  destruct (List.existsb has_nul _); [done|]. unfold py_bind, spawn, py_modify at 1.
  set (s' := mkFB (app s) (tasks s) _).
  assert (R' : fb_rel (mkBoard (tickets b) p (commands b ++ [issue_command gh_bin k])) s')
    by (destruct R as [R1 R2 R3 R4 R5]; split; try done; cbn in *; by rewrite R5).
  destruct outcome as [| |rc out]; [done|done|]. destruct rc as [|r|r]; [|done|done]. cbn [published_as].
  destruct (issue_number out) as [n|]; [|done]. cbn [mbind option_bind].
  destruct (int64 n) eqn:Hn.
  - by apply (link_refines (mkBoard (tickets b) p (commands b ++ [issue_command gh_bin k])) s' i n k p).
  - unfold link_issue. by rewrite Hn.
Qed.

(** The other calls of the manager leave the submissions alone. *)
Definition same_feedback (l : list FeedbackRecord) (n : Z) (d : DB) : Prop :=
  feedback_submissions d = l ∧ feedback_seq d = n.

Lemma insert_permissions_same l n i ps : preserves (same_feedback l n) (insert_permissions i ps).
Proof.
  induction ps as [|p ps IH]; cbn; [auto with py|]. apply preserves_bind; [|done].
  apply preserves_get_bind. intros d Hd. by destruct (t_lookup row_id i (users d)).
Qed.

Lemma run_call_same c d :
  unrelated c = true → same_feedback (feedback_submissions d) (feedback_seq d) (run_call c d).
Proof.
  assert (Hd : same_feedback (feedback_submissions d) (feedback_seq d) d) by done. revert Hd.
  generalize (feedback_submissions d) (feedback_seq d). intros l n Hd.
  assert (Hm : ∀ f, (∀ d, same_feedback l n d → same_feedback l n (f d)) → preserves (same_feedback l n) (py_modify f))
    by (intros; by apply preserves_modify).
  pose proof (insert_permissions_same l n) as Hp.
  destruct c; intros Hu; try discriminate Hu; cbn [run_call].
  - revert d Hd. change (preserves (same_feedback l n) (create_user now username password_hash salt email role is_active)).
    unfold create_user. apply preserves_bind; [|preserve].
    intros d Hd. unfold insert_user, py_bind, py_get. by destruct (find_username username d), is_active.
  - revert d Hd. change (preserves (same_feedback l n) (update_user user_id email role is_active password_hash salt)).
    unfold update_user, delete_permissions. preserve; by apply Hm.
  - unfold delete_user, py_bind, py_get. by destruct (t_lookup row_id user_id (users d)).
  - done.
  - revert d Hd. change (preserves (same_feedback l n) (set_user_permissions user_id permissions)).
    unfold set_user_permissions, delete_permissions. preserve; by apply Hm.
  - done.
  - done.
Qed.

Lemma perform_refines a b s : regular a → fb_rel b s → fb_rel (board_step b (event_of a s)) (perform a s).
Proof.
  intros Ha R. destruct a as [now now_ts secret request q|gh k|c bs ex]; cbn [event_of perform].
  - by apply submit_refines.
  - pose proof (rel_tasks _ _ R) as Ht. cbn [board_step].
    destruct (pending b !! k) as [i|] eqn:Hk.
    2:{ destruct (tasks s !! k) eqn:Hs; [|done]. destruct (Forall2_lookup_r _ _ _ _ _ Ht Hs) as (j & Hj & _). congruence. }
    destruct (Forall2_lookup_l _ _ _ _ _ Ht Hk) as (task & Hs & Hof). rewrite Hs.
    destruct Hof as (t & Hi & ->). rewrite Hi. cbn [mbind option_bind].
    apply dispatch_refines; [by exists t|]. destruct R as [R1 R2 R3 R4 R5]. split; try done. by apply Forall2_delete.
  - destruct (run_call_same c (db (app s)) Ha) as [E1 E2].
    destruct R as [R1 R2 R3 R4 R5]. split; cbn; [by rewrite E1|by rewrite E2|done..].
Qed.

Lemma history_refines l : ∀ b s, Forall regular l → fb_rel b s → fb_rel (board_of l s b) (perform_all l s).
Proof.
  induction l as [|a l IH]; intros b s; [done|]. intros [Ha Hl]%Forall_cons R. cbn [board_of].
  apply (IH _ (perform a s)); [done|]. by apply perform_refines.
Qed.

(** ** Listings *)

Lemma filter_map_comm {A B} (f : A → B) p (l : list A) :
  List.filter p (List.map f l) = List.map f (List.filter (λ x, p (f x)) l).
Proof. induction l as [|a l IH]; [done|]. cbn. rewrite IH. by destruct (p (f a)). Qed.

Lemma reverse_map {A B} (f : A → B) (l : list A) : reverse (List.map f l) = List.map f (reverse l).
Proof. unfold reverse. by rewrite <-!List.rev_alt, List.map_rev. Qed.

Lemma sql_limit_offset_map {A B} (f : A → B) limit offset l :
  sql_limit_offset limit offset (List.map f l) = List.map f (sql_limit_offset limit offset l).
Proof. unfold sql_limit_offset. rewrite List.skipn_map. case_match; [done|]. by rewrite List.firstn_map. Qed.

Lemma sql_limit_offset_subseteq {R} limit offset (l : list R) : sql_limit_offset limit offset l ⊆ l.
Proof.
  unfold sql_limit_offset. case_match; [apply subseteq_drop|]. etrans; [apply subseteq_take|apply subseteq_drop].
Qed.

Lemma numbered_tickets i ts : List.map snd (numbered i ts) = ts.
Proof. revert i. induction ts as [|t ts IH]; intros i; [done|]. cbn. by rewrite IH. Qed.

Lemma list_all_tickets l :
  Forall (λ it : Z * Ticket, texts_ok (t_request it.2) = true) l →
  list_all (List.map read_feedback (List.map ticket_row l)) = Ret (List.map ticket_response l).
Proof.
  induction 1 as [|it l H _ IH]; [done|]. cbn [List.map list_all].
  by rewrite listed_ticket, IH.
Qed.

Lemma list_records_ticket b s submitted_by category_ status limit offset :
  fb_rel b s →
  list_feedbacks limit offset submitted_by category_ status (db (app s)) =
    (Ret (List.map read_feedback (List.map ticket_row
       (sql_limit_offset limit offset
         (reverse (List.filter (ticket_matches submitted_by category_ status) (numbered 1 (tickets b))))))), db (app s)).
Proof.
  intros [R1 _ _ _ _]. unfold list_feedbacks, py_bind, py_get, py_ret. rewrite R1.
  by rewrite filter_map_comm, reverse_map, sql_limit_offset_map.
Qed.

Lemma get_current_user_state now now_ts secret request a : (get_current_user now now_ts secret request a).2 = a.
Proof. by rewrite get_current_user_eq. Qed.

(** The user whose tickets a listing is restricted to. *)
Definition filter_user (now : Z) (now_ts secret : string) (request : Request) (mine : bool) (submitted_by : option string)
    (a : App) : result (option string) :=
  if mine then
    match (get_current_user now now_ts secret request a).1 with
    | Ret u => Ret (Some (u_username u))
    | Raise (HTTPException _ _) =>
        Raise (HTTPException 401 "Authentication required to filter submissions by current user.")
    | Raise e => Raise e
    end
  else Ret submitted_by.

Lemma listing_exact now now_ts secret request mine submitted_by category_ status limit offset b s :
  match category_ with Some c => c ∈ CATEGORIES | None => True end →
  int64 limit = true → int64 offset = true → fb_rel b s →
  list_feedback_submissions now now_ts secret request mine submitted_by category_ status limit offset s =
    (match filter_user now now_ts secret request mine submitted_by (app s) with
     | Ret u => Ret (listing u category_ status limit offset (tickets b))
     | Raise e => Raise e
     end, s).
Proof.
  intros Hc Hl Ho R. unfold list_feedback_submissions, listing.
  replace (negb _) with false by (destruct category_; [by rewrite bool_decide_true|done]).
  assert (Hrest : ∀ u, (if negb (int64 limit && int64 offset) then py_raise OverflowError else
      records <- on_app (on_db (list_feedbacks limit offset u category_ status)) ;; lift (list_all records)) s =
    (Ret (List.map ticket_response (sql_limit_offset limit offset
      (reverse (List.filter (ticket_matches u category_ status) (numbered 1 (tickets b)))))), s)).
  { intros u. rewrite Hl, Ho. cbn [negb andb]. unfold py_bind, on_app, on_db.
    rewrite (list_records_ticket b s) by done. rewrite list_all_tickets; [by destruct s as [[] ? ?]|].
    apply Forall_forall. intros it Hit%sql_limit_offset_subseteq. rewrite elem_of_reverse in Hit.
    apply list_elem_of_In, List.filter_In in Hit as [Hit _].
    pose proof (rel_texts _ _ R) as Ht. rewrite Forall_forall in Ht. apply Ht.
    rewrite <-(numbered_tickets 1 (tickets b)). by apply list_elem_of_In, List.in_map. }
  unfold filter_user. destruct mine; [|apply Hrest].
  clear R. destruct s as [a0 tk sp]. cbn [app] in *.
  unfold on_app at 1, get_current_user_optional, py_try, py_bind at 1 2 3. cbn [app].
  pose proof (get_current_user_state now now_ts secret request a0) as Ha.
  destruct (get_current_user now now_ts secret request a0) as [[u|e] a]; cbn [snd fst] in *; subst a.
  - exact (Hrest (Some (u_username u))).
  - by destruct e.
Qed.

(** C14: Over any sequence of submissions, turns of the background tasks and other
    calls of the database, the endpoint behaves as a board of tickets that the
    events determine: a submission that the permission and the validation let
    through files one ticket at the end, under its user and its time, and queues
    its publication; a turn publishes exactly the ticket that it was queued for
    and links the number that the client reports to that ticket; nothing else
    changes the board.  A listing shows the tickets that match its filters, the
    newest first, each with the texts and metadata that were submitted, a
    submission answers with its new ticket, and the commands that ran are those
    of the board. *)
Theorem feedback_history_refines l s0 :
  fb_rel empty_board s0 → Forall regular l →
  let s := perform_all l s0 in
  let board := board_of l s0 empty_board in
  (∀ now now_ts secret request mine submitted_by category_ status limit offset,
    match category_ with Some c => c ∈ CATEGORIES | None => True end →
    int64 limit = true → int64 offset = true →
    list_feedback_submissions now now_ts secret request mine submitted_by category_ status limit offset s =
      (match filter_user now now_ts secret request mine submitted_by (app s) with
       | Ret u => Ret (listing u category_ status limit offset (tickets board))
       | Raise e => Raise e
       end, s)) ∧
  (∀ now now_ts secret request q, texts_ok q = true →
    (submit_feedback now now_ts secret request q s).1 = submission_reply now now_ts secret request q board (app s)) ∧
  spawned s = commands board.
Proof.
  intros H0 Hl s board. assert (R : fb_rel board s) by (by apply history_refines). split_and!.
  - intros. by apply listing_exact.
  - intros. by apply submit_refines.
  - by destruct R.
Qed.

(** ** Links *)

Fixpoint unquote (s : string) : string :=
  match s with
  | EmptyString => ""
  | String c s' =>
      match s' with
      | String a (String b s'') =>
          match (if Ascii.eqb c "%" then hex_value a else None), hex_value b with
          | Some x, Some y => String (chr (x * 16 + y)) (unquote s'')
          | _, _ => String c (unquote s')
          end
      | _ => String c (unquote s')
      end
  end.

(** The parameters that the receiver of a query reads. *)
Definition read_query (query : string) : list (option (string * string)) :=
  List.map (λ p, match str_split1 "=" p with Some (k, v) => Some (unquote k, unquote v) | None => None end)
    (str_split "&" query).

Lemma upper_hex_value n : 0 ≤ n < 16 → hex_value (upper_char (hex_digit n)) = Some n.
Proof.
  intros Hn. assert (n ∈ seqZ 0 16) as Hin by (apply elem_of_seqZ; lia). clear Hn. vm_compute in Hin.
  repeat (apply elem_of_cons in Hin as [->|Hin]; [reflexivity|]). by apply elem_of_nil in Hin.
Qed.

Lemma percent_decoded c :
  ∃ a b x y, percent c = String "%" (String a (String b "")) ∧ hex_value a = Some x ∧ hex_value b = Some y ∧
    chr (x * 16 + y) = c.
Proof.
  pose proof (ord_bound c) as Hc.
  exists (upper_char (hex_digit (ord c / 16))), (upper_char (hex_digit (ord c mod 16))), (ord c / 16), (ord c mod 16).
  rewrite !upper_hex_value by zdiv. split_and!; [done|done|done|].
  by replace (ord c / 16 * 16 + ord c mod 16) with (ord c) by zdiv; rewrite chr_ord.
Qed.

Lemma unquote_plain c s : Ascii.eqb c "%" = false → unquote (String c s) = String c (unquote s).
Proof. intros Hc. cbn [unquote]. rewrite Hc. by destruct s as [|a [|b s]]. Qed.

Lemma unquote_quote s : unquote (quote s) = s.
Proof.
  induction s as [|c s IH]; [done|]. cbn [quote]. destruct (unreserved c) eqn:E.
  - rewrite str_app_cons, str_app_empty, unquote_plain, IH; [done|].
    destruct (Ascii.eqb c "%") eqn:Ec; [by apply Ascii.eqb_eq in Ec as ->|done].
  - destruct (percent_decoded c) as (a & b & x & y & -> & Ha & Hb & Hc).
    rewrite !str_app_cons, str_app_empty. cbn [unquote]. change (Ascii.eqb "%" "%") with true. cbn iota.
    by rewrite Ha, Hb, Hc, IH.
Qed.

Definition query_safe (c : ascii) : bool := negb (Ascii.eqb c "&") && negb (Ascii.eqb c "=").
Lemma quote_safe s : str_all query_safe (quote s) = true.
Proof.
  induction s as [|c s IH]; [done|]. cbn [quote]. rewrite str_all_app, IH, andb_true_r.
  destruct (unreserved c) eqn:E.
  - cbn [str_all]. rewrite andb_true_r. revert E. unfold unreserved, query_safe.
    destruct c as [[] [] [] [] [] [] [] []]; done.
  - unfold percent. destruct c as [[] [] [] [] [] [] [] []]; done.
Qed.

Lemma read_param k v :
  match str_split1 "=" (quote k +:+ "=" +:+ quote v) with
  | Some (k', v') => Some (unquote k', unquote v')
  | None => None
  end = Some (k, v).
Proof.
  rewrite str_app_cons, str_app_empty, str_split1_app; [by rewrite !unquote_quote|].
  eapply str_all_impl; [|apply quote_safe]. intros c. by intros [_ H]%andb_prop.
Qed.

Lemma param_safe k v : str_all (λ c, negb (Ascii.eqb c "&")) (quote k +:+ "=" +:+ quote v) = true.
Proof.
  assert (H : ∀ s, str_all (λ c, negb (Ascii.eqb c "&")) (quote s) = true).
  { intros s. eapply str_all_impl; [|apply quote_safe]. intros c. by intros [H _]%andb_prop. }
  by rewrite !str_all_app, !H.
Qed.

Lemma read_urlencode ps : ps ≠ [] → read_query (urlencode ps) = List.map Some ps.
Proof.
  unfold read_query, urlencode. intros Hps. induction ps as [|[k v] ps IH]; [done|]. cbn [List.map fst snd].
  destruct ps as [|p ps].
  - cbn [List.map str_join]. rewrite str_split_none by apply param_safe. cbn [List.map]. by rewrite read_param.
  - change (str_join ?x (?w :: List.map ?f (p :: ps))) with (w +:+ String "&" (str_join x (List.map f (p :: ps)))).
    rewrite str_split_app by apply param_safe.
    cbn [List.map]. rewrite read_param. f_equal. by apply IH.
Qed.

(** A composer link reads back as the template, the title and the body that
    it was built from, whatever characters they hold; a security report leads to
    the advisory form instead and carries nothing. *)
Theorem issue_link_decodes repo_url category_ title_ body :
  let base := rstrip_by (Ascii.eqb "/") repo_url in
  if String.eqb category_ "security_report"
  then build_github_issue_url repo_url category_ title_ body = base +:+ "/security/advisories/new"
  else ∃ query, build_github_issue_url repo_url category_ title_ body = base +:+ "/issues/new?" +:+ query ∧
    read_query query = List.map Some (issue_params category_ title_ body).
Proof.
  cbv zeta. unfold build_github_issue_url. destruct (String.eqb category_ "security_report"); [done|].
  eexists. split; [done|]. by apply read_urlencode.
Qed.

(** * Observations *)

Definition example_submit : FeedbackSubmitRequest :=
  mkSubmit "security_report" "Token leak" "d" None None None None None None None None None None None None None
    (Some "Überlauf") None None None (Some "curl ...") None.
Definition from_localhost : Request := mkRequest [] [] (Some "127.0.0.1").
Definition from_anywhere : Request := mkRequest [] [] (Some "203.0.113.9").
Definition example_start : Feedback := mkFB example_app [] [].
Definition example_filed : Feedback := (submit_feedback 0 "t" "k" from_localhost example_submit example_start).2.
Definition example_gh : option (string * GhOutcome) :=
  Some ("/usr/bin/gh", GhExit 0 ("https://github.com/o/r/issues/7" +:+ line_feed)).
Definition example_task : IssueTask := mkTask "security_report" "Token leak" (render_feedback_markdown example_submit) 1.
Definition example_history : list Action :=
  [Submission 0 "t" "k" from_localhost example_submit; Turn None 3;
   Submission 0 "u" "k" from_anywhere example_submit; Turn example_gh 0].
Definition example_linked : Feedback := perform_all example_history example_start.

Lemma feedback_history_refines_witness :
  board_of example_history example_start empty_board =
    mkBoard [mkTicket example_submit "admin" "t" (Some 7)] [] [issue_command "/usr/bin/gh" example_task] ∧
  (list_feedback_submissions 0 "t" "k" from_anywhere false None None None 50 0 example_linked).1 =
    Ret (listing None None None 50 0 (tickets (board_of example_history example_start empty_board))) ∧
  spawned example_linked = [issue_command "/usr/bin/gh" example_task].
Proof.
  destruct (feedback_history_refines example_history example_start) as (H1 & _ & H3).
  - split; [reflexivity|reflexivity|constructor|constructor|reflexivity].
  - repeat constructor; vm_compute; reflexivity.
  - split_and!.
    + vm_compute. reflexivity.
    + unfold example_linked. by rewrite H1.
    + unfold example_linked. rewrite H3. vm_compute. reflexivity.
Defined.

(** Anyone may list the submissions, the reports of vulnerabilities included. *)
Lemma listing_is_public :
  ∃ r, (list_feedback_submissions 0 "t" "k" from_anywhere false None None None 50 0 example_linked).1 = Ret [r] ∧
    p_category r = "security_report" ∧ p_github_issue_number r = Some 7.
Proof. eexists. vm_compute. done. Qed.

(** A report of a vulnerability is published as an ordinary issue. *)
Lemma vulnerability_published :
  spawned example_linked =
    [["/usr/bin/gh"; "issue"; "create"; "--title"; "[SECURITY_REPORT] Token leak"; "--body";
      render_feedback_markdown example_submit; "--label"; "security"]]%string.
Proof. by vm_compute. Qed.

(** A negative limit lists everything. *)
Lemma negative_limit_unbounded submitted_by category_ status ts :
  listing submitted_by category_ status (-1) 0 ts =
  List.map ticket_response (reverse (List.filter (ticket_matches submitted_by category_ status) (numbered 1 ts))).
Proof. done. Qed.
