(* ===== verification/MetricsHistory.v ===== *)
(** The aggregating queries of the time-series database
    ([app/database/metrics_db.py]) and the endpoints that read it
    ([app/routers/telemetry.py]).

    SQLite's AVG, MIN and MAX are computed on exact decimals, and ROUND to two
    places rounds halves away from zero; a rounded value is kept as its number
    of hundredths. *)

From S2P Require Import Prelude PyStr PyTime Metrics.
From Stdlib Require Import ZArith QArith Qabs Qpower Lqa Lia Ascii Bool Sorted.
From stdpp Require Import base tactics list sets strings.

Local Open Scope Z_scope.

(** * Aggregates *)

(** [ROUND(num / den, 2)] *)
Definition round2 (num den : Z) : Z := Z.sgn num * ((200 * Z.abs num + den) / (2 * den)).

(** Decimals as integers over the unit [10 ^ (- low)]. *)
Definition low (l : list real) : Z := fold_right (λ x m, Z.min x.2 m) 0 l.
Definition unit (l : list real) : Z := 10 ^ (- low l).
Definition scaled (l : list real) : list Z := List.map (λ x, x.1 * 10 ^ (x.2 - low l)) l.
Definition sum (l : list Z) : Z := fold_right Z.add 0 l.
Definition extreme (pick : Z → Z → Z) (l : list Z) : Z :=
  match l with [] => 0 | x :: l' => fold_right pick x l' end.

(** NULL, for no rows, reads as 0. *)
Definition avg2 (l : list real) : Z :=
  match l with [] => 0 | _ => round2 (sum (scaled l)) (Z.of_nat (length l) * unit l) end.
Definition min2 (l : list real) : Z := round2 (extreme Z.min (scaled l)) (unit l).
Definition max2 (l : list real) : Z := round2 (extreme Z.max (scaled l)) (unit l).
Definition integers (l : list Z) : list real := List.map (λ n, (n, 0)) l.

(** * Buckets *)

Record MetricBucketRecord := mkBucket {
  bucket_timestamp : string;
  avg_fps : Z;
  min_fps : Z;
  max_fps : Z;
  avg_frame_time_ms : Z;
  avg_players : Z;
  max_players_seen : Z;
  avg_cpu_pct : Z;
  max_cpu_pct : Z;
  avg_ram_pct : Z;
  max_ram_pct : Z;
  sample_count : Z }.

Inductive Window : Type := W1h | W24h | W7d | W30d.

(** [if window == "1h" ... else], the last case being 24 hours. *)
Definition window_of (window : string) : Window :=
  if String.eqb window "1h" then W1h
  else if String.eqb window "7d" then W7d
  else if String.eqb window "30d" then W30d
  else W24h.

(** [now - timedelta(hours=1)] *)
Definition previous_hour (t : datetime) : datetime :=
  let at_hour h u := {| year := year u; month := month u; day := day u; hour := h; minute := minute u;
                        second := second u; microsecond := microsecond u |} in
  if 1 <=? hour t then at_hour (hour t - 1) t else at_hour 23 (previous_day t).

Definition cutoff_of (now : datetime) (w : Window) : option datetime :=
  match w with
  | W1h => let r := previous_hour now in if year r <? 1 then None else Some r
  | W24h => minus_days now 1
  | W7d => minus_days now 7
  | W30d => minus_days now 30
  end.

(** [substr(timestamp, 1, n) || suffix] *)
Definition bucket_of (w : Window) (s : MetricSnapshotRecord) : string :=
  match w with
  | W1h => utf8_take 16 (timestamp s) +:+ ":00Z"
  | W24h => utf8_take 15 (timestamp s) +:+ "0:00Z"
  | W7d => utf8_take 13 (timestamp s) +:+ ":00:00Z"
  | W30d => utf8_take 10 (timestamp s) +:+ "T00:00:00Z"
  end.

(** [GROUP BY bucket ORDER BY bucket ASC]: the distinct keys in order. *)
Fixpoint insert_key (k : string) (ks : list string) : list string :=
  match ks with
  | [] => [k]
  | k' :: ks' =>
      if String.ltb k k' then k :: ks else if String.eqb k k' then ks else k' :: insert_key k ks'
  end.
Definition keys (l : list string) : list string := fold_right insert_key [] l.

Definition bucket_row (key : string) (ss : list MetricSnapshotRecord) : MetricBucketRecord :=
  let fps := List.map server_fps ss in
  let players := List.map active_players ss in
  let cpu := List.map cpu_avg_pct ss in
  let ram := List.map host_ram_pct ss in
  mkBucket key (avg2 fps) (min2 fps) (max2 fps) (avg2 (List.map server_frame_time_ms ss))
    (avg2 (integers players)) (extreme Z.max players) (avg2 cpu) (max2 cpu) (avg2 ram) (max2 ram)
    (Z.of_nat (length ss)).

(** The samples not older than the cutoff. *)
Definition in_window (cutoff : string) (d : MetricsDb) : list MetricSnapshotRecord :=
  List.map sample (List.filter (λ r, negb (older cutoff r)) (rows (working d))).

Definition of_key (w : Window) (ss : list MetricSnapshotRecord) (k : string) : list MetricSnapshotRecord :=
  List.filter (λ s, String.eqb (bucket_of w s) k) ss.
Definition buckets (w : Window) (ss : list MetricSnapshotRecord) : list MetricBucketRecord :=
  List.map (λ k, bucket_row k (of_key w ss k)) (keys (List.map (bucket_of w) ss)).

Definition get_history (f : Fault) (now : datetime) (window : string) (d : MetricsDb)
    : result (list MetricBucketRecord) :=
  let w := window_of window in
  match cutoff_of now w with
  | None => Raise OverflowError
  | Some cutoff =>
      match f with
      | NoFault => Ret (buckets w (in_window (isoformat cutoff) d))
      | ExecuteFails _ e | CommitFails e => if is_database_error e then Ret [] else Raise e
      end
  end.

Record Metric30DaySummary := mkSummary {
  total_samples : Z;
  peak_players : Z;
  s_avg_players : Z;
  lowest_fps : Z;
  s_avg_fps : Z;
  peak_cpu_pct : Z;
  s_avg_cpu_pct : Z;
  peak_ram_pct : Z;
  s_avg_ram_pct : Z;
  window_start : string;
  window_end : string }.

Definition no_summary : Metric30DaySummary := mkSummary 0 0 0 0 0 0 0 0 0 "" "".

Definition summary_row (ss : list MetricSnapshotRecord) : Metric30DaySummary :=
  let fps := List.map server_fps ss in
  let players := List.map active_players ss in
  let cpu := List.map cpu_avg_pct ss in
  let ram := List.map host_ram_pct ss in
  let times := keys (List.map timestamp ss) in
  mkSummary (Z.of_nat (length ss)) (extreme Z.max players) (avg2 (integers players)) (min2 fps) (avg2 fps)
    (max2 cpu) (avg2 cpu) (max2 ram) (avg2 ram) (List.hd ""%string times) (List.last times ""%string).

Definition get_30_day_summary (f : Fault) (now : datetime) (d : MetricsDb) : result Metric30DaySummary :=
  match minus_days now 30 with
  | None => Raise OverflowError
  | Some cutoff =>
      match f with
      | NoFault => Ret (summary_row (in_window (isoformat cutoff) d))
      | ExecuteFails _ e | CommitFails e => if is_database_error e then Ret no_summary else Raise e
      end
  end.

(** * Order of texts *)

Lemma ltb_String c d s t :
  String.ltb (String c s) (String d t) = (ord c <? ord d) || ((ord c =? ord d) && String.ltb s t).
Proof.
  destruct (Z.ltb_spec (ord c) (ord d)) as [H|H]; [by rewrite ltb_cons_lt|].
  destruct (Z.eqb_spec (ord c) (ord d)) as [E|E]; cbn [orb andb].
  - assert (c = d) as -> by (rewrite <-(chr_ord c), <-(chr_ord d); by rewrite E). apply ltb_cons.
  - apply ltb_cons_gt. lia.
Qed.

Lemma ltb_irrefl s : String.ltb s s = false.
Proof. induction s as [|c s IH]; [done|]. by rewrite ltb_cons. Qed.

Lemma ltb_trans s t u : String.ltb s t = true → String.ltb t u = true → String.ltb s u = true.
Proof.
  revert t u. induction s as [|c s IH]; intros [|d t] [|e u]; try done. rewrite !ltb_String.
  intros [H1|[H1 H1']%andb_prop]%orb_prop [H2|[H2 H2']%andb_prop]%orb_prop; apply orb_true_intro;
    [left; lia|left; lia|left; lia|right].
  rewrite (IH _ _ H1' H2'). apply andb_true_intro. split; [lia|done].
Qed.

Lemma ltb_total s t : String.ltb s t = false → s ≠ t → String.ltb t s = true.
Proof.
  revert t. induction s as [|c s IH]; intros [|d t]; try done. rewrite !ltb_String.
  intros [H1 H2]%orb_false_elim Hne. destruct (Z.eqb_spec (ord d) (ord c)) as [E|E].
  - rewrite E, Z.eqb_refl in H2. apply orb_true_intro. right. apply IH; [done|]. intros ->. apply Hne.
    rewrite <-(chr_ord c), <-(chr_ord d). by rewrite E.
  - apply orb_true_intro. left. lia.
Qed.

(** * The keys of the groups *)

Definition before (a b : string) : Prop := String.ltb a b = true.

Lemma elem_of_insert_key k ks x : x ∈ insert_key k ks ↔ x = k ∨ x ∈ ks.
Proof.
  induction ks as [|k' ks IH]; cbn; [set_solver|].
  destruct (String.ltb k k'); [set_solver|]. destruct (String.eqb_spec k k') as [->|]; set_solver.
Qed.

Lemma insert_key_sorted k ks : StronglySorted before ks → StronglySorted before (insert_key k ks).
Proof.
  induction 1 as [|k' ks Hs IH Hf]; cbn; [by repeat constructor|].
  destruct (String.ltb k k') eqn:Hlt.
  - constructor; [by constructor|]. constructor; [done|]. eapply Forall_impl; [exact Hf|].
    intros x Hx. by eapply ltb_trans.
  - destruct (String.eqb_spec k k') as [->|Hne]; [by constructor|]. constructor; [done|].
    apply Forall_forall. intros x [->|Hx]%elem_of_insert_key; [by apply ltb_total|].
    rewrite Forall_forall in Hf. by apply Hf.
Qed.

Lemma elem_of_keys l x : x ∈ keys l ↔ x ∈ l.
Proof. induction l as [|k l IH]; cbn; [done|]. rewrite elem_of_insert_key, elem_of_cons. by rewrite IH. Qed.

Lemma keys_sorted l : StronglySorted before (keys l).
Proof. induction l as [|k l IH]; [constructor|]. by apply insert_key_sorted. Qed.

Lemma sorted_nodup ks : StronglySorted before ks → NoDup ks.
Proof.
  induction 1 as [|k ks _ IH Hf]; constructor; [|done]. intros Hk. rewrite Forall_forall in Hf.
  specialize (Hf k Hk). unfold before in Hf. by rewrite ltb_irrefl in Hf.
Qed.

(** The groups of distinct keys count every sample of these keys once. *)
Lemma group_counts {A} (f : A → string) ks (l : list A) :
  NoDup ks → (∀ x, x ∈ l → f x ∈ ks) →
  sum (List.map (λ k, Z.of_nat (length (List.filter (λ x, String.eqb (f x) k) l))) ks) = Z.of_nat (length l).
Proof.
  intros Hks. induction l as [|x l IH]; intros Hl.
  - clear. induction ks as [|k ks IH]; [done|]. exact IH.
  - assert (E : sum (List.map (λ k, Z.of_nat (length (List.filter (λ y, String.eqb (f y) k) (x :: l)))) ks) =
      sum (List.map (λ k, Z.of_nat (length (List.filter (λ y, String.eqb (f y) k) l))) ks) +
      (if bool_decide (f x ∈ ks) then 1 else 0)).
    { clear IH Hl. induction Hks as [|k ks Hk _ IH]; [done|]. cbn [List.map sum fold_right].
      unfold sum in IH. rewrite IH. cbn [List.filter]. destruct (String.eqb_spec (f x) k) as [<-|Hne].
      - rewrite (bool_decide_false (f x ∈ ks)), (bool_decide_true (f x ∈ f x :: ks)) by set_solver. cbn [length]. lia.
      - rewrite (bool_decide_ext (f x ∈ k :: ks) (f x ∈ ks)) by set_solver. lia. }
    rewrite E, IH by set_solver. rewrite bool_decide_true by set_solver. cbn [length]. lia.
Qed.

(** * Rounded aggregates *)

Lemma round2_mono a b d : 0 < d → a ≤ b → round2 a d ≤ round2 b d.
Proof.
  intros Hd Hab. unfold round2.
  assert (Hpos : ∀ x, 0 ≤ x → 0 ≤ (200 * x + d) / (2 * d)) by (intros; apply Z.div_pos; lia).
  assert (Hm : ∀ x y, x ≤ y → (200 * x + d) / (2 * d) ≤ (200 * y + d) / (2 * d))
    by (intros; apply Z.div_le_mono; lia).
  pose proof (Hpos (Z.abs a) ltac:(lia)). pose proof (Hpos (Z.abs b) ltac:(lia)).
  destruct (Z.sgn_spec a) as [[? ->]|[[? ->]|[? ->]]], (Z.sgn_spec b) as [[? ->]|[[? ->]|[? ->]]]; try lia.
  - pose proof (Hm (Z.abs a) (Z.abs b)). lia.
  - pose proof (Hm (Z.abs b) (Z.abs a)). lia.
Qed.

Lemma round2_scale k a d : 0 < k → 0 < d → round2 (k * a) (k * d) = round2 a d.
Proof.
  intros Hk Hd. unfold round2. rewrite Z.sgn_mul, Z.abs_mul, (Z.sgn_pos k), (Z.abs_eq k) by lia.
  rewrite Z.mul_1_l. f_equal. replace (200 * (k * Z.abs a) + k * d) with (k * (200 * Z.abs a + d)) by lia.
  replace (2 * (k * d)) with (k * (2 * d)) by lia. by rewrite Z.div_mul_cancel_l by lia.
Qed.

Lemma extreme_min_le l x : x ∈ l → extreme Z.min l ≤ x.
Proof.
  destruct l as [|y l]; [set_solver|]. cbn. revert x. induction l as [|z l IH]; intros x; cbn; [intros ->%list_elem_of_singleton; lia|].
  intros [->|[->|Hx]%elem_of_cons]%elem_of_cons; [|lia|].
  - specialize (IH y ltac:(set_solver)). lia.
  - specialize (IH x ltac:(set_solver)). lia.
Qed.
Lemma extreme_max_ge l x : x ∈ l → x ≤ extreme Z.max l.
Proof.
  destruct l as [|y l]; [set_solver|]. cbn. revert x. induction l as [|z l IH]; intros x; cbn; [intros ->%list_elem_of_singleton; lia|].
  intros [->|[->|Hx]%elem_of_cons]%elem_of_cons; [|lia|].
  - specialize (IH y ltac:(set_solver)). lia.
  - specialize (IH x ltac:(set_solver)). lia.
Qed.

Lemma sum_bounds m n l : (∀ x, x ∈ l → m ≤ x ≤ n) → Z.of_nat (length l) * m ≤ sum l ≤ Z.of_nat (length l) * n.
Proof.
  induction l as [|x l IH]; intros H; [cbn; lia|]. specialize (IH ltac:(set_solver)).
  pose proof (H x ltac:(set_solver)). cbn [length sum fold_right]. unfold sum in IH. lia.
Qed.

Lemma unit_pos l : 0 < unit l.
Proof.
  unfold unit. apply Z.pow_pos_nonneg; [lia|]. enough (low l ≤ 0) by lia. unfold low. induction l; cbn; lia.
Qed.

(** The rounded mean lies between the rounded least and greatest values. *)
Lemma avg2_between l : l ≠ [] → min2 l ≤ avg2 l ≤ max2 l.
Proof.
  intros Hl. unfold min2, max2. assert (0 < Z.of_nat (length l)) by (destruct l; [done|cbn; lia]).
  assert (avg2 l = round2 (sum (scaled l)) (Z.of_nat (length l) * unit l)) as -> by by destruct l.
  pose proof (unit_pos l). assert (Hlen : length (scaled l) = length l) by apply List.length_map.
  pose proof (sum_bounds (extreme Z.min (scaled l)) (extreme Z.max (scaled l)) (scaled l)) as Hb.
  rewrite Hlen in Hb. destruct Hb as [H1 H2].
  { intros x Hx. split; [by apply extreme_min_le|by apply extreme_max_ge]. }
  rewrite <-(round2_scale (Z.of_nat (length l)) (extreme Z.min (scaled l))) by done.
  rewrite <-(round2_scale (Z.of_nat (length l)) (extreme Z.max (scaled l))) by done.
  split; apply round2_mono; lia.
Qed.

(** The mean of whole numbers is at most the greatest, in hundredths. *)
Lemma avg2_integers l : l ≠ [] → avg2 (integers l) ≤ 100 * extreme Z.max l.
Proof.
  intros Hl. assert (Hi : integers l ≠ []) by by destruct l. destruct (avg2_between _ Hi) as [_ H].
  etrans; [exact H|]. clear H Hi.
  assert (Hlow : low (integers l) = 0).
  { clear. induction l as [|n l IH]; [done|]. change (Z.min 0 (low (integers l)) = 0). by rewrite IH. }
  assert (Hs : scaled (integers l) = l).
  { unfold scaled. rewrite Hlow. clear. unfold integers. rewrite List.map_map. cbn [fst snd].
    rewrite <-List.map_id. apply List.map_ext. intros n. cbn. lia. }
  unfold max2, unit. rewrite Hs, Hlow. generalize (extreme Z.max l). intros n. unfold round2.
  change (10 ^ (- 0)) with 1. replace (200 * Z.abs n + 1) with (1 + (100 * Z.abs n) * (2 * 1)) by lia.
  rewrite Z.div_add by lia. change (1 / (2 * 1)) with 0. pose proof (Z.abs_sgn n). nia.
Qed.

(** * Exact values *)

(** What a rounded aggregate means, in rational numbers: the value of a decimal,
    and a number of hundredths that is nearest to a value. *)
Definition value (x : real) : Q := (inject_Z x.1 * 10 ^ x.2)%Q.
Definition hundredths (v : Z) (x : Q) : Prop := (Qabs (inject_Z v - 100 * x) <= 1 # 2)%Q.
Definition total (l : list real) : Q := fold_right (λ x q, value x + q)%Q 0%Q l.
Definition is_mean (v : Z) (l : list real) : Prop := hundredths v (total l / inject_Z (Z.of_nat (length l)))%Q.
Definition is_least (v : Z) (l : list real) : Prop :=
  ∃ x, x ∈ l ∧ (∀ y, y ∈ l → (value x <= value y)%Q) ∧ hundredths v (value x).
Definition is_greatest (v : Z) (l : list real) : Prop :=
  ∃ x, x ∈ l ∧ (∀ y, y ∈ l → (value y <= value x)%Q) ∧ hundredths v (value x).

#[export] Instance hundredths_proper v : Proper (Qeq ==> iff) (hundredths v).
Proof. intros x y E. unfold hundredths. by rewrite E. Qed.

Lemma round2_nearest num den : 0 < den → 2 * Z.abs (round2 num den * den - 100 * num) ≤ den.
Proof.
  intros Hd. unfold round2. pose proof (Z.div_mod (200 * Z.abs num + den) (2 * den) ltac:(lia)) as E.
  pose proof (Z.mod_pos_bound (200 * Z.abs num + den) (2 * den) ltac:(lia)) as B.
  revert E B. generalize ((200 * Z.abs num + den) / (2 * den)) ((200 * Z.abs num + den) mod (2 * den)). intros q r E B.
  destruct (Z.sgn_spec num) as [[? ->]|[[? ->]|[? ->]]]; nia.
Qed.

Lemma round2_hundredths num den : 0 < den → hundredths (round2 num den) (inject_Z num / inject_Z den)%Q.
Proof.
  intros Hd. pose proof (round2_nearest num den Hd) as H. destruct den as [|p|p]; [lia| |lia].
  rewrite <-Qmake_Qdiv. unfold hundredths, Qle. cbn. lia.
Qed.

Lemma pow10_pos n : (0 < 10 ^ n)%Q.
Proof. by apply Qpower_0_lt. Qed.

Lemma pow10_Z n : 0 ≤ n → (inject_Z (10 ^ n) == 10 ^ n)%Q.
Proof. intros Hn. by rewrite Zpower_Qpower. Qed.

(** A decimal over the unit [10 ^ (- k)]. *)
Lemma value_over k x : k ≤ 0 → k ≤ x.2 → (value x == inject_Z (x.1 * 10 ^ (x.2 - k)) / inject_Z (10 ^ (- k)))%Q.
Proof.
  intros Hk Hx. unfold value. rewrite inject_Z_mult, !pow10_Z by lia.
  replace x.2 with ((x.2 - k) + k) at 1 by lia. rewrite Qpower_plus by done. rewrite Qpower_opp.
  pose proof (pow10_pos k). field. lra.
Qed.

Lemma low_le l : low l ≤ 0 ∧ ∀ x, x ∈ l → low l ≤ x.2.
Proof.
  unfold low. induction l as [|y l [IH0 IH]]; cbn; [split; [done|set_solver]|]. split; [lia|].
  intros x [->|Hx]%elem_of_cons; [lia|]. specialize (IH x Hx). lia.
Qed.

Lemma value_scaled l x : x ∈ l → (value x == inject_Z (x.1 * 10 ^ (x.2 - low l)) / inject_Z (unit l))%Q.
Proof. intros Hx. destruct (low_le l) as [H0 H]. apply value_over; [done|by apply H]. Qed.

Lemma total_over k l :
  k ≤ 0 → (∀ x, x ∈ l → k ≤ x.2) →
  (total l == inject_Z (sum (List.map (λ x, (x.1 * 10 ^ (x.2 - k))%Z) l)) / inject_Z (10 ^ (- k)))%Q.
Proof.
  intros Hk. pose proof (pow10_pos (- k)). induction l as [|x l IH]; intros Hl; cbn [total fold_right List.map sum].
  - rewrite !pow10_Z by lia. field. lra.
  - fold (total l). rewrite IH by set_solver. rewrite (value_over k x) by set_solver.
    rewrite inject_Z_plus, !pow10_Z by lia. unfold sum. field. lra.
Qed.

Lemma total_scaled l : (total l == inject_Z (sum (scaled l)) / inject_Z (unit l))%Q.
Proof. destruct (low_le l). by apply total_over. Qed.

Lemma over_unit_le l a b : a ≤ b → (inject_Z a / inject_Z (unit l) <= inject_Z b / inject_Z (unit l))%Q.
Proof.
  intros H. apply Qmult_le_compat_r; [by rewrite <-Zle_Qle|]. apply Qlt_le_weak, Qinv_lt_0_compat.
  change 0%Q with (inject_Z 0). rewrite <-Zlt_Qlt. apply unit_pos.
Qed.

Lemma avg2_mean l : l ≠ [] → is_mean (avg2 l) l.
Proof.
  intros Hl. assert (0 < Z.of_nat (length l)) as Hn by (destruct l; [done|cbn; lia]).
  assert (avg2 l = round2 (sum (scaled l)) (Z.of_nat (length l) * unit l)) as -> by by destruct l.
  pose proof (unit_pos l) as Hu. unfold is_mean. rewrite total_scaled.
  assert (Hz : ∀ z, 0 < z → ~ (inject_Z z == 0)%Q).
  { intros z Hz E. change 0%Q with (inject_Z 0) in E. rewrite inject_Z_injective in E. lia. }
  assert (E : (inject_Z (sum (scaled l)) / inject_Z (unit l) / inject_Z (Z.of_nat (length l)) ==
    inject_Z (sum (scaled l)) / inject_Z (Z.of_nat (length l) * unit l))%Q).
  { rewrite inject_Z_mult. field. split; by apply Hz. }
  rewrite E. apply round2_hundredths. lia.
Qed.

Lemma extreme_in pick l : (∀ a b, pick a b = a ∨ pick a b = b) → l ≠ [] → extreme pick l ∈ l.
Proof.
  intros Hp. destruct l as [|x l]; [done|]. intros _. cbn. induction l as [|y l IH]; cbn; [set_solver|].
  destruct (Hp y (fold_right pick x l)) as [-> | ->]; set_solver.
Qed.

Lemma scaled_in l n : n ∈ scaled l → ∃ x, x ∈ l ∧ n = x.1 * 10 ^ (x.2 - low l).
Proof. intros (x & <- & Hx)%list_elem_of_In%List.in_map_iff. exists x. split; [by apply list_elem_of_In|done]. Qed.
Lemma in_scaled l x : x ∈ l → x.1 * 10 ^ (x.2 - low l) ∈ scaled l.
Proof. intros Hx. apply list_elem_of_In, (List.in_map (λ x : real, x.1 * 10 ^ (x.2 - low l))). by apply list_elem_of_In. Qed.

Lemma min2_least l : l ≠ [] → is_least (min2 l) l.
Proof.
  intros Hl. destruct (scaled_in l (extreme Z.min (scaled l))) as (x & Hx & E).
  { apply extreme_in; [lia|by destruct l]. }
  exists x. split; [done|]. split; [|rewrite (value_scaled l x Hx), <-E; apply round2_hundredths, unit_pos].
  intros y Hy. rewrite (value_scaled l x Hx), (value_scaled l y Hy), <-E. apply over_unit_le, extreme_min_le. by apply in_scaled.
Qed.
Lemma max2_greatest l : l ≠ [] → is_greatest (max2 l) l.
Proof.
  intros Hl. destruct (scaled_in l (extreme Z.max (scaled l))) as (x & Hx & E).
  { apply extreme_in; [lia|by destruct l]. }
  exists x. split; [done|]. split; [|rewrite (value_scaled l x Hx), <-E; apply round2_hundredths, unit_pos].
  intros y Hy. rewrite (value_scaled l x Hx), (value_scaled l y Hy), <-E. apply over_unit_le, extreme_max_ge. by apply in_scaled.
Qed.

(** * The time of a bucket *)

(** The start of the minute, of the ten minutes, of the hour or of the day, and how
    it is written. *)
Definition truncated (w : Window) (t : datetime) : datetime :=
  let at_time h m := {| year := year t; month := month t; day := day t; hour := h; minute := m;
                        second := 0; microsecond := 0 |} in
  match w with
  | W1h => at_time (hour t) (minute t)
  | W24h => at_time (hour t) (minute t - minute t mod 10)
  | W7d => at_time (hour t) 0
  | W30d => at_time 0 0
  end.
Definition zulu (t : datetime) : string :=
  fixed_digits 4 (year t) +:+ "-" +:+ fixed_digits 2 (month t) +:+ "-" +:+ fixed_digits 2 (day t)
  +:+ "T" +:+ fixed_digits 2 (hour t) +:+ ":" +:+ fixed_digits 2 (minute t) +:+ ":" +:+ fixed_digits 2 (second t) +:+ "Z".

Lemma digit_not_cont n : is_cont (ord (chr (48 + n mod 10))) = false.
Proof. pose proof (Z.mod_pos_bound n 10 ltac:(lia)). rewrite ord_chr by lia. unfold is_cont. lia. Qed.

Lemma take_digits k n x s : utf8_take (k + n) (fixed_digits k x +:+ s) = fixed_digits k x +:+ utf8_take n s.
Proof.
  induction k as [|k IH]; cbn [fixed_digits Nat.add]; [by rewrite !str_app_empty|].
  rewrite !str_app_cons. cbn [utf8_take]. by rewrite digit_not_cont, IH.
Qed.
Lemma take_char n c s : is_cont (ord c) = false → utf8_take (S n) (String c s) = String c (utf8_take n s).
Proof. intros H. cbn [utf8_take]. by rewrite H. Qed.
Lemma take_stop c s : is_cont (ord c) = false → utf8_take 0 (String c s) = ""%string.
Proof. intros H. cbn [utf8_take]. by rewrite H. Qed.

(** The tens of a field of two digits. *)
Lemma take_tens m s : utf8_take 1 (fixed_digits 2 m +:+ s) +:+ "0" = fixed_digits 2 (m - m mod 10).
Proof.
  cbn [fixed_digits]. rewrite !str_app_cons, str_app_empty. rewrite take_char by apply digit_not_cont.
  rewrite take_stop by apply digit_not_cont. rewrite str_app_cons, str_app_empty.
  change (Z.of_nat 1) with 1. change (Z.of_nat 0) with 0. change (10 ^ 1) with 10. change (10 ^ 0) with 1. rewrite !Z.div_1_r.
  replace ((m - m mod 10) / 10) with (m / 10) by zdiv. by replace ((m - m mod 10) mod 10) with 0 by zdiv.
Qed.

Ltac flatten := rewrite ?str_app_assoc; repeat rewrite ?str_app_cons, ?str_app_empty, ?str_app_assoc.

Lemma bucket_of_time w s t : timestamp s = isoformat t → bucket_of w s = zulu (truncated w t).
Proof.
  intros E. unfold bucket_of. rewrite E. unfold isoformat, zulu. fold (fraction (microsecond t)).
  rewrite !str_app_cons, !str_app_empty. destruct w; cbn [truncated year month day hour minute second];
    change (fixed_digits 2 0) with "00"%string.
  - change 16%nat with (4 + S (2 + S (2 + S (2 + S (2 + 0)))))%nat.
    repeat first [rewrite take_digits | rewrite take_char by done]. rewrite take_stop by done. by flatten.
  - rewrite <-(take_tens (minute t) (String ":" (fixed_digits 2 (second t) +:+ fraction (microsecond t)))).
    change 15%nat with (4 + S (2 + S (2 + S (2 + S 1))))%nat.
    repeat first [rewrite take_digits | rewrite take_char by done]. by flatten.
  - change 13%nat with (4 + S (2 + S (2 + S (2 + 0))))%nat.
    repeat first [rewrite take_digits | rewrite take_char by done]. rewrite take_stop by done. by flatten.
  - change 10%nat with (4 + S (2 + S (2 + 0)))%nat.
    repeat first [rewrite take_digits | rewrite take_char by done]. rewrite take_stop by done. by flatten.
Qed.

(** * Properties *)

Lemma previous_hour_valid t : valid_datetime t = true → 1 ≤ year (previous_hour t) → valid_datetime (previous_hour t) = true.
Proof.
  rewrite !proleptic_valid. intros [Ht Hy]%andb_prop Hr. apply andb_true_intro. split; [|lia].
  unfold previous_hour in *. pose proof (proleptic_previous_day t Ht) as Hp. clear Hr Hy.
  destruct (1 <=? hour t) eqn:Hh; [clear Hp; revert Ht|clear Ht; revert Hp];
    unfold proleptic, valid_datetime; cbn [with_date year month day hour minute second microsecond];
    rewrite !andb_true_iff, !Z.leb_le; lia.
Qed.

Lemma cutoff_valid now w cutoff : valid_datetime now = true → cutoff_of now w = Some cutoff → valid_datetime cutoff = true.
Proof.
  intros Hn. destruct w; cbn [cutoff_of]; [|by apply minus_days_valid..].
  destruct (Z.ltb_spec (year (previous_hour now)) 1); [done|]. intros [= <-]. by apply previous_hour_valid.
Qed.

(** Every column of a row, computed from the samples of its group. *)
Record aggregates (b : MetricBucketRecord) (group : list MetricSnapshotRecord) : Prop := {
  ag_count : sample_count b = Z.of_nat (length group);
  ag_avg_fps : is_mean (avg_fps b) (List.map server_fps group);
  ag_min_fps : is_least (min_fps b) (List.map server_fps group);
  ag_max_fps : is_greatest (max_fps b) (List.map server_fps group);
  ag_frame : is_mean (avg_frame_time_ms b) (List.map server_frame_time_ms group);
  ag_players : is_mean (avg_players b) (integers (List.map active_players group));
  ag_most : max_players_seen b ∈ List.map active_players group ∧
    Forall (λ s, active_players s ≤ max_players_seen b) group;
  ag_avg_cpu : is_mean (avg_cpu_pct b) (List.map cpu_avg_pct group);
  ag_max_cpu : is_greatest (max_cpu_pct b) (List.map cpu_avg_pct group);
  ag_avg_ram : is_mean (avg_ram_pct b) (List.map host_ram_pct group);
  ag_max_ram : is_greatest (max_ram_pct b) (List.map host_ram_pct group) }.

Lemma bucket_row_aggregates k g : g ≠ [] → aggregates (bucket_row k g) g.
Proof.
  intros Hg. split; cbn [bucket_row sample_count max_players_seen avg_fps min_fps max_fps avg_frame_time_ms avg_cpu_pct
    max_cpu_pct avg_ram_pct max_ram_pct avg_players];
    try (first [apply avg2_mean | apply min2_least | apply max2_greatest]; by destruct g).
  - done.
  - split; [apply extreme_in; [lia|by destruct g]|].
    apply Forall_forall. intros x Hx. apply extreme_max_ge.
    apply list_elem_of_In, List.in_map. by apply list_elem_of_In.
Qed.

Section history.
(** The time at which each stored sample was taken. *)
Context (taken : MetricSnapshotRecord → datetime) (d : MetricsDb).
Definition stored : list MetricSnapshotRecord := List.map sample (rows (working d)).
Context (Htaken : Forall (λ s, valid_datetime (taken s) = true ∧ timestamp s = isoformat (taken s)) stored).

(** The samples since a time, and those of a bucket. *)
Definition since (cutoff : datetime) : list MetricSnapshotRecord :=
  List.filter (λ s, negb (dt_ltb (taken s) cutoff)) stored.
Definition group (w : Window) (ss : list MetricSnapshotRecord) (k : string) : list MetricSnapshotRecord :=
  List.filter (λ s, String.eqb (zulu (truncated w (taken s))) k) ss.

Lemma in_window_since cutoff : valid_datetime cutoff = true → in_window (isoformat cutoff) d = since cutoff.
Proof using Htaken.
  intros Hc. revert Htaken. unfold in_window, since, stored. induction (rows (working d)) as [|r l IH]; [done|].
  cbn [List.map List.filter]. intros [[Hv E] Hl]%Forall_cons. rewrite <-IH by done.
  unfold older. rewrite E, isoformat_ltb by done. by destruct (dt_ltb _ _).
Qed.

Lemma since_bucket w cutoff s : s ∈ since cutoff → bucket_of w s = zulu (truncated w (taken s)).
Proof using Htaken.
  intros Hs. apply bucket_of_time. rewrite Forall_forall in Htaken. apply Htaken.
  by apply list_elem_of_In, List.filter_In in Hs as [Hs%list_elem_of_In _].
Qed.

Lemma of_key_group w cutoff k : of_key w (since cutoff) k = group w (since cutoff) k.
Proof using Htaken.
  unfold of_key, group. apply List.filter_ext_in. intros s Hs. by rewrite (since_bucket w cutoff) by by apply list_elem_of_In.
Qed.
End history.

(** C23: A history partitions the samples since the start of its window by time:
    the buckets are in strictly ascending order, every sample belongs to the one
    that carries the start of the minute, of the ten minutes, of the hour or of the
    day in which it was taken, and a bucket's columns are exactly those of its own
    samples: their number, and the mean, the least and the greatest of their values
    rounded to the nearest hundredth. *)
Theorem history_partitions taken now window cutoff d :
  valid_datetime now = true → cutoff_of now (window_of window) = Some cutoff →
  Forall (λ s, valid_datetime (taken s) = true ∧ timestamp s = isoformat (taken s)) (stored d) →
  let w := window_of window in
  let ss := since taken d cutoff in
  ∃ bs, get_history NoFault now window d = Ret bs ∧
    StronglySorted (λ a b, before (bucket_timestamp a) (bucket_timestamp b)) bs ∧
    (∀ s, s ∈ ss → ∃ b, b ∈ bs ∧ bucket_timestamp b = zulu (truncated w (taken s))) ∧
    sum (List.map sample_count bs) = Z.of_nat (length ss) ∧
    Forall (λ b, let g := group taken w ss (bucket_timestamp b) in g ≠ [] ∧ aggregates b g) bs.
Proof.
  intros Hnow Hc Ht w ss. exists (buckets w ss). unfold get_history. fold w in Hc |- *. rewrite Hc.
  rewrite (in_window_since taken) by (done || by eapply cutoff_valid). fold ss.
  split; [done|]. unfold buckets. set (ks := keys (List.map (bucket_of w) ss)).
  assert (Hks : StronglySorted before ks) by apply keys_sorted.
  assert (Hin : ∀ k, k ∈ ks ↔ k ∈ List.map (bucket_of w) ss) by (intros; apply elem_of_keys).
  assert (Hkey : ∀ s, s ∈ ss → bucket_of w s = zulu (truncated w (taken s)))
    by (intros s; by apply (since_bucket taken d)).
  split_and!.
  - clear Hin. induction Hks as [|k l _ IH Hf]; cbn; constructor; [exact IH|].
    apply Forall_forall. intros b (k' & <- & Hk')%list_elem_of_In%List.in_map_iff.
    rewrite Forall_forall in Hf. apply Hf. by apply list_elem_of_In.
  - intros s Hs. rewrite <-(Hkey s Hs). exists (bucket_row (bucket_of w s) (of_key w ss (bucket_of w s))). split; [|done].
    apply list_elem_of_In, List.in_map_iff. exists (bucket_of w s). split; [done|]. apply list_elem_of_In.
    apply Hin, list_elem_of_In, List.in_map. by apply list_elem_of_In.
  - rewrite List.map_map. cbn [bucket_row sample_count].
    apply (group_counts (bucket_of w) ks ss); [by apply sorted_nodup|].
    intros s Hs. apply Hin. apply list_elem_of_In, List.in_map. by apply list_elem_of_In.
  - apply Forall_forall. intros b (k & <- & Hk)%list_elem_of_In%List.in_map_iff. cbn [bucket_row bucket_timestamp].
    assert (Hg : of_key w ss k = group taken w ss k) by apply (of_key_group taken d Ht). cbv zeta. rewrite <-Hg.
    assert (of_key w ss k ≠ []); [|by split; [|apply bucket_row_aggregates]].
    apply list_elem_of_In, Hin, list_elem_of_In, List.in_map_iff in Hk as (s & <- & Hs).
    intros E. assert (s ∈ of_key w ss (bucket_of w s)) as H; [|rewrite E in H; set_solver].
    apply list_elem_of_In, List.filter_In. split; [done|]. apply String.eqb_refl.
Qed.

Definition noon_of (s : MetricSnapshotRecord) : datetime := noon (active_players s).

Lemma history_partitions_witness :
  ∃ bs, get_history NoFault (noon 5) "7d" four_days = Ret bs ∧
    List.map bucket_timestamp bs =
      ["2026-03-01T12:00:00Z"; "2026-03-02T12:00:00Z"; "2026-03-03T12:00:00Z"; "2026-03-04T12:00:00Z"]%string ∧
    sum (List.map sample_count bs) = 4 ∧
    Forall (λ b, group noon_of W7d (stored four_days) (bucket_timestamp b) ≠ []) bs.
Proof.
  destruct (history_partitions noon_of (noon 5) "7d"
    {| year := 2026; month := 2; day := 26; hour := 12; minute := 0; second := 0; microsecond := 5 |} four_days)
    as (bs & Hbs & _ & _ & Hsum & Hg); [reflexivity|reflexivity|repeat constructor|].
  exists bs. split; [exact Hbs|]. split; [|split; [rewrite Hsum; reflexivity|]].
  - assert (E : get_history NoFault (noon 5) "7d" four_days = Ret bs) by exact Hbs.
    vm_compute in E. injection E as <-. reflexivity.
  - eapply Forall_impl; [exact Hg|]. intros b [H _]. exact H.
Defined.

(** The summary's extremes bound its means. *)
Lemma summary_ordered ss :
  ss ≠ [] →
  let r := summary_row ss in
  lowest_fps r ≤ s_avg_fps r ∧ s_avg_cpu_pct r ≤ peak_cpu_pct r ∧ s_avg_ram_pct r ≤ peak_ram_pct r ∧
  s_avg_players r ≤ 100 * peak_players r ∧ total_samples r = Z.of_nat (length ss).
Proof.
  intros Hss. cbn [summary_row lowest_fps s_avg_fps s_avg_cpu_pct peak_cpu_pct s_avg_ram_pct peak_ram_pct
    s_avg_players peak_players total_samples].
  split_and!; [apply avg2_between|apply avg2_between|apply avg2_between|apply avg2_integers|done]; by destruct ss.
Qed.

(** A window without samples reads as a summary of zeros. *)
Lemma summary_of_nothing : summary_row [] = no_summary.
Proof. done. Qed.
