(* ===== verification/Settings.v ===== *)
(** Loading of the manager's settings (core/config.py): the source that reads
    PalWorldSettings.ini, the default paths, the address of the host and the
    module's singleton.

    Environment variables, the file system and the network interfaces are
    arguments.  How pydantic merges its sources is not part of the program; the
    table of fields lists the names under which each is accepted. *)

From S2P Require Import Prelude PyStr PyDict IniParser Pipeline.
From Stdlib Require Import ZArith Ascii Bool.
From stdpp Require Import base tactics list sets strings.

Local Open Scope py_scope.

(** * The INI source *)

Definition alias_map (k : string) : list string :=
  match dict_get k
    [("AdminPassword", ["ADMIN_PASSWORD"; "admin_password"]);
     ("ServerPassword", ["SERVER_PASSWORD"; "server_password"]);
     ("ServerName", ["SERVER_NAME"; "server_name"]);
     ("PublicPort", ["PUBLIC_PORT"]);
     ("QueryPort", ["QUERY_PORT"; "query_port"]);
     ("RCONPort", ["RCON_PORT"]);
     ("RCONEnabled", ["RCON_ENABLED"; "RCONEnabled"; "rcon_enabled"]);
     ("bRCONEnabled", ["RCON_ENABLED"; "RCONEnabled"; "rcon_enabled"]);
     ("RESTAPIPort", ["REST_PORT"; "RESTAPIPORT"]);
     ("RESTAPIEnabled", ["REST_ENABLED"; "RESTAPIEnabled"; "rest_enabled"]);
     ("bRESTAPIEnabled", ["REST_ENABLED"; "RESTAPIEnabled"; "rest_enabled"])]%string with
  | Some l => l
  | None => []
  end.

(** The names under which one key of the file is offered. *)
Definition offered (k : string) : list string := k :: str_upper k :: alias_map k.

Definition map_key (mapped : dict) (kv : string * PyVal) : dict :=
  dict_update mapped (List.map (λ n, (n, kv.2)) (offered kv.1)).

(** [PalWorldIniSettingsSource.__call__] *)
Definition ini_source (f : IniFile) : dict :=
  if exists_ f then fold_left map_key (parse_path f) [] else [].

(** [__init__]: the file that the source reads. *)
Definition source_path (ini_path env_path : option string) (is_file parent_exists : string → bool) (default_path : string)
    : string :=
  match ini_path with
  | Some p => p
  | None =>
      match env_path with
      | Some p => if negb (String.eqb p "") && (is_file p || parent_exists p) then p else default_path
      | None => default_path
      end
  end.

(** * Fields *)

(** The default of a field: a value, or the function that computes it. *)
Inductive Default : Type :=
  | DStr (s : string) | DInt (n : Z) | DBool (b : bool) | DNone | DFactory (f : string).

(** A field: its name, the aliases and the default of its declaration; with
    [populate_by_name] the name itself is accepted as well. *)
Definition palworld (upper lower : string) : list string := ["PALWORLD_" +:+ upper; upper; lower].
Definition APP_FIELDS : list (string * list string * Default) :=
  [("AdminPassword", ["ADMIN_PASSWORD"], DStr "admin_password");
   ("ServerPassword", ["SERVER_PASSWORD"], DStr "");
   ("ServerName", ["SERVER_NAME"], DStr "Palworld Dedicated Server");
   ("ServerDescription", ["SERVER_DESCRIPTION"], DStr "");
   ("PublicPort", ["PUBLIC_PORT"], DInt 8211);
   ("QueryPort", palworld "QUERY_PORT" "query_port", DInt 27015);
   ("RCONPort", ["RCON_PORT"], DInt 25575);
   ("RCONEnabled", ["RCON_ENABLED"], DBool true);
   ("RESTAPIPort", ["REST_PORT"], DInt 8212);
   ("RESTAPIEnabled", ["REST_ENABLED"], DBool true);
   ("CrossplayPlatforms", ["CROSSPLAY_PLATFORMS"], DStr "(Steam,Xbox,PS5,Mac)");
   ("web_port", ["WEB_PORT"], DInt 8080);
   ("ini_path", ["INI_PATH"], DFactory "_resolve_default_ini_path");
   ("service_name", ["SERVICE_NAME"], DStr "palworld.service");
   ("backup_dir", ["BACKUP_DIR"], DFactory "_resolve_default_backup_dir");
   ("log_dir", ["LOG_DIR"], DFactory "_resolve_default_log_dir");
   ("database_path", palworld "DATABASE_PATH" "database_path", DFactory "_resolve_default_db_path");
   ("metrics_db_path", palworld "METRICS_DB_PATH" "metrics_db_path", DFactory "_resolve_default_metrics_db_path");
   ("metrics_retention_days", palworld "METRICS_RETENTION_DAYS" "metrics_retention_days", DInt 30);
   ("metrics_sample_interval_seconds", palworld "METRICS_SAMPLE_INTERVAL_SECONDS" "metrics_sample_interval_seconds", DInt 10);
   ("metrics_flush_interval_seconds", palworld "METRICS_FLUSH_INTERVAL_SECONDS" "metrics_flush_interval_seconds", DInt 300);
   ("duckdns_domain", ["PALWORLD_DOMAIN"; "PALWORLD_SERVER_DOMAIN"; "PALWORLD_DUCKDNS_DOMAIN"; "DUCKDNS_DOMAIN"; "SERVER_DOMAIN"; "duckdns_domain"], DStr "yourdomain.duckdns.org");
   ("duckdns_token", palworld "DUCKDNS_TOKEN" "duckdns_token", DStr "your_duckdns_token");
   ("host_ip", palworld "HOST_IP" "host_ip", DFactory "_resolve_default_host_ip");
   ("discord_webhook_url", palworld "DISCORD_WEBHOOK_URL" "discord_webhook_url", DNone);
   ("discord_log_level", palworld "DISCORD_LOG_LEVEL" "discord_log_level", DStr "ERROR");
   ("discord_critical_ping", palworld "DISCORD_CRITICAL_PING" "discord_critical_ping", DStr "@thestygianarchitect");
   ("github_repo_url", palworld "GITHUB_REPO_URL" "github_repo_url", DStr "https://github.com/theStygianArchitect/palworld_server_service");
   ("admin_credential_export_path", palworld "ADMIN_CREDENTIAL_EXPORT_PATH" "admin_credential_export_path", DNone);
   ("updater_enabled", palworld "UPDATER_ENABLED" "updater_enabled", DBool true);
   ("update_check_interval_seconds", palworld "UPDATE_CHECK_INTERVAL_SECONDS" "update_check_interval_seconds", DInt 600);
   ("update_branch", palworld "UPDATE_BRANCH" "update_branch", DStr "main");
   ("deploy_script_path", palworld "DEPLOY_SCRIPT_PATH" "deploy_script_path", DStr "/opt/palworld-web-manager/scripts/deploy.sh");
   ("ssl_enabled", palworld "SSL_ENABLED" "ssl_enabled", DBool false);
   ("ssl_cert_path", palworld "SSL_CERT_PATH" "ssl_cert_path", DNone);
   ("ssl_key_path", palworld "SSL_KEY_PATH" "ssl_key_path", DNone);
   ("ssl_cert_dir", palworld "SSL_CERT_DIR" "ssl_cert_dir", DNone);
   ("ssl_auto_renew", palworld "SSL_AUTO_RENEW" "ssl_auto_renew", DBool false);
   ("ssl_cert_mode", palworld "SSL_CERT_MODE" "ssl_cert_mode", DStr "letsencrypt");
   ("ssl_port", palworld "SSL_PORT" "ssl_port", DInt 8443);
   ("ssl_auto_detect", palworld "SSL_AUTO_DETECT" "ssl_auto_detect", DBool true);
   ("letsencrypt_email", palworld "LETSENCRYPT_EMAIL" "letsencrypt_email", DNone)].
Definition accepted (f : string * list string * Default) : list string := f.1.1 :: f.1.2.

(** [validate_github_repo_url] *)
Definition validate_github_repo_url (v : string) : result string :=
  let cleaned := str_strip v in
  if startswith cleaned "http://" || startswith cleaned "https://" then Ret (rstrip_by (Ascii.eqb "/") cleaned)
  else Raise (ValueError "github_repo_url must start with http:// or https://").

(** * Default paths *)

(** [_is_directory_writable]: the directory is made, a probe is made in it and removed
    again, until a call fails; a probe that cannot be removed stays. *)
Definition _is_directory_writable (mkdir touch unlink : result unit) : result bool :=
  let outcome :=
    match mkdir with
    | Ret _ => match touch with Ret _ => unlink | Raise e => Raise e end
    | Raise e => Raise e
    end in
  match outcome with
  | Ret _ => Ret true
  | Raise e => if is_oserror e then Ret false else Raise e
  end.

(** [Path.is_file] may raise an [OSError], [None]. *)
Section paths.
Context (nt : bool) (home : string) (is_file : string → option bool) (exists_path writable : string → bool).

Definition steam_ini : list string :=
  ["/home/steam/.steam/steam/steamapps/common/PalServer/Pal/Saved/Config/LinuxServer/PalWorldSettings.ini";
   "/home/steam/Steam/steamapps/common/PalServer/Pal/Saved/Config/LinuxServer/PalWorldSettings.ini";
   "/home/steam/.local/share/Steam/steamapps/common/PalServer/Pal/Saved/Config/LinuxServer/PalWorldSettings.ini";
   "/home/steam/PalServer/Pal/Saved/Config/LinuxServer/PalWorldSettings.ini";
   "/opt/palworld/Pal/Saved/Config/LinuxServer/PalWorldSettings.ini"]%string.
Definition home_ini : string := home +:+ "/.palmanager/PalWorldSettings.ini".
Definition candidate_paths : list string := steam_ini ++ [home_ini].

Definition resolve_palworld_ini_path : string :=
  match List.find (λ p, match is_file p with Some b => b | None => false end) candidate_paths with
  | Some p => p
  | None =>
      if nt then home_ini
      else if exists_path "/home/steam/.steam/steam/steamapps" then List.nth 0 steam_ini ""
      else if exists_path "/home/steam/Steam/steamapps" then List.nth 1 steam_ini ""
      else List.nth 3 steam_ini ""
  end.

Definition in_home (name : string) : string := home +:+ "/.palmanager/" +:+ name.
Definition _resolve_default_backup_dir : string :=
  if negb nt && exists_path "/home/steam" then "/home/steam/Palworld_backups" else in_home "Palworld_backups".
Definition _resolve_default_log_dir : string :=
  if nt then in_home "logs" else if writable "/var/log/palmanager" then "/var/log/palmanager" else in_home "logs".
Definition default_db (name : string) : string :=
  if nt then in_home name else if writable "/var/lib/palmanager" then "/var/lib/palmanager/" +:+ name else in_home name.
Definition _resolve_default_db_path : string := default_db "palmanager.db".
Definition _resolve_default_metrics_db_path : string := default_db "metrics.db".

(** [resolve_admin_credential_export_path] with an absolute custom path *)
Definition resolve_admin_credential_export_path (custom_path : option string) (etc_writable : bool) : string :=
  match custom_path with
  | Some (String _ _ as p) => p
  | _ =>
      if negb nt && etc_writable then "/etc/palmanager/initial_admin_credential.txt"
      else in_home "initial_admin_credential.txt"
  end.
End paths.

(** * The address of the host *)

Definition loopback (ip : string) : bool := startswith ip "127.".
Definition usable (ip : option string) : option string :=
  match ip with Some (String _ _ as s) => if loopback s then None else Some s | _ => None end.

(** Names and IPv4 addresses of the interfaces; [None] when they cannot be listed. *)
Definition lan_interface (name : string) : bool :=
  List.existsb (startswith name) ["eth"; "en"; "wl"; "bond"; "Ethernet"; "Wi-Fi"]%string.
Definition _probe_iface_lan_ip (interfaces : option (list (string * list string))) : option string :=
  match interfaces with
  | None => None
  | Some l =>
      match List.find (λ p : string * string, negb (loopback p.2) && lan_interface p.1)
              (concat (List.map (λ i : string * list string, List.map (λ a, (i.1, a)) i.2) l)) with
      | Some p => Some p.2
      | None => None
      end
  end.
Definition nonempty (ip : option string) : option string :=
  match ip with Some (String _ _ as s) => Some s | _ => None end.
Definition or_else (a b : option string) : option string := match nonempty a with Some s => Some s | None => b end.

(** The environment, the source address of a route to the internet, the
    interfaces, and the address of the host name; [None] where a probe fails. *)
Definition resolve_host_lan_ip (palworld_host_ip host_ip route : option string)
    (interfaces : option (list (string * list string))) (hostname : option string) : string :=
  let probed :=
    match or_else (usable route) (or_else (_probe_iface_lan_ip interfaces) (usable hostname)) with
    | Some ip => ip
    | None => "127.0.0.1"
    end in
  match or_else palworld_host_ip (nonempty host_ip) with
  | Some ip => if String.eqb ip "127.0.0.1" then probed else ip
  | None => probed
  end.
