(* ===== verification/SystemRoutes.v ===== *)
(** The system endpoints of routers/system.py that concern TLS and addresses, the
    settings singleton of core/config.py that they share with the certificate
    scheduler, and how the settings reach the manager from PalWorldSettings.ini.

    A settings object is a cell of a heap: routers/deps.py holds the object that
    it got when it was imported, the module core/config.py holds the object that
    [get_settings] returns, and [reload_settings] puts a new object in its place.
    What [AppSettings()] reads from its sources at that moment is an argument. *)

From S2P Require Import Prelude PyStr PyDict AtomicIO IniParser Pipeline Tls Settings Lifecycle.
From Stdlib Require Import ZArith Ascii Bool Lia.
From stdpp Require Import base tactics list strings gmap.

Local Open Scope Z_scope.
Local Open Scope py_scope.

(** * The singleton *)

Record Sys := mkSys {
  objects : list TlsSettings;
  held : nat;                  (** [settings] of routers/deps.py *)
  singleton : option nat;      (** [_settings_instance] *)
  disk : AtomicIO.World;
  restarts_queued : nat }.

Definition allocate (cfg : TlsSettings) : PyM Sys nat :=
  s <- py_get ;;
  py_put (mkSys (objects s ++ [cfg]) (held s) (Some (length (objects s))) (disk s) (restarts_queued s)) ;;;
  py_ret (length (objects s)).

(** [construct] is the outcome of [AppSettings()]. *)
Definition get_settings (construct : result TlsSettings) : PyM Sys nat :=
  s <- py_get ;;
  match singleton s with
  | Some i => py_ret i
  | None => cfg <- lift construct ;; allocate cfg
  end.
Definition reload_settings (construct : result TlsSettings) : PyM Sys nat := cfg <- lift construct ;; allocate cfg.

Definition no_settings : TlsSettings := mkTlsSettings "" false "" "".
Definition object (s : Sys) (i : nat) : TlsSettings := default no_settings (objects s !! i).
(** What the routers see, and what a call of [get_settings] sees. *)
Definition router_settings (s : Sys) : TlsSettings := object s (held s).
Definition current_settings (s : Sys) : option TlsSettings := object s <$> singleton s.

(** [settings.x = v] on the object that the routers hold *)
Definition assign (f : TlsSettings → TlsSettings) : PyM Sys unit :=
  py_modify (λ s, mkSys (alter f (held s) (objects s)) (held s) (singleton s) (disk s) (restarts_queued s)).
Definition set_auto_renew (b : bool) (c : TlsSettings) : TlsSettings :=
  mkTlsSettings (ssl_cert_mode c) b (duckdns_domain c) (duckdns_token c).
Definition set_cert_mode (m : string) (c : TlsSettings) : TlsSettings :=
  mkTlsSettings m (ssl_auto_renew c) (duckdns_domain c) (duckdns_token c).

(** * Addresses *)

Definition _resolve_canonical_url (domain : string) (web_port : Z) : string :=
  let d := str_lower (str_strip domain) in
  let d := if bool_decide (d ∈ [""; "localhost"; "yourdomain.duckdns.org"]%string)
           then "thestygianarchitect.duckdns.org"%string else d in
  "https://" +:+ d +:+ ":" +:+ str_of_Z web_port.
Definition redirect_canonical (domain : string) (web_port : Z) : string := _resolve_canonical_url domain web_port +:+ "/".

(** * TLS endpoints, behind the administrator's permission *)

Section tls_routes.
Context (load_cert : string → option Certificate) (self_signed : string → string → string) (tmp1 tmp2 : string).
Context (web_port : Z) (construct : result TlsSettings).
(** The clock, the key that would be generated and the outcome of the ACME flow. *)
Context (now : Z) (key_pem : string) (acme : result ACMECertificateResult).

Definition on_disk {A} (m : PyM AtomicIO.World A) : PyM Sys A :=
  λ s, let '(r, w) := m (disk s) in (r, mkSys (objects s) (held s) (singleton s) w (restarts_queued s)).
Definition queue_restart : PyM Sys unit :=
  py_modify (λ s, mkSys (objects s) (held s) (singleton s) (disk s) (S (restarts_queued s))).
Definition provision (domain token : string) (force : bool) : PyM Sys TLSProvisionResult :=
  on_disk (provision_tls_certificates load_cert self_signed tmp1 tmp2 now domain token force key_pem acme).

Record TLSSettingsUpdateResponse := mkUpdated {
  u_status : string;
  u_message : string;
  u_auto_renew : bool;
  u_cert_mode : string;
  u_canonical_url : string }.

(** [_resolve_canonical_url()] of the settings that the routers hold. *)
Definition canonical (s : Sys) : string := _resolve_canonical_url (duckdns_domain (router_settings s)) web_port.
Definition updated (status text : string) : PyM Sys TLSSettingsUpdateResponse :=
  s <- py_get ;;
  py_ret (mkUpdated status text (ssl_auto_renew (router_settings s)) (ssl_cert_mode (router_settings s)) (canonical s)).
Definition unchanged : PyM Sys TLSSettingsUpdateResponse := updated "success" "TLS settings updated successfully.".

(** The two assignments: whether anything changed, and whether the mode did. *)
Definition apply_payload (auto_renew : option bool) (cert_mode : option string) : PyM Sys (bool * bool) :=
  s <- py_get ;;
  renew_changed <-
    (match auto_renew with
     | Some b => if eqb b (ssl_auto_renew (router_settings s)) then py_ret false
                 else assign (set_auto_renew b) ;;; py_ret true
     | None => py_ret false
     end) ;;
  mode_changed <-
    (match cert_mode with
     | Some m => if String.eqb m (ssl_cert_mode (router_settings s)) then py_ret false
                 else assign (set_cert_mode m) ;;; py_ret true
     | None => py_ret false
     end) ;;
  py_ret (renew_changed || mode_changed, mode_changed).

Definition update_tls_settings (auto_renew : option bool) (cert_mode : option string)
    : PyM Sys TLSSettingsUpdateResponse :=
  c <- apply_payload auto_renew cert_mode ;;
  (if c.1 : bool then reload_settings construct ;;; py_ret tt else py_ret tt) ;;;
  match cert_mode with
  | Some m =>
      if (c.2 : bool) && negb (String.eqb m "custom") then
        s <- py_get ;;
        let token := if String.eqb m "letsencrypt" then duckdns_token (router_settings s) else "" in
        result <- provision (or_localhost (duckdns_domain (router_settings s))) token true ;;
        if success result then
          queue_restart ;;;
          updated "success" ("Certificate mode changed to '" +:+ m +:+ "'. New " +:+ mode_value (mode result) +:+
                             " certificate provisioned. Service restarting.")
        else
          updated "error" ("Failed to provision certificate for mode '" +:+ m +:+ "': " +:+ default "None" (error result))
      else unchanged
  | None => unchanged
  end.

Record TLSRenewResponse := mkRenewed {
  n_status : string;
  n_message : string;
  error_detail : option string;
  n_canonical_url : string;
  triggered_at : Z }.

Definition trigger_tls_renewal (force : bool) : PyM Sys TLSRenewResponse :=
  s <- py_get ;;
  result <- provision (duckdns_domain (router_settings s)) (duckdns_token (router_settings s)) force ;;
  if success result then
    queue_restart ;;;
    py_ret (mkRenewed "success" (message result +:+ " Web management service is restarting to activate HTTPS.") None
      (canonical s) now)
  else py_ret (mkRenewed "error" (message result) (error result) (canonical s) now).

Record TLSStatusResponse := mkTlsStatus {
  enabled : bool;
  scheme : string;
  t_domain : string;
  t_port : Z;
  certificate : option TLSCertificateStatus;
  auto_renew_active : bool;
  warning : option string;
  t_canonical_url : string;
  cert_mode : string;
  next_renewal_at : option Z;
  renewal_countdown_seconds : option Z }.

Definition get_tls_status : PyM Sys TLSStatusResponse :=
  s <- py_get ;;
  let cfg := router_settings s in
  let domain := or_localhost (duckdns_domain cfg) in
  status <- on_disk (get_tls_certificate_status load_cert now (Some domain)) ;;
  let next := if is_valid status then (λ v : Z * Z, v.2 - 30 * 86400) <$> validity status else None in
  let countdown := (λ t, Z.max 0 (t - now)) <$> next in
  let active := ssl_auto_renew cfg && negb (String.eqb (ssl_cert_mode cfg) "custom") in
  py_ret
    (if negb (is_valid status) then
       mkTlsStatus false "http" domain web_port None active
         (Some (domain_or (error_message status) "Running unencrypted plaintext HTTP. No valid certificate detected."))
         (canonical s) (ssl_cert_mode cfg) next countdown
     else
       mkTlsStatus true "https" domain web_port (Some status) active
         (if days_remaining status <=? 15 then
            Some ("Certificate expires in " +:+ str_of_Z (days_remaining status) +:+ " days. Renewal recommended.")
          else None)
         (canonical s) (ssl_cert_mode cfg) next countdown).
End tls_routes.

(** * Which settings a change reaches *)

(** The settings that the payload asks for. *)
Definition requested (auto_renew : option bool) (cert_mode : option string) (c : TlsSettings) : TlsSettings :=
  mkTlsSettings (default (ssl_cert_mode c) cert_mode) (default (ssl_auto_renew c) auto_renew)
    (duckdns_domain c) (duckdns_token c).

Section change.
Context (load_cert : string → option Certificate) (self_signed : string → string → string) (tmp1 tmp2 : string).

Lemma object_alter f (s : Sys) i j :
  (i < length (objects s))%nat →
  default no_settings (alter f i (objects s) !! j) = if decide (i = j) then f (object s j) else object s j.
Proof.
  intros Hi. unfold object. case_decide as E.
  - subst j. rewrite list_lookup_alter_eq. destruct (lookup_lt_is_Some_2 (objects s) i Hi) as [c ->]. done.
  - by rewrite list_lookup_alter_ne.
Qed.

Lemma assign_router f s :
  (held s < length (objects s))%nat →
  router_settings (assign f s).2 = f (router_settings s) ∧ held (assign f s).2 = held s ∧
  singleton (assign f s).2 = singleton s ∧ length (objects (assign f s).2) = length (objects s).
Proof.
  intros Hi. unfold router_settings. cbn [assign py_modify snd held singleton objects].
  split_and!; [|done|done|apply length_alter]. unfold object at 1. cbn [objects].
  rewrite object_alter by done. by rewrite decide_True.
Qed.

Lemma settings_eta c : mkTlsSettings (ssl_cert_mode c) (ssl_auto_renew c) (duckdns_domain c) (duckdns_token c) = c.
Proof. by destruct c. Qed.

Lemma requested_renew auto_renew m c :
  default (ssl_cert_mode c) m = ssl_cert_mode c →
  default (ssl_auto_renew c) auto_renew = ssl_auto_renew c ↔ requested auto_renew m c = c.
Proof. unfold requested. intros ->. destruct c as [m' r d t]. cbn. split; [by intros ->|by intros [=]]. Qed.

Lemma apply_payload_spec auto_renew cert_mode s :
  (held s < length (objects s))%nat →
  ∃ changed mode_changed s', apply_payload auto_renew cert_mode s = (Ret (changed, mode_changed), s') ∧
    router_settings s' = requested auto_renew cert_mode (router_settings s) ∧
    held s' = held s ∧ singleton s' = singleton s ∧ length (objects s') = length (objects s) ∧
    changed = negb (bool_decide (requested auto_renew cert_mode (router_settings s) = router_settings s)).
Proof.
  intros Hi. unfold apply_payload. change (py_bind py_get ?k s) with (k s s). cbv beta.
  set (c := router_settings s) in *.
  assert (Hr : ∃ rc s1, (match auto_renew with
     | Some b => if eqb b (ssl_auto_renew c) then py_ret false else assign (set_auto_renew b) ;;; py_ret true
     | None => py_ret false end) s = (Ret rc, s1) ∧
     router_settings s1 = requested auto_renew None c ∧ held s1 = held s ∧ singleton s1 = singleton s ∧
     length (objects s1) = length (objects s) ∧
     rc = negb (bool_decide (default (ssl_auto_renew c) auto_renew = ssl_auto_renew c))).
  { destruct auto_renew as [b|].
    - destruct (eqb b (ssl_auto_renew c)) eqn:E.
      + apply eqb_prop in E as ->. exists false, s. unfold requested. cbn [default]. rewrite settings_eta, bool_decide_true by done. done.
      + apply eqb_false_iff in E. destruct (assign_router (set_auto_renew b) s Hi) as (H1 & H2 & H3 & H4).
        exists true, (assign (set_auto_renew b) s).2. split; [done|]. rewrite H1. split_and!; try done.
        cbn [default]. by rewrite bool_decide_false.
    - exists false, s. unfold requested. cbn [default]. rewrite settings_eta, bool_decide_true by done. done. }
  destruct Hr as (rc & s1 & E1 & R1 & Hh1 & Hs1 & Hl1 & Hrc). unfold py_bind at 1. rewrite E1.
  assert (Hi1 : (held s1 < length (objects s1))%nat) by (rewrite Hh1, Hl1; done).
  assert (Hm : ssl_cert_mode c = ssl_cert_mode (requested auto_renew None c)) by done.
  destruct cert_mode as [m|].
  - destruct (String.eqb_spec m (ssl_cert_mode c)) as [->|Hne].
    + exists rc, false, s1. unfold py_bind, py_ret. rewrite orb_false_r. split_and!; try done.
      rewrite Hrc. f_equal. by apply bool_decide_ext, requested_renew.
    + destruct (assign_router (set_cert_mode m) s1 Hi1) as (H1 & H2 & H3 & H4).
      exists (rc || true), true, (assign (set_cert_mode m) s1).2. unfold py_bind, py_ret.
      rewrite H1, H2, H3, H4, R1. split_and!; try done. rewrite orb_true_r, bool_decide_false; [done|].
      unfold requested. cbn [default]. destruct c; cbn in *. congruence.
  - exists rc, false, s1. unfold py_bind, py_ret. rewrite orb_false_r. split_and!; try done.
    rewrite Hrc. f_equal. by apply bool_decide_ext, requested_renew.
Qed.

(** Everything after the assignments leaves the settings alone. *)
Definition keeps_settings {A} (m : PyM Sys A) : Prop :=
  ∀ s, objects (m s).2 = objects s ∧ held (m s).2 = held s ∧ singleton (m s).2 = singleton s.

Lemma router_ret {A} (a : A) : keeps_settings (py_ret a).
Proof using. by intros s. Qed.
Lemma router_bind {A B} (m : PyM Sys A) (k : A → PyM Sys B) :
  keeps_settings m → (∀ a, keeps_settings (k a)) → keeps_settings (py_bind m k).
Proof using.
  intros Hm Hk s. destruct (Hm s) as (H1 & H2 & H3). unfold py_bind. destruct (m s) as [[a|e] s1]; [|done].
  cbn in *. rewrite <-H1, <-H2, <-H3. apply Hk.
Qed.
Lemma router_get : keeps_settings py_get.
Proof using. by intros s. Qed.
Lemma keeps_disk {A} (m : PyM AtomicIO.World A) : keeps_settings (on_disk m).
Proof using. intros s. unfold on_disk. by destruct (m (disk s)). Qed.
Lemma keeps_queue : keeps_settings queue_restart.
Proof using. by intros s. Qed.

Lemma keeps_apart {A} (m : PyM Sys A) s :
  keeps_settings m → router_settings (m s).2 = router_settings s ∧ current_settings (m s).2 = current_settings s.
Proof using.
  intros H. destruct (H s) as (H1 & H2 & H3). unfold router_settings, current_settings, object.
  by rewrite H1, H2, H3.
Qed.

Context (web_port : Z) (now : Z) (key_pem : string) (acme : result ACMECertificateResult).

Lemma reload_spec cfg s :
  (held s < length (objects s))%nat →
  router_settings (reload_settings (Ret cfg) s).2 = router_settings s ∧
  current_settings (reload_settings (Ret cfg) s).2 = Some cfg ∧
  ∃ i, (reload_settings (Ret cfg) s).1 = Ret i.
Proof using.
  intros Hi. unfold reload_settings, allocate, router_settings, current_settings, object. cbn.
  rewrite lookup_app_l by done. rewrite lookup_app_r, Nat.sub_diag by done. split_and!; [done|done|by eexists].
Qed.

(** A change of the TLS settings is applied to the object that the routers hold
    and to nothing else: after a request that changes something the settings that
    [get_settings] returns, which is what the certificate scheduler reads, are
    those just loaded from the sources, whatever the request asked for. *)
Theorem tls_settings_change_lost auto_renew cert_mode cfg s :
  (held s < length (objects s))%nat →
  requested auto_renew cert_mode (router_settings s) ≠ router_settings s →
  let s' := (update_tls_settings load_cert self_signed tmp1 tmp2 web_port (Ret cfg) now key_pem acme auto_renew cert_mode s).2 in
  router_settings s' = requested auto_renew cert_mode (router_settings s) ∧ current_settings s' = Some cfg.
Proof using.
  intros Hi Hne. cbv zeta.
  remember (update_tls_settings _ _ _ _ _ _ _ _ _ _ _ s) as out eqn:E.
  unfold update_tls_settings in E. unfold py_bind at 1 in E.
  destruct (apply_payload_spec auto_renew cert_mode s Hi) as (ch & mc & s1 & Ea & R & Hh & _ & Hl & Hch).
  rewrite Ea, Hch, bool_decide_false in E by done. cbn [negb fst snd] in E. unfold py_bind at 1 in E.
  assert (Hi1 : (held s1 < length (objects s1))%nat) by (rewrite Hh, Hl; done).
  destruct (reload_spec cfg s1 Hi1) as (R2 & C2 & i & Ei). unfold py_bind at 1 in E.
  destruct (reload_settings (Ret cfg) s1) as [r s2]. cbn [fst snd] in *. subst r. cbn [py_ret] in E.
  rewrite <-R, <-R2, <-C2, E. apply keeps_apart.
  destruct cert_mode as [m|]; [|apply router_bind; [apply router_get|intros; apply router_ret]].
  destruct (mc && negb (String.eqb m "custom")); [|apply router_bind; [apply router_get|intros; apply router_ret]].
  apply router_bind; [apply router_get|intros s3]. apply router_bind; [apply keeps_disk|intros res].
  destruct (success res); [apply router_bind; [apply keeps_queue|intros]|];
    (apply router_bind; [apply router_get|intros; apply router_ret]).
Qed.

(** When the sources cannot be loaded the request fails after the change. *)
Lemma failed_reload_keeps_change auto_renew cert_mode e s :
  (held s < length (objects s))%nat →
  requested auto_renew cert_mode (router_settings s) ≠ router_settings s →
  let '(r, s') := update_tls_settings load_cert self_signed tmp1 tmp2 web_port (Raise e) now key_pem acme auto_renew cert_mode s in
  r = Raise e ∧ router_settings s' = requested auto_renew cert_mode (router_settings s).
Proof using.
  intros Hi Hne. unfold update_tls_settings. unfold py_bind at 1.
  destruct (apply_payload_spec auto_renew cert_mode s Hi) as (ch & mc & s1 & -> & R & _ & _ & _ & ->).
  rewrite bool_decide_false by done. done.
Qed.
End change.

(** * The status page *)

(** The page reports HTTPS exactly for a valid certificate; the countdown is to
    30 days before its end and never negative. *)
Lemma tls_status_exact load_cert web_port now s c f :
  files (disk s) !! fullchain = Some f → is_Some (files (disk s) !! privkey) → load_cert (f_data f) = Some c →
  oracle (disk s) = [] →
  ∃ r s', get_tls_status load_cert web_port now s = (Ret r, s') ∧
    enabled r = (0 <? Z.max 0 ((not_after c - now) / 86400)) && (not_before c <=? now) ∧
    (enabled r = true →
      next_renewal_at r = Some (not_after c - 30 * 86400) ∧
      renewal_countdown_seconds r = Some (Z.max 0 (not_after c - 30 * 86400 - now))).
Proof.
  intros Hf [k Hk] Hc Ho. unfold get_tls_status, on_disk. change (py_bind py_get ?k s) with (k s s). cbv beta zeta.
  unfold py_bind at 1, get_tls_certificate_status.
  destruct (disk s) as [fs os v t]. cbn in Hf, Hk, Ho. subst os.
  unfold py_bind, sys_exists, sys_stat, py_get, py_ret. cbn. rewrite Hf, Hk. cbn. rewrite Hf. cbn. rewrite Hc.
  unfold status_of. cbn [is_valid validity].
  destruct ((0 <? Z.max 0 ((not_after c - now) / 86400)) && (not_before c <=? now)) eqn:E; cbn [negb];
    do 2 eexists; (split; [done|]); cbn; split; try done.
Qed.

Definition example_sys (mode : string) (renew : bool) (w : AtomicIO.World) : Sys :=
  mkSys [mkTlsSettings mode renew "my.duckdns.org" "tok"] 0 (Some 0%nat) w 0.

(** Turning automatic renewal off: the answer and the page say so, but the
    scheduler reads the settings of the environment and still renews. *)
Lemma tls_settings_change_lost_witness :
  let s' := (update_tls_settings example_cert example_self "t1" "t2" 8080 (Ret daily) 0 "new key" issued (Some false) None
               (example_sys "letsencrypt" true Tls.fresh)).2 in
  ssl_auto_renew (router_settings s') = false ∧ current_settings s' = Some daily ∧
  attempts (scheduler_turn example_cert example_self "t1" "t2" (default no_settings (current_settings s'))
              (60 * 86400) "key2" issued (mkSched Tls.fresh 0 [])).2 = [60 * 86400].
Proof.
  destruct (tls_settings_change_lost example_cert example_self "t1" "t2" 8080 0 "new key" issued (Some false) None daily
    (example_sys "letsencrypt" true Tls.fresh)) as [H1 H2]; [cbn; lia|vm_compute; discriminate|].
  cbv zeta in *. rewrite H1, H2. split_and!; [reflexivity|reflexivity|vm_compute; reflexivity].
Defined.

(** A renewal on demand asks for a certificate of Let's Encrypt although the mode
    is self-signed. *)
Lemma renewal_ignores_mode :
  let s' := (trigger_tls_renewal example_cert example_self "t1" "t2" 8080 0 "new key" issued true
               (example_sys "self_signed" true (old_bundle []))).2 in
  f_data <$> files (disk s') !! fullchain = Some "new chain" ∧ restarts_queued s' = 1%nat.
Proof. by vm_compute. Qed.

(** The scheduler renews up to a day before the time that the page announces. *)
Lemma renewal_before_countdown :
  let now := 59 * 86400 + 3600 in
  (renewal_countdown_seconds <$> match (get_tls_status example_cert 8080 now (example_sys "letsencrypt" true Tls.fresh)).1 with
                                 | Ret r => Some r | Raise _ => None end) = Some (Some 82800) ∧
  attempts (scheduler_turn example_cert example_self "t1" "t2" daily now "key2" issued (mkSched Tls.fresh 0 [])).2 = [now].
Proof. by vm_compute. Qed.

(** A manager whose domain is not configured sends its users to another host. *)
Lemma unconfigured_redirect :
  redirect_canonical "yourdomain.duckdns.org" 8080 = "https://thestygianarchitect.duckdns.org:8080/".
Proof. by vm_compute. Qed.

(** * What the settings file decides *)

(** The value under each name is that of the last key of the file that is offered
    under it. *)
Definition offers (d : dict) : dict := concat (List.map (λ kv : string * PyVal, List.map (λ n, (n, kv.2)) (offered kv.1)) d).

Lemma map_key_offers d acc : fold_left map_key d acc = dict_update acc (offers d).
Proof.
  unfold offers, dict_update. revert acc. induction d as [|kv d IH]; intros acc; [done|].
  cbn [fold_left List.map concat]. rewrite fold_left_app, IH. done.
Qed.

Lemma ini_source_exact f n : dict_get n (ini_source f) = last_value n (offers (live_dict f)).
Proof.
  unfold ini_source, live_dict. destruct (exists_ f); [|done]. rewrite map_key_offers, dict_get_update.
  by destruct (last_value n _).
Qed.

(** Every setting of the manager can be given in the file, under its own name. *)
Lemma ini_file_sets_every_field v :
  Forall (λ fld, ∃ n, n ∈ accepted fld ∧ last_value n (offers [(fld.1.1, v)]) = Some v) APP_FIELDS.
Proof. repeat (constructor; [eexists; split; [left|vm_compute; reflexivity]|]). constructor. Qed.

(** The settings of a reboot request choose the script that the manager will
    deploy updates with. *)
Lemma reboot_settings_set_deploy_script :
  let s := (trigger_reboot Missing [("Region=a,deploy_script_path", VStr "/tmp/x.sh")]%string (plain_request 60)
              (fresh_engine [] [])).2 in
  match staged_ini s with
  | Some content => dict_get "deploy_script_path" (ini_source (Readable content)) = Some (VStr "/tmp/x.sh")
  | None => False
  end.
Proof. vm_compute. reflexivity. Qed.
