(* ===== verification/Community.v ===== *)
(** The community tracker as a whole (monitoring/tracker.py): its state put
    together from the parts that the probes keep, and the two calls that the
    endpoints of routers/telemetry.py make, each in the order of its awaits.

    What the services, the sockets, the logs and [ping] answer is an argument. *)

From S2P Require Import Prelude PyStr PyNum PyJson AtomicIO TextFile Access Metrics NetDiag LogScraper Tracker GameApi Telemetry.
From Stdlib Require Import ZArith Ascii Bool Lia.
From stdpp Require Import base tactics list strings gmap.

Local Open Scope Z_scope.
Local Open Scope py_scope.

(** [CommunityTracker]: its containers, and the network it probes. *)
Record Community := mkCommunity {
  scraper : PalLogScraper;
  pocketpair : Pocketpair;
  a2s : A2SState;
  dns : Dns;
  net : Net }.

Definition on_dns {A} (m : PyM Dns A) : PyM Community A :=
  λ s, let '(r, d) := m (dns s) in (r, mkCommunity (scraper s) (pocketpair s) (a2s s) d (net s)).
Definition on_pocketpair {A} (m : PyM Pocketpair A) : PyM Community A :=
  λ s, let '(r, p) := m (pocketpair s) in (r, mkCommunity (scraper s) p (a2s s) (dns s) (net s)).
Definition on_a2s {A} (m : PyM Probe A) : PyM Community A :=
  λ s, let '(r, p) := m (a2s s, net s) in (r, mkCommunity (scraper s) (pocketpair s) p.1 (dns s) p.2).
Definition on_scraper {A} (m : PyM PalLogScraper A) : PyM Community A :=
  λ s, let '(r, l) := m (scraper s) in (r, mkCommunity l (pocketpair s) (a2s s) (dns s) (net s)).

(** What a call meets outside. *)
Record Surroundings := mkSurroundings {
  json_repr : json → string;
  now_seconds : Z;
  now_text : string;
  updated_at : string;
  on_posix : bool;
  address_answer : http_answer;  (** of the service that tells the public address *)
  resolved_domain : option string;
  directory_answer : http_answer;  (** of the game's master list *)
  resolved_lan_ip : string;
  active_log : option (list string);
  archived_logs : list (option (list string));
  journal_lines : option (list string);
  ping_runner : string → Z → Z * Z * Z;
  proc_route : option (result string);
  interface_counters : option (Z * Z) }.

Lemma lift_state {S A} (r : result A) (s : S) : (lift r s).2 = s.
Proof. by destruct r. Qed.

Section tracker.
(** The identity, the file of the cached session, and how numbers are shown. *)
Context (identity_domain identity_name stem suffix : string) (fmt1 : Z → string) (thousandths : pyfloat → Z).
Context (w : Surroundings).

(** [get_combined_telemetry] on the arguments of [get_tracker_telemetry_kwargs]. *)
Definition combined_telemetry (s : TrackerSettings) : PyM Community CombinedTelemetryPayload :=
  on_dns (probe_network_alignment identity_domain (address_answer w) (resolved_domain w)) ;;;
  on_pocketpair (probe_pocketpair_master_list (now_seconds w) identity_name (directory_answer w)) ;;;
  on_a2s (probe_steam_a2s_info (if String.eqb (host_ip s) "" then "127.0.0.1" else host_ip s)%string (QueryPort s)
    [QueryPort s; 27015; PublicPort s]) ;;;
  log_res <- on_scraper (probe_local_logs stem suffix (now_text w) (updated_at w) (on_posix w)
    (active_log w) (archived_logs w) (journal_lines w)) ;;
  t <- py_get ;;
  py_ret (get_combined_telemetry (json_repr w) identity_domain identity_name s (resolved_lan_ip w) true 0 32
    (pocketpair t) (dns t) (a2s t) log_res).

(** [run_network_diagnostics]: only reads the addresses that the alignment found. *)
Definition run_network_diagnostics (server_fps server_frame_time_ms : Z) : PyM Community NetworkDiagnosticsResult :=
  t <- py_get ;;
  lift (run_network_diagnostics_sweep fmt1 (ping_runner w) (on_posix w) (proc_route w) (interface_counters w)
    server_fps server_frame_time_ms (nat_aligned (dns t))).

(** The diagnostics of a measurement of the engine: [float(...)] of what it gave. *)
Definition network_test (m : EngineMetrics) : PyM Community NetworkDiagnosticsResult :=
  fps <- lift (float_json (GameApi.server_fps m)) ;;
  run_network_diagnostics (thousandths fps) (thousandths (GameApi.server_frame_time_ms m)).

Lemma diagnostics_read f g t : (run_network_diagnostics f g t).2 = t.
Proof using. unfold run_network_diagnostics, py_bind, py_get. apply lift_state. Qed.
Lemma network_test_reads m t : (network_test m t).2 = t.
Proof using.
  unfold network_test, py_bind, lift. destruct (float_json _) as [f|e]; [apply diagnostics_read|done].
Qed.
End tracker.
