(* ===== verification/LogMirror.v ===== *)
(** The logging of core/logger.py: the redacting filter, the formatting of a
    record, and the Discord mirror, a bounded queue that the logging calls fill
    and a worker thread empties.

    The thread and the logging calls are events: taking an item off the queue and
    finishing it are two events, and log calls may happen between any two.  The
    answers of Discord are arguments of the finishing event, and every attempt to
    post is recorded with its answer.  A record's arguments are the
    texts that its conversions give, and time stamps are part of the record. *)

From S2P Require Import Prelude PyStr PyNum PyJson LogScraper GameApi.
From Stdlib Require Import ZArith Ascii Bool Lia.
From stdpp Require Import base tactics list strings.

Local Open Scope Z_scope.
Local Open Scope py_scope.

(** * Records *)

Record LogRecord := mkRecord {
  r_name : string;
  levelno : Z;
  levelname : string;
  filename : string;
  lineno : Z;
  msg : string;
  args : list string;
  asctime : string;
  iso_time : string;
  traceback : option string }.

(** [SensitiveDataFilter.filter] *)
Definition filter_record (r : LogRecord) : LogRecord :=
  mkRecord (r_name r) (levelno r) (levelname r) (filename r) (lineno r) (sanitize_log_text (msg r)) (args r)
    (asctime r) (iso_time r) (traceback r).

(** [msg % args]; [spec] inside a conversion. *)
Definition is_flag (c : ascii) : bool :=
  is_digit c || Ascii.eqb c "." || Ascii.eqb c "-" || Ascii.eqb c "+" || Ascii.eqb c "#" || Ascii.eqb c " ".
Definition is_conversion (c : ascii) : bool :=
  Ascii.eqb c "s" || Ascii.eqb c "d" || Ascii.eqb c "r" || Ascii.eqb c "f" || Ascii.eqb c "i".
Definition prepend (p : string) (r : result string) : result string :=
  match r with Ret s => Ret (p +:+ s) | Raise e => Raise e end.
Fixpoint interpolate (spec : bool) (l : list string) (s : string) : result string :=
  match s with
  | EmptyString =>
      if spec then Raise (ValueError "incomplete format")
      else match l with
           | [] => Ret ""
           | _ => Raise (TypeError "not all arguments converted during string formatting")
           end
  | String c s' =>
      if spec then
        if Ascii.eqb c "%" then prepend "%" (interpolate false l s')
        else if is_flag c then interpolate true l s'
        else if is_conversion c then
          match l with
          | [] => Raise (TypeError "not enough arguments for format string")
          | a :: l' => prepend a (interpolate false l' s')
          end
        else Raise (ValueError "unsupported format character")
      else if Ascii.eqb c "%" then interpolate true l s'
      else prepend (String c "") (interpolate false l s')
  end.

(** [record.getMessage()] *)
Definition getMessage (r : LogRecord) : result string :=
  match args r with [] => Ret (msg r) | l => interpolate false l (msg r) end.

(** [Formatter.format] with the suite's format. *)
Definition format (r : LogRecord) : result string :=
  match getMessage r with
  | Raise e => Raise e
  | Ret m =>
      let s := asctime r +:+ " [" +:+ levelname r +:+ "] [" +:+ r_name r +:+ ":" +:+ str_of_Z (lineno r) +:+ "]: " +:+ m in
      Ret match traceback r with
          | None => s
          | Some tb =>
              (if endswith s (String line_feed "") then s else s +:+ String line_feed "") +:+
              (if endswith tb (String line_feed "") then str_take (String.length tb - 1) tb else tb)
          end
  end.

(** * The mirror *)

Record MirrorConfig := mkMirrorConfig { mirror_url : string; threshold : Z; critical_ping : string }.

Definition CRITICAL : Z := 50.
Definition ERROR : Z := 40.
Definition WARNING : Z := 30.
Definition INFO : Z := 20.

Definition COLOR_CRITICAL : Z := 10027008.
Definition COLOR_ERROR : Z := 15680580.
Definition COLOR_WARNING : Z := 16096779.
Definition COLOR_INFO : Z := 3900150.

(** [s[-n:]], in code points. *)
Definition utf8_last (n : Z) (s : string) : string :=
  str_drop (String.length (utf8_take (Z.to_nat (utf8_len s - n)) s)) s.

(** The styling of a record: colour, title and whom it mentions. *)
Definition urgency (cfg : MirrorConfig) (r : LogRecord) : Z * string * string :=
  let level_name := str_upper (levelname r) in
  if CRITICAL <=? levelno r then (COLOR_CRITICAL, "🚨🚨 [CRITICAL ALERT] " +:+ r_name r, critical_ping cfg)
  else if ERROR <=? levelno r then (COLOR_ERROR, "🚨 [ERROR] " +:+ r_name r, "")
  else if WARNING <=? levelno r then (COLOR_WARNING, "⚠️ [WARNING] " +:+ r_name r, "")
  else (COLOR_INFO, "[" +:+ level_name +:+ "] " +:+ r_name r, "").

Definition fence : string := "```".
Definition traceback_field (tb : string) : json :=
  field_json ("Traceback", fence +:+ "python" +:+ String line_feed (utf8_last 800 tb +:+ String line_feed fence), false).

Definition mirror_payload (cfg : MirrorConfig) (r : LogRecord) (text : string) : json :=
  let '(color, title, content) := urgency cfg r in
  let level_name := str_upper (levelname r) in
  JObj [("content", if String.eqb content "" then JNull else JStr content);
        ("embeds", JArr [JObj
          [("title", JStr title);
           ("description", JStr (if utf8_len text <? 1000 then fence +:+ text +:+ fence
                                 else fence +:+ utf8_take 990 text +:+ "..." +:+ fence));
           ("color", JInt color);
           ("fields", JArr ([field_json ("Location", "`" +:+ filename r +:+ ":" +:+ str_of_Z (lineno r) +:+ "`", true);
                             field_json ("Severity", "`" +:+ level_name +:+ "`", true)] ++
                            match traceback r with Some tb => [traceback_field tb] | None => [] end));
           ("footer", JObj [("text", JStr "Palworld Operations Suite Logging Mirror")]);
           ("timestamp", JStr (iso_time r))]])].

(** * The queue and its worker *)

Definition QUEUE_SIZE : nat := 200.

Inductive Worker : Type := Waiting | Busy (payload : json) | Ended.

(** What Discord answers to a post: a status with a body, or an exception. *)
Definition answer : Type := result (Z * string).

(** The queue with its count of unfinished items; what was put, what was finished
    and what was posted so far, with the answer. *)
Record Mirror := mkMirror {
  queue : list (option json);
  unfinished : Z;
  worker : Worker;
  accepted : list (option json);
  finished : list (option json);
  posts : list (json * answer) }.

Definition started_mirror : Mirror := mkMirror [] 0 Waiting [] [] [].

(** [put_nowait]; a full queue changes nothing. *)
Definition put_nowait (item : option json) (m : Mirror) : Mirror :=
  if (QUEUE_SIZE <=? length (queue m))%nat then m
  else mkMirror (queue m ++ [item]) (unfinished m + 1) (worker m) (accepted m ++ [item]) (finished m) (posts m).

Definition mirrors (cfg : MirrorConfig) : bool :=
  startswith (mirror_url cfg) "https://discord.com/api/webhooks/".

(** [emit], after the handler's filter; what it raises is caught and reported on
    the standard error stream. *)
Definition emit (cfg : MirrorConfig) (r : LogRecord) (m : Mirror) : Mirror :=
  if negb (mirrors cfg) then m
  else match format r with
       | Raise _ => m
       | Ret text => put_nowait (Some (mirror_payload cfg r text)) m
       end.

(** A record of a logger that reaches the handler: below its level nothing happens. *)
Definition handle (cfg : MirrorConfig) (r : LogRecord) (m : Mirror) : Mirror :=
  if levelno r <? threshold cfg then m else emit cfg (filter_record r) m.

(** [close] *)
Definition close (m : Mirror) : Mirror := put_nowait None m.

(** [flush] returns when every item that was put is finished. *)
Definition flush_returns (m : Mirror) : bool := unfinished m =? 0.

(** [time.sleep]: no negative times, and none beyond the range of the clock. *)
Definition sleep (t : pyfloat) : result unit :=
  match t with
  | FNaN => Raise (ValueError "Invalid value NaN (not a number)")
  | FInf false => Raise OverflowError
  | FInf true => Raise (ValueError "sleep length must be non-negative")
  | FDec m e =>
      if m <? 0 then Raise (ValueError "sleep length must be non-negative")
      else if (2 ^ 63 - 1) * 10 ^ Z.max 0 (- e) <? m * 10 ^ Z.max 0 e * 10 ^ 9 then Raise OverflowError
      else Ret tt
  end.

(** One round of the worker: the answers to its posts, and how it ended.  A second
    answer is not looked at. *)
Definition post_payload (first second : answer) : list answer * result unit :=
  match first with
  | Raise e => ([first], Raise e)
  | Ret (status, body) =>
      if status =? 429 then
        match parse_discord_retry_after body with
        | Raise e => ([first], Raise e)
        | Ret retry_after =>
            match sleep retry_after with
            | Raise e => ([first], Raise e)
            | Ret _ => ([first; second], match second with Ret _ => Ret tt | Raise e => Raise e end)
            end
        end
      else ([first], Ret tt)
  end.

(** The handlers of [_worker]. *)
Definition worker_catches (e : exc) : bool :=
  match e with HTTPError _ | RuntimeError _ => true | _ => is_oserror e end.

(** [self._queue.get()], and the end of the thread at [None]. *)
Definition worker_get (m : Mirror) : option Mirror :=
  match worker m, queue m with
  | Waiting, Some p :: q => Some (mkMirror q (unfinished m) (Busy p) (accepted m) (finished m) (posts m))
  | Waiting, None :: q => Some (mkMirror q (unfinished m - 1) Ended (accepted m) (finished m ++ [None]) (posts m))
  | _, _ => None
  end.

(** Posting the item, and [task_done], which is called whatever became of the post. *)
Definition worker_finish (first second : answer) (m : Mirror) : option Mirror :=
  match worker m with
  | Busy p =>
      let '(answers, r) := post_payload first second in
      let w := match r with Ret _ => Waiting | Raise e => if worker_catches e then Waiting else Ended end in
      Some (mkMirror (queue m) (unfinished m - 1) w (accepted m) (finished m ++ [Some p])
              (posts m ++ List.map (pair p) answers))
  | _ => None
  end.

(** What happens to the mirror, and what it does then; [None] when the worker is not
    there yet, or no more. *)
Inductive Event : Type :=
  | Log (r : LogRecord)
  | Get
  | Finish (first second : answer)
  | Close.

Definition mirror_step (cfg : MirrorConfig) (ev : Event) (m : Mirror) : option Mirror :=
  match ev with
  | Log r => Some (handle cfg r m)
  | Get => worker_get m
  | Finish first second => worker_finish first second m
  | Close => Some (close m)
  end.

Fixpoint mirror_run (cfg : MirrorConfig) (evs : list Event) (m : Mirror) : option Mirror :=
  match evs with
  | [] => Some m
  | ev :: evs => match mirror_step cfg ev m with Some m' => mirror_run cfg evs m' | None => None end
  end.

(** * Set-up *)

(** [getattr(logging, name.upper(), logging.ERROR)], for the names of levels. *)
Definition LEVELS : list (string * Z) :=
  [("CRITICAL", 50); ("FATAL", 50); ("ERROR", 40); ("WARN", 30); ("WARNING", 30); ("INFO", 20); ("DEBUG", 10);
   ("NOTSET", 0)].
Definition level_of (name : string) : Z :=
  match List.find (λ kv, String.eqb kv.1 (str_upper name)) LEVELS with Some kv => kv.2 | None => ERROR end.

Record LogRotationConfig := mkRotation { max_bytes : Z; backup_count : Z }.
Definition default_rotation : LogRotationConfig := mkRotation (10 * 1024 * 1024) 5.

Record DiscordLogConfig := mkDiscord {
  webhook_url : option string;
  log_level : string + Z;
  d_critical_ping : string }.
Definition default_discord : DiscordLogConfig := mkDiscord None (inr ERROR) "@thestygianarchitect".

Inductive Handler : Type :=
  | StreamHandler (level : Z)
  | FileHandler (level : Z) (path : string) (rotation : LogRotationConfig)
  | DiscordHandler (cfg : MirrorConfig).

Definition or_else (a : option string) (b : option string) : option string :=
  match a with Some s => if String.eqb s "" then b else a | None => b end.

(** [_setup_discord_handler] *)
Definition setup_discord_handler (getenv : string → option string) (c : DiscordLogConfig) : list Handler :=
  match or_else (or_else (webhook_url c) (getenv "PALWORLD_DISCORD_WEBHOOK_URL")) None with
  | None => []
  | Some webhook =>
      let resolved_level := match log_level c with inl name => level_of name | inr n => n end in
      let ping :=
        if String.eqb (d_critical_ping c) ""
        then default "@thestygianarchitect" (getenv "PALWORLD_DISCORD_CRITICAL_PING")
        else d_critical_ping c in
      [DiscordHandler (mkMirrorConfig webhook resolved_level ping)]
  end.

(** [_setup_file_handler]; [writable] tells whether the directory and the file can
    be made. *)
Definition setup_file_handler (posix : bool) (home : string) (writable : string → bool) (name : string)
    (log_dir : option string) (level : Z) (rotation : LogRotationConfig) : list Handler :=
  let target_dir := match log_dir with
                    | Some d => d
                    | None => if posix then "/var/log/palmanager" else home +:+ "/.palmanager/logs"
                    end in
  let log_file := target_dir +:+ "/" +:+ name +:+ ".log" in
  if writable log_file then [FileHandler level log_file rotation] else [].

(** [setup_logger] without the keyword arguments, on a logger with the handlers
    [present]. *)
Definition setup_logger (posix : bool) (home : string) (writable : string → bool) (getenv : string → option string)
    (name : string) (log_dir : option string) (level : Z) (rotation : option LogRotationConfig)
    (discord : option DiscordLogConfig) (present : list Handler) : list Handler :=
  match present with
  | _ :: _ => present
  | [] =>
      [StreamHandler level] ++
      setup_file_handler posix home writable name log_dir level (default default_rotation rotation) ++
      setup_discord_handler getenv (default default_discord discord)
  end.

(** * What the mirror delivers *)

Definition in_hand (m : Mirror) : list (option json) :=
  match worker m with Busy p => [Some p] | _ => [] end.

(** What the log calls and the closings offer to the queue, and the answers that the
    worker got, round by round. *)
Definition offer (cfg : MirrorConfig) (ev : Event) : list (option json) :=
  match ev with
  | Log r =>
      if negb (levelno r <? threshold cfg) && mirrors cfg then
        match format (filter_record r) with Ret text => [Some (mirror_payload cfg (filter_record r) text)] | Raise _ => [] end
      else []
  | Close => [None]
  | _ => []
  end.
Definition offers (cfg : MirrorConfig) (evs : list Event) : list (option json) := concat (List.map (offer cfg) evs).

Definition answered (ev : Event) : list (answer * answer) :=
  match ev with Finish first second => [(first, second)] | _ => [] end.
Definition answers_of (evs : list Event) : list (answer * answer) := concat (List.map answered evs).

(** A payload is posted once; after a rate limit whose time can be waited, twice. *)
Definition attempts (p : json) (a : answer * answer) : list (json * answer) :=
  List.map (pair p) (post_payload a.1 a.2).1.

Record mirror_inv (m : Mirror) : Prop := {
  inv_order : accepted m = finished m ++ in_hand m ++ queue m;
  inv_bounded : (length (queue m) ≤ QUEUE_SIZE)%nat;
  inv_count : unfinished m = Z.of_nat (length (in_hand m ++ queue m)) }.

(** What is offered is accepted in its order; everything of it, as long as it fits. *)
Record accepts (offered : list (option json)) (m : Mirror) : Prop := {
  acc_sublist : accepted m `sublist_of` offered;
  acc_all : (length offered ≤ QUEUE_SIZE)%nat → accepted m = offered }.

(** What is finished was posted in its order, each payload with the answers of its
    round. *)
Record posted (answers : list (answer * answer)) (m : Mirror) : Prop := {
  post_rounds : length (omap id (finished m)) = length answers;
  post_order : posts m = concat (zip_with attempts (omap id (finished m)) answers) }.

Record mirror_history (cfg : MirrorConfig) (evs : list Event) (m : Mirror) : Prop := {
  hist_inv : mirror_inv m;
  hist_accepts : accepts (offers cfg evs) m;
  hist_posted : posted (answers_of evs) m }.

Lemma omap_snoc (l : list (option json)) x :
  omap id (l ++ [x]) = omap id l ++ match x with Some p => [p] | None => [] end.
Proof. rewrite omap_app. by destruct x. Qed.

Lemma put_nowait_inv item m : mirror_inv m → mirror_inv (put_nowait item m).
Proof.
  intros [Ho Hb Hc]. unfold put_nowait. destruct (QUEUE_SIZE <=? length (queue m))%nat eqn:E; [done|].
  apply Nat.leb_gt in E. split; unfold in_hand in *; cbn -[QUEUE_SIZE] in *.
  - rewrite Ho. by rewrite !(assoc_L (++)).
  - rewrite length_app. cbn -[QUEUE_SIZE]. lia.
  - rewrite Hc, !length_app. cbn. lia.
Qed.

Lemma worker_get_inv m m' : worker_get m = Some m' → mirror_inv m → mirror_inv m'.
Proof.
  intros H [Ho Hb Hc]. unfold worker_get in H. unfold in_hand in *.
  destruct (worker m) eqn:Ew; try done. destruct (queue m) as [|[p|] q] eqn:Eq; [done|..];
    injection H as <-; split; unfold in_hand; cbn -[QUEUE_SIZE] in *; rewrite ?app_nil_r; try done; try lia.
  rewrite Ho. by rewrite <-(assoc_L (++)).
Qed.

Lemma worker_finish_inv first second m m' :
  worker_finish first second m = Some m' → mirror_inv m → mirror_inv m'.
Proof.
  intros H [Ho Hb Hc]. unfold worker_finish in H. unfold in_hand in *.
  destruct (worker m) as [|p|] eqn:Ew; try done. destruct (post_payload first second) as [n r]. injection H as <-.
  assert (Hw : (match (match r with Ret _ => Waiting | Raise e => if worker_catches e then Waiting else Ended end) with
                Busy p => [Some p] | _ => [] end) = []) by by repeat case_match.
  split; unfold in_hand; cbn -[QUEUE_SIZE] in *; rewrite ?Hw; cbn -[QUEUE_SIZE].
  - rewrite Ho. by rewrite <-(assoc_L (++)).
  - done.
  - lia.
Qed.

(** A log call offers at most one item, and the queue takes it when there is room. *)
Lemma handle_offer cfg r m :
  handle cfg r m = match offer cfg (Log r) with item :: _ => put_nowait item m | [] => m end ∧
  (length (offer cfg (Log r)) ≤ 1)%nat.
Proof.
  unfold handle, emit, offer. destruct (levelno r <? threshold cfg); [by cbn; auto|].
  destruct (mirrors cfg); [|by cbn; auto]. cbn [negb andb]. destruct (format (filter_record r)); cbn; auto.
Qed.

Lemma mirror_step_inv cfg ev m m' : mirror_step cfg ev m = Some m' → mirror_inv m → mirror_inv m'.
Proof.
  intros H Hi. destruct ev as [r| |f s|]; cbn [mirror_step] in H.
  - injection H as <-. destruct (handle_offer cfg r m) as [-> _]. case_match; [done|by apply put_nowait_inv].
  - by eapply worker_get_inv.
  - by eapply worker_finish_inv.
  - injection H as <-. by apply put_nowait_inv.
Qed.

Lemma mirror_run_app cfg l1 l2 m :
  mirror_run cfg (l1 ++ l2) m = match mirror_run cfg l1 m with Some m' => mirror_run cfg l2 m' | None => None end.
Proof. revert m. induction l1 as [|ev l1 IH]; intros m; [done|]. cbn. by destruct (mirror_step cfg ev m). Qed.

(** What every event keeps, every run keeps. *)
Lemma mirror_run_ind cfg (P : list Event → Mirror → Prop) evs m :
  P [] started_mirror →
  (∀ l ev a b, P l a → mirror_step cfg ev a = Some b → P (l ++ [ev]) b) →
  mirror_run cfg evs started_mirror = Some m → P evs m.
Proof.
  intros H0 Hstep. revert m. induction evs as [|ev l IH] using List.rev_ind; intros m; [by intros [= <-]|].
  rewrite mirror_run_app. destruct (mirror_run cfg l started_mirror) as [a|]; [|done]. cbn.
  destruct (mirror_step cfg ev a) as [b|] eqn:E; [|done]. intros [= <-]. by apply (Hstep _ _ a), E; apply IH.
Qed.

Lemma offers_snoc cfg l ev : offers cfg (l ++ [ev]) = offers cfg l ++ offer cfg ev.
Proof. unfold offers. rewrite List.map_app, concat_app. cbn. by rewrite app_nil_r. Qed.
Lemma answers_snoc l ev : answers_of (l ++ [ev]) = answers_of l ++ answered ev.
Proof. unfold answers_of. rewrite List.map_app, concat_app. cbn. by rewrite app_nil_r. Qed.

Lemma put_nowait_accepts item offered m :
  mirror_inv m → accepts offered m → accepts (offered ++ [item]) (put_nowait item m).
Proof.
  intros [Ho Hb Hc] [Hs Ha]. unfold put_nowait. destruct (QUEUE_SIZE <=? length (queue m))%nat eqn:E.
  - apply Nat.leb_le in E. split; [by apply sublist_inserts_r|]. intros Hl. exfalso.
    rewrite length_app in Hl. cbn -[QUEUE_SIZE] in Hl. specialize (Ha ltac:(lia)).
    apply (f_equal length) in Ha. rewrite Ho, !length_app in Ha. lia.
  - split; cbn -[QUEUE_SIZE]; [by apply sublist_app|]. rewrite length_app. cbn -[QUEUE_SIZE]. intros Hl. rewrite Ha by lia. done.
Qed.

Lemma mirror_step_accepts cfg ev offered m m' :
  mirror_step cfg ev m = Some m' → mirror_inv m → accepts offered m → accepts (offered ++ offer cfg ev) m'.
Proof.
  intros H Hi Ha. destruct ev as [r| |f s|]; cbn [mirror_step] in H.
  - injection H as <-. destruct (handle_offer cfg r m) as [-> Hl].
    destruct (offer cfg (Log r)) as [|item [|? ?]]; [by rewrite app_nil_r|by apply put_nowait_accepts|cbn in Hl; lia].
  - cbn [offer]. rewrite app_nil_r. unfold worker_get in H. destruct Ha. by repeat case_match; simplify_eq.
  - cbn [offer]. rewrite app_nil_r. unfold worker_finish in H. destruct Ha. by repeat case_match; simplify_eq.
  - injection H as <-. by apply put_nowait_accepts.
Qed.

Lemma put_nowait_kept item m : finished (put_nowait item m) = finished m ∧ posts (put_nowait item m) = posts m.
Proof. unfold put_nowait. by destruct (_ <=? _)%nat. Qed.

Lemma mirror_step_posted cfg ev answers m m' :
  mirror_step cfg ev m = Some m' → posted answers m → posted (answers ++ answered ev) m'.
Proof.
  intros H [Hl Hp]. destruct ev as [r| |f s|]; cbn [mirror_step answered] in *; rewrite ?app_nil_r.
  - injection H as <-. destruct (handle_offer cfg r m) as [-> _]. case_match; [done|].
    destruct (put_nowait_kept o m) as [Ef Ep]. split; by rewrite ?Ef, ?Ep.
  - unfold worker_get in H. repeat case_match; simplify_eq; split; cbn; rewrite ?omap_snoc, ?app_nil_r; done.
  - unfold worker_finish in H. destruct (worker m) as [|p|]; try done.
    destruct (post_payload f s) as [l r] eqn:E. injection H as <-. split; cbn [finished posts]; rewrite omap_snoc.
    + rewrite !length_app. cbn. lia.
    + rewrite zip_with_app by done. rewrite concat_app, <-Hp. cbn [zip_with concat]. unfold attempts. cbn [fst snd].
      by rewrite E, app_nil_r.
  - injection H as <-. unfold close. destruct (put_nowait_kept None m) as [Ef Ep]. split; by rewrite ?Ef, ?Ep.
Qed.

Lemma run_history cfg evs m : mirror_run cfg evs started_mirror = Some m → mirror_history cfg evs m.
Proof.
  apply (mirror_run_ind cfg (mirror_history cfg)).
  - split; [split; [done|cbn; lia|done]|by split|by split].
  - intros l ev a b [Hi Ha Hp] E. split.
    + by eapply mirror_step_inv.
    + rewrite offers_snoc. by eapply mirror_step_accepts.
    + rewrite answers_snoc. by eapply mirror_step_posted.
Qed.

(** C22: In every sequence of log calls, steps of the worker, answers of Discord and
    closings: the payloads of the records that reach the handler's level and can be
    formatted are accepted on the queue in their order, all of them as long as no
    more than 200 were offered; of the accepted ones a part at the front is finished,
    in that order and each once, at most one is in hand, and the rest wait, at most
    200; a finished one was posted once, or a second time after a rate limit whose
    time can be waited, whether or not the posts succeeded; and the count that
    [flush] waits for is exact. *)
Theorem mirror_in_order cfg evs m : mirror_run cfg evs started_mirror = Some m → mirror_history cfg evs m.
Proof. apply run_history. Qed.

(** * When [flush] returns *)

(** The worker alone, one answer after the other. *)
Fixpoint drain (answers : list (answer * answer)) (m : Mirror) : Mirror :=
  match answers with
  | [] => m
  | (first, second) :: rest =>
      match worker_get m with
      | None => m
      | Some m1 => match worker_finish first second m1 with None => m1 | Some m2 => drain rest m2 end
      end
  end.

Definition survives (a : answer * answer) : Prop :=
  match (post_payload a.1 a.2).2 with Ret _ => True | Raise e => worker_catches e = true end.

(** With answers that the worker survives, as many of them as items wait are enough
    for [flush] to return. *)
Lemma flush_terminates answers m ps :
  mirror_inv m → worker m = Waiting → queue m = List.map Some ps → length answers = length ps →
  Forall survives answers →
  flush_returns (drain answers m) = true ∧ finished (drain answers m) = finished m ++ List.map Some ps.
Proof.
  revert m ps. induction answers as [|[f s] answers IH]; intros m [|p ps] Hi Hw Hq Hl Ha; try done.
  { cbn [drain]. rewrite app_nil_r. split; [|done]. destruct Hi as [_ _ Hc].
    unfold flush_returns, in_hand in *. rewrite Hw, Hq in Hc. by rewrite Hc. }
  inversion Ha as [|? ? Hs Ha']; subst. cbn [drain].
  set (m1 := mkMirror (List.map Some ps) (unfinished m) (Busy p) (accepted m) (finished m) (posts m)).
  assert (Hg : worker_get m = Some m1) by (unfold worker_get; by rewrite Hw, Hq).
  rewrite Hg. pose proof (worker_get_inv m m1 Hg Hi) as Hi1.
  destruct (worker_finish f s m1) as [m2|] eqn:Hf; [|unfold worker_finish in Hf; cbn in Hf; by case_match].
  pose proof (worker_finish_inv f s m1 m2 Hf Hi1) as Hi2. unfold worker_finish in Hf. cbn [worker m1] in Hf.
  unfold survives in Hs. cbn [fst snd] in Hs. destruct (post_payload f s) as [n r]. cbn [snd] in Hs. injection Hf as <-.
  edestruct (IH _ ps Hi2) as [H1 H2]; [|done|by injection Hl|done|].
  { cbn. destruct r as [u|e]; [done|]. by rewrite Hs. }
  split; [done|]. rewrite H2. cbn. by rewrite <-(assoc_L (++)).
Qed.

Definition stuck (m : Mirror) : Prop := worker m = Ended ∧ queue m ≠ [] ∧ mirror_inv m.

Lemma stuck_step cfg ev a b : mirror_step cfg ev a = Some b → stuck a → stuck b ∧ posts b = posts a.
Proof.
  intros Hab (Hw & Hq & Hi). pose proof (mirror_step_inv cfg ev a b Hab Hi) as Hi'.
  assert (Hput : ∀ item, worker (put_nowait item a) = Ended ∧ queue (put_nowait item a) ≠ [] ∧
    posts (put_nowait item a) = posts a).
  { intros item. unfold put_nowait. destruct (QUEUE_SIZE <=? length (queue a))%nat; [done|]. split_and!; try done.
    cbn. by destruct (queue a). }
  unfold stuck. destruct ev as [r| |f s|]; cbn [mirror_step] in Hab.
  - injection Hab as <-. revert Hi'. destruct (handle_offer cfg r a) as [-> _]. case_match; naive_solver.
  - unfold worker_get in Hab. by rewrite Hw in Hab.
  - unfold worker_finish in Hab. by rewrite Hw in Hab.
  - injection Hab as <-. unfold close in *. naive_solver.
Qed.
Lemma stuck_run cfg evs a b : mirror_run cfg evs a = Some b → stuck a → stuck b ∧ posts b = posts a.
Proof.
  revert a. induction evs as [|ev evs IH]; intros a; cbn [mirror_run]; [by intros [= <-]|].
  destruct (mirror_step cfg ev a) as [c|] eqn:E; [|done]. intros H Ha.
  destruct (stuck_step cfg ev a c E Ha) as [Hc Ep]. destruct (IH c H Hc) as [Hb Ep']. split; [done|congruence].
Qed.

(** An answer that raises something the worker does not handle ends its thread;
    when an item waits at that moment, [flush] never returns again, whatever is
    logged later, and nothing is posted any more. *)
Theorem dead_worker_blocks_flush cfg evs m p first second e m1 evs' m2 :
  mirror_run cfg evs started_mirror = Some m → worker m = Busy p → queue m ≠ [] →
  (post_payload first second).2 = Raise e → worker_catches e = false →
  worker_finish first second m = Some m1 → mirror_run cfg evs' m1 = Some m2 →
  flush_returns m2 = false ∧ posts m2 = posts m1.
Proof.
  intros Hm Hw Hq Hd He Hf Hrun.
  pose proof (run_history cfg evs m Hm) as [Hi _ _].
  pose proof (worker_finish_inv first second m m1 Hf Hi) as Hi1.
  assert (Hs : stuck m1).
  { unfold worker_finish in Hf. rewrite Hw in Hf. destruct (post_payload first second) as [n r]. cbn [snd] in Hd. subst r.
    injection Hf as <-. split_and!; [|done|done]. cbn. by rewrite He. }
  destruct (stuck_run cfg evs' m1 m2 Hrun Hs) as [(Hw2 & Hq2 & [_ _ Hc]) Hp]. split; [|done].
  unfold flush_returns, in_hand in *. rewrite Hw2 in Hc. destruct (queue m2); [done|]. cbn in Hc. apply Z.eqb_neq. lia.
Qed.

(** * Observations *)

Definition example_mirror : MirrorConfig :=
  mkMirrorConfig "https://discord.com/api/webhooks/1/abc" ERROR "@thestygianarchitect".
Definition example_record (level : Z) (name text : string) (l : list string) : LogRecord :=
  mkRecord "palworld_web_manager" level name "service.py" 42 text l "2026-03-01 07:05:00" "2026-03-01T07:05:00+00:00" None.
Definition example_error : LogRecord := example_record ERROR "ERROR" "REST call failed: %s" ["timeout"].

Definition json_of (key value : string) : string :=
  String "{" (String dquote (key +:+ String dquote (": " +:+ value +:+ "}"))).

(** Three errors and a warning are logged; the worker takes the first error, is asked
    to wait, and does not get through the second time; then it takes the second. *)
Definition busy_events : list Event :=
  [Log example_error; Log (example_record WARNING "WARNING" "slow: %s" ["probe"]); Log example_error; Log example_error; Get].
Definition example_answers : answer * answer := (Ret (429, json_of "retry_after" "0.5"), Raise (HTTPError "ConnectTimeout")).
Definition more_events : list Event := busy_events ++ [Finish example_answers.1 example_answers.2; Get; Close].
Definition busy_mirror : Mirror := default started_mirror (mirror_run example_mirror busy_events started_mirror).
Definition later_mirror : Mirror := default started_mirror (mirror_run example_mirror more_events started_mirror).
Definition after (body : string) : Mirror :=
  default busy_mirror (worker_finish (Ret (429, body)) (Ret (200, "")) busy_mirror).

Definition example_payload : json :=
  mirror_payload example_mirror (filter_record example_error)
    "2026-03-01 07:05:00 [ERROR] [palworld_web_manager:42]: REST call failed: timeout".

Lemma mirror_in_order_witness :
  mirror_run example_mirror more_events started_mirror = Some later_mirror ∧
  mirror_history example_mirror more_events later_mirror ∧
  offers example_mirror more_events = [Some example_payload; Some example_payload; Some example_payload; None] ∧
  finished later_mirror = [Some example_payload] ∧
  posts later_mirror = [(example_payload, example_answers.1); (example_payload, example_answers.2)].
Proof.
  split_and!; [by vm_compute|apply mirror_in_order; by vm_compute|by vm_compute..].
Defined.

(** A rate limit that asks for a negative time. *)
Lemma dead_worker_blocks_flush_witness :
  (post_payload (Ret (429, json_of "retry_after" "-1")) (Ret (200, ""))).2 =
    Raise (ValueError "sleep length must be non-negative") ∧
  flush_returns (handle example_mirror example_error (after (json_of "retry_after" "-1"))) = false ∧
  posts (handle example_mirror example_error (after (json_of "retry_after" "-1"))) =
    posts (after (json_of "retry_after" "-1")).
Proof.
  split; [vm_compute; reflexivity|].
  apply (dead_worker_blocks_flush example_mirror busy_events busy_mirror example_payload
    (Ret (429, json_of "retry_after" "-1")) (Ret (200, ""))
    (ValueError "sleep length must be non-negative") _ [Log example_error]).
  - vm_compute. reflexivity.
  - vm_compute. reflexivity.
  - vm_compute. discriminate.
  - vm_compute. reflexivity.
  - reflexivity.
  - vm_compute. reflexivity.
  - vm_compute. reflexivity.
Defined.

(** So do the answers whose body is no object or whose time is null. *)
Lemma fatal_answers :
  List.map (λ body, worker (after body)) ["[]"; json_of "retry_after" "null"; json_of "retry_after" "-1"] =
  [Ended; Ended; Ended] ∧ worker (after (json_of "retry_after" "0.5")) = Waiting.
Proof. split; vm_compute; reflexivity. Qed.

(** Redaction works on the template: an argument with a secret goes out as it is,
    and a template whose conversion stands where a secret would be loses it, so that
    the record cannot be formatted and is not mirrored. *)
Lemma argument_leaks :
  format (filter_record (example_record ERROR "ERROR" "command: %s" ["curl -d password=hunter2"])) =
  Ret "2026-03-01 07:05:00 [ERROR] [palworld_web_manager:42]: command: curl -d password=hunter2".
Proof. vm_compute. reflexivity. Qed.
Lemma redacted_template_lost m :
  handle example_mirror (example_record ERROR "ERROR" "new token: %s" ["abc"]) m = m.
Proof. unfold handle. by vm_compute. Qed.

(** The variable for the mention has no effect with the default configuration. *)
Lemma ping_variable_ignored getenv url :
  or_else (or_else None (getenv "PALWORLD_DISCORD_WEBHOOK_URL")) None = Some url →
  setup_discord_handler getenv default_discord = [DiscordHandler (mkMirrorConfig url ERROR "@thestygianarchitect")].
Proof. intros H. unfold setup_discord_handler. cbn [webhook_url default_discord]. by rewrite H. Qed.
