(* ===== verification/Runtime.v ===== *)
(** The life of the process: server.py (the web server and its first
    certificate), the start and the end of the application in main.py, the
    connections of the two databases, and the commands of engine/tls_manager.py.

    The directory of the certificate bundle is the one of [Tls]; the other files,
    the check of a pair and the self-signed certificate are arguments.  Background
    tasks enter with the way they have ended when the application stops. *)

From S2P Require Import Prelude PyStr AtomicIO Metrics Tls.
From Stdlib Require Import ZArith Ascii Bool Lia.
From stdpp Require Import base tactics list strings gmap.

Local Open Scope Z_scope.
Local Open Scope py_scope.

(** * The web server *)

Definition DEFAULT_CERT_DIR : string := "/var/lib/palmanager/certs".

Section server.
(** The files outside the bundle's directory, and whether OpenSSL loads a
    certificate with a key. *)
Context (elsewhere : string → option string) (pair_fits : string → string → bool) (home : string).
Context (self_signed : string → string → string) (tmp1 tmp2 : string).

Definition read_path (fs : Dir) (path : string) : option string :=
  match str_strip_prefix (DEFAULT_CERT_DIR +:+ "/") path with
  | Some name => f_data <$> fs !! name
  | None => elsewhere path
  end.
Definition is_file (fs : Dir) (path : string) : bool := match read_path fs path with Some _ => true | None => false end.
Definition loads (fs : Dir) (cert key : string) : bool :=
  match read_path fs cert, read_path fs key with Some c, Some k => pair_fits c k | _, _ => false end.

Definition active_pair (cfg : SslSettings) (w : World) : option (string * string) :=
  resolve_ssl_paths home (is_file (files w)) (loads (files w)) cfg.

(** [run_server] up to the start of uvicorn: the pair it serves, or plain HTTP; with
    the key that would be generated. *)
Definition run_server (tls_engine_available : bool) (cfg : SslSettings) (key_pem : string)
    : PyM World (option (string * string)) :=
  w <- py_get ;;
  match active_pair cfg w with
  | Some p => py_ret (Some p)
  | None =>
      if tls_engine_available then
        py_try
          (stage_tls_bundle tmp1 tmp2 (self_signed key_pem (or_localhost (ssl_domain cfg))) key_pem ;;;
           w <- py_get ;;
           py_ret (active_pair cfg w))
          (λ _, py_ret None)
      else py_ret None
  end.
End server.

(** * Database connections *)

(** [DatabaseManager.get_connection]: the database it opens; [mkdir] tells whether a
    directory exists or can be made. *)
Definition database_location (mkdir : string → bool) (parent : string → string) (home db_path : string) : string :=
  if String.eqb db_path ":memory:" then db_path
  else if mkdir (parent db_path) then db_path
  else if mkdir (home +:+ "/.palmanager") then home +:+ "/.palmanager/palmanager.db"
  else ":memory:".

(** [MetricsDatabaseManager.get_connection] *)
Definition metrics_location (mkdir : string → bool) (parent : string → string) (home db_path : string) : string :=
  if mkdir (parent db_path) then db_path
  else if mkdir (home +:+ "/.palmanager") then home +:+ "/.palmanager/metrics.db"
  else db_path.

(** [MetricsDatabaseManager.initialize]: up to five attempts while the database is
    locked; how an attempt ends, and the tenths of a second slept. *)
Inductive Attempt : Type := AttemptOk | AttemptLocked | AttemptFails (e : exc).

Definition MAX_ATTEMPTS : nat := 5.
Fixpoint initialize_from (n : nat) (attempt : Z) (outcomes : list Attempt) : result unit * Z :=
  match n with
  | O => (Ret tt, 0)
  | S n' =>
      match outcomes with
      | [] | AttemptOk :: _ => (Ret tt, 0)
      | AttemptFails e :: _ => (Raise e, 0)
      | AttemptLocked :: rest =>
          if attempt <? Z.of_nat MAX_ATTEMPTS then
            let '(r, slept) := initialize_from n' (attempt + 1) rest in (r, slept + 2 * attempt)
          else (Raise OperationalError, 0)
      end
  end.
Definition initialize_metrics (outcomes : list Attempt) : result unit * Z := initialize_from MAX_ATTEMPTS 1 outcomes.

(** * Start *)

(** A reboot lock of an earlier process is removed after 15 minutes. *)
Definition purge_stale_lock (stat_fails unlink_fails : bool) (now : Z) (lock_mtime : option Z) : option Z :=
  match lock_mtime with
  | None => None
  | Some t => if stat_fails then Some t else if (900 <? now - t) && negb unlink_fails then None else Some t
  end.

(** What the start brings up, in its order; the first failure skips the rest, and
    the application starts all the same. *)
Record Prepared := mkPrepared { users_ready : bool; admin_ready : bool; metrics_ready : bool; pruned : bool }.

Definition startup_catches (e : exc) : bool :=
  match e with
  | OperationalError | DatabaseError | IntegrityError _ | RuntimeError _ => true
  | _ => is_oserror e
  end.

Definition nothing_prepared : Prepared := mkPrepared false false false false.

Definition bring_up (db_initialize bootstrap metrics_initialize prune : result unit) : PyM Prepared unit :=
  py_try
    (lift db_initialize ;;; py_modify (λ p, mkPrepared true (admin_ready p) (metrics_ready p) (pruned p)) ;;;
     lift bootstrap ;;; py_modify (λ p, mkPrepared (users_ready p) true (metrics_ready p) (pruned p)) ;;;
     lift metrics_initialize ;;; py_modify (λ p, mkPrepared (users_ready p) (admin_ready p) true (pruned p)) ;;;
     lift prune ;;; py_modify (λ p, mkPrepared (users_ready p) (admin_ready p) (metrics_ready p) true))
    (λ e, if startup_catches e then py_ret tt else py_raise e).

(** The password of the first administrator: the configured one, unless it is the
    default. *)
Definition initial_admin_pwd (configured : string) : option string :=
  if String.eqb configured "admin_password" then None else Some configured.

(** * End *)

(** How a background task has ended once it is awaited after its cancellation. *)
Inductive TaskEnd : Type := Cancelled | Finished | Failed (e : exc).

Record Runtime := mkRuntime {
  telemetry : Telemetry;
  users_open : bool;
  metrics_open : bool;
  handlers_flushed : bool }.

Definition await_task (t : TaskEnd) : PyM Runtime unit :=
  match t with Failed e => py_raise e | Cancelled | Finished => py_ret tt end.

Definition final_flush (f : Fault) : PyM Runtime unit :=
  λ s, let '(r, t) := flush_metrics_buffer f (telemetry s) in
       let s' := mkRuntime t (users_open s) (metrics_open s) (handlers_flushed s) in
       match r with
       | Ret _ => (Ret tt, s')
       | Raise e => if is_database_error e || is_oserror e then (Ret tt, s') else (Raise e, s')
       end.

(** The end of [lifespan]; errors of closing are handled in the managers and here. *)
Definition shutdown (renewal stream metrics : TaskEnd) (updater : option TaskEnd) (f : Fault) : PyM Runtime unit :=
  await_task renewal ;;;
  await_task stream ;;;
  await_task metrics ;;;
  (match updater with Some t => await_task t | None => py_ret tt end) ;;;
  final_flush f ;;;
  py_modify (λ s, mkRuntime (telemetry s) false (metrics_open s) (handlers_flushed s)) ;;;
  py_modify (λ s, mkRuntime (telemetry s) (users_open s) false (handlers_flushed s)) ;;;
  py_modify (λ s, mkRuntime (telemetry s) (users_open s) (metrics_open s) true).

(** * Commands of the TLS manager *)

Section cli.
Context (load_cert : string → option Certificate) (self_signed : string → string → string) (tmp1 tmp2 : string).

(** [renew]: the exit code, and whether a restart is asked of the supervisor, whose
    own failure changes nothing. *)
Definition _handle_renew (now : Z) (d token : string) (force : bool) (key_pem : string)
    (acme : result ACMECertificateResult) : PyM World (Z * bool) :=
  r <- provision_tls_certificates load_cert self_signed tmp1 tmp2 now (or_localhost d) token force key_pem acme ;;
  py_ret (match error r with Some (String _ _) => (1, false) | _ => (0, success r) end).

Definition _handle_sync_dns (get : string → result (Z * string)) (d token ip : string) : result Z :=
  match sync_duckdns_ip get d token ip with
  | Ret b => Ret (if b then 0 else 1)
  | Raise e => Raise e
  end.

Definition _handle_status (now : Z) (d : string) : PyM World (Z * TLSCertificateStatus) :=
  s <- get_tls_certificate_status load_cert now (Some d) ;; py_ret (0, s).
End cli.

(** * The first certificate *)

Fixpoint elapsed (turns : list (string * result ACMECertificateResult * Z)) : Z :=
  match turns with [] => 0 | (_, late) :: rest => 86400 + late + elapsed rest end.

Lemma scheduler_idle load_cert self_signed tmp1 tmp2 cfg c turns now s :
  ssl_auto_renew cfg = true → ssl_cert_mode cfg ≠ "custom" →
  installed load_cert c (s_world s) → not_before c <= now → Forall (λ t, 0 <= t.2) turns →
  now + elapsed turns <= not_after c - 31 * 86400 →
  scheduler_run load_cert self_signed tmp1 tmp2 cfg turns now s = (now + elapsed turns, s).
Proof.
  intros Hauto Hmode Hc. revert now. induction turns as [|[[key acme] late] turns IH]; intros now Hb Hl Ht.
  { cbn. by rewrite Z.add_0_r. }
  inversion Hl as [|? ? Hlate Hl']; subst. cbn [elapsed] in *. cbn [snd] in Hlate. cbn [scheduler_run].
  assert (Hel : 0 <= elapsed turns) by (clear -Hl'; induction Hl' as [|[? ?] ? ? ? ?]; cbn in *; lia).
  rewrite (turn_early load_cert self_signed tmp1 tmp2 cfg Hauto Hmode now key acme c s Hc Hb ltac:(lia)).
  rewrite IH by (done || lia). f_equal. lia.
Qed.

Section first_certificate.
Context (elsewhere : string → option string) (pair_fits : string → string → bool) (home : string).
Context (load_cert : string → option Certificate) (self_signed : string → string → string) (tmp1 tmp2 : string).
Context (Ht1 : tmp1 ≠ fullchain ∧ tmp1 ≠ privkey) (Ht2 : tmp2 ≠ fullchain ∧ tmp2 ≠ privkey).
Context (Hb1 : startswith tmp1 (backup_prefix fullchain) = false).
Context (Hb2 : startswith tmp2 (backup_prefix privkey) = false).

Notation active := (active_pair elsewhere pair_fits home).
Notation run := (run_server elsewhere pair_fits home self_signed tmp1 tmp2).

(** The web server starts whatever happens, with a pair that OpenSSL has loaded. *)
Lemma run_server_starts available cfg key w :
  ∃ o w', run available cfg key w = (Ret o, w') ∧
    (o = None ∨ o = active cfg w') ∧
    (active cfg w ≠ None → o = active cfg w ∧ w' = w).
Proof using.
  unfold run_server. change (py_bind py_get ?k w) with (k w w). cbv beta.
  destruct (active cfg w) as [p|] eqn:Ha.
  - exists (Some p), w. split_and!; [done|by right|done].
  - destruct available; [|exists None, w; split_and!; [done|by left|done]]. unfold py_try, py_bind at 1.
    destruct (stage_tls_bundle _ _ _ _ w) as [[u|e] w1].
    + exists (active cfg w1), w1. split_and!; [done|by right|done].
    + exists None, w1. split_and!; [done|by left|done].
Qed.

(** A pair that is served although none was there before is the bootstrap pair. *)
Lemma bootstrap_installed cfg key p w w1 :
  visited w = [] → active cfg w = None → run true cfg key w = (Ret (Some p), w1) →
  active cfg w1 = Some p ∧
  is_new (self_signed key (or_localhost (ssl_domain cfg))) (files w1 !! fullchain) ∧ is_new key (files w1 !! privkey).
Proof using Ht1 Ht2 Hb1 Hb2.
  intros Hv Ha. unfold run_server. change (py_bind py_get ?k w) with (k w w). cbv beta. rewrite Ha.
  unfold py_try, py_bind at 1.
  pose proof (stage_spec tmp1 tmp2 Ht1 Ht2 Hb1 Hb2 key [self_signed key (or_localhost (ssl_domain cfg))]
    (files w !! fullchain) (files w !! privkey) (self_signed key (or_localhost (ssl_domain cfg))) ltac:(by left) w) as Hs.
  assert (Hw : always (bundle_ok key [self_signed key (or_localhost (ssl_domain cfg))] (files w !! fullchain) (files w !! privkey))
    (bundle_ok key [self_signed key (or_localhost (ssl_domain cfg))] (files w !! fullchain) (files w !! privkey)) w).
  { split; [by split; left|by rewrite Hv]. }
  specialize (Hs Hw). destruct (stage_tls_bundle _ _ _ _ w) as [[u|e] w2]; [|done].
  destruct Hs as [_ [Hc Hk]]. intros [= Hp <-]. done.
Qed.

(** C30: The bootstrap certificate keeps ACME from ever starting: when the web server
    finds no certificate and starts with a self-signed one, the provisioning check
    of the same start does nothing, and until less than 31 days of that certificate
    remain the renewal scheduler makes no attempt, whatever the settings say about
    Let's Encrypt. *)
Theorem bootstrap_defeats_acme cfg tls key key' acme p w w1 c turns now :
  visited w = [] → active cfg w = None → run true cfg key w = (Ret (Some p), w1) → oracle w1 = [] →
  load_cert (self_signed key (or_localhost (ssl_domain cfg))) = Some c →
  ssl_auto_renew tls = true → ssl_cert_mode tls = "letsencrypt" →
  not_before c <= now → Forall (λ t, 0 <= t.2) turns → now + elapsed turns <= not_after c - 31 * 86400 →
  let s := mkSched w1 0 [] in
  trigger_tls_provisioning_check load_cert self_signed tmp1 tmp2 (active cfg w1) tls now key' acme s = (Ret tt, s) ∧
  scheduler_run load_cert self_signed tmp1 tmp2 tls turns now s = (now + elapsed turns, s).
Proof using Ht1 Ht2 Hb1 Hb2.
  intros Hv Ha Hrun Ho Hc Hauto Hmode Hb Hl Ht s.
  destruct (bootstrap_installed cfg key p w w1 Hv Ha Hrun) as (Hp & (f & Hf & Hfd & _) & (g & Hg & _)).
  split; [by rewrite Hp|]. apply (scheduler_idle _ _ _ _ _ c); try done; [by rewrite Hmode|].
  exists f, g. by rewrite Hfd.
Qed.
End first_certificate.

(** ** Concrete starts *)

Definition year_cert (issuer : string) : Certificate := mkCert (Some issuer) (Some issuer) [issuer] 0 (365 * 86400).
Definition read_cert (s : string) : option Certificate :=
  if startswith s "self " then Some (year_cert "localhost") else None.
Definition fits_any (cert key : string) : bool := true.
Definition no_file (path : string) : option string := None.
Definition first_boot : World := mkWorld ∅ [] [] 0.
Definition default_ssl : SslSettings := mkSsl "" "" "" true "my.duckdns.org".
Definition acme_settings : TlsSettings := mkTlsSettings "letsencrypt" true "my.duckdns.org" "tok".
Definition booted : World := (run_server no_file fits_any "/root" example_self "t1" "t2" true default_ssl "k" first_boot).2.

(** 300 days go by without an attempt, although ACME would succeed. *)
Lemma bootstrap_defeats_acme_witness :
  (run_server no_file fits_any "/root" example_self "t1" "t2" true default_ssl "k" first_boot).1 =
    Ret (Some ("/var/lib/palmanager/certs/fullchain.pem", "/var/lib/palmanager/certs/privkey.pem"))%string ∧
  let s := mkSched booted 0 [] in
  trigger_tls_provisioning_check read_cert example_self "t1" "t2"
    (active_pair no_file fits_any "/root" default_ssl booted) acme_settings 0 "k2" issued s = (Ret tt, s) ∧
  scheduler_run read_cert example_self "t1" "t2" acme_settings (List.repeat ("k3", issued, 0)%string 300) 0 s =
    (25920000, s).
Proof.
  split; [vm_compute; reflexivity|].
  apply (bootstrap_defeats_acme no_file fits_any "/root" read_cert example_self "t1" "t2"
    ltac:(split; intros [=]) ltac:(split; intros [=]) eq_refl eq_refl default_ssl acme_settings "k" "k2" issued
    ("/var/lib/palmanager/certs/fullchain.pem", "/var/lib/palmanager/certs/privkey.pem")%string first_boot booted
    (year_cert "localhost") (List.repeat ("k3", issued, 0)%string 300) 0).
  - reflexivity.
  - vm_compute. reflexivity.
  - vm_compute. reflexivity.
  - vm_compute. reflexivity.
  - vm_compute. reflexivity.
  - reflexivity.
  - reflexivity.
  - reflexivity.
  - apply List.Forall_forall. intros x Hx. apply repeat_spec in Hx. by subst x.
  - vm_compute. discriminate.
Defined.

(** Without the standard locations the bootstrap pair is not even looked at: it
    replaces whatever bundle is there, and the server speaks plain HTTP. *)
Lemma bootstrap_without_auto_detect :
  let own := mkWorld (<["privkey.pem"%string := mkFile "key" true 384 0]> {["fullchain.pem"%string := mkFile "chain" true 420 0]})
    [] [] 0 in
  let '(r, w) := run_server no_file fits_any "/root" example_self "t1" "t2" true
    (mkSsl "" "" "" false "my.duckdns.org") "k" own in
  r = Ret None ∧ f_data <$> files w !! fullchain = Some "self k"%string.
Proof. vm_compute. done. Qed.

(** * Start and end *)

(** What the start has brought up is a prefix of its steps, and it only raises what
    is neither an error of a database nor of the system. *)
Lemma bring_up_in_order db_init boot metrics_init prune :
  let '(r, p) := bring_up db_init boot metrics_init prune nothing_prepared in
  (pruned p = true → metrics_ready p = true) ∧ (metrics_ready p = true → admin_ready p = true) ∧
  (admin_ready p = true → users_ready p = true) ∧
  match r with Ret _ => True | Raise e => startup_catches e = false end.
Proof.
  unfold bring_up, py_try, py_bind, lift, py_modify.
  destruct db_init as [[]|e]; [destruct boot as [[]|e]; [destruct metrics_init as [[]|e]; [destruct prune as [[]|e]|]|]|];
    cbn; [done|..]; by destruct (startup_catches e) eqn:E.
Qed.

(** An error of the account store leaves the metrics database without its tables,
    and the application starts. *)
Lemma failed_bootstrap_skips_metrics e metrics_init prune :
  startup_catches e = true →
  bring_up (Ret tt) (Raise e) metrics_init prune nothing_prepared = (Ret tt, mkPrepared true false false false).
Proof. intros H. unfold bring_up, py_try, py_bind, lift, py_modify, py_raise. cbn. by rewrite H. Qed.

(** Initialising the metrics database sleeps at most two seconds, and gives up when
    all its five attempts meet a locked database. *)
Lemma initialize_metrics_bounded outcomes : 0 <= (initialize_metrics outcomes).2 <= 20.
Proof.
  assert (∀ n attempt l, 1 <= attempt → attempt + Z.of_nat n = 6 →
    0 <= (initialize_from n attempt l).2 <= 20 - attempt * (attempt - 1) ∨ attempt = 6) as H.
  { induction n as [|n IH]; intros a l Ha Hn; [right; lia|]. left. destruct l as [|[] l]; cbn -[MAX_ATTEMPTS]; [nia..| |nia].
    change (Z.of_nat MAX_ATTEMPTS) with 5. destruct (Z.ltb_spec a 5) as [Hlt|]; [|cbn; nia].
    destruct (IH (a + 1) l ltac:(lia) ltac:(lia)) as [H|]; [|lia].
    destruct (initialize_from n (a + 1) l) as [r z]. cbn in *. nia. }
  destruct (H MAX_ATTEMPTS 1 outcomes ltac:(lia) ltac:(done)) as [H1|]; [exact H1|lia].
Qed.
Lemma initialize_metrics_gives_up rest :
  (initialize_metrics (List.repeat AttemptLocked 5 ++ rest)).1 = Raise OperationalError.
Proof. reflexivity. Qed.

(** Where neither directory can be made the accounts live in memory and are gone
    with the process. *)
Lemma accounts_in_memory parent home path : database_location (λ _, false) parent home path = ":memory:".
Proof. unfold database_location. destruct (String.eqb_spec path ":memory:") as [->|]; done. Qed.

Definition task_error (t : TaskEnd) : option exc := match t with Failed e => Some e | _ => None end.
Definition task_errors (renewal stream metrics : TaskEnd) (updater : option TaskEnd) : list exc :=
  omap task_error ([renewal; stream; metrics] ++ match updater with Some t => [t] | None => [] end).

(** The end of the application by the ends of its tasks: the first task that died
    of an exception raises it again, and nothing is flushed or closed. *)
Lemma shutdown_outcome renewal stream metrics updater f s :
  shutdown renewal stream metrics updater f s =
  match task_errors renewal stream metrics updater with
  | e :: _ => (Raise e, s)
  | [] =>
      match final_flush f s with
      | (Ret _, s') => (Ret tt, mkRuntime (telemetry s') false false true)
      | (Raise e, s') => (Raise e, s')
      end
  end.
Proof.
  unfold shutdown, task_errors, py_bind, await_task, py_ret, py_raise, py_modify.
  destruct renewal, stream, metrics, updater as [[]|]; cbn -[final_flush]; try done;
    by destruct (final_flush f s) as [[[]|] s'].
Qed.

Lemma final_flush_stores s :
  in_flight (telemetry s) = [] → settled (metrics_db (telemetry s)) →
  let '(r, s') := final_flush NoFault s in
  r = Ret tt ∧ metrics_buffer (telemetry s') = [] ∧
  List.map sample (rows (committed (metrics_db (telemetry s')))) =
    List.map sample (rows (committed (metrics_db (telemetry s)))) ++ metrics_buffer (telemetry s).
Proof.
  intros Hf Hs. unfold final_flush. destruct (flush_stores (telemetry s) Hf Hs) as (n & t & -> & Hb & _ & Hrows).
  cbn. done.
Qed.

(** C21: With a database that takes what it is given, no flush in flight and no open
    transaction, and when neither the renewal task nor the stream has died of an
    exception: the end of the application stores every sample that waits and closes both
    databases, if the sampling task and the update watcher have not died either; if one
    of these has, it stores none of them, raises that exception, and changes nothing:
    both databases stay open and the log handlers unflushed. *)
Theorem shutdown_saves_samples renewal stream metrics updater s :
  in_flight (telemetry s) = [] → settled (metrics_db (telemetry s)) →
  task_error renewal = None → task_error stream = None →
  let '(r, s') := shutdown renewal stream metrics updater NoFault s in
  match task_error metrics, updater ≫= task_error with
  | Some e, _ | None, Some e => r = Raise e ∧ s' = s
  | None, None =>
      r = Ret tt ∧ metrics_buffer (telemetry s') = [] ∧
      List.map sample (rows (committed (metrics_db (telemetry s')))) =
        List.map sample (rows (committed (metrics_db (telemetry s)))) ++ metrics_buffer (telemetry s) ∧
      users_open s' = false ∧ metrics_open s' = false ∧ handlers_flushed s' = true
  end.
Proof.
  intros Hf Hw Hr Hst. rewrite shutdown_outcome.
  assert (task_errors renewal stream metrics updater =
    match task_error metrics with Some e => [e] | None => [] end ++
    match updater ≫= task_error with Some e => [e] | None => [] end) as ->.
  { unfold task_errors. destruct renewal, stream; try done; by destruct metrics, updater as [[]|]. }
  destruct (task_error metrics) as [e|]; [done|]. destruct (updater ≫= task_error) as [e|]; [done|].
  cbn [app]. pose proof (final_flush_stores s Hf Hw) as H. destruct (final_flush NoFault s) as [r s'].
  destruct H as (-> & Hb & Hrows). done.
Qed.

Definition waiting (n : nat) : Runtime :=
  mkRuntime (Nat.iter n (append_sample (example_sample 1)) fresh_telemetry) true true false.

Lemma shutdown_saves_samples_witness :
  let '(r, s') := shutdown Cancelled Finished Cancelled (Some Finished) NoFault (waiting 3) in
  r = Ret tt ∧ metrics_buffer (telemetry s') = [] ∧
  List.map sample (rows (committed (metrics_db (telemetry s')))) = List.repeat (example_sample 1) 3 ∧
  users_open s' = false ∧ metrics_open s' = false ∧ handlers_flushed s' = true.
Proof.
  exact (shutdown_saves_samples Cancelled Finished Cancelled (Some Finished) (waiting 3) eq_refl eq_refl eq_refl eq_refl).
Defined.

(** The sampling task has died: up to 1000 samples are lost. *)
Lemma dead_sampler_loses_samples e :
  shutdown Cancelled Finished (Failed e) (Some Finished) NoFault (waiting 3) = (Raise e, waiting 3) ∧
  length (metrics_buffer (telemetry (waiting 3))) = 3%nat.
Proof. done. Qed.

(** ** Commands *)

(** [renew] never exits with an error code: what it would report never has an error. *)
Lemma renew_exit_code load_cert self_signed tmp1 tmp2 now d token force key acme w r w' :
  _handle_renew load_cert self_signed tmp1 tmp2 now d token force key acme w = (Ret r, w') → r.1 = 0.
Proof.
  unfold _handle_renew. intros (p & w1 & Hp & Hr)%py_bind_inv.
  assert (He : error p = None).
  { unfold provision_tls_certificates in Hp. apply py_bind_inv in Hp as (st & w2 & _ & Hp).
    destruct (_ && _ && _); [by injection Hp as <-|]. apply py_bind_inv in Hp as (a & w3 & Ha & Hp).
    unfold tier1 in Ha. destruct a as [p'|].
    - injection Hp as <- <-. destruct (String.eqb _ ""); [done|]. unfold py_try in Ha.
      destruct (py_bind _ _ w2) as [[v|e] w4] eqn:Eb; [|done]. injection Ha as -> ->.
      apply py_bind_inv in Eb as (q & w5 & _ & Eb). destruct (acme_success q), (fullchain_pem q) as [[|c chain]|];
        try done. apply py_bind_inv in Eb as (u & w6 & _ & Eb). by injection Eb as <-.
    - apply py_bind_inv in Hp as (u & w4 & _ & Hp). by injection Hp as <-. }
  rewrite He in Hr. by injection Hr as <-.
Qed.
