(* ===== verification/Ping.v ===== *)
(** Latency probes of monitoring/net_diagnostics.py: the command, the parsing of
    its output, and the probes over TCP that stand in for it.

    Statistics are thousandths of a millisecond or of a percent, as in [NetDiag];
    the output of a command and the outcome of a connection (its latency in
    microseconds) are arguments.  Digits and white space are ASCII. *)

From S2P Require Import Prelude PyStr PyNum PyRe NetDiag.
From Stdlib Require Import ZArith Ascii Bool Lia.
From stdpp Require Import base tactics list strings.

Local Open Scope Z_scope.

(** * Patterns *)

Definition spaces : re := Many is_space 0.
Definition is_number_char (c : ascii) : bool := is_digit c || Ascii.eqb c ".".

Definition RE_LOSS : re :=
  Group "1" (Many is_digit 1 ·· Opt (Lit "." ·· Many is_digit 1)) ·· Lit "%" ·· spaces ··
  Opt (lit_ci "packet" ·· spaces) ·· lit_ci "loss".
Definition RE_RTT : re :=
  Alt (lit_ci "rtt") (lit_ci "round-trip") ·· Many is_space 1 ·· lit_ci "min/avg/max/" ··
  Alt (lit_ci "mdev") (lit_ci "stddev") ·· spaces ·· Lit "=" ·· spaces ··
  Group "1" (Many is_number_char 1) ·· Lit "/" ·· Group "2" (Many is_number_char 1) ·· Lit "/" ··
  Group "3" (Many is_number_char 1) ·· Lit "/" ·· Group "4" (Many is_number_char 1).
Definition RE_WINDOWS : re :=
  lit_ci "Minimum" ·· spaces ·· Lit "=" ·· spaces ·· Group "1" (Many is_digit 1) ·· lit_ci "ms," ·· spaces ··
  lit_ci "Maximum" ·· spaces ·· Lit "=" ·· spaces ·· Group "2" (Many is_digit 1) ·· lit_ci "ms," ·· spaces ··
  lit_ci "Average" ·· spaces ·· Lit "=" ·· spaces ·· Group "3" (Many is_digit 1) ·· lit_ci "ms".

(** * Statistics *)

Record Stats := mkStats { avg_ms : Z; jitter_ms : Z; loss_pct : Z }.
Definition no_answer : Stats := mkStats 999000 99000 100000.

(** [round(x, k)] of a finite float, in thousandths. *)
Definition rounded (k : Z) (x : pyfloat) : Z :=
  match round_float k x with
  | FDec m e => if -3 <=? e then m * 10 ^ (e + 3) else 0
  | _ => 0
  end.

(** [float(match.group(name))] *)
Definition number (name : string) (g : caps) : result pyfloat :=
  match group name g with
  | Some s => match float_of s with Some x => Ret x | None => Raise (ValueError "could not convert string to float") end
  | None => Raise (TypeError "float() argument must be a string or a real number, not 'NoneType'")
  end.

Definition bind {A B} (r : result A) (k : A → result B) : result B :=
  match r with Ret a => k a | Raise e => Raise e end.

(** [max(0.0, a - b)] of whole numbers of milliseconds. *)
Definition spread (a b : pyfloat) : Z :=
  match a, b with FDec m 0, FDec n 0 => Z.max 0 (m - n) * 1000 | _, _ => 0 end.

(** The statistics in the output of a command, if it has any. *)
Definition parse_output (output : string) : result (option Stats) :=
  bind (match re_search RE_LOSS output with Some g => number "1" g | None => Ret (FDec 0 0) end) (λ loss,
  match re_search RE_RTT output with
  | Some g =>
      bind (number "2" g) (λ avg, bind (number "4" g) (λ jitter,
      Ret (Some (mkStats (rounded 2 avg) (rounded 2 jitter) (rounded 1 loss)))))
  | None =>
      match re_search RE_WINDOWS output with
      | Some g =>
          bind (number "1" g) (λ least, bind (number "2" g) (λ most, bind (number "3" g) (λ avg,
          Ret (Some (mkStats (rounded 2 avg) (spread most least) (rounded 1 loss))))))
      | None => Ret None
      end
  end).

(** * Probes over TCP *)

Definition probe_port (target : string) : Z :=
  if bool_decide (target ∈ ["1.1.1.1"; "8.8.8.8"]) then 53 else 80.

Definition extreme (pick : Z → Z → Z) (l : list Z) : Z := match l with [] => 0 | x :: l' => fold_left pick l' x end.
(** [round(x, 2)] of microseconds, as milliseconds. *)
Definition hundredths (n d : Z) : Z := 10 * round_div n (10 * d).

Definition socket_stats (answers : list (option Z)) : Stats :=
  match omap id answers with
  | [] => no_answer
  | latencies =>
      let count := Z.of_nat (length answers) in
      let dropped := count - Z.of_nat (length latencies) in
      mkStats (hundredths (fold_right Z.add 0 latencies) (Z.of_nat (length latencies)))
        (hundredths (extreme Z.max latencies - extreme Z.min latencies) 1)
        (100 * round_div (1000 * dropped) count)
  end.

Definition _execute_socket_probes (connect : string → Z → nat → option Z) (target : string) (count : nat) : Stats :=
  socket_stats (List.map (connect target (probe_port target)) (seq 0 count)).

(** * A probe *)

Definition clamp_count (count : Z) : Z := Z.max 1 (Z.min count 20).

(** The command line, on a validated target. *)
Definition probe_command (posix : bool) (ping_bin target : string) (count : Z) : list string :=
  if posix then [ping_bin; "-c"; str_of_Z count; "-W"; "1"; target]
  else ["ping"; "-n"; str_of_Z count; "-w"; "1000"; target].

(** [run] is the output of a command; a timeout is a [SubprocessError]. *)
Definition execute_ping_probes (posix : bool) (ping_bin : string) (run : list string → result string)
    (connect : string → Z → nat → option Z) (target : string) (count : Z) : result Stats :=
  match validate_probe_target target with
  | Raise _ => Ret no_answer
  | Ret clean =>
      let n := clamp_count count in
      let sockets := _execute_socket_probes connect clean (Z.to_nat n) in
      match bind (run (probe_command posix ping_bin clean n)) parse_output with
      | Ret (Some s) => Ret s
      | Ret None => Ret sockets
      | Raise SubprocessError => Ret no_answer
      | Raise e => if is_oserror e then Ret sockets else Raise e
      end
  end.

(** * Outputs *)

Definition lf : string := String line_feed "".
Definition linux_output : string :=
  "5 packets transmitted, 4 received, 20% packet loss, time 4005ms" +:+ lf +:+
  "rtt min/avg/max/mdev = 10.123/12.345/15.678/1.234 ms".
Definition macos_output : string :=
  "5 packets transmitted, 5 packets received, 0.0% packet loss" +:+ lf +:+
  "round-trip min/avg/max/stddev = 10.1/12.5/15.0/1.5 ms".
Definition windows_output : string :=
  "Packets: Sent = 5, Received = 4, Lost = 1 (20% loss)," +:+ lf +:+
  "Minimum = 10ms, Maximum = 18ms, Average = 12ms".
Definition dead_output : string := "5 packets transmitted, 0 received, 100% packet loss, time 4100ms".

Example outputs_read :
  List.map parse_output [linux_output; macos_output; windows_output; dead_output] =
  [Ret (Some (mkStats 12340 1230 20000)); Ret (Some (mkStats 12500 1500 0));
   Ret (Some (mkStats 12000 8000 20000)); Ret None].
Proof. vm_compute. reflexivity. Qed.

(** * Bounds *)

Lemma round_div_bounds n d a b : 0 < d → a * d <= n <= b * d → a <= round_div n d <= b.
Proof.
  intros Hd Hn. unfold round_div. cbv zeta. pose proof (Z.div_mod n d ltac:(lia)). pose proof (Z.mod_pos_bound n d Hd).
  repeat case_match; nia.
Qed.

Lemma fold_pick_in (pick : Z → Z → Z) (Hpick : ∀ a b, pick a b = a ∨ pick a b = b) x l :
  fold_left pick l x ∈ x :: l.
Proof.
  revert x. induction l as [|y l IH]; intros x; cbn [fold_left]; [by left|].
  destruct (Hpick x y) as [-> | ->]; specialize (IH x) as H1; specialize (IH y) as H2.
  - apply elem_of_cons in H1 as [->|H1]; [by left|]. right. by right.
  - by right.
Qed.

(** Statistics of the TCP probes: the loss is a percentage, and it is the share of
    the failed connections; without any answer it is total. *)
Lemma socket_loss_bounds answers : 0 <= loss_pct (socket_stats answers) <= 100000.
Proof.
  unfold socket_stats. destruct (omap id answers) as [|x l] eqn:E; [by cbn|]. cbn [loss_pct].
  set (c := Z.of_nat (length answers)). set (k := Z.of_nat (length (x :: l))).
  assert (Hk : 0 < k <= c).
  { subst k c. rewrite <-E. split; [rewrite E; cbn; lia|].
    assert (∀ a : list (option Z), (length (omap id a) ≤ length a)%nat) as H.
    { clear. induction a as [|[z|] a IH]; cbn; lia. }
    specialize (H answers). lia. }
  pose proof (round_div_bounds (1000 * (c - k)) c 0 1000 ltac:(lia) ltac:(nia)). lia.
Qed.

Lemma no_connection_no_answer connect target count :
  (∀ i, connect target (probe_port target) i = None) →
  _execute_socket_probes connect target count = no_answer.
Proof.
  intros H. unfold _execute_socket_probes, socket_stats.
  assert (omap id (List.map (connect target (probe_port target)) (seq 0 count)) = []) as ->; [|done].
  generalize 0%nat. induction count as [|n IH]; intros k; cbn; [done|]. by rewrite H, IH.
Qed.

(** ** Observations *)

(** A target that is not accepted runs nothing and counts as dead. *)
Lemma rejected_target posix ping_bin run connect count :
  execute_ping_probes posix ping_bin run connect "-f 8.8.8.8" count = Ret no_answer.
Proof. reflexivity. Qed.

(** When every echo is lost there is no line of times, and what is reported are TCP
    connections, which know nothing of the loss. *)
Lemma total_loss_reported_as_none ping_bin run :
  run (probe_command true ping_bin "192.168.1.1" 5) = Ret dead_output →
  execute_ping_probes true ping_bin run (λ _ _ _, Some 1500) "192.168.1.1" 5 = Ret (mkStats 1500 0 0).
Proof.
  intros H. unfold execute_ping_probes. cbn [validate_probe_target].
  change (validate_probe_target "192.168.1.1") with (Ret (A:=string) "192.168.1.1"). cbv beta iota.
  change (clamp_count 5) with 5. rewrite H. by vm_compute.
Qed.

(** Numbers with two points are matched, but are no numbers. *)
Lemma malformed_times_raise :
  parse_output "rtt min/avg/max/mdev = 1.0/1.2.3/2.0/0.1 ms" = Raise (ValueError "could not convert string to float").
Proof. vm_compute. reflexivity. Qed.
