(* ===== verification/Pages.v ===== *)
(** The remaining endpoints: the pages of routers/ui.py, the console and the
    metrics of routers/telemetry.py, the settings of routers/settings.py, and the
    requests of api/schemas.py that they and the life cycle take.

    The account store and the telemetry are one state; templates, log files and
    the faults of the metrics database are arguments. *)

From S2P Require Import Supervisor Prelude PyStr PyTime PyDict Database Auth Access IniParser Pipeline Lifecycle LogScraper Metrics MetricsHistory.
From Stdlib Require Import ZArith Ascii Bool Lia.
From stdpp Require Import base tactics list strings.

Local Open Scope Z_scope.
Local Open Scope py_scope.

(** * Requests *)

Record RebootRequest := mkReboot {
  q_countdown_seconds : Z;
  trigger_steam_update : bool;
  q_update_version_tag : string;
  q_custom_message : string }.
Definition at_most (n : Z) (s : string) : bool := utf8_len s <=? n.
Definition valid_reboot (q : RebootRequest) : bool :=
  (0 <=? q_countdown_seconds q) && (q_countdown_seconds q <=? 3600) && at_most 64 (q_update_version_tag q) &&
  at_most 256 (q_custom_message q).
(** The call that the endpoint queues. *)
Definition reboot_call (q : RebootRequest) : Lifecycle.Request :=
  {| countdown_seconds := q_countdown_seconds q; trigger_update := trigger_steam_update q;
     update_version_tag := Some (q_update_version_tag q); custom_message := q_custom_message q |}.

(** [re.sub(r'[\r\n\t]+', ' ', value).strip()]; [gap] after such a character. *)
Definition is_control (c : ascii) : bool :=
  Ascii.eqb c carriage_return || Ascii.eqb c line_feed || Ascii.eqb c "009".
Fixpoint one_gap (gap : bool) (s : string) : string :=
  match s with
  | EmptyString => EmptyString
  | String c r => if is_control c then (if gap then one_gap true r else String " " (one_gap true r))
                  else String c (one_gap false r)
  end.
Definition sanitize_reason (value : string) : string := str_strip (one_gap false value).
(** [RebootCancelRequest]: the length is checked before the text is cleaned. *)
Definition cancel_reason_of (value : string) : option string :=
  if at_most 200 value then Some (sanitize_reason value) else None.

Definition valid_shutdown (seconds : Z) (message : string) : bool :=
  (30 <=? seconds) && (seconds <=? 3600) && at_most 80 message.

(** [UpdateApplyRequest] *)
Definition apply_char (c : ascii) : bool :=
  is_alnum c || Ascii.eqb c "_" || Ascii.eqb c "." || Ascii.eqb c "-".
Definition valid_apply_request (branch : string) : bool :=
  negb (String.eqb branch "") && at_most 64 branch && str_all apply_char branch.

(** * The state *)

Record Web := mkWeb { w_app : App; w_telemetry : Telemetry }.

Definition on_account {A} (m : PyM App A) : PyM Web A :=
  λ s, let '(r, a) := m (w_app s) in (r, mkWeb a (w_telemetry s)).
Definition on_telemetry {A} (m : PyM Telemetry A) : PyM Web A :=
  λ s, let '(r, t) := m (w_telemetry s) in (r, mkWeb (w_app s) t).

(** A page, or a redirection with its status. *)
Inductive Answer : Type := Html (content : string) | RedirectTo (url : string) (status : Z).

Section requests.
Context (now : Z) (now_ts secret : string) (request : Access.Request).
(** [_read_template_file] *)
Context (template : string → option string).

Definition page (filename fallback : string) : Answer :=
  match template filename with Some (String _ _ as content) => Html content | _ => Html fallback end.

(** ** Pages *)

Definition serve_dashboard : PyM App Answer :=
  user <- get_current_user_optional now now_ts secret request ;;
  match user with
  | None => py_ret (RedirectTo "/login?next=/" 302)
  | Some _ => py_ret (page "index.html" "<h2>Palworld Operations Suite Dashboard</h2><p>Template loading...</p>")
  end.

(** [query_params.get(key)]: the last value of the key. *)
Definition last_param (key : string) (query : list (string * string)) : option string := assoc_get key (rev query).

Definition serve_login_page (query : list (string * string)) : PyM App Answer :=
  user <- get_current_user_optional now now_ts secret request ;;
  match user with
  | Some _ => py_ret (RedirectTo (default "/" (last_param "next" query)) 302)
  | None => py_ret (page "login.html" "<h2>Palworld Manager — Login</h2><p>Login template not found. Please redeploy.</p>")
  end.

Definition serve_setup_page : Answer := RedirectTo "/login" 302.
Definition serve_observability_dashboard : Answer :=
  page "metrics.html" "<h2>Palworld Observability Dashboard</h2><p>Template loading...</p>".
Definition serve_feedback_page : Answer :=
  page "feedback.html" "<h2>Feedback & Issue Tracker</h2><p>Template loading...</p>".

(** ** The console *)

Section logs.
Context (user_search : string → string → option bool) (files : list (string * option (result (list string))))
  (posix : bool) (journal : nat → list string).

Definition get_logs (tail : Z) (filter_query : option string) (level : string) : PyM App ServerLogs :=
  require_permission "logs:view" now now_ts secret request ;;;
  py_ret (read_server_logs user_search files posix journal tail filter_query level).

(** [download_logs]: the content of the attachment *)
Definition download_logs : PyM App string :=
  require_permission "logs:view" now now_ts secret request ;;;
  py_ret (str_join (String line_feed "") (lines (read_server_logs user_search files posix journal 2000 None "ALL"))).
End logs.

(** ** Metrics *)

Section metrics.
Context (clock : datetime) (flush_fault query_fault : Fault).

Record MetricBucketResponse := mkBucketResponse {
  r_bucket_timestamp : string;
  r_avg_fps : Z; r_min_fps : Z; r_max_fps : Z; r_avg_frame_time_ms : Z;
  r_avg_players : Z; r_max_players : Z;
  r_avg_cpu_pct : Z; r_max_cpu_pct : Z; r_avg_ram_pct : Z; r_max_ram_pct : Z;
  r_sample_count : Z }.
Definition bucket_response (b : MetricBucketRecord) : MetricBucketResponse :=
  {| r_bucket_timestamp := bucket_timestamp b;
     r_avg_fps := avg_fps b; r_min_fps := min_fps b; r_max_fps := max_fps b; r_avg_frame_time_ms := avg_frame_time_ms b;
     r_avg_players := avg_players b; r_max_players := max_players_seen b;
     r_avg_cpu_pct := avg_cpu_pct b; r_max_cpu_pct := max_cpu_pct b; r_avg_ram_pct := avg_ram_pct b;
     r_max_ram_pct := max_ram_pct b; r_sample_count := sample_count b |}.

Record MetricHistoryResponse := mkHistory {
  window : string;
  total_buckets : Z;
  h_buckets : list MetricBucketResponse }.

Record MetricSummaryResponse := mkSummaryResponse {
  r_total_samples : Z; r_peak_players : Z; r_mean_players : Z; r_lowest_fps : Z; r_mean_fps : Z;
  r_peak_cpu_pct : Z; r_mean_cpu_pct : Z; r_peak_ram_pct : Z; r_mean_ram_pct : Z;
  r_buffered_samples : Z; r_window_start : string; r_window_end : string }.
Definition summary_response (summary : Metric30DaySummary) (buffered_count : Z) : MetricSummaryResponse :=
  {| r_total_samples := total_samples summary; r_peak_players := peak_players summary;
     r_mean_players := s_avg_players summary; r_lowest_fps := lowest_fps summary; r_mean_fps := s_avg_fps summary;
     r_peak_cpu_pct := peak_cpu_pct summary; r_mean_cpu_pct := s_avg_cpu_pct summary;
     r_peak_ram_pct := peak_ram_pct summary; r_mean_ram_pct := s_avg_ram_pct summary;
     r_buffered_samples := buffered_count; r_window_start := window_start summary; r_window_end := window_end summary |}.

Record MetricFlushResponse := mkFlushResponse { f_status : string; flushed_snapshots : Z; buffered_remaining : Z }.
Record MetricPruneResponse := mkPruneResponse { p_status : string; pruned_records : Z; p_retention_days : nat }.

(** [Literal['1h', '24h', '7d', '30d']] *)
Definition valid_window (w : string) : bool := bool_decide (w ∈ ["1h"; "24h"; "7d"; "30d"]%string).

Definition get_metrics_history (w : string) : PyM Web MetricHistoryResponse :=
  on_account (get_current_user now now_ts secret request) ;;;
  on_telemetry (flush_metrics_buffer flush_fault) ;;;
  s <- py_get ;;
  buckets_data <- lift (get_history query_fault clock w (metrics_db (w_telemetry s))) ;;
  py_ret (mkHistory w (Z.of_nat (length buckets_data)) (List.map bucket_response buckets_data)).

Definition get_metrics_summary : PyM Web MetricSummaryResponse :=
  on_account (get_current_user now now_ts secret request) ;;;
  on_telemetry (flush_metrics_buffer flush_fault) ;;;
  s <- py_get ;;
  summary <- lift (get_30_day_summary query_fault clock (metrics_db (w_telemetry s))) ;;
  py_ret (summary_response summary (Z.of_nat (length (metrics_buffer (w_telemetry s))))).

Definition flush_metrics : PyM Web MetricFlushResponse :=
  on_account (require_admin now now_ts secret request) ;;;
  flushed <- on_telemetry (flush_metrics_buffer flush_fault) ;;
  s <- py_get ;;
  py_ret (mkFlushResponse "success" flushed (Z.of_nat (length (metrics_buffer (w_telemetry s))))).

(** [ge=1, le=365] *)
Definition valid_days (days : option nat) : bool :=
  match days with Some n => (1 <=? n)%nat && (n <=? 365)%nat | None => true end.
Definition prune_metrics (configured : nat) (days : option nat) : PyM Web MetricPruneResponse :=
  on_account (require_admin now now_ts secret request) ;;;
  let retention := default configured days in
  pruned <- on_telemetry (λ t,
    let '(r, d) := prune_older_than query_fault clock retention (metrics_db t) in
    (r, {| metrics_buffer := metrics_buffer t; in_flight := in_flight t; metrics_db := d; sampled := sampled t |})) ;;
  py_ret (mkPruneResponse "success" pruned retention).
End metrics.
End requests.

(** * Settings *)

Section settings.
Context `{Lifecycle.World} (error_text : exc → string).

(** The handlers of both endpoints. *)
Definition answered_with_500 (e : exc) : bool :=
  match e with
  | KeyError _ | ValueError _ | UnicodeDecodeError | RuntimeError _ => true
  | _ => is_oserror e
  end.

(** [get_settings_data], with no authentication. *)
Definition get_settings_data (f : IniFile) : result dict :=
  match get_public_view f with
  | Ret d => Ret d
  | Raise e => if answered_with_500 e then Raise (HTTPException 500 (error_text e)) else Raise e
  end.

Definition save_handler (e : exc) : option string :=
  match e with
  | PermissionError => Some "Permission denied: "
  | ValueError _ | UnicodeDecodeError => Some "Validation error: "
  | RuntimeError _ => Some "Runtime error: "
  | _ => if is_oserror e then Some "OS error: " else None
  end%string.

(** [save_sanitized_settings] on a validated payload; [readiness] is what the probe
    of the game server answers. *)
Definition save_sanitized_settings (f : IniFile) (payload : dict) (readiness : result bool) : PyM Engine bool :=
  py_try
    (content <- lift (merge_and_serialize f payload) ;;
     await ;;; write_ini_file_with_fallback content ;;; await ;;;
     ready <- lift readiness ;;
     if ready : bool then
       stage_settings content ;;; stage_settings_for_reboot content ;;; py_ret true
     else py_ret false)
    (λ e, match save_handler e with
          | Some prefix => py_raise (HTTPException 500 (prefix +:+ error_text e))
          | None => py_raise e
          end).
End settings.

(** * Properties *)

(** A cleaned reason is one line. *)
Lemma one_gap_clean gap s : str_all (λ c, negb (is_control c)) (one_gap gap s) = true.
Proof.
  revert gap. induction s as [|c s IH]; intros gap; cbn [one_gap]; [done|].
  destruct (is_control c) eqn:E; [destruct gap; [apply IH|]|]; cbn [str_all]; rewrite IH; [done|by rewrite E].
Qed.
Lemma sanitized_reason_one_line value : str_all (λ c, negb (is_control c)) (sanitize_reason value) = true.
Proof. unfold sanitize_reason, str_strip, strip_by. apply str_all_rstrip, str_all_lstrip, one_gap_clean. Qed.

(** The dashboard is only for users. *)
Lemma dashboard_guarded now now_ts secret request template a content a' :
  serve_dashboard now now_ts secret request template a = (Ret (Html content), a') →
  ∃ u, get_current_user now now_ts secret request a = (Ret u, a).
Proof.
  unfold serve_dashboard, get_current_user_optional, py_bind, py_try. rewrite get_current_user_eq. intros H.
  match goal with |- context [(?r, a)] => destruct r as [u|e] end; [by exists u|]. by destruct e.
Qed.

(** The history that is shown is complete: when no flush is under way and the
    database answers, the buckets that a user gets are those of all samples of the
    window, stored ones and those that still waited in memory, and the buffer is
    empty afterwards. *)
Theorem metrics_history_fresh now now_ts secret request clock w cutoff u s :
  get_current_user now now_ts secret request (w_app s) = (Ret u, w_app s) →
  in_flight (w_telemetry s) = [] → settled (metrics_db (w_telemetry s)) →
  cutoff_of clock (window_of w) = Some cutoff →
  let all := List.map sample (rows (committed (metrics_db (w_telemetry s)))) ++ metrics_buffer (w_telemetry s) in
  let shown := buckets (window_of w) (List.filter (λ x, negb (String.ltb (timestamp x) (isoformat cutoff))) all) in
  let '(r, s') := get_metrics_history now now_ts secret request clock NoFault NoFault w s in
  r = Ret (mkHistory w (Z.of_nat (length shown)) (List.map bucket_response shown)) ∧
  w_app s' = w_app s ∧ metrics_buffer (w_telemetry s') = [] ∧
  List.map sample (rows (committed (metrics_db (w_telemetry s')))) = all.
Proof.
  intros Hu Hf Hs Hc all shown. unfold get_metrics_history, py_bind at 1, on_account. rewrite Hu.
  destruct s as [a t]. cbn [w_app w_telemetry] in *. unfold py_bind at 1, on_telemetry. cbn [w_telemetry w_app].
  destruct (flush_stores t Hf Hs) as (n & t' & -> & Hb & Hs' & Hall). fold all in Hall. change (py_bind py_get ?k ?x) with (k x x). cbv beta.
  unfold py_bind, lift, get_history. cbn [w_telemetry]. rewrite Hc.
  assert (Hw : in_window (isoformat cutoff) (metrics_db t') =
    List.filter (λ x, negb (String.ltb (timestamp x) (isoformat cutoff))) all).
  { rewrite <-Hall. unfold in_window. rewrite Hs'. generalize (rows (committed (metrics_db t'))). clear.
    induction l as [|x l IH]; cbn; [done|]. unfold older at 1. destruct (String.ltb _ _); cbn; by rewrite IH. }
  rewrite Hw. cbn. done.
Qed.

(** ** Observations *)

Definition logged_in : Access.Request := example_request.
Definition three_waiting : Web := mkWeb example_app (Nat.iter 3 (append_sample (example_sample 4)) fresh_telemetry).

Lemma metrics_history_fresh_witness :
  let '(r, s') := get_metrics_history 5 "t" "k" logged_in (noon 6) NoFault NoFault "30d" three_waiting in
  (∃ b, r = Ret (mkHistory "30d" 1 [b]) ∧ r_sample_count b = 3) ∧ metrics_buffer (w_telemetry s') = [].
Proof.
  pose proof (metrics_history_fresh 5 "t" "k" logged_in (noon 6) "30d"
    (default (noon 6) (cutoff_of (noon 6) W30d)) (mkUser 1 "root" "h" "s" "" "admin" true "2024-01-01" None) three_waiting
    ltac:(vm_compute; reflexivity) eq_refl eq_refl ltac:(vm_compute; reflexivity)) as H.
  cbv zeta in H. destruct (get_metrics_history _ _ _ _ _ _ _ _ three_waiting) as [r s'].
  destruct H as (-> & _ & Hb & _). split; [|exact Hb]. vm_compute. eexists. split; reflexivity.
Defined.

(** A user who follows a link to the login page is sent wherever the link says. *)
Lemma open_redirect now now_ts secret request template u a url :
  get_current_user now now_ts secret request a = (Ret u, a) →
  serve_login_page now now_ts secret request template [("next"%string, url)] a = (Ret (RedirectTo url 302), a).
Proof. intros H. unfold serve_login_page, get_current_user_optional, py_bind, py_try. by rewrite H. Qed.

(** A branch that the endpoint accepts and that the supervisor refuses. *)
Lemma branch_refused_later : valid_apply_request "-x" = true ∧ Supervisor.BRANCH_NAME_PATTERN_match "-x" = false.
Proof. by vm_compute. Qed.

(** Where the configuration cannot be written the copy in the home directory is, and
    the answer is the same. *)
Lemma saved_elsewhere `{Lifecycle.World} error_text f payload s :
  schedule s = [] → writable settings_ini_path = false →
  writable (home +:+ "/.palmanager/PalWorldSettings.ini") = true →
  ∃ content, merge_and_serialize f payload = Ret content ∧
    save_sanitized_settings error_text f payload (Ret false) s =
    (Ret false, log_event (IniWrite (home +:+ "/.palmanager/PalWorldSettings.ini") content) s).
Proof.
  intros Hs Hw Hh. rewrite merge_and_serialize_eq. eexists. split; [reflexivity|].
  unfold save_sanitized_settings. rewrite merge_and_serialize_eq.
  unfold py_try, py_bind, lift, write_ini_file_with_fallback, emit, await, py_modify, py_ret, log_event.
  rewrite Hs, Hw, Hh. cbn [schedule]. by rewrite Hs.
Qed.

(** A readiness probe that raises turns a saved configuration into an error. *)
Lemma saved_but_reported_as_failed `{Lifecycle.World} error_text f payload m s :
  schedule s = [] → writable settings_ini_path = true →
  ∃ content s', merge_and_serialize f payload = Ret content ∧
    save_sanitized_settings error_text f payload (Raise (ValueError m)) s =
    (Raise (HTTPException 500 ("Validation error: " +:+ error_text (ValueError m))), s') ∧
    trace s' = trace s ++ [IniWrite settings_ini_path content].
Proof.
  intros Hs Hw. rewrite merge_and_serialize_eq. eexists _, _. split; [reflexivity|].
  unfold save_sanitized_settings. rewrite merge_and_serialize_eq.
  unfold py_try, py_bind, lift, write_ini_file_with_fallback, emit, await, py_modify, py_ret, py_raise, log_event.
  rewrite Hs, Hw. cbn [schedule]. rewrite Hs. split; [reflexivity|done].
Qed.
