(* ===== verification/Routes.v ===== *)
(** The whole HTTP surface: every endpoint of routers/*.py, in the router that
    declares it, with the dependency that it declares.

    The components' states are put side by side and share the account store.  A
    handler whose component leaves the permission to the endpoint gets it here, at
    the endpoint; the others carry it themselves.  What each endpoint is meant to
    ask for is stated apart, as a specification that no endpoint uses. *)

From S2P Require Import Prelude PyStr PyJson PyNum PyTime IniParser Database Auth Access UserRoutes Pipeline AtomicIO Tls.
From S2P Require Import SystemRoutes Changelog Tracker NetDiag GameApi Telemetry Community Feedback LogScraper Metrics MetricsHistory Updater Lifecycle Pages.
From Stdlib Require Import ZArith Ascii Bool Lia.
From stdpp Require Import base tactics list strings.

Local Open Scope Z_scope.
Local Open Scope py_scope.

(** * The state *)

Record Site := mkSite {
  accounts : App;
  telemetry : Metrics.Telemetry;
  updates : Watcher;
  game : Engine;
  outbox : list Sent;
  tls : Sys;
  issue_tasks : list IssueTask;
  processes : list (list string);
  changelog : ChangelogParser;
  community : Community }.

Definition set_accounts (a : App) (s : Site) : Site :=
  mkSite a (telemetry s) (updates s) (game s) (outbox s) (tls s) (issue_tasks s) (processes s) (changelog s) (community s).
Definition set_client (c : Client) (s : Site) : Site :=
  mkSite (GameApi.app c) (telemetry s) (updates s) (game s) (sent c) (tls s) (issue_tasks s) (processes s) (changelog s)
    (community s).
Definition set_web (w : Web) (s : Site) : Site :=
  mkSite (w_app w) (w_telemetry w) (updates s) (game s) (outbox s) (tls s) (issue_tasks s) (processes s) (changelog s)
    (community s).
Definition set_feedback (f : Feedback) (s : Site) : Site :=
  mkSite (Feedback.app f) (telemetry s) (updates s) (game s) (outbox s) (tls s) (tasks f) (spawned f) (changelog s)
    (community s).
Definition set_updates (u : Watcher) (s : Site) : Site :=
  mkSite (accounts s) (telemetry s) u (game s) (outbox s) (tls s) (issue_tasks s) (processes s) (changelog s) (community s).
Definition set_game (g : Engine) (s : Site) : Site :=
  mkSite (accounts s) (telemetry s) (updates s) g (outbox s) (tls s) (issue_tasks s) (processes s) (changelog s) (community s).
Definition set_tls (t : Sys) (s : Site) : Site :=
  mkSite (accounts s) (telemetry s) (updates s) (game s) (outbox s) t (issue_tasks s) (processes s) (changelog s) (community s).
Definition set_changelog (p : ChangelogParser) (s : Site) : Site :=
  mkSite (accounts s) (telemetry s) (updates s) (game s) (outbox s) (tls s) (issue_tasks s) (processes s) p (community s).
Definition set_community (t : Community) (s : Site) : Site :=
  mkSite (accounts s) (telemetry s) (updates s) (game s) (outbox s) (tls s) (issue_tasks s) (processes s) (changelog s) t.

(** A call of a component, as a call on the whole. *)
Definition on {S A} (get : Site → S) (set : S → Site → Site) (m : PyM S A) : PyM Site A :=
  λ s, let '(r, x) := m (get s) in (r, set x s).
Definition on_accounts {A} : PyM App A → PyM Site A := on accounts set_accounts.
Definition on_client {A} : PyM Client A → PyM Site A := on (λ s, mkClient (accounts s) (outbox s)) set_client.
Definition on_web {A} : PyM Web A → PyM Site A := on (λ s, mkWeb (accounts s) (telemetry s)) set_web.
Definition on_feedback {A} : PyM Feedback A → PyM Site A :=
  on (λ s, mkFB (accounts s) (issue_tasks s) (processes s)) set_feedback.
Definition on_updates {A} : PyM Watcher A → PyM Site A := on updates set_updates.
Definition on_game {A} : PyM Engine A → PyM Site A := on game set_game.
Definition on_tls {A} : PyM Sys A → PyM Site A := on tls set_tls.
Definition on_changelog {A} : PyM ChangelogParser A → PyM Site A := on changelog set_changelog.
Definition on_community {A} : PyM Community A → PyM Site A := on community set_community.

(** * Calls *)

Inductive UiCall : Type :=
  | Dashboard | LoginPage (query : list (string * string)) | SetupPage | ObservabilityPage | FeedbackPage.
Inductive SettingsCall : Type := ReadSettings | SaveSettings (payload : dict).
Inductive PlayersCall : Type := Kick (q : PlayerRequest) | Ban (q : PlayerRequest) | Warn (text : string).
Inductive TelemetryCall : Type :=
  | Socket (ws : Z) | SocketClosed (ws : Z) | CommunityTracker
  | Logs (tail : Z) (filter_query : option string) (level : string) | DownloadLogs | NetworkTest
  | History (window : string) | Summary | FlushMetrics | PruneMetrics (days : option nat).
Inductive SystemCall : Type :=
  | Health | Ready | Version | ReadChangelog | Canonical
  | Reboot (settings : dict) (q : RebootRequest) | CancelReboot (reason : string)
  | Shutdown (seconds : Z) (message : string) | SaveWorld
  | UpdateState (force : bool) | UpdateCheck | UpdateApply (branch : option string) | DeployProgress | UpdateAck
  | TlsState | TlsUpdate (auto_renew : option bool) (cert_mode : option string) | TlsRenew (force : bool).
Inductive FeedbackCall : Type :=
  | Template (category_shortcut : string) | Submit (q : FeedbackSubmitRequest)
  | Submissions (mine : bool) (submitted_by category status : option string) (limit offset : Z).

(** One case per router. *)
Inductive Call : Type :=
  | Ui (c : UiCall) | Account (c : api_call) | Gameplay (c : SettingsCall) | Players (c : PlayersCall)
  | Observe (c : TelemetryCall) | System (c : SystemCall) | Tickets (c : FeedbackCall).

(** * Dependencies *)

Inductive Guard : Type := Open | AnyUser | Permission (p : string) | Administrator.

Definition perm_server_settings : Guard := Permission "server:settings".
Definition perm_server_reboot : Guard := Permission "server:reboot".
Definition perm_system_update : Guard := Permission "system:update".
Definition perm_view : Guard := AnyUser.
Definition perm_admin : Guard := Administrator.

Definition APP_VERSION : string := "0.5.1".

(** [SystemVersionResponse]. *)
Record SystemVersionResponse := mkVersion { sv_version : string; sv_canonical_url : string; sv_tls_active : bool }.

(** [PostUpdateAcknowledgeResponse]. *)
Record PostUpdateAcknowledgeResponse := mkAck { pa_status : string; pa_acknowledged_at : string }.

Inductive Reply : Type :=
  | OfAccount (r : response) | OfText (t : string) | OfReady (x : json * json * string)
  | OfHealth (status service timestamp : string) | OfPage (a : Answer)
  | OfVersion (r : SystemVersionResponse) | OfChangelog (r : ChangelogResponse)
  | OfReboot (x : string * Lifecycle.Request) | OfDone | OfShutdown (r : Lifecycle.Request)
  | OfUpdate (r : UpdateStatusResponse) | OfApply (r : UpdateApplyResponse) | OfProgress (r : DeploymentProgressResponse)
  | OfAck (r : PostUpdateAcknowledgeResponse)
  | OfTls (r : TLSStatusResponse) | OfTlsUpdate (r : TLSSettingsUpdateResponse) | OfRenewed (r : TLSRenewResponse)
  | OfSettings (d : dict) | OfSaved (staged : bool)
  | OfCommunity (r : CombinedTelemetryPayload) | OfDiagnostics (r : NetworkDiagnosticsResult)
  | OfLogs (l : ServerLogs) | OfHistory (h : MetricHistoryResponse) | OfSummary (r : MetricSummaryResponse)
  | OfFlush (r : MetricFlushResponse) | OfPrune (r : MetricPruneResponse)
  | OfSubmission (r : FeedbackResponse) | OfSubmissions (l : list FeedbackResponse).

Section site.
(** What the components take from outside. *)
Context `{Lifecycle.World} `{UpdateHost} (update_config : Updater.Config).
Context (answer : list Sent → Sent → result (Z * string)) (engine_config : EngineConfig).
Context (load_cert : string → option Certificate) (self_signed : string → string → string) (tmp1 tmp2 : string)
  (construct : result TlsSettings) (key_pem : string) (acme : result ACMECertificateResult) (web_port : Z).
Context (error_text : exc → string) (ini : IniFile) (readiness : result bool).
Context (user_search : string → string → option bool) (files : list (string * option (result (list string))))
  (is_posix : bool) (journal : nat → list string) (template : string → option string).
Context (clock : datetime) (flush_fault query_fault : Fault) (retention_days : nat) (deploy_log : option string) (pid : Z).
Context (ssl_home : string) (is_file : string → bool) (load_cert_chain : string → string → bool) (ssl_settings : SslSettings).
Context (changelog_files : Files) (changelog_candidates : list string) (changelog_first : string).
Context (identity_domain identity_name stem suffix : string) (fmt1 : Z → string) (thousandths : pyfloat → Z)
  (surroundings : Surroundings) (tracker_settings : TrackerSettings) (github_repo_url : string).
Context (env : Env).

Notation NOW := (e_now env).
Notation STAMP := (e_iso env).
Notation SECRET := (e_secret env).
Notation REQUEST := (e_request env).

Definition check_guard (g : Guard) : PyM App Datatypes.unit :=
  match g with
  | Open => py_ret tt
  | AnyUser => current_user env ;;; py_ret tt
  | Permission p => require_permission p NOW STAMP SECRET REQUEST ;;; py_ret tt
  | Administrator => require_admin NOW STAMP SECRET REQUEST ;;; py_ret tt
  end.

Definition reply {A} (m : PyM Site A) (k : A → Reply) : PyM Site Reply := a <- m ;; py_ret (k a).

(** [Depends(g)], and then the body if the request is valid. *)
Definition guarded (g : Guard) (valid : bool) (m : PyM Site Reply) : PyM Site Reply :=
  on_accounts (check_guard g) ;;;
  if valid then m else py_raise (HTTPException 422 "Unprocessable Entity").

(** * The bodies of the endpoints that only hand over to a component *)

Definition health_check : Reply := OfHealth "healthy" "palworld-web-manager" STAMP.
Definition get_system_version : PyM Site SystemVersionResponse :=
  s <- py_get ;;
  py_ret (mkVersion APP_VERSION (_resolve_canonical_url (duckdns_domain (router_settings (tls s))) web_port)
    (bool_decide (is_Some (resolve_ssl_paths ssl_home is_file load_cert_chain ssl_settings)))).
Definition get_changelog : PyM ChangelogParser ChangelogResponse :=
  Changelog.parse APP_VERSION changelog_candidates changelog_first changelog_files None.
Definition get_system_update_status (force : bool) : PyM Watcher UpdateStatusResponse :=
  if force then check_for_updates update_config NOW STAMP else get_status update_config NOW.
Definition check_system_update_on_demand : PyM Watcher UpdateStatusResponse := check_for_updates update_config NOW STAMP.
Definition apply_system_update (payload : option string) : PyM Watcher UpdateApplyResponse :=
  apply_update update_config pid NOW STAMP (Some (default (branch update_config) payload)).
Definition acknowledge_system_update : PyM Watcher PostUpdateAcknowledgeResponse :=
  acknowledge_last_update ;;; py_ret (mkAck "success" STAMP).

(** [run_network_diagnostics_test] after its permission. *)
Definition run_network_diagnostics_test : PyM Site NetworkDiagnosticsResult :=
  m <- on_client (get_engine_metrics answer engine_config) ;;
  on_community (network_test fmt1 thousandths surroundings m).
Definition get_community_tracker_data : PyM Community CombinedTelemetryPayload :=
  combined_telemetry identity_domain identity_name stem suffix surroundings tracker_settings.

(** * The routers *)

(** routers/ui.py *)
Definition route_ui (c : UiCall) : PyM Site Reply :=
  match c with
  | Dashboard => reply (on_accounts (serve_dashboard NOW STAMP SECRET REQUEST template)) OfPage
  | LoginPage query => reply (on_accounts (serve_login_page NOW STAMP SECRET REQUEST template query)) OfPage
  | SetupPage => py_ret (OfPage serve_setup_page)
  | ObservabilityPage => py_ret (OfPage (serve_observability_dashboard template))
  | FeedbackPage => py_ret (OfPage (serve_feedback_page template))
  end.

(** routers/settings.py *)
Definition route_settings (c : SettingsCall) : PyM Site Reply :=
  match c with
  | ReadSettings => reply (lift (get_settings_data error_text ini)) OfSettings
  | SaveSettings payload =>
      guarded perm_server_settings true
        (reply (on_game (save_sanitized_settings error_text ini payload readiness)) OfSaved)
  end.

(** routers/players.py *)
Definition route_players (c : PlayersCall) : PyM Site Reply :=
  match c with
  | Kick q => reply (on_client (handle_kick answer engine_config STAMP NOW STAMP SECRET REQUEST q)) OfText
  | Ban q => reply (on_client (handle_ban answer engine_config STAMP NOW STAMP SECRET REQUEST q)) OfText
  | Warn text => reply (on_client (handle_warn answer engine_config STAMP NOW STAMP SECRET REQUEST text)) OfText
  end.

(** routers/telemetry.py *)
Definition route_telemetry (c : TelemetryCall) : PyM Site Reply :=
  match c with
  | Socket ws => reply (on_game (register_socket ws)) (λ _, OfDone)
  | SocketClosed ws => reply (on_game (unregister_socket ws)) (λ _, OfDone)
  | CommunityTracker => reply (on_community get_community_tracker_data) OfCommunity
  | Logs tail q level =>
      reply (on_accounts (get_logs NOW STAMP SECRET REQUEST user_search files is_posix journal tail q level)) OfLogs
  | DownloadLogs =>
      reply (on_accounts (download_logs NOW STAMP SECRET REQUEST user_search files is_posix journal)) OfText
  | NetworkTest => guarded perm_admin true (reply run_network_diagnostics_test OfDiagnostics)
  | History w =>
      if valid_window w then
        reply (on_web (get_metrics_history NOW STAMP SECRET REQUEST clock flush_fault query_fault w)) OfHistory
      else guarded perm_view false (py_ret OfDone)
  | Summary => reply (on_web (get_metrics_summary NOW STAMP SECRET REQUEST clock flush_fault query_fault)) OfSummary
  | FlushMetrics => reply (on_web (flush_metrics NOW STAMP SECRET REQUEST flush_fault)) OfFlush
  | PruneMetrics days =>
      if valid_days days then
        reply (on_web (prune_metrics NOW STAMP SECRET REQUEST clock query_fault retention_days days)) OfPrune
      else guarded perm_admin false (py_ret OfDone)
  end.

(** routers/system.py *)
Definition route_system (c : SystemCall) : PyM Site Reply :=
  match c with
  | Health => py_ret health_check
  | Ready => reply (on_client (readiness_check answer (λ s, s) engine_config)) OfReady
  | Version => guarded perm_view true (reply get_system_version OfVersion)
  | ReadChangelog => guarded perm_view true (reply (on_changelog get_changelog) OfChangelog)
  | Canonical =>
      s <- py_get ;;
      py_ret (OfPage (RedirectTo (redirect_canonical (duckdns_domain (router_settings (tls s))) web_port) 307))
  | Reboot settings q =>
      guarded perm_server_reboot (valid_reboot q) (reply (on_game (trigger_reboot ini settings (reboot_call q))) OfReboot)
  | CancelReboot reason =>
      guarded perm_server_reboot (at_most 200 reason) (reply (on_game (cancel_reboot (sanitize_reason reason))) (λ _, OfDone))
  | Shutdown seconds message =>
      guarded perm_server_reboot (valid_shutdown seconds message)
        (reply (on_game (shutdown_server seconds message)) OfShutdown)
  | SaveWorld => reply (on_client (manual_world_save answer engine_config NOW STAMP SECRET REQUEST)) OfText
  | UpdateState force => guarded perm_view true (reply (on_updates (get_system_update_status force)) OfUpdate)
  | UpdateCheck => guarded perm_system_update true (reply (on_updates check_system_update_on_demand) OfUpdate)
  | UpdateApply branch =>
      guarded perm_system_update (match branch with Some b => valid_apply_request b | None => true end)
        (reply (on_updates (apply_system_update branch)) OfApply)
  | DeployProgress => guarded perm_view true (reply (on_updates (get_deployment_progress NOW deploy_log)) OfProgress)
  | UpdateAck => guarded perm_system_update true (reply (on_updates acknowledge_system_update) OfAck)
  | TlsState => guarded perm_admin true (reply (on_tls (get_tls_status load_cert web_port NOW)) OfTls)
  | TlsUpdate auto_renew cert_mode =>
      guarded perm_admin
        (match cert_mode with
         | Some m => bool_decide (m ∈ ["letsencrypt"; "self_signed"; "custom"]%string)
         | None => true
         end)
        (reply (on_tls (update_tls_settings load_cert self_signed tmp1 tmp2 web_port construct NOW key_pem acme auto_renew cert_mode))
           OfTlsUpdate)
  | TlsRenew force =>
      guarded perm_admin true
        (reply (on_tls (trigger_tls_renewal load_cert self_signed tmp1 tmp2 web_port NOW key_pem acme force)) OfRenewed)
  end.

(** routers/feedback.py *)
Definition route_feedback (c : FeedbackCall) : PyM Site Reply :=
  match c with
  | Template category_shortcut =>
      reply (lift (redirect_to_github_template github_repo_url category_shortcut)) (λ url, OfPage (RedirectTo url 307))
  | Submit q => reply (on_feedback (submit_feedback NOW STAMP SECRET REQUEST q)) OfSubmission
  | Submissions mine by_user category status limit offset =>
      reply (on_feedback (list_feedback_submissions NOW STAMP SECRET REQUEST mine by_user category status limit offset))
        OfSubmissions
  end.

(** The application: its routers. *)
Definition route (c : Call) : PyM Site Reply :=
  match c with
  | Ui c => route_ui c
  | Account a => reply (on_accounts (serve env a)) OfAccount
  | Gameplay c => route_settings c
  | Players c => route_players c
  | Observe c => route_telemetry c
  | System c => route_system c
  | Tickets c => route_feedback c
  end.

(** * What each endpoint is meant to ask for *)

(** The specification: it is no part of the program. *)
Definition required (c : Call) : Guard :=
  match c with
  | Ui _ => Open
  | Account (GetBootstrap | AckBootstrap | Login _ | UserRoutes.Register _ | Logout) => Open
  | Account Me => AnyUser
  | Account (AuditTrail _ _ | ListUsers | CreateUser _ | UpdateUser _ _ | UpdateRole _ _ | DeleteUser _) =>
      Permission "users:manage"
  | Gameplay ReadSettings => Open
  | Gameplay (SaveSettings _) => Permission "server:settings"
  | Players (Kick _) => Permission "player:kick"
  | Players (Ban _) => Permission "player:ban"
  | Players (Warn _) => Permission "player:broadcast"
  | Observe (Socket _ | SocketClosed _ | CommunityTracker) => Open
  | Observe (Logs _ _ _ | DownloadLogs) => Permission "logs:view"
  | Observe (History _ | Summary) => AnyUser
  | Observe (NetworkTest | FlushMetrics | PruneMetrics _) => Administrator
  | System (Health | Ready | Canonical) => Open
  | System (Version | ReadChangelog | UpdateState _ | DeployProgress) => AnyUser
  | System (Reboot _ _ | CancelReboot _ | Shutdown _ _ | SaveWorld) => Permission "server:reboot"
  | System (UpdateCheck | UpdateApply _ | UpdateAck) => Permission "system:update"
  | System (TlsState | TlsUpdate _ _ | TlsRenew _) => Administrator
  | Tickets (Template _ | Submissions _ _ _ _ _ _) => Open
  | Tickets (Submit _) => Permission "feedback:submit"
  end.

Lemma check_guard_state g a : (check_guard g a).2 = a.
Proof using.
  destruct g; cbn [check_guard]; [done|..]; unfold py_bind.
  - unfold current_user. pose proof (get_current_user_state NOW STAMP SECRET REQUEST a) as E.
    by destruct (get_current_user _ _ _ _ a) as [[u|e] a'].
  - pose proof (require_permission_state p NOW STAMP SECRET REQUEST a) as E.
    by destruct (require_permission _ _ _ _ _ a) as [[u|e] a'].
  - unfold require_admin, py_bind. pose proof (get_current_user_state NOW STAMP SECRET REQUEST a) as E.
    destruct (get_current_user _ _ _ _ a) as [[u|e] a']; [|done]. by destruct (String.eqb _ _).
Qed.

(** What a failing guard says of the dependency behind it. *)
Lemma guard_fails g a e :
  (check_guard g a).1 = Raise e →
  match g with
  | Open => False
  | AnyUser => get_current_user NOW STAMP SECRET REQUEST a = (Raise e, a)
  | Permission p => require_permission p NOW STAMP SECRET REQUEST a = (Raise e, a)
  | Administrator => require_admin NOW STAMP SECRET REQUEST a = (Raise e, a)
  end.
Proof using.
  pose proof (check_guard_state g a) as Hs. revert Hs.
  destruct g; cbn [check_guard]; [done|..]; unfold current_user, py_bind;
    match goal with |- context [match ?m with _ => _ end] => destruct m as [[u|e'] a'] end; cbn; congruence.
Qed.

Lemma guarded_fails g valid m s e :
  (check_guard g (accounts s)).1 = Raise e → guarded g valid m s = (Raise e, s).
Proof using.
  intros H1. pose proof (check_guard_state g (accounts s)) as Hs. unfold guarded, py_bind, on_accounts, on.
  destruct (check_guard g (accounts s)) as [[u|e'] a']; cbn in H1, Hs; [done|].
  injection H1 as ->. subst a'. by destruct s.
Qed.

(** An endpoint refuses a request whose dependency fails. *)
Definition refuses (c : Call) (m : PyM Site Reply) : Prop :=
  ∀ s e, (check_guard (required c) (accounts s)).1 = Raise e → m s = (Raise e, s).

(** An endpoint whose component checks the permission: the handler is unfolded up to
    its dependency, which fails. *)
Ltac refused :=
  let s := fresh "s" in let Hg := fresh "Hg" in intros s ? Hg;
  apply guard_fails in Hg; cbn [required] in Hg; destruct s;
  unfold reply, on_accounts, on_client, on_web, on_feedback, on, serve, handle_kick, handle_ban, handle_warn,
    manual_world_save, perm, GameApi.on_app, get_logs, download_logs, get_metrics_history, get_metrics_summary,
    flush_metrics, prune_metrics, submit_feedback, Feedback.on_app, on_account, UserRoutes.current_user,
    UserRoutes.perm_users_manage, py_bind in *;
  cbn [accounts w_app GameApi.app Feedback.app] in *; rewrite Hg; done.
(** An endpoint that declares its dependency, or one without any. *)
Ltac declared := intros ? ? Hg; by apply guarded_fails.
Ltac unguarded := intros ? ? Hg; by apply guard_fails in Hg.
Ltac refuse :=
  cbn [route_players route_system route_telemetry route_settings route_feedback]; first [unguarded | declared | refused].

Lemma account_refuses a : refuses (Account a) (reply (on_accounts (serve env a)) OfAccount).
Proof using. destruct a; refuse. Qed.
Lemma players_refuse c : refuses (Players c) (route_players c).
Proof using. destruct c; refuse. Qed.
Lemma telemetry_refuses c : refuses (Observe c) (route_telemetry c).
Proof using.
  destruct c; cbn [route_telemetry]; try refuse.
  - destruct (valid_window _); refuse.
  - destruct (valid_days _); refuse.
Qed.
Lemma system_refuses c : refuses (System c) (route_system c).
Proof using. destruct c; refuse. Qed.

(** When the dependency that the specification names refuses the request, the
    endpoint refuses it with the same error and no part of the suite has changed. *)
Lemma route_refuses c : refuses c (route c).
Proof using.
  destruct c as [c|a|c|c|c|c|c]; cbn [route].
  - unguarded.
  - apply account_refuses.
  - destruct c; refuse.
  - apply players_refuse.
  - apply telemetry_refuses.
  - apply system_refuses.
  - destruct c; refuse.
Qed.

(** What a user needs for a guard, and the answer without it. *)
Definition granted (u : UserRecord) (a : App) (g : Guard) : Prop :=
  match g with
  | Open | AnyUser => True
  | Permission p =>
      u_role u = "admin"%string ∨ "*"%string ∈ permissions_of (u_id u) (db a) ∨ p ∈ permissions_of (u_id u) (db a) ∨
      p ∈ DEFAULT_ROLE_PERMISSIONS (u_role u)
  | Administrator => u_role u = "admin"%string
  end.
Definition refusal (g : Guard) : exc :=
  match g with
  | Permission p => forbidden p
  | _ => HTTPException 403 "Forbidden: Administrator role required."
  end.

(** C3: The permissions are enforced: a user whose role and stored permissions do
    not grant what the specification [required] asks for an endpoint gets 403 from
    it, naming that permission, with whatever arguments it is called, and no part
    of the suite has changed. *)
Theorem permissions_enforced c s u :
  get_current_user NOW STAMP SECRET REQUEST (accounts s) = (Ret u, accounts s) →
  ¬ granted u (accounts s) (required c) →
  route c s = (Raise (refusal (required c)), s).
Proof using.
  intros Hu Hg. apply route_refuses. destruct (required c) as [| |p|]; cbn [granted refusal] in *; try tauto;
    cbn [check_guard]; unfold py_bind.
  - pose proof (require_permission_exact p NOW STAMP SECRET REQUEST (accounts s)) as H1. rewrite Hu in H1.
    rewrite H1, bool_decide_false by done. done.
  - unfold require_admin, py_bind. rewrite Hu. by destruct (String.eqb_spec (u_role u) "admin").
Qed.

(** * What a stranger can reach *)

(** A request without credentials that does not claim to come from the host. *)
Definition anonymous : Prop :=
  presented_token REQUEST = None ∧ presented_basic REQUEST = None ∧ ¬ presents_loopback REQUEST.

(** What an open endpoint may change: the account store in three of them, what was
    sent to the game in the readiness probe, the tracker in its own endpoint, the
    list of sockets in the stream. *)
Definition account_entry (c : Call) : bool :=
  match c with Account (AckBootstrap | Login _ | UserRoutes.Register _) => true | _ => false end.
Definition is_stream (c : Call) : bool := match c with Observe (Socket _ | SocketClosed _) => true | _ => false end.

(** The difference that a stranger's call may make. *)
Record stranger_frame (c : Call) (s s' : Site) : Prop := {
  sf_telemetry : telemetry s' = telemetry s;
  sf_updates : updates s' = updates s;
  sf_tls : tls s' = tls s;
  sf_tasks : issue_tasks s' = issue_tasks s;
  sf_processes : processes s' = processes s;
  sf_changelog : changelog s' = changelog s;
  sf_game : game s' = set_sockets (active_sockets (game s')) (game s);
  sf_sockets : is_stream c = false → game s' = game s;
  sf_accounts : account_entry c = false → accounts s' = accounts s;
  sf_outbox : c ≠ System Ready → outbox s' = outbox s;
  sf_community : c ≠ Observe CommunityTracker → community s' = community s }.

Lemma frame_refl c s : stranger_frame c s s.
Proof using. split; try done. by destruct (game s). Qed.

Lemma optional_user_state a : (get_current_user_optional NOW STAMP SECRET REQUEST a).2 = a.
Proof using.
  unfold get_current_user_optional, py_try, py_bind. pose proof (get_current_user_state NOW STAMP SECRET REQUEST a) as E.
  destruct (get_current_user _ _ _ _ a) as [[u|e] a']; cbn in E; subst a'; [done|]. by destruct e.
Qed.

Lemma readiness_keeps_app a :
  preserves (λ c, GameApi.app c = a) (readiness_check answer (λ s, s) engine_config).
Proof using.
  assert (Hhttp : ∀ x, preserves (λ c, GameApi.app c = a) (GameApi.http answer x)) by (intros x c Hc; exact Hc).
  unfold readiness_check, check_readiness, on_http, api_get.
  apply preserves_bind; [apply preserves_try|].
  - apply preserves_bind; [apply Hhttp|]. intros res. case_match; [|case_match; by intros c Hc].
    repeat (apply preserves_bind; [apply preserves_lift|intros ?]). by intros c Hc.
  - intros e. destruct e; by intros c Hc.
  - intros r. case_match; by intros c Hc.
Qed.

Lemma listing_state mine by_user category status limit offset f :
  (list_feedback_submissions NOW STAMP SECRET REQUEST mine by_user category status limit offset f).2 = f.
Proof using.
  unfold list_feedback_submissions. destruct (negb _); [done|]. unfold py_bind at 1.
  assert (Hrest : ∀ u, ((if negb (int64 limit && int64 offset) then py_raise OverflowError else
      records <- Feedback.on_app (on_db (list_feedbacks limit offset u category status)) ;; lift (list_all records)) f).2 = f).
  { intros u. destruct (negb _); [done|]. unfold py_bind, Feedback.on_app, on_db, list_feedbacks, py_bind, py_get, py_ret, lift.
    destruct f as [[d b x] tk sp]. cbn. by destruct (list_all _). }
  destruct mine; [|apply Hrest].
  unfold Feedback.on_app at 1, py_bind at 1. pose proof (optional_user_state (Feedback.app f)) as E.
  destruct (get_current_user_optional _ _ _ _ _) as [[[u|]|e] a']; cbn [snd] in E; subst a'; destruct f; try done.
  exact (Hrest (Some (u_username u))).
Qed.

(** The state that a call leaves. *)
Lemma reply_on {S A} (get : Site → S) (set : S → Site → Site) (m : PyM S A) k s :
  (reply (on get set m) k s).2 = set (m (get s)).2 s.
Proof using. unfold reply, py_bind, on. by destruct (m (get s)) as [[x|e] a]. Qed.
Lemma reply_lift {A} (r : result A) k s : (reply (lift r) k s).2 = s.
Proof using. by destruct r. Qed.

(** A page that only asks who the user is. *)
Lemma optional_then {A} (k : option UserRecord → PyM App A) a :
  (∀ u a', (k u a').2 = a') → ((u <- get_current_user_optional NOW STAMP SECRET REQUEST ;; k u) a).2 = a.
Proof using.
  intros Hk. unfold py_bind. pose proof (optional_user_state a) as E.
  destruct (get_current_user_optional _ _ _ _ a) as [[u|e] a']; cbn [snd] in *; by rewrite ?Hk.
Qed.

Lemma set_accounts_id s : set_accounts (accounts s) s = s.
Proof using. by destruct s. Qed.

(** The open endpoints of each router. *)
Lemma ui_frame c s : (route_ui c s).2 = s.
Proof using.
  destruct c; cbn [route_ui]; try done; unfold on_accounts; rewrite reply_on.
  - unfold serve_dashboard. rewrite optional_then by (by intros [u|] a). apply set_accounts_id.
  - unfold serve_login_page. rewrite optional_then by (by intros [u|] a). apply set_accounts_id.
Qed.

Lemma account_frame a s :
  required (Account a) = Open → stranger_frame (Account a) s (reply (on_accounts (serve env a)) OfAccount s).2.
Proof using.
  intros Hg. unfold on_accounts. rewrite reply_on. split; try done; [by destruct s, game|]. intros Ha.
  cbn [accounts set_accounts]. destruct a; try done; cbn [serve].
  unfold get_bootstrap_credentials, get_bootstrap_state, py_bind, py_get. cbn. by destruct (is_pending _).
Qed.

Lemma telemetry_frame c s : required (Observe c) = Open → stranger_frame (Observe c) s (route_telemetry c s).2.
Proof using.
  intros Hg. destruct c; try done; cbn [route_telemetry]; unfold on_game, on_community; rewrite reply_on;
    split; try done; cbn -[set_sockets]; try (by destruct (game s)).
  unfold register_socket, py_modify. cbn -[set_sockets]. case_decide; by destruct (game s).
Qed.

Lemma system_frame c s : required (System c) = Open → stranger_frame (System c) s (route_system c s).2.
Proof using.
  intros Hg. destruct c; try done; cbn [route_system]; try apply frame_refl.
  unfold on_client. rewrite reply_on.
  pose proof (readiness_keeps_app (accounts s) (mkClient (accounts s) (outbox s)) eq_refl) as E.
  split; try done; by destruct s, game.
Qed.

Lemma feedback_frame c s : required (Tickets c) = Open → (route_feedback c s).2 = s.
Proof using.
  intros Hg. destruct c; try done; cbn [route_feedback].
  - apply reply_lift.
  - unfold on_feedback. rewrite reply_on, listing_state. by destruct s.
Qed.

Lemma open_frame c s : required c = Open → stranger_frame c s (route c s).2.
Proof using.
  destruct c as [c|a|c|c|c|c|c]; cbn [route]; intros Hg.
  - rewrite ui_frame. apply frame_refl.
  - by apply account_frame.
  - destruct c; [|done]. cbn [route_settings]. rewrite reply_lift. apply frame_refl.
  - by destruct c.
  - by apply telemetry_frame.
  - by apply system_frame.
  - rewrite feedback_frame by done. apply frame_refl.
Qed.

End site.

(** * Observations *)

(** A viewer's session, and a request that presents nothing. *)
Definition viewed : App :=
  mkApp (run_call (CallCreateUser "2024-01-01" "ann" "h" "s" "" "viewer" true) example_db) bootstrap_initial [].
Definition as_ann : Access.Request :=
  mkRequest [] [("pal_session_token", generate_session_token 0 [1]%Z "ann" "k" 60)]%string (Some "203.0.113.9"%string).
Definition env_of (q : Access.Request) : Env := mkEnv 5 "t" "t2" [] [] "k" q.

(** A tracker that no service and no server answers. *)
Definition example_tracker : Community :=
  mkCommunity (scraper_init Tls.fresh) (mkPocketpair false (JStr "") (JStr "") (JStr "") 0) initial_a2s
    (mkDns (JStr "Detecting...") "Unresolved") (Tracker.mkNet [] [] [] []).
Definition quiet : Surroundings :=
  mkSurroundings (λ _, "?"%string) 1000 "now" "now" true (Raise (HTTPError "ConnectError")) None (Raise (HTTPError "ConnectError"))
    "192.168.1.4" None [] None (λ _ _, (0, 0, 0)) None None.
Definition example_site : Site :=
  mkSite viewed fresh_telemetry example_watcher (fresh_engine [] []) [] (example_sys "letsencrypt" true Tls.fresh) [] []
    (mkParser None None) example_tracker.

Definition example_route (q : Access.Request) : Call → PyM Site Reply :=
  @route Lifecycle.example_world (example_host true) example_config GameApi.example_answer example_cfg
    example_cert example_self "t1" "t2" (Ret daily) "key" issued 8080 (λ _, ""%string) Missing (Ret true)
    (λ _ _, Some true) [] true (λ _, []) (λ _, None) (noon 6) NoFault NoFault 30%nat None 7
    "/root" (λ _, false) (λ _ _, false) (mkSsl "" "" "" true "")
    (example_files 1 "## 1.0") [] "CHANGELOG.md" "my.duckdns.org" "Pal" "log_session" ".json" str_of_Z (λ _, 0) quiet
    (Tracker.mkSettings "127.0.0.1" 8211 27015 "" 25575 false 8212) "https://github.com/a/b" (env_of q).

(** A viewer sees the version of the suite and its changelog, and may neither stop
    the server, nor run the network test, nor see the state of the certificates. *)
Lemma permissions_enforced_witness :
  let admin_only := HTTPException 403 "Forbidden: Administrator role required." in
  let stop := System (Shutdown 60 "maintenance") in
  example_route as_ann stop example_site = (Raise (forbidden "server:reboot"), example_site) ∧
  example_route as_ann (System TlsState) example_site = (Raise admin_only, example_site) ∧
  example_route as_ann (Observe NetworkTest) example_site = (Raise admin_only, example_site) ∧
  (example_route as_ann (System Version) example_site).1 =
    Ret (OfVersion (mkVersion "0.5.1" "https://my.duckdns.org:8080" false)) ∧
  is_Some (_cached (changelog (example_route as_ann (System ReadChangelog) example_site).2)).
Proof.
  intros admin_only stop. unfold example_route. split_and!.
  - eapply (permissions_enforced (H := Lifecycle.example_world) (H0 := example_host true)); [vm_compute; reflexivity|].
    intros [H|[H|[H|H]]]; [vm_compute in H; discriminate|..];
      apply (bool_decide_eq_true_2 _) in H; vm_compute in H; discriminate.
  - eapply (permissions_enforced (H := Lifecycle.example_world) (H0 := example_host true)); [vm_compute; reflexivity|].
    intros H. vm_compute in H. discriminate.
  - eapply (permissions_enforced (H := Lifecycle.example_world) (H0 := example_host true)); [vm_compute; reflexivity|].
    intros H. vm_compute in H. discriminate.
  - vm_compute. reflexivity.
  - vm_compute. by eexists.
Defined.

Lemma from_anywhere_anonymous : anonymous (env_of from_anywhere).
Proof.
  split_and!; [by vm_compute..|]. intros H. apply (bool_decide_eq_true_2 _) in H. vm_compute in H. discriminate.
Qed.

