(* ===== verification/Audits.v ===== *)
(** The repository's own checks: the scanner for secrets (scripts/scan_secrets.py),
    the audit of project-wide suppressions (scripts/audit_suppressions.py) and the
    audit of exception handlers (scripts/audit_exceptions.py).

    What reading a file gives is an argument, as are the tree of a Python file and
    the value of a TOML file, which libraries parse, and the text of an exception.
    Patterns are read on ASCII. *)

From S2P Require Import Prelude PyStr PyRe PyDict PyJson.
From Stdlib Require Import ZArith Ascii Bool Lia.
From stdpp Require Import base tactics list strings.

Local Open Scope Z_scope.
Local Open Scope py_scope.

(** * Secrets *)

Module Secrets.

Definition SAFE_ALLOWLIST : list string :=
  ["admin_password"; "test_password"; "your_duckdns_token"; "your_subdomain"; "yourdomain.duckdns.org";
   "https://discord.com/api/webhooks/12345/abcdef"; "5b834ae0-822a-439f-b087-9ac42a16ac63"; "MySecretPassword123";
   "SecureAdminPassword123"; "SecretPassword123"; "HackedPassword"; "dXNlcjpwYXNz"; "[REDACTED]"; "[REDACTED_UUID]"].

(** [p{n}] and [p{0,n}]. *)
Fixpoint exactly (n : nat) (p : ascii → bool) : re := match n with O => Lit "" | S n => Cls p ·· exactly n p end.
Fixpoint up_to (n : nat) (p : ascii → bool) : re := match n with O => Lit "" | S n => Opt (Cls p ·· up_to n p) end.

Definition one_of (cs : string) (c : ascii) : bool := str_contains (String c "") cs.
Definition is_quote (c : ascii) : bool := Ascii.eqb c dquote || Ascii.eqb c "'".
Definition is_hex (c : ascii) : bool := is_digit c || in_range 97 102 (lower_char c).
Definition is_token (c : ascii) : bool := is_alnum c || one_of "_-" c.
Definition is_word (c : ascii) : bool := is_alnum c || Ascii.eqb c "_".
Fixpoint any_of (w : string) (ws : list string) (f : string → re) : re :=
  match ws with [] => f w | v :: ws => Alt (f w) (any_of v ws f) end.

Definition DISCORD_WEBHOOK : re :=
  Lit "https://" ·· Opt (any_of "ptb." ["canary."] Lit) ·· Lit "discord" ·· Opt (Lit "app") ·· Lit ".com/api/webhooks/" ··
  exactly 17 is_digit ·· up_to 3 is_digit ·· Lit "/" ·· Many is_token 60.
Definition GITHUB_TOKEN : re :=
  any_of "ghp" ["gho"; "ghu"; "ghs"; "ghr"] Lit ·· Lit "_" ·· exactly 36 is_word ·· up_to 219 is_word.
Definition PRIVATE_KEY : re :=
  Lit "-----BEGIN " ·· Opt (any_of "RSA " ["EC "; "DSA "; "OPENSSH "] Lit) ·· Lit "PRIVATE KEY-----".
Definition AWS_KEY : re :=
  any_of "AKIA" ["ABIA"; "ACCA"; "ASIA"] Lit ·· exactly 16 (λ c, is_digit c || is_upper c).
Definition DUCKDNS_TOKEN : re :=
  lit_ci "duckdns" ·· Many not_line_feed 0 ·· lit_ci "token" ·· Many is_space 0 ·· Cls (one_of ":=") ·· Many is_space 0 ··
  Opt (Cls is_quote) ··
  Group "1" (exactly 8 is_hex ·· Lit "-" ·· exactly 4 is_hex ·· Lit "-" ·· exactly 4 is_hex ·· Lit "-" ··
             exactly 4 is_hex ·· Lit "-" ·· exactly 12 is_hex) ··
  Opt (Cls is_quote).
Definition is_secret_char (c : ascii) : bool := negb (is_quote c || is_space c || Ascii.eqb c ",").
Definition PASSWORD : re :=
  any_of "admin_password" ["server_password"; "adminpassword"; "serverpassword"] lit_ci ·· Many is_space 0 ··
  Cls (one_of ":=") ·· Many is_space 0 ·· Cls is_quote ·· Group "1" (Many is_secret_char 8) ·· Cls is_quote.

Definition PASSWORD_LABEL : string := "Hardcoded Admin / Join Password Assignment".
Definition SECRET_PATTERNS : list (string * re) :=
  [("Live Discord Webhook Token", DISCORD_WEBHOOK); ("GitHub Personal Access Token", GITHUB_TOKEN);
   ("Generic Private Key Block", PRIVATE_KEY); ("AWS Access Key ID / Secret", AWS_KEY);
   ("Hardcoded DuckDNS Live Token", DUCKDNS_TOKEN); (PASSWORD_LABEL, PASSWORD)]%string.

Definition IGNORED_DIRS : list string :=
  [".git"; ".venv"; "__pycache__"; ".pytest_cache"; ".mypy_cache"; ".ruff_cache"; ".gemini"; "dist"; "build"].
Definition IGNORED_FILES : list string := ["uv.lock"].

(** [pattern.search(line)] and [match.group(0)] *)
Definition search_text (r : re) (line : string) : option string :=
  g ← re_search (Group "0" r) line; group "0" g.

Definition is_safe (matched_str : string) : bool :=
  List.existsb (λ safe_item, str_contains safe_item matched_str || str_contains matched_str safe_item) SAFE_ALLOWLIST.

(** [s[-n:]], in code points. *)
Definition last_chars (n : nat) (s : string) : string :=
  str_drop (String.length (utf8_take (Z.to_nat (utf8_len s) - n) s)) s.
Definition preview (s : string) : string := utf8_take 4 s +:+ "..." +:+ last_chars 4 s.

Definition scan_pattern (file_path : string) (line_no : nat) (line : string) (lp : string * re) : list string :=
  match search_text lp.2 line with
  | Some m =>
      if is_safe m then []
      else [file_path +:+ ":" +:+ str_of_Z (Z.of_nat line_no) +:+ " -> [" +:+ lp.1 +:+ "] Potential secret found: '" +:+ preview m +:+ "'"]
  | None => []
  end.

Definition scan_line (file_path : string) (line_no : nat) (line : string) : list string :=
  concat (List.map (scan_pattern file_path line_no line) SECRET_PATTERNS).

Section scan.
Context (error_text : exc → string).

Definition scan_file (file_path : string) (content : result string) : result (list string) :=
  match content with
  | Ret text => Ret (concat (imap (λ i line, scan_line file_path (S i) line) (splitlines text)))
  | Raise PermissionError => Ret [file_path +:+ ": Permission denied: " +:+ error_text PermissionError]
  | Raise e => if is_oserror e then Ret [file_path +:+ ": OS error: " +:+ error_text e] else Raise e
  end.

(** An entry of [root_dir.rglob]: the parts of its absolute path below the root,
    whether it is a file, and what reading it gives. *)
Record Entry := mkEntry { parts : list string; is_file : bool; content : result string }.
Definition name_of (e : Entry) : string := default "" (last (parts e)).
Definition path_of (e : Entry) : string := "/" +:+ str_join "/" (parts e).
Definition scanned (e : Entry) : bool :=
  is_file e && negb (List.existsb (λ part, bool_decide (part ∈ IGNORED_DIRS)) (parts e) || bool_decide (name_of e ∈ IGNORED_FILES)).

Fixpoint scan_all (es : list Entry) : result (nat * list string) :=
  match es with
  | [] => Ret (0%nat, [])
  | e :: es =>
      if scanned e then
        match scan_file (path_of e) (content e), scan_all es with
        | Ret vs, Ret (n, vs') => Ret (S n, vs ++ vs')
        | Raise x, _ | _, Raise x => Raise x
        end
      else scan_all es
  end.

(** The exit code of [main], and what it prints. *)
Definition main (es : list Entry) : result (Z * list string) :=
  match scan_all es with
  | Raise e => Raise e
  | Ret (n, vs) =>
      let head := "[*] Scanned " +:+ str_of_Z (Z.of_nat n) +:+ " project files for hardcoded secrets, tokens, and keys." in
      match vs with
      | [] => Ret (0, [head; "[+] Secret Scanner Passed: 0 hardcoded credentials or tokens found across all files."])
      | _ => Ret (1, head :: "[-] Secret Scanner Detected Potential Hardcoded Secrets:" :: List.map (λ v, "  - " +:+ v) vs)
      end
  end%string.
End scan.

(** ** What a search finds *)

Lemma search_none r line :
  search_text r line = None ↔ ∀ p s1 s' g, line = p +:+ s1 → ¬ derives r s1 [] s' g.
Proof.
  unfold search_text. split.
  - intros H p s1 s' g E Hd. destruct (re_search (Group "0" r) line) as [g'|] eqn:Es.
    + apply re_search_sound in Es as (q & t & t' & -> & Hg). cbn in H.
      inversion Hg; subst. by cbn in H.
    + exact (re_search_complete _ _ p s1 s' _ Es E (d_group "0" _ _ _ _ _ Hd)).
  - intros H. destruct (re_search (Group "0" r) line) as [g'|] eqn:Es; [|done].
    apply re_search_sound in Es as (q & t & t' & -> & Hg). inversion Hg; subst. exfalso. by eapply H.
Qed.

(** No occurrence of the pattern, or the leftmost one is on the list of exceptions. *)
Definition clean (r : re) (line : string) : Prop :=
  (∀ p s1 s' g, line = p +:+ s1 → ¬ derives r s1 [] s' g) ∨ ∃ m, search_text r line = Some m ∧ is_safe m = true.

Lemma scan_pattern_clean path n line lp : scan_pattern path n line lp = [] ↔ clean lp.2 line.
Proof.
  unfold scan_pattern, clean. rewrite <-search_none. destruct (search_text lp.2 line) as [m|].
  - destruct (is_safe m) eqn:E; split; try done; [by eauto|]. intros [|(m' & [= <-] & H)]; congruence.
  - split; [by left|done].
Qed.

Lemma concat_nil {A} (ls : list (list A)) : concat ls = [] ↔ ∀ l, l ∈ ls → l = [].
Proof.
  induction ls as [|l ls IH]; cbn; [split; [by intros _ l H%elem_of_nil|done]|].
  split.
  - intros [-> H]%app_nil. intros l'. rewrite elem_of_cons. intros [->|Hl]; [done|]. by apply IH.
  - intros H. apply app_nil. split; [apply H; by left|]. apply IH. intros l' Hl. apply H. by right.
Qed.

Lemma scan_line_clean path n line : scan_line path n line = [] ↔ ∀ lp, lp ∈ SECRET_PATTERNS → clean lp.2 line.
Proof.
  unfold scan_line. rewrite concat_nil. split.
  - intros H lp Hlp. apply (scan_pattern_clean path n). apply H. apply list_elem_of_In, in_map, list_elem_of_In, Hlp.
  - intros H l Hl. apply list_elem_of_In, in_map_iff in Hl as (lp & <- & Hlp%list_elem_of_In).
    by apply scan_pattern_clean, H.
Qed.

Definition clean_text (text : string) : Prop :=
  ∀ line lp, line ∈ splitlines text → lp ∈ SECRET_PATTERNS → clean lp.2 line.

Lemma scan_file_clean error_text path r :
  scan_file error_text path r = Ret [] ↔ ∃ text, r = Ret text ∧ clean_text text.
Proof.
  unfold scan_file. destruct r as [text|e].
  - split.
    + intros [= H]. exists text. split; [done|]. intros line lp Hline Hlp. rewrite concat_nil in H.
      apply list_elem_of_lookup in Hline as [i Hi]. apply (scan_line_clean path (S i)); [|done].
      apply H. apply list_elem_of_lookup. exists i. by rewrite list_lookup_imap, Hi.
    + intros (t & [= <-] & H). f_equal. apply concat_nil. intros l [i Hi]%list_elem_of_lookup.
      rewrite list_lookup_imap in Hi. destruct (splitlines text !! i) as [line|] eqn:E; [|done].
      injection Hi as <-. apply scan_line_clean. intros lp. apply H. apply list_elem_of_lookup. by exists i.
  - split; [|by intros (t & [=] & _)]. destruct e; cbn; done.
Qed.

Lemma scan_all_clean error_text es :
  (∃ n, scan_all error_text es = Ret (n, [])) ↔
  ∀ e, e ∈ es → scanned e = true → ∃ text, content e = Ret text ∧ clean_text text.
Proof.
  induction es as [|e es IH]; cbn [scan_all].
  - split; [intros _ e H; by apply elem_of_nil in H|by exists 0%nat].
  - destruct (scanned e) eqn:Es.
    + split.
      * intros [n H]. destruct (scan_file error_text (path_of e) (content e)) as [vs|x] eqn:Ef; [|done].
        destruct (scan_all error_text es) as [[k vs']|x]; [|done]. injection H as _ [-> ->]%app_nil.
        intros e'. rewrite elem_of_cons. intros [->|He] Hs; [by apply scan_file_clean in Ef|].
        apply IH; [by exists k|done|done].
      * intros H. destruct (proj2 (scan_file_clean error_text (path_of e) (content e)) (H e ltac:(by left) Es)).
        assert (∃ n, scan_all error_text es = Ret (n, [])) as [n En] by (apply IH; intros; apply H; [by right|done]).
        exists (S n). rewrite En. rewrite (proj2 (scan_file_clean error_text (path_of e) (content e)) (H e ltac:(by left) Es)). done.
    + rewrite IH. split; intros H e'; [rewrite elem_of_cons; intros [->|He]; [congruence|by apply H]|].
      intros He. apply H. by right.
Qed.

(** The scanner passes exactly when every scanned file can be read and no line of
    it holds a secret, up to the list of exceptions: for each pattern either no part
    of the line is in the language of the pattern, or the leftmost part that is
    contains or is contained in an exception. *)
Theorem scan_passes_iff error_text es :
  (∃ out, main error_text es = Ret (0, out)) ↔
  ∀ e, e ∈ es → scanned e = true → ∃ text, content e = Ret text ∧ clean_text text.
Proof.
  rewrite <-(scan_all_clean error_text). unfold main. split.
  - intros [out H]. destruct (scan_all error_text es) as [[n [|v vs]]|]; [by exists n|done|done].
  - intros [n ->]. by eexists.
Qed.

(** ** Passwords *)

Lemma longer_prefix a b m s :
  a +:+ b = m +:+ s → (String.length a ≤ String.length m)%nat → ∃ x, m = a +:+ x.
Proof.
  revert m. induction a as [|c a IH]; intros m H Hl; [exists m; by rewrite str_app_empty|].
  destruct m as [|d m]; cbn in Hl; [lia|]. rewrite !str_app_cons in H. injection H as <- H.
  destruct (IH m H) as [x ->]; [lia|]. exists x. by rewrite str_app_cons.
Qed.

(** A literal in its own case. *)
Lemma derives_ci w s g : derives (lit_ci w) (w +:+ s) g s g.
Proof.
  induction w as [|c w IH]; cbn [lit_ci].
  - apply (d_lit "").
  - rewrite str_app_cons. econstructor; [|exact IH]. constructor. apply Ascii.eqb_refl.
Qed.

(** C40: On a line that begins with admin_password, in lower case, followed by a
    separator and a quoted literal of at least eight characters of the pattern's class,
    the scanner's pattern for passwords reports nothing, whatever the literal is: the
    text that it matches holds the name, which is one of the exceptions.  The scanner's
    other patterns, and the name in capitals, are not concerned. *)
Theorem admin_password_never_reported path n sp1 op sp2 q1 secret q2 rest :
  str_all is_space sp1 = true → one_of ":=" op = true → str_all is_space sp2 = true →
  is_quote q1 = true → str_all is_secret_char secret = true → (8 ≤ String.length secret)%nat → is_quote q2 = true →
  scan_pattern path n ("admin_password" +:+ sp1 +:+ String op (sp2 +:+ String q1 (secret +:+ String q2 rest)))
    (PASSWORD_LABEL, PASSWORD) = [].
Proof.
  intros H1 H2 H3 H4 H5 H6 H7. set (line := "admin_password" +:+ _).
  assert (Hd : derives (Group "0" PASSWORD) line [] rest
    [("0", before line rest); ("1", before (secret +:+ String q2 rest) (String q2 rest))]).
  { apply d_group. unfold PASSWORD, line, any_of.
    econstructor; [apply d_alt_l, derives_ci|]. econstructor; [by apply d_many; cbn; [|lia]|].
    econstructor; [by apply d_cls|]. econstructor; [by apply d_many; cbn; [|lia]|].
    econstructor; [by apply d_cls|]. econstructor; [|by apply d_cls]. apply d_group. by apply d_many. }
  apply re_match_complete in Hd as [g Hg].
  unfold scan_pattern, search_text. cbn [snd].
  assert (Es : re_search (Group "0" PASSWORD) line = Some g) by (destruct line; cbn [re_search]; by rewrite Hg).
  rewrite Es. cbn [mbind option_bind]. apply re_match_sound in Hg as [s' Hg]. inversion Hg as [| | | | | | | |? ? ? ? ? g' Hp|]; subst.
  cbn [group]. rewrite String.eqb_refl.
  pose proof (derives_length _ _ _ _ _ Hp) as Hl. destruct (derives_prefix _ _ _ _ _ Hp) as [m Hm].
  rewrite Hm, before_app. rewrite Hm, str_length_app in Hl.
  destruct (longer_prefix "admin_password" (sp1 +:+ String op (sp2 +:+ String q1 (secret +:+ String q2 rest))) m s' Hm) as [x ->].
  { change (min_len PASSWORD) with 24%nat in Hl. change (String.length "admin_password") with 14%nat. lia. }
  unfold is_safe, SAFE_ALLOWLIST. cbn [List.existsb]. by rewrite str_contains_prefix.
Qed.

(** ** Observations *)

Definition no_text (_ : exc) : string := "".
Definition py_file (dirs : list string) (text : string) : Entry := mkEntry (dirs ++ ["config.py"]) true (Ret text).
Definition quoted (s : string) : string := String dquote s +:+ String dquote "".
Definition assignment (name secret : string) : string := name +:+ " = " +:+ quoted secret.

Lemma admin_password_never_reported_witness :
  scan_file no_text "config.py" (Ret (assignment "admin_password" "hunter2hunter2")) = Ret [] ∧
  scan_file no_text "config.py" (Ret (assignment "server_password" "hunter2hunter2")) =
    Ret ["config.py:1 -> [" +:+ PASSWORD_LABEL +:+ "] Potential secret found: 'serv...er2" +:+ String dquote "'"] ∧
  scan_pattern "config.py" 1 (assignment "admin_password" "hunter2hunter2") (PASSWORD_LABEL, PASSWORD) = [].
Proof.
  split_and!; [by vm_compute|by vm_compute|].
  exact (admin_password_never_reported "config.py" 1 " " "=" " " dquote "hunter2hunter2" dquote "" eq_refl eq_refl
    eq_refl eq_refl eq_refl ltac:(cbn; lia) eq_refl).
Defined.

(** A secret behind an exception on the same line is not seen. *)
Lemma second_secret_missed :
  scan_file no_text "config.py"
    (Ret (assignment "server_password" "MySecretPassword123" +:+ "; " +:+ assignment "server_password" "hunter2hunter2")) = Ret [].
Proof. by vm_compute. Qed.

(** A checkout below a directory called build is skipped as a whole. *)
Lemma ignored_ancestor error_text root es :
  List.existsb (λ part, bool_decide (part ∈ IGNORED_DIRS)) root = true →
  Forall (λ e, ∃ rest, parts e = root ++ rest) es →
  main error_text es =
    Ret (0, ["[*] Scanned 0 project files for hardcoded secrets, tokens, and keys.";
             "[+] Secret Scanner Passed: 0 hardcoded credentials or tokens found across all files."]%string).
Proof.
  intros Hr Hes. assert (E : scan_all error_text es = Ret (0%nat, [])); [|by unfold main; rewrite E].
  induction Hes as [|e es [rest He] Hes IH]; [done|]. cbn [scan_all]. unfold scanned.
  rewrite He, List.existsb_app, Hr. cbn [orb negb]. by rewrite andb_false_r.
Qed.

Lemma ignored_ancestor_leaks :
  main no_text [py_file ["home"; "ci"; "build"; "repo"] (assignment "server_password" "hunter2hunter2")] =
    Ret (0, ["[*] Scanned 0 project files for hardcoded secrets, tokens, and keys.";
             "[+] Secret Scanner Passed: 0 hardcoded credentials or tokens found across all files."]%string).
Proof. by vm_compute. Qed.
End Secrets.

(** * Project-wide suppressions *)

Module Suppressions.

(** The passphrase with a typographic and with a plain apostrophe. *)
Definition USER_OVERRIDE_STATEMENT : string :=
  "I solemnly swear I know what I" +:+ string_of_bytes [226; 128; 153] +:+ "m doing".
Definition USER_OVERRIDE_STATEMENT_ASCII : string := "I solemnly swear I know what I'm doing".

(** How the run of git ended: its exit code and output, or the exception. *)
Definition get_commit_message (git : result (Z * string)) : result string :=
  match git with
  | Ret (0, stdout) => Ret (str_strip stdout)
  | Ret _ => Ret ""
  | Raise SubprocessError => Ret ""
  | Raise e => if is_oserror e then Ret "" else Raise e
  end.

Definition is_passphrase_authorized (env : option string) (git : result (Z * string)) : result bool :=
  let env_phrase := str_strip (default "" env) in
  if String.eqb env_phrase USER_OVERRIDE_STATEMENT || String.eqb env_phrase USER_OVERRIDE_STATEMENT_ASCII then Ret true
  else
    match get_commit_message git with
    | Ret m => Ret (str_contains USER_OVERRIDE_STATEMENT m || str_contains USER_OVERRIDE_STATEMENT_ASCII m)
    | Raise e => Raise e
    end.

(** A TOML value: a table, or another value with its truth and its text in a message. *)
Inductive toml : Type := Table (items : list (string * toml)) | Value (truth : bool) (text : string).

Definition truth (v : toml) : bool := match v with Table items => negb (bool_decide (items = [])) | Value b _ => b end.
#[export] Instance toml_nil_dec (items : list (string * toml)) : Decision (items = []).
Proof. destruct items; [by left|by right]. Defined.

(** [d.get(key, default)]; only a table has the method. *)
Definition toml_get (key : string) (dflt : toml) (d : toml) : result toml :=
  match d with
  | Table items => Ret (default dflt (dict_get key items))
  | Value _ _ => Raise (AttributeError "object has no attribute 'get'")
  end.

Section audit.
Context (repr : toml → string) (error_text : exc → string).

(** The tables on the way, and the value under the last name. *)
Fixpoint lookup_path (path : list string) (dflt : toml) (d : toml) : result toml :=
  match path with
  | [] => Ret d
  | [k] => toml_get k dflt d
  | k :: path =>
      match toml_get k (Table []) d with Ret v => lookup_path path dflt v | Raise e => Raise e end
  end.

Definition CHECKS : list (list string * toml * (string → string)) :=
  [(["tool"; "pylint"; "messages control"; "disable"], Value false "[]",
    λ v, "[PYLINT SUPPRESSION] pyproject.toml contains project-wide disable rules: " +:+ v);
   (["tool"; "ruff"; "lint"; "ignore"], Value false "[]",
    λ v, "[RUFF SUPPRESSION] pyproject.toml contains project-wide ignore rules: " +:+ v);
   (["tool"; "mypy"; "ignore_errors"], Value false "False",
    λ _, "[MYPY SUPPRESSION] pyproject.toml has 'ignore_errors = true'");
   (["tool"; "bandit"; "skips"], Value false "[]",
    λ v, "[BANDIT SUPPRESSION] pyproject.toml has project-wide Bandit skips: " +:+ v +:+
         ". All Bandit suppressions must be inline `# nosec BXXX` annotations with justification comments.")]%string.

Fixpoint run_checks (checks : list (list string * toml * (string → string))) (data : toml) : result (list string) :=
  match checks with
  | [] => Ret []
  | (path, dflt, message) :: checks =>
      match lookup_path path dflt data with
      | Raise e => Raise e
      | Ret v =>
          match run_checks checks data with
          | Raise e => Raise e
          | Ret vs => Ret (if truth v then message (repr v) :: vs else vs)
          end
      end
  end.

(** [TOMLDecodeError] is a [ValueError]; other [ValueError]s are not caught. *)
Definition audit_pyproject_toml (exists_ : bool) (config_path : string) (read : result string)
    (parse : string → toml + string) : result (list string) :=
  if negb exists_ then Ret []
  else
    match read with
    | Raise PermissionError => Ret ["Permission denied reading " +:+ config_path +:+ ": " +:+ error_text PermissionError]
    | Raise e => if is_oserror e then Ret ["OS error reading " +:+ config_path +:+ ": " +:+ error_text e] else Raise e
    | Ret text =>
        match parse text with
        | inr m => Ret ["TOML decode error in " +:+ config_path +:+ ": " +:+ m]
        | inl data => run_checks CHECKS data
        end
    end.

(** The exit code. *)
Definition main (exists_ : bool) (config_path : string) (read : result string) (parse : string → toml + string)
    (env : option string) (git : result (Z * string)) : result Z :=
  match audit_pyproject_toml exists_ config_path read parse with
  | Raise e => Raise e
  | Ret [] => Ret 0
  | Ret _ => match is_passphrase_authorized env git with
             | Raise e => Raise e
             | Ret authorized => Ret (if authorized : bool then 0 else 1)
             end
  end.

(** ** What passes *)

(** Nothing is suppressed under a path: no table of the way is missing its method,
    and the value is absent or counts as false. *)
Definition unsuppressed (data : toml) (path : list string) (dflt : toml) : Prop :=
  ∃ v, lookup_path path dflt data = Ret v ∧ truth v = false.

Lemma run_checks_clean checks data :
  run_checks checks data = Ret [] ↔ Forall (λ c, unsuppressed data c.1.1 c.1.2) checks.
Proof.
  induction checks as [|[[path dflt] message] checks IH]; cbn [run_checks]; [done|]. rewrite Forall_cons, <-IH.
  unfold unsuppressed. cbn [fst snd]. destruct (lookup_path path dflt data) as [v|e].
  - destruct (run_checks checks data) as [vs|e].
    + destruct (truth v) eqn:Ev; split; [done|intros [(v' & [= <-] & Hv) _]; congruence| |by intros [_ [= ->]]].
      intros [= ->]. split; [by exists v|done].
    + split; [done|by intros [_ ?]].
  - split; [done|by intros [(v & ? & _) _]].
Qed.

Lemma authorized_iff env git :
  is_passphrase_authorized env git = Ret true ↔
  str_strip (default "" env) ∈ [USER_OVERRIDE_STATEMENT; USER_OVERRIDE_STATEMENT_ASCII] ∨
  (str_strip (default "" env) ∉ [USER_OVERRIDE_STATEMENT; USER_OVERRIDE_STATEMENT_ASCII] ∧
   ∃ m, get_commit_message git = Ret m ∧
     (str_contains USER_OVERRIDE_STATEMENT m = true ∨ str_contains USER_OVERRIDE_STATEMENT_ASCII m = true)).
Proof.
  unfold is_passphrase_authorized. rewrite !elem_of_cons, elem_of_nil.
  destruct (String.eqb_spec (str_strip (default "" env)) USER_OVERRIDE_STATEMENT) as [->|H1]; [cbn; tauto|].
  destruct (String.eqb_spec (str_strip (default "" env)) USER_OVERRIDE_STATEMENT_ASCII) as [->|H2]; [cbn; tauto|].
  cbn [orb]. destruct (get_commit_message git) as [m|e].
  - split; [intros [= H%orb_prop]; right; split; [tauto|by exists m]|].
    intros [[|[|[]]]|[_ (m' & [= <-] & Hm)]]; try done. f_equal. by apply orb_true_intro.
  - split; [done|]. intros [[|[|[]]]|[_ (m' & ? & _)]]; done.
Qed.

(** On a file that can be read and parsed the audit passes exactly when none of
    the four places it knows holds a suppression, or the passphrase is given in the
    environment or in the last commit message. *)
Theorem suppression_audit_exact config_path text data parse env git :
  parse text = inl data →
  main true config_path (Ret text) parse env git = Ret 0 ↔
  Forall (λ c, unsuppressed data c.1.1 c.1.2) CHECKS ∨
  (∃ vs, run_checks CHECKS data = Ret vs ∧ vs ≠ []) ∧ is_passphrase_authorized env git = Ret true.
Proof.
  intros Hp. unfold main, audit_pyproject_toml. cbn [negb]. rewrite Hp, <-run_checks_clean.
  destruct (run_checks CHECKS data) as [[|v vs]|e].
  - split; [by left|done].
  - destruct (is_passphrase_authorized env git) as [[]|e].
    + split; [|done]. intros _. right. split; [by eexists|done].
    + split; [done|]. by intros [|[_ ?]].
    + split; [done|]. by intros [|[_ ?]].
  - split; [done|]. intros [|[(vs & ? & _) _]]; done.
Qed.
End audit.

(** ** Observations *)

Definition no_repr (_ : toml) : string := "".
Definition pylint (section : string) : toml :=
  Table [("tool", Table [("pylint", Table [(section, Table [("disable", Value true "['all']")])])])]%string.

Lemma suppression_audit_exact_witness :
  main no_repr Secrets.no_text true "pyproject.toml" (Ret "") (λ _, inl (pylint "messages control")) None (Ret (0, "Fix"%string)) = Ret 1 ∧
  main no_repr Secrets.no_text true "pyproject.toml" (Ret "") (λ _, inl (pylint "messages control"))
    (Some USER_OVERRIDE_STATEMENT) (Ret (0, "Fix"%string)) = Ret 0.
Proof.
  split; [by vm_compute|].
  apply (suppression_audit_exact no_repr Secrets.no_text "pyproject.toml" "" (pylint "messages control")); [reflexivity|].
  right. split; [|by vm_compute]. eexists. split; [by vm_compute|done].
Defined.

(** The other spellings that the linters read are not seen. *)
Lemma other_spellings_pass :
  Forall (λ data, main no_repr Secrets.no_text true "pyproject.toml" (Ret "") (λ _, inl data) None (Raise OSError) = Ret 0)
    [pylint "messages_control"; pylint "MESSAGES CONTROL";
     Table [("tool", Table [("ruff", Table [("ignore", Value true "['E501']")])])];
     Table [("tool", Table [("ruff", Table [("lint", Table [("extend-ignore", Value true "['E501']")])])])]]%string.
Proof. repeat (constructor; [by vm_compute|]). constructor. Qed.

(** A table that is not one ends the audit with an exception. *)
Lemma malformed_tool_raises :
  main no_repr Secrets.no_text true "pyproject.toml" (Ret "") (λ _, inl (Table [("tool", Value true "[1]")]%string)) None
    (Ret (0, ""%string)) = Raise (AttributeError "object has no attribute 'get'").
Proof. by vm_compute. Qed.
End Suppressions.

(** * Exception handlers *)

Module Handlers.

(** What the audit reads of a statement and of a handler: the tree is the library's,
    and so is the text that [ast.unparse] makes of a part of it. *)
Inductive Stmt : Type := Pass | ExprCall (text : string) | Other.
Inductive Caught : Type := Bare | Tuple (elts : list string) (text : string) | Single (text : string).
Record ExceptHandler := mkHandler { lineno : Z; caught : Caught; body : list Stmt }.

Definition exc_name (c : Caught) : string :=
  match c with Bare => "bare except" | Tuple _ t | Single t => t end.
Definition is_pass (s : Stmt) : bool := match s with Pass => true | _ => false end.
Definition LOGGERS : list string := ["log."; "logger."; "self.handleError"; "sys.stderr.write"].
Definition is_log (s : Stmt) : bool :=
  match s with ExprCall text => List.existsb (startswith text) LOGGERS | _ => false end.

Definition audit_handler (py_file : string) (h : ExceptHandler) : list string :=
  let at_ := py_file +:+ ":" +:+ str_of_Z (lineno h) +:+ " -> " in
  match caught h with
  | Tuple elts _ =>
      [at_ +:+ "[BUNDLED EXCEPTION] Handler 'except (" +:+ str_join ", " elts +:+
       ")' bundles multiple types. Unbundle into distinct handlers."]
  | _ => []
  end ++
  (if List.existsb is_pass (body h)
   then [at_ +:+ "[EMPTY EXCEPTION] Handler 'except " +:+ exc_name (caught h) +:+ "' contains silent 'pass'."] else []) ++
  (if List.existsb is_log (body h) then []
   else [at_ +:+ "[UNLOGGED EXCEPTION] Handler 'except " +:+ exc_name (caught h) +:+
         "' does not invoke logging or error handling."]).

Section audit.
Context (error_text : exc → string).

(** The handlers of the tree in the order of [ast.walk], or how reading or parsing
    failed; [inr] is a [SyntaxError]. *)
Definition audit_exceptions_in_file (py_file : string) (tree : result (list ExceptHandler + string)) : result (list string) :=
  match tree with
  | Ret (inl hs) => Ret (concat (List.map (audit_handler py_file) hs))
  | Ret (inr m) => Ret [py_file +:+ ": Syntax error parsing AST: " +:+ m]
  | Raise PermissionError => Ret [py_file +:+ ": Permission denied: " +:+ error_text PermissionError]
  | Raise UnicodeDecodeError => Ret [py_file +:+ ": Unicode decode error reading file: " +:+ error_text UnicodeDecodeError]
  | Raise e => if is_oserror e then Ret [py_file +:+ ": OS error reading file: " +:+ error_text e] else Raise e
  end.

(** A target of the command line: a Python file, the Python files below a directory,
    or nothing that is audited. *)
Fixpoint audit_all (targets : list (string * result (list ExceptHandler + string))) : result (list string) :=
  match targets with
  | [] => Ret []
  | (py_file, tree) :: targets =>
      match audit_exceptions_in_file py_file tree with
      | Raise e => Raise e
      | Ret vs => match audit_all targets with Raise e => Raise e | Ret vs' => Ret (vs ++ vs') end
      end
  end.

Definition main (targets : list (string * result (list ExceptHandler + string))) : result Z :=
  match audit_all targets with Raise e => Raise e | Ret [] => Ret 0 | Ret _ => Ret 1 end.

(** What the rule asks of a handler. *)
Definition proper (h : ExceptHandler) : Prop :=
  (∀ elts t, caught h ≠ Tuple elts t) ∧ Pass ∉ body h ∧ ∃ text, ExprCall text ∈ body h ∧ is_log (ExprCall text) = true.

Lemma existsb_elem {A} (p : A → bool) l : List.existsb p l = true ↔ ∃ x, x ∈ l ∧ p x = true.
Proof.
  rewrite List.existsb_exists. split; intros (x & Hx & Hp); exists x; split; try done; by apply list_elem_of_In.
Qed.

Lemma audit_handler_clean py_file h : audit_handler py_file h = [] ↔ proper h.
Proof.
  unfold audit_handler, proper.
  assert (Hpass : List.existsb is_pass (body h) = false ↔ Pass ∉ body h).
  { rewrite <-not_true_iff_false, existsb_elem. split; [|intros H (s & Hs & Hp); by destruct s].
    intros H Hin. apply H. by exists Pass. }
  assert (Hlog : List.existsb is_log (body h) = true ↔ ∃ text, ExprCall text ∈ body h ∧ is_log (ExprCall text) = true).
  { rewrite existsb_elem. split; [|naive_solver]. intros (s & Hs & Hp). destruct s; try done. eauto. }
  rewrite <-Hpass, <-Hlog. destruct (caught h) as [|elts t|t], (List.existsb is_pass (body h)), (List.existsb is_log (body h));
    cbn; naive_solver.
Qed.

(** The audit passes exactly when every file can be read and parsed and each of
    its handlers catches one class, has no pass among its statements, and has a
    logging call among them. *)
Theorem handler_audit_exact targets :
  main targets = Ret 0 ↔
  Forall (λ t : string * result (list ExceptHandler + string), ∃ hs, t.2 = Ret (inl hs) ∧ Forall proper hs) targets.
Proof.
  assert (Hall : audit_all targets = Ret [] ↔
    Forall (λ t : string * result (list ExceptHandler + string), ∃ hs, t.2 = Ret (inl hs) ∧ Forall proper hs) targets).
  2: { rewrite <-Hall. unfold main. destruct (audit_all targets) as [[|v vs]|e]; done. }
  induction targets as [|[py_file tree] targets IH]; [done|]. rewrite Forall_cons, <-IH. cbn [audit_all fst snd].
  assert (Hfile : audit_exceptions_in_file py_file tree = Ret [] ↔ ∃ hs, tree = Ret (inl hs) ∧ Forall proper hs).
  { unfold audit_exceptions_in_file. destruct tree as [[hs|m]|e].
    - assert (Hc : concat (List.map (audit_handler py_file) hs) = [] ↔ Forall proper hs).
      { clear. induction hs as [|h hs IH]; cbn; [done|]. rewrite Forall_cons, <-IH, <-(audit_handler_clean py_file).
        split; [by intros [-> ->]%app_nil|by intros [-> ->]]. }
      split; [intros [= H%Hc]; by exists hs|intros (? & [= <-] & H%Hc); by rewrite H].
    - split; [done|by intros (? & ? & _)].
    - split; [|by intros (? & ? & _)]. by destruct e. }
  rewrite <-Hfile. destruct (audit_exceptions_in_file py_file tree) as [vs|e]; [|split; [done|by intros [? _]]].
  destruct (audit_all targets) as [vs'|e].
  - split; [by intros [= [-> ->]%app_nil]|by intros [[= ->] [= ->]]].
  - split; [done|by intros [_ ?]].
Qed.
End audit.

(** A silent handler inside a branch passes, and a handler that logs with the logging
    module does not. *)
Lemma nested_pass_missed :
  main Secrets.no_text [("a.py"%string, Ret (inl [mkHandler 3 (Single "OSError") [ExprCall "log.debug('x')"; Other]]))] = Ret 0 ∧
  main Secrets.no_text [("a.py"%string, Ret (inl [mkHandler 3 (Single "OSError") [ExprCall "logging.error('x')"]]))] = Ret 1.
Proof. by vm_compute. Qed.
End Handlers.
