(* ===== verification/Objects.v ===== *)
(** The objects of the game server's components: the attributes of the community
    tracker, which reads and writes some of them in dicts it holds
    (monitoring/tracker.py), and the configuration of the engine with its
    attributes (engine/service.py).

    An attribute is looked up on the instance, then on the class, then by
    [__getattr__].  What the class provides is an argument. *)

From S2P Require Import Prelude PyStr PyRe PyNum PyDict PyJson Tracker.
From Stdlib Require Import ZArith Ascii Bool Lia.
From stdpp Require Import base tactics list strings gmap.

Local Open Scope Z_scope.
Local Open Scope py_scope.

(** The falsy values of a setting are the missing and the empty ones. *)
Definition truthy (s : option string) : option string :=
  match s with Some t => if String.eqb t "" then None else s | None => None end.
Definition or_ (a b : option string) : option string := match truthy a with Some _ => a | None => b end.

(** * The tracker *)

Section tracker.
Context {V : Type}.

(** The instance's own attributes, and the containers: [None] until [__init__] has
    assigned them. *)
Record Tracker := mkTracker {
  own : gmap string V;
  scraper : option (gmap string V);
  pocketpair : option (gmap string V);
  a2s : option (gmap string V);
  dns : option (gmap string V);
  identity : option (gmap string V) }.

(** What the classes of the tracker and of its scraper provide. *)
Context (tracker_class scraper_class : string → option V).

(** The names of the containers themselves, which only [__init__] assigns. *)
Definition CONTAINERS : list string := ["scraper"; "pocketpair"; "a2s"; "dns"; "identity"].

(** [hasattr] and [getattr] of the scraper, and [key in d]. *)
Definition scraper_get (d : gmap string V) (k : string) : option V :=
  match d !! k with Some v => Some v | None => scraper_class k end.
Definition in_scraper (t : Tracker) (k : string) : bool :=
  match scraper t with Some d => bool_decide (is_Some (scraper_get d k)) | None => false end.
Definition in_dict (c : option (gmap string V)) (k : string) : bool :=
  match c with Some d => bool_decide (is_Some (d !! k)) | None => false end.

(** Where [__getattr__] and [__setattr__] find a name, tried in this order. *)
Inductive Slot : Type :=
  | InScraper (k : string) | InPocketpair (k : string) | InA2s (k : string) | InDns | InIdentity | InOwn.

#[export] Instance slot_eq_dec : EqDecision Slot.
Proof. solve_decision. Defined.

Definition slot (t : Tracker) (name : string) : Slot :=
  let log_attr := str_drop 4 name in
  let pocket_key := str_drop 11 name in
  if startswith name "log_" && in_scraper t log_attr then InScraper log_attr
  else if startswith name "pocketpair_" && in_dict (pocketpair t) pocket_key then InPocketpair pocket_key
  else if startswith name "a2s_" && in_dict (a2s t) log_attr then InA2s log_attr
  else if in_dict (dns t) name then InDns
  else if in_dict (identity t) name then InIdentity
  else InOwn.

Definition read_slot (t : Tracker) (name : string) (sl : Slot) : option V :=
  match sl with
  | InScraper k => d ← scraper t; scraper_get d k
  | InPocketpair k => d ← pocketpair t; d !! k
  | InA2s k => d ← a2s t; d !! k
  | InDns => d ← dns t; d !! name
  | InIdentity => d ← identity t; d !! name
  | InOwn => None
  end.

Definition __getattr__ (t : Tracker) (name : string) : option V := read_slot t name (slot t name).

Definition __setattr__ (name : string) (v : V) (t : Tracker) : Tracker :=
  match slot t name with
  | InScraper k => mkTracker (own t) (<[k := v]> <$> scraper t) (pocketpair t) (a2s t) (dns t) (identity t)
  | InPocketpair k => mkTracker (own t) (scraper t) (<[k := v]> <$> pocketpair t) (a2s t) (dns t) (identity t)
  | InA2s k => mkTracker (own t) (scraper t) (pocketpair t) (<[k := v]> <$> a2s t) (dns t) (identity t)
  | InDns => mkTracker (own t) (scraper t) (pocketpair t) (a2s t) (<[name := v]> <$> dns t) (identity t)
  | InIdentity => mkTracker (own t) (scraper t) (pocketpair t) (a2s t) (dns t) (<[name := v]> <$> identity t)
  | InOwn => mkTracker (<[name := v]> (own t)) (scraper t) (pocketpair t) (a2s t) (dns t) (identity t)
  end.

(** [t.name], with [None] for an [AttributeError]. *)
Definition getattr (t : Tracker) (name : string) : option V :=
  match own t !! name with
  | Some v => Some v
  | None => match tracker_class name with Some v => Some v | None => __getattr__ t name end
  end.

(** ** The attributes as variables *)

(** No name of the instance or of its class is one that the containers take. *)
Definition unshadowed (t : Tracker) : Prop :=
  ∀ name, is_Some (own t !! name) ∨ is_Some (tracker_class name) → slot t name = InOwn.

Lemma in_dict_insert c k v k' : in_dict c k = true → in_dict (<[k := v]> <$> c) k' = in_dict c k'.
Proof using.
  destruct c as [d|]; [|done]. cbn. intros Hk%bool_decide_eq_true.
  apply bool_decide_ext. destruct (decide (k = k')) as [->|Hne].
  - rewrite lookup_insert_eq. split; [done|by intros]. 
  - by rewrite lookup_insert_ne.
Qed.

Lemma scraper_get_insert d k v k' :
  scraper_get (<[k := v]> d) k' = if decide (k = k') then Some v else scraper_get d k'.
Proof using.
  unfold scraper_get. case_decide as E; [subst; by rewrite lookup_insert_eq|by rewrite lookup_insert_ne].
Qed.

Lemma in_scraper_insert o s s' p a dn i k v k' :
  in_scraper (mkTracker o s p a dn i) k = true →
  s' = <[k := v]> <$> s → in_scraper (mkTracker o s' p a dn i) k' = in_scraper (mkTracker o s p a dn i) k'.
Proof using.
  unfold in_scraper. cbn. destruct s as [d|]; [|done]. intros Hk%bool_decide_eq_true ->. cbn.
  apply bool_decide_ext. rewrite scraper_get_insert. case_decide; [subst; split; [done|by intros]|done].
Qed.

(** Where a name is found does not change with an assignment. *)
Lemma slot_stable name v t name' : slot (__setattr__ name v t) name' = slot t name'.
Proof using.
  unfold __setattr__. destruct (slot t name) as [k|k|k| | |] eqn:E; destruct t as [o s p a dn i]; unfold slot in *;
    cbn [own scraper pocketpair a2s dns identity] in *.
  all: repeat (match type of E with (if ?b then _ else _) = _ => destruct b eqn:?Hb end; try discriminate).
  all: repeat match goal with H : _ && _ = true |- _ => apply andb_prop in H as [? ?] end.
  all: try injection E as <-; try done.
  - unfold in_scraper at 1. cbn [scraper]. fold (in_scraper (mkTracker o s p a dn i)).
    erewrite <-(in_scraper_insert o s (<[str_drop 4 name := v]> <$> s)); [|eassumption|reflexivity]. done.
  - rewrite in_dict_insert by done. done.
  - rewrite in_dict_insert by done. done.
  - rewrite in_dict_insert by done. done.
  - rewrite in_dict_insert by done. done.
Qed.

Lemma startswith_eq s p : startswith s p = true → s = p +:+ str_drop (String.length p) s.
Proof using.
  unfold startswith. revert s. induction p as [|c p IH]; intros s; cbn; [by destruct s|].
  destruct s as [|d s]; [done|]. destruct (Ascii.eqb_spec c d) as [->|]; [|done]. intros H%IH.
  rewrite str_app_cons. by f_equal.
Qed.

Lemma in_dict_some c k : in_dict c k = true → ∃ d, c = Some d.
Proof using. destruct c; [by eexists|done]. Qed.
Lemma in_scraper_some t k : in_scraper t k = true → ∃ d, scraper t = Some d.
Proof using. unfold in_scraper. destruct (scraper t); [by eexists|done]. Qed.

(** What it means that a name is found somewhere: its spelling, and that there is
    the container. *)
Lemma slot_spec t name :
  match slot t name with
  | InScraper k => name = "log_" +:+ k ∧ ∃ d, scraper t = Some d
  | InPocketpair k => name = "pocketpair_" +:+ k ∧ ∃ d, pocketpair t = Some d
  | InA2s k => name = "a2s_" +:+ k ∧ ∃ d, a2s t = Some d
  | InDns => ∃ d, dns t = Some d
  | InIdentity => ∃ d, identity t = Some d
  | InOwn => True
  end.
Proof using.
  unfold slot.
  destruct (startswith name "log_") eqn:H1; cbn [andb];
    [destruct (in_scraper t (str_drop 4 name)) eqn:E1; [split; [by apply startswith_eq|by eapply in_scraper_some]|]|].
  all: destruct (startswith name "pocketpair_") eqn:H2; cbn [andb];
    [destruct (in_dict (pocketpair t) (str_drop 11 name)) eqn:E2; [split; [by apply startswith_eq|by eapply in_dict_some]|]|].
  all: destruct (startswith name "a2s_") eqn:H3; cbn [andb];
    [destruct (in_dict (a2s t) (str_drop 4 name)) eqn:E3; [split; [by apply startswith_eq|by eapply in_dict_some]|]|].
  all: destruct (in_dict (dns t) name) eqn:E4; [by eapply in_dict_some|].
  all: destruct (in_dict (identity t) name) eqn:E5; [by eapply in_dict_some|done].
Qed.

(** Two names that are found at the same key are the same name. *)
Lemma slot_inj t name name' :
  slot t name = slot t name' → slot t name ∉ [InDns; InIdentity; InOwn] → name = name'.
Proof using.
  intros E Hn. pose proof (slot_spec t name) as H1. pose proof (slot_spec t name') as H2. rewrite <-E in H2.
  rewrite !not_elem_of_cons in Hn. clear tracker_class. destruct (slot t name); naive_solver.
Qed.

Lemma read_slot_set name v t name' :
  slot t name' ≠ InOwn →
  read_slot (__setattr__ name v t) name' (slot t name') =
    if decide (name = name') then Some v else read_slot t name' (slot t name').
Proof using.
  intros Hn. unfold __setattr__. case_decide as Hd.
  - subst name'. pose proof (slot_spec t name) as H.
    destruct (slot t name) as [k|k|k| | |]; try done;
      try (destruct H as [_ [d H]]); try (destruct H as [d H]); cbn [read_slot scraper pocketpair a2s dns identity];
      rewrite H; cbn; rewrite ?scraper_get_insert, ?lookup_insert_eq; by rewrite ?decide_True.
  - assert (Hk : ∀ sl, slot t name = sl → slot t name' = sl → sl ≠ InDns ∧ sl ≠ InIdentity ∧ sl ≠ InOwn → False).
    { intros sl E1 E2 Hs. apply Hd, (slot_inj t); [congruence|]. rewrite E1, !not_elem_of_cons.
      split_and!; [apply Hs..|apply not_elem_of_nil]. }
    destruct (slot t name) as [k|k|k| | |] eqn:E1; destruct (slot t name') as [k'|k'|k'| | |] eqn:E2; try done;
      cbn [read_slot scraper pocketpair a2s dns identity].
    + destruct (scraper t) as [d|]; [|done]. cbn. rewrite scraper_get_insert, decide_False; [done|]. intros ->.
      by apply (Hk (InScraper k')).
    + destruct (pocketpair t) as [d|]; [|done]. cbn. rewrite lookup_insert_ne; [done|]. intros ->.
      by apply (Hk (InPocketpair k')).
    + destruct (a2s t) as [d|]; [|done]. cbn. rewrite lookup_insert_ne; [done|]. intros ->.
      by apply (Hk (InA2s k')).
    + destruct (dns t) as [d|]; [|done]. cbn. by rewrite lookup_insert_ne.
    + destruct (identity t) as [d|]; [|done]. cbn. by rewrite lookup_insert_ne.
Qed.

Lemma unshadowed_set name v t : unshadowed t → unshadowed (__setattr__ name v t).
Proof using.
  intros Hu name' H. rewrite slot_stable. destruct (decide (slot t name' = InOwn)) as [|Hn]; [done|].
  apply Hu. destruct H as [H|H]; [left|by right]. revert H. unfold __setattr__.
  destruct (slot t name) eqn:E; cbn [own]; try done. destruct (decide (name = name')) as [->|Hne]; [done|].
  by rewrite lookup_insert_ne.
Qed.

Lemma getattr_setattr name v t name' :
  unshadowed t → getattr (__setattr__ name v t) name' = if decide (name = name') then Some v else getattr t name'.
Proof using.
  intros Hu. unfold getattr, __getattr__. rewrite slot_stable.
  destruct (decide (slot t name' = InOwn)) as [Ho|Hn].
  - rewrite Ho. unfold __setattr__. destruct (slot t name) eqn:E; cbn [own];
      try (rewrite decide_False by congruence; done).
    case_decide; [subst; by rewrite lookup_insert_eq|by rewrite lookup_insert_ne].
  - assert (own t !! name' = None ∧ tracker_class name' = None) as [E1 E2].
    { split; apply eq_None_not_Some; intros H; apply Hn, Hu; [by left|by right]. }
    assert (E3 : own (__setattr__ name v t) !! name' = None).
    { unfold __setattr__. destruct (slot t name) eqn:E; cbn [own]; try done.
      rewrite lookup_insert_ne; [done|congruence]. }
    rewrite E1, E2, E3. by apply read_slot_set.
Qed.

(** C38: The tracker's attributes are variables: after any sequence of assignments a
    name other than those of the containers has the value that was assigned to it
    last, or its value from before, in whichever of the containers it is kept. *)
Theorem attributes_are_variables assigns t name :
  unshadowed t → Forall (λ nv : string * V, nv.1 ∉ CONTAINERS) assigns → name ∉ CONTAINERS →
  getattr (fold_left (λ t nv, __setattr__ nv.1 nv.2 t) assigns t) name =
    match last_value name assigns with Some v => Some v | None => getattr t name end.
Proof using.
  revert t. induction assigns as [|[n v] assigns IH]; intros t Hu Ha Hc; [done|]. cbn [fold_left fst snd].
  apply Forall_cons in Ha as [_ Ha]. rewrite IH by (by try apply unshadowed_set). cbn [last_value]. rewrite getattr_setattr by done.
  destruct (last_value name assigns); [done|]. destruct (String.eqb_spec n name) as [->|Hn].
  - by rewrite decide_True.
  - by rewrite decide_False.
Qed.
End tracker.

(** ** The tracker that [__init__] builds *)

Definition TRACKER_METHODS : list string :=
  ["_load_player_ledger"; "_save_player_ledger"; "parse_a2s_packet"; "_execute_a2s_socket_query"; "probe_steam_a2s_info";
   "probe_pocketpair_master_list"; "probe_local_logs"; "read_server_logs"; "probe_network_alignment"; "update_and_get_players";
   "_read_cgroup_memory"; "_read_disk_usage"; "get_hardware_telemetry"; "_build_top_badge"; "_build_discovery_hub";
   "_build_security_matrix"; "_build_a2s_telemetry"; "get_combined_telemetry"; "run_network_diagnostics"].
Definition SCRAPER_METHODS : list string :=
  ["_load_session_cache"; "_save_session_cache"; "_find_log_files"; "_tail_active_log"; "_extract_session_from_lines";
   "_scan_historical_log_files"; "_scan_journalctl"; "probe_local_logs"; "read_server_logs"; "_read_journal_tail";
   "_filter_log_lines"].
(** A method as an attribute: its name stands for it. *)
Definition methods (names : list string) (name : string) : option json :=
  if bool_decide (name ∈ names) then Some (JStr name) else None.

Definition initial_tracker (name domain ledger session : string) : Tracker :=
  mkTracker
    (<["net_traffic" := JObj []]> {["players_history" := JObj []]})
    (Some (list_to_map [("session_cache_path", JStr session); ("registered", JBool false); ("first_seen", JNull);
                        ("session_id", JNull); ("last_matched_line", JStr "Awaiting initial engine log lines...")]))
    (Some (list_to_map [("listed", JBool false); ("server_id", JStr "Unlisted"); ("name", JStr name); ("version", JStr "Unknown");
                        ("last_check", JInt 0)]))
    (Some (list_to_map [("ping_ms", JNull); ("responsive", JBool false); ("server_name", JNull); ("map_name", JNull);
                        ("players", JInt 0); ("max_players", JInt 32); ("query_port", JInt 27015)]))
    (Some (list_to_map [("cached_public_ip", JStr "Detecting..."); ("cached_dns_ip", JStr "Resolving..."); ("last_ip_check", JInt 0);
                        ("last_auto_duckdns_sync", JInt 0)]))
    (Some (list_to_map [("server_name", JStr name); ("domain", JStr domain); ("player_ledger_path", JStr ledger)])).

Lemma initial_unshadowed name domain ledger session :
  unshadowed (methods TRACKER_METHODS) (methods SCRAPER_METHODS) (initial_tracker name domain ledger session).
Proof.
  assert (Hown : Forall (λ n, slot (methods SCRAPER_METHODS) (initial_tracker name domain ledger session) n = InOwn)
    ("net_traffic" :: "players_history" :: TRACKER_METHODS)%string) by (repeat constructor).
  rewrite List.Forall_forall in Hown. intros n Hn. apply Hown.
  destruct Hn as [Hn|[v Hv]].
  - cbn [own initial_tracker] in Hn. rewrite lookup_insert_is_Some in Hn. destruct Hn as [<-|[_ Hn]]; [by left|].
    rewrite lookup_singleton_is_Some in Hn. subst. right. by left.
  - unfold methods in Hv. case_bool_decide as Hin; [|done]. right. right. by apply list_elem_of_In.
Qed.

(** ** The identity of the server *)

Section identity.
Context (getenv : string → option string) (DEFAULT_LEDGER_PATH DEFAULT_SESSION_PATH : string).

Definition resolved_name (server_name : option string) : string :=
  first_set [server_name; getenv "PALWORLD_SERVER_NAME"] "Palworld Dedicated Server".
Definition resolved_domain (domain : option string) : string :=
  identity_domain domain (getenv "PALWORLD_DOMAIN") (getenv "PALWORLD_SERVER_DOMAIN") (getenv "DUCKDNS_DOMAIN").
Definition resolved_ledger (player_ledger_path : option string) : string :=
  default (default DEFAULT_LEDGER_PATH (truthy (getenv "PLAYER_LEDGER_PATH"))) player_ledger_path.
Definition resolved_session (session_cache_path : option string) : string :=
  default (default DEFAULT_SESSION_PATH (truthy (getenv "SESSION_CACHE_PATH"))) session_cache_path.

(** The tracker of a construction, before the ledger is loaded. *)
Definition tracker_init (server_name domain player_ledger_path session_cache_path : option string) : Tracker :=
  initial_tracker (resolved_name server_name) (resolved_domain domain) (resolved_ledger player_ledger_path)
    (resolved_session session_cache_path).
End identity.

(** The domain that the tracker resolves carries no port, and is empty, a
    placeholder or a name with a dot. *)
Lemma clean_domain_shape raw :
  str_all (λ d, negb (Ascii.eqb ":" d)) (clean_domain raw) = true ∧
  (clean_domain raw ∈ [""; "yourdomain"]%string ∨ str_contains "." (clean_domain raw) = true).
Proof.
  unfold clean_domain. set (clean := str_strip _).
  assert (Hc : str_all (λ d, negb (Ascii.eqb ":" d)) clean = true)
    by (apply str_all_rstrip, str_all_lstrip, str_split_head).
  destruct (String.eqb_spec clean "") as [->|H1]; cbn [andb negb]; [split; [done|left; by left]|].
  destruct (str_contains "." clean) eqn:H2; cbn [andb negb]; [by split; [|right]|].
  destruct (String.eqb_spec clean "yourdomain") as [->|H3]; cbn [andb negb]; [split; [done|left; right; by left]|].
  split; [by rewrite str_all_app, Hc|]. right. apply (str_contains_app "." clean "duckdns.org").
Qed.

Definition tracker_get (t : Tracker) (name : string) : option json :=
  getattr (methods TRACKER_METHODS) (methods SCRAPER_METHODS) t name.
Definition example_tracker : Tracker := initial_tracker "My server" "my.duckdns.org" "/l.json" "/s.json".

Lemma attributes_are_variables_witness :
  let t := fold_left (λ t nv, __setattr__ (methods SCRAPER_METHODS) nv.1 nv.2 t)
             [("a2s_players", JInt 4); ("log_session_id", JStr "e1"); ("a2s_players", JInt 5); ("cached_dns_ip", JStr "::1")]%string
             example_tracker in
  tracker_get t "a2s_players" = Some (JInt 5) ∧ tracker_get t "log_session_id" = Some (JStr "e1") ∧
  tracker_get t "domain" = Some (JStr "my.duckdns.org") ∧ tracker_get t "a2s_unknown" = None ∧ own t = own example_tracker.
Proof.
  cbv zeta. unfold tracker_get. split_and!; [..|by vm_compute];
    (rewrite (attributes_are_variables (methods TRACKER_METHODS) (methods SCRAPER_METHODS));
     [vm_compute; reflexivity|apply initial_unshadowed|by apply (bool_decide_unpack _); vm_compute|by apply (bool_decide_unpack _); vm_compute]).
Defined.

(** * The engine *)

Record EnginePaths := mkPaths { ini_path : string; service_name : string; update_flag : string; lock_file : string }.
Record EngineSettings := mkSettings {
  admin_password : string; rest_port : Z; server_name : string; domain : string;
  discord_webhook_url : option string; paths : EnginePaths }.

(** The keyword arguments of the constructor. *)
Record Kwargs := mkKwargs {
  k_service_name : option string; k_ini_path : option string; k_update_flag : option string; k_lock_file : option string;
  k_admin_password : option string; k_rest_port : option Z; k_server_name : option string; k_domain : option string;
  k_discord_webhook_url : option string }.

Definition is_service_char (c : ascii) : bool := is_alnum c || Ascii.eqb c "_" || Ascii.eqb c "." || Ascii.eqb c "-".
Definition RE_SERVICE_NAME : re := Many is_service_char 1 ·· Eol.

(** [_resolve_default_update_flag] of a POSIX host and of others. *)
Definition _resolve_default_update_flag (nt : bool) (exists_ : string → bool) (home : string) : string :=
  if negb nt && exists_ "/var/lib/palmanager" then "/var/lib/palmanager/update_requested"
  else if negb nt && exists_ "/home/steam" then "/home/steam/.update_requested"
  else home +:+ "/.palmanager/.update_requested".

Section engine.
Context (getenv : string → option string) (default_paths : EnginePaths).

(** [kwargs.get("rest_port") or int(os.getenv("PALWORLD_REST_PORT", "8212"))] *)
Definition engine_port (k : option Z) : result Z :=
  let from_env :=
    match py_int (str_strip (default "8212" (getenv "PALWORLD_REST_PORT"))) with
    | Some p => Ret p
    | None => Raise (ValueError "invalid literal for int() with base 10")
    end in
  match k with
  | Some p => if p =? 0 then from_env else Ret p
  | None => from_env
  end.

Definition raw_service_name (k : Kwargs) : string :=
  default "" (or_ (k_service_name k) (or_ (getenv "PALWORLD_SERVICE_NAME") (Some (service_name default_paths)))).

(** [PalEngine.__init__] without a configuration. *)
Definition engine_init (k : Kwargs) : result EngineSettings :=
  let raw_svc := raw_service_name k in
  if negb (bool_decide (is_Some (re_match RE_SERVICE_NAME raw_svc))) then
    Raise (ValueError ("Invalid service_name format: " +:+ raw_svc))
  else
    match engine_port (k_rest_port k) with
    | Raise e => Raise e
    | Ret port =>
        Ret (mkSettings
          (default "" (or_ (k_admin_password k) (or_ (getenv "PALWORLD_ADMIN_PASSWORD") (Some "admin_password"))))
          port
          (default "" (or_ (k_server_name k) (or_ (getenv "PALWORLD_SERVER_NAME") (Some "Palworld Dedicated Server"))))
          (default "" (or_ (k_domain k) (or_ (getenv "PALWORLD_SERVER_DOMAIN") (Some "yourdomain.duckdns.org"))))
          (or_ (k_discord_webhook_url k) (getenv "PALWORLD_DISCORD_WEBHOOK_URL"))
          (mkPaths (default (ini_path default_paths) (truthy (k_ini_path k))) raw_svc
                   (default (update_flag default_paths) (truthy (k_update_flag k)))
                   (default (lock_file default_paths) (truthy (k_lock_file k)))))%string
    end.

(** How routers/deps.py makes the engine from the manager's settings; the engine keeps
    these values while the process lives. *)
Definition deps_kwargs (AdminPassword : string) (RESTAPIPort : Z) (ServerName duckdns_domain : string)
    (webhook : option string) (ini service : string) : Kwargs :=
  mkKwargs (Some service) (Some ini) None None (Some AdminPassword) (Some RESTAPIPort) (Some ServerName)
    (Some duckdns_domain) webhook.

(** The names of services that the constructor accepts: characters of unit names,
    and at most one line feed behind them. *)
Lemma service_name_accepted k s :
  engine_init k = Ret s →
  ∃ w, w ≠ ""%string ∧ str_all is_service_char w = true ∧
    (service_name (paths s) = w ∨ service_name (paths s) = w +:+ String line_feed "").
Proof.
  unfold engine_init. case_bool_decide as H; cbn [negb]; [|done].
  destruct (engine_port (k_rest_port k)) as [port|e]; [|done]. intros [= <-]. cbn [paths service_name].
  destruct H as [g (s' & Hd)%re_match_sound]. revert Hd. generalize (raw_service_name k). intros raw Hd.
  inversion Hd as [| | |a b ? ? s1 ? s2 ? H1 H2| | | | | |]; subst.
  inversion H1 as [| |p n w ? ? Hw Hn| | | | | | |]; subst. inversion H2 as [| | | | | | | | |? ? He]; subst.
  exists w. split_and!; [intros ->; cbn in Hn; lia|done|]. unfold at_end in He. apply orb_prop in He as [He|He]; apply String.eqb_eq in He; subst.
  - left. apply str_app_nil_r.
  - by right.
Qed.
End engine.

Definition some_paths : EnginePaths := mkPaths "/i" "palworld.service" "/f" "/l".
Definition no_kwargs (service : string) : Kwargs := mkKwargs (Some service) None None None None None None None None.

(** A trailing line feed passes the check of the engine. *)
Lemma service_name_with_line_feed :
  ∃ s, engine_init (λ _, None) some_paths (no_kwargs ("palworld.service" +:+ String line_feed "")) = Ret s ∧
    service_name (paths s) = "palworld.service" +:+ String line_feed "" ∧
    engine_init (λ _, None) some_paths (no_kwargs "palworld service") =
      Raise (ValueError "Invalid service_name format: palworld service").
Proof. eexists. split; [by vm_compute|]. split; by vm_compute. Qed.

(** A port that is no number fails a construction that is given none. *)
Lemma malformed_port_raises :
  engine_init (λ n, if String.eqb n "PALWORLD_REST_PORT" then Some "8212/tcp"%string else None) some_paths (no_kwargs "a") =
    Raise (ValueError "invalid literal for int() with base 10").
Proof. by vm_compute. Qed.

(** ** Attributes of the engine *)

(** An attribute is the instance's own, or the configuration's, or the paths'; an
    assignment makes one of the instance.  Names of the class, its methods and its two
    properties, are not among these. *)
Record EngineObject := mkEngine { e_own : gmap string json; e_config : gmap string json; e_paths : gmap string json }.
Definition engine_getattr (e : EngineObject) (name : string) : option json :=
  match e_own e !! name with
  | Some v => Some v
  | None => match e_config e !! name with Some v => Some v | None => e_paths e !! name end
  end.
Definition engine_setattr (name : string) (v : json) (e : EngineObject) : EngineObject :=
  mkEngine (<[name := v]> (e_own e)) (e_config e) (e_paths e).

(** An assignment is read back, and reaches neither the configuration nor the paths,
    which the requests to the game server are made from. *)
Lemma engine_write_shadows name v e name' :
  engine_getattr (engine_setattr name v e) name' = (if decide (name = name') then Some v else engine_getattr e name') ∧
  e_config (engine_setattr name v e) = e_config e ∧ e_paths (engine_setattr name v e) = e_paths e.
Proof.
  split_and!; [|done..]. unfold engine_getattr. cbn [e_own engine_setattr e_config e_paths].
  case_decide as H; [subst; by rewrite lookup_insert_eq|by rewrite lookup_insert_ne].
Qed.
