(* ===== verification/Certs.v ===== *)
(** The inspection of a certificate file of core/config.py: the fields that the
    standard library decodes, the times in them, and the days that remain.

    Decoding a file is the library's, and its outcome an argument, as are the
    readings of the clock.  Patterns and names are read on ASCII. *)

From S2P Require Import Prelude PyStr PyRe PyTime.
From Stdlib Require Import ZArith Ascii Bool Lia Btauto.
From stdpp Require Import base tactics list strings.

Local Open Scope Z_scope.
Local Open Scope py_scope.

(** * Differences of times *)

(** The days before a year, and before a month of a year. *)
Definition days_before_year (y : Z) : Z := 365 * (y - 1) + (y - 1) / 4 - (y - 1) / 100 + (y - 1) / 400.
Definition days_before_month (y m : Z) : Z :=
  nth (Z.to_nat m) [0; 0; 31; 59; 90; 120; 151; 181; 212; 243; 273; 304; 334] 0 +
  (if (2 <? m) && is_leap y then 1 else 0).

(** [t.toordinal()], and the microseconds since the first day. *)
Definition toordinal (t : datetime) : Z := days_before_year (year t) + days_before_month (year t) (month t) + day t.
Definition micros (t : datetime) : Z :=
  (((toordinal t * 24 + hour t) * 60 + minute t) * 60 + second t) * 1000000 + microsecond t.

(** [(a - b).days] *)
Definition days_between (a b : datetime) : Z := (micros a - micros b) / (86400 * 1000000).

(** * Parsing of times: [strptime(s, "%b %d %H:%M:%S %Y %Z")] *)

Definition MONTHS : list string :=
  ["jan"; "feb"; "mar"; "apr"; "may"; "jun"; "jul"; "aug"; "sep"; "oct"; "nov"; "dec"].
Definition chr_in (lo hi : ascii) : re := Cls (in_range (ord lo) (ord hi)).
Definition digit : re := Cls is_digit.
Fixpoint alternatives (r : re) (rs : list re) : re := match rs with [] => r | q :: qs => Alt r (alternatives q qs) end.

Definition RE_MONTH : re := alternatives (lit_ci "jan") (List.map lit_ci (tail MONTHS)).
Definition RE_DAY : re :=
  alternatives (Lit "3" ·· chr_in "0" "1")
    [chr_in "1" "2" ·· digit; Lit "0" ·· chr_in "1" "9"; chr_in "1" "9"; Lit " " ·· chr_in "1" "9"].
Definition RE_HOUR : re := alternatives (Lit "2" ·· chr_in "0" "3") [chr_in "0" "1" ·· digit; digit].
Definition RE_MINUTE : re := Alt (chr_in "0" "5" ·· digit) digit.
Definition RE_SECOND : re := alternatives (Lit "6" ·· chr_in "0" "1") [chr_in "0" "5" ·· digit; digit].
Definition RE_YEAR : re := digit ·· digit ·· digit ·· digit.
Definition RE_ZONE : re := Alt (lit_ci "utc") (lit_ci "gmt").
Definition gap : re := Many is_space 1.

Definition CERT_TIME : re :=
  Group "b" RE_MONTH ·· gap ·· Group "d" RE_DAY ·· gap ·· Group "H" RE_HOUR ·· Lit ":" ·· Group "M" RE_MINUTE ·· Lit ":" ··
  Group "S" RE_SECOND ·· gap ·· Group "Y" RE_YEAR ·· gap ·· Group "Z" RE_ZONE.

Definition number (name : string) (g : caps) : Z := digits_value (str_strip (default "" (group name g))) 0.
Fixpoint index_of (w : string) (ws : list string) : Z :=
  match ws with [] => 0 | v :: ws => if String.eqb v w then 0 else 1 + index_of w ws end.

Definition time_of (g : caps) : datetime :=
  {| year := number "Y" g; month := 1 + index_of (str_lower (default "" (group "b" g))) MONTHS; day := number "d" g;
     hour := number "H" g; minute := number "M" g; second := number "S" g; microsecond := 0 |}.

Definition strptime (s : string) : result datetime :=
  match re_match_rest CERT_TIME s with
  | None => Raise (ValueError "time data does not match format '%b %d %H:%M:%S %Y %Z'")
  | Some (g, rest) =>
      if negb (String.eqb rest "") then Raise (ValueError "unconverted data remains")
      else if valid_datetime (time_of g) then Ret (time_of g)
      else Raise (ValueError "day is out of range for month")
  end.

(** * The certificate *)

(** What the library decodes: names as lists of lists of attributes. *)
Record Decoded := mkDecoded {
  subject : list (list (string * string));
  issuer : list (list (string * string));
  notBefore : string;  (** empty when absent *)
  notAfter : string;
  subjectAltName : list (string * string) }.

Record TLSCertificateInfo := mkInfo {
  i_subject : string; i_issuer : string; valid_from : string; expires_at : string;
  i_days_remaining : Z; is_expired : bool; i_is_self_signed : bool;  (** never given *) san_list : list string }.

Definition _extract_dn_field (dn : list (list (string * string))) (field_name : string) : option string :=
  snd <$> List.find (λ kv, String.eqb kv.1 field_name) (concat dn).

(** [a or b] of optional texts. *)
Definition or_text (a b : option string) : option string :=
  match a with Some s => if String.eqb s "" then b else a | None => b end.

Definition time_or (s : string) (now : datetime) : result datetime :=
  if String.eqb s "" then Ret now else strptime s.

(** The clock is read for a missing end, for a missing start, and for the days that
    remain. *)
Definition _build_tls_cert_info (now1 now2 now3 : datetime) (d : Decoded) : result TLSCertificateInfo :=
  match time_or (notAfter d) now1 with
  | Raise e => Raise e
  | Ret dt_expires =>
      match time_or (notBefore d) now2 with
      | Raise e => Raise e
      | Ret dt_valid_from =>
          Ret (mkInfo
            (default "Unknown" (or_text (_extract_dn_field (subject d) "commonName") None))
            (default "Unknown" (or_text (_extract_dn_field (issuer d) "commonName")
                                 (or_text (_extract_dn_field (issuer d) "organizationName") None)))
            (isoformat dt_valid_from) (isoformat dt_expires) (days_between dt_expires now3) (dt_ltb dt_expires now3) false
            (List.map snd (List.filter (λ kv : string * string, bool_decide (kv.1 ∈ ["DNS"; "IP Address"]%string)) (subjectAltName d))))
      end
  end%string.

Definition caught (e : exc) : bool :=
  is_oserror e || match e with ValueError _ | UnicodeDecodeError | KeyError _ => true | _ => false end.

(** [decode]: the decoded certificate, [None] when the library has no decoder or
    finds nothing. *)
Definition inspect_certificate (is_file : bool) (decode : result (option Decoded)) (now1 now2 now3 : datetime)
    : result (option TLSCertificateInfo) :=
  if negb is_file then Ret None
  else
    match decode with
    | Ret None => Ret None
    | Ret (Some d) =>
        match _build_tls_cert_info now1 now2 now3 d with
        | Ret i => Ret (Some i)
        | Raise e => if caught e then Ret None else Raise e
        end
    | Raise e => if caught e then Ret None else Raise e
    end.

(** * The order of times and their differences *)

Lemma days_before_month_step y m :
  1 ≤ m < 12 → days_before_month y (m + 1) = days_before_month y m + days_in_month y m.
Proof.
  intros Hm. assert (m = 1 ∨ m = 2 ∨ m = 3 ∨ m = 4 ∨ m = 5 ∨ m = 6 ∨ m = 7 ∨ m = 8 ∨ m = 9 ∨ m = 10 ∨ m = 11) as H by lia.
  unfold days_before_month, days_in_month.
  repeat (destruct H as [->|H]); subst; cbn; destruct (is_leap y); done.
Qed.

Lemma days_before_month_lt y m m' :
  1 ≤ m → m < m' ≤ 12 → days_before_month y m + days_in_month y m ≤ days_before_month y m'.
Proof.
  intros H1 [H2 H3]. rewrite <-days_before_month_step by lia.
  assert (∀ n : nat, m + 1 + Z.of_nat n ≤ 12 → days_before_month y (m + 1) ≤ days_before_month y (m + 1 + Z.of_nat n)) as H.
  { induction n as [|n IH]; intros Hn; [rewrite Z.add_0_r; lia|].
    replace (m + 1 + Z.of_nat (S n)) with (m + 1 + Z.of_nat n + 1) by lia.
    rewrite (days_before_month_step y (m + 1 + Z.of_nat n)) by lia. pose proof (days_in_month_bounds y (m + 1 + Z.of_nat n)).
    specialize (IH ltac:(lia)). lia. }
  assert (∃ n : nat, m' = m + 1 + Z.of_nat n) as [n ->] by (exists (Z.to_nat (m' - (m + 1))); lia). apply H. lia.
Qed.

Lemma days_before_year_step y : days_before_year (y + 1) = days_before_year y + 365 + (if is_leap y then 1 else 0).
Proof.
  unfold days_before_year, is_leap. replace (y + 1 - 1) with y by lia.
  destruct (Z.eqb_spec (y mod 4) 0), (Z.eqb_spec (y mod 100) 0), (Z.eqb_spec (y mod 400) 0); cbn [andb orb negb];
    Z.div_mod_to_equations; lia.
Qed.

Lemma days_before_year_lt y y' : y < y' → days_before_year y + 365 + (if is_leap y then 1 else 0) ≤ days_before_year y'.
Proof.
  intros H. rewrite <-days_before_year_step.
  assert (∃ n : nat, y' = y + 1 + Z.of_nat n) as [n ->] by (exists (Z.to_nat (y' - (y + 1))); lia).
  clear H. induction n as [|n IH]; [rewrite Z.add_0_r; lia|].
  replace (y + 1 + Z.of_nat (S n)) with (y + 1 + Z.of_nat n + 1) by lia.
  rewrite (days_before_year_step (y + 1 + Z.of_nat n)). destruct (is_leap (y + 1 + Z.of_nat n)); lia.
Qed.

Lemma day_of_year_bounds y m d :
  1 ≤ m ≤ 12 → 1 ≤ d ≤ days_in_month y m →
  1 ≤ days_before_month y m + d ≤ 365 + (if is_leap y then 1 else 0).
Proof.
  intros Hm Hd. assert (days_before_month y 1 = 0 ∧ days_before_month y 12 + 31 = 365 + if is_leap y then 1 else 0) as [H1 H12]
    by (unfold days_before_month; cbn; by destruct (is_leap y)).
  pose proof (days_in_month_bounds y 1). split.
  - destruct (Z.eq_dec m 1) as [->|]; [lia|]. pose proof (days_before_month_lt y 1 m). lia.
  - destruct (Z.eq_dec m 12) as [->|]; [change (days_in_month y 12) with 31 in Hd; lia|].
    pose proof (days_before_month_lt y m 12). lia.
Qed.

(** A lexicographic step: what comes first decides, as its unit outweighs the rest. *)
Lemma weigh_lt a b c r r' : 0 ≤ r < c → 0 ≤ r' < c → (a * c + r <? b * c + r') = (a <? b) || ((a =? b) && (r <? r')).
Proof.
  intros Hr Hr'. apply Bool.eq_true_iff_eq. rewrite orb_true_iff, andb_true_iff, !Z.ltb_lt, Z.eqb_eq. nia.
Qed.
Lemma weigh_eq a b c r r' : 0 ≤ r < c → 0 ≤ r' < c → (a * c + r =? b * c + r') = (a =? b) && (r =? r').
Proof. intros Hr Hr'. apply Bool.eq_true_iff_eq. rewrite andb_true_iff, !Z.eqb_eq.
  split; [|by intros [-> ->]]. intros H. assert (a = b) as -> by nia. split; lia.
Qed.

(** Dates are ordered as their ordinals. *)
Definition valid_date (y m d : Z) : Prop := 1 ≤ m ≤ 12 ∧ 1 ≤ d ≤ days_in_month y m.

Lemma ordinal_compare y m d y' m' d' :
  valid_date y m d → valid_date y' m' d' →
  let o := days_before_year y + days_before_month y m + d in
  let o' := days_before_year y' + days_before_month y' m' + d' in
  (o <? o') = (y <? y') || ((y =? y') && ((m <? m') || ((m =? m') && (d <? d')))) ∧
  (o =? o') = (y =? y') && ((m =? m') && (d =? d')).
Proof.
  intros [Hm Hd] [Hm' Hd'] o o'.
  pose proof (day_of_year_bounds y m d Hm Hd). pose proof (day_of_year_bounds y' m' d' Hm' Hd').
  destruct (Z.lt_trichotomy y y') as [Hy|[->|Hy]].
  - pose proof (days_before_year_lt y y' Hy).
    assert (o < o') by (unfold o, o'; destruct (is_leap y); lia).
    rewrite (proj2 (Z.ltb_lt o o')), (proj2 (Z.eqb_neq o o')), (proj2 (Z.ltb_lt y y')), (proj2 (Z.eqb_neq y y')) by lia. done.
  - destruct (Z.lt_trichotomy m m') as [Hlt|[->|Hlt]].
    + pose proof (days_before_month_lt y' m m' ltac:(lia) ltac:(lia)). assert (o < o') by (unfold o, o'; lia).
      rewrite (proj2 (Z.ltb_lt o o')), (proj2 (Z.eqb_neq o o')), (proj2 (Z.ltb_lt m m')), (proj2 (Z.eqb_neq m m')),
        Z.eqb_refl, Z.ltb_irrefl by lia. done.
    + rewrite !Z.eqb_refl, !Z.ltb_irrefl. cbn [andb orb]. unfold o, o'. split; apply Bool.eq_true_iff_eq; lia.
    + pose proof (days_before_month_lt y' m' m ltac:(lia) ltac:(lia)). assert (o' < o) by (unfold o, o'; lia).
      rewrite (proj2 (Z.ltb_nlt o o')), (proj2 (Z.eqb_neq o o')), (proj2 (Z.ltb_nlt m m')), (proj2 (Z.eqb_neq m m')),
        Z.eqb_refl, Z.ltb_irrefl by lia. done.
  - pose proof (days_before_year_lt y' y Hy).
    assert (o' < o) by (unfold o, o'; destruct (is_leap y'); lia).
    rewrite (proj2 (Z.ltb_nlt o o')), (proj2 (Z.eqb_neq o o')), (proj2 (Z.ltb_nlt y y')), (proj2 (Z.eqb_neq y y')) by lia. done.
Qed.

(** Valid times are ordered as the microseconds that they denote. *)
Lemma dt_ltb_micros a b :
  valid_datetime a = true → valid_datetime b = true → dt_ltb a b = (micros a <? micros b).
Proof.
  intros Ha Hb. unfold valid_datetime in *.
  repeat match goal with H : _ && _ = true |- _ => apply andb_prop in H as [? ?] end.
  destruct (ordinal_compare (year a) (month a) (day a) (year b) (month b) (day b)) as [El Ee]; [split; lia..|].
  unfold micros. rewrite !weigh_lt, !weigh_eq by lia. unfold toordinal. rewrite El, Ee.
  unfold dt_ltb, fields. cbn [lex_ltb]. btauto.
Qed.

(** A certificate counts as expired exactly when the days that remain are negative. *)
Lemma expired_iff_negative expires now_ :
  valid_datetime expires = true → valid_datetime now_ = true →
  dt_ltb expires now_ = (days_between expires now_ <? 0).
Proof.
  intros He Hn. rewrite dt_ltb_micros by done. unfold days_between. apply Bool.eq_true_iff_eq. rewrite !Z.ltb_lt.
  Z.div_mod_to_equations. lia.
Qed.

(** * The times that are written are read back *)

(** The text that the library writes for a time: the day is padded with a space, the
    year with nothing. *)
Definition MONTH_NAMES : list string :=
  ["Jan"; "Feb"; "Mar"; "Apr"; "May"; "Jun"; "Jul"; "Aug"; "Sep"; "Oct"; "Nov"; "Dec"].
Definition padded_day (d : Z) : string := if d <? 10 then " " +:+ fixed_digits 1 d else fixed_digits 2 d.
Definition cert_time (t : datetime) : string :=
  nth (Z.to_nat (month t - 1)) MONTH_NAMES "" +:+ " " +:+ padded_day (day t) +:+ " " +:+
  fixed_digits 2 (hour t) +:+ ":" +:+ fixed_digits 2 (minute t) +:+ ":" +:+ fixed_digits 2 (second t) +:+ " " +:+
  str_of_Z (year t) +:+ " GMT".

(** [reads r w gs P]: on [w] and a rest that satisfies [P] the matcher's first choice
    is [w], with the groups [gs], when the rest of the pattern accepts it. *)
Definition reads (r : re) (w : string) (gs : caps) (P : string → Prop) : Prop :=
  ∀ X s g (k : string → caps → option X) x, P s → k s (gs ++ g) = Some x → rmatch r (w +:+ s) g k = Some x.

Definition anything (s : string) : Prop := True.
Definition no_space (s : string) : Prop := match s with String c _ => is_space c = false | EmptyString => True end.

Lemma reads_seq a b w v gs hs P Q :
  reads a w gs P → reads b v hs Q → (∀ s, Q s → P (v +:+ s)) → reads (a ·· b) (w +:+ v) (hs ++ gs) Q.
Proof.
  intros Ha Hb HP X s g k x Hs Hk. cbn [rmatch]. rewrite str_app_assoc. apply Ha; [by apply HP|].
  apply Hb; [done|]. by rewrite app_assoc.
Qed.

Lemma reads_group n r w P : reads r w [] P → reads (Group n r) w [(n, w)] P.
Proof. intros Hr X s g k x Hs Hk. cbn [rmatch]. apply Hr; [done|]. by rewrite before_app. Qed.

Lemma reads_lit w : reads (Lit w) w [] anything.
Proof. intros X s g k x _ Hk. cbn [rmatch]. by rewrite str_strip_prefix_app. Qed.

Lemma reads_gap w : w ≠ "" → str_all is_space w = true → reads gap w [] no_space.
Proof.
  intros Hw Ha X s g k x Hs Hk. unfold gap. cbn [rmatch app] in *.
  assert (Hany : ∀ n, (n ≤ String.length w)%nat → many is_space n (w +:+ s) (λ s', k s' g) = Some x).
  { clear Hw. induction w as [|c w IH]; intros n Hn; cbn [String.length] in Hn.
    - assert (n = 0%nat) as -> by lia. rewrite str_app_empty.
      destruct s as [|c s]; cbn [many]; [done|]. cbn [no_space] in Hs. by rewrite Hs.
    - cbn [str_all] in Ha. apply andb_prop in Ha as [Hc Ha]. rewrite str_app_cons. cbn [many]. rewrite Hc.
      rewrite IH; [done|done|lia]. }
  apply Hany. destruct w; [done|]. cbn. lia.
Qed.

Lemma reads_year w : str_all is_digit w = true → String.length w = 4%nat → reads RE_YEAR w [] anything.
Proof.
  intros Ha Hl X s g k x _ Hk. do 5 (destruct w as [|? w]; try done). cbn [str_all] in Ha.
  repeat (apply andb_prop in Ha as [? Ha]). rewrite !str_app_cons, str_app_empty. unfold RE_YEAR, digit. cbn [rmatch].
  repeat match goal with H : is_digit _ = true |- _ => rewrite H; clear H end. exact Hk.
Qed.

(** A field of two digits: every value of its range is tried. *)
Ltac read_field v n :=
  let rec go k := lazymatch k with
    | O => exfalso; lia
    | S ?k' => destruct (Z.eq_dec v (Z.of_nat k')) as [->|]; [|go k']
    end in
  let k := eval vm_compute in n in go k.

Lemma reads_hour h : 0 ≤ h < 24 → reads RE_HOUR (fixed_digits 2 h) [] anything.
Proof. intros Hh. read_field h 24%nat; intros X s g k x _ Hk; vm_compute in Hk |- *; by rewrite Hk. Qed.
Lemma reads_minute m : 0 ≤ m < 60 → reads RE_MINUTE (fixed_digits 2 m) [] anything.
Proof. intros Hm. read_field m 60%nat; intros X s g k x _ Hk; vm_compute in Hk |- *; by rewrite Hk. Qed.
Lemma reads_second m : 0 ≤ m < 60 → reads RE_SECOND (fixed_digits 2 m) [] anything.
Proof. intros Hm. read_field m 60%nat; intros X s g k x _ Hk; vm_compute in Hk |- *; by rewrite Hk. Qed.

Definition month_text (m : Z) : string := nth (Z.to_nat (m - 1)) MONTH_NAMES "".
Definition day_gap (d : Z) : string := if d <? 10 then "  " else " ".
Definition day_text (d : Z) : string := if d <? 10 then fixed_digits 1 d else fixed_digits 2 d.
Definition spaced (s : string) : Prop := ∃ s', s = String " " s'.

Ltac by_matching := intros X s g k x HP Hk; vm_compute in Hk |- *; by rewrite Hk.

Lemma reads_month m : 1 ≤ m ≤ 12 → reads RE_MONTH (month_text m) [] anything.
Proof. intros Hm. read_field m 13%nat; [by_matching..|lia]. Qed.
Lemma reads_zone : reads RE_ZONE "GMT" [] anything.
Proof. by_matching. Qed.
Lemma reads_day d : 1 ≤ d ≤ 31 → reads RE_DAY (day_text d) [] spaced.
Proof. intros Hd. read_field d 32%nat; [intros X s g k x [s' ->] Hk; vm_compute in Hk |- *; by rewrite Hk..|lia]. Qed.

Lemma no_space_digits w s : w ≠ "" → str_all is_digit w = true → no_space (w +:+ s).
Proof.
  intros Hw Hd. destruct w as [|c w]; [done|]. cbn [str_all] in Hd. apply andb_prop in Hd as [Hc _].
  rewrite str_app_cons. cbn [no_space]. unfold is_digit, is_space, in_range in *. revert Hc. clear.
  assert (H : List.forallb (λ n, let c := chr (Z.of_nat n) in implb ((48 <=? ord c) && (ord c <=? 57)) (negb (is_space c))) (List.seq 0 256) = true)
    by (vm_compute; reflexivity).
  rewrite List.forallb_forall in H. intros Hc. pose proof (ord_bound c).
  specialize (H (Z.to_nat (ord c)) ltac:(apply List.in_seq; lia)).
  cbv zeta in H. rewrite Z2Nat.id, chr_ord, Hc in H by lia. by apply negb_true_iff.
Qed.

Lemma number_fixed k n : 0 ≤ n < 10 ^ Z.of_nat k → digits_value (str_strip (fixed_digits k n)) 0 = n.
Proof.
  intros Hn. rewrite str_strip_id.
  - rewrite digits_value_fixed by lia. rewrite Z.mod_small by lia. lia.
  - apply (str_all_impl is_digit); [|apply fixed_digits_all; lia]. intros c Hc.
    pose proof (no_space_digits (String c "") "" ltac:(done) ltac:(cbn; by rewrite Hc)) as H. cbn in H. by rewrite H.
Qed.

Lemma day_text_digits d : 1 ≤ d → day_text d ≠ "" ∧ str_all is_digit (day_text d) = true.
Proof. intros Hd. unfold day_text. destruct (d <? 10); (split; [done|apply fixed_digits_all; lia]). Qed.

(** The groups of a time. *)
Definition time_groups (t : datetime) : caps :=
  [("Z", "GMT"); ("Y", fixed_digits 4 (year t)); ("S", fixed_digits 2 (second t)); ("M", fixed_digits 2 (minute t));
   ("H", fixed_digits 2 (hour t)); ("d", day_text (day t)); ("b", month_text (month t))]%string.

Lemma reads_cert_time t :
  valid_datetime t = true →
  reads CERT_TIME (month_text (month t) +:+ day_gap (day t) +:+ day_text (day t) +:+ " " +:+
    fixed_digits 2 (hour t) +:+ ":" +:+ fixed_digits 2 (minute t) +:+ ":" +:+ fixed_digits 2 (second t) +:+ " " +:+
    fixed_digits 4 (year t) +:+ " " +:+ "GMT") (time_groups t) anything.
Proof.
  intros Ht. unfold valid_datetime in Ht. repeat match goal with H : _ && _ = true |- _ => apply andb_prop in H as [? ?] end.
  pose proof (days_in_month_bounds (year t) (month t)).
  destruct (day_text_digits (day t) ltac:(lia)) as [Hd1 Hd2].
  assert (day_gap (day t) ≠ "" ∧ str_all is_space (day_gap (day t)) = true) as [Hg1 Hg2]
    by (unfold day_gap; by destruct (_ <? _)).
  unfold CERT_TIME, time_groups.
  eapply (reads_seq _ _ _ _ [("b", _)]%string [_; _; _; _; _; _]); [apply reads_group, reads_month; lia| |done].
  eapply (reads_seq _ _ _ _ [] [_; _; _; _; _; _]); [by apply reads_gap| |intros; rewrite str_app_assoc; by apply no_space_digits].
  eapply (reads_seq _ _ _ _ [("d", _)]%string [_; _; _; _; _]); [apply reads_group, reads_day; lia| |intros s _; by eexists].
  eapply (reads_seq _ _ _ _ [] [_; _; _; _; _]);
    [by apply reads_gap| |intros; rewrite str_app_assoc; apply no_space_digits; [done|apply fixed_digits_all; lia]].
  eapply (reads_seq _ _ _ _ [("H", _)]%string [_; _; _; _]); [apply reads_group, reads_hour; lia| |done].
  eapply (reads_seq _ _ _ _ [] [_; _; _; _]); [apply reads_lit| |done].
  eapply (reads_seq _ _ _ _ [("M", _)]%string [_; _; _]); [apply reads_group, reads_minute; lia| |done].
  eapply (reads_seq _ _ _ _ [] [_; _; _]); [apply reads_lit| |done].
  eapply (reads_seq _ _ _ _ [("S", _)]%string [_; _]); [apply reads_group, reads_second; lia| |done].
  eapply (reads_seq _ _ _ _ [] [_; _]);
    [by apply reads_gap| |intros; rewrite str_app_assoc; apply no_space_digits; [done|apply fixed_digits_all; lia]].
  eapply (reads_seq _ _ _ _ [("Y", _)]%string [_]);
    [apply reads_group, reads_year; [apply fixed_digits_all; lia|apply fixed_digits_length]| |done].
  eapply (reads_seq _ _ _ _ [] [_]); [by apply reads_gap|apply reads_group, reads_zone|done].
Qed.

(** A year of four digits. *)
Lemma year_text y : 1000 ≤ y ≤ 9999 → str_of_Z y = fixed_digits 4 y.
Proof.
  assert (H : List.forallb (λ n, let y := 1000 + Z.of_nat n in String.eqb (str_of_Z y) (fixed_digits 4 y)) (List.seq 0 (Z.to_nat 9000)) = true)
    by (vm_compute; reflexivity).
  rewrite List.forallb_forall in H. intros Hy. specialize (H (Z.to_nat (y - 1000)) ltac:(apply List.in_seq; clear H; lia)).
  cbv zeta in H. rewrite Z2Nat.id in H by (clear H; lia). apply String.eqb_eq in H.
  by replace (1000 + (y - 1000)) with y in H by (clear H; lia).
Qed.

Lemma strptime_text t :
  valid_datetime t = true → microsecond t = 0 → 1000 ≤ year t → strptime (cert_time t) = Ret t.
Proof.
  intros Ht Hus Hyear. pose proof (reads_cert_time t Ht) as Hr.
  assert (Hyt : str_of_Z (year t) = fixed_digits 4 (year t)).
  { unfold valid_datetime in Ht. repeat match goal with H : _ && _ = true |- _ => apply andb_prop in H as [? ?] end.
    apply year_text. lia. }
  assert (E : cert_time t = (month_text (month t) +:+ day_gap (day t) +:+ day_text (day t) +:+ " " +:+
    fixed_digits 2 (hour t) +:+ ":" +:+ fixed_digits 2 (minute t) +:+ ":" +:+ fixed_digits 2 (second t) +:+ " " +:+
    fixed_digits 4 (year t) +:+ " " +:+ "GMT") +:+ "").
  { rewrite str_app_nil_r. unfold cert_time. rewrite Hyt. unfold month_text, padded_day, day_gap, day_text. by destruct (day t <? 10). }
  unfold strptime, re_match_rest. rewrite E, (Hr _ "" [] _ (time_groups t, "")) by done. cbn [String.eqb negb].
  assert (Et : time_of (time_groups t) = t); [|by rewrite Et, Ht].
  unfold valid_datetime in Ht. repeat match goal with H : _ && _ = true |- _ => apply andb_prop in H as [? ?] end.
  pose proof (days_in_month_bounds (year t) (month t)).
  assert (Hy : number "Y" (time_groups t) = year t) by (apply (number_fixed 4); cbn; lia).
  assert (Hh : number "H" (time_groups t) = hour t) by (apply (number_fixed 2); cbn; lia).
  assert (Hmi : number "M" (time_groups t) = minute t) by (apply (number_fixed 2); cbn; lia).
  assert (Hs : number "S" (time_groups t) = second t) by (apply (number_fixed 2); cbn; lia).
  assert (Hm : 1 + index_of (str_lower (month_text (month t))) MONTHS = month t).
  { assert (1 ≤ month t ≤ 12) as Hm by lia. read_field (month t) 13%nat; [reflexivity..|lia]. }
  assert (Hd : number "d" (time_groups t) = day t).
  { change (number "d" (time_groups t)) with (digits_value (str_strip (day_text (day t))) 0).
    unfold day_text. destruct (Z.ltb_spec (day t) 10); apply number_fixed; cbn; lia. }
  unfold time_of. rewrite Hy, Hh, Hmi, Hs, Hd. change (default "" (group "b" (time_groups t)))%string with (month_text (month t)).
  rewrite Hm. destruct t. cbn in *. by subst.
Qed.

(** *** Years of fewer than four digits *)

(** Four digits in a row, the first [k] of them already seen. *)
Fixpoint four_digits (k : nat) (s : string) : bool :=
  match s with
  | EmptyString => false
  | String c s => if is_digit c then (3 <=? k)%nat || four_digits (S k) s else four_digits 0 s
  end.

Lemma four_digits_more k k' s : (k ≤ k')%nat → four_digits k s = true → four_digits k' s = true.
Proof.
  revert k k'. induction s as [|c s IH]; intros k k' Hk; cbn [four_digits]; [done|].
  destruct (is_digit c); [|done]. rewrite !orb_true_iff, !Nat.leb_le. intros [H|H]; [lia|right]. apply (IH (S k)); [lia|done].
Qed.
Lemma four_digits_prefix w k s : four_digits 0 s = true → four_digits k (w +:+ s) = true.
Proof.
  intros Hs. revert k. induction w as [|c w IH]; intros k.
  - rewrite str_app_empty. apply (four_digits_more 0); [lia|done].
  - rewrite str_app_cons. cbn [four_digits]. rewrite !IH, orb_true_r. by destruct (is_digit c).
Qed.

(** What such a pattern matches has four digits in a row. *)
Definition needs_digits (r : re) : Prop := ∀ s g s' g', derives r s g s' g' → four_digits 0 s = true.

Lemma needs_seq_l a b : needs_digits a → needs_digits (a ·· b).
Proof. intros Ha s g s' g' H. inversion H; subst. eauto. Qed.
Lemma needs_seq_r a b : needs_digits b → needs_digits (a ·· b).
Proof.
  intros Hb s g s' g' H. inversion H as [| | |? ? ? ? ? ? ? ? H1 H2| | | | | |]; subst.
  apply derives_prefix in H1 as [w ->]. apply four_digits_prefix. eauto.
Qed.
Lemma needs_group n a : needs_digits a → needs_digits (Group n a).
Proof. intros Ha s g s' g' H. inversion H; subst. eauto. Qed.
Lemma needs_year : needs_digits RE_YEAR.
Proof.
  intros s g s' g' H. unfold RE_YEAR, digit in H.
  repeat match goal with H : derives (_ ·· _) _ _ _ _ |- _ => inversion H; subst; clear H end.
  repeat match goal with H : derives (Cls _) _ _ _ _ |- _ => inversion H; subst; clear H end.
  cbn [four_digits Nat.leb orb]. by repeat match goal with H : is_digit _ = true |- _ => rewrite H; clear H end.
Qed.
Lemma needs_cert_time : needs_digits CERT_TIME.
Proof. unfold CERT_TIME. do 10 apply needs_seq_r. apply needs_seq_l, needs_group, needs_year. Qed.

(** [quiet w]: [w] ends the run of digits before it and holds no run of four. *)
Definition quiet (w : string) : Prop := ∀ s, four_digits 0 (w +:+ s) = four_digits 0 s.

Lemma quiet_app w s b : quiet w → four_digits 0 s = b → four_digits 0 (w +:+ s) = b.
Proof. by intros -> ->. Qed.

Lemma quiet_letters w : str_all (λ c, negb (is_digit c)) w = true → quiet w.
Proof.
  intros Hw s. induction w as [|c w IH]; [by rewrite str_app_empty|]. cbn [str_all] in Hw.
  apply andb_prop in Hw as [Hc%negb_true_iff Hw]. rewrite str_app_cons. cbn [four_digits]. rewrite Hc. by apply IH.
Qed.
Lemma quiet_digits w (sep : ascii) :
  str_all is_digit w = true → (String.length w ≤ 3)%nat → is_digit sep = false → quiet (w +:+ String sep "").
Proof.
  intros Hw Hl Hsep s. rewrite str_app_assoc, str_app_cons, str_app_empty.
  enough (H : ∀ k, (k + String.length w ≤ 3)%nat → four_digits k (w +:+ String sep s) = four_digits 0 s) by (apply H; lia).
  clear Hl. induction w as [|c w IH]; intros k Hk.
  - rewrite str_app_empty. cbn [four_digits]. by rewrite Hsep.
  - cbn [str_all String.length] in *. apply andb_prop in Hw as [Hc Hw]. rewrite str_app_cons. cbn [four_digits].
    rewrite Hc, (IH Hw) by lia. by rewrite (proj2 (Nat.leb_gt 3 k)) by lia.
Qed.

Lemma quiet_month m : 1 ≤ m ≤ 12 → quiet (month_text m +:+ " ").
Proof. intros Hm. apply quiet_letters. read_field m 13%nat; [reflexivity..|lia]. Qed.
Lemma quiet_two (sep : ascii) n : is_digit sep = false → 0 ≤ n → quiet (fixed_digits 2 n +:+ String sep "").
Proof. intros Hs Hn. apply quiet_digits; [apply fixed_digits_all; lia|rewrite fixed_digits_length; lia|done]. Qed.
Lemma quiet_day d : 1 ≤ d → quiet (padded_day d +:+ " ").
Proof.
  intros Hd s. unfold padded_day. destruct (d <? 10); [|apply (quiet_two " "); [done|lia]].
  rewrite str_app_assoc, (str_app_assoc " "), (quiet_letters " ") by done. rewrite <-str_app_assoc.
  apply (quiet_digits _ " "); [apply fixed_digits_all; lia|rewrite fixed_digits_length; lia|done].
Qed.
Lemma early_year y : 1 ≤ y < 1000 → four_digits 0 (str_of_Z y +:+ " GMT") = false.
Proof.
  assert (H : List.forallb (λ n, negb (four_digits 0 (str_of_Z (Z.of_nat n) +:+ " GMT"))) (List.seq 0 (Z.to_nat 1000)) = true)
    by (vm_compute; reflexivity).
  rewrite List.forallb_forall in H. intros Hy. specialize (H (Z.to_nat y) ltac:(apply List.in_seq; lia)).
  rewrite Z2Nat.id in H by lia. by apply negb_true_iff.
Qed.

Lemma early_time t : valid_datetime t = true → year t < 1000 → four_digits 0 (cert_time t) = false.
Proof.
  intros Ht Hy. unfold valid_datetime in Ht. repeat match goal with H : _ && _ = true |- _ => apply andb_prop in H as [? ?] end.
  pose proof (days_in_month_bounds (year t) (month t)).
  unfold cert_time. fold (month_text (month t)).
  rewrite <-(str_app_assoc (month_text _) " "). apply quiet_app; [apply quiet_month; lia|].
  rewrite <-(str_app_assoc (padded_day _) " "). apply quiet_app; [apply quiet_day; lia|].
  rewrite <-(str_app_assoc _ ":"). apply quiet_app; [apply (quiet_two ":"); [done|lia]|].
  rewrite <-(str_app_assoc _ ":"). apply quiet_app; [apply (quiet_two ":"); [done|lia]|].
  rewrite <-(str_app_assoc _ " "). apply quiet_app; [apply (quiet_two " "); [done|lia]|].
  apply early_year. lia.
Qed.

Lemma strptime_early t :
  valid_datetime t = true → year t < 1000 →
  strptime (cert_time t) = Raise (ValueError "time data does not match format '%b %d %H:%M:%S %Y %Z'").
Proof.
  intros Ht Hy. unfold strptime, re_match_rest. destruct (rmatch _ _ _ _) as [[g rest]|] eqn:E; [exfalso|done].
  apply rmatch_sound in E as (s' & g' & H%needs_cert_time & _). by rewrite early_time in H.
Qed.

(** C39: A time of a certificate, as the library writes it, is read back exactly, for
    every second of the years 1000 to 9999; in the years 1 to 999, whose number the
    library writes with fewer than four digits, it is refused with the error that the
    format does not match. *)
Theorem strptime_reads_back t :
  valid_datetime t = true → microsecond t = 0 →
  strptime (cert_time t) =
    if 1000 <=? year t then Ret t
    else Raise (ValueError "time data does not match format '%b %d %H:%M:%S %Y %Z'").
Proof.
  intros Ht Hus. destruct (Z.leb_spec 1000 (year t)); [by apply strptime_text|by apply strptime_early].
Qed.

Lemma cert_time_nonempty t : String.eqb (cert_time t) "" = false.
Proof.
  unfold cert_time. rewrite <-!str_app_assoc. apply String.eqb_neq. intros E.
  apply (f_equal String.length) in E. rewrite str_length_app in E. cbn in E. lia.
Qed.

(** What the inspection says of a certificate whose times the library wrote: the times
    themselves, and that it is expired exactly when the days that remain are negative. *)
Lemma inspect_exact d starts ends now1 now2 now3 :
  notBefore d = cert_time starts → notAfter d = cert_time ends →
  valid_datetime starts = true → microsecond starts = 0 → valid_datetime ends = true → microsecond ends = 0 →
  1000 ≤ year starts → 1000 ≤ year ends → valid_datetime now3 = true →
  ∃ i, inspect_certificate true (Ret (Some d)) now1 now2 now3 = Ret (Some i) ∧
    valid_from i = isoformat starts ∧ expires_at i = isoformat ends ∧
    i_days_remaining i = days_between ends now3 ∧ is_expired i = (i_days_remaining i <? 0).
Proof.
  intros Hb Ha Hs1 Hs2 He1 He2 Hy1 Hy2 Hn.
  unfold inspect_certificate, _build_tls_cert_info, time_or. cbn [negb].
  rewrite Ha, Hb, !cert_time_nonempty, !strptime_text by done. eexists. split; [reflexivity|]. cbn. split_and!; try done.
  by apply expired_iff_negative.
Qed.

(** ** Observations *)

Definition a_time (y m d h : Z) : datetime :=
  {| year := y; month := m; day := d; hour := h; minute := 59; second := 7; microsecond := 0 |}.

Lemma strptime_reads_back_witness :
  cert_time (a_time 2026 6 1 23) = "Jun  1 23:59:07 2026 GMT"%string ∧
  strptime (cert_time (a_time 2026 6 1 23)) = Ret (a_time 2026 6 1 23) ∧
  cert_time (a_time 999 6 1 23) = "Jun  1 23:59:07 999 GMT"%string ∧
  strptime (cert_time (a_time 999 6 1 23)) =
    Raise (ValueError "time data does not match format '%b %d %H:%M:%S %Y %Z'").
Proof.
  split_and!; [by vm_compute| |by vm_compute|].
  - apply (strptime_reads_back (a_time 2026 6 1 23)); vm_compute; reflexivity.
  - apply (strptime_reads_back (a_time 999 6 1 23)); vm_compute; reflexivity.
Defined.

(** A certificate whose end lies before the year 1000 is reported as missing. *)
Lemma early_end_unreadable d starts ends now1 now2 now3 :
  notBefore d = cert_time starts → notAfter d = cert_time ends → valid_datetime ends = true → year ends < 1000 →
  inspect_certificate true (Ret (Some d)) now1 now2 now3 = Ret None.
Proof.
  intros Hb Ha He Hy. unfold inspect_certificate, _build_tls_cert_info, time_or. cbn [negb].
  rewrite Ha, cert_time_nonempty, strptime_early by done. done.
Qed.

(** A leap second is in the pattern and in no time; the certificate is reported as
    missing. *)
Lemma leap_second_unreadable now1 now2 now3 :
  inspect_certificate true (Ret (Some (mkDecoded [] [] "Jun 30 23:59:60 2016 GMT" "" []))) now1 now2 now3 = Ret None.
Proof. by vm_compute. Qed.

(** Hours before its end a certificate has no day left and is not expired; hours after
    it, one day less than none. *)
Lemma last_day :
  days_between (a_time 2026 6 1 23) (a_time 2026 6 1 4) = 0 ∧ days_between (a_time 2026 6 1 4) (a_time 2026 6 1 23) = -1 ∧
  days_between (a_time 2027 3 1 0) (a_time 2026 3 1 0) = 365.
Proof. by vm_compute. Qed.

(** No certificate is reported as self-signed. *)
Lemma self_signed_unseen now1 now2 now3 d i :
  inspect_certificate true (Ret (Some d)) now1 now2 now3 = Ret (Some i) → i_is_self_signed i = false.
Proof.
  unfold inspect_certificate, _build_tls_cert_info. cbn [negb].
  destruct (time_or (notAfter d) now1) as [t1|e]; [destruct (time_or (notBefore d) now2) as [t2|e]|].
  - by intros [= <-].
  - by destruct (caught e).
  - by destruct (caught e).
Qed.
