(* ===== verification/LogFiles.v ===== *)
(** Where the log scraper of monitoring/log_scraper.py finds its lines: the search
    for the log files of the game server, and the calls of journalctl.

    What the directories hold, and how a run of journalctl ends, are arguments. *)

From S2P Require Import Prelude PyStr.
From Stdlib Require Import ZArith Ascii Bool Lia.
From stdpp Require Import base tactics list strings sorting.

Local Open Scope Z_scope.
Local Open Scope py_scope.

(** * The log files *)

Definition candidate_log_dirs : list string :=
  ["/home/steam/.steam/steam/steamapps/common/PalServer/Pal/Saved/Logs";
   "/home/steam/Steam/steamapps/common/PalServer/Pal/Saved/Logs";
   "/home/steam/PalServer/Pal/Saved/Logs"].

(** What a directory holds: whether it is one, whether Pal.log is in it, and the files
    that match Pal*.log with their times of modification, 0 for one that has gone;
    listing and reading the times may fail. *)
Record LogDir := mkDir { is_dir : bool; has_main : bool; listing : result (list (string * Z)) }.

(** [sorted(..., key=mtime, reverse=True)], which keeps the order of equal keys. *)
Fixpoint insert_newest (f : string * Z) (fs : list (string * Z)) : list (string * Z) :=
  match fs with
  | [] => [f]
  | g :: gs => if g.2 <=? f.2 then f :: g :: gs else g :: insert_newest f gs
  end.
Definition newest_first (fs : list (string * Z)) : list (string * Z) := foldr insert_newest [] fs.

(** [_find_log_files]: nothing is found before the directory that ends the search. *)
Fixpoint find_from (dirs : list (string * LogDir)) (active_log_file : option string) : result (option string * list string) :=
  match dirs with
  | [] => Ret (active_log_file, [])
  | (path, d) :: rest =>
      if negb (is_dir d) then find_from rest active_log_file
      else
        let active := if has_main d then Some (path +:+ "/Pal.log") else active_log_file in
        match listing d with
        | Ret [] => find_from rest active
        | Ret found => Ret (active, List.map fst (newest_first found))
        | Raise e => if is_oserror e then find_from rest active else Raise e
        end
  end.
Definition _find_log_files (host : string → LogDir) : result (option string * list string) :=
  find_from (List.map (λ p, (p, host p)) candidate_log_dirs) None.

(** * The journal *)

Definition journalctl_bin (which : option string) : string := default "/bin/journalctl" which.
Definition scan_command (which : option string) : list string :=
  [journalctl_bin which; "-u"; "palworld.service"; "-b"; "-n"; "5000"; "--no-pager"].
Definition tail_command (which : option string) (tail : Z) : list string :=
  [journalctl_bin which; "-u"; "palworld.service"; "-n"; str_of_Z (tail * 3); "--no-pager"].

(** How a run ends: its exit code and output, or an exception. *)
Definition process : Type := result (Z * string).
Definition caught_journal (e : exc) : bool := is_oserror e || match e with SubprocessError => true | _ => false end.

(** The lines that [_scan_journalctl] looks at, [None] when it returns without. *)
Definition scan_lines (p : process) : result (option (list string)) :=
  match p with
  | Ret (0, out) => Ret (Some (splitlines out))
  | Ret _ => Ret None
  | Raise e => if caught_journal e then Ret None else Raise e
  end.
Definition _read_journal_tail (p : process) : result (list string) :=
  match p with
  | Ret (0, out) => Ret (splitlines out)
  | Ret _ => Ret []
  | Raise e => if caught_journal e then Ret [] else Raise e
  end.

(** * What is found *)

Lemma insert_newest_perm f fs : insert_newest f fs ≡ₚ f :: fs.
Proof.
  induction fs as [|g gs IH]; cbn; [done|]. destruct (g.2 <=? f.2); [done|]. rewrite IH. apply Permutation_swap.
Qed.
Lemma newest_first_perm fs : newest_first fs ≡ₚ fs.
Proof. induction fs as [|f fs IH]; cbn; [done|]. by rewrite insert_newest_perm, IH. Qed.

Definition newer (f g : string * Z) : Prop := g.2 ≤ f.2.
Lemma insert_newest_sorted f fs : StronglySorted newer fs → StronglySorted newer (insert_newest f fs).
Proof.
  induction fs as [|g gs IH]; cbn; intros H; [by repeat constructor|].
  apply StronglySorted_inv in H as [Hs Hg]. destruct (Z.leb_spec (g.2) (f.2)).
  - constructor; [by constructor|]. constructor; [done|]. eapply Forall_impl; [exact Hg|]. unfold newer. cbn. lia.
  - constructor; [by apply IH|]. rewrite insert_newest_perm. constructor; [unfold newer; lia|done].
Qed.
Lemma newest_first_sorted fs : StronglySorted newer (newest_first fs).
Proof. induction fs as [|f fs IH]; cbn; [constructor|]. by apply insert_newest_sorted. Qed.

(** The files that are read all come from the first directory that lists any, newest
    first and each of them once; when none does there are none. *)
Lemma find_log_files_spec host active logs :
  _find_log_files host = Ret (active, logs) →
  logs = [] ∨
  ∃ path found files, path ∈ candidate_log_dirs ∧ listing (host path) = Ret found ∧ is_dir (host path) = true ∧
    files ≡ₚ found ∧ StronglySorted newer files ∧ logs = List.map fst files ∧
    (has_main (host path) = true → active = Some (path +:+ "/Pal.log")).
Proof.
  unfold _find_log_files. generalize (@None string). 
  assert (Hsub : ∀ p, p ∈ candidate_log_dirs → p ∈ candidate_log_dirs) by done. revert Hsub.
  generalize candidate_log_dirs at 1 3. intros dirs Hsub.
  induction dirs as [|path dirs IH]; intros a; cbn [List.map find_from]; [intros [= _ <-]; by left|].
  assert (Hrest : ∀ a, find_from (List.map (λ p, (p, host p)) dirs) a = Ret (active, logs) → _)
    by (apply IH; intros p Hp; apply Hsub; by right).
  destruct (is_dir (host path)) eqn:Ed; cbn [negb]; [|apply Hrest].
  destruct (listing (host path)) as [[|f fs]|e] eqn:El; [apply Hrest| |destruct (is_oserror e); [apply Hrest|done]].
  intros [= <- <-]. right. exists path, (f :: fs), (newest_first (f :: fs)).
  split_and!; [apply Hsub; by left|done|done|apply newest_first_perm|apply newest_first_sorted|done|by intros ->].
Qed.

(** The active file can be in one directory and the archives in another, when the
    first directory cannot be listed. *)
Lemma active_file_elsewhere :
  _find_log_files (λ p,
    if String.eqb p "/home/steam/Steam/steamapps/common/PalServer/Pal/Saved/Logs" then mkDir true true (Raise PermissionError)
    else if String.eqb p "/home/steam/PalServer/Pal/Saved/Logs" then mkDir true false (Ret [("old/Pal-1.log", 1); ("old/Pal-2.log", 2)]%string)
    else mkDir false false (Ret [])) =
  Ret (Some "/home/steam/Steam/steamapps/common/PalServer/Pal/Saved/Logs/Pal.log", ["old/Pal-2.log"; "old/Pal-1.log"])%string.
Proof. by vm_compute. Qed.
