(* ===== verification/SelfSigned.v ===== *)
(** What engine/tls_manager.py asks the certificate library for: the content of a
    signing request and of a self-signed certificate, and what the manager's own
    status says of such a certificate later.

    Keys, signatures and encodings are the library's.  Times are in seconds. *)

From S2P Require Import Prelude PyStr AtomicIO Tls.
From Stdlib Require Import ZArith Lia Bool.
From stdpp Require Import base tactics list strings gmap.

Local Open Scope Z_scope.
Local Open Scope py_scope.

Definition COMMON_NAME : string := "commonName".

Record KeyUsage := mkUsage {
  digital_signature : bool; content_commitment : bool; key_encipherment : bool; data_encipherment : bool;
  key_agreement : bool; key_cert_sign : bool; crl_sign : bool; encipher_only : bool; decipher_only : bool }.

(** An extension, and whether it is critical. *)
Inductive Extension : Type :=
  | SubjectAlternativeName (names : list string)
  | Usage (u : KeyUsage)
  | ExtendedKeyUsage (oids : list string)
  | BasicConstraints (ca : bool) (path_length : option Z).

Record Content := mkContent {
  subject_name : list (string * string); issuer_name : list (string * string);
  not_valid_before : Z; not_valid_after : Z; extensions : list (Extension * bool) }.

(** [generate_csr]: the subject and the extensions of a request. *)
Definition generate_csr (domain : string) : list (string * string) * list (Extension * bool) :=
  ([(COMMON_NAME, domain)], [(SubjectAlternativeName [domain], false)]).

Definition generate_self_signed_certificate (now : Z) (domain : string) (days_valid : Z) : Content :=
  mkContent [(COMMON_NAME, domain)] [(COMMON_NAME, domain)] now (now + days_valid * 86400)
    [(SubjectAlternativeName [domain], false);
     (Usage (mkUsage true false true false false false false false false), true);
     (ExtendedKeyUsage ["serverAuth"], false);
     (BasicConstraints false None, true)]%string.

(** How [get_tls_certificate_status] reads a certificate: the first common names and
    the names of the extension. *)
Definition common_name (name : list (string * string)) : option string :=
  snd <$> List.find (λ a, String.eqb a.1 COMMON_NAME) name.
Fixpoint alternative_names (es : list (Extension * bool)) : list string :=
  match es with
  | [] => []
  | (SubjectAlternativeName names, _) :: _ => names
  | _ :: es => alternative_names es
  end.
Definition certificate_of (c : Content) : Certificate :=
  mkCert (common_name (issuer_name c)) (common_name (subject_name c)) (alternative_names (extensions c))
    (not_valid_before c) (not_valid_after c).

(** * The life of a self-signed certificate *)

(** Until its last day has begun the status of a self-signed certificate is valid,
    names its domain, says that it is self-signed, and counts the days; from then
    on, and before its start, it is not valid. *)
Lemma self_signed_life made now domain_ asked days_valid :
  0 ≤ days_valid →
  let s := status_of now asked (certificate_of (generate_self_signed_certificate made domain_ days_valid)) in
  is_valid s = ((made <=? now) && (now <=? made + (days_valid - 1) * 86400)) ∧
  is_self_signed s = true ∧ issuer s = domain_ ∧ subject_alt_names s = [domain_] ∧
  (made ≤ now → days_remaining s = Z.max 0 (days_valid - (now - made + 86399) / 86400)).
Proof.
  intros Hd s. unfold s, status_of, certificate_of, generate_self_signed_certificate.
  cbn [not_valid_after not_valid_before issuer_name subject_name extensions issuer_cn subject_cn dns_names not_before not_after
    common_name List.find fst snd fmap option_fmap option_map default from_option is_valid is_self_signed issuer
    subject_alt_names days_remaining alternative_names id].
  rewrite String.eqb_refl. cbn [fmap option_fmap option_map default from_option snd id]. rewrite String.eqb_refl. split_and!; try done.
  - apply Bool.eq_true_iff_eq. rewrite !andb_true_iff, Z.ltb_lt, !Z.leb_le. clear s. Z.div_mod_to_equations. lia.
  - intros Hm. clear s. f_equal. Z.div_mod_to_equations. lia.
Qed.

(** With the year that provisioning asks for, more than 30 days remain, which keeps
    the certificate in place, for 334 days and no longer. *)
Lemma self_signed_kept made now domain_ asked :
  made ≤ now →
  (RENEWAL_THRESHOLD_DAYS <? days_remaining (status_of now asked (certificate_of (generate_self_signed_certificate made domain_ 365))))
  = (now <=? made + 334 * 86400).
Proof.
  intros Hm. destruct (self_signed_life made now domain_ asked 365 ltac:(lia)) as (_ & _ & _ & _ & E). rewrite E by done.
  unfold RENEWAL_THRESHOLD_DAYS. apply Bool.eq_true_iff_eq. rewrite Z.ltb_lt, Z.leb_le. Z.div_mod_to_equations. lia.
Qed.

(** The parts of one certificate: it can serve, and cannot sign others. *)
Lemma self_signed_serves_only made domain_ days_valid :
  let es := extensions (generate_self_signed_certificate made domain_ days_valid) in
  (BasicConstraints false None, true) ∈ es ∧
  ∃ u, (Usage u, true) ∈ es ∧ key_cert_sign u = false ∧ crl_sign u = false ∧ digital_signature u = true.
Proof.
  split; [right; right; right; by left|]. eexists. split; [right; by left|done].
Qed.
